(* ===== verification/_CoqProject ===== *)
-Q . S2P
Prelude.v
Logic.v
Mem.v
Kpm.v
KpmBits.v
KpmTree.v
KpmOps.v
KpmInit.v
KpmSafety.v
KpmTheorems.v
KpmRef.v
Port.v
Keyboard.v
Rtc.v
Spinlock.v
Desc.v
Pic.v
Preempt.v
Paging.v
X86.v
Isr.v
Boot.v
Str.v
StrTol.v
Print.v
Format.v
Screenbuf.v
Scrollback.v
Typing.v
Console.v
Builtins.v
Machine.v
AllocCmd.v
Nsh.v
Results.v
Commands.v
Interrupts.v
Kernel.v
Handover.v
Session.v
Frame.v
Typed.v
OldShell.v
Tests.v
