(* ===== verification/Prelude.v ===== *)
(** * Nulix: verification of the kernel

    Nulix is a kernel for 32-bit x86 PCs: [kernel_main] sets up the descriptor
    tables, the interrupt controllers, the keyboard and the page frame allocator,
    initialises two text screens, and runs a shell whose builtins allocate and free
    memory, dump it, switch screens and colours, and so on.  This library models
    the C code under src/ and proves what makes it correct; where the code does not
    do what it means to, a theorem says what it does instead.

    ** How the code is modelled

    Integers are [Z], with the conversions of C written out ([u8], [u16], [u32],
    [i8], [i32], ...).  Memory is a list of bytes or words and a pointer an index
    into it, so that an access out of an object is the error [OutOfBounds] of the
    type [result]; a dereferenced null pointer is [NullDeref].  Loops that are not
    structural carry fuel; running out of it is the error [OutOfFuel], which the
    theorems exclude: they say that the code ends in [Ok].  State is passed
    explicitly; the devices behind the ports are an instance of the class [Device]
    of Port.v, and theorems about drivers hold for all devices or for the
    documented behaviour of the chip.

    ** Files

    - Prelude.v: results, integers, lists as arrays, [for_loop], tactics.  Logic.v:
      [yields r P], a computation that ends in a value with a property, [ensures r P], one
      whose value has the property if it ends in one, and their rules.
    - Mem.v (lib/string/mem.c), Str.v (lib/string/str.c), StrTol.v (lib/std/*.c):
      the C library.  Theorems: overlapping copies, the value and the saturation of
      [strtol], and the defects of [memrchr], [strncmp], [strcat] and [strtok].
    - Kpm.v (kernel/memory/kpm.c, include/kernel/kpm.h): the page frame allocator,
      a tree of bitmaps in one memory.  KpmBits.v: loads and stores of single bits.
      KpmTree.v: the invariant [kpm_inv] (a block is taken if and only if one of its
      halves is, a frame that is not enabled is taken), kept by the update of the
      parents.  KpmOps.v: finding a block, allocation, release.  KpmInit.v:
      initialisation from the multiboot memory map.  KpmTheorems.v: the
      specifications of the operations.  KpmSafety.v: clients of the allocator as a
      transition system; nobody gets a frame twice; the refinement of an abstract
      allocator whose state is a set of free frames.  KpmRef.v: an executable reference
      allocator without a tree, to which the code is equivalent on every sequence of
      requests.
    - Port.v (kernel/port.c), Pic.v (kernel/pic_8259.c and two handlers of
      kernel/isr.c), Rtc.v (drivers/rtc/rtc.c), Keyboard.v (kernel/keyboard/):
      the drivers.  Theorems: what the controllers are set to, the modifiers
      after any sequence of scancodes, the characters of the layouts, that the loops of
      the clock end and that the timestamp is the one of the date on the chip.
    - Spinlock.v (kernel/spinlock.c): threads as interleaved transitions; mutual
      exclusion, no lost update, a waiting thread can still get the lock.
    - Preempt.v: the timer and the keyboard interrupt the drivers between any two port
      accesses.  A device under a schedule of interrupts is a device again, so every
      theorem about all devices covers interrupts; the promises of the controllers and of
      the clock survive, as the handlers leave the chips as they were.
    - Desc.v (kernel/gdt.c, kernel/idt.c and their internal headers): descriptors
      and what a processor decodes from them.
    - Paging.v (kernel/memory/paging.c, kernel/boot_init.c): the boot page tables
      and the page walk through them.
    - X86.v: the part of the processor that the assembly uses: registers, the stack,
      segment loads checked against the descriptor table, paging.  Isr.v: the frame of
      the interrupt handlers (the macros of kernel/idt_internal.h around a body of
      kernel/isr.c) and the register macros of registers_internal.h; when the segments
      are restored, and when they are lost.  Boot.v (kernel/boot.s, kernel/gdt_flush.s):
      from the boot loader to the first instruction of [kernel_main], through
      boot_init of Paging.v.
    - Print.v (kernel/print.c): formats; [render] is the reference text.
      Theorems: the functions write exactly this text, numbers are read back by
      [strtol], and the one case in which a buffer overflows.  Format.v: a static
      check of formats; one that passes renders, to a text of bounded length.
    - Screenbuf.v (kernel/screenbuf.c): the circular screen buffers.  [screen] is
      the abstract screen (the last 200 lines, a column, a window), [rep] and [shows]
      relate it to the buffer and to the frame buffer, and the theorems say that
      every operation implements the one on the abstract screen.  Scrollback.v: the one
      case that the abstract screen does not cover, a backspace to the line before when the
      viewport lies in front of the buffer.  Typing.v: screens without holes ([neat]) and
      the text that backspaces can take back.
    - Console.v (the screens of kernel/kernel.c, [kprintf], the exception handlers
      of kernel/isr.c): [console_ok] says what every screen shows and that exactly
      the current one is loaded.
    - Builtins.v, AllocCmd.v (kernel/nsh/builtins/*.c): the builtins on the
      [machine], the state of all parts of the kernel.  Machine.v: its invariant
      [machine_ok] and the rules for output.  Commands.v: every builtin ends and
      keeps the invariant, for every command line; a block that [free] releases has to lie
      in the managed memory, which the code does not check (KpmTheorems.v shows what
      happens otherwise).
      Results.v: what they answer: [answer] is a function from the words of the command
      line to the result, what is written and painted on the screen, and the layout of the
      keyboard; [dump] is the reference text of hexdump.
    - Nsh.v (kernel/nsh/nsh.c): the shell; [edit] is the line editor and [words]
      the splitting of a line that the theorems refer to.
    - Kernel.v (kernel/kernel.c): [kernel_main], with the theorem that composes the
      parts: the state in which the shell starts.
    - Handover.v: from power-on to the shell.  Composes Boot.v and Kernel.v: what the boot
      loader left in the memory is what kernel_main reads through the page tables, and the
      kernel boots with it.
    - Session.v: the loop of the shell on the booted machine.  [session_ok] is the
      invariant between two keys; a turn with an accepted key keeps it and changes the
      line as the key means, so that no run of such keys ends in an error.  Not accepted
      are Enter on a line with an unknown command, or a call of [free] without a size or
      outside of the memory, and a backspace while the window is scrolled up: for these the
      code has the defects that other theorems and the findings show.
    - Frame.v: what the console, the builtins and the shell leave alone.  [touches] is a
      sequence of accesses to given ports; every run of the shell touches five.
    - Typed.v: from scancodes to commands.  [type_text] are the scancodes of a text in a
      layout, [Keys] a device that delivers them, [executes] the shell taking line after line;
      the theorem goes from power-on to the end of any session, with interrupts
      between the accesses to the devices.
    - Interrupts.v (the [int] instructions of interrupt.c, the exception handlers of
      isr.c): a processor that runs the handlers, which keep the invariant.
    - OldShell.v (kernel/shell.c): the first shell, which the build leaves out; it
      refines a shell without a buffer, and its hash makes other lines run commands.
    - Tests.v (lib/string/test.c, lib/std/test.c): the test programs of the library; they
      run by computation, and some checks fail.

    ** Fuel

    A string loop gets the length of the memory ([Str.fuel_for]): it moves on by a
    character in every turn.  The update of an order of the allocator gets the number
    of blocks in the region plus two, as it moves on by a block.  [sb_addline] wraps
    around at most once in the states of the invariant and gets the distance from
    the buffer.  The loop of alloc.c gets more than the number of pages of the
    request, as a chunk has at least a page.  Loops that wait for a device (keyboard,
    clock, reboot) have the bound as an argument; for the clock the theorems
    derive from the device how many turns are enough, for the keyboard those of Session.v
    speak about the keys that arrive within the bound, and in Typed.v three events are
    enough, as at most two releases come before the next press.

    ** Not modelled

    - The instructions that the compiler emits: C is modelled as C, and only the assembly
      of the sources runs on the processor of X86.v.  The two meet in Boot.v (the
      compiled boot_init keeps to the calling convention) and in Isr.v (the
      body of a handler).  The inline assembly of the builtins ([int], [hlt], the registers
      and the memory that hexdump reads) is the record [Builtins.hardware]; Interrupts.v
      gives one with the handlers of isr.c.
    - Interrupts inside of code that touches no port: the handlers that run then only
      acknowledge the interrupt, so the order with other accesses does not matter.
    - VGA_putchar and the functions that kernel/shell.c calls: they do not exist any more
      and are arguments of its model.
    - The multiboot header of boot.s and the linker script, which are data; the symbols of
      the latter are arguments.  The documentation. *)

From Stdlib Require Import ZArith Lia Bool.
From stdpp Require Import base tactics numbers list option.

#[global] Open Scope Z_scope.

(** ** Results: what a C function can end in *)

(** The ways a modelled function leaves the behaviour the C standard (or the
    hardware) defines.  [OutOfFuel] is the only one that is not a property of
    the code: it says that the bound given to a loop was too small. *)
Inductive error : Type :=
  | OutOfBounds   (** an access outside the object a pointer points into *)
  | NullDeref     (** a dereference of the null pointer *)
  | OutOfFuel.    (** the loop bound of the model was reached *)

#[export] Instance error_eq_dec : EqDecision error.
Proof. solve_decision. Defined.

Inductive result (A : Type) : Type :=
  | Ok (a : A)
  | Err (e : error).
Arguments Ok {A} a.
Arguments Err {A} e.

#[export] Instance result_ret : MRet result := fun A a => Ok a.
#[export] Instance result_bind : MBind result :=
  fun A B f m => match m with Ok a => f a | Err e => Err e end.

#[export] Instance result_eq_dec {A} `{EqDecision A} : EqDecision (result A).
Proof. solve_decision. Defined.

Definition is_ok {A} (m : result A) : bool :=
  match m with Ok _ => true | Err _ => false end.

Section result_lemmas.
Context {A B C : Type}.

Lemma bind_ok (f : A -> result B) a : (Ok a ≫= f) = f a.
Proof. reflexivity. Qed.

Lemma bind_err (f : A -> result B) e : (Err e ≫= f) = Err e.
Proof. reflexivity. Qed.

Lemma bind_inv (m : result A) (f : A -> result B) b :
  (m ≫= f) = Ok b -> exists a, m = Ok a /\ f a = Ok b.
Proof. destruct m; simpl; [eauto | discriminate]. Qed.

Lemma bind_assoc (m : result A) (f : A -> result B) (g : B -> result C) :
  ((m ≫= f) ≫= g) = (m ≫= (fun a => f a ≫= g)).
Proof. by destruct m. Qed.
End result_lemmas.

(** [bind_tac] inverts every hypothesis of the form [(m ≫= f) = Ok b]. *)
Ltac bind_tac :=
  repeat match goal with
         | H : mbind _ _ = Ok _ |- _ =>
             let x := fresh "x" in let Hx := fresh "Hx" in
             apply bind_inv in H as (x & Hx & H)
         | H : Ok _ = Ok _ |- _ => injection H as H; try subst
         end.

(** ** Machine integers *)

Definition u8 (x : Z) : Z := x mod 256.
Definition u16 (x : Z) : Z := x mod 65536.
Definition u32 (x : Z) : Z := x mod 4294967296.
Definition u64 (x : Z) : Z := x mod 18446744073709551616.

(** Conversion to a signed type (two's complement, as gcc defines it). *)
Definition i8 (x : Z) : Z := let y := u8 x in if y <? 128 then y else y - 256.
Definition i32 (x : Z) : Z :=
  let y := u32 x in if y <? 2147483648 then y else y - 4294967296.
Definition i64 (x : Z) : Z :=
  let y := u64 x in
  if y <? 9223372036854775808 then y else y - 18446744073709551616.

(** Linear arithmetic with division and modulo by constants. *)
Ltac dlia := Z.div_mod_to_equations; lia.
Ltac ints := unfold i8, i32, i64 in *; unfold u8, u16, u32, u64 in *; cbv zeta in *.

Section machine_integers.
Implicit Types x : Z.

Lemma u8_range x : 0 <= u8 x < 256.
Proof. ints. dlia. Qed.
Lemma u16_range x : 0 <= u16 x < 65536.
Proof. ints. dlia. Qed.
Lemma u32_range x : 0 <= u32 x < 4294967296.
Proof. ints. dlia. Qed.
Lemma u64_range x : 0 <= u64 x < 18446744073709551616.
Proof. ints. dlia. Qed.

Lemma u8_small x : 0 <= x < 256 -> u8 x = x.
Proof. apply Z.mod_small. Qed.
Lemma u16_small x : 0 <= x < 65536 -> u16 x = x.
Proof. apply Z.mod_small. Qed.
Lemma u32_small x : 0 <= x < 4294967296 -> u32 x = x.
Proof. apply Z.mod_small. Qed.
Lemma u64_small x : 0 <= x < 18446744073709551616 -> u64 x = x.
Proof. apply Z.mod_small. Qed.

Lemma i32_small x : -2147483648 <= x < 2147483648 -> i32 x = x.
Proof. intros. ints. destruct (Z.ltb_spec (x mod 4294967296) 2147483648); dlia. Qed.

Lemma i32_range x : -2147483648 <= i32 x < 2147483648.
Proof. ints. destruct (Z.ltb_spec (x mod 4294967296) 2147483648); dlia. Qed.

Lemma u32_i32 x : u32 (i32 x) = u32 x.
Proof. ints. destruct (Z.ltb_spec (x mod 4294967296) 2147483648); dlia. Qed.

Lemma u32_mul_i32 x y : u32 (i32 x * y) = u32 (x * y).
Proof.
  unfold u32 at 1. rewrite <- Z.mul_mod_idemp_l by lia.
  change (i32 x mod 4294967296) with (u32 (i32 x)). rewrite u32_i32.
  unfold u32. apply Z.mul_mod_idemp_l. lia.
Qed.
End machine_integers.

(** ** Arrays: reads and writes with the bounds C leaves undefined *)

Section arrays.
Context {A : Type}.
Implicit Types l : list A.

(** [rd l i] is [l[i]], [wr l i v] is [l[i] = v]. *)
Definition rd l (i : Z) : result A :=
  if i <? 0 then Err OutOfBounds
  else match l !! Z.to_nat i with Some v => Ok v | None => Err OutOfBounds end.

Definition wr l (i : Z) (v : A) : result (list A) :=
  if (0 <=? i) && (i <? Z.of_nat (length l))
  then Ok (<[Z.to_nat i := v]> l) else Err OutOfBounds.

(** The value at [i], for specifications. *)
Definition at_ (d : A) l (i : Z) : A :=
  if i <? 0 then d else default d (l !! Z.to_nat i).

Definition zlen l : Z := Z.of_nat (length l).

Lemma zlen_nonneg l : 0 <= zlen l.
Proof. unfold zlen. lia. Qed.

Lemma rd_ok d l i : 0 <= i < zlen l -> rd l i = Ok (at_ d l i).
Proof.
  intros [H0 Hi]. unfold rd, at_, zlen in *.
  destruct (Z.ltb_spec i 0); [lia |].
  destruct (lookup_lt_is_Some_2 l (Z.to_nat i)) as [v ->]; [lia | done].
Qed.

Lemma rd_out l i : ~ (0 <= i < zlen l) -> rd l i = Err OutOfBounds.
Proof.
  intros Hi. unfold rd, zlen in *. destruct (Z.ltb_spec i 0); [done |].
  rewrite lookup_ge_None_2; [done | lia].
Qed.

Lemma rd_inv l i v : rd l i = Ok v -> 0 <= i < zlen l /\ forall d, at_ d l i = v.
Proof.
  unfold rd, at_, zlen. intros H. destruct (Z.ltb_spec i 0); [done |].
  destruct (l !! Z.to_nat i) eqn:E; [| done]. injection H as ->.
  split; [| done]. apply lookup_lt_Some in E. lia.
Qed.

Lemma wr_ok l i v : 0 <= i < zlen l -> wr l i v = Ok (<[Z.to_nat i := v]> l).
Proof.
  unfold wr, zlen. intros [? ?].
  destruct (Z.leb_spec 0 i), (Z.ltb_spec i (Z.of_nat (length l))); (done || lia).
Qed.

Lemma wr_out l i v : ~ (0 <= i < zlen l) -> wr l i v = Err OutOfBounds.
Proof.
  unfold wr, zlen. intros ?.
  destruct (Z.leb_spec 0 i), (Z.ltb_spec i (Z.of_nat (length l))); (done || lia).
Qed.

Lemma at_insert d l i j v : 0 <= i < zlen l -> 0 <= j ->
  at_ d (<[Z.to_nat i := v]> l) j = if j =? i then v else at_ d l j.
Proof.
  intros Hi Hj. unfold at_, zlen in *. destruct (Z.ltb_spec j 0); [lia |].
  destruct (Z.eqb_spec j i) as [-> | Hne].
  - rewrite list_lookup_insert_eq; [done | lia].
  - rewrite list_lookup_insert_ne; [done | lia].
Qed.

Lemma zlen_insert l i v : zlen (<[i := v]> l) = zlen l.
Proof. unfold zlen. by rewrite length_insert. Qed.
End arrays.

Lemma at_cons {A} (d x : A) l j : at_ d (x :: l) j = if j =? 0 then x else at_ d l (j - 1).
Proof.
  unfold at_. destruct (Z.ltb_spec j 0), (Z.eqb_spec j 0), (Z.ltb_spec (j - 1) 0); try lia; try done.
  - by subst.
  - replace (Z.to_nat j) with (S (Z.to_nat (j - 1))) by lia. done.
Qed.

Lemma at_over {A} (d : A) l j : zlen l <= j -> at_ d l j = d.
Proof.
  unfold at_, zlen. intros. destruct (Z.ltb_spec j 0); [done |].
  by rewrite lookup_ge_None_2 by lia.
Qed.

Lemma at_neg {A} (d : A) l j : j < 0 -> at_ d l j = d.
Proof. intros. unfold at_. by destruct (Z.ltb_spec j 0); [| lia]. Qed.

Lemma at_app {A} (d : A) l1 l2 k : 0 <= k ->
  at_ d (l1 ++ l2) k = if k <? zlen l1 then at_ d l1 k else at_ d l2 (k - zlen l1).
Proof.
  intros Hk. unfold at_, zlen. destruct (Z.ltb_spec k 0), (Z.ltb_spec k (Z.of_nat (length l1)));
    try lia.
  - by rewrite lookup_app_l by lia.
  - destruct (Z.ltb_spec (k - Z.of_nat (length l1)) 0); [lia |].
    rewrite lookup_app_r by lia. do 2 f_equal. lia.
Qed.

Lemma zlen_app {A} (l1 l2 : list A) : zlen (l1 ++ l2) = zlen l1 + zlen l2.
Proof. unfold zlen. rewrite length_app. lia. Qed.

Lemma zlen_cons {A} (x : A) l : zlen (x :: l) = zlen l + 1.
Proof. unfold zlen. cbn [length]. lia. Qed.

Lemma zlen_replicate {A} (x : A) n : zlen (replicate n x) = Z.of_nat n.
Proof. unfold zlen. by rewrite length_replicate. Qed.

Lemma zlen_repeat {A} (x : A) n : zlen (repeat x n) = Z.of_nat n.
Proof. unfold zlen. by rewrite repeat_length. Qed.

Lemma zlen_map {A B} (f : A -> B) l : zlen (map f l) = zlen l.
Proof. unfold zlen. by rewrite length_map. Qed.

(** ** Counted loops *)

Section loops.
Context {S : Type}.

(** [for (j = i; j < i + n; j++) body] over a state [s]. *)
Fixpoint for_loop (n : nat) (i : Z) (body : Z -> S -> result S) (s : S) : result S :=
  match n with
  | O => Ok s
  | Datatypes.S n => s' ← body i s; for_loop n (i + 1) body s'
  end.

(** The invariant rule: it also gives termination without an error. *)
Lemma for_loop_inv (P : Z -> S -> Prop) n body : forall i s,
  P i s ->
  (forall j t, i <= j < i + Z.of_nat n -> P j t ->
     exists t', body j t = Ok t' /\ P (j + 1) t') ->
  exists s', for_loop n i body s = Ok s' /\ P (i + Z.of_nat n) s'.
Proof.
  induction n as [| n IH]; intros i s Hi Hbody.
  - exists s. split; [done |]. by rewrite Z.add_0_r.
  - destruct (Hbody i s) as (t & Hb & Ht); [lia | done |].
    destruct (IH (i + 1) t Ht) as (s' & Hl & Hs').
    { intros j t' Hj. apply Hbody. lia. }
    exists s'. split.
    + simpl. by rewrite Hb.
    + by replace (i + Z.of_nat (Datatypes.S n)) with (i + 1 + Z.of_nat n) by lia.
Qed.
End loops.

(** ** Bits *)

Section bits.
(** [x | (1 << k)] and [x & ~(1 << k)], bit by bit. *)
Lemma testbit_set x k j : 0 <= k -> 0 <= j ->
  Z.testbit (Z.lor x (Z.shiftl 1 k)) j = (j =? k) || Z.testbit x j.
Proof.
  intros Hk Hj. rewrite Z.lor_spec, Z.shiftl_spec by lia. rewrite orb_comm.
  f_equal. destruct (Z.eqb_spec j k) as [-> | Hne].
  - by rewrite Z.sub_diag.
  - destruct (Z.ltb_spec j k).
    + by rewrite Z.testbit_neg_r by lia.
    + destruct (j - k) eqn:E; [lia | done | lia].
Qed.

Lemma testbit_clear x k j : 0 <= k -> 0 <= j ->
  Z.testbit (Z.land x (Z.lnot (Z.shiftl 1 k))) j = negb (j =? k) && Z.testbit x j.
Proof.
  intros Hk Hj. rewrite Z.land_spec, Z.lnot_spec by lia. rewrite andb_comm.
  f_equal. f_equal. rewrite <- (Z.lor_0_l (Z.shiftl 1 k)).
  rewrite testbit_set by lia. by rewrite Z.testbit_0_l, orb_false_r.
Qed.

Lemma testbit_u8 x j : 0 <= j < 8 -> Z.testbit (u8 x) j = Z.testbit x j.
Proof. intros. unfold u8. change 256 with (2 ^ 8). apply Z.mod_pow2_bits_low. lia. Qed.

(** [x & (1 << k)] is non-zero exactly when bit [k] is set. *)
Lemma land_bit_nonzero x k : 0 <= k ->
  negb (Z.land x (Z.shiftl 1 k) =? 0) = Z.testbit x k.
Proof.
  intros Hk. destruct (Z.testbit x k) eqn:E.
  - destruct (Z.eqb_spec (Z.land x (Z.shiftl 1 k)) 0) as [H0 | ]; [| done].
    assert (Z.testbit (Z.land x (Z.shiftl 1 k)) k = false) as Hf
      by (rewrite H0; apply Z.testbit_0_l).
    rewrite Z.land_spec, E, Z.shiftl_spec, Z.sub_diag in Hf by lia. done.
  - rewrite (proj2 (Z.eqb_eq _ 0)); [done |].
    apply Z.bits_inj'. intros j Hj.
    rewrite Z.land_spec, Z.testbit_0_l, <- (Z.lor_0_l (Z.shiftl 1 k)).
    rewrite testbit_set, Z.testbit_0_l, orb_false_r by lia.
    destruct (Z.eqb_spec j k) as [-> |]; [by rewrite E | by rewrite andb_false_r].
Qed.

(** Masking with [2^k - 1] is the remainder, and clearing the mask rounds
    down, for the 32-bit values of the kernel's [ALIGN] macros. *)
Lemma land_ones_mod x k : 0 <= k -> Z.land x (2 ^ k - 1) = x mod 2 ^ k.
Proof.
  intros. replace (2 ^ k - 1) with (Z.ones k) by (rewrite Z.ones_equiv; lia).
  by apply Z.land_ones.
Qed.

Lemma land_clear_mask x k : 0 <= k <= 32 -> 0 <= x < 2 ^ 32 ->
  Z.land x (Z.lxor (2 ^ 32 - 1) (2 ^ k - 1)) = x - x mod 2 ^ k.
Proof.
  intros Hk Hx.
  replace (Z.lxor (2 ^ 32 - 1) (2 ^ k - 1)) with (Z.ldiff (Z.ones 32) (Z.ones k)).
  - assert (Z.land x (Z.ldiff (Z.ones 32) (Z.ones k)) = Z.ldiff x (Z.ones k)) as ->.
    { apply Z.bits_inj'. intros j Hj.
      rewrite Z.land_spec, !Z.ldiff_spec.
      destruct (Z.ltb_spec j 32).
      - by rewrite (Z.ones_spec_low 32) by lia.
      - rewrite (Z.bits_above_log2 x j); [done | lia |].
        destruct (Z.eq_dec x 0) as [-> | Hnz]; [simpl; lia |].
        apply Z.log2_lt_pow2; [lia |].
        apply Z.lt_le_trans with (2 ^ 32); [lia | apply Z.pow_le_mono_r; lia]. }
    rewrite Z.ldiff_ones_r by lia.
    rewrite Z.shiftl_mul_pow2, Z.shiftr_div_pow2 by lia.
    pose proof (Z.div_mod x (2 ^ k)). lia.
  - replace (2 ^ 32 - 1) with (Z.ones 32) by reflexivity.
    replace (2 ^ k - 1) with (Z.ones k) by (rewrite Z.ones_equiv; lia).
    apply Z.bits_inj'. intros j Hj. rewrite Z.lxor_spec, Z.ldiff_spec.
    destruct (Z.ltb_spec j k).
    + rewrite !Z.ones_spec_low by lia. done.
    + rewrite (Z.ones_spec_high k) by lia. by destruct (Z.testbit (Z.ones 32) j).
Qed.
End bits.

(** ** Sequences of transitions *)

Section star.
Context {S : Type} (R : S -> S -> Prop).

Inductive star : S -> S -> Prop :=
  | star_refl s : star s s
  | star_step s1 s2 s3 : star s1 s2 -> R s2 s3 -> star s1 s3.

(** Rule induction packaged for invariants. *)
Lemma star_invariant (I : S -> Prop) :
  (forall s s', I s -> R s s' -> I s') ->
  forall s s', I s -> star s s' -> I s'.
Proof. intros Hstep s s' Hs Hstar. induction Hstar; eauto. Qed.
Lemma star_one s s' : R s s' -> star s s'.
Proof. intros H. apply star_step with s; [apply star_refl | done]. Qed.

Lemma star_trans s1 s2 s3 : star s1 s2 -> star s2 s3 -> star s1 s3.
Proof. intros H1 H2. induction H2 as [| a b c H2 IH Hbc]; [done |]. eapply star_step; [by apply IH | done]. Qed.
End star.

(** ** Automation *)

Create HintDb nulix discriminated.
Create Rewrite HintDb nulix.
#[export] Hint Resolve u8_range u16_range u32_range u64_range i32_range zlen_nonneg : nulix.
#[export] Hint Rewrite @bind_ok @bind_err : nulix.
#[export] Hint Rewrite @zlen_insert u32_i32 : nulix.
