(* ===== verification/Logic.v ===== *)
(** A program logic for results: [yields r P] says that the computation [r] ends
    without an error, in a value with the property [P]; [ensures r P] says that if it does,
    the value has the property. *)

From Stdlib Require Import ZArith Lia Bool.
From stdpp Require Import base tactics numbers list option.
From S2P Require Import Prelude.

Local Open Scope Z_scope.

Definition yields {A} (r : result A) (P : A -> Prop) : Prop := exists a, r = Ok a /\ P a.

Section rules.
Context {A B : Type}.
Implicit Types P : A -> Prop.
Implicit Types Q : B -> Prop.

Lemma yields_ok a P : P a -> yields (Ok a) P.
Proof. intros. by exists a. Qed.

Lemma yields_bind (r : result A) (f : A -> result B) P Q :
  yields r P -> (forall a, P a -> yields (f a) Q) -> yields (r ≫= f) Q.
Proof. intros (a & -> & Ha) Hf. exact (Hf a Ha). Qed.

Lemma yields_weaken r P P' : yields r P -> (forall a, P a -> P' a) -> yields r P'.
Proof. intros (a & E & Ha) Hw. exists a. auto. Qed.

Lemma yields_value (r : result A) a : r = Ok a -> yields r (eq a).
Proof. intros ->. by exists a. Qed.

Lemma yields_and r P P' : yields r P -> (forall a, r = Ok a -> P' a) -> yields r (fun a => P a /\ P' a).
Proof. intros (a & E & Ha) Hp. exists a. auto. Qed.

(** Both sides of a test. *)
Lemma yields_if (b : bool) r1 r2 P : (b = true -> yields r1 P) -> (b = false -> yields r2 P) ->
  yields (if b then r1 else r2) P.
Proof. destruct b; auto. Qed.

(** A loop keeps what each of its turns keeps. *)
Lemma yields_for_loop P n body i s : P s ->
  (forall j t, i <= j < i + Z.of_nat n -> P t -> yields (body j t) P) ->
  yields (for_loop n i body s) P.
Proof. intros Hs Hb. exact (for_loop_inv (fun _ => P) n body i s Hs Hb). Qed.
End rules.

(** One step of a computation, with a specification of its first part. *)
Ltac ystep H := eapply yields_bind; [eapply H | cbv beta].

(** ** Partial correctness: whatever [r] returns has the property [P] *)

Definition ensures {A} (r : result A) (P : A -> Prop) : Prop := forall a, r = Ok a -> P a.

Section partial_rules.
Context {A B : Type}.

Lemma ensures_ok (a : A) (P : A -> Prop) : P a -> ensures (Ok a) P.
Proof. by intros Ha b [= <-]. Qed.

Lemma ensures_err e (P : A -> Prop) : ensures (Err e) P.
Proof. done. Qed.

Lemma ensures_any (r : result A) : ensures r (fun _ => True).
Proof. done. Qed.

Lemma ensures_bind (P : A -> Prop) (Q : B -> Prop) (r : result A) (f : A -> result B) :
  ensures r P -> (forall a, P a -> ensures (f a) Q) -> ensures (r ≫= f) Q.
Proof. intros Hr Hf b E. apply bind_inv in E as (a & Ea & E). exact (Hf a (Hr a Ea) b E). Qed.
End partial_rules.

Lemma ensures_for_loop {A} (P : A -> Prop) n body : forall i s, P s ->
  (forall j t, P t -> ensures (body j t) P) -> ensures (for_loop n i body s) P.
Proof.
  induction n as [| n IH]; intros i s Hs Hb; cbn [for_loop]; [by apply ensures_ok |].
  apply (ensures_bind P); [by apply Hb | auto].
Qed.
