(* ===== verification/Mem.v ===== *)
(** Memory routines of the string library (lib/string/mem.c).

    A memory is the list of its bytes, an address is an index into it, and an
    access outside of the list is the error [OutOfBounds].  A null pointer
    result is [None].  The [while (n--)] loops are recursions on [n]. *)

From S2P Require Import Prelude.
From Stdlib Require Import ZArith Lia Bool.
From stdpp Require Import base tactics numbers list option.

Local Open Scope Z_scope.

Module Mem.

Local Abbreviation mem := (list Z).

(** void *memchr(const void *s, int c, size_t n) *)
Fixpoint memchr_loop (m : mem) (sc c : Z) (n : nat) : result (option Z) :=
  match n with
  | O => Ok None
  | S n =>
      b ← rd m sc;
      if b =? c then Ok (Some sc) else memchr_loop m (sc + 1) c n
  end.
Definition memchr (m : mem) (s c n : Z) : result (option Z) :=
  memchr_loop m s c (Z.to_nat n).

(** void *memrchr(const void *s, int c, size_t n) *)
Fixpoint memrchr_loop (m : mem) (sc c : Z) (n : nat) : result (option Z) :=
  match n with
  | O => Ok None
  | S n =>
      b ← rd m sc;
      if b =? c then Ok (Some sc) else memrchr_loop m (sc - 1) c n
  end.
Definition memrchr (m : mem) (s c n : Z) : result (option Z) :=
  memrchr_loop m (s + n) c (Z.to_nat n).

(** int memcmp(const void *s1, const void *s2, size_t n) *)
Fixpoint memcmp_loop (m : mem) (sc1 sc2 : Z) (n : nat) : result Z :=
  match n with
  | O => Ok 0
  | S n' =>
      b1 ← rd m sc1;
      b2 ← rd m sc2;
      if b1 =? b2 then memcmp_loop m (sc1 + 1) (sc2 + 1) n' else Ok (b1 - b2)
  end.
Definition memcmp (m : mem) (s1 s2 n : Z) : result Z :=
  memcmp_loop m s1 s2 (Z.to_nat n).

(** void *memcpy(void *dst, const void *src, size_t n) *)
Fixpoint memcpy_loop (m : mem) (dst src : Z) (n : nat) : result mem :=
  match n with
  | O => Ok m
  | S n =>
      b ← rd m src;
      m ← wr m dst b;
      memcpy_loop m (dst + 1) (src + 1) n
  end.
Definition memcpy (m : mem) (dst src n : Z) : result mem :=
  memcpy_loop m dst src (Z.to_nat n).

(** void *memmove(void *dst, const void *src, size_t n): [n] has already been
    decremented when the body of the loop runs. *)
Fixpoint memmove_loop (m : mem) (dstc srcc : Z) (n : nat) : result mem :=
  match n with
  | O => Ok m
  | S n =>
      if dstc >? srcc then
        b ← rd m (srcc + Z.of_nat n);
        m ← wr m (dstc + Z.of_nat n) b;
        memmove_loop m dstc srcc n
      else
        b ← rd m srcc;
        m ← wr m dstc b;
        memmove_loop m (dstc + 1) (srcc + 1) n
  end.
Definition memmove (m : mem) (dst src n : Z) : result mem :=
  memmove_loop m dst src (Z.to_nat n).

(** void *memset(void *s, int c, size_t n) *)
Fixpoint memset_loop (m : mem) (sc c : Z) (n : nat) : result mem :=
  match n with
  | O => Ok m
  | S n => m ← wr m sc (u8 c); memset_loop m (sc + 1) c n
  end.
Definition memset (m : mem) (s c n : Z) : result mem :=
  memset_loop m s c (Z.to_nat n).

(** ** Properties *)

(** [n] bytes from [p] on lie inside of the memory. *)
Definition range_in (m : mem) (p n : Z) : Prop := 0 <= p /\ 0 <= n /\ p + n <= zlen m.

(** [m'] is [m] with the [n] bytes at [dst] replaced by [f 0], [f 1], ... *)
Definition updated (m m' : mem) (dst n : Z) (f : Z -> Z) : Prop :=
  zlen m' = zlen m /\
  forall i, 0 <= i ->
    at_ 0 m' i = if (dst <=? i) && (i <? dst + n) then f (i - dst) else at_ 0 m i.

Ltac inrange :=
  repeat match goal with
         | |- context [?a <=? ?b] => destruct (Z.leb_spec a b)
         | |- context [?a <? ?b] => destruct (Z.ltb_spec a b)
         | |- context [?a =? ?b] => destruct (Z.eqb_spec a b)
         end; simpl; try (lia || done).

Lemma memset_loop_spec c n : forall m sc,
  range_in m sc (Z.of_nat n) ->
  exists m', memset_loop m sc c n = Ok m' /\
             updated m m' sc (Z.of_nat n) (fun _ => u8 c).
Proof.
  induction n as [| n IH]; intros m sc (H0 & _ & H1).
  - exists m. split; [done |]. split; [done |]. intros i Hi. inrange.
  - simpl. rewrite wr_ok by lia. simpl.
    destruct (IH (<[Z.to_nat sc := u8 c]> m) (sc + 1)) as (m' & -> & Hlen & Hm').
    { unfold range_in. rewrite zlen_insert. lia. }
    exists m'. split; [done |]. rewrite zlen_insert in Hlen. split; [done |].
    intros i Hi. rewrite Hm', at_insert by lia. inrange.
Qed.

Lemma memset_spec m s c n :
  range_in m s n ->
  exists m', memset m s c n = Ok m' /\ updated m m' s n (fun _ => u8 c).
Proof.
  intros (H0 & H1 & H2). unfold memset.
  destruct (memset_loop_spec c (Z.to_nat n) m s) as (m' & Hm & Hu).
  { unfold range_in. lia. }
  exists m'. rewrite Z2Nat.id in Hu by lia. done.
Qed.

(** Forward copying reads every source byte before it is overwritten as long
    as the destination does not start inside of the source. *)
Lemma memcpy_loop_spec n : forall m dst src,
  range_in m dst (Z.of_nat n) -> range_in m src (Z.of_nat n) ->
  (dst <= src \/ src + Z.of_nat n <= dst) ->
  exists m', memcpy_loop m dst src n = Ok m' /\
             updated m m' dst (Z.of_nat n) (fun k => at_ 0 m (src + k)).
Proof.
  induction n as [| n IH]; intros m dst src (D0 & _ & D1) (S0 & _ & S1) Hdis.
  - exists m. split; [done |]. split; [done |]. intros i Hi. inrange.
  - simpl. rewrite (rd_ok 0) by lia. simpl. rewrite wr_ok by lia. simpl.
    destruct (IH (<[Z.to_nat dst := at_ 0 m src]> m) (dst + 1) (src + 1))
      as (m' & -> & Hlen & Hm'); try (unfold range_in; rewrite zlen_insert; lia).
    { lia. }
    exists m'. split; [done |]. rewrite zlen_insert in Hlen. split; [done |].
    intros i Hi. rewrite Hm' by lia. inrange; rewrite at_insert by lia; inrange;
      f_equal; lia.
Qed.

(** The backward half of [memmove]. *)
Lemma memmove_loop_up n : forall m dst src,
  range_in m dst (Z.of_nat n) -> range_in m src (Z.of_nat n) -> src < dst ->
  exists m', memmove_loop m dst src n = Ok m' /\
             updated m m' dst (Z.of_nat n) (fun k => at_ 0 m (src + k)).
Proof.
  induction n as [| n IH]; intros m dst src (D0 & _ & D1) (S0 & _ & S1) Hlt.
  - exists m. split; [done |]. split; [done |]. intros i Hi. inrange.
  - simpl. destruct (Z.gtb_spec dst src); [| lia].
    rewrite (rd_ok 0) by lia. simpl. rewrite wr_ok by lia. simpl.
    edestruct (IH (<[Z.to_nat (dst + Z.of_nat n) := at_ 0 m (src + Z.of_nat n)]> m)
                  dst src) as (m' & -> & Hlen & Hm');
      try (unfold range_in; rewrite zlen_insert; lia); [done |].
    exists m'. split; [done |]. rewrite zlen_insert in Hlen. split; [done |].
    intros i Hi. rewrite Hm' by lia. inrange; rewrite at_insert by lia; inrange;
      f_equal; lia.
Qed.

Lemma memmove_loop_down n : forall m dst src,
  dst <= src -> memmove_loop m dst src n = memcpy_loop m dst src n.
Proof.
  induction n as [| n IH]; intros m dst src Hle; [done |]. simpl.
  destruct (Z.gtb_spec dst src); [lia |].
  destruct (rd m src); [| done]. simpl. destruct (wr m dst a); [| done].
  apply IH. lia.
Qed.

(** The first (second: last) byte equal to [c] of a half-open range. *)
Definition first_at (m : mem) (lo hi c : Z) (r : option Z) : Prop :=
  match r with
  | Some p => lo <= p < hi /\ at_ 0 m p = c /\ forall i, lo <= i < p -> at_ 0 m i <> c
  | None => forall i, lo <= i < hi -> at_ 0 m i <> c
  end.

Definition last_at (m : mem) (lo hi c : Z) (r : option Z) : Prop :=
  match r with
  | Some p => lo <= p < hi /\ at_ 0 m p = c /\ forall i, p < i < hi -> at_ 0 m i <> c
  | None => forall i, lo <= i < hi -> at_ 0 m i <> c
  end.

Lemma memchr_loop_spec m c n : forall s, range_in m s (Z.of_nat n) ->
  exists r, memchr_loop m s c n = Ok r /\ first_at m s (s + Z.of_nat n) c r.
Proof.
  induction n as [| n IH]; intros s (H0 & _ & H1).
  - exists None. split; [done |]. intros i Hi. lia.
  - cbn [memchr_loop]. rewrite (rd_ok 0) by lia. cbn.
    destruct (Z.eqb_spec (at_ 0 m s) c) as [E | E].
    + exists (Some s). split; [done |]. split; [lia |]. split; [done |]. lia.
    + destruct (IH (s + 1)) as (r & -> & Hr); [unfold range_in; lia |].
      exists r. split; [done |].
      assert (forall i, s <= i -> s + 1 <= i \/ i = s) as Hsplit by lia.
      destruct r as [p |]; cbn in *.
      * destruct Hr as (Hp & Hc & Hno). split; [lia |]. split; [done |].
        intros i Hi. destruct (Hsplit i) as [Hs | ->]; [lia | apply Hno; lia | done].
      * intros i Hi. destruct (Hsplit i) as [Hs | ->]; [lia | apply Hr; lia | done].
Qed.

(** [memrchr] scans [s[n]] down to [s[1]]. *)
Lemma memrchr_loop_spec m c n : forall p, range_in m (p - Z.of_nat n + 1) (Z.of_nat n) ->
  exists r, memrchr_loop m p c n = Ok r /\ last_at m (p - Z.of_nat n + 1) (p + 1) c r.
Proof.
  induction n as [| n IH]; intros p (H0 & _ & H1).
  - exists None. split; [done |]. intros i Hi. lia.
  - cbn [memrchr_loop]. rewrite (rd_ok 0) by lia. cbn [mbind result_bind].
    destruct (Z.eqb_spec (at_ 0 m p) c) as [E | E].
    + exists (Some p). split; [done |]. split; [lia |]. split; [done |]. lia.
    + destruct (IH (p - 1)) as (r & -> & Hr); [unfold range_in; lia |].
      exists r. split; [done |].
      replace (p - 1 - Z.of_nat n + 1) with (p - Z.of_nat (S n) + 1) in Hr by lia.
      replace (p - 1 + 1) with p in Hr by lia.
      assert (forall i, i < p + 1 -> i < p \/ i = p) as Hsplit by lia.
      destruct r as [q |]; cbn in *.
      * destruct Hr as (Hp & Hc & Hno). split; [lia |]. split; [done |].
        intros i Hi. destruct (Hsplit i) as [Hs | ->]; [lia | apply Hno; lia | done].
      * intros i Hi. destruct (Hsplit i) as [Hs | ->]; [lia | apply Hr; lia | done].
Qed.

(** The lexicographic comparison: equal ranges give 0, others the difference
    of the first bytes that differ. *)
Definition compared (m : mem) (s1 s2 n r : Z) : Prop :=
  (r = 0 /\ forall i, 0 <= i < n -> at_ 0 m (s1 + i) = at_ 0 m (s2 + i)) \/
  exists k, 0 <= k < n /\ r = at_ 0 m (s1 + k) - at_ 0 m (s2 + k) /\ r <> 0 /\
    forall i, 0 <= i < k -> at_ 0 m (s1 + i) = at_ 0 m (s2 + i).

Lemma memcmp_loop_spec m n : forall s1 s2,
  range_in m s1 (Z.of_nat n) -> range_in m s2 (Z.of_nat n) ->
  exists r, memcmp_loop m s1 s2 n = Ok r /\ compared m s1 s2 (Z.of_nat n) r.
Proof.
  induction n as [| n IH]; intros s1 s2 (A0 & _ & A1) (B0 & _ & B1).
  - exists 0. split; [done |]. left. split; [done | lia].
  - cbn [memcmp_loop]. rewrite !(rd_ok 0) by lia. cbn [mbind result_bind].
    destruct (Z.eqb_spec (at_ 0 m s1) (at_ 0 m s2)) as [E | E].
    + destruct (IH (s1 + 1) (s2 + 1)) as (r & -> & Hr); [unfold range_in; lia.. |].
      exists r. split; [done |].
      assert (forall k, 0 <= k ->
        (forall i, 0 <= i < k -> at_ 0 m (s1 + 1 + i) = at_ 0 m (s2 + 1 + i)) ->
        forall i, 0 <= i < k + 1 -> at_ 0 m (s1 + i) = at_ 0 m (s2 + i)) as Hext.
      { intros k Hk Hall i Hi. destruct (Z.eq_dec i 0) as [-> |]; [by rewrite !Z.add_0_r |].
        specialize (Hall (i - 1)). replace (s1 + 1 + (i - 1)) with (s1 + i) in Hall by lia.
        replace (s2 + 1 + (i - 1)) with (s2 + i) in Hall by lia. apply Hall. lia. }
      destruct Hr as [[-> Hall] | (k & Hk & -> & Hne & Hall)].
      * left. split; [done |]. intros i Hi. apply (Hext (Z.of_nat n)); [lia | done | lia].
      * right. exists (k + 1). replace (s1 + (k + 1)) with (s1 + 1 + k) by lia.
        replace (s2 + (k + 1)) with (s2 + 1 + k) by lia.
        repeat split; [lia | lia | done |]. apply Hext; [lia | done].
    + eexists. split; [done |]. right. exists 0. rewrite !Z.add_0_r.
      repeat split; lia.
Qed.

(** [memmove] copies [n] bytes between any two ranges of the memory, also
    when they overlap: the destination receives the bytes the source held
    before the call, and nothing else changes. *)
Theorem memmove_copies m dst src n : range_in m dst n -> range_in m src n ->
  exists m', memmove m dst src n = Ok m' /\ updated m m' dst n (fun k => at_ 0 m (src + k)).
Proof.
  intros (D0 & D1 & D2) (S0 & S1 & S2). unfold memmove.
  pose proof (memmove_loop_up (Z.to_nat n) m dst src) as Hup.
  pose proof (memcpy_loop_spec (Z.to_nat n) m dst src) as Hdown.
  rewrite Z2Nat.id in Hup, Hdown by lia.
  destruct (Z.lt_ge_cases src dst).
  - apply Hup; unfold range_in; lia.
  - rewrite memmove_loop_down by lia. apply Hdown; unfold range_in; lia.
Qed.

(** [memcpy] copies, and [memset] fills, exactly the range they are given;
    [memcpy] needs a destination that does not start inside of the source. *)
Theorem memcpy_memset_exact m dst src c n : range_in m dst n -> range_in m src n ->
  dst <= src \/ src + n <= dst ->
  (exists m', memcpy m dst src n = Ok m' /\
              updated m m' dst n (fun k => at_ 0 m (src + k))) /\
  (exists m', memset m dst c n = Ok m' /\ updated m m' dst n (fun _ => u8 c)).
Proof.
  intros Hd Hs Hdis. split; [| by apply memset_spec].
  destruct Hd as (D0 & D1 & D2), Hs as (S0 & S1 & S2). unfold memcpy.
  pose proof (memcpy_loop_spec (Z.to_nat n) m dst src) as Hspec.
  rewrite Z2Nat.id in Hspec by lia. apply Hspec; unfold range_in; lia.
Qed.

(** [memchr] returns the first occurrence of the byte in the range, and a
    null pointer when there is none; [memcmp] compares lexicographically. *)
Theorem memchr_memcmp_spec m s s' c n : range_in m s n -> range_in m s' n ->
  (exists r, memchr m s c n = Ok r /\ first_at m s (s + n) c r) /\
  (exists r, memcmp m s s' n = Ok r /\ compared m s s' n r).
Proof.
  intros (A0 & A1 & A2) (B0 & B1 & B2). unfold memchr, memcmp.
  pose proof (memchr_loop_spec m c (Z.to_nat n) s) as Hchr.
  pose proof (memcmp_loop_spec m (Z.to_nat n) s s') as Hcmp.
  rewrite Z2Nat.id in Hchr, Hcmp by lia.
  split; [apply Hchr | apply Hcmp]; unfold range_in; lia.
Qed.

(** [memrchr] is off by one: it searches the [n] bytes that start at
    [s + 1], so it reads one byte past the range it is given and never sees
    the first byte of it. *)
Theorem memrchr_off_by_one m s c n : range_in m (s + 1) n ->
  exists r, memrchr m s c n = Ok r /\ last_at m (s + 1) (s + n + 1) c r.
Proof.
  intros (A0 & A1 & A2). unfold memrchr.
  pose proof (memrchr_loop_spec m c (Z.to_nat n) (s + n)) as H.
  rewrite Z2Nat.id in H by lia.
  replace (s + n - n + 1) with (s + 1) in H by lia. apply H. unfold range_in. lia.
Qed.

(** ** Witnesses *)

Definition example_mem : mem := [1; 2; 3; 4; 5; 6; 7; 8].

Lemma memmove_copies_witness :
  exists m, memmove example_mem 2 0 4 = Ok m /\ at_ 0 m 4 = 3.
Proof.
  destruct (memmove_copies example_mem 2 0 4 ltac:(repeat split; vm_compute; congruence)
    ltac:(repeat split; vm_compute; congruence)) as (m & E & _ & Hm).
  exists m. split; [exact E |]. rewrite (Hm 4 ltac:(lia)). reflexivity.
Defined.

Lemma memcpy_memset_exact_witness :
  exists m m', memcpy example_mem 0 2 4 = Ok m /\ memset example_mem 0 257 4 = Ok m' /\
    at_ 0 m 0 = 3 /\ at_ 0 m' 3 = 1.
Proof.
  destruct (memcpy_memset_exact example_mem 0 2 257 4 ltac:(repeat split; vm_compute; congruence)
    ltac:(repeat split; vm_compute; congruence) ltac:(lia)) as [(m & E & _ & Hm) (m' & E' & _ & Hm')].
  exists m, m'. split; [exact E |]. split; [exact E' |].
  rewrite (Hm 0 ltac:(lia)), (Hm' 3 ltac:(lia)). split; reflexivity.
Defined.

Lemma memchr_memcmp_spec_witness :
  exists r, memcmp example_mem 0 4 4 = Ok r /\ compared example_mem 0 4 4 r.
Proof.
  exact (proj2 (memchr_memcmp_spec example_mem 0 4 3 4 ltac:(repeat split; vm_compute; congruence)
    ltac:(repeat split; vm_compute; congruence))).
Defined.

Lemma memrchr_off_by_one_witness :
  exists r, memrchr example_mem 0 1 4 = Ok r /\ last_at example_mem 1 5 1 r.
Proof.
  exact (memrchr_off_by_one example_mem 0 1 4 ltac:(repeat split; vm_compute; congruence)).
Defined.

End Mem.
