(* ===== verification/Kpm.v ===== *)
(** The physical memory allocator: include/kernel/kpm.h, kernel/memory/kpm.c
    and the memory map of include/kernel/multiboot.h.

    The bitmaps live in the memory that follows the [buddy_t] structure: the
    state keeps that memory as one list of bytes ([heap]), and a bitmap is a
    pointer into it, exactly as in the code.  Nothing in the definitions keeps
    an index inside of its own bitmap: only leaving the memory is an error.
    This file holds the definitions and the facts about single bits; KpmTree
    holds the specifications of the operations. *)

From Stdlib Require Import ZArith Lia Bool.
From stdpp Require Import base tactics numbers list option.
From S2P Require Import Prelude Mem.

Local Open Scope Z_scope.

Module Kpm.

(** ** kpm.h and multiboot.h: constants, macros and structures *)

Definition PAGE_SIZE : Z := 4096.
Definition KERNEL_VIRT_OFFSET : Z := 0xC0000000.
Definition KPM_NORDERS : Z := 11.
Definition MULTIBOOT_MEMORY_AVAILABLE : Z := 1.

Definition ALIGN (size align : Z) : Z :=
  Z.land (u32 size) (Z.lxor 0xffffffff (align - 1)).
Definition ALIGNNEXT (size align : Z) : Z :=
  Z.land (u32 (u32 size + (align - 1))) (Z.lxor 0xffffffff (align - 1)).
Definition ALIGNNEXTFORCE (size align : Z) : Z :=
  Z.land (u32 (u32 size + align)) (Z.lxor 0xffffffff (align - 1)).
Definition ISALIGNED (size align : Z) : bool :=
  Z.land (u32 size) (align - 1) =? 0.
Definition KPM_NBYTES_FROM_NBITS (n : Z) : Z := ALIGNNEXT n 8 / 8.

(** struct order *)
Record order := mk_order { bitmap : Z; order_size : Z }.

(** struct buddy; [sizeof(buddy_t)] is 4 + 4 + 4 + 11 * 8 on i386. *)
Record buddy_t := mk_buddy
  { nframes : Z; buddy_size : Z; enabled_frames : Z; orders : list order }.
Definition sizeof_buddy_t : Z := 100.

(** struct kpm_chunk *)
Record kpm_chunk_t := mk_chunk { chunk_addr : Z; chunk_size : Z }.

(** struct multiboot_mmap_entry *)
Record multiboot_mmap_entry := mk_entry
  { entry_size : Z; entry_addr : Z; entry_len : Z; entry_type : Z }.

(** The globals of kpm.c: the pointer [buddy], the structure it points to and
    the bytes of memory that follow this structure. *)
Record kpm := mk_kpm { buddy_ptr : Z; buddy : buddy_t; heap : list Z }.

Definition heap_base (st : kpm) : Z := buddy_ptr st + sizeof_buddy_t.

Definition load8 (st : kpm) (p : Z) : result Z := rd (heap st) (p - heap_base st).
Definition store8 (st : kpm) (p v : Z) : result kpm :=
  h ← wr (heap st) (p - heap_base st) v;
  Ok (mk_kpm (buddy_ptr st) (buddy st) h).

(** [p[index/8] |= (1 << (index % 8))] and its two companions. *)
Definition bit_or (st : kpm) (p index : Z) : result kpm :=
  b ← load8 st (p + index / 8);
  store8 st (p + index / 8) (u8 (Z.lor b (Z.shiftl 1 (index mod 8)))).
Definition bit_andnot (st : kpm) (p index : Z) : result kpm :=
  b ← load8 st (p + index / 8);
  store8 st (p + index / 8) (u8 (Z.land b (Z.lnot (Z.shiftl 1 (index mod 8))))).
Definition bit_get (st : kpm) (p index : Z) : result Z :=
  b ← load8 st (p + index / 8);
  Ok (Z.land b (Z.shiftl 1 (index mod 8))).

Definition order_bitmap (st : kpm) (o : Z) : result Z :=
  ord ← rd (orders (buddy st)) o; Ok (bitmap ord).

Definition KPM_ALLOC (st : kpm) (o index : Z) : result kpm :=
  p ← order_bitmap st o; bit_or st p index.
Definition KPM_FREE (st : kpm) (o index : Z) : result kpm :=
  p ← order_bitmap st o; bit_andnot st p index.
Definition KPM_GET (st : kpm) (o index : Z) : result Z :=
  p ← order_bitmap st o; bit_get st p index.
Definition KPM_IS_ALLOCATED (st : kpm) (o index : Z) : result bool :=
  v ← KPM_GET st o index; Ok (negb (v =? 0)).
Definition KPM_ENABLE (st : kpm) (index : Z) : result kpm :=
  bit_or st (enabled_frames (buddy st)) index.
Definition KPM_DISABLE (st : kpm) (index : Z) : result kpm :=
  bit_andnot st (enabled_frames (buddy st)) index.
Definition KPM_IS_ENABLED (st : kpm) (index : Z) : result bool :=
  v ← bit_get st (enabled_frames (buddy st)) index; Ok (negb (v =? 0)).

(** ** kpm.c *)

(** kpm_update_order: the [while (base < end)] loop.  The fuel is the number
    of whole blocks of the range plus three; it runs out only when the next
    block address wraps around. *)
Fixpoint kpm_update_order_loop (fuel : nat) (n order_block_size base end_ : Z)
    (st : kpm) : result kpm :=
  match fuel with
  | O => Err OutOfFuel
  | S fuel =>
      if base <? end_ then
        let index := Z.shiftr base n / PAGE_SIZE in
        let lchild_index := u32 (index * 2) in
        let rchild_index := u32 (lchild_index + 1) in
        l ← KPM_IS_ALLOCATED st (n - 1) lchild_index;
        a ← (if l : bool then Ok true else KPM_IS_ALLOCATED st (n - 1) rchild_index);
        st ← (if a : bool then KPM_ALLOC st n index else KPM_FREE st n index);
        kpm_update_order_loop fuel n order_block_size
          (ALIGNNEXTFORCE base order_block_size) end_ st
      else Ok st
  end.

Definition kpm_update_order (st : kpm) (n base limit : Z) : result kpm :=
  let order_block_size := u32 (PAGE_SIZE * Z.shiftl 1 n) in
  let end_ := u32 (base + limit) in
  kpm_update_order_loop (S (Z.to_nat ((end_ - base) / order_block_size + 2)))
    n order_block_size base end_ st.

(** [for (size_t n = 1; n < KPM_NORDERS; n++) kpm_update_order(n, base, limit)] *)
Definition kpm_update_orders (st : kpm) (base limit : Z) : result kpm :=
  for_loop 10 1 (fun n st => kpm_update_order st n base limit) st.

Definition kpm_enable (st : kpm) (base limit : Z) : result kpm :=
  if negb (ISALIGNED base PAGE_SIZE) then Ok st
  else
    let limit := ALIGN limit PAGE_SIZE in
    let base_index := base / PAGE_SIZE in
    let limit := if u32 (base + limit) / PAGE_SIZE >? nframes (buddy st)
                 then u32 (u32 (nframes (buddy st) * PAGE_SIZE) - base) else limit in
    st ← for_loop (Z.to_nat (limit / PAGE_SIZE)) 0 (fun i st =>
           st ← KPM_ENABLE st (u32 (base_index + i));
           KPM_FREE st 0 (u32 (base_index + i))) st;
    kpm_update_orders st base limit.

Definition kpm_disable (st : kpm) (base limit : Z) : result kpm :=
  if negb (ISALIGNED base PAGE_SIZE) then Ok st
  else
    let limit := if negb (ISALIGNED limit PAGE_SIZE)
                 then ALIGNNEXT limit PAGE_SIZE else limit in
    let base_index := base / PAGE_SIZE in
    let limit := if u32 (base + limit) / PAGE_SIZE >? nframes (buddy st)
                 then u32 (u32 (nframes (buddy st) * PAGE_SIZE) - base) else limit in
    st ← for_loop (Z.to_nat (limit / PAGE_SIZE)) 0 (fun i st =>
           st ← KPM_DISABLE st (u32 (base_index + i));
           KPM_ALLOC st 0 (u32 (base_index + i))) st;
    kpm_update_orders st base limit.

Definition kpm_isenabled (st : kpm) (addr : Z) : result bool :=
  KPM_IS_ENABLED st (addr / PAGE_SIZE).
Definition kpm_isalloc (st : kpm) (addr : Z) : result bool :=
  KPM_IS_ALLOCATED st 0 (addr / PAGE_SIZE).

(** find_best_fit_order: [k] counts the orders left to try. *)
Fixpoint find_order (k : nat) (n nframes : Z) : Z :=
  match k with
  | O => KPM_NORDERS - 1
  | S k => if Z.shiftl 1 n >=? nframes then n else find_order k (n + 1) nframes
  end.
Definition find_best_fit_order (size : Z) : Z :=
  find_order 11 0 (ALIGNNEXT size PAGE_SIZE / PAGE_SIZE).

(** The gcc builtin on a byte: one plus the index of the least significant
    set bit, zero if there is none. *)
Definition builtin_ffs (x : Z) : Z :=
  match list_find (fun k => Z.testbit x k = true) (seqZ 0 32) with
  | Some (_, k) => k + 1
  | None => 0
  end.

Fixpoint bitmap_ffu_loop (st : kpm) (p : Z) (i : Z) (k : nat) : result Z :=
  match k with
  | O => Ok (-1)
  | S k =>
      b ← load8 st (p + i);
      let cur := u8 (Z.lnot b) in
      let ffu := builtin_ffs cur in
      if negb (ffu =? 0) then Ok (i32 (ffu + u32 (i * 8) - 1))
      else bitmap_ffu_loop st p (i + 1) k
  end.
Definition bitmap_ffu (st : kpm) (p size : Z) : result Z :=
  bitmap_ffu_loop st p 0 (Z.to_nat size).

(** kpm_alloc: the loop on the orders, from [o] down to 0.  The products of
    the source are [int * int] first and then [int * size_t]. *)
Fixpoint kpm_alloc_loop (st : kpm) (chunk : kpm_chunk_t) (o : nat)
    : result (Z * kpm_chunk_t * kpm) :=
  ord ← rd (orders (buddy st)) (Z.of_nat o);
  i ← bitmap_ffu st (bitmap ord) (order_size ord);
  if i >=? 0 then
    let frames_per_block := Z.shiftl 1 (Z.of_nat o) in
    let base_index := u32 (i * frames_per_block) in
    st ← for_loop (Z.to_nat frames_per_block) 0 (fun j st =>
           KPM_ALLOC st 0 (u32 (base_index + j))) st;
    let chunk := mk_chunk (u32 (i32 (i * PAGE_SIZE) * frames_per_block))
                          (u32 (PAGE_SIZE * frames_per_block)) in
    st ← kpm_update_orders st (chunk_addr chunk) (chunk_size chunk);
    Ok (0, chunk, st)
  else match o with
       | O => Ok (-1, chunk, st)
       | S o => kpm_alloc_loop st chunk o
       end.
Definition kpm_alloc (st : kpm) (chunk : kpm_chunk_t) (size : Z)
    : result (Z * kpm_chunk_t * kpm) :=
  kpm_alloc_loop st chunk (Z.to_nat (find_best_fit_order size)).

Definition kpm_free (st : kpm) (chunk : kpm_chunk_t) : result kpm :=
  if negb (ISALIGNED (chunk_addr chunk) PAGE_SIZE) then Ok st
  else
    let first_frame_index := chunk_addr chunk / PAGE_SIZE in
    let nframes := ALIGNNEXT (chunk_size chunk) PAGE_SIZE / PAGE_SIZE in
    st ← for_loop (Z.to_nat nframes) first_frame_index (fun i st =>
           e ← KPM_IS_ENABLED st i;
           if e : bool then KPM_FREE st 0 i else Ok st) st;
    kpm_update_orders st (chunk_addr chunk) (chunk_size chunk).

(** kpm_init: the sizes of the orders (first loop of the function). *)
Fixpoint init_sizes (k : nat) (nblocks : Z) : list Z :=
  match k with
  | O => []
  | S k => KPM_NBYTES_FROM_NBITS nblocks :: init_sizes k (nblocks / 2)
  end.

(** The addresses of the bitmaps (second loop): [prev] is
    [orders[i - 1].bitmap]. *)
Fixpoint init_bitmaps (k : nat) (prev prev_nblocks : Z) : list Z :=
  match k with
  | O => []
  | S k => let p := u32 (prev + KPM_NBYTES_FROM_NBITS prev_nblocks) in
           p :: init_bitmaps k p (prev_nblocks / 2)
  end.

(** The loop over the memory map stops at the first entry of size 0; the
    entry count the caller passes is not used. *)
Fixpoint init_entries (entries : list multiboot_mmap_entry) (st : kpm) : result kpm :=
  match entries with
  | [] => Err OutOfBounds
  | e :: rest =>
      if negb (entry_size e =? 0) then
        st ← (if entry_type e =? MULTIBOOT_MEMORY_AVAILABLE
              then kpm_enable st (u32 (entry_addr e)) (u32 (entry_len e)) else Ok st);
        init_entries rest st
      else Ok st
  end.

(** [sk] and [ek] are the linker symbols (arch/i386/linker.ld), [ram] the
    memory found behind the structure. *)
Definition kpm_init (sk ek : Z) (ram : list Z) (entries : list multiboot_mmap_entry)
    (count memkb : Z) : result kpm :=
  let ptr := ALIGNNEXT ek PAGE_SIZE in
  let nf := ALIGN (u32 (memkb * 1024) / PAGE_SIZE) 1024 in
  let enabled_frames_size := KPM_NBYTES_FROM_NBITS nf in
  let sizes := init_sizes 11 nf in
  let total_orders_size := u32 (foldr Z.add 0 sizes) in
  let size := u32 (sizeof_buddy_t + enabled_frames_size + total_orders_size) in
  let ef := u32 (ptr + sizeof_buddy_t) in
  let b0 := u32 (ef + enabled_frames_size) in
  let bitmaps := b0 :: init_bitmaps 10 b0 nf in
  let b := mk_buddy nf size ef (zip_with mk_order bitmaps sizes) in
  let base := ptr + sizeof_buddy_t in
  h ← Mem.memset ram (ef - base) 0 enabled_frames_size;
  h ← Mem.memset h (b0 - base) 0xff total_orders_size;
  st ← init_entries entries (mk_kpm ptr b h);
  st ← kpm_disable st 0 PAGE_SIZE;
  st ← kpm_disable st sk (u32 (u32 (ek - KERNEL_VIRT_OFFSET) - sk));
  kpm_disable st (u32 (ptr - KERNEL_VIRT_OFFSET)) size.

End Kpm.
