(* ===== verification/KpmBits.v ===== *)
(** The bitmaps of the allocator as functions on bits.

    The memory behind the [buddy_t] structure holds the bitmap of the enabled
    frames and one bitmap per order, back to back.  [wf] states this layout,
    [repr nf st B E] that the bits of the orders are [B] and those of the
    enabled frames [E]; each macro of kpm.h is then an update of [B] or [E].
    The proofs about the operations (KpmTree) work on [B] and [E] only. *)

From Stdlib Require Import ZArith Lia Bool.
From stdpp Require Import base tactics numbers list option.
From S2P Require Import Prelude Mem Kpm.
Import Kpm.

Local Open Scope Z_scope.

(** ** Layout *)

(** Number of blocks and of bitmap bytes of an order, and its offset in the
    memory behind the structure. *)
Definition nblocks (nf o : Z) : Z := nf / 2 ^ o.
Definition osz (nf o : Z) : Z := (nblocks nf o + 7) / 8.
Definition ooff (nf o : Z) : Z := nf / 8 + foldr Z.add 0 (osz nf <$> seqZ 0 o).

(** The bit number [g] of a memory. *)
Definition gbit (h : list Z) (g : Z) : bool := Z.testbit (at_ 0 h (g / 8)) (g mod 8).

(** Bit [i] of the bitmap of order [o]; the enabled bit of frame [f]. *)
Definition obit (st : kpm) (o i : Z) : bool :=
  gbit (heap st) (8 * ooff (nframes (buddy st)) o + i).
Definition ebit (st : kpm) (f : Z) : bool := gbit (heap st) f.

Record nf_ok (nf : Z) : Prop := mk_nf_ok
  { nf_1024 : nf mod 1024 = 0; nf_range : 0 <= nf <= 1047552 }.

Record wf (nf : Z) (st : kpm) : Prop := mk_wf
  { wf_nf : nframes (buddy st) = nf;
    wf_nf_ok : nf_ok nf;
    wf_orders : forall o, 0 <= o < 11 ->
      rd (orders (buddy st)) o = Ok (mk_order (heap_base st + ooff nf o) (osz nf o));
    wf_enabled : enabled_frames (buddy st) = heap_base st;
    wf_heap : ooff nf 11 <= zlen (heap st) }.

Definition upd (B : Z -> Z -> bool) (o i : Z) (b : bool) : Z -> Z -> bool :=
  fun o' i' => if (o' =? o) && (i' =? i) then b else B o' i'.
Definition upd1 (E : Z -> bool) (i : Z) (b : bool) : Z -> bool :=
  fun i' => if i' =? i then b else E i'.

Record repr (nf : Z) (st : kpm) (B : Z -> Z -> bool) (E : Z -> bool) : Prop := mk_repr
  { repr_wf : wf nf st;
    repr_order : forall o i, 0 <= o < 11 -> 0 <= i < 8 * osz nf o -> obit st o i = B o i;
    repr_enabled : forall f, 0 <= f < nf -> ebit st f = E f }.

(** ** Facts about the layout *)

Section layout.
Context (nf : Z) (Hnf : nf_ok nf).

Lemma pow2_order o : 0 <= o <= 10 -> 1 <= 2 ^ o <= 1024.
Proof.
  intros Ho. split; [pose proof (Z.pow_pos_nonneg 2 o); lia |].
  change 1024 with (2 ^ 10). apply Z.pow_le_mono_r; lia.
Qed.

Lemma nblocks_exact o : 0 <= o <= 10 -> nf = 2 ^ o * nblocks nf o.
Proof using Hnf.
  intros Ho. unfold nblocks. apply Z_div_exact_full_2.
  { pose proof (Z.pow_pos_nonneg 2 o); lia. }
  apply Z.mod_divide; [pose proof (Z.pow_pos_nonneg 2 o); lia |].
  transitivity 1024.
  - exists (2 ^ (10 - o)). rewrite <- Z.pow_add_r by lia.
    by replace (10 - o + o) with 10 by lia.
  - apply Z.mod_divide; [lia |]. by destruct Hnf.
Qed.

Lemma nblocks_double o : 1 <= o <= 10 -> nblocks nf (o - 1) = 2 * nblocks nf o.
Proof using Hnf.
  intros Ho. pose proof (nblocks_exact o) as H1. pose proof (nblocks_exact (o - 1)) as H2.
  assert (2 ^ o = 2 * 2 ^ (o - 1)) as E.
  { rewrite <- Z.pow_succ_r by lia. f_equal. lia. }
  pose proof (Z.pow_pos_nonneg 2 (o - 1)). nia.
Qed.

Lemma nblocks_nonneg o : 0 <= o -> 0 <= nblocks nf o.
Proof using Hnf.
  intros Ho. unfold nblocks. apply Z.div_pos; [destruct Hnf; lia |].
  apply Z.pow_pos_nonneg; lia.
Qed.

Lemma nblocks_0 : nblocks nf 0 = nf.
Proof. unfold nblocks. by rewrite Z.div_1_r. Qed.

Lemma nblocks_le o : 0 <= o -> nblocks nf o <= nf.
Proof using Hnf.
  intros. unfold nblocks. apply Z.div_le_upper_bound.
  - apply Z.pow_pos_nonneg; lia.
  - pose proof (Z.pow_pos_nonneg 2 o). destruct Hnf. nia.
Qed.

Lemma osz_bits o : 0 <= o -> nblocks nf o <= 8 * osz nf o < nblocks nf o + 8.
Proof using Hnf. intros. unfold osz. dlia. Qed.

Lemma osz_nonneg o : 0 <= o -> 0 <= osz nf o.
Proof using Hnf. intros. pose proof (nblocks_nonneg o). unfold osz. dlia. Qed.

Lemma ooff_0 : ooff nf 0 = nf / 8.
Proof. unfold ooff. simpl. lia. Qed.

Lemma ooff_succ o : 0 <= o -> ooff nf (o + 1) = ooff nf o + osz nf o.
Proof.
  intros Ho. unfold ooff. rewrite seqZ_app by lia. rewrite fmap_app, foldr_app.
  change (seqZ (0 + o) 1) with [0 + o]. cbn [fmap list_fmap foldr]. rewrite Z.add_0_r.
  assert (forall l a, foldr Z.add a l = foldr Z.add 0 l + a) as E.
  { intros l a. induction l; simpl; lia. }
  rewrite (E _ (osz nf (0 + o))), Z.add_0_l. lia.
Qed.

Lemma ooff_mono o d : 0 <= o -> 0 <= d -> ooff nf o + osz nf o <= ooff nf (o + 1 + d).
Proof using Hnf.
  intros Ho Hd. revert d Hd. apply natlike_ind.
  - rewrite Z.add_0_r, ooff_succ; lia.
  - intros d Hd IH. rewrite Z.add_succ_r, <- Z.add_1_r, ooff_succ by lia.
    pose proof (osz_nonneg (o + 1 + d)). lia.
Qed.

Lemma ooff_lt o o' : 0 <= o < o' -> ooff nf o + osz nf o <= ooff nf o'.
Proof using Hnf.
  intros Ho. replace o' with (o + 1 + (o' - o - 1)) by lia. apply ooff_mono; lia.
Qed.

Lemma ooff_pos o : 0 <= o -> nf / 8 <= ooff nf o.
Proof using Hnf.
  intros Ho. destruct (Z.eq_dec o 0) as [-> |]; [rewrite ooff_0; lia |].
  pose proof (ooff_lt 0 o). pose proof (osz_nonneg 0). rewrite ooff_0 in *. lia.
Qed.

(** Two bits of the bitmaps of the orders are the same bit of memory only if
    they are the same bit of the same order. *)
Lemma order_bit_inj o i o' i' :
  0 <= o -> 0 <= i < 8 * osz nf o -> 0 <= o' -> 0 <= i' < 8 * osz nf o' ->
  (8 * ooff nf o' + i' =? 8 * ooff nf o + i) = (o' =? o) && (i' =? i).
Proof using Hnf.
  intros Ho Hi Ho' Hi'. destruct (Z.eqb_spec o' o) as [-> | Hne].
  - simpl. destruct (Z.eqb_spec i' i), (Z.eqb_spec (8 * ooff nf o + i') (8 * ooff nf o + i)); lia.
  - simpl. apply Z.eqb_neq.
    destruct (Z.lt_total o o') as [H | [-> | H]]; [| lia |].
    + pose proof (ooff_lt o o'). lia.
    + pose proof (ooff_lt o' o). lia.
Qed.

Lemma enabled_bit_sep f o i :
  0 <= f < nf -> 0 <= o -> 0 <= i -> (f =? 8 * ooff nf o + i) = false.
Proof using Hnf.
  intros Hf Ho Hi. apply Z.eqb_neq. pose proof (ooff_pos o).
  assert (nf = 8 * (nf / 8)) by (destruct Hnf; dlia). lia.
Qed.
End layout.

(** ** The macros of kpm.h as bit updates *)

(** Writing one bit of a memory. *)
Lemma gbit_insert h g g' v b :
  0 <= g -> g / 8 < zlen h -> 0 <= g' ->
  (forall j, 0 <= j < 8 ->
     Z.testbit v j = if j =? g mod 8 then b else Z.testbit (at_ 0 h (g / 8)) j) ->
  gbit (<[Z.to_nat (g / 8) := v]> h) g' = if g' =? g then b else gbit h g'.
Proof.
  intros Hg Hl Hg' Hv. unfold gbit. rewrite at_insert by dlia.
  destruct (Z.eqb_spec (g' / 8) (g / 8)) as [E | E].
  - rewrite Hv by dlia. rewrite <- E.
    destruct (Z.eqb_spec (g' mod 8) (g mod 8)), (Z.eqb_spec g' g); (done || dlia).
  - destruct (Z.eqb_spec g' g) as [-> |]; [done | done].
Qed.

(** What a write at bit [g] of the memory does to the state. *)
Definition bit_written (st st' : kpm) (g : Z) (b : bool) : Prop :=
  buddy_ptr st' = buddy_ptr st /\ buddy st' = buddy st /\
  zlen (heap st') = zlen (heap st) /\
  forall g', 0 <= g' -> gbit (heap st') g' = if g' =? g then b else gbit (heap st) g'.

Section raw_bits.
Context (st : kpm) (off i : Z) (Hoff : 0 <= off) (Hi : 0 <= i)
        (Hin : off + i / 8 < zlen (heap st)).

Lemma raw_index : (8 * off + i) / 8 = off + i / 8 /\ (8 * off + i) mod 8 = i mod 8.
Proof. dlia. Qed.

Lemma load8_ok : load8 st (heap_base st + off + i / 8) = Ok (at_ 0 (heap st) (off + i / 8)).
Proof using All.
  unfold load8. replace (heap_base st + off + i / 8 - heap_base st) with (off + i / 8) by lia.
  apply rd_ok. dlia.
Qed.

Lemma store_bit v b :
  (forall j, 0 <= j < 8 ->
     Z.testbit v j = if j =? i mod 8 then b
                     else Z.testbit (at_ 0 (heap st) (off + i / 8)) j) ->
  exists st', store8 st (heap_base st + off + i / 8) v = Ok st' /\
              bit_written st st' (8 * off + i) b.
Proof using All.
  intros Hv. destruct raw_index as [E1 E2]. unfold store8.
  replace (heap_base st + off + i / 8 - heap_base st) with (off + i / 8) by lia.
  rewrite wr_ok by dlia. simpl. eexists. split; [done |].
  split_and!; simpl; [done.. | by rewrite zlen_insert |].
  intros g' Hg'. rewrite <- E1. apply gbit_insert; [lia | lia | lia |].
  intros j Hj. rewrite E1, E2. by apply Hv.
Qed.

Lemma bit_or_spec :
  exists st', bit_or st (heap_base st + off) i = Ok st' /\
              bit_written st st' (8 * off + i) true.
Proof using All.
  unfold bit_or. rewrite load8_ok. simpl. apply store_bit. intros j Hj.
  rewrite testbit_u8, testbit_set by dlia. by destruct (j =? i mod 8).
Qed.

Lemma bit_andnot_spec :
  exists st', bit_andnot st (heap_base st + off) i = Ok st' /\
              bit_written st st' (8 * off + i) false.
Proof using All.
  unfold bit_andnot. rewrite load8_ok. simpl. apply store_bit. intros j Hj.
  rewrite testbit_u8, testbit_clear by dlia. by destruct (j =? i mod 8).
Qed.

Lemma bit_get_spec :
  exists v, bit_get st (heap_base st + off) i = Ok v /\
            negb (v =? 0) = gbit (heap st) (8 * off + i).
Proof using All.
  unfold bit_get. rewrite load8_ok. simpl. eexists. split; [done |].
  rewrite land_bit_nonzero by dlia. unfold gbit. by destruct raw_index as [-> ->].
Qed.
End raw_bits.

Section macros.
Context (nf : Z).
Implicit Types st : kpm.

Lemma wf_written st st' g b : wf nf st -> bit_written st st' g b -> wf nf st'.
Proof.
  intros [H1 H2 H3 H4 H5] (Hp & Hb & Hl & _).
  assert (heap_base st' = heap_base st) as Hh by (unfold heap_base; by rewrite Hp).
  constructor; rewrite ?Hb, ?Hh, ?Hl; auto.
Qed.

Lemma order_in_heap st o i : wf nf st -> 0 <= o < 11 -> 0 <= i < 8 * osz nf o ->
  0 <= ooff nf o /\ ooff nf o + i / 8 < zlen (heap st).
Proof.
  intros [_ Hok _ _ Hh] Ho Hi. pose proof (ooff_pos nf Hok o).
  pose proof (ooff_lt nf Hok o 11). destruct Hok. split; [dlia |].
  assert (i / 8 < osz nf o) by dlia. lia.
Qed.

Lemma enabled_in_heap st f : wf nf st -> 0 <= f < nf -> 0 + f / 8 < zlen (heap st).
Proof.
  intros [_ Hok _ _ Hh] Hf. pose proof (ooff_pos nf Hok 11).
  destruct Hok. dlia.
Qed.

Lemma order_bitmap_ok st o : wf nf st -> 0 <= o < 11 ->
  order_bitmap st o = Ok (heap_base st + ooff nf o).
Proof. intros Hwf Ho. unfold order_bitmap. by rewrite (wf_orders _ _ Hwf). Qed.

Lemma repr_order_written st st' B E o i b :
  repr nf st B E -> 0 <= o < 11 -> 0 <= i < 8 * osz nf o ->
  bit_written st st' (8 * ooff nf o + i) b -> repr nf st' (upd B o i b) E.
Proof.
  intros [Hwf HB HE] Ho Hi Hw. pose proof (wf_written _ _ _ _ Hwf Hw) as Hwf'.
  pose proof (wf_nf_ok _ _ Hwf) as Hok.
  destruct Hw as (_ & Hb & _ & Hg). constructor; [done | |].
  - intros o' i' Ho' Hi'. unfold obit. rewrite (wf_nf _ _ Hwf').
    pose proof (order_in_heap st o' i' Hwf Ho' Hi').
    rewrite Hg by lia. rewrite order_bit_inj by (done || lia). unfold upd.
    destruct ((o' =? o) && (i' =? i)); [done |].
    rewrite <- HB by done. unfold obit. by rewrite (wf_nf _ _ Hwf).
  - intros f Hf. unfold ebit. rewrite Hg by lia.
    rewrite enabled_bit_sep by (done || lia). rewrite <- HE by done. done.
Qed.

Lemma repr_enabled_written st st' B E f b :
  repr nf st B E -> 0 <= f < nf ->
  bit_written st st' f b -> repr nf st' B (upd1 E f b).
Proof.
  intros [Hwf HB HE] Hf Hw. pose proof (wf_written _ _ _ _ Hwf Hw) as Hwf'.
  pose proof (wf_nf_ok _ _ Hwf) as Hok.
  destruct Hw as (_ & Hb & _ & Hg). constructor; [done | |].
  - intros o' i' Ho' Hi'. unfold obit. rewrite (wf_nf _ _ Hwf').
    pose proof (order_in_heap st o' i' Hwf Ho' Hi').
    rewrite Hg by lia. rewrite Z.eqb_sym, enabled_bit_sep by (done || lia).
    rewrite <- HB by done. unfold obit. by rewrite (wf_nf _ _ Hwf).
  - intros f' Hf'. unfold ebit, upd1. rewrite Hg by lia.
    destruct (f' =? f); [done |]. by rewrite <- HE.
Qed.

Lemma repr_ext st B E B' E' :
  repr nf st B E -> (forall o i, B' o i = B o i) -> (forall f, E' f = E f) ->
  repr nf st B' E'.
Proof.
  intros [Hwf HB HE] H1 H2. constructor; [done | |]; intros; rewrite ?H1, ?H2; auto.
Qed.

Section with_repr.
Context (st : kpm) (B : Z -> Z -> bool) (E : Z -> bool) (Hr : repr nf st B E).

Lemma KPM_ALLOC_spec o i : 0 <= o < 11 -> 0 <= i < 8 * osz nf o ->
  exists st', KPM_ALLOC st o i = Ok st' /\ repr nf st' (upd B o i true) E.
Proof using Hr.
  intros Ho Hi. pose proof (repr_wf _ _ _ _ Hr) as Hwf.
  destruct (order_in_heap st o i Hwf Ho Hi).
  unfold KPM_ALLOC. rewrite order_bitmap_ok by done. simpl.
  destruct (bit_or_spec st (ooff nf o) i) as (st' & -> & Hw); [lia.. |].
  exists st'. split; [done |]. by eapply repr_order_written.
Qed.

Lemma KPM_FREE_spec o i : 0 <= o < 11 -> 0 <= i < 8 * osz nf o ->
  exists st', KPM_FREE st o i = Ok st' /\ repr nf st' (upd B o i false) E.
Proof using Hr.
  intros Ho Hi. pose proof (repr_wf _ _ _ _ Hr) as Hwf.
  destruct (order_in_heap st o i Hwf Ho Hi).
  unfold KPM_FREE. rewrite order_bitmap_ok by done. simpl.
  destruct (bit_andnot_spec st (ooff nf o) i) as (st' & -> & Hw); [lia.. |].
  exists st'. split; [done |]. by eapply repr_order_written.
Qed.

Lemma KPM_IS_ALLOCATED_spec o i : 0 <= o < 11 -> 0 <= i < 8 * osz nf o ->
  KPM_IS_ALLOCATED st o i = Ok (B o i).
Proof using Hr.
  intros Ho Hi. pose proof (repr_wf _ _ _ _ Hr) as Hwf.
  destruct (order_in_heap st o i Hwf Ho Hi).
  unfold KPM_IS_ALLOCATED, KPM_GET. rewrite order_bitmap_ok by done. simpl.
  destruct (bit_get_spec st (ooff nf o) i) as (v & -> & Hv); [lia.. |].
  simpl. rewrite Hv. rewrite <- (repr_order _ _ _ _ Hr) by done.
  unfold obit. by rewrite (wf_nf _ _ Hwf).
Qed.

Lemma enabled_base : enabled_frames (buddy st) = heap_base st + 0.
Proof using Hr. rewrite (wf_enabled _ _ (repr_wf _ _ _ _ Hr)). lia. Qed.

Lemma KPM_ENABLE_spec f : 0 <= f < nf ->
  exists st', KPM_ENABLE st f = Ok st' /\ repr nf st' B (upd1 E f true).
Proof using Hr.
  intros Hf. pose proof (repr_wf _ _ _ _ Hr) as Hwf.
  pose proof (enabled_in_heap st f Hwf Hf). unfold KPM_ENABLE. rewrite enabled_base.
  destruct (bit_or_spec st 0 f) as (st' & -> & Hw); [lia.. |].
  exists st'. split; [done |]. by eapply repr_enabled_written.
Qed.

Lemma KPM_DISABLE_spec f : 0 <= f < nf ->
  exists st', KPM_DISABLE st f = Ok st' /\ repr nf st' B (upd1 E f false).
Proof using Hr.
  intros Hf. pose proof (repr_wf _ _ _ _ Hr) as Hwf.
  pose proof (enabled_in_heap st f Hwf Hf). unfold KPM_DISABLE. rewrite enabled_base.
  destruct (bit_andnot_spec st 0 f) as (st' & -> & Hw); [lia.. |].
  exists st'. split; [done |]. by eapply repr_enabled_written.
Qed.

Lemma KPM_IS_ENABLED_spec f : 0 <= f < nf -> KPM_IS_ENABLED st f = Ok (E f).
Proof using Hr.
  intros Hf. pose proof (repr_wf _ _ _ _ Hr) as Hwf.
  pose proof (enabled_in_heap st f Hwf Hf). unfold KPM_IS_ENABLED. rewrite enabled_base.
  destruct (bit_get_spec st 0 f) as (v & -> & Hv); [lia.. |].
  simpl. rewrite Hv. by rewrite <- (repr_enabled _ _ _ _ Hr).
Qed.
End with_repr.
End macros.
