(* ===== verification/KpmTree.v ===== *)
(** The tree of bitmaps: specifications of the operations of kpm.c.

    A block of order [n] covers two blocks of order [n - 1]; the allocator
    keeps its bit equal to the disjunction of its children's bits
    ([consistent]).  Each operation changes bits of order 0 in a range of
    frames and repairs the orders above it in that range
    ([kpm_update_orders_spec]). *)

From Stdlib Require Import ZArith Lia Bool.
From stdpp Require Import base tactics numbers list option.
From S2P Require Import Prelude Mem Kpm KpmBits.
Import Kpm.

Local Open Scope Z_scope.

(** ** The alignment macros *)

Lemma ALIGN_spec x k : 0 <= x < 4294967296 -> 0 <= k <= 32 ->
  ALIGN x (2 ^ k) = x - x mod 2 ^ k.
Proof.
  intros Hx Hk. unfold ALIGN. rewrite u32_small by done.
  change 0xffffffff with (2 ^ 32 - 1). by apply land_clear_mask.
Qed.

Lemma ALIGNNEXT_spec x k : 0 <= x -> 0 <= k <= 32 -> x + (2 ^ k - 1) < 4294967296 ->
  ALIGNNEXT x (2 ^ k) = x + (2 ^ k - 1) - (x + (2 ^ k - 1)) mod 2 ^ k.
Proof.
  intros Hx Hk Hlt. pose proof (Z.pow_pos_nonneg 2 k).
  unfold ALIGNNEXT. rewrite (u32_small x) by lia. rewrite u32_small by lia.
  change 0xffffffff with (2 ^ 32 - 1). apply land_clear_mask; lia.
Qed.

Lemma ALIGNNEXTFORCE_spec x k : 0 <= x -> 0 <= k <= 32 -> x + 2 ^ k < 4294967296 ->
  ALIGNNEXTFORCE x (2 ^ k) = (x / 2 ^ k + 1) * 2 ^ k.
Proof.
  intros Hx Hk Hlt. pose proof (Z.pow_pos_nonneg 2 k).
  unfold ALIGNNEXTFORCE. rewrite (u32_small x) by lia. rewrite u32_small by lia.
  change 0xffffffff with (2 ^ 32 - 1). rewrite land_clear_mask by lia.
  replace (x + 2 ^ k) with (x + 1 * 2 ^ k) by lia. rewrite Z.mod_add by lia.
  pose proof (Z.div_mod x (2 ^ k)). lia.
Qed.

Lemma ISALIGNED_spec x k : 0 <= x < 4294967296 -> 0 <= k ->
  ISALIGNED x (2 ^ k) = (x mod 2 ^ k =? 0).
Proof.
  intros Hx Hk. unfold ISALIGNED. rewrite u32_small by done. by rewrite land_ones_mod.
Qed.

(** Their instances at the page size. *)
Lemma ALIGN_page x : 0 <= x < 4294967296 -> ALIGN x PAGE_SIZE = x / 4096 * 4096.
Proof. intros. change PAGE_SIZE with (2 ^ 12). rewrite ALIGN_spec by lia. dlia. Qed.

Lemma ALIGNNEXT_page x : 0 <= x -> x + 4095 < 4294967296 ->
  ALIGNNEXT x PAGE_SIZE = (x + 4095) / 4096 * 4096.
Proof. intros. change PAGE_SIZE with (2 ^ 12). rewrite ALIGNNEXT_spec by lia. dlia. Qed.

Lemma ISALIGNED_page x : 0 <= x < 4294967296 ->
  ISALIGNED x PAGE_SIZE = (x mod 4096 =? 0).
Proof. intros. change PAGE_SIZE with (2 ^ 12). by rewrite ISALIGNED_spec by lia. Qed.

(** ** One order *)

(** The blocks of order [n] that meet the bytes from [base] up to [end_]. *)
Definition lo_block (base bs : Z) : Z := base / bs.
Definition hi_block (end_ bs : Z) : Z := (end_ + bs - 1) / bs.

(** Bits of order [n] recomputed from their children in a range of blocks. *)
Definition recompute (B : Z -> Z -> bool) (n lo hi : Z) : Z -> Z -> bool :=
  fun o i => if (o =? n) && ((lo <=? i) && (i <? hi))
             then B (n - 1) (2 * i) || B (n - 1) (2 * i + 1) else B o i.

Lemma block_step base end_ bs : 0 < bs -> 0 <= base < end_ ->
  let next := (base / bs + 1) * bs in
  base < next /\ lo_block next bs = lo_block base bs + 1 /\
  lo_block base bs < hi_block end_ bs.
Proof.
  intros Hbs Hb next. unfold lo_block, hi_block. split_and!.
  - subst next. pose proof (Z.div_mod base bs). pose proof (Z.mod_pos_bound base bs). nia.
  - subst next. rewrite Z.div_mul; lia.
  - apply Z.lt_le_trans with (base / bs + 1); [lia |].
    apply Z.div_le_lower_bound; [lia |]. pose proof (Z.mul_div_le base bs). lia.
Qed.

Section update_order.
Context (nf n : Z) (Hn : 1 <= n <= 10).
Let bs := 4096 * 2 ^ n.

Lemma bs_bounds : 8192 <= bs <= 4194304 /\ bs = 2 ^ (12 + n).
Proof using Hn.
  subst bs. split; [| by rewrite Z.pow_add_r by lia].
  split; [assert (2 ^ 1 <= 2 ^ n) by (apply Z.pow_le_mono_r; lia); lia |].
  assert (2 ^ n <= 2 ^ 10) by (apply Z.pow_le_mono_r; lia). lia.
Qed.

Lemma block_in_order base : nf_ok nf -> 0 <= base < nf * 4096 ->
  let i := lo_block base bs in
  0 <= i < nblocks nf n /\ Z.shiftr base n / PAGE_SIZE = i.
Proof using Hn.
  intros Hok Hb i. pose proof bs_bounds as [Hbs _]. pose proof (nblocks_exact nf Hok n).
  subst i. unfold lo_block. split; [split |].
  - apply Z.div_pos; lia.
  - apply Z.div_lt_upper_bound; [lia |]. subst bs. nia.
  - rewrite Z.shiftr_div_pow2 by lia. unfold PAGE_SIZE. rewrite Z.div_div by lia.
    f_equal. subst bs. lia.
Qed.

Lemma recompute_step (B : Z -> Z -> bool) lo hi o i : lo < hi ->
  recompute (upd B n lo (B (n - 1) (2 * lo) || B (n - 1) (2 * lo + 1))) n (lo + 1) hi o i
  = recompute B n lo hi o i.
Proof using Hn.
  intros Hlt. unfold recompute, upd.
  rewrite !(proj2 (Z.eqb_neq (n - 1) n)) by lia. simpl.
  destruct (Z.eqb_spec o n) as [-> |]; [simpl | done].
  destruct (Z.leb_spec (lo + 1) i), (Z.leb_spec lo i), (Z.ltb_spec i hi),
    (Z.eqb_spec i lo); simpl; subst; (done || lia).
Qed.

(** One turn of the loop writes the disjunction of the two children. *)
Lemma update_block_spec st B E i :
  repr nf st B E -> 0 <= i < nblocks nf n ->
  exists st',
    (l ← KPM_IS_ALLOCATED st (n - 1) (u32 (i * 2));
     a ← (if l : bool then Ok true
          else KPM_IS_ALLOCATED st (n - 1) (u32 (u32 (i * 2) + 1)));
     if a : bool then KPM_ALLOC st n i else KPM_FREE st n i) = Ok st' /\
    repr nf st' (upd B n i (B (n - 1) (2 * i) || B (n - 1) (2 * i + 1))) E.
Proof using Hn.
  intros Hr Hi. pose proof (wf_nf_ok _ _ (repr_wf _ _ _ _ Hr)) as Hok.
  pose proof (nblocks_double nf Hok n Hn). pose proof (nblocks_le nf Hok n).
  pose proof (osz_bits nf Hok n). pose proof (osz_bits nf Hok (n - 1)).
  destruct (nf_range _ Hok).
  rewrite (u32_small (i * 2)) by lia. rewrite (u32_small (i * 2 + 1)) by lia.
  rewrite !(KPM_IS_ALLOCATED_spec nf st B E) by (done || lia).
  replace (i * 2) with (2 * i) by lia. simpl.
  destruct (B (n - 1) (2 * i)); simpl; [| destruct (B (n - 1) (2 * i + 1)); simpl].
  - apply KPM_ALLOC_spec; (done || lia).
  - apply KPM_ALLOC_spec; (done || lia).
  - apply KPM_FREE_spec; (done || lia).
Qed.

Lemma update_loop_spec fuel : forall base end_ st B E,
  repr nf st B E -> 0 <= base -> end_ <= nf * 4096 ->
  hi_block end_ bs - lo_block base bs + 1 <= Z.of_nat fuel -> (0 < fuel)%nat ->
  exists st', kpm_update_order_loop fuel n bs base end_ st = Ok st' /\
              repr nf st' (recompute B n (lo_block base bs)
                             (if base <? end_ then hi_block end_ bs
                              else lo_block base bs)) E.
Proof using Hn.
  pose proof bs_bounds as [Hbs Hpow].
  induction fuel as [| fuel IH]; intros base end_ st B E Hr Hb He Hfuel Hpos; [lia |].
  simpl. destruct (Z.ltb_spec base end_) as [Hlt | Hge].
  - pose proof (wf_nf_ok _ _ (repr_wf _ _ _ _ Hr)) as Hok.
    destruct (block_in_order base Hok) as [Hi ->]; [lia |].
    destruct (block_step base end_ bs) as (Hnext & Hlo & Hhi); [lia.. |].
    destruct (update_block_spec st B E _ Hr Hi) as (st1 & Hst1 & Hr1).
    destruct (KPM_IS_ALLOCATED st (n - 1) (u32 (lo_block base bs * 2))) as [l |];
      [simpl in * | done].
    destruct (if l then Ok true else _) as [a |]; [simpl in * | done].
    rewrite Hst1. simpl. destruct (nf_range _ Hok).
    rewrite Hpow, ALIGNNEXTFORCE_spec by lia. rewrite <- Hpow.
    destruct (IH ((base / bs + 1) * bs) end_ st1 _ E Hr1) as (st' & -> & Hr');
      [nia | lia | lia | lia |].
    exists st'. split; [done |]. rewrite Hlo in Hr'.
    eapply repr_ext; [exact Hr' | | done]. intros o i.
    rewrite <- (recompute_step B _ (hi_block end_ bs)) by done.
    destruct (Z.ltb_spec ((base / bs + 1) * bs) end_) as [| Hlast]; [done |].
    unfold recompute. replace (hi_block end_ bs) with (lo_block base bs + 1); [done |].
    unfold hi_block, lo_block in *.
    enough (hi_block end_ bs < lo_block base bs + 2) by (unfold hi_block, lo_block in *; lia).
    apply Z.div_lt_upper_bound; unfold lo_block; lia.
  - exists st. split; [done |]. eapply repr_ext; [exact Hr | | done].
    intros o i. unfold recompute.
    destruct (Z.leb_spec (lo_block base bs) i), (Z.ltb_spec i (lo_block base bs));
      simpl; rewrite ?andb_false_r; (done || lia).
Qed.

(** The order [n] is recomputed in the blocks that meet the range; no bit
    outside of them changes, and the loop ends. *)
Lemma kpm_update_order_spec st B E base limit :
  repr nf st B E -> 0 <= base -> 0 <= limit -> base + limit <= nf * 4096 ->
  exists st', kpm_update_order st n base limit = Ok st' /\
              repr nf st' (recompute B n (lo_block base bs)
                             (if base <? base + limit then hi_block (base + limit) bs
                              else lo_block base bs)) E.
Proof using Hn.
  intros Hr Hb Hl Hin. pose proof bs_bounds as [Hbs Hpow].
  destruct (nf_range _ (wf_nf_ok _ _ (repr_wf _ _ _ _ Hr))).
  unfold kpm_update_order. rewrite (u32_small (base + limit)) by lia.
  rewrite Z.shiftl_1_l. rewrite (u32_small (PAGE_SIZE * 2 ^ n)) by (unfold PAGE_SIZE; lia).
  change (PAGE_SIZE * 2 ^ n) with bs.
  apply update_loop_spec; [done.. | | lia].
  assert (0 <= (base + limit - base) / bs) by (apply Z.div_pos; lia).
  rewrite Nat2Z.inj_succ, Z2Nat.id by lia.
  unfold hi_block, lo_block.
  pose proof (Z.mul_div_le (base + limit + bs - 1) bs).
  pose proof (Z.mul_succ_div_gt base bs). pose proof (Z.mul_succ_div_gt (base + limit - base) bs).
  nia.
Qed.
End update_order.

(** ** All the orders *)

(** The inner bits are the disjunction of their children. *)
Definition consistent (nf : Z) (B : Z -> Z -> bool) : Prop :=
  forall n i, 1 <= n <= 10 -> 0 <= i < nblocks nf n ->
    B n i = B (n - 1) (2 * i) || B (n - 1) (2 * i + 1).

(** Block [i] of order [n] meets the bytes from [base] up to [end_]. *)
Definition overlaps (base end_ n i : Z) : bool :=
  (base <? end_) && ((i * (4096 * 2 ^ n) <? end_) && (base <? (i + 1) * (4096 * 2 ^ n))).

Lemma overlaps_range base end_ n i : 0 <= n -> 0 <= base ->
  (lo_block base (4096 * 2 ^ n) <=? i) &&
  (i <? if base <? end_ then hi_block end_ (4096 * 2 ^ n)
        else lo_block base (4096 * 2 ^ n)) = overlaps base end_ n i.
Proof.
  intros Hn Hb. unfold overlaps, lo_block, hi_block.
  pose proof (Z.pow_pos_nonneg 2 n). set (bs := 4096 * 2 ^ n) in *.
  assert (0 < bs) by lia.
  pose proof (Z.mul_div_le base bs). pose proof (Z.mul_succ_div_gt base bs).
  pose proof (Z.mul_div_le (end_ + bs - 1) bs).
  pose proof (Z.mul_succ_div_gt (end_ + bs - 1) bs).
  destruct (Z.ltb_spec base end_), (Z.leb_spec (base / bs) i); simpl;
    repeat match goal with |- context [?a <? ?b] => destruct (Z.ltb_spec a b) end;
    simpl; (done || nia).
Qed.

(** A block outside of the range has its children outside of it. *)
Lemma overlaps_children base end_ n i : 1 <= n ->
  overlaps base end_ n i = false ->
  overlaps base end_ (n - 1) (2 * i) = false /\
  overlaps base end_ (n - 1) (2 * i + 1) = false.
Proof.
  intros Hn. unfold overlaps.
  assert (2 ^ n = 2 * 2 ^ (n - 1)) as ->.
  { rewrite <- Z.pow_succ_r by lia. f_equal. lia. }
  pose proof (Z.pow_pos_nonneg 2 (n - 1)). set (p := 2 ^ (n - 1)) in *.
  destruct (Z.ltb_spec base end_); simpl; [| done].
  repeat match goal with |- context [?a <? ?b] => destruct (Z.ltb_spec a b) end;
    simpl; intros; split; (done || nia).
Qed.

(** The states between two calls of [kpm_update_order]: [Bj] is what the
    orders hold when [j] is the next one to recompute. *)
Record updating (nf base end_ j : Z) (B Bj : Z -> Z -> bool) : Prop := mk_updating
  { upd_frames : forall f, Bj 0 f = B 0 f;
    upd_outside : forall m i, overlaps base end_ m i = false -> Bj m i = B m i;
    upd_later : forall m i, j <= m -> Bj m i = B m i;
    upd_padding : forall m i, ~ (0 <= i < nblocks nf m) -> Bj m i = B m i;
    upd_done : forall m i, 1 <= m < j -> 0 <= i < nblocks nf m ->
      Bj m i = Bj (m - 1) (2 * i) || Bj (m - 1) (2 * i + 1) }.

(** Only frames of the range differ from a consistent tree. *)
Definition changed_inside (nf base end_ : Z) (B : Z -> Z -> bool) : Prop :=
  forall n i, 1 <= n <= 10 -> 0 <= i < nblocks nf n -> overlaps base end_ n i = false ->
    B n i = B (n - 1) (2 * i) || B (n - 1) (2 * i + 1).

Lemma overlaps_in_order nf base end_ n i : nf_ok nf -> 0 <= n <= 10 ->
  0 <= base -> end_ <= nf * 4096 -> overlaps base end_ n i = true -> 0 <= i < nblocks nf n.
Proof.
  intros Hok Hn Hb He. unfold overlaps. rewrite !andb_true_iff, !Z.ltb_lt.
  intros (? & ? & ?). pose proof (nblocks_exact nf Hok n Hn).
  pose proof (Z.pow_pos_nonneg 2 n). nia.
Qed.

Lemma updating_step nf base end_ n B Bj :
  nf_ok nf -> 0 <= base -> end_ <= nf * 4096 -> 1 <= n <= 10 ->
  changed_inside nf base end_ B -> updating nf base end_ n B Bj ->
  updating nf base end_ (n + 1) B
    (fun o i => if (o =? n) && overlaps base end_ n i
                then Bj (n - 1) (2 * i) || Bj (n - 1) (2 * i + 1) else Bj o i).
Proof.
  intros Hok Hb He Hn Hch [Hf Ho Hl Hp Hd]. constructor.
  - intros f. rewrite (proj2 (Z.eqb_neq 0 n)) by lia. apply Hf.
  - intros m i Hm. destruct (Z.eqb_spec m n) as [-> |]; simpl; [rewrite Hm |]; by apply Ho.
  - intros m i Hm. rewrite (proj2 (Z.eqb_neq m n)) by lia. apply Hl. lia.
  - intros m i Hm. destruct (Z.eqb_spec m n) as [-> |]; simpl; [| by apply Hp].
    destruct (overlaps base end_ n i) eqn:E; [| by apply Hp].
    exfalso. apply Hm. eapply overlaps_in_order; (done || lia).
  - intros m i Hm Hi. rewrite (proj2 (Z.eqb_neq (m - 1) n)) by lia. simpl.
    destruct (Z.eqb_spec m n) as [-> |]; simpl; [| apply Hd; (done || lia)].
    destruct (overlaps base end_ n i) eqn:E; [done |].
    destruct (overlaps_children base end_ n i) as [E1 E2]; [lia | done |].
    rewrite !Ho by done. apply Hch; (done || lia).
Qed.

(** The call of [kpm_update_order] on every order rebuilds the tree above the
    frames of the range; it changes neither the frames nor the padding bits. *)
Lemma kpm_update_orders_spec nf st B E base limit :
  repr nf st B E -> 0 <= base -> 0 <= limit -> base + limit <= nf * 4096 ->
  changed_inside nf base (base + limit) B ->
  exists st' B', kpm_update_orders st base limit = Ok st' /\ repr nf st' B' E /\
    consistent nf B' /\ (forall f, B' 0 f = B 0 f) /\
    (forall m i, ~ (0 <= i < nblocks nf m) -> B' m i = B m i).
Proof.
  intros Hr Hb Hl He Hch. pose proof (wf_nf_ok _ _ (repr_wf _ _ _ _ Hr)) as Hok.
  unfold kpm_update_orders.
  destruct (for_loop_inv
    (fun j s => exists Bj, repr nf s Bj E /\ updating nf base (base + limit) j B Bj)
    10 (fun n s => kpm_update_order s n base limit) 1 st) as (st' & -> & B' & Hr' & Hu).
  - exists B. split; [done |]. constructor; intros; (done || lia).
  - intros n s Hn (Bj & Hrj & Hu).
    destruct (kpm_update_order_spec nf n ltac:(lia) s Bj E base limit Hrj)
      as (s' & -> & Hr'); [lia.. |].
    eexists. split; [done |]. eexists. split; [| apply updating_step; (done || lia)].
    eapply repr_ext; [exact Hr' | | done]. intros o i. unfold recompute.
    rewrite overlaps_range by lia. done.
  - exists st', B'. split; [done |]. split; [done |]. destruct Hu as [Hf _ _ Hp Hd].
    split; [| done]. intros n i Hn Hi. apply Hd; (done || lia).
Qed.

(** A block is free exactly when all of its frames are. *)
Lemma block_free_frames nf B n i :
  consistent nf B -> nf_ok nf -> 0 <= n <= 10 -> 0 <= i < nblocks nf n ->
  B n i = false <-> forall f, i * 2 ^ n <= f < (i + 1) * 2 ^ n -> B 0 f = false.
Proof.
  intros Hc Hok [Hn0 Hn]. revert Hn i. pattern n. apply natlike_ind; [| | done]; clear n Hn0.
  - intros _ i Hi. rewrite Z.pow_0_r. split.
    + intros H f Hf. by replace f with i by lia.
    + intros H. apply H. lia.
  - intros n Hn0 IH Hn i Hi. rewrite Z.pow_succ_r by lia.
    rewrite (Hc (Z.succ n) i) by lia. replace (Z.succ n - 1) with n by lia.
    pose proof (nblocks_double nf Hok (Z.succ n)).
    replace (Z.succ n - 1) with n in * by lia.
    rewrite orb_false_iff, (IH ltac:(lia) (2 * i)), (IH ltac:(lia) (2 * i + 1)) by lia.
    pose proof (Z.pow_pos_nonneg 2 n). split.
    + intros [H1 H2] f Hf. destruct (Z.lt_ge_cases f ((2 * i + 1) * 2 ^ n));
        [apply H1 | apply H2]; nia.
    + intros H'. split; intros f Hf; apply H'; nia.
Qed.

(** ** The invariant of the allocator *)

(** Page frame [f] is allocated, is enabled. *)
Definition frame_alloc (st : kpm) (f : Z) : bool := obit st 0 f.
Definition frame_enabled (st : kpm) (f : Z) : bool := ebit st f.

(** The bits of a bitmap's last byte that stand for no block are set. *)
Definition padded (nf : Z) (B : Z -> Z -> bool) : Prop :=
  forall o i, 0 <= o <= 10 -> nblocks nf o <= i < 8 * osz nf o -> B o i = true.

(** A disabled frame is marked as allocated. *)
Definition guarded (nf : Z) (B : Z -> Z -> bool) (E : Z -> bool) : Prop :=
  forall f, 0 <= f < nf -> E f = false -> B 0 f = true.

Record kpm_inv (nf : Z) (st : kpm) : Prop := mk_kpm_inv
  { inv_wf : wf nf st;
    inv_consistent : consistent nf (obit st);
    inv_padded : padded nf (obit st);
    inv_guarded : guarded nf (obit st) (ebit st) }.

Lemma repr_self nf st : wf nf st -> repr nf st (obit st) (ebit st).
Proof. intros. by constructor. Qed.

Lemma valid_order nf o i : nf_ok nf -> 0 <= o <= 10 -> 0 <= i < nblocks nf o ->
  0 <= i < 8 * osz nf o.
Proof. intros Hok Ho Hi. pose proof (osz_bits nf Hok o). lia. Qed.

Lemma repr_frame nf st B E f : repr nf st B E -> 0 <= f < nf ->
  frame_alloc st f = B 0 f /\ frame_enabled st f = E f.
Proof.
  intros Hr Hf. split; [| by apply (repr_enabled _ _ _ _ Hr)].
  apply (repr_order _ _ _ _ Hr); [lia |]. apply valid_order; [| lia | by rewrite nblocks_0].
  exact (wf_nf_ok _ _ (repr_wf _ _ _ _ Hr)).
Qed.

Lemma repr_consistent nf st B E :
  repr nf st B E -> consistent nf B -> consistent nf (obit st).
Proof.
  intros Hr Hc n i Hn Hi. pose proof (wf_nf_ok _ _ (repr_wf _ _ _ _ Hr)) as Hok.
  pose proof (nblocks_double nf Hok n Hn).
  rewrite !(repr_order _ _ _ _ Hr) by (try apply valid_order; (done || lia)).
  by apply Hc.
Qed.

(** From a state of the invariant whose frames were changed inside of a range,
    the update of the orders leads to a state of the invariant again. *)
Lemma rebuild_spec nf st st1 B1 E1 base limit :
  kpm_inv nf st -> repr nf st1 B1 E1 ->
  (forall o i, o <> 0 -> B1 o i = obit st o i) ->
  (forall f, overlaps base (base + limit) 0 f = false -> B1 0 f = obit st 0 f) ->
  guarded nf B1 E1 ->
  0 <= base -> 0 <= limit -> base + limit <= nf * 4096 ->
  exists st', kpm_update_orders st1 base limit = Ok st' /\ kpm_inv nf st' /\
    forall f, 0 <= f < nf -> frame_alloc st' f = B1 0 f /\ frame_enabled st' f = E1 f.
Proof.
  intros [Hwf Hc Hpad _] Hr Hup Hfr Hg Hb Hl He. pose proof (wf_nf_ok _ _ Hwf) as Hok.
  destruct (kpm_update_orders_spec nf st1 B1 E1 base limit Hr)
    as (st' & B' & -> & Hr' & Hc' & Hf' & Hp'); [done.. | |].
  - intros n i Hn Hi Hov. destruct (overlaps_children base (base + limit) n i) as [O1 O2];
      [lia | done |].
    rewrite Hup by lia. rewrite (Hc n i) by done.
    destruct (Z.eq_dec n 1) as [-> |].
    + change (1 - 1) with 0 in *. by rewrite !Hfr.
    + by rewrite !Hup by lia.
  - exists st'. split; [done |]. split.
    + constructor; [exact (repr_wf _ _ _ _ Hr') | by eapply repr_consistent | |].
      * intros o i Ho Hi. pose proof (nblocks_nonneg nf Hok o).
        rewrite (repr_order _ _ _ _ Hr') by lia. rewrite Hp' by lia.
        destruct (Z.eq_dec o 0) as [-> |].
        -- exfalso. pose proof (nf_1024 _ Hok). rewrite nblocks_0 in Hi.
           unfold osz in Hi. rewrite nblocks_0 in Hi. dlia.
        -- rewrite Hup by done. apply Hpad; (done || lia).
      * intros f Hf. destruct (repr_frame _ _ _ _ f Hr' Hf) as [Ha He'].
        unfold frame_alloc, frame_enabled in *. rewrite Ha, He', Hf'. by apply Hg.
    + intros f Hf. destruct (repr_frame _ _ _ _ f Hr' Hf) as [Ha He'].
      rewrite Ha, He', Hf'. done.
Qed.

(** ** Loops over the frames of a range *)

Definition in_range (lo n f : Z) : bool := (lo <=? f) && (f <? lo + n).

Definition set_range (B : Z -> Z -> bool) (lo n : Z) (b : bool) : Z -> Z -> bool :=
  fun o f => if (o =? 0) && in_range lo n f then b else B o f.
Definition set_range1 (E : Z -> bool) (lo n : Z) (b : bool) : Z -> bool :=
  fun f => if in_range lo n f then b else E f.

Lemma in_range_succ lo n f : 0 <= n ->
  in_range lo (n + 1) f = (f =? lo + n) || in_range lo n f.
Proof.
  intros. unfold in_range.
  destruct (Z.leb_spec lo f), (Z.ltb_spec f (lo + (n + 1))), (Z.ltb_spec f (lo + n)),
    (Z.eqb_spec f (lo + n)); simpl; (done || lia).
Qed.

Lemma in_range_0 lo f : in_range lo 0 f = false.
Proof. unfold in_range. destruct (Z.leb_spec lo f), (Z.ltb_spec f (lo + 0)); (done || lia). Qed.

Lemma set_range_succ B lo n b o f : 0 <= n ->
  upd (set_range B lo n b) 0 (lo + n) b o f = set_range B lo (n + 1) b o f.
Proof.
  intros. unfold upd, set_range. rewrite in_range_succ by done.
  by destruct (o =? 0), (f =? lo + n), (in_range lo n f).
Qed.

Lemma set_range1_succ E lo n b f : 0 <= n ->
  upd1 (set_range1 E lo n b) (lo + n) b f = set_range1 E lo (n + 1) b f.
Proof.
  intros. unfold upd1, set_range1. rewrite in_range_succ by done.
  by destruct (f =? lo + n), (in_range lo n f).
Qed.

Lemma set_range_0 B lo b o f : set_range B lo 0 b o f = B o f.
Proof. unfold set_range. rewrite in_range_0. by rewrite andb_false_r. Qed.

(** A frame of a range, seen from the bytes of the range. *)
Lemma range_overlaps base limit lo n f :
  base = lo * 4096 -> (n - 1) * 4096 < limit -> in_range lo n f = true ->
  overlaps base (base + limit) 0 f = true.
Proof.
  intros -> Hl H. unfold in_range in H. unfold overlaps. rewrite Z.pow_0_r.
  rewrite andb_true_iff, Z.leb_le, Z.ltb_lt in H.
  rewrite !andb_true_iff, !Z.ltb_lt. lia.
Qed.

Section frame_loops.
Context (nf : Z) (st : kpm) (B : Z -> Z -> bool) (E : Z -> bool)
        (Hr : repr nf st B E) (lo n : Z) (Hlo : 0 <= lo) (Hn : 0 <= n)
        (Hin : n = 0 \/ lo + n <= nf).

Lemma frame_valid f : 0 <= f < nf -> 0 <= f < 8 * osz nf 0.
Proof using Hr.
  intros Hf. apply valid_order; [| lia | by rewrite nblocks_0].
  exact (wf_nf_ok _ _ (repr_wf _ _ _ _ Hr)).
Qed.

Lemma nf_lt_u32 : nf < 4294967296.
Proof using Hr. destruct (nf_range _ (wf_nf_ok _ _ (repr_wf _ _ _ _ Hr))). lia. Qed.

Lemma enable_loop :
  exists st', for_loop (Z.to_nat n) 0 (fun i st =>
                st ← KPM_ENABLE st (u32 (lo + i)); KPM_FREE st 0 (u32 (lo + i))) st
              = Ok st' /\
    repr nf st' (set_range B lo n false) (set_range1 E lo n true).
Proof using All.
  pose proof nf_lt_u32.
  destruct (for_loop_inv (fun i s => repr nf s (set_range B lo i false)
                                       (set_range1 E lo i true))
    (Z.to_nat n) (fun i st => st ← KPM_ENABLE st (u32 (lo + i)); KPM_FREE st 0 (u32 (lo + i)))
    0 st) as (st' & Hst' & Hr').
  - eapply repr_ext; [exact Hr | intros; apply set_range_0 |].
    intros f. unfold set_range1. by rewrite in_range_0.
  - intros i s Hi Hs. rewrite u32_small by lia.
    destruct (KPM_ENABLE_spec nf s _ _ Hs (lo + i)) as (s1 & -> & Hs1); [lia |]. simpl.
    destruct (KPM_FREE_spec nf s1 _ _ Hs1 0 (lo + i)) as (s2 & -> & Hs2);
      [lia | apply frame_valid; lia |].
    eexists. split; [done |]. eapply repr_ext; [exact Hs2 | |]; intros; symmetry.
    + apply set_range_succ; lia.
    + apply set_range1_succ; lia.
  - exists st'. split; [done |]. rewrite Z2Nat.id in Hr' by lia. done.
Qed.

Lemma disable_loop :
  exists st', for_loop (Z.to_nat n) 0 (fun i st =>
                st ← KPM_DISABLE st (u32 (lo + i)); KPM_ALLOC st 0 (u32 (lo + i))) st
              = Ok st' /\
    repr nf st' (set_range B lo n true) (set_range1 E lo n false).
Proof using All.
  pose proof nf_lt_u32.
  destruct (for_loop_inv (fun i s => repr nf s (set_range B lo i true)
                                       (set_range1 E lo i false))
    (Z.to_nat n) (fun i st => st ← KPM_DISABLE st (u32 (lo + i)); KPM_ALLOC st 0 (u32 (lo + i)))
    0 st) as (st' & Hst' & Hr').
  - eapply repr_ext; [exact Hr | intros; apply set_range_0 |].
    intros f. unfold set_range1. by rewrite in_range_0.
  - intros i s Hi Hs. rewrite u32_small by lia.
    destruct (KPM_DISABLE_spec nf s _ _ Hs (lo + i)) as (s1 & -> & Hs1); [lia |]. simpl.
    destruct (KPM_ALLOC_spec nf s1 _ _ Hs1 0 (lo + i)) as (s2 & -> & Hs2);
      [lia | apply frame_valid; lia |].
    eexists. split; [done |]. eapply repr_ext; [exact Hs2 | |]; intros; symmetry.
    + apply set_range_succ; lia.
    + apply set_range1_succ; lia.
  - exists st'. split; [done |]. rewrite Z2Nat.id in Hr' by lia. done.
Qed.

Lemma alloc_loop :
  exists st', for_loop (Z.to_nat n) 0 (fun j st => KPM_ALLOC st 0 (u32 (lo + j))) st
              = Ok st' /\ repr nf st' (set_range B lo n true) E.
Proof using All.
  pose proof nf_lt_u32.
  destruct (for_loop_inv (fun i s => repr nf s (set_range B lo i true) E)
    (Z.to_nat n) (fun j st => KPM_ALLOC st 0 (u32 (lo + j))) 0 st) as (st' & Hst' & Hr').
  - eapply repr_ext; [exact Hr | intros; apply set_range_0 | done].
  - intros i s Hi Hs. rewrite u32_small by lia.
    destruct (KPM_ALLOC_spec nf s _ _ Hs 0 (lo + i)) as (s2 & -> & Hs2);
      [lia | apply frame_valid; lia |].
    eexists. split; [done |]. eapply repr_ext; [exact Hs2 | | done]; intros; symmetry.
    apply set_range_succ; lia.
  - exists st'. split; [done |]. rewrite Z2Nat.id in Hr' by lia. done.
Qed.

(** kpm_free clears the bits of the enabled frames only. *)
Lemma free_loop :
  exists st', for_loop (Z.to_nat n) lo (fun i st =>
                e ← KPM_IS_ENABLED st i; if e : bool then KPM_FREE st 0 i else Ok st) st
              = Ok st' /\
    repr nf st' (fun o f => if (o =? 0) && (in_range lo n f && E f) then false else B o f) E.
Proof using All.
  destruct (for_loop_inv (fun i s => repr nf s
      (fun o f => if (o =? 0) && (in_range lo (i - lo) f && E f) then false else B o f) E)
    (Z.to_nat n) (fun i st => e ← KPM_IS_ENABLED st i;
                              if e : bool then KPM_FREE st 0 i else Ok st) lo st)
    as (st' & Hst' & Hr').
  - eapply repr_ext; [exact Hr | | done]. intros o f.
    by rewrite Z.sub_diag, in_range_0, andb_false_r.
  - intros i s Hi Hs. rewrite (KPM_IS_ENABLED_spec nf s _ _ Hs) by lia. simpl.
    replace (i + 1 - lo) with (i - lo + 1) by lia.
    assert (forall f, in_range lo (i - lo + 1) f = (f =? i) || in_range lo (i - lo) f) as Hsucc.
    { intros f. rewrite in_range_succ by lia. by replace (lo + (i - lo)) with i by lia. }
    destruct (E i) eqn:Ei.
    + destruct (KPM_FREE_spec nf s _ _ Hs 0 i) as (s2 & -> & Hs2);
        [lia | apply frame_valid; lia |].
      eexists. split; [done |]. eapply repr_ext; [exact Hs2 | | done].
      intros o f. unfold upd. rewrite Hsucc.
      destruct (Z.eqb_spec o 0), (Z.eqb_spec f i) as [-> |]; simpl; rewrite ?Ei; done.
    + eexists. split; [done |]. eapply repr_ext; [exact Hs | | done].
      intros o f. rewrite Hsucc.
      destruct (Z.eqb_spec o 0), (Z.eqb_spec f i) as [-> |]; simpl;
        rewrite ?Ei, ?andb_false_r; done.
  - exists st'. split; [done |]. rewrite Z2Nat.id in Hr' by lia.
    replace (lo + n - lo) with n in Hr' by lia. done.
Qed.
End frame_loops.
