(* ===== verification/KpmOps.v ===== *)
(** The contract of the physical memory allocator: kpm_enable, kpm_disable,
    kpm_alloc and kpm_free preserve the invariant of the tree and change
    exactly the frames they are asked to. *)

From Stdlib Require Import ZArith Lia Bool.
From stdpp Require Import base tactics numbers list option.
From S2P Require Import Prelude Mem Kpm KpmBits KpmTree.
Import Kpm.

Local Open Scope Z_scope.

(** ** Enabling and disabling regions *)

(** The condition under which a region given to kpm_enable or kpm_disable is
    clamped to the managed memory: it starts inside of it, and its end is a
    32-bit address. *)
Definition region_ok (nf base len : Z) : Prop :=
  0 <= base <= nf * 4096 /\ 0 <= len /\ base + len < 4294967296.

Lemma clamp_spec nf base len :
  nf_ok nf -> region_ok nf base len -> base mod 4096 = 0 -> len mod 4096 = 0 ->
  exists n, (if u32 (base + len) / PAGE_SIZE >? nf
             then u32 (u32 (nf * PAGE_SIZE) - base) else len) = n * 4096 /\
    0 <= n /\ base / 4096 + n <= nf /\
    forall f, 0 <= f < nf ->
      in_range (base / 4096) n f = in_range (base / 4096) (len / 4096) f.
Proof.
  intros Hok (Hb & Hl & Hw) Ha1 Ha2. destruct (nf_range _ Hok). unfold PAGE_SIZE.
  rewrite (u32_small (base + len)) by lia. rewrite (u32_small (nf * 4096)) by lia.
  destruct (Z.gtb_spec ((base + len) / 4096) nf) as [Hc | Hc].
  - exists (nf - base / 4096). rewrite u32_small by lia.
    split_and!; [dlia | dlia | lia |]. intros f Hf. unfold in_range.
    destruct (Z.leb_spec (base / 4096) f), (Z.ltb_spec f (base / 4096 + (nf - base / 4096))),
      (Z.ltb_spec f (base / 4096 + len / 4096)); simpl; (done || dlia).
  - exists (len / 4096). split_and!; [dlia | dlia | dlia | done].
Qed.

Lemma enable_spec nf st base limit :
  kpm_inv nf st -> base mod 4096 = 0 -> 0 <= limit < 4294967296 ->
  region_ok nf base (limit / 4096 * 4096) ->
  exists st', kpm_enable st base limit = Ok st' /\ kpm_inv nf st' /\
    forall f, 0 <= f < nf ->
      let inside := in_range (base / 4096) (limit / 4096) f in
      frame_enabled st' f = inside || frame_enabled st f /\
      frame_alloc st' f = negb inside && frame_alloc st f.
Proof.
  intros Hinv Hal Hlim Hreg. pose proof (inv_wf _ _ Hinv) as Hwf.
  pose proof (wf_nf_ok _ _ Hwf) as Hok. destruct (nf_range _ Hok). destruct Hreg as (Hb & Hl & Hw).
  unfold kpm_enable. rewrite ISALIGNED_page by lia. rewrite Hal. simpl.
  rewrite ALIGN_page by lia. rewrite (wf_nf _ _ Hwf).
  destruct (clamp_spec nf base (limit / 4096 * 4096) Hok) as (n & -> & Hn0 & Hn & Hrng);
    [done.. | dlia |].
  replace (n * 4096 / PAGE_SIZE) with n by (unfold PAGE_SIZE; dlia).
  replace (base / PAGE_SIZE) with (base / 4096) by done.
  destruct (enable_loop nf st _ _ (repr_self nf st Hwf) (base / 4096) n)
    as (st1 & -> & Hr1); [dlia | done | by right |]. simpl.
  destruct (rebuild_spec nf st st1 _ _ base (n * 4096) Hinv Hr1)
    as (st' & -> & Hinv' & Hfr); [.. | lia | lia | dlia |].
  - intros o i Ho. unfold set_range. by rewrite (proj2 (Z.eqb_neq o 0)).
  - intros f Hov. unfold set_range. simpl.
    destruct (in_range (base / 4096) n f) eqn:Ein; [| done].
    apply (range_overlaps base (n * 4096)) in Ein; [congruence | dlia | lia].
  - intros f Hf. unfold set_range, set_range1. simpl.
    destruct (in_range (base / 4096) n f); [done |]. by apply (inv_guarded _ _ Hinv).
  - exists st'. split; [done |]. split; [done |]. intros f Hf.
    destruct (Hfr f Hf) as [-> ->]. unfold set_range, set_range1. simpl.
    rewrite Hrng by done.
    replace (limit / 4096 * 4096 / 4096) with (limit / 4096) by dlia.
    by destruct (in_range (base / 4096) (limit / 4096) f).
Qed.

Lemma disable_spec nf st base limit :
  kpm_inv nf st -> base mod 4096 = 0 -> 0 <= limit -> limit + 4095 < 4294967296 ->
  region_ok nf base ((limit + 4095) / 4096 * 4096) ->
  exists st', kpm_disable st base limit = Ok st' /\ kpm_inv nf st' /\
    forall f, 0 <= f < nf ->
      let inside := in_range (base / 4096) ((limit + 4095) / 4096) f in
      frame_enabled st' f = negb inside && frame_enabled st f /\
      frame_alloc st' f = inside || frame_alloc st f.
Proof.
  intros Hinv Hal Hl0 Hlim Hreg. pose proof (inv_wf _ _ Hinv) as Hwf.
  pose proof (wf_nf_ok _ _ Hwf) as Hok. destruct (nf_range _ Hok).
  assert (0 <= base <= nf * 4096) by (destruct Hreg; lia).
  unfold kpm_disable. rewrite (ISALIGNED_page base), (ISALIGNED_page limit) by lia.
  rewrite Hal. simpl. rewrite ALIGNNEXT_page, (wf_nf _ _ Hwf) by lia.
  set (len := (limit + 4095) / 4096 * 4096) in *.
  assert ((if negb (limit mod 4096 =? 0) then len else limit) = len) as ->.
  { subst len. destruct (Z.eqb_spec (limit mod 4096) 0); simpl; [dlia | done]. }
  destruct (clamp_spec nf base len Hok Hreg) as (n & -> & Hn0 & Hn & Hrng);
    [done | subst len; dlia |].
  replace (n * 4096 / PAGE_SIZE) with n by (unfold PAGE_SIZE; dlia).
  replace (base / PAGE_SIZE) with (base / 4096) by done.
  destruct (disable_loop nf st _ _ (repr_self nf st Hwf) (base / 4096) n)
    as (st1 & -> & Hr1); [dlia | done | by right |]. simpl.
  destruct (rebuild_spec nf st st1 _ _ base (n * 4096) Hinv Hr1)
    as (st' & -> & Hinv' & Hfr); [.. | lia | lia | dlia |].
  - intros o i Ho. unfold set_range. by rewrite (proj2 (Z.eqb_neq o 0)).
  - intros f Hov. unfold set_range. simpl.
    destruct (in_range (base / 4096) n f) eqn:Ein; [| done].
    apply (range_overlaps base (n * 4096)) in Ein; [congruence | dlia | lia].
  - intros f Hf. unfold set_range, set_range1. simpl.
    destruct (in_range (base / 4096) n f); [done |]. by apply (inv_guarded _ _ Hinv).
  - exists st'. split; [done |]. split; [done |]. intros f Hf.
    destruct (Hfr f Hf) as [-> ->]. unfold set_range, set_range1. simpl.
    rewrite Hrng by done.
    replace (len / 4096) with ((limit + 4095) / 4096) by (subst len; dlia).
    by destruct (in_range (base / 4096) ((limit + 4095) / 4096) f).
Qed.

(** ** Releasing memory *)

(** kpm_free on any page-aligned chunk of the managed memory. *)
Lemma free_spec nf st chunk :
  kpm_inv nf st -> chunk_addr chunk mod 4096 = 0 ->
  0 <= chunk_addr chunk -> 0 <= chunk_size chunk ->
  chunk_addr chunk + chunk_size chunk <= nf * 4096 ->
  exists st', kpm_free st chunk = Ok st' /\ kpm_inv nf st' /\
    forall f, 0 <= f < nf ->
      let inside := in_range (chunk_addr chunk / 4096) ((chunk_size chunk + 4095) / 4096) f in
      frame_enabled st' f = frame_enabled st f /\
      frame_alloc st' f = frame_alloc st f && negb (inside && frame_enabled st f).
Proof.
  destruct chunk as [addr size]. simpl. intros Hinv Hal Ha Hs Hin.
  pose proof (inv_wf _ _ Hinv) as Hwf. pose proof (wf_nf_ok _ _ Hwf) as Hok.
  destruct (nf_range _ Hok). unfold kpm_free. simpl.
  rewrite ISALIGNED_page by lia. rewrite Hal. simpl. rewrite ALIGNNEXT_page by lia.
  replace ((size + 4095) / 4096 * 4096 / PAGE_SIZE) with ((size + 4095) / 4096)
    by (unfold PAGE_SIZE; dlia).
  replace (addr / PAGE_SIZE) with (addr / 4096) by done.
  set (n := (size + 4095) / 4096).
  destruct (free_loop nf st _ _ (repr_self nf st Hwf) (addr / 4096) n)
    as (st1 & -> & Hr1); [dlia | subst n; dlia | right; subst n; dlia |]. simpl.
  destruct (rebuild_spec nf st st1 _ _ addr size Hinv Hr1)
    as (st' & -> & Hinv' & Hfr); [.. | lia | lia | lia |].
  - intros o i Ho. by rewrite (proj2 (Z.eqb_neq o 0)).
  - intros f Hov. simpl. destruct (in_range (addr / 4096) n f) eqn:Ein; [| done].
    apply (range_overlaps addr size) in Ein; [congruence | dlia | subst n; dlia].
  - intros f Hf He. simpl. rewrite He, andb_false_r. by apply (inv_guarded _ _ Hinv).
  - exists st'. split; [done |]. split; [done |]. intros f Hf.
    destruct (Hfr f Hf) as [-> ->]. simpl. split; [done |].
    unfold frame_alloc, frame_enabled.
    destruct (in_range (addr / 4096) n f), (ebit st f), (obit st 0 f); done.
Qed.

(** ** Allocation *)

Lemma find_order_spec nfr k : forall n, 0 <= n -> n + Z.of_nat k = 11 ->
  let o := find_order k n nfr in
  (n <= o \/ o = 10) /\ 0 <= o <= 10 /\
  (nfr <= 2 ^ o \/ o = 10) /\ forall m, n <= m < o -> 2 ^ m < nfr.
Proof.
  induction k as [| k IH]; intros n Hn Hk; simpl.
  - unfold KPM_NORDERS. repeat split; try lia.
  - rewrite Z.shiftl_1_l. destruct (Z.geb_spec (2 ^ n) nfr) as [Hge | Hlt].
    + repeat split; lia.
    + destruct (IH (n + 1)) as (H1 & H2 & H3 & H4); [lia.. |].
      split; [lia |]. split; [done |]. split; [done |].
      intros m Hm. destruct (Z.eq_dec m n) as [-> |]; [lia |]. apply H4. lia.
Qed.

(** The chosen order is the smallest one whose blocks hold the request, and the
    largest order when none does. *)
Lemma best_fit_spec size :
  0 <= size -> size + 4095 < 4294967296 ->
  let o := find_best_fit_order size in
  0 <= o <= 10 /\ (size <= 4096 * 2 ^ o \/ o = 10) /\
  forall m, 0 <= m < o -> 4096 * 2 ^ m < size.
Proof.
  intros H0 H1. unfold find_best_fit_order. rewrite ALIGNNEXT_page by lia.
  replace ((size + 4095) / 4096 * 4096 / PAGE_SIZE) with ((size + 4095) / 4096)
    by (unfold PAGE_SIZE; dlia).
  destruct (find_order_spec ((size + 4095) / 4096) 11 0) as (_ & H2 & H3 & H4); [lia.. |].
  split; [done |]. split.
  - destruct H3 as [H3 | H3]; [left; dlia | by right].
  - intros m Hm. specialize (H4 m Hm). dlia.
Qed.

(** The rounding of the request wraps around: a request of more than
    4 GiB - 4 KiB is given the smallest order. *)
Lemma best_fit_wraps size :
  4294963200 < size < 4294967296 -> find_best_fit_order size = 0.
Proof.
  intros Hs. unfold find_best_fit_order.
  enough (ALIGNNEXT size PAGE_SIZE = 0) as -> by done.
  unfold ALIGNNEXT, PAGE_SIZE. rewrite (u32_small size) by lia.
  change 4096 with (2 ^ 12). change 0xffffffff with (2 ^ 32 - 1).
  rewrite land_clear_mask by (split; unfold u32; dlia || lia). unfold u32. dlia.
Qed.

Lemma builtin_ffs_spec x : 0 <= x < 256 ->
  (builtin_ffs x = 0 /\ forall k, 0 <= k < 8 -> Z.testbit x k = false) \/
  (1 <= builtin_ffs x <= 8 /\ Z.testbit x (builtin_ffs x - 1) = true /\
   forall k, 0 <= k < builtin_ffs x - 1 -> Z.testbit x k = false).
Proof.
  intros Hx. unfold builtin_ffs.
  destruct (list_find _ (seqZ 0 32)) as [[j k] |] eqn:E; [right | left].
  - apply list_find_Some in E as (Hj & Hk & Hmin). apply lookup_seqZ in Hj as [-> Hj].
    replace (0 + Z.of_nat j + 1 - 1) with (0 + Z.of_nat j) by lia.
    split_and!; [lia | | done |].
    + destruct (Z.lt_ge_cases (0 + Z.of_nat j) 8); [lia |].
      rewrite (Z.bits_above_log2 x) in Hk; [done | lia |].
      destruct (Z.eq_dec x 0) as [-> |]; [simpl; lia |].
      apply Z.log2_lt_pow2; [lia |].
      apply Z.lt_le_trans with (2 ^ 8); [lia | apply Z.pow_le_mono_r; lia].
    + intros k' Hk'. destruct (Z.testbit x k') eqn:Et; [| done]. exfalso.
      apply (Hmin (Z.to_nat k') k'); [| lia | done].
      apply lookup_seqZ. lia.
  - split; [done |]. intros k Hk. destruct (Z.testbit x k) eqn:Et; [| done]. exfalso.
    apply list_find_None in E. rewrite Forall_forall in E.
    apply (E k); [| done]. apply list_elem_of_In, elem_of_seqZ. lia.
Qed.

Lemma testbit_u8_lnot b j : 0 <= j < 8 ->
  Z.testbit (u8 (Z.lnot b)) j = negb (Z.testbit b j).
Proof. intros. rewrite testbit_u8, Z.lnot_spec by lia. done. Qed.

Lemma bitmap_ffu_loop_spec st off k : forall i,
  0 <= off -> 0 <= i -> off + i + Z.of_nat k <= zlen (heap st) ->
  i + Z.of_nat k <= 131072 ->
  (bitmap_ffu_loop st (heap_base st + off) i k = Ok (-1) /\
   forall j, 8 * i <= j < 8 * (i + Z.of_nat k) -> gbit (heap st) (8 * off + j) = true) \/
  (exists r, bitmap_ffu_loop st (heap_base st + off) i k = Ok r /\
   8 * i <= r < 8 * (i + Z.of_nat k) /\ gbit (heap st) (8 * off + r) = false /\
   forall j, 8 * i <= j < r -> gbit (heap st) (8 * off + j) = true).
Proof.
  induction k as [| k IH]; intros i Hoff Hi Hin Hsz; simpl.
  - left. split; [done |]. lia.
  - unfold load8. replace (heap_base st + off + i - heap_base st) with (off + i) by lia.
    rewrite (rd_ok 0) by lia. simpl. set (b := at_ 0 (heap st) (off + i)).
    assert (forall m, 0 <= m < 8 ->
      gbit (heap st) (8 * off + (8 * i + m)) = negb (Z.testbit (u8 (Z.lnot b)) m)) as Hbit.
    { intros m Hm. rewrite testbit_u8_lnot, negb_involutive by done. unfold gbit.
      subst b. f_equal; [f_equal; dlia | dlia]. }
    destruct (builtin_ffs_spec (u8 (Z.lnot b))) as [[-> Hz] | (Hr & Ht & Hmin)].
    { apply u8_range. }
    + simpl. destruct (IH (i + 1)) as [[-> Hall] | (r & -> & Hr & Hf & Hmin)]; [lia.. | |].
      * left. split; [done |]. intros j Hj.
        destruct (Z.lt_ge_cases j (8 * (i + 1))); [| apply Hall; lia].
        replace j with (8 * i + (j - 8 * i)) by lia. rewrite Hbit, Hz by lia. done.
      * right. exists r. split; [done |]. split; [lia |]. split; [done |]. intros j Hj.
        destruct (Z.lt_ge_cases j (8 * (i + 1))); [| apply Hmin; lia].
        replace j with (8 * i + (j - 8 * i)) by lia. rewrite Hbit, Hz by lia. done.
    + rewrite (proj2 (Z.eqb_neq _ 0)) by lia. simpl.
      rewrite (u32_small (i * 8)), i32_small by lia. right.
      set (q := builtin_ffs (u8 (Z.lnot b))) in *.
      exists (q + i * 8 - 1). split; [done |]. split; [lia |].
      replace (q + i * 8 - 1) with (8 * i + (q - 1)) by lia.
      split; [rewrite Hbit, Ht by lia; done |]. intros j Hj.
      replace j with (8 * i + (j - 8 * i)) by lia. rewrite Hbit, Hmin by lia. done.
Qed.

Section bitmaps.
Context (nf : Z) (st : kpm) (Hwf : wf nf st) (o : Z) (Ho : 0 <= o <= 10).

Lemma osz_bound : 0 <= osz nf o <= 131072.
Proof using Hwf Ho.
  pose proof (wf_nf_ok _ _ Hwf) as Hok. pose proof (nblocks_le nf Hok o).
  pose proof (osz_bits nf Hok o). pose proof (osz_nonneg nf Hok o).
  destruct (nf_range _ Hok). lia.
Qed.

(** bitmap_ffu returns the lowest clear bit of the bitmap of an order, -1
    when all its bits are set. *)
Lemma bitmap_ffu_spec :
  let r := bitmap_ffu st (heap_base st + ooff nf o) (osz nf o) in
  (r = Ok (-1) /\ forall i, 0 <= i < 8 * osz nf o -> obit st o i = true) \/
  (exists i, r = Ok i /\ 0 <= i < 8 * osz nf o /\ obit st o i = false /\
     forall j, 0 <= j < i -> obit st o j = true).
Proof using Hwf Ho.
  pose proof osz_bound. pose proof (wf_nf_ok _ _ Hwf) as Hok.
  pose proof (ooff_pos nf Hok o). destruct (nf_range _ Hok).
  pose proof (ooff_lt nf Hok o 11). pose proof (wf_heap _ _ Hwf).
  unfold bitmap_ffu, obit. rewrite (wf_nf _ _ Hwf).
  destruct (bitmap_ffu_loop_spec st (ooff nf o) (Z.to_nat (osz nf o)) 0)
    as [[-> Hall] | (r & -> & Hr & Hf & Hmin)]; [dlia | lia.. | |].
  - left. split; [done |]. intros i Hi. apply Hall. lia.
  - right. exists r. split; [done |]. split; [lia |]. split; [done |].
    intros j Hj. apply Hmin. lia.
Qed.
End bitmaps.

(** The chunk made of block [i] of order [o]. *)
Definition block_chunk (o i : Z) : kpm_chunk_t :=
  mk_chunk (i * 4096 * 2 ^ o) (4096 * 2 ^ o).

(** Taking a free block: the frames of the block become allocated. *)
Lemma take_block_spec nf st o i :
  kpm_inv nf st -> 0 <= o <= 10 -> 0 <= i < nblocks nf o ->
  exists st', (let fpb := Z.shiftl 1 o in
    st ← for_loop (Z.to_nat fpb) 0 (fun j st => KPM_ALLOC st 0 (u32 (u32 (i * fpb) + j))) st;
    let chunk := mk_chunk (u32 (i32 (i * PAGE_SIZE) * fpb)) (u32 (PAGE_SIZE * fpb)) in
    st ← kpm_update_orders st (chunk_addr chunk) (chunk_size chunk);
    Ok (0, chunk, st)) = Ok (0, block_chunk o i, st') /\ kpm_inv nf st' /\
    forall f, 0 <= f < nf ->
      frame_enabled st' f = frame_enabled st f /\
      frame_alloc st' f = in_range (i * 2 ^ o) (2 ^ o) f || frame_alloc st f.
Proof.
  intros Hinv Ho Hi. pose proof (inv_wf _ _ Hinv) as Hwf.
  pose proof (wf_nf_ok _ _ Hwf) as Hok. destruct (nf_range _ Hok).
  pose proof (pow2_order o Ho). pose proof (nblocks_exact nf Hok o Ho).
  set (p := 2 ^ o) in *. cbv zeta. rewrite Z.shiftl_1_l. fold p.
  assert (i * p + p <= nf) as Hblk by nia.
  rewrite (u32_small (i * p)) by nia. unfold PAGE_SIZE.
  rewrite (u32_small (4096 * p)) by lia.
  assert (u32 (i32 (i * 4096) * p) = i * 4096 * p) as ->.
  { rewrite u32_mul_i32. apply u32_small. nia. }
  destruct (alloc_loop nf st _ _ (repr_self nf st Hwf) (i * p) p)
    as (st1 & -> & Hr1); [nia | lia | right; lia |]. simpl.
  destruct (rebuild_spec nf st st1 _ _ (i * 4096 * p) (4096 * p) Hinv Hr1)
    as (st' & -> & Hinv' & Hfr); [.. | nia | lia | nia |].
  - intros o' j Ho'. unfold set_range. by rewrite (proj2 (Z.eqb_neq o' 0)).
  - intros f Hov. unfold set_range. simpl.
    destruct (in_range (i * p) p f) eqn:Ein; [| done].
    apply (range_overlaps (i * 4096 * p) (4096 * p)) in Ein; [congruence | lia | lia].
  - intros f Hf He. unfold set_range. simpl.
    destruct (in_range (i * p) p f); [done |]. by apply (inv_guarded _ _ Hinv).
  - exists st'. split; [done |]. split; [done |]. intros f Hf.
    destruct (Hfr f Hf) as [-> ->]. unfold set_range. simpl. split; [done |].
    by destruct (in_range (i * p) p f).
Qed.

(** What kpm_alloc can do when it starts its search at order [o]. *)
Definition alloc_outcome (nf : Z) (st : kpm) (chunk : kpm_chunk_t) (o : Z)
    (r : result (Z * kpm_chunk_t * kpm)) : Prop :=
  (r = Ok (-1, chunk, st) /\ forall f, 0 <= f < nf -> frame_alloc st f = true) \/
  (exists o' i st', r = Ok (0, block_chunk o' i, st') /\ kpm_inv nf st' /\
     0 <= o' <= o /\ 0 <= i < nblocks nf o' /\ obit st o' i = false /\
     (forall j, 0 <= j < i -> obit st o' j = true) /\
     (forall m j, o' < m <= o -> 0 <= j < nblocks nf m -> obit st m j = true) /\
     forall f, 0 <= f < nf ->
       frame_enabled st' f = frame_enabled st f /\
       frame_alloc st' f = in_range (i * 2 ^ o') (2 ^ o') f || frame_alloc st f).

Lemma kpm_alloc_loop_spec nf st chunk (o : nat) :
  kpm_inv nf st -> Z.of_nat o <= 10 ->
  alloc_outcome nf st chunk (Z.of_nat o) (kpm_alloc_loop st chunk o).
Proof.
  intros Hinv. pose proof (inv_wf _ _ Hinv) as Hwf. pose proof (wf_nf_ok _ _ Hwf) as Hok.
  assert (forall k, Z.of_nat k <= 10 -> forall i, 0 <= i < 8 * osz nf (Z.of_nat k) ->
    obit st (Z.of_nat k) i = false -> 0 <= i < nblocks nf (Z.of_nat k)) as Hreal.
  { intros k Hk i Hi Hb. destruct (Z.lt_ge_cases i (nblocks nf (Z.of_nat k))); [lia |].
    rewrite (inv_padded _ _ Hinv) in Hb by lia. done. }
  induction o as [| o IH]; intros Ho; unfold kpm_alloc_loop; fold kpm_alloc_loop;
    rewrite (wf_orders _ _ Hwf) by lia; cbn [mbind result_bind bitmap order_size].
  - destruct (bitmap_ffu_spec nf st Hwf (Z.of_nat 0)) as [[-> Hall] | (i & -> & Hi & Hb & Hmin)];
      [lia | |]; cbn [mbind result_bind].
    + left. split; [done |]. intros f Hf. apply Hall.
      apply valid_order; [done | lia |]. by rewrite nblocks_0.
    + rewrite (proj2 (Z.geb_le i 0)) by lia. right.
      destruct (take_block_spec nf st (Z.of_nat 0) i Hinv) as (st' & Heq & Hinv' & Hfr);
        [lia | by apply Hreal |].
      pose proof (Hreal 0%nat ltac:(lia) i Hi Hb). change (Z.of_nat 0) with 0 in *.
      exists 0, i, st'. split; [exact Heq |]. split_and!;
        first [done | lia | intros; lia].
  - destruct (bitmap_ffu_spec nf st Hwf (Z.of_nat (S o))) as [[-> Hall] | (i & -> & Hi & Hb & Hmin)];
      [lia | |]; cbn [mbind result_bind].
    + change (-1 >=? 0) with false. cbv iota.
      destruct IH as [[-> Hfull] | (o' & i & st' & -> & H1 & H2 & H3 & H4 & H5 & H6 & H7)];
        [lia | by left |].
      right. exists o', i, st'. split_and!; try done; try lia.
      intros m j Hm Hj. destruct (Z.eq_dec m (Z.of_nat (S o))) as [-> |].
      * apply Hall. apply valid_order; (done || lia).
      * apply H6; (done || lia).
    + rewrite (proj2 (Z.geb_le i 0)) by lia. right.
      destruct (take_block_spec nf st (Z.of_nat (S o)) i Hinv) as (st' & Heq & Hinv' & Hfr);
        [lia | by apply Hreal |].
      pose proof (Hreal (S o) ltac:(lia) i Hi Hb).
      exists (Z.of_nat (S o)), i, st'. split; [exact Heq |]. split_and!;
        first [done | lia | intros; lia].
Qed.

Lemma kpm_alloc_cases nf st chunk size :
  kpm_inv nf st -> 0 <= size -> size + 4095 < 4294967296 ->
  alloc_outcome nf st chunk (find_best_fit_order size) (kpm_alloc st chunk size).
Proof.
  intros Hinv H0 H1. destruct (best_fit_spec size) as ([? ?] & _); [done.. |].
  unfold kpm_alloc.
  pose proof (kpm_alloc_loop_spec nf st chunk (Z.to_nat (find_best_fit_order size)) Hinv) as H'.
  rewrite Z2Nat.id in H' by lia. apply H'. lia.
Qed.

(** The frames of a chunk. *)
Definition in_chunk (c : kpm_chunk_t) (f : Z) : bool :=
  in_range (chunk_addr c / 4096) (chunk_size c / 4096) f.

(** A chunk of the shape kpm_alloc returns: a block of one of the orders. *)
Definition chunk_ok (nf : Z) (c : kpm_chunk_t) : Prop :=
  exists o i, 0 <= o <= 10 /\ 0 <= i < nblocks nf o /\ c = block_chunk o i.

Lemma in_block_chunk o i f : 0 <= o ->
  in_chunk (block_chunk o i) f = in_range (i * 2 ^ o) (2 ^ o) f.
Proof.
  intros. unfold in_chunk, block_chunk. simpl.
  pose proof (Z.pow_pos_nonneg 2 o).
  replace (i * 4096 * 2 ^ o) with (i * 2 ^ o * 4096) by lia.
  replace (4096 * 2 ^ o) with (2 ^ o * 4096) by lia. by rewrite !Z.div_mul.
Qed.

Lemma chunk_ok_bounds nf c : nf_ok nf -> chunk_ok nf c ->
  0 <= chunk_addr c /\ 4096 <= chunk_size c /\ chunk_addr c + chunk_size c <= nf * 4096 /\
  chunk_addr c mod 4096 = 0 /\ chunk_size c mod 4096 = 0 /\
  chunk_addr c mod chunk_size c = 0.
Proof.
  intros Hok (o & i & Ho & Hi & ->). simpl. pose proof (pow2_order o Ho).
  pose proof (nblocks_exact nf Hok o Ho). set (p := 2 ^ o) in *.
  split_and!; [nia | lia | nia | | |].
  - replace (i * 4096 * p) with (i * p * 4096) by lia. apply Z.mod_mul. lia.
  - replace (4096 * p) with (p * 4096) by lia. apply Z.mod_mul. lia.
  - replace (i * 4096 * p) with (i * (4096 * p)) by lia. apply Z.mod_mul. lia.
Qed.

(** The frames of a free block are enabled frames of the managed memory. *)
Lemma free_block_frames nf st o i f :
  kpm_inv nf st -> 0 <= o <= 10 -> 0 <= i < nblocks nf o -> obit st o i = false ->
  in_range (i * 2 ^ o) (2 ^ o) f = true ->
  0 <= f < nf /\ frame_alloc st f = false /\ frame_enabled st f = true.
Proof.
  intros Hinv Ho Hi Hb Hf. pose proof (wf_nf_ok _ _ (inv_wf _ _ Hinv)) as Hok.
  unfold in_range in Hf. rewrite andb_true_iff, Z.leb_le, Z.ltb_lt in Hf.
  pose proof (pow2_order o Ho). pose proof (nblocks_exact nf Hok o Ho).
  assert (0 <= f < nf) as Hfr by nia.
  assert (obit st 0 f = false) as Hzero.
  { apply (block_free_frames nf (obit st) o i (inv_consistent _ _ Hinv)); (done || lia). }
  split; [done |]. split; [done |]. unfold frame_enabled.
  destruct (ebit st f) eqn:E; [done |]. by rewrite (inv_guarded _ _ Hinv f Hfr E) in Hzero.
Qed.

Lemma alloc_success nf st chunk size c st' :
  kpm_inv nf st -> 0 <= size -> size + 4095 < 4294967296 ->
  kpm_alloc st chunk size = Ok (0, c, st') ->
  chunk_ok nf c /\ kpm_inv nf st' /\
  (forall f, in_chunk c f = true ->
     0 <= f < nf /\ frame_alloc st f = false /\ frame_enabled st f = true) /\
  (forall f, 0 <= f < nf ->
     frame_enabled st' f = frame_enabled st f /\
     frame_alloc st' f = in_chunk c f || frame_alloc st f).
Proof.
  intros Hinv H0 H1 Heq.
  destruct (best_fit_spec size H0 H1) as ([_ Hbest] & _).
  destruct (kpm_alloc_cases nf st chunk size Hinv H0 H1)
    as [[E _] | (o & i & s & E & Hinv' & Ho & Hi & Hb & _ & _ & Hfr)];
    rewrite E in Heq; [done |]. injection Heq as <- <-.
  assert (0 <= o <= 10) as Ho' by lia. split; [by exists o, i |]. split; [done |].
  split.
  - intros f. rewrite in_block_chunk by lia. by apply free_block_frames.
  - intros f Hf. rewrite in_block_chunk by lia. by apply Hfr.
Qed.

Lemma alloc_or_full nf st chunk size :
  kpm_inv nf st -> 0 <= size -> size + 4095 < 4294967296 ->
  (exists c st', kpm_alloc st chunk size = Ok (0, c, st') /\
     exists f, 0 <= f < nf /\ frame_alloc st f = false) \/
  (kpm_alloc st chunk size = Ok (-1, chunk, st) /\
     forall f, 0 <= f < nf -> frame_alloc st f = true).
Proof.
  intros Hinv H0 H1.
  destruct (best_fit_spec size H0 H1) as ([_ Hbest] & _).
  destruct (kpm_alloc_cases nf st chunk size Hinv H0 H1)
    as [? | (o & i & s & E & _ & Ho & Hi & Hb & _)]; [by right | left].
  exists (block_chunk o i), s. split; [done |]. exists (i * 2 ^ o).
  destruct (free_block_frames nf st o i (i * 2 ^ o) Hinv) as (? & ? & _);
    [lia | done.. | | done].
  unfold in_range. pose proof (Z.pow_pos_nonneg 2 o).
  rewrite andb_true_iff, Z.leb_le, Z.ltb_lt. lia.
Qed.

(** Best fit: when block [j] of an order up to the best fit of the request is
    free, [kpm_alloc] succeeds with a block at least as large, never larger than
    the best fit, and it is not behind [j] if it has the same size. *)
Theorem kpm_alloc_best_fit nf st chunk size m j :
  kpm_inv nf st -> 0 <= size -> size + 4095 < 4294967296 ->
  0 <= m <= find_best_fit_order size -> 0 <= j < nblocks nf m ->
  (forall f, j * 2 ^ m <= f < (j + 1) * 2 ^ m -> frame_alloc st f = false) ->
  exists c st', kpm_alloc st chunk size = Ok (0, c, st') /\
    4096 * 2 ^ m <= chunk_size c <= 4096 * 2 ^ find_best_fit_order size /\
    (chunk_size c = 4096 * 2 ^ m -> chunk_addr c <= j * 4096 * 2 ^ m).
Proof.
  intros Hinv H0 H1 Hm Hj Hfree. pose proof (wf_nf_ok _ _ (inv_wf _ _ Hinv)) as Hok.
  destruct (best_fit_spec size H0 H1) as ([_ Hbest] & _).
  assert (obit st m j = false) as Hbit.
  { apply (block_free_frames nf (obit st) m j (inv_consistent _ _ Hinv)); (done || lia). }
  destruct (kpm_alloc_cases nf st chunk size Hinv H0 H1)
    as [[_ Hfull] | (o & i & s & E & _ & Ho & Hi & Hb & Hmin & Hbig & _)].
  - exfalso. pose proof (pow2_order m ltac:(lia)). pose proof (nblocks_exact nf Hok m ltac:(lia)).
    specialize (Hfree (j * 2 ^ m) ltac:(nia)). rewrite Hfull in Hfree; [done | nia].
  - exists (block_chunk o i), s. split; [done |]. simpl.
    assert (m <= o) as Hmo.
    { destruct (Z.lt_ge_cases o m); [| done]. rewrite Hbig in Hbit by lia. done. }
    split; [split; apply Z.mul_le_mono_nonneg_l; try apply Z.pow_le_mono_r; lia |].
    intros Hs. assert (2 ^ o = 2 ^ m) as Ep by lia. apply Z.pow_inj_r in Ep; [| lia..].
    subst o. assert (i <= j); [| nia].
    destruct (Z.lt_ge_cases j i); [| done]. rewrite Hmin in Hbit by lia. done.
Qed.

(** The whole tree is determined by the frames. *)
Lemma tree_determined nf st st' :
  kpm_inv nf st -> kpm_inv nf st' ->
  (forall f, 0 <= f < nf -> frame_alloc st' f = frame_alloc st f) ->
  forall o i, 0 <= o <= 10 -> 0 <= i < 8 * osz nf o -> obit st' o i = obit st o i.
Proof.
  intros Hi1 Hi2 Hfr o i Ho Hi. pose proof (wf_nf_ok _ _ (inv_wf _ _ Hi1)) as Hok.
  destruct (Z.lt_ge_cases i (nblocks nf o)) as [Hlt | Hge].
  - pose proof (pow2_order o Ho). pose proof (nblocks_exact nf Hok o Ho).
    pose proof (block_free_frames nf _ o i (inv_consistent _ _ Hi1) Hok Ho ltac:(lia)) as F1.
    pose proof (block_free_frames nf _ o i (inv_consistent _ _ Hi2) Hok Ho ltac:(lia)) as F2.
    assert (obit st' o i = false <-> obit st o i = false) as Hiff.
    { rewrite F1, F2. unfold frame_alloc in Hfr.
      split; intros H' f Hf; [rewrite <- Hfr | rewrite Hfr]; (apply H' || nia); lia. }
    destruct Hiff as [Ha Hb].
    destruct (obit st' o i), (obit st o i); first [done | exact (Hb eq_refl) | by rewrite Ha].
  - rewrite (inv_padded _ _ Hi1), (inv_padded _ _ Hi2) by lia. done.
Qed.

(** C18: Releasing the chunk [kpm_alloc] returned restores the allocator: every bit
    of every order is what it was before the allocation. *)
Theorem kpm_alloc_free_roundtrip nf st chunk size c st' :
  kpm_inv nf st -> 0 <= size -> size + 4095 < 4294967296 ->
  kpm_alloc st chunk size = Ok (0, c, st') ->
  exists st'', kpm_free st' c = Ok st'' /\ kpm_inv nf st'' /\
    (forall f, 0 <= f < nf -> frame_enabled st'' f = frame_enabled st f) /\
    (forall o i, 0 <= o <= 10 -> 0 <= i < 8 * osz nf o -> obit st'' o i = obit st o i).
Proof.
  intros Hinv H0 H1 Heq.
  destruct (alloc_success nf st chunk size c st') as (Hc & Hinv' & Hwas & Hfr); [done.. |].
  pose proof (wf_nf_ok _ _ (inv_wf _ _ Hinv)) as Hok.
  destruct (chunk_ok_bounds nf c Hok Hc) as (? & ? & ? & ? & ? & _).
  destruct (free_spec nf st' c) as (st'' & -> & Hinv'' & Hfr''); [done || lia.. |].
  exists st''. split; [done |]. split; [done |].
  assert (forall f, 0 <= f < nf -> frame_enabled st'' f = frame_enabled st f /\
    frame_alloc st'' f = frame_alloc st f) as Hsame.
  { intros f Hf. destruct (Hfr'' f Hf) as [-> ->]. destruct (Hfr f Hf) as [-> ->].
    split; [done |]. replace ((chunk_size c + 4095) / 4096) with (chunk_size c / 4096) by dlia.
    fold (in_chunk c f). destruct (in_chunk c f) eqn:E; simpl; [| by rewrite andb_true_r].
    destruct (Hwas f E) as (_ & -> & ->). done. }
  split; [by intros f Hf; apply Hsame |].
  apply tree_determined; [done.. |]. intros f Hf. by apply Hsame.
Qed.
