(* ===== verification/KpmInit.v ===== *)
(** kpm_init: the layout it computes is the one of [KpmBits.wf], and the frames
    it leaves free are those of the available regions of the memory map, less
    the first page, the kernel image and the allocator itself. *)

From Stdlib Require Import ZArith Lia Bool.
From stdpp Require Import base tactics numbers list option.
From S2P Require Import Prelude Mem Kpm KpmBits KpmTree KpmOps.
Import Kpm.

Local Open Scope Z_scope.

(** ** The layout *)

Lemma KPM_NBYTES_spec n : 0 <= n < 2147483648 -> KPM_NBYTES_FROM_NBITS n = (n + 7) / 8.
Proof.
  intros. unfold KPM_NBYTES_FROM_NBITS. change 8 with (2 ^ 3) at 1.
  rewrite ALIGNNEXT_spec by lia. change (2 ^ 3) with 8. dlia.
Qed.

Lemma nblocks_half nf o : 0 <= o -> nblocks nf o / 2 = nblocks nf (o + 1).
Proof.
  intros Ho. unfold nblocks. rewrite Z.pow_add_r, Z.div_div by lia.
  by rewrite Z.pow_1_r.
Qed.

Section layout.
Context (nf : Z) (Hnf : nf_ok nf).

Lemma nblocks_small o : 0 <= o -> 0 <= nblocks nf o < 2147483648.
Proof using Hnf.
  intros Ho. pose proof (nblocks_nonneg nf Hnf o). pose proof (nblocks_le nf Hnf o).
  destruct (nf_range _ Hnf). lia.
Qed.

Lemma init_sizes_spec k : forall o, 0 <= o ->
  init_sizes k (nblocks nf o) = osz nf <$> seqZ o (Z.of_nat k).
Proof using Hnf.
  induction k as [| k IH]; intros o Ho; [done |]. cbn [init_sizes].
  rewrite seqZ_cons by lia. rewrite fmap_cons. f_equal.
  - apply KPM_NBYTES_spec, nblocks_small. done.
  - rewrite nblocks_half by done. rewrite IH by lia. f_equal. f_equal; lia.
Qed.

Lemma init_bitmaps_spec b k : forall o, 0 <= o -> 0 <= b ->
  b + ooff nf (o + Z.of_nat k) < 4294967296 ->
  init_bitmaps k (b + ooff nf o) (nblocks nf o) =
    (fun j => b + ooff nf j) <$> seqZ (o + 1) (Z.of_nat k).
Proof using Hnf.
  induction k as [| k IH]; intros o Ho Hb Hlt; [done |]. cbn [init_bitmaps].
  rewrite KPM_NBYTES_spec by (by apply nblocks_small). fold (osz nf o).
  rewrite <- Z.add_assoc, <- ooff_succ by done.
  assert (b + ooff nf (o + 1) < 4294967296).
  { destruct k as [| k]; [by replace (o + Z.of_nat 1) with (o + 1) in Hlt by lia |].
    pose proof (ooff_lt nf Hnf (o + 1) (o + Z.of_nat (S (S k)))).
    pose proof (osz_nonneg nf Hnf (o + 1)). lia. }
  pose proof (ooff_pos nf Hnf (o + 1)). pose proof (nf_range _ Hnf).
  assert (0 <= nf / 8) by dlia.
  rewrite u32_small by lia. rewrite seqZ_cons by lia. rewrite fmap_cons. f_equal.
  rewrite nblocks_half by done. rewrite IH; [| lia | done |].
  - f_equal. f_equal; lia.
  - by replace (o + 1 + Z.of_nat k) with (o + Z.of_nat (S k)) by lia.
Qed.

Lemma total_size : foldr Z.add 0 (init_sizes 11 nf) = ooff nf 11 - nf / 8.
Proof using Hnf.
  rewrite <- (nblocks_0 nf) at 1. rewrite init_sizes_spec by lia. unfold ooff.
  change (Z.of_nat 11) with 11. lia.
Qed.
End layout.

(** The state of the allocator before the memory map is read. *)
Definition fresh (nf : Z) (st : kpm) : Prop :=
  kpm_inv nf st /\
  forall f, 0 <= f < nf -> frame_enabled st f = false /\ frame_alloc st f = true.

Lemma fresh_intro nf st :
  wf nf st ->
  (forall i, 0 <= i < nf / 8 -> at_ 0 (heap st) i = 0) ->
  (forall i, nf / 8 <= i < ooff nf 11 -> at_ 0 (heap st) i = 255) -> fresh nf st.
Proof.
  intros Hwf H0 H1. pose proof (wf_nf_ok _ _ Hwf) as Hok.
  pose proof (nf_1024 _ Hok). pose proof (nf_range _ Hok).
  assert (forall o i, 0 <= o <= 10 -> 0 <= i < 8 * osz nf o -> obit st o i = true) as Hset.
  { intros o i Ho Hi. unfold obit, gbit. rewrite (wf_nf _ _ Hwf).
    pose proof (ooff_pos nf Hok o). pose proof (ooff_lt nf Hok o 11).
    rewrite H1 by (split; dlia).
    assert (0 <= (8 * ooff nf o + i) mod 8 < 8) as Hm by dlia.
    revert Hm. generalize ((8 * ooff nf o + i) mod 8). intros k Hk.
    change 255 with (Z.ones 8). apply Z.ones_spec_low. lia. }
  assert (forall f, 0 <= f < nf -> ebit st f = false) as Hclr.
  { intros f Hf. unfold ebit, gbit. rewrite H0 by dlia. apply Z.testbit_0_l. }
  split.
  - constructor; [done | | |].
    + intros n i Hn Hi. rewrite Hset by (try apply valid_order; (done || lia)).
      pose proof (nblocks_double nf Hok n Hn).
      rewrite Hset by (try apply valid_order; (done || lia)). done.
    + intros o i Ho Hi. pose proof (nblocks_nonneg nf Hok o). apply Hset; lia.
    + intros f Hf _. apply Hset; [lia |]. apply valid_order; [done | lia |].
      by rewrite nblocks_0.
  - intros f Hf. split; [by apply Hclr |]. apply Hset; [lia |].
    apply valid_order; [done | lia |]. by rewrite nblocks_0.
Qed.

(** The first half of kpm_init: structure, bitmaps and their contents. *)
Lemma init_layout_spec ptr nf (ram : list Z) :
  nf_ok nf -> 0 <= ptr -> ptr + sizeof_buddy_t + ooff nf 11 < 4294967296 ->
  ooff nf 11 <= zlen ram ->
  let esz := KPM_NBYTES_FROM_NBITS nf in
  let sizes := init_sizes 11 nf in
  let total := u32 (foldr Z.add 0 sizes) in
  let ef := u32 (ptr + sizeof_buddy_t) in
  let b0 := u32 (ef + esz) in
  let b := mk_buddy nf (u32 (sizeof_buddy_t + esz + total)) ef
             (zip_with mk_order (b0 :: init_bitmaps 10 b0 nf) sizes) in
  let base := ptr + sizeof_buddy_t in
  u32 (sizeof_buddy_t + esz + total) = sizeof_buddy_t + ooff nf 11 /\
  exists h1 h2, Mem.memset ram (ef - base) 0 esz = Ok h1 /\
    Mem.memset h1 (b0 - base) 0xff total = Ok h2 /\
    fresh nf (mk_kpm ptr b h2).
Proof.
  intros Hok Hp Hw Hram esz sizes total ef b0 b base.
  pose proof (nf_1024 _ Hok). pose proof (nf_range _ Hok).
  pose proof (ooff_pos nf Hok 11). pose proof (ooff_lt nf Hok 0 11) as Hlt.
  pose proof (osz_nonneg nf Hok 0). rewrite ooff_0 in Hlt.
  assert (0 <= nf / 8) as Hnf8 by (apply Z.div_pos; lia).
  assert (esz = nf / 8) as Hesz by (subst esz; rewrite KPM_NBYTES_spec by lia; dlia).
  unfold sizeof_buddy_t in *.
  assert (total = ooff nf 11 - nf / 8) as Htotal.
  { subst total sizes. rewrite total_size by done. apply u32_small. lia. }
  assert (ef = base) as Hef by (subst ef base; apply u32_small; lia).
  assert (b0 = base + ooff nf 0) as Hb0.
  { subst b0. rewrite ooff_0, Hef, Hesz. apply u32_small. subst base. lia. }
  split; [rewrite Htotal, Hesz; rewrite u32_small; lia |].
  destruct (Mem.memset_spec ram (ef - base) 0 esz) as (h1 & -> & Hl1 & Hm1).
  { unfold Mem.range_in. lia. }
  destruct (Mem.memset_spec h1 (b0 - base) 0xff total) as (h2 & Heq2 & Hl2 & Hm2).
  { unfold Mem.range_in. rewrite Hb0, ooff_0. lia. }
  exists h1, h2. split; [done |]. split; [done |]. apply fresh_intro; cbn [heap].
  - constructor; unfold heap_base; cbn [buddy nframes orders enabled_frames heap buddy_ptr];
      [done | done | | done | lia].
    intros o Ho. fold base. subst b. cbn [orders]. unfold rd.
    destruct (Z.ltb_spec o 0); [lia |].
    assert (b0 :: init_bitmaps 10 b0 nf = (fun j => base + ooff nf j) <$> seqZ 0 11) as ->.
    { pose proof (init_bitmaps_spec nf Hok base 10 0) as Hbm.
      change (0 + Z.of_nat 10) with 10 in Hbm.
      pose proof (ooff_lt nf Hok 10 11). pose proof (osz_nonneg nf Hok 10).
      rewrite nblocks_0, <- Hb0 in Hbm. rewrite Hbm by (done || (subst base; lia)).
      by rewrite Hb0. }
    assert (sizes = osz nf <$> seqZ 0 11) as ->.
    { pose proof (init_sizes_spec nf Hok 11 0) as Hsz. rewrite nblocks_0 in Hsz.
      subst sizes. by rewrite Hsz. }
    rewrite lookup_zip_with, !list_lookup_fmap.
    rewrite (proj2 (lookup_seqZ 0 11 (Z.to_nat o) o)) by lia. done.
  - intros i Hi. rewrite Hm2 by lia. rewrite Hb0, ooff_0.
    destruct (Z.leb_spec (base + nf / 8 - base) i); [lia |]. simpl.
    rewrite Hm1 by lia. rewrite Hef.
    destruct (Z.leb_spec (base - base) i), (Z.ltb_spec i (base - base + esz)); (done || lia).
  - intros i Hi. rewrite Hm2 by lia. rewrite Hb0, ooff_0.
    destruct (Z.leb_spec (base + nf / 8 - base) i),
      (Z.ltb_spec i (base + nf / 8 - base + total)); (done || lia).
Qed.

(** ** The memory map *)

(** During initialisation a frame is free exactly when it is enabled. *)
Definition enabled_are_free (nf : Z) (en : Z -> bool) (st : kpm) : Prop :=
  kpm_inv nf st /\
  forall f, 0 <= f < nf -> frame_enabled st f = en f /\ frame_alloc st f = negb (en f).

(** The frames an entry of the memory map makes available. *)
Definition entry_frames (e : multiboot_mmap_entry) (f : Z) : bool :=
  (entry_type e =? MULTIBOOT_MEMORY_AVAILABLE) && (u32 (entry_addr e) mod 4096 =? 0) &&
  in_range (u32 (entry_addr e) / 4096) (u32 (entry_len e) / 4096) f.

Definition entry_ok (nf : Z) (e : multiboot_mmap_entry) : Prop :=
  entry_size e <> 0 /\
  (entry_type e = MULTIBOOT_MEMORY_AVAILABLE -> u32 (entry_addr e) mod 4096 = 0 ->
   region_ok nf (u32 (entry_addr e)) (u32 (entry_len e) / 4096 * 4096)).

Lemma enabled_are_free_ext nf en en' st :
  enabled_are_free nf en st -> (forall f, 0 <= f < nf -> en' f = en f) ->
  enabled_are_free nf en' st.
Proof.
  intros [Hi Hf] He. split; [done |]. intros f Hr. rewrite He by done. by apply Hf.
Qed.

Lemma init_entries_spec nf es z rest : forall st en,
  enabled_are_free nf en st -> Forall (entry_ok nf) es -> entry_size z = 0 ->
  exists st', init_entries (es ++ z :: rest) st = Ok st' /\
    enabled_are_free nf (fun f => existsb (fun e => entry_frames e f) es || en f) st'.
Proof.
  induction es as [| e es IH]; intros st en Hst Hes Hz; simpl.
  - rewrite Hz. simpl. by exists st.
  - inversion Hes as [| ? ? [Hsz Hreg] Hes']; subst.
    rewrite (proj2 (Z.eqb_neq _ _) Hsz). simpl.
    destruct Hst as [Hinv Hen].
    enough (exists st1,
      (if entry_type e =? MULTIBOOT_MEMORY_AVAILABLE
       then kpm_enable st (u32 (entry_addr e)) (u32 (entry_len e)) else Ok st) = Ok st1 /\
      enabled_are_free nf (fun f => entry_frames e f || en f) st1) as (st1 & -> & Hst1).
    { simpl. destruct (IH st1 _ Hst1 Hes' Hz) as (st' & -> & Hst').
      exists st'. split; [done |]. eapply enabled_are_free_ext; [exact Hst' |].
      intros f _. simpl.
      by destruct (entry_frames e f), (existsb (fun e => entry_frames e f) es), (en f). }
    unfold entry_frames.
    destruct (Z.eqb_spec (entry_type e) MULTIBOOT_MEMORY_AVAILABLE) as [Ht |]; simpl;
      [| by exists st].
    destruct (Z.eqb_spec (u32 (entry_addr e) mod 4096) 0) as [Ha | Ha]; simpl.
    + destruct (enable_spec nf st (u32 (entry_addr e)) (u32 (entry_len e)) Hinv Ha)
        as (st1 & -> & Hinv1 & Hf1); [apply u32_range | by apply Hreg |].
      exists st1. split; [done |]. split; [done |]. intros f Hf.
      destruct (Hf1 f Hf) as [-> ->]. destruct (Hen f Hf) as [-> ->].
      by destruct (in_range _ _ f), (en f).
    + exists st. split; [| done]. unfold kpm_enable.
      rewrite ISALIGNED_page by apply u32_range. by rewrite (proj2 (Z.eqb_neq _ 0) Ha).
Qed.

Lemma disable_enabled nf en st base limit :
  enabled_are_free nf en st -> base mod 4096 = 0 -> 0 <= limit ->
  limit + 4095 < 4294967296 -> region_ok nf base ((limit + 4095) / 4096 * 4096) ->
  exists st', kpm_disable st base limit = Ok st' /\
    enabled_are_free nf
      (fun f => en f && negb (in_range (base / 4096) ((limit + 4095) / 4096) f)) st'.
Proof.
  intros [Hinv Hen] Ha H0 H1 Hr.
  destruct (disable_spec nf st base limit) as (st' & -> & Hinv' & Hf'); [done.. |].
  exists st'. split; [done |]. split; [done |]. intros f Hf.
  destruct (Hf' f Hf) as [-> ->]. destruct (Hen f Hf) as [-> ->].
  by destruct (in_range _ _ f), (en f).
Qed.

(** The loop over the memory map leaves the array when no entry has size 0. *)
Lemma entries_past_map nf st es :
  fresh nf st -> Forall (entry_ok nf) es -> init_entries es st = Err OutOfBounds.
Proof.
  intros [Hinv Hfr].
  enough (forall st en, enabled_are_free nf en st -> Forall (entry_ok nf) es ->
    init_entries es st = Err OutOfBounds) as H.
  { by apply (H st (fun _ => false)). }
  clear st Hinv Hfr. intros st en Hst Hes.
  pose (z := mk_entry 0 0 0 0).
  revert st en Hst. induction Hes as [| e es Hok Hes IH]; intros st en Hst; [done |].
  destruct (init_entries_spec nf [e] z [] st en Hst) as (st' & Heq & Hst'); [by constructor | done |].
  simpl in Heq |- *. destruct Hok as [Hsz _]. rewrite (proj2 (Z.eqb_neq _ _) Hsz) in *. simpl in *.
  destruct (if _ : bool then _ else _) as [s |]; [| done]. simpl in *.
  injection Heq as ->. by eapply IH.
Qed.

(** ** The whole initialisation *)

Section kpm_init.
(** Where the linker and the boot loader put things: the kernel image is
    loaded at the page [sk], its virtual end is [ek]; [nf] page frames are
    managed and the structure with its bitmaps fits behind the kernel, inside
    of the managed memory. *)
Context (sk ek memkb nf : Z) (ram : list Z).

Definition buddy_phys : Z := ALIGNNEXT ek PAGE_SIZE - KERNEL_VIRT_OFFSET.
Definition buddy_bytes : Z := sizeof_buddy_t + ooff nf 11.

Record boot_ok : Prop := mk_boot_ok
  { boot_nf : nf = memkb * 1024 / 4096 / 1024 * 1024;
    boot_memkb : 0 <= memkb * 1024 < 4294967296;
    boot_sk : 0 <= sk /\ sk mod 4096 = 0 /\ sk <= ek - KERNEL_VIRT_OFFSET;
    boot_ek : ek + 4095 < 4294967296;
    boot_buddy : buddy_phys + buddy_bytes + 4095 <= nf * 4096;
    boot_virt : ALIGNNEXT ek PAGE_SIZE + buddy_bytes < 4294967296;
    boot_ram : ooff nf 11 <= zlen ram }.

(** The frames kpm_init takes back from the memory map. *)
Definition reserved (f : Z) : bool :=
  (f =? 0)
  || in_range (sk / 4096) ((ek - KERNEL_VIRT_OFFSET - sk + 4095) / 4096) f
  || in_range (buddy_phys / 4096) ((buddy_bytes + 4095) / 4096) f.

Context (Hboot : boot_ok).

Lemma boot_nf_ok : nf_ok nf.
Proof using Hboot.
  destruct Hboot as [-> H1 _ _ _ _ _]. split; [apply Z.mod_mul; lia | dlia].
Qed.

Lemma boot_nframes : ALIGN (u32 (memkb * 1024) / PAGE_SIZE) 1024 = nf.
Proof using Hboot.
  destruct Hboot as [-> H1 _ _ _ _ _]. rewrite u32_small by done.
  change 1024 with (2 ^ 10) at 2. rewrite ALIGN_spec by (unfold PAGE_SIZE; dlia).
  change (2 ^ 10) with 1024. unfold PAGE_SIZE. dlia.
Qed.

Lemma boot_regions :
  ALIGNNEXT ek PAGE_SIZE mod 4096 = 0 /\ ek <= ALIGNNEXT ek PAGE_SIZE <= ek + 4095 /\
  0 <= ek - KERNEL_VIRT_OFFSET - sk /\
  buddy_phys mod 4096 = 0 /\ 0 <= buddy_phys /\ 0 <= buddy_bytes /\
  ek - KERNEL_VIRT_OFFSET <= buddy_phys.
Proof using Hboot.
  pose proof boot_nf_ok as Hok. pose proof (ooff_pos nf Hok 11). pose proof (nf_range _ Hok).
  destruct Hboot as [_ _ (Hs0 & Hs1 & Hs2) Hek Hfit _ _].
  unfold buddy_bytes, buddy_phys, sizeof_buddy_t, KERNEL_VIRT_OFFSET in *.
  rewrite ALIGNNEXT_page in * by lia. split_and!; dlia.
Qed.

Lemma init_spec es z rest count :
  Forall (entry_ok nf) es -> entry_size z = 0 ->
  exists st, kpm_init sk ek ram (es ++ z :: rest) count memkb = Ok st /\ kpm_inv nf st /\
    forall f, 0 <= f < nf ->
      frame_enabled st f = existsb (fun e => entry_frames e f) es && negb (reserved f) /\
      frame_alloc st f = negb (frame_enabled st f).
Proof using Hboot.
  intros Hes Hz. pose proof boot_nf_ok as Hok. pose proof (nf_range _ Hok).
  destruct boot_regions as (Hal & Hek & Hker & Hbal & Hb0 & Hbb & Hkb).
  pose proof (boot_buddy Hboot) as Hfit. pose proof (boot_virt Hboot) as Hvirt.
  destruct (boot_sk Hboot) as (Hs0 & Hs1 & Hs2).
  unfold kpm_init. rewrite boot_nframes.
  destruct (init_layout_spec (ALIGNNEXT ek PAGE_SIZE) nf ram Hok)
    as (-> & h1 & h2 & -> & Hset & Hinv0 & Hfr0);
    [unfold KERNEL_VIRT_OFFSET in *; lia | unfold buddy_bytes in *; lia
    | exact (boot_ram Hboot) |].
  cbn [mbind result_bind]. rewrite Hset. cbn [mbind result_bind].
  destruct (init_entries_spec nf es z rest _ (fun _ => false) (conj Hinv0 Hfr0) Hes Hz)
    as (st1 & -> & Hst1). cbn [mbind result_bind].
  unfold buddy_phys in *. unfold KERNEL_VIRT_OFFSET in *.
  destruct (disable_enabled nf _ st1 0 PAGE_SIZE Hst1) as (st2 & -> & Hst2);
    [done | done | done | unfold region_ok, PAGE_SIZE; dlia |]. cbn [mbind result_bind].
  rewrite (u32_small (ek - 0xC0000000)) by lia.
  rewrite (u32_small (ek - 0xC0000000 - sk)) by lia.
  destruct (disable_enabled nf _ st2 sk (ek - 0xC0000000 - sk) Hst2) as (st3 & -> & Hst3);
    [done | lia | lia | unfold region_ok; dlia |]. cbn [mbind result_bind].
  rewrite u32_small by lia. fold buddy_bytes.
  destruct (disable_enabled nf _ st3 (ALIGNNEXT ek PAGE_SIZE - 0xC0000000) buddy_bytes Hst3)
    as (st4 & -> & Hinv4 & Hfr4); [done | lia | lia | unfold region_ok; dlia |].
  exists st4. split; [done |]. split; [done |]. intros f Hf.
  destruct (Hfr4 f Hf) as [Hen Hal4]. rewrite Hal4, Hen. split; [| done].
  unfold reserved, buddy_phys, KERNEL_VIRT_OFFSET. rewrite orb_false_r.
  assert (in_range (0 / 4096) ((PAGE_SIZE + 4095) / 4096) f = (f =? 0)) as ->.
  { change (0 / 4096) with 0. change ((PAGE_SIZE + 4095) / 4096) with 1. unfold in_range.
    destruct (Z.leb_spec 0 f), (Z.ltb_spec f (0 + 1)), (Z.eqb_spec f 0); (done || lia). }
      by destruct (existsb _ es), (f =? 0), (in_range (sk / 4096) _ f),
    (in_range ((ALIGNNEXT ek PAGE_SIZE - 0xC0000000) / 4096) _ f).
Qed.

(** The loop over the memory map ignores the number of entries it is given:
    on any well-formed map without a terminating entry of size 0,
    [kpm_init] reads past the end of the map. *)
Theorem kpm_init_reads_past_map es count :
  Forall (entry_ok nf) es -> kpm_init sk ek ram es count memkb = Err OutOfBounds.
Proof using Hboot.
  intros Hes. pose proof boot_nf_ok as Hok.
  destruct boot_regions as (_ & Hek & _ & _ & Hb0 & _).
  pose proof (boot_virt Hboot) as Hvirt.
  unfold kpm_init. rewrite boot_nframes.
  unfold buddy_phys, KERNEL_VIRT_OFFSET in *.
  destruct (init_layout_spec (ALIGNNEXT ek PAGE_SIZE) nf ram Hok)
    as (-> & h1 & h2 & -> & Hset & Hfresh);
    [lia | unfold buddy_bytes in *; lia | exact (boot_ram Hboot) |].
  cbn [mbind result_bind]. rewrite Hset. cbn [mbind result_bind].
  by rewrite (entries_past_map nf _ es Hfresh Hes).
Qed.
End kpm_init.

