(* ===== verification/KpmSafety.v ===== *)
(** What the allocator promises to its clients.

    [Alloc] states it abstractly: the state is the set of the free frames, an
    allocation takes a block out of it, a release puts frames back.  The
    operations of kpm.c refine it ([kpm_refines]).  [Clients] runs the
    allocator under any sequence of requests and releases of the chunks handed
    out, and shows that no frame ever has two owners. *)

From Stdlib Require Import ZArith Lia Bool.
From stdpp Require Import base tactics numbers list option gmap.
From S2P Require Import Prelude Mem Kpm KpmBits KpmTree KpmOps.
Import Kpm.

Local Open Scope Z_scope.

(** ** The abstract allocator *)

Module Alloc.

Definition frames (c : kpm_chunk_t) : gset Z :=
  list_to_set (seqZ (chunk_addr c / 4096) (chunk_size c / 4096)).

(** What is asked and what comes out. *)
Inductive event : Type :=
  | Allocated (size : Z) (c : kpm_chunk_t)
  | Exhausted (size : Z)
  | Released (c : kpm_chunk_t).

(** [total] is the set of the frames that may be handed out. *)
Inductive step (total : gset Z) : gset Z -> event -> gset Z -> Prop :=
  | step_alloc free size c :
      frames c ⊆ free -> frames c ≠ ∅ ->
      chunk_addr c mod chunk_size c = 0 ->
      step total free (Allocated size c) (free ∖ frames c)
  | step_exhausted size : step total ∅ (Exhausted size) ∅
  | step_release free c : step total free (Released c) (free ∪ (frames c ∩ total)).

Inductive run (total : gset Z) : gset Z -> list event -> gset Z -> Prop :=
  | run_nil free : run total free [] free
  | run_cons free e free' es free'' :
      step total free e free' -> run total free' es free'' ->
      run total free (e :: es) free''.

End Alloc.

(** ** Refinement *)

Definition frames_where (nf : Z) (P : Z -> bool) : gset Z :=
  list_to_set (filter (fun f => P f = true) (seqZ 0 nf)).

(** The abstraction function. *)
Definition free_set (nf : Z) (st : kpm) : gset Z :=
  frames_where nf (fun f => negb (frame_alloc st f)).
Definition total_set (nf : Z) (st : kpm) : gset Z := frames_where nf (frame_enabled st).

Lemma elem_of_frames_where nf P f : f ∈ frames_where nf P <-> 0 <= f < nf /\ P f = true.
Proof.
  unfold frames_where. rewrite elem_of_list_to_set, list_elem_of_filter, elem_of_seqZ.
  rewrite Z.add_0_l. tauto.
Qed.

Lemma elem_of_chunk c f : f ∈ Alloc.frames c <-> in_chunk c f = true.
Proof.
  unfold Alloc.frames, in_chunk, in_range. rewrite elem_of_list_to_set, elem_of_seqZ.
  by rewrite andb_true_iff, Z.leb_le, Z.ltb_lt.
Qed.

(** One event of the concrete allocator. *)
Inductive kpm_event (st : kpm) : Alloc.event -> kpm -> Prop :=
  | kpm_allocated chunk size c st' :
      0 <= size -> size + 4095 < 4294967296 ->
      kpm_alloc st chunk size = Ok (0, c, st') -> kpm_event st (Alloc.Allocated size c) st'
  | kpm_exhausted chunk size c st' :
      0 <= size -> size + 4095 < 4294967296 ->
      kpm_alloc st chunk size = Ok (-1, c, st') -> kpm_event st (Alloc.Exhausted size) st'
  | kpm_released nf c st' :
      nframes (buddy st) = nf -> chunk_ok nf c ->
      kpm_free st c = Ok st' -> kpm_event st (Alloc.Released c) st'.

Inductive kpm_run (st : kpm) : list Alloc.event -> kpm -> Prop :=
  | kpm_run_nil : kpm_run st [] st
  | kpm_run_cons e st' es st'' :
      kpm_event st e st' -> kpm_run st' es st'' -> kpm_run st (e :: es) st''.

Lemma total_same nf st st' :
  (forall f, 0 <= f < nf -> frame_enabled st' f = frame_enabled st f) ->
  total_set nf st' = total_set nf st.
Proof.
  intros He. apply set_eq. intros f. unfold total_set. rewrite !elem_of_frames_where.
  split; intros [Hf E]; (split; [done |]); specialize (He f Hf); congruence.
Qed.

(** What one event does to the sets of frames. *)
Definition refines (nf : Z) (st : kpm) (e : Alloc.event) (st' : kpm) : Prop :=
  kpm_inv nf st' /\ total_set nf st' = total_set nf st /\
  Alloc.step (total_set nf st) (free_set nf st) e (free_set nf st').

Lemma alloc_refines nf st chunk size c st' : kpm_inv nf st -> 0 <= size ->
  size + 4095 < 4294967296 -> kpm_alloc st chunk size = Ok (0, c, st') ->
  refines nf st (Alloc.Allocated size c) st'.
Proof.
  intros Hinv H0 H1 Heq. pose proof (wf_nf_ok _ _ (inv_wf _ _ Hinv)) as Hok.
  destruct (alloc_success nf st chunk size c st') as (Hc & Hinv' & Hwas & Hfr); [done.. |].
  split; [done |]. split; [by apply total_same; intros f Hf; destruct (Hfr f Hf) |].
  destruct (chunk_ok_bounds nf c Hok Hc) as (Hb0 & Hb1 & Hb2 & Hb3 & Hb4 & Hb5).
  replace (free_set nf st') with (free_set nf st ∖ Alloc.frames c).
  - apply Alloc.step_alloc; [| | done].
    + intros f Hf. apply elem_of_chunk in Hf. destruct (Hwas f Hf) as (Hr & Ha & _).
      apply elem_of_frames_where. by rewrite Ha.
    + intros He. apply (not_elem_of_empty (C := gset Z) (chunk_addr c / 4096)). rewrite <- He.
      apply elem_of_chunk. unfold in_chunk, in_range.
      rewrite andb_true_iff, Z.leb_le, Z.ltb_lt. dlia.
  - apply set_eq. intros f. rewrite elem_of_difference. unfold free_set.
    rewrite !elem_of_frames_where, elem_of_chunk. split.
    + intros [[Hf Ha] Hn]. split; [done |]. destruct (Hfr f Hf) as [_ ->].
      destruct (in_chunk c f); [by destruct Hn | done].
    + intros [Hf Ha]. destruct (Hfr f Hf) as [_ E]. rewrite E in Ha.
      destruct (in_chunk c f); done.
Qed.

Lemma free_refines nf st c st' : kpm_inv nf st -> chunk_ok nf c -> kpm_free st c = Ok st' ->
  refines nf st (Alloc.Released c) st'.
Proof.
  intros Hinv Hc Heq. pose proof (wf_nf_ok _ _ (inv_wf _ _ Hinv)) as Hok.
  destruct (chunk_ok_bounds nf c Hok Hc) as (Hb0 & Hb1 & Hb2 & Hb3 & Hb4 & Hb5).
  destruct (free_spec nf st c) as (s & E & Hinv' & Hfr); [done || lia.. |].
  rewrite E in Heq. injection Heq as ->.
  replace ((chunk_size c + 4095) / 4096) with (chunk_size c / 4096) in Hfr by dlia.
  fold (in_chunk c) in Hfr. split; [done |].
  split; [by apply total_same; intros f Hf; destruct (Hfr f Hf) |].
  replace (free_set nf st') with (free_set nf st ∪ (Alloc.frames c ∩ total_set nf st));
    [constructor |].
  apply set_eq. intros f. rewrite elem_of_union, elem_of_intersection.
  unfold free_set, total_set. rewrite !elem_of_frames_where, elem_of_chunk.
  split.
  - intros [[Hf Ha] | [Hi [Hf He]]]; (split; [done |]); destruct (Hfr f Hf) as [_ ->].
    + by destruct (frame_alloc st f).
    + fold (in_chunk c f). rewrite Hi, He. by rewrite andb_false_r.
  - intros [Hf Ha]. destruct (Hfr f Hf) as [_ E']. rewrite E' in Ha. fold (in_chunk c f) in Ha.
    destruct (frame_alloc st f); [right | by left].
    destruct (in_chunk c f), (frame_enabled st f); done.
Qed.

Lemma kpm_event_refines nf st e st' : kpm_inv nf st -> kpm_event st e st' -> refines nf st e st'.
Proof.
  intros Hinv Hev. pose proof (inv_wf _ _ Hinv) as Hwf.
  destruct Hev as [chunk size c st' H0 H1 Heq | chunk size c st' H0 H1 Heq | nf' c st' Hnf Hc Heq].
  - by apply alloc_refines with chunk.
  - destruct (alloc_or_full nf st chunk size) as [(? & ? & E & _) | [E Hfull]];
      [done.. | by rewrite E in Heq |].
    rewrite E in Heq. injection Heq as <- <-. split; [done |]. split; [done |].
    replace (free_set nf st) with (∅ : gset Z); [constructor |].
    apply set_eq. intros f. unfold free_set. rewrite elem_of_frames_where.
    split; [set_solver |]. intros [Hf Ha]. by rewrite Hfull in Ha.
  - rewrite (wf_nf _ _ Hwf) in Hnf. subst nf'. by apply free_refines.
Qed.

(** C16: Refinement: every run of the allocator on its bitmaps is a run of the
    abstract allocator, whose state is the set of the free frames, and it keeps
    the invariant. *)
Theorem kpm_refines nf st es st' :
  kpm_inv nf st -> kpm_run st es st' ->
  kpm_inv nf st' /\ Alloc.run (total_set nf st) (free_set nf st) es (free_set nf st').
Proof.
  intros Hinv Hrun. revert Hinv.
  induction Hrun as [st | st e st1 es st2 Hev Hrun IH]; intros Hinv.
  - split; [done | constructor].
  - destruct (kpm_event_refines nf st e st1 Hinv Hev) as (Hinv1 & Ht & Hstep).
    destruct (IH Hinv1) as (Hinv2 & Hr). split; [done |].
    econstructor; [done |]. by rewrite <- Ht.
Qed.

(** ** Clients *)

Section clients.
Context (nf : Z).

(** The allocator together with the chunks its clients hold. *)
Definition client_state : Type := kpm * list kpm_chunk_t.

(** A client asks for memory, or gives back a chunk it holds. *)
Inductive client_step : client_state -> client_state -> Prop :=
  | client_alloc st live chunk size c st' :
      0 <= size -> size + 4095 < 4294967296 ->
      kpm_alloc st chunk size = Ok (0, c, st') ->
      client_step (st, live) (st', c :: live)
  | client_alloc_fails st live chunk size c st' :
      0 <= size -> size + 4095 < 4294967296 ->
      kpm_alloc st chunk size = Ok (-1, c, st') ->
      client_step (st, live) (st', live)
  | client_free st live1 c live2 st' :
      kpm_free st c = Ok st' ->
      client_step (st, live1 ++ c :: live2) (st', live1 ++ live2).

(** How many of the chunks hold frame [f]. *)
Fixpoint owners (live : list kpm_chunk_t) (f : Z) : Z :=
  match live with
  | [] => 0
  | c :: live => (if in_chunk c f then 1 else 0) + owners live f
  end.

Lemma owners_app l1 l2 f : owners (l1 ++ l2) f = owners l1 f + owners l2 f.
Proof. induction l1; simpl; lia. Qed.

Lemma owners_nonneg live f : 0 <= owners live f.
Proof. induction live as [| c live IH]; simpl; [lia | destruct (in_chunk c f); lia]. Qed.

(** Every enabled frame is either free or held by exactly one chunk. *)
Definition accounted (s : client_state) : Prop :=
  kpm_inv nf s.1 /\ Forall (chunk_ok nf) s.2 /\
  forall f, 0 <= f < nf ->
    owners s.2 f = if frame_enabled s.1 f && frame_alloc s.1 f then 1 else 0.

Lemma accounted_step s s' : accounted s -> client_step s s' -> accounted s'.
Proof.
  intros (Hinv & Hok & Hown) Hstep. pose proof (wf_nf_ok _ _ (inv_wf _ _ Hinv)) as Hnf.
  destruct Hstep as [st live chunk size c st' H0 H1 Heq
                    | st live chunk size c st' H0 H1 Heq | st l1 c l2 st' Heq]; simpl in *.
  - destruct (alloc_success nf st chunk size c st') as (Hc & Hinv' & Hwas & Hfr); [done.. |].
    split; [done |]. split; [by constructor |]. intros f Hf. simpl. rewrite Hown by done.
    destruct (Hfr f Hf) as [-> ->]. destruct (in_chunk c f) eqn:E; [| done].
    destruct (Hwas f E) as (_ & -> & ->). done.
  - destruct (alloc_or_full nf st chunk size) as [(? & ? & E & _) | [E _]];
      [done.. | by rewrite E in Heq |].
    rewrite E in Heq. injection Heq as <- <-. by split.
  - rewrite Forall_app, Forall_cons in Hok. destruct Hok as (Hok1 & Hc & Hok2).
    destruct (chunk_ok_bounds nf c Hnf Hc) as (? & ? & ? & ? & ? & _).
    destruct (free_spec nf st c) as (s & E & Hinv' & Hfr); [done || lia.. |].
    rewrite E in Heq. injection Heq as ->.
    replace ((chunk_size c + 4095) / 4096) with (chunk_size c / 4096) in Hfr by dlia.
    split; [done |]. split; [by apply Forall_app |]. intros f Hf. simpl.
    specialize (Hown f Hf). destruct (Hfr f Hf) as [-> ->]. fold (in_chunk c f).
    rewrite owners_app in *. simpl in Hown.
    pose proof (owners_nonneg l1 f). pose proof (owners_nonneg l2 f).
    destruct (in_chunk c f), (frame_enabled st f), (frame_alloc st f); simpl in *; lia.
Qed.

(** C2: No frame ever has two owners: in every run of the clients, an enabled frame
    that is marked as allocated belongs to exactly one of the chunks handed out and
    not yet released, and a free or disabled frame to none. *)
Theorem kpm_no_double_allocation st0 st live :
  kpm_inv nf st0 ->
  (forall f, 0 <= f < nf -> frame_alloc st0 f = negb (frame_enabled st0 f)) ->
  star client_step (st0, []) (st, live) ->
  kpm_inv nf st /\
  forall f, 0 <= f < nf ->
    owners live f = if frame_enabled st f && frame_alloc st f then 1 else 0.
Proof.
  intros Hinv Hfree Hstar.
  destruct (star_invariant client_step accounted accounted_step (st0, []) (st, live))
    as (Hinv' & _ & Hown); [| done | done].
  split; [done |]. split; [constructor |]. intros f Hf. simpl.
  rewrite Hfree by done. by destruct (frame_enabled st0 f).
Qed.

(** No operation of a client can fail: a request is answered and a release
    succeeds, in every reachable state. *)
Theorem kpm_clients_never_stuck st0 st live :
  kpm_inv nf st0 ->
  (forall f, 0 <= f < nf -> frame_alloc st0 f = negb (frame_enabled st0 f)) ->
  star client_step (st0, []) (st, live) ->
  (forall chunk size, 0 <= size -> size + 4095 < 4294967296 ->
     exists r c st', kpm_alloc st chunk size = Ok (r, c, st') /\ (r = 0 \/ r = -1)) /\
  (forall c, c ∈ live -> exists st', kpm_free st c = Ok st').
Proof.
  intros Hinv Hfree Hstar.
  destruct (star_invariant client_step accounted accounted_step (st0, []) (st, live))
    as (Hinv' & Hok & _); [| done |].
  { split; [done |]. split; [constructor |]. intros f Hf. simpl.
    rewrite Hfree by done. by destruct (frame_enabled st0 f). }
  simpl in *. split.
  - intros chunk size H0 H1.
    destruct (alloc_or_full nf st chunk size) as [(c & s & E & _) | [E _]];
      [done.. | |]; rewrite E; eauto 6.
  - intros c Hc. rewrite Forall_forall in Hok.
    pose proof (wf_nf_ok _ _ (inv_wf _ _ Hinv')) as Hnf.
    destruct (chunk_ok_bounds nf c Hnf (Hok c Hc))
      as (? & ? & ? & ? & ? & _).
    destruct (free_spec nf st c) as (s & E & _); [done || lia.. |]. by exists s.
Qed.
End clients.
