(* ===== verification/KpmTheorems.v ===== *)
(** The main theorems of the physical memory allocator, and a boot to run
    them on: a machine with 4 MiB of managed memory, the kernel at 1 MiB and the
    memory map of a small PC. *)

From Stdlib Require Import ZArith Lia Bool.
From stdpp Require Import base tactics numbers list option gmap.
From S2P Require Import Prelude Mem Kpm KpmBits KpmTree KpmOps KpmInit KpmSafety.
Import Kpm.

Local Open Scope Z_scope.

(** ** Theorems *)

(** C1: [kpm_alloc] either hands out an aligned block of the managed memory whose
    frames were free and enabled, marks exactly these frames as allocated and keeps
    the allocator's invariant, or returns -1 and changes nothing, and then no
    frame is free. *)
Theorem kpm_alloc_correct nf st chunk size :
  kpm_inv nf st -> 0 <= size -> size + 4095 < 4294967296 ->
  (exists c st', kpm_alloc st chunk size = Ok (0, c, st') /\ kpm_inv nf st' /\
     chunk_ok nf c /\ chunk_addr c mod chunk_size c = 0 /\
     chunk_addr c + chunk_size c <= nf * 4096 /\
     (forall f, in_chunk c f = true ->
        0 <= f < nf /\ frame_alloc st f = false /\ frame_enabled st f = true) /\
     forall f, 0 <= f < nf ->
       frame_enabled st' f = frame_enabled st f /\
       frame_alloc st' f = in_chunk c f || frame_alloc st f) \/
  (kpm_alloc st chunk size = Ok (-1, chunk, st) /\
     forall f, 0 <= f < nf -> frame_alloc st f = true).
Proof.
  intros Hinv H0 H1.
  destruct (alloc_or_full nf st chunk size Hinv H0 H1) as [(c & st' & E & _) | ?]; [| by right].
  left. exists c, st'. split; [done |].
  destruct (alloc_success nf st chunk size c st') as (Hc & Hinv' & Hwas & Hfr); [done.. |].
  destruct (chunk_ok_bounds nf c (wf_nf_ok _ _ (inv_wf _ _ Hinv)) Hc) as (? & ? & ? & ? & ? & ?).
  by split_and!.
Qed.

(** C17: [kpm_free] on any page-aligned chunk of the managed memory keeps the
    invariant and frees exactly the chunk's enabled frames: a frame of the kernel
    or of the allocator stays taken. *)
Theorem kpm_free_correct nf st chunk :
  kpm_inv nf st -> chunk_addr chunk mod 4096 = 0 ->
  0 <= chunk_addr chunk -> 0 <= chunk_size chunk ->
  chunk_addr chunk + chunk_size chunk <= nf * 4096 ->
  exists st', kpm_free st chunk = Ok st' /\ kpm_inv nf st' /\
    forall f, 0 <= f < nf ->
      let inside := in_range (chunk_addr chunk / 4096) ((chunk_size chunk + 4095) / 4096) f in
      frame_enabled st' f = frame_enabled st f /\
      frame_alloc st' f = frame_alloc st f && negb (inside && frame_enabled st f).
Proof. apply free_spec. Qed.

(** [kpm_enable] makes the whole pages inside of a region available,
    [kpm_disable] withdraws every page that touches one; both clamp the region to the
    managed memory, change no other frame and keep the invariant. *)
Theorem kpm_enable_disable_frames nf st base limit :
  kpm_inv nf st -> base mod 4096 = 0 -> 0 <= limit -> limit + 4095 < 4294967296 ->
  region_ok nf base ((limit + 4095) / 4096 * 4096) ->
  (exists st', kpm_enable st base limit = Ok st' /\ kpm_inv nf st' /\
    forall f, 0 <= f < nf ->
      let inside := in_range (base / 4096) (limit / 4096) f in
      frame_enabled st' f = inside || frame_enabled st f /\
      frame_alloc st' f = negb inside && frame_alloc st f) /\
  (exists st', kpm_disable st base limit = Ok st' /\ kpm_inv nf st' /\
    forall f, 0 <= f < nf ->
      let inside := in_range (base / 4096) ((limit + 4095) / 4096) f in
      frame_enabled st' f = negb inside && frame_enabled st f /\
      frame_alloc st' f = inside || frame_alloc st f).
Proof.
  intros Hinv Ha H0 H1 Hr. split; [| by apply disable_spec].
  apply enable_spec; [done | done | lia |]. unfold region_ok in *. dlia.
Qed.

(** C4: [kpm_init] on a terminated memory map leaves the invariant established,
    with exactly these frames enabled, and all of them free: the page frames of
    the available regions, less the first page, the kernel image and the
    allocator's own structure. *)
Theorem kpm_init_frames sk ek memkb nf ram es z rest count :
  boot_ok sk ek memkb nf ram -> Forall (entry_ok nf) es -> entry_size z = 0 ->
  exists st, kpm_init sk ek ram (es ++ z :: rest) count memkb = Ok st /\ kpm_inv nf st /\
    forall f, 0 <= f < nf ->
      frame_enabled st f =
        existsb (fun e => entry_frames e f) es && negb (reserved sk ek nf f) /\
      frame_alloc st f = negb (frame_enabled st f).
Proof. intros Hb. by apply init_spec. Qed.

(** [find_best_fit_order] is the smallest order whose blocks hold the
    request, and the largest order when no block does. *)
Theorem find_best_fit_order_correct size :
  0 <= size -> size + 4095 < 4294967296 ->
  let o := find_best_fit_order size in
  0 <= o <= 10 /\ (size <= 4096 * 2 ^ o \/ o = 10) /\
  forall m, 0 <= m < o -> 4096 * 2 ^ m < size.
Proof. apply best_fit_spec. Qed.

(** A request of more than 4 GiB - 4 KiB wraps around when it is rounded up:
    instead of failing, [kpm_alloc] answers it with a single page as soon as a frame is
    free. *)
Theorem kpm_alloc_huge_request nf st chunk size f :
  kpm_inv nf st -> 4294963200 < size < 4294967296 ->
  0 <= f < nf -> frame_alloc st f = false ->
  exists c st', kpm_alloc st chunk size = Ok (0, c, st') /\ chunk_size c = 4096.
Proof.
  intros Hinv Hs Hf Hfree.
  assert (find_best_fit_order size = find_best_fit_order 1) as Eo
    by (rewrite best_fit_wraps by done; reflexivity).
  assert (kpm_alloc st chunk size = kpm_alloc st chunk 1) as -> by (unfold kpm_alloc; by rewrite Eo).
  pose proof (kpm_alloc_cases nf st chunk 1 Hinv ltac:(lia) ltac:(lia)) as
    [[_ Hfull] | (o & i & st' & E & _ & Ho & _)].
  - by rewrite Hfull in Hfree.
  - change (find_best_fit_order 1) with 0 in Ho. assert (o = 0) as -> by lia.
    by exists (block_chunk 0 i), st'.
Qed.

(** ** A boot *)

Definition boot_map : list multiboot_mmap_entry :=
  [mk_entry 20 0 0x9fc00 1; mk_entry 20 0xf0000 0x10000 2; mk_entry 20 0x100000 0x3ee0000 1].

Definition boot_result : result kpm :=
  kpm_init 0x100000 0xC0120000 (repeat 0 600) (boot_map ++ [mk_entry 0 0 0 0]) 3 4096.

Definition empty_kpm : kpm := mk_kpm 0 (mk_buddy 0 0 0 []) [].
Definition from_ok {A} (d : A) (r : result A) : A :=
  match r with Ok a => a | Err _ => d end.
Definition boot_state : kpm := from_ok empty_kpm boot_result.

Lemma example_boot_ok : boot_ok 0x100000 0xC0120000 4096 1024 (repeat 0 600).
Proof.
  constructor; try (vm_compute; intuition congruence).
Qed.

Lemma boot_map_ok : Forall (entry_ok 1024) boot_map.
Proof.
  repeat constructor; cbn; try done; unfold region_ok; vm_compute; intuition congruence.
Qed.

Lemma boot_state_inv : boot_result = Ok boot_state /\ kpm_inv 1024 boot_state /\
  forall f, 0 <= f < 1024 -> frame_alloc boot_state f = negb (frame_enabled boot_state f).
Proof.
  destruct (init_spec 0x100000 0xC0120000 4096 1024 (repeat 0 600) example_boot_ok
              boot_map (mk_entry 0 0 0 0) [] 3 boot_map_ok eq_refl) as (st & E & Hinv & Hf).
  unfold boot_state, boot_result. rewrite E. cbn [from_ok].
  split; [reflexivity |]. split; [exact Hinv |].
  intros f Hr. exact (proj2 (Hf f Hr)).
Qed.

(** The first request of a client. *)
Definition chunk0 : kpm_chunk_t := mk_chunk 0 0.
Definition first_alloc : result (Z * kpm_chunk_t * kpm) := kpm_alloc boot_state chunk0 15000.
Definition state1 : kpm := snd (from_ok (0, chunk0, empty_kpm) first_alloc).
Definition chunk1 : kpm_chunk_t := mk_chunk 16384 16384.


#[local] Opaque boot_result boot_state state1.

Lemma first_alloc_ok : kpm_alloc boot_state chunk0 15000 = Ok (0, chunk1, state1).
Proof. vm_compute. reflexivity. Qed.

Lemma boot_inv : kpm_inv 1024 boot_state.
Proof. exact (proj1 (proj2 boot_state_inv)). Qed.

Lemma boot_frames f : 0 <= f < 1024 ->
  frame_alloc boot_state f = negb (frame_enabled boot_state f).
Proof. exact (proj2 (proj2 boot_state_inv) f). Qed.

Lemma state1_inv : kpm_inv 1024 state1.
Proof.
  exact (proj1 (proj2 (alloc_success 1024 boot_state chunk0 15000 chunk1 state1 boot_inv
    ltac:(lia) ltac:(lia) first_alloc_ok))).
Qed.

(** The blocks 400 to 403 are free after the boot. *)
Lemma boot_block_free f : 400 <= f < 404 -> frame_alloc boot_state f = false.
Proof.
  intros Hf. assert (f = 400 \/ f = 401 \/ f = 402 \/ f = 403) as Hc by lia.
  destruct Hc as [-> | [-> | [-> | ->]]]; vm_compute; reflexivity.
Qed.

(** ** Witnesses *)

Lemma kpm_alloc_correct_witness :
  kpm_inv 1024 boot_state /\
  exists c st', kpm_alloc boot_state chunk0 15000 = Ok (0, c, st') /\ kpm_inv 1024 st' /\
    chunk_ok 1024 c.
Proof.
  split; [exact boot_inv |].
  destruct (kpm_alloc_correct 1024 boot_state chunk0 15000 boot_inv ltac:(lia) ltac:(lia))
    as [(c & st' & E & Hi & Hc & _) | [E _]].
  - exists c, st'. exact (conj E (conj Hi Hc)).
  - rewrite first_alloc_ok in E. discriminate E.
Defined.

Lemma kpm_free_correct_witness :
  kpm_inv 1024 state1 /\ exists st', kpm_free state1 chunk1 = Ok st' /\ kpm_inv 1024 st'.
Proof.
  split; [exact state1_inv |].
  destruct (kpm_free_correct 1024 state1 chunk1 state1_inv eq_refl ltac:(cbn; lia)
    ltac:(cbn; lia) ltac:(cbn; lia)) as (st' & E & Hi & _).
  exists st'. exact (conj E Hi).
Defined.

Lemma kpm_enable_disable_frames_witness :
  (exists st', kpm_enable state1 0x200000 8192 = Ok st') /\
  (exists st', kpm_disable state1 0x200000 8192 = Ok st').
Proof.
  destruct (kpm_enable_disable_frames 1024 state1 0x200000 8192 state1_inv eq_refl
    ltac:(lia) ltac:(lia) ltac:(unfold region_ok; dlia)) as [(s & E & _) (s' & E' & _)].
  split; [exists s | exists s']; assumption.
Defined.

Lemma kpm_init_frames_witness :
  exists st, kpm_init 0x100000 0xC0120000 (repeat 0 600) (boot_map ++ [mk_entry 0 0 0 0]) 3 4096
             = Ok st /\ kpm_inv 1024 st /\
    (frame_enabled st 0, frame_enabled st 1, frame_enabled st 300, frame_enabled st 257) =
      (false, true, true, false).
Proof.
  destruct (kpm_init_frames 0x100000 0xC0120000 4096 1024 (repeat 0 600) boot_map
    (mk_entry 0 0 0 0) [] 3 example_boot_ok boot_map_ok eq_refl) as (st & E & Hi & Hf).
  exists st. split; [exact E |]. split; [exact Hi |].
  rewrite (proj1 (Hf 0 ltac:(lia))), (proj1 (Hf 1 ltac:(lia))), (proj1 (Hf 300 ltac:(lia))),
    (proj1 (Hf 257 ltac:(lia))).
  vm_compute. reflexivity.
Defined.

Lemma kpm_init_reads_past_map_witness :
  kpm_init 0x100000 0xC0120000 (repeat 0 600) boot_map 3 4096 = Err OutOfBounds.
Proof.
  exact (kpm_init_reads_past_map 0x100000 0xC0120000 4096 1024 (repeat 0 600) example_boot_ok
    boot_map 3 boot_map_ok).
Defined.

Lemma find_best_fit_order_correct_witness :
  find_best_fit_order 15000 = 2 /\ 15000 <= 4096 * 2 ^ 2.
Proof.
  pose proof (find_best_fit_order_correct 15000 ltac:(lia) ltac:(lia)) as (_ & H & _).
  change (find_best_fit_order 15000) with 2 in *. split; [reflexivity |].
  destruct H as [H | H]; [exact H | discriminate H].
Defined.

Lemma kpm_alloc_huge_request_witness :
  exists c st', kpm_alloc boot_state chunk0 4294967295 = Ok (0, c, st') /\ chunk_size c = 4096.
Proof.
  exact (kpm_alloc_huge_request 1024 boot_state chunk0 4294967295 400 boot_inv
    ltac:(lia) ltac:(lia) (boot_block_free 400 ltac:(lia))).
Defined.

Lemma kpm_alloc_best_fit_witness :
  exists c st', kpm_alloc boot_state chunk0 15000 = Ok (0, c, st') /\
    4096 * 2 ^ 2 <= chunk_size c <= 4096 * 2 ^ find_best_fit_order 15000.
Proof.
  destruct (kpm_alloc_best_fit 1024 boot_state chunk0 15000 2 100 boot_inv ltac:(lia)
    ltac:(lia) ltac:(vm_compute; split; congruence) ltac:(vm_compute; split; congruence)
    (fun f H => boot_block_free f H)) as (c & st' & E & Hs & _).
  exists c, st'. exact (conj E Hs).
Defined.

Lemma kpm_alloc_free_roundtrip_witness :
  exists st, kpm_free state1 chunk1 = Ok st /\
    forall f, 0 <= f < 1024 -> frame_enabled st f = frame_enabled boot_state f.
Proof.
  destruct (kpm_alloc_free_roundtrip 1024 boot_state chunk0 15000 chunk1 state1 boot_inv
    ltac:(lia) ltac:(lia) first_alloc_ok) as (st & E & _ & Hf & _).
  exists st. exact (conj E Hf).
Defined.

Lemma kpm_refines_witness :
  Alloc.run (total_set 1024 boot_state) (free_set 1024 boot_state)
    [Alloc.Allocated 15000 chunk1] (free_set 1024 state1).
Proof.
  apply (kpm_refines 1024 boot_state [Alloc.Allocated 15000 chunk1] state1 boot_inv).
  apply kpm_run_cons with state1; [| apply kpm_run_nil].
  apply (kpm_allocated boot_state chunk0); [lia | lia | exact first_alloc_ok].
Defined.

Lemma one_client : star client_step (boot_state, []) (state1, [chunk1]).
Proof.
  apply star_one, (client_alloc boot_state [] chunk0 15000); [lia | lia | exact first_alloc_ok].
Qed.

Lemma kpm_no_double_allocation_witness :
  kpm_inv 1024 state1 /\ owners [chunk1] 4 = 1.
Proof.
  destruct (kpm_no_double_allocation 1024 boot_state state1 [chunk1] boot_inv boot_frames
    one_client) as [Hi Ho].
  split; [exact Hi |]. rewrite (Ho 4 ltac:(lia)). vm_compute. reflexivity.
Defined.

Lemma kpm_clients_never_stuck_witness :
  exists st', kpm_free state1 chunk1 = Ok st'.
Proof.
  apply (kpm_clients_never_stuck 1024 boot_state state1 [chunk1] boot_inv boot_frames one_client).
  apply list_elem_of_singleton. reflexivity.
Defined.
