(* ===== verification/KpmRef.v ===== *)
(** A reference allocator, and the equivalence of the bitmap tree of kpm.c with it.

    The state of the reference is a [pool]: which frames are taken and which may be
    handed out at all.  A request is answered by a search over whole blocks of frames,
    without any tree.  Pools are compared frame by frame ([pool_eq]), and the operations
    respect this equivalence.  The theorem says that on every sequence of requests the
    code gives the answers of the reference. *)

From Stdlib Require Import ZArith Lia Bool.
From stdpp Require Import base tactics numbers list option.
From S2P Require Import Prelude Kpm KpmBits KpmTree KpmOps KpmInit KpmTheorems.

Local Open Scope Z_scope.

Module Ref.
Import Kpm.

(** ** The reference *)

Record pool : Type := mk_pool { taken : Z -> bool; usable : Z -> bool }.

(** What clients ask for. *)
Inductive request : Type :=
  | Request (size : Z)
  | Release (c : kpm_chunk_t).

(** The order of a request: the least one that is large enough, at most 10. *)
Definition order_of (size : Z) : Z := Z.min 10 (Z.log2_up ((size + 4095) / 4096)).

Lemma find_ext {A} (f g : A -> bool) l : (forall x, In x l -> f x = g x) -> List.find f l = List.find g l.
Proof.
  induction l as [| x l IH]; intros Hfg; [done |]. cbn [List.find]. rewrite (Hfg x) by by left.
  destruct (g x); [done |]. apply IH. intros y Hy. apply Hfg. by right.
Qed.

Lemma find_skip {A} (f : A -> bool) l l' : (forall x, In x l -> f x = false) ->
  List.find f (l ++ l') = List.find f l'.
Proof.
  induction l as [| x l IH]; intros Hf; [done |]. cbn [app List.find]. rewrite (Hf x) by by left.
  apply IH. intros y Hy. apply Hf. by right.
Qed.

Lemma find_seqZ_first f n i : 0 <= i < n -> f i = true -> (forall j, 0 <= j < i -> f j = false) ->
  List.find f (seqZ 0 n) = Some i.
Proof.
  intros Hi Ht Hf. replace n with (i + (n - i)) by lia. rewrite seqZ_app by lia. rewrite find_skip.
  - rewrite seqZ_cons by lia. cbn [List.find]. by rewrite Z.add_0_l, Ht.
  - intros j Hj. apply list_elem_of_In, elem_of_seqZ in Hj. apply Hf. lia.
Qed.

Lemma find_seqZ_none f n : (forall j, 0 <= j < n -> f j = false) -> List.find f (seqZ 0 n) = None.
Proof.
  intros Hf. rewrite <- (app_nil_r (seqZ 0 n)). rewrite find_skip; [done |].
  intros j Hj. apply list_elem_of_In, elem_of_seqZ in Hj. apply Hf. lia.
Qed.

Section reference.
Context (nf : Z).
Implicit Types p q : pool.

(** Block [i] of an order is free when its frames are. *)
Definition free_block p (o i : Z) : bool := forallb (fun f => negb (taken p f)) (seqZ (i * 2 ^ o) (2 ^ o)).

(** The first free block of the order, or of the next smaller one that has any. *)
Fixpoint search p (o : nat) : option (Z * Z) :=
  match List.find (free_block p (Z.of_nat o)) (seqZ 0 (nblocks nf (Z.of_nat o))) with
  | Some i => Some (Z.of_nat o, i)
  | None => match o with O => None | S o => search p o end
  end.

Definition serve p (r : request) : option kpm_chunk_t * pool :=
  match r with
  | Request size =>
      match search p (Z.to_nat (order_of size)) with
      | Some (o, i) =>
          (Some (block_chunk o i), mk_pool (fun f => in_range (i * 2 ^ o) (2 ^ o) f || taken p f) (usable p))
      | None => (None, p)
      end
  | Release c =>
      (None, mk_pool (fun f => taken p f &&
                        negb (in_range (chunk_addr c / 4096) ((chunk_size c + 4095) / 4096) f && usable p f))
               (usable p))
  end.

Fixpoint serve_all p (rs : list request) : list (option kpm_chunk_t) * pool :=
  match rs with
  | [] => ([], p)
  | r :: rs => let (c, p) := serve p r in let (cs, p) := serve_all p rs in (c :: cs, p)
  end.

(** ** Pools are compared on the frames of the memory *)

Definition pool_eq : relation pool := fun p q =>
  forall f, 0 <= f < nf -> taken p f = taken q f /\ usable p f = usable q f.

#[export] Instance pool_eq_equivalence : Equivalence pool_eq.
Proof.
  split.
  - by intros p f.
  - intros p q Hpq f Hf. by destruct (Hpq f Hf).
  - intros p q r Hpq Hqr f Hf. destruct (Hpq f Hf), (Hqr f Hf). split; congruence.
Qed.

Lemma free_block_iff p o i : free_block p o i = true <->
  forall f, i * 2 ^ o <= f < (i + 1) * 2 ^ o -> taken p f = false.
Proof.
  unfold free_block. rewrite List.forallb_forall. split.
  - intros Hf f Hr. apply negb_true_iff, Hf, list_elem_of_In, elem_of_seqZ. lia.
  - intros Hf f Hr. apply negb_true_iff, Hf. apply list_elem_of_In, elem_of_seqZ in Hr. lia.
Qed.

Lemma block_inside o i f : nf_ok nf -> 0 <= o <= 10 -> 0 <= i < nblocks nf o ->
  i * 2 ^ o <= f < (i + 1) * 2 ^ o -> 0 <= f < nf.
Proof.
  intros Hok Ho Hi Hf. pose proof (pow2_order o Ho). pose proof (nblocks_exact nf Hok o Ho). nia.
Qed.

Context (Hok : nf_ok nf).

Lemma free_block_proper p q o i : 0 <= o <= 10 -> 0 <= i < nblocks nf o -> pool_eq p q ->
  free_block p o i = free_block q o i.
Proof using Hok.
  intros Ho Hi Hpq. apply eq_true_iff_eq. rewrite !free_block_iff.
  split; intros Hf f Hr; (destruct (Hpq f) as [E _]; [by apply (block_inside o i)|]).
  - rewrite <- E. by apply Hf.
  - rewrite E. by apply Hf.
Qed.

Lemma search_proper p q o : Z.of_nat o <= 10 -> pool_eq p q -> search p o = search q o.
Proof using Hok.
  intros Ho Hpq. induction o as [| o IH]; cbn [search];
    rewrite (find_ext (free_block p _) (free_block q _)) by
      (intros i Hi; apply list_elem_of_In, elem_of_seqZ in Hi; apply free_block_proper; (done || lia)).
  - done.
  - by rewrite IH by lia.
Qed.

Lemma order_of_range size : 0 <= order_of size <= 10.
Proof. unfold order_of. pose proof (Z.log2_up_nonneg ((size + 4095) / 4096)). lia. Qed.

(** Serving a request respects the equivalence. *)
#[export] Instance serve_proper : Proper (pool_eq ==> eq ==> prod_relation eq pool_eq) serve.
Proof using Hok.
  intros p q Hpq r _ <-. destruct r as [size | c]; cbn [serve].
  - rewrite (search_proper p q) by (done || pose proof (order_of_range size); lia).
    destruct (search q _) as [[o i] |]; split; try done.
    intros f Hf. destruct (Hpq f Hf) as [E1 E2]. cbn [taken usable snd]. by rewrite E1.
  - split; [done |]. intros f Hf. destruct (Hpq f Hf) as [E1 E2]. cbn [taken usable snd].
    by rewrite E1, E2.
Qed.

#[export] Instance serve_all_proper : Proper (pool_eq ==> eq ==> prod_relation eq pool_eq) serve_all.
Proof using Hok.
  intros p q Hpq rs _ <-. revert p q Hpq. induction rs as [| r rs IH]; intros p q Hpq; [done |].
  cbn [serve_all]. destruct (serve_proper p q Hpq r r eq_refl) as [E1 E2].
  destruct (serve p r) as [c1 p1], (serve q r) as [c2 q1]. cbn [fst snd] in E1, E2. subst c2.
  destruct (IH p1 q1 E2) as [E3 E4].
  destruct (serve_all p1 rs) as [cs1 p2], (serve_all q1 rs) as [cs2 q2]. cbn [fst snd] in E3, E4. by subst.
Qed.
End reference.

(** ** The code *)

(** The order of the code. *)
Lemma best_fit_order size : 0 <= size -> size + 4095 < 4294967296 ->
  find_best_fit_order size = order_of size.
Proof.
  intros H0 H1. destruct (best_fit_spec size H0 H1) as (Ho & Hfit & Hleast).
  set (o := find_best_fit_order size) in *. unfold order_of. set (n := (size + 4095) / 4096).
  assert (size <= 4096 * 2 ^ Z.log2_up n) as Hup.
  { destruct (Z.le_gt_cases n 1) as [Hn | Hn].
    - rewrite Z.log2_up_eqn0 by done. unfold n in Hn. dlia.
    - pose proof (Z.log2_up_spec n Hn). unfold n in *. dlia. }
  pose proof (Z.log2_up_nonneg n). destruct (Z.lt_trichotomy o (Z.min 10 (Z.log2_up n))) as [Hlt | [E | Hgt]]; [| done |].
  - exfalso. destruct Hfit as [Hfit | ?]; [| lia].
    assert (n <= 2 ^ o) as Hn by (unfold n; dlia).
    destruct (Z.le_gt_cases n 0) as [Hz | Hpos].
    + rewrite Z.log2_up_eqn0 in Hlt by lia. lia.
    + apply Z.log2_up_le_pow2 in Hn; lia.
  - exfalso. specialize (Hleast (Z.log2_up n) ltac:(lia)). lia.
Qed.

(** The pool a state of the allocator stands for. *)
Definition pool_of (st : kpm) : pool := mk_pool (frame_alloc st) (frame_enabled st).

(** A client calls kpm_alloc with a chunk of its own, and kpm_free. *)
Definition kpm_serve (st : kpm) (r : request) : result (option kpm_chunk_t * kpm) :=
  match r with
  | Request size =>
      '(z, c, st) ← kpm_alloc st (mk_chunk 0 0) size;
      Ok (if z =? 0 then Some c else None, st)
  | Release c => st ← kpm_free st c; Ok (None, st)
  end.

Fixpoint kpm_serve_all (st : kpm) (rs : list request) : result (list (option kpm_chunk_t) * kpm) :=
  match rs with
  | [] => Ok ([], st)
  | r :: rs => '(c, st) ← kpm_serve st r; '(cs, st) ← kpm_serve_all st rs; Ok (c :: cs, st)
  end.

(** Sizes that do not wrap around, and blocks of pages of the memory. *)
Definition request_ok (nf : Z) (r : request) : Prop :=
  match r with
  | Request size => 0 <= size /\ size + 4095 < 4294967296
  | Release c => chunk_addr c mod 4096 = 0 /\ 0 <= chunk_addr c /\ 0 <= chunk_size c /\
      chunk_addr c + chunk_size c <= nf * 4096
  end.

Section code.
Context (nf : Z).

Lemma free_block_bit st o i : kpm_inv nf st -> 0 <= o <= 10 -> 0 <= i < nblocks nf o ->
  free_block (pool_of st) o i = negb (obit st o i).
Proof.
  intros Hinv Ho Hi. apply eq_true_iff_eq. rewrite free_block_iff, negb_true_iff. symmetry.
  exact (block_free_frames nf _ o i (inv_consistent _ _ Hinv) (wf_nf_ok _ _ (inv_wf _ _ Hinv)) Ho Hi).
Qed.

(** The search finds a block that is the first free one of its order, with no free block in
    the larger orders. *)
Lemma search_found p k o i : 0 <= o <= Z.of_nat k -> 0 <= i < nblocks nf o ->
  free_block p o i = true -> (forall j, 0 <= j < i -> free_block p o j = false) ->
  (forall m j, o < m <= Z.of_nat k -> 0 <= j < nblocks nf m -> free_block p m j = false) ->
  search nf p k = Some (o, i).
Proof.
  intros Ho Hi Ht Hf Hbig. induction k as [| k IH]; cbn [search].
  - assert (o = 0) as -> by lia. by rewrite (find_seqZ_first _ _ i).
  - destruct (Z.eq_dec o (Z.of_nat (S k))) as [-> | Hne]; [by rewrite (find_seqZ_first _ _ i) |].
    rewrite find_seqZ_none by (intros j Hj; apply Hbig; lia). apply IH; [lia |].
    intros m j Hm Hj. apply Hbig; [lia | done].
Qed.

Lemma search_none p k : (forall m j, 0 <= m <= Z.of_nat k -> 0 <= j < nblocks nf m -> free_block p m j = false) ->
  search nf p k = None.
Proof.
  intros Hf. induction k as [| k IH]; cbn [search];
    (rewrite find_seqZ_none by (intros j Hj; apply Hf; [lia | done])); [done |].
  apply IH. intros m j Hm Hj. apply Hf; [lia | done].
Qed.

(** One request. *)
Lemma kpm_serve_spec st r : kpm_inv nf st -> request_ok nf r ->
  exists st', kpm_serve st r = Ok ((serve nf (pool_of st) r).1, st') /\ kpm_inv nf st' /\
    pool_eq nf (pool_of st') (serve nf (pool_of st) r).2.
Proof.
  intros Hinv Hr. pose proof (wf_nf_ok _ _ (inv_wf _ _ Hinv)) as Hok.
  destruct r as [size | c]; cbn [kpm_serve serve request_ok] in *.
  - destruct Hr as [H0 H1]. rewrite <- (best_fit_order size H0 H1).
    destruct (best_fit_spec size H0 H1) as ([Hb0 Hb1] & _).
    destruct (kpm_alloc_cases nf st (mk_chunk 0 0) size Hinv H0 H1)
      as [[-> Hfull] | (o & i & st' & -> & Hinv' & Ho & Hi & Hbit & Hmin & Hbig & Hfr)];
      cbn [mbind result_bind Z.eqb].
    + rewrite search_none; [by exists st |]. intros m j Hm Hj. rewrite Z2Nat.id in Hm by done.
      rewrite free_block_bit by (done || lia). apply negb_false_iff.
      destruct (obit st m j) eqn:E; [done |].
      pose proof (pow2_order m ltac:(lia)).
      rewrite <- (Hfull (j * 2 ^ m)) by (apply (block_inside nf m j); (done || lia)). symmetry.
      apply (proj1 (block_free_frames nf _ m j (inv_consistent _ _ Hinv) Hok ltac:(lia) Hj) E). lia.
    + rewrite (search_found _ _ o i).
      * exists st'. split; [done |]. split; [done |]. intros f Hf. destruct (Hfr f Hf) as [E1 E2]. done.
      * rewrite Z2Nat.id; lia.
      * done.
      * rewrite free_block_bit by (done || lia). by rewrite Hbit.
      * intros j Hj. rewrite free_block_bit by (done || lia). by rewrite Hmin.
      * intros m j Hm Hj. rewrite Z2Nat.id in Hm by done. rewrite free_block_bit by (done || lia). by rewrite Hbig.
  - destruct Hr as (H0 & H1 & H2 & H3).
    destruct (free_spec nf st c Hinv H0 H1 H2 H3) as (st' & -> & Hinv' & Hfr).
    exists st'. split; [done |]. split; [done |]. intros f Hf. destruct (Hfr f Hf) as [E1 E2]. done.
Qed.

(** C19: The allocator is equivalent to the reference: on every sequence of requests and
    releases it gives the same answers, block for block, and ends with the same frames taken. *)
Theorem kpm_serves_as_reference st rs : kpm_inv nf st -> Forall (request_ok nf) rs ->
  exists st', kpm_serve_all st rs = Ok ((serve_all nf (pool_of st) rs).1, st') /\ kpm_inv nf st' /\
    pool_eq nf (pool_of st') (serve_all nf (pool_of st) rs).2.
Proof.
  intros Hinv Hrs. revert st Hinv. induction Hrs as [| r rs Hr _ IH]; intros st Hinv.
  { by exists st. }
  pose proof (wf_nf_ok _ _ (inv_wf _ _ Hinv)) as Hok.
  destruct (kpm_serve_spec st r Hinv Hr) as (st1 & E1 & Hinv1 & Hp1). cbn [kpm_serve_all serve_all].
  rewrite E1. cbn [mbind result_bind]. destruct (serve nf (pool_of st) r) as [c p]. cbn [fst snd] in *.
  destruct (IH st1 Hinv1) as (st2 & E2 & Hinv2 & Hp2). rewrite E2. cbn [mbind result_bind].
  destruct (serve_all_proper nf Hok _ _ Hp1 rs rs eq_refl) as [Ec Hp].
  exists st2. destruct (serve_all nf p rs) as [cs q]. cbn [fst snd] in *. rewrite Ec.
  split; [done |]. split; [done |]. by rewrite Hp2, Hp.
Qed.
End code.

(** ** Witness *)

(** Two requests, a release and the request again on a machine with 4 MiB. *)
Lemma kpm_serves_as_reference_witness : exists st',
  kpm_serve_all boot_state [Request 15000; Request 4096; Release (mk_chunk 16384 16384); Request 9000] =
    Ok ([Some (mk_chunk 16384 16384); Some (mk_chunk 4096 4096); None; Some (mk_chunk 16384 16384)], st') /\
  kpm_inv 1024 st'.
Proof.
  destruct (kpm_serves_as_reference 1024 boot_state
    [Request 15000; Request 4096; Release (mk_chunk 16384 16384); Request 9000] boot_inv)
    as (st' & E & Hinv & _).
  - repeat (apply List.Forall_cons; [by repeat split |]). apply List.Forall_nil.
  - exists st'. split; [| exact Hinv]. rewrite E. vm_compute.  reflexivity.
Defined.

End Ref.
