(* ===== verification/Port.v ===== *)
(** Port input and output (kernel/port.c).

    The devices behind the ports are not part of the repository: [Device] is
    the interface the drivers are written against, and every definition that
    reads or writes a port takes an instance of it.  Reading a port may change
    the device. *)

From Stdlib Require Import ZArith Lia Bool.
From stdpp Require Import base tactics numbers list option.
From S2P Require Import Prelude.

Local Open Scope Z_scope.

Class Device (D : Type) : Type :=
  { dev_in : Z -> D -> Z * D;        (** the [in] instructions *)
    dev_out : Z -> Z -> D -> D }.    (** the [out] instructions *)

Section port.
Context {D : Type} `{Device D}.

Definition port_read_u8 (port : Z) (d : D) : Z * D :=
  let (v, d) := dev_in port d in (u8 v, d).
Definition port_read_u16 (port : Z) (d : D) : Z * D :=
  let (v, d) := dev_in port d in (u16 v, d).
Definition port_write_u8 (port val : Z) (d : D) : D := dev_out port (u8 val) d.
Definition port_write_u16 (port val : Z) (d : D) : D := dev_out port (u16 val) d.

Lemma port_read_u8_range port d : 0 <= (port_read_u8 port d).1 < 256.
Proof. unfold port_read_u8. destruct (dev_in port d). apply u8_range. Qed.
End port.
