(* ===== verification/Keyboard.v ===== *)
(** The keyboard driver: include/kernel/keyboard.h and kernel/keyboard/
    (keyboard.c, scancodes.c, keymaps/US104.c, keymaps/FR.c). *)

From Stdlib Require Import ZArith Lia Bool.
From stdpp Require Import base tactics numbers list option.
From S2P Require Import Prelude Port.

Local Open Scope Z_scope.

Module Keyboard.

(** ** keyboard.h *)

Inductive kbd_eventtype : Type := KEY_PRESSED | KEY_RELEASED.

Inductive kbd_keycode : Type :=
  | UNKNOWN | KEY_ESCAPE | KEY_1 | KEY_2 | KEY_3 | KEY_4 | KEY_5 | KEY_6 | KEY_7 | KEY_8
  | KEY_9 | KEY_0 | KEY_DASH | KEY_EQUAL | KEY_BACKSPACE | KEY_TAB | KEY_Q | KEY_W | KEY_E
  | KEY_R | KEY_T | KEY_Y | KEY_U | KEY_I | KEY_O | KEY_P | KEY_OPENING_SQUARE_BRACKET
  | KEY_CLOSING_SQUARE_BRACKET | KEY_ENTER | KEY_LEFT_CTRL | KEY_A | KEY_S | KEY_D | KEY_F
  | KEY_G | KEY_H | KEY_J | KEY_K | KEY_L | KEY_COLON | KEY_SINGLE_QUOTE | KEY_BACKTICK
  | KEY_LEFT_SHIFT | KEY_BACKSLASH | KEY_Z | KEY_X | KEY_C | KEY_V | KEY_B | KEY_N | KEY_M
  | KEY_COMMA | KEY_DOT | KEY_SLASH | KEY_RIGHT_SHIFT | KEY_KEYPAD_WILDCARD | KEY_LEFT_ALT
  | KEY_SPACE | KEY_CAPS_LOCK | KEY_F1 | KEY_F2 | KEY_F3 | KEY_F4 | KEY_F5 | KEY_F6 | KEY_F7
  | KEY_F8 | KEY_F9 | KEY_F10 | KEY_NUMLOCK | KEY_SCROLLLOCK | KEY_KEYPAD_7 | KEY_KEYPAD_8
  | KEY_KEYPAD_9 | KEY_KEYPAD_DASH | KEY_KEYPAD_4 | KEY_KEYPAD_5 | KEY_KEYPAD_6
  | KEY_KEYPAD_PLUS | KEY_KEYPAD_1 | KEY_KEYPAD_2 | KEY_KEYPAD_3 | KEY_KEYPAD_0
  | KEY_KEYPAD_DOT | KEY_F11 | KEY_F12 | KEY_MULTIMEDIA_PREVIOUS_TRACK
  | KEY_MULTIMEDIA_NEXT_TRACK | KEY_KEYPAD_ENTER | KEY_RIGHT_CTRL | KEY_MULTIMEDIA_MUTE
  | KEY_MULTIMEDIA_CALCULATOR | KEY_MULTIMEDIA_PLAY | KEY_MULTIMEDIA_STOP
  | KEY_MULTIMEDIA_VOLUME_DOWN | KEY_MULTIMEDIA_VOLUME_UP | KEY_MULTIMEDIA_HOME_WWW
  | KEY_KEYPAD_SLASH | KEY_RIGHT_ALT | KEY_HOME | KEY_CURSOR_UP | KEY_PAGE_UP
  | KEY_CURSOR_LEFT | KEY_CURSOR_RIGHT | KEY_END | KEY_CURSOR_DOWN | KEY_PAGE_DOWN
  | KEY_INSERT | KEY_DELETE | KEY_LEFT_GUI | KEY_RIGHT_GUI | KEY_APPS | KEY_ACPI_POWER
  | KEY_ACPI_SLEEP | KEY_ACPI_WAKE | KEY_MULTIMEDIA_WWW_SEARCH
  | KEY_MULTIMEDIA_WWW_FAVORITES | KEY_MULTIMEDIA_WWW_REFRESH | KEY_MULTIMEDIA_WWW_STOP
  | KEY_MULTIMEDIA_WWW_FORWARD | KEY_MULTIMEDIA_WWW_BACK | KEY_MULTIMEDIA_MY_COMPUTER
  | KEY_MULTIMEDIA_EMAIL | KEY_MULTIMEDIA_MEDIA_SELECT.

#[export] Instance kbd_eventtype_eq_dec : EqDecision kbd_eventtype.
Proof. solve_decision. Defined.

(** The value of an enumerator, for comparisons. *)
Definition keycode_val (k : kbd_keycode) : Z :=
  match k with
  | UNKNOWN => 0
  | KEY_ESCAPE => 1
  | KEY_1 => 2
  | KEY_2 => 3
  | KEY_3 => 4
  | KEY_4 => 5
  | KEY_5 => 6
  | KEY_6 => 7
  | KEY_7 => 8
  | KEY_8 => 9
  | KEY_9 => 10
  | KEY_0 => 11
  | KEY_DASH => 12
  | KEY_EQUAL => 13
  | KEY_BACKSPACE => 14
  | KEY_TAB => 15
  | KEY_Q => 16
  | KEY_W => 17
  | KEY_E => 18
  | KEY_R => 19
  | KEY_T => 20
  | KEY_Y => 21
  | KEY_U => 22
  | KEY_I => 23
  | KEY_O => 24
  | KEY_P => 25
  | KEY_OPENING_SQUARE_BRACKET => 26
  | KEY_CLOSING_SQUARE_BRACKET => 27
  | KEY_ENTER => 28
  | KEY_LEFT_CTRL => 29
  | KEY_A => 30
  | KEY_S => 31
  | KEY_D => 32
  | KEY_F => 33
  | KEY_G => 34
  | KEY_H => 35
  | KEY_J => 36
  | KEY_K => 37
  | KEY_L => 38
  | KEY_COLON => 39
  | KEY_SINGLE_QUOTE => 40
  | KEY_BACKTICK => 41
  | KEY_LEFT_SHIFT => 42
  | KEY_BACKSLASH => 43
  | KEY_Z => 44
  | KEY_X => 45
  | KEY_C => 46
  | KEY_V => 47
  | KEY_B => 48
  | KEY_N => 49
  | KEY_M => 50
  | KEY_COMMA => 51
  | KEY_DOT => 52
  | KEY_SLASH => 53
  | KEY_RIGHT_SHIFT => 54
  | KEY_KEYPAD_WILDCARD => 55
  | KEY_LEFT_ALT => 56
  | KEY_SPACE => 57
  | KEY_CAPS_LOCK => 58
  | KEY_F1 => 59
  | KEY_F2 => 60
  | KEY_F3 => 61
  | KEY_F4 => 62
  | KEY_F5 => 63
  | KEY_F6 => 64
  | KEY_F7 => 65
  | KEY_F8 => 66
  | KEY_F9 => 67
  | KEY_F10 => 68
  | KEY_NUMLOCK => 69
  | KEY_SCROLLLOCK => 70
  | KEY_KEYPAD_7 => 71
  | KEY_KEYPAD_8 => 72
  | KEY_KEYPAD_9 => 73
  | KEY_KEYPAD_DASH => 74
  | KEY_KEYPAD_4 => 75
  | KEY_KEYPAD_5 => 76
  | KEY_KEYPAD_6 => 77
  | KEY_KEYPAD_PLUS => 78
  | KEY_KEYPAD_1 => 79
  | KEY_KEYPAD_2 => 80
  | KEY_KEYPAD_3 => 81
  | KEY_KEYPAD_0 => 82
  | KEY_KEYPAD_DOT => 83
  | KEY_F11 => 84
  | KEY_F12 => 85
  | KEY_MULTIMEDIA_PREVIOUS_TRACK => 86
  | KEY_MULTIMEDIA_NEXT_TRACK => 87
  | KEY_KEYPAD_ENTER => 88
  | KEY_RIGHT_CTRL => 89
  | KEY_MULTIMEDIA_MUTE => 90
  | KEY_MULTIMEDIA_CALCULATOR => 91
  | KEY_MULTIMEDIA_PLAY => 92
  | KEY_MULTIMEDIA_STOP => 93
  | KEY_MULTIMEDIA_VOLUME_DOWN => 94
  | KEY_MULTIMEDIA_VOLUME_UP => 95
  | KEY_MULTIMEDIA_HOME_WWW => 96
  | KEY_KEYPAD_SLASH => 97
  | KEY_RIGHT_ALT => 98
  | KEY_HOME => 99
  | KEY_CURSOR_UP => 100
  | KEY_PAGE_UP => 101
  | KEY_CURSOR_LEFT => 102
  | KEY_CURSOR_RIGHT => 103
  | KEY_END => 104
  | KEY_CURSOR_DOWN => 105
  | KEY_PAGE_DOWN => 106
  | KEY_INSERT => 107
  | KEY_DELETE => 108
  | KEY_LEFT_GUI => 109
  | KEY_RIGHT_GUI => 110
  | KEY_APPS => 111
  | KEY_ACPI_POWER => 112
  | KEY_ACPI_SLEEP => 113
  | KEY_ACPI_WAKE => 114
  | KEY_MULTIMEDIA_WWW_SEARCH => 115
  | KEY_MULTIMEDIA_WWW_FAVORITES => 116
  | KEY_MULTIMEDIA_WWW_REFRESH => 117
  | KEY_MULTIMEDIA_WWW_STOP => 118
  | KEY_MULTIMEDIA_WWW_FORWARD => 119
  | KEY_MULTIMEDIA_WWW_BACK => 120
  | KEY_MULTIMEDIA_MY_COMPUTER => 121
  | KEY_MULTIMEDIA_EMAIL => 122
  | KEY_MULTIMEDIA_MEDIA_SELECT => 123
  end.

Record kbd_event := mk_event { evt_type : kbd_eventtype; evt_key : kbd_keycode }.

(** The fields are [int] bit-fields of one bit: 0 or -1. *)
Record kbd_modifiers := mk_modifiers
  { lshift : Z; rshift : Z; capslock : Z; lctrl : Z; rctrl : Z; lalt : Z; ralt : Z;
    numlock : Z }.

Record kbd_keymap_entry := mk_keymap_entry { flags : Z; reg : Z; shift : Z; altgr : Z }.

(** A null keymap function is [None]. *)
Record kbd_state := mk_state
  { getkeymapentry : option (kbd_keycode -> kbd_keymap_entry);
    modifiers : kbd_modifiers; ext : Z }.

Definition NO_MOD : Z := 4.
Definition CAPSLOCK : Z := 2.
Definition NUMLOCK : Z := 1.
Definition HAS_CAPSLOCK_EFFECT (x : kbd_keymap_entry) : bool := negb (Z.land (flags x) 2 =? 0).
Definition HAS_NO_MODIFIERS (x : kbd_keymap_entry) : bool := negb (Z.land (flags x) 4 =? 0).

(** ps2.h *)
Definition PS2_DATA_PORT : Z := 0x60.
Definition PS2_STATUS_REGISTER_PORT : Z := 0x64.
Definition PS2_STATUS_COMMAND_PORT : Z := 0x64.

(** ** scancodes.c *)

(** An array initialised by runs of values with their first index; the cells
    between the runs are zero, which is [UNKNOWN]. *)
Fixpoint designated (next : Z) (runs : list (Z * list kbd_keycode)) : list kbd_keycode :=
  match runs with
  | [] => []
  | (i, ks) :: runs =>
      replicate (Z.to_nat (i - next)) UNKNOWN ++ ks ++
      designated (i + Z.of_nat (length ks)) runs
  end.

Definition kbd_reg_keycodes : list kbd_keycode := designated 0 [
  (0x01, [KEY_ESCAPE; KEY_1; KEY_2; KEY_3; KEY_4; KEY_5; KEY_6; KEY_7; KEY_8; KEY_9; KEY_0;
    KEY_DASH; KEY_EQUAL; KEY_BACKSPACE; KEY_TAB; KEY_Q; KEY_W; KEY_E; KEY_R; KEY_T; KEY_Y;
    KEY_U; KEY_I; KEY_O; KEY_P; KEY_OPENING_SQUARE_BRACKET; KEY_CLOSING_SQUARE_BRACKET;
    KEY_ENTER; KEY_LEFT_CTRL; KEY_A; KEY_S; KEY_D; KEY_F; KEY_G; KEY_H; KEY_J; KEY_K; KEY_L;
    KEY_COLON; KEY_SINGLE_QUOTE; KEY_BACKTICK; KEY_LEFT_SHIFT; KEY_BACKSLASH; KEY_Z; KEY_X;
    KEY_C; KEY_V; KEY_B; KEY_N; KEY_M; KEY_COMMA; KEY_DOT; KEY_SLASH; KEY_RIGHT_SHIFT;
    KEY_KEYPAD_WILDCARD; KEY_LEFT_ALT; KEY_SPACE; KEY_CAPS_LOCK; KEY_F1; KEY_F2; KEY_F3;
    KEY_F4; KEY_F5; KEY_F6; KEY_F7; KEY_F8; KEY_F9; KEY_F10; KEY_NUMLOCK; KEY_SCROLLLOCK;
    KEY_KEYPAD_7; KEY_KEYPAD_8; KEY_KEYPAD_9; KEY_KEYPAD_DASH; KEY_KEYPAD_4; KEY_KEYPAD_5;
    KEY_KEYPAD_6; KEY_KEYPAD_PLUS; KEY_KEYPAD_1; KEY_KEYPAD_2; KEY_KEYPAD_3; KEY_KEYPAD_0;
    KEY_KEYPAD_DOT]);
  (0x57, [KEY_F11; KEY_F12])].

Definition kbd_ext_keycodes : list kbd_keycode := designated 0 [
  (0x10, [KEY_MULTIMEDIA_PREVIOUS_TRACK]);
  (0x19, [KEY_MULTIMEDIA_NEXT_TRACK]);
  (0x1C, [KEY_KEYPAD_ENTER; KEY_RIGHT_CTRL]);
  (0x20, [KEY_MULTIMEDIA_MUTE; KEY_MULTIMEDIA_CALCULATOR; KEY_MULTIMEDIA_PLAY]);
  (0x24, [KEY_MULTIMEDIA_STOP]);
  (0x2E, [KEY_MULTIMEDIA_VOLUME_DOWN]);
  (0x30, [KEY_MULTIMEDIA_VOLUME_UP]);
  (0x32, [KEY_MULTIMEDIA_HOME_WWW]);
  (0x35, [KEY_KEYPAD_SLASH]);
  (0x38, [KEY_RIGHT_ALT]);
  (0x47, [KEY_HOME; KEY_CURSOR_UP; KEY_PAGE_UP]);
  (0x4B, [KEY_CURSOR_LEFT]);
  (0x4D, [KEY_CURSOR_RIGHT]);
  (0x4F, [KEY_END; KEY_CURSOR_DOWN; KEY_PAGE_DOWN; KEY_INSERT; KEY_DELETE]);
  (0x5B, [KEY_LEFT_GUI; KEY_RIGHT_GUI; KEY_APPS; KEY_ACPI_POWER; KEY_ACPI_SLEEP]);
  (0x63, [KEY_ACPI_WAKE]);
  (0x65, [KEY_MULTIMEDIA_WWW_SEARCH; KEY_MULTIMEDIA_WWW_FAVORITES;
    KEY_MULTIMEDIA_WWW_REFRESH; KEY_MULTIMEDIA_WWW_STOP; KEY_MULTIMEDIA_WWW_FORWARD;
    KEY_MULTIMEDIA_WWW_BACK; KEY_MULTIMEDIA_MY_COMPUTER; KEY_MULTIMEDIA_EMAIL;
    KEY_MULTIMEDIA_MEDIA_SELECT])].

(** ** keymaps/US104.c and keymaps/FR.c: the array indexed by keycodes *)

Definition US104_getkeymapentry (kc : kbd_keycode) : kbd_keymap_entry :=
  match kc with
  | KEY_ESCAPE => mk_keymap_entry NO_MOD 27 0 0
  | KEY_1 => mk_keymap_entry 0 49 33 49
  | KEY_2 => mk_keymap_entry 0 50 64 50
  | KEY_3 => mk_keymap_entry 0 51 35 51
  | KEY_4 => mk_keymap_entry 0 52 36 52
  | KEY_5 => mk_keymap_entry 0 53 37 53
  | KEY_6 => mk_keymap_entry 0 54 94 54
  | KEY_7 => mk_keymap_entry 0 55 38 55
  | KEY_8 => mk_keymap_entry 0 56 42 56
  | KEY_9 => mk_keymap_entry 0 57 40 57
  | KEY_0 => mk_keymap_entry 0 48 41 48
  | KEY_DASH => mk_keymap_entry 0 45 95 0
  | KEY_EQUAL => mk_keymap_entry 0 61 43 0
  | KEY_BACKSPACE => mk_keymap_entry NO_MOD 8 0 0
  | KEY_TAB => mk_keymap_entry NO_MOD 9 0 0
  | KEY_Q => mk_keymap_entry CAPSLOCK 113 81 0
  | KEY_W => mk_keymap_entry CAPSLOCK 119 87 0
  | KEY_E => mk_keymap_entry CAPSLOCK 101 69 0
  | KEY_R => mk_keymap_entry CAPSLOCK 114 82 0
  | KEY_T => mk_keymap_entry CAPSLOCK 116 84 0
  | KEY_Y => mk_keymap_entry CAPSLOCK 121 89 0
  | KEY_U => mk_keymap_entry CAPSLOCK 117 85 0
  | KEY_I => mk_keymap_entry CAPSLOCK 105 73 0
  | KEY_O => mk_keymap_entry CAPSLOCK 111 79 0
  | KEY_P => mk_keymap_entry CAPSLOCK 112 80 0
  | KEY_OPENING_SQUARE_BRACKET => mk_keymap_entry 0 91 123 0
  | KEY_CLOSING_SQUARE_BRACKET => mk_keymap_entry 0 93 125 0
  | KEY_ENTER => mk_keymap_entry NO_MOD 10 0 0
  | KEY_A => mk_keymap_entry CAPSLOCK 97 65 0
  | KEY_S => mk_keymap_entry CAPSLOCK 115 83 0
  | KEY_D => mk_keymap_entry CAPSLOCK 100 68 0
  | KEY_F => mk_keymap_entry CAPSLOCK 102 70 0
  | KEY_G => mk_keymap_entry CAPSLOCK 103 71 0
  | KEY_H => mk_keymap_entry CAPSLOCK 104 72 0
  | KEY_J => mk_keymap_entry CAPSLOCK 106 74 0
  | KEY_K => mk_keymap_entry CAPSLOCK 107 75 0
  | KEY_L => mk_keymap_entry CAPSLOCK 108 76 0
  | KEY_COLON => mk_keymap_entry 0 59 58 0
  | KEY_SINGLE_QUOTE => mk_keymap_entry 0 39 34 0
  | KEY_BACKTICK => mk_keymap_entry 0 96 126 0
  | KEY_BACKSLASH => mk_keymap_entry 0 92 124 0
  | KEY_Z => mk_keymap_entry CAPSLOCK 122 90 0
  | KEY_X => mk_keymap_entry CAPSLOCK 120 88 0
  | KEY_C => mk_keymap_entry CAPSLOCK 99 67 0
  | KEY_V => mk_keymap_entry CAPSLOCK 118 86 0
  | KEY_B => mk_keymap_entry CAPSLOCK 98 66 0
  | KEY_N => mk_keymap_entry CAPSLOCK 110 78 0
  | KEY_M => mk_keymap_entry CAPSLOCK 109 77 0
  | KEY_COMMA => mk_keymap_entry 0 44 60 0
  | KEY_DOT => mk_keymap_entry 0 46 62 0
  | KEY_SLASH => mk_keymap_entry 0 47 63 0
  | KEY_KEYPAD_WILDCARD => mk_keymap_entry NO_MOD 42 0 0
  | KEY_SPACE => mk_keymap_entry NO_MOD 32 0 0
  | KEY_KEYPAD_7 => mk_keymap_entry (Z.lor NUMLOCK NO_MOD) 55 0 0
  | KEY_KEYPAD_8 => mk_keymap_entry (Z.lor NUMLOCK NO_MOD) 56 0 0
  | KEY_KEYPAD_9 => mk_keymap_entry (Z.lor NUMLOCK NO_MOD) 57 0 0
  | KEY_KEYPAD_DASH => mk_keymap_entry NO_MOD 45 0 0
  | KEY_KEYPAD_4 => mk_keymap_entry (Z.lor NUMLOCK NO_MOD) 52 0 0
  | KEY_KEYPAD_5 => mk_keymap_entry (Z.lor NUMLOCK NO_MOD) 53 0 0
  | KEY_KEYPAD_6 => mk_keymap_entry (Z.lor NUMLOCK NO_MOD) 54 0 0
  | KEY_KEYPAD_PLUS => mk_keymap_entry NO_MOD 43 0 0
  | KEY_KEYPAD_1 => mk_keymap_entry (Z.lor NUMLOCK NO_MOD) 49 0 0
  | KEY_KEYPAD_2 => mk_keymap_entry (Z.lor NUMLOCK NO_MOD) 50 0 0
  | KEY_KEYPAD_3 => mk_keymap_entry (Z.lor NUMLOCK NO_MOD) 51 0 0
  | KEY_KEYPAD_0 => mk_keymap_entry (Z.lor NUMLOCK NO_MOD) 48 0 0
  | KEY_KEYPAD_DOT => mk_keymap_entry NO_MOD 46 0 0
  | KEY_KEYPAD_ENTER => mk_keymap_entry NO_MOD 10 0 0
  | KEY_KEYPAD_SLASH => mk_keymap_entry NO_MOD 47 0 0
  | _ => mk_keymap_entry 0 0 0 0
  end.

Definition FR_getkeymapentry (kc : kbd_keycode) : kbd_keymap_entry :=
  match kc with
  | KEY_ESCAPE => mk_keymap_entry NO_MOD 27 0 0
  | KEY_1 => mk_keymap_entry 0 38 49 0
  | KEY_2 => mk_keymap_entry 0 101 50 126
  | KEY_3 => mk_keymap_entry 0 34 51 35
  | KEY_4 => mk_keymap_entry 0 39 52 123
  | KEY_5 => mk_keymap_entry 0 40 53 91
  | KEY_6 => mk_keymap_entry 0 45 54 124
  | KEY_7 => mk_keymap_entry 0 101 55 96
  | KEY_8 => mk_keymap_entry 0 95 56 92
  | KEY_9 => mk_keymap_entry 0 99 57 94
  | KEY_0 => mk_keymap_entry 0 97 48 64
  | KEY_DASH => mk_keymap_entry 0 41 0 93
  | KEY_EQUAL => mk_keymap_entry 0 61 43 125
  | KEY_BACKSPACE => mk_keymap_entry NO_MOD 8 0 0
  | KEY_TAB => mk_keymap_entry NO_MOD 9 0 0
  | KEY_Q => mk_keymap_entry CAPSLOCK 97 65 0
  | KEY_W => mk_keymap_entry CAPSLOCK 122 90 0
  | KEY_E => mk_keymap_entry CAPSLOCK 101 69 0
  | KEY_R => mk_keymap_entry CAPSLOCK 114 82 0
  | KEY_T => mk_keymap_entry CAPSLOCK 116 84 0
  | KEY_Y => mk_keymap_entry CAPSLOCK 121 89 0
  | KEY_U => mk_keymap_entry CAPSLOCK 117 85 0
  | KEY_I => mk_keymap_entry CAPSLOCK 105 73 0
  | KEY_O => mk_keymap_entry CAPSLOCK 111 79 0
  | KEY_P => mk_keymap_entry CAPSLOCK 112 80 0
  | KEY_OPENING_SQUARE_BRACKET => mk_keymap_entry 0 0 0 0
  | KEY_CLOSING_SQUARE_BRACKET => mk_keymap_entry 0 36 0 0
  | KEY_ENTER => mk_keymap_entry NO_MOD 10 0 0
  | KEY_A => mk_keymap_entry CAPSLOCK 113 81 0
  | KEY_S => mk_keymap_entry CAPSLOCK 115 83 0
  | KEY_D => mk_keymap_entry CAPSLOCK 100 68 0
  | KEY_F => mk_keymap_entry CAPSLOCK 102 70 0
  | KEY_G => mk_keymap_entry CAPSLOCK 103 71 0
  | KEY_H => mk_keymap_entry CAPSLOCK 104 72 0
  | KEY_J => mk_keymap_entry CAPSLOCK 106 74 0
  | KEY_K => mk_keymap_entry CAPSLOCK 107 75 0
  | KEY_L => mk_keymap_entry CAPSLOCK 108 76 0
  | KEY_COLON => mk_keymap_entry 0 109 77 0
  | KEY_SINGLE_QUOTE => mk_keymap_entry 0 0 37 0
  | KEY_BACKTICK => mk_keymap_entry 0 0 0 0
  | KEY_BACKSLASH => mk_keymap_entry 0 0 42 0
  | KEY_Z => mk_keymap_entry CAPSLOCK 119 87 0
  | KEY_X => mk_keymap_entry CAPSLOCK 120 88 0
  | KEY_C => mk_keymap_entry CAPSLOCK 99 67 0
  | KEY_V => mk_keymap_entry CAPSLOCK 118 86 0
  | KEY_B => mk_keymap_entry CAPSLOCK 98 66 0
  | KEY_N => mk_keymap_entry CAPSLOCK 110 78 0
  | KEY_M => mk_keymap_entry CAPSLOCK 44 63 0
  | KEY_COMMA => mk_keymap_entry 0 59 46 0
  | KEY_DOT => mk_keymap_entry 0 58 47 0
  | KEY_SLASH => mk_keymap_entry 0 33 0 0
  | KEY_KEYPAD_WILDCARD => mk_keymap_entry NO_MOD 42 0 0
  | KEY_SPACE => mk_keymap_entry NO_MOD 32 0 0
  | KEY_KEYPAD_7 => mk_keymap_entry (Z.lor NUMLOCK NO_MOD) 55 0 0
  | KEY_KEYPAD_8 => mk_keymap_entry (Z.lor NUMLOCK NO_MOD) 56 0 0
  | KEY_KEYPAD_9 => mk_keymap_entry (Z.lor NUMLOCK NO_MOD) 57 0 0
  | KEY_KEYPAD_DASH => mk_keymap_entry NO_MOD 45 0 0
  | KEY_KEYPAD_4 => mk_keymap_entry (Z.lor NUMLOCK NO_MOD) 52 0 0
  | KEY_KEYPAD_5 => mk_keymap_entry (Z.lor NUMLOCK NO_MOD) 53 0 0
  | KEY_KEYPAD_6 => mk_keymap_entry (Z.lor NUMLOCK NO_MOD) 54 0 0
  | KEY_KEYPAD_PLUS => mk_keymap_entry NO_MOD 43 0 0
  | KEY_KEYPAD_1 => mk_keymap_entry (Z.lor NUMLOCK NO_MOD) 49 0 0
  | KEY_KEYPAD_2 => mk_keymap_entry (Z.lor NUMLOCK NO_MOD) 50 0 0
  | KEY_KEYPAD_3 => mk_keymap_entry (Z.lor NUMLOCK NO_MOD) 51 0 0
  | KEY_KEYPAD_0 => mk_keymap_entry (Z.lor NUMLOCK NO_MOD) 48 0 0
  | KEY_KEYPAD_DOT => mk_keymap_entry NO_MOD 46 0 0
  | KEY_KEYPAD_ENTER => mk_keymap_entry NO_MOD 10 0 0
  | KEY_KEYPAD_SLASH => mk_keymap_entry NO_MOD 47 0 0
  | _ => mk_keymap_entry 0 0 0 0
  end.

(** ** keyboard.c *)

(** Storing an [int] in a signed bit-field of one bit. *)
Definition bf1 (x : Z) : Z := - (x mod 2).
Definition c_bool (b : bool) : Z := if b then 1 else 0.
Definition c_not (x : Z) : Z := c_bool (x =? 0).

(** The global [kbd_st], as initialised. *)
Definition kbd_st_init : kbd_state := mk_state None (mk_modifiers 0 0 0 0 0 0 0 0) 0.

(** The two LED functions have an empty body. *)
Definition set_capslock_led (on : Z) (st : kbd_state) : kbd_state := st.
Definition set_numlock_led (on : Z) (st : kbd_state) : kbd_state := st.

Definition KBD_setkeymap (kmfn : kbd_keycode -> kbd_keymap_entry) (st : kbd_state)
    : kbd_state := mk_state (Some kmfn) (modifiers st) (ext st).

Definition KBD_initialize (st : kbd_state) : kbd_state :=
  KBD_setkeymap US104_getkeymapentry (set_numlock_led 0 (set_capslock_led 0 st)).

Definition pressed (evt : kbd_event) : Z := c_bool (bool_decide (evt_type evt = KEY_PRESSED)).

Definition set_modifiers_of (evt : kbd_event) (m : kbd_modifiers) : kbd_modifiers :=
  let '(mk_modifiers ls rs cl lc rc la ra nl) := m in
  match evt_key evt with
  | KEY_LEFT_SHIFT => mk_modifiers (bf1 (pressed evt)) rs cl lc rc la ra nl
  | KEY_RIGHT_SHIFT => mk_modifiers ls (bf1 (pressed evt)) cl lc rc la ra nl
  | KEY_CAPS_LOCK =>
      match evt_type evt with
      | KEY_RELEASED => mk_modifiers ls rs (bf1 (c_not cl)) lc rc la ra nl
      | KEY_PRESSED => m
      end
  | KEY_NUMLOCK =>
      match evt_type evt with
      | KEY_RELEASED => mk_modifiers ls rs cl lc rc la ra (bf1 (c_not nl))
      | KEY_PRESSED => m
      end
  | KEY_LEFT_CTRL => mk_modifiers ls rs cl (bf1 (pressed evt)) rc la ra nl
  | KEY_RIGHT_CTRL => mk_modifiers ls rs cl lc (bf1 (pressed evt)) la ra nl
  | KEY_LEFT_ALT => mk_modifiers ls rs cl lc rc (bf1 (pressed evt)) ra nl
  | KEY_RIGHT_ALT => mk_modifiers ls rs cl lc rc la (bf1 (pressed evt)) nl
  | _ => m
  end.

(** set_modifiers: the LED calls follow the two toggles. *)
Definition set_modifiers (evt : kbd_event) (st : kbd_state) : kbd_state :=
  let st' := mk_state (getkeymapentry st) (set_modifiers_of evt (modifiers st)) (ext st) in
  match evt_key evt, evt_type evt with
  | KEY_CAPS_LOCK, KEY_RELEASED => set_numlock_led (capslock (modifiers st')) st'
  | KEY_NUMLOCK, KEY_RELEASED => set_numlock_led (numlock (modifiers st')) st'
  | _, _ => st'
  end.

(** The part of KBD_getevent that follows the read of the data port: [evt] is
    the structure the caller passes, returned as the function leaves it. *)
Definition KBD_scancode (sc : Z) (evt : kbd_event) (st : kbd_state)
    : result (Z * kbd_event * kbd_state) :=
  if sc =? 0xE0 then
    if negb (ext st =? 0) then Ok (-1, evt, st)
    else Ok (-2, evt, mk_state (getkeymapentry st) (modifiers st) 1)
  else
    let (ty, sc) := if sc >? 0x80 then (KEY_RELEASED, u8 (sc - 0x80)) else (KEY_PRESSED, sc) in
    key ← (if negb (ext st =? 0) then rd kbd_ext_keycodes sc else rd kbd_reg_keycodes sc);
    let evt := mk_event ty key in
    let st := set_modifiers evt st in
    let st := mk_state (getkeymapentry st) (modifiers st) 0 in
    Ok (if keycode_val (evt_key evt) =? keycode_val UNKNOWN then -1 else 0, evt, st).

(** KBD_getchar; the [int] result is a byte of the entry. *)
Definition KBD_getchar (evt : kbd_event) (st : kbd_state) : Z :=
  let mod_ := modifiers st in
  match getkeymapentry st with
  | None => 0
  | Some f =>
      let ent := f (evt_key evt) in
      if reg ent =? 0 then 0
      else if HAS_NO_MODIFIERS ent then reg ent
      else if negb (ralt mod_ =? 0) then altgr ent
      else if negb (capslock mod_ =? 0) && HAS_CAPSLOCK_EFFECT ent then
        if negb (Z.lor (lshift mod_) (rshift mod_) =? 0) then reg ent else shift ent
      else if negb (Z.lor (lshift mod_) (rshift mod_) =? 0) then shift ent else reg ent
  end.

Section device.
Context {D : Type} `{Device D}.

Definition KBD_poll (d : D) : Z * D :=
  let (status, d) := port_read_u8 PS2_STATUS_REGISTER_PORT d in (Z.land status 1, d).

Definition KBD_getevent (evt : kbd_event) (st : kbd_state) (d : D)
    : result (Z * kbd_event * kbd_state * D) :=
  let (sc, d) := port_read_u8 PS2_DATA_PORT d in
  r ← KBD_scancode sc evt st; Ok (r, d).

(** [while (!KBD_poll());] *)
Fixpoint KBD_wait (fuel : nat) (d : D) : result D :=
  match fuel with
  | O => Err OutOfFuel
  | S fuel => let (b, d) := KBD_poll d in if b =? 0 then KBD_wait fuel d else Ok d
  end.

(** KBD_geteventbytype; [fuel] bounds the number of events read and the
    number of polls before each of them. *)
Fixpoint KBD_geteventbytype (fuel : nat) (ty : kbd_eventtype) (evt : kbd_event)
    (st : kbd_state) (d : D) : result (kbd_event * kbd_state * D) :=
  match fuel with
  | O => Err OutOfFuel
  | S fuel' =>
      d ← KBD_wait fuel d;
      '(r, evt, st, d) ← KBD_getevent evt st d;
      if (r =? 0) && bool_decide (evt_type evt = ty) then Ok (evt, st, d)
      else KBD_geteventbytype fuel' ty evt st d
  end.

Definition KBD_flush (d : D) : D :=
  let (status, d) := port_read_u8 PS2_STATUS_REGISTER_PORT d in
  port_write_u8 PS2_STATUS_COMMAND_PORT (Z.land status (Z.shiftl 0xff 2)) d.
End device.

(** ** Properties *)

Lemma reg_keycodes_length : length kbd_reg_keycodes = 89%nat.
Proof. reflexivity. Qed.
Lemma ext_keycodes_length : length kbd_ext_keycodes = 110%nat.
Proof. reflexivity. Qed.

(** The index a scancode selects in the table of the current mode. *)
Definition table_index (sc : Z) : Z := if sc >? 0x80 then sc - 0x80 else sc.
Definition table_length (st : kbd_state) : Z := if ext st =? 0 then 89 else 110.

(** A scancode leads out of its table exactly when its index is not below the
    table's length: the 7-bit index of the data port is not checked, so on
    the regular table the make codes from 0x59 on, and their break codes, read
    past the 89 entries; on the extended table those from 0x6E on. *)
Theorem KBD_scancode_in_table sc evt st :
  0 <= sc < 256 ->
  KBD_scancode sc evt st <> Err OutOfBounds <->
  sc = 0xE0 \/ table_index sc < table_length st.
Proof.
  intros Hsc. unfold KBD_scancode, table_index, table_length.
  destruct (Z.eqb_spec sc 0xE0) as [-> | Hne].
  { split; [by left | intros _]. by destruct (negb (ext st =? 0)). }
  assert (forall ty i, 0 <= i ->
    (key ← (if negb (ext st =? 0) then rd kbd_ext_keycodes i else rd kbd_reg_keycodes i);
     let evt := mk_event ty key in
     let st := set_modifiers evt st in
     let st := mk_state (getkeymapentry st) (modifiers st) 0 in
     Ok (if keycode_val (evt_key evt) =? keycode_val UNKNOWN then -1 else 0, evt, st))
      <> Err OutOfBounds <-> sc = 0xE0 \/ i < if ext st =? 0 then 89 else 110) as Haux.
  { intros ty i Hi.
    destruct (Z.eqb_spec (ext st) 0); cbn [negb].
    - destruct (Z.lt_ge_cases i 89) as [Hlt | Hge].
      + rewrite (rd_ok UNKNOWN) by (unfold zlen; rewrite reg_keycodes_length; lia).
        split; [by right | done].
      + rewrite rd_out by (unfold zlen; rewrite reg_keycodes_length; lia).
        split; [done | intros [|]; lia].
    - destruct (Z.lt_ge_cases i 110) as [Hlt | Hge].
      + rewrite (rd_ok UNKNOWN) by (unfold zlen; rewrite ext_keycodes_length; lia).
        split; [by right | done].
      + rewrite rd_out by (unfold zlen; rewrite ext_keycodes_length; lia).
        split; [done | intros [|]; lia]. }
  destruct (Z.gtb_spec sc 0x80).
  - rewrite u8_small by lia. apply Haux. lia.
  - apply Haux. lia.
Qed.

(** *** The modifiers follow the events *)

(** The events of a sequence of scancodes, as successive calls of KBD_getevent
    report them (the calls that return 0). *)
Fixpoint kbd_read (scs : list Z) (st : kbd_state) : result (list kbd_event * kbd_state) :=
  match scs with
  | [] => Ok ([], st)
  | sc :: scs =>
      '(r, e, st) ← KBD_scancode sc (mk_event KEY_PRESSED UNKNOWN) st;
      '(es, st) ← kbd_read scs st;
      Ok (if r =? 0 then e :: es else es, st)
  end.

(** A key is held when its last event is a press. *)
Definition is_key (k : kbd_keycode) (e : kbd_event) : bool :=
  keycode_val (evt_key e) =? keycode_val k.
Definition held (k : kbd_keycode) (now : bool) (es : list kbd_event) : bool :=
  fold_left (fun b e => if is_key k e then bool_decide (evt_type e = KEY_PRESSED) else b) es now.
(** A lock is on after an odd number of releases of its key. *)
Definition locked (k : kbd_keycode) (now : bool) (es : list kbd_event) : bool :=
  fold_left (fun b e => if is_key k e && bool_decide (evt_type e = KEY_RELEASED)
                        then negb b else b) es now.

(** The truth value of a bit-field, and the bit-fields of truth values. *)
Definition on (x : Z) : bool := negb (x =? 0).
Definition bit (b : bool) : Z := if b then -1 else 0.

Definition modifiers_after (m : kbd_modifiers) (es : list kbd_event) : kbd_modifiers :=
  mk_modifiers
    (bit (held KEY_LEFT_SHIFT (on (lshift m)) es))
    (bit (held KEY_RIGHT_SHIFT (on (rshift m)) es))
    (bit (locked KEY_CAPS_LOCK (on (capslock m)) es))
    (bit (held KEY_LEFT_CTRL (on (lctrl m)) es))
    (bit (held KEY_RIGHT_CTRL (on (rctrl m)) es))
    (bit (held KEY_LEFT_ALT (on (lalt m)) es))
    (bit (held KEY_RIGHT_ALT (on (ralt m)) es))
    (bit (locked KEY_NUMLOCK (on (numlock m)) es)).

(** The fields hold values a one-bit field can hold. *)
Definition modifiers_ok (m : kbd_modifiers) : Prop := m = modifiers_after m [].

Lemma on_bit b : on (bit b) = b.
Proof. by destruct b. Qed.

Lemma modifiers_ok_after m es : modifiers_ok (modifiers_after m es).
Proof. unfold modifiers_ok, modifiers_after. simpl. by rewrite !on_bit. Qed.

Lemma modifiers_after_cons m e es :
  modifiers_after m (e :: es) = modifiers_after (modifiers_after m [e]) es.
Proof. unfold modifiers_after at 1 2. simpl. by rewrite !on_bit. Qed.

Lemma bf1_not b : bf1 (c_not (bit b)) = bit (negb b).
Proof. by destruct b. Qed.

Lemma set_modifiers_spec e st :
  modifiers_ok (modifiers st) ->
  getkeymapentry (set_modifiers e st) = getkeymapentry st /\
  ext (set_modifiers e st) = ext st /\
  modifiers (set_modifiers e st) = modifiers_after (modifiers st) [e].
Proof.
  intros Hok. assert (set_modifiers e st =
    mk_state (getkeymapentry st) (set_modifiers_of e (modifiers st)) (ext st)) as ->.
  { unfold set_modifiers, set_numlock_led.
    by destruct (evt_key e), (evt_type e). }
  simpl. split; [done |]. split; [done |]. rewrite Hok.
  destruct (modifiers st) as [a b c d x f g h], e as [ty k].
  unfold modifiers_after. cbn [lshift rshift capslock lctrl rctrl lalt ralt numlock held
    locked fold_left]. rewrite !on_bit.
  generalize (on a) (on b) (on c) (on d) (on x) (on f) (on g) (on h). intros.
  destruct k; try reflexivity; destruct ty; simpl; rewrite ?bf1_not; reflexivity.
Qed.

Lemma unknown_keeps_modifiers m e :
  modifiers_ok m -> evt_key e = UNKNOWN -> modifiers_after m [e] = m.
Proof.
  intros Hok Hk. unfold modifiers_ok in Hok. rewrite Hok at 2. unfold modifiers_after, held, locked, is_key. simpl.
  by rewrite Hk.
Qed.

Lemma keycode_val_0 k : keycode_val k = 0 -> k = UNKNOWN.
Proof. destruct k; intros H; solve [reflexivity | discriminate H]. Qed.

(** C25: After any sequence of scancodes the modifier flags say what the reported
    events say: a shift, control or alt flag is set exactly while its key is
    held, a lock flag changes at each release of its key, and nothing else
    changes them. *)
Theorem kbd_modifiers_track scs st es st' :
  modifiers_ok (modifiers st) -> kbd_read scs st = Ok (es, st') ->
  modifiers st' = modifiers_after (modifiers st) es /\
  getkeymapentry st' = getkeymapentry st.
Proof.
  revert st es st'. induction scs as [| sc scs IH]; intros st es st' Hok Hrd; simpl in Hrd.
  - injection Hrd as <- <-. done.
  - apply bind_inv in Hrd as ([[r e] st1] & Hsc & Hrd).
    apply bind_inv in Hrd as ([es1 st2] & Hrest & Hrd). injection Hrd as <- <-.
    unfold KBD_scancode in Hsc. destruct (sc =? 0xE0).
    { destruct (negb (ext st =? 0)); injection Hsc as <- <- <-; refine (IH _ _ _ _ Hrest); exact Hok. }
    destruct (if sc >? 0x80 then _ else _) as [ty sc'].
    apply bind_inv in Hsc as (key & _ & Hsc). injection Hsc as <- <- <-.
    destruct (set_modifiers_spec (mk_event ty key) st Hok) as (Hg & _ & Hm).
    apply IH in Hrest as [Hm' Hg']; [| simpl; rewrite Hm; apply modifiers_ok_after].
    simpl in Hm', Hg'. rewrite Hm', Hg', Hm, Hg. split; [| done].
    simpl. destruct (Z.eqb_spec (keycode_val key) 0) as [Hz | _]; simpl.
    + rewrite unknown_keeps_modifiers; [done | done | by apply keycode_val_0].
    + by rewrite <- modifiers_after_cons.
Qed.

(** *** Characters *)

Definition keyboard_layout (f : kbd_keycode -> kbd_keymap_entry) : Prop :=
  f = US104_getkeymapentry \/ f = FR_getkeymapentry.

(** Every character of the two layouts is 7-bit, so it survives the conversion
    to [char] of the callers. *)
Theorem KBD_getchar_ascii evt st f :
  getkeymapentry st = Some f -> keyboard_layout f ->
  0 <= KBD_getchar evt st < 128 /\ i8 (KBD_getchar evt st) = KBD_getchar evt st.
Proof.
  intros Hf Hl.
  assert (forall k, (0 <= reg (f k) < 128 /\ i8 (reg (f k)) = reg (f k)) /\
    (0 <= shift (f k) < 128 /\ i8 (shift (f k)) = shift (f k)) /\
    (0 <= altgr (f k) < 128 /\ i8 (altgr (f k)) = altgr (f k))) as Hall.
  { intros k. destruct Hl as [-> | ->]; destruct k; vm_compute; repeat split; congruence. }
  unfold KBD_getchar. rewrite Hf. destruct (Hall (evt_key evt)) as (H1 & H2 & H3).
  repeat match goal with |- context [if ?b then _ else _] => destruct b end;
    (done || (split; [lia | reflexivity])).
Qed.

Definition shifted (m : kbd_modifiers) : bool := on (lshift m) || on (rshift m).

Lemma lor_on a b : negb (Z.lor a b =? 0) = on a || on b.
Proof.
  unfold on. destruct (Z.eqb_spec (Z.lor a b) 0) as [H | H].
  - apply Z.lor_eq_0_iff in H as [-> ->]. done.
  - destruct (Z.eqb_spec a 0) as [-> |]; [| done]. destruct (Z.eqb_spec b 0) as [-> |]; [| done].
    by destruct H.
Qed.

(** On the US layout the keys with the caps lock flag give letters: upper case
    when exactly one of caps lock and shift is on, lower case otherwise. *)
Theorem KBD_getchar_letters evt st :
  getkeymapentry st = Some US104_getkeymapentry -> ralt (modifiers st) = 0 ->
  HAS_CAPSLOCK_EFFECT (US104_getkeymapentry (evt_key evt)) = true ->
  exists letter, 97 <= letter <= 122 /\
    KBD_getchar evt st =
      if xorb (on (capslock (modifiers st))) (shifted (modifiers st))
      then letter - 32 else letter.
Proof.
  intros Hf Hr Hcap.
  assert (exists letter, 97 <= letter <= 122 /\
    US104_getkeymapentry (evt_key evt) = mk_keymap_entry CAPSLOCK letter (letter - 32) 0)
    as (letter & Hl & He).
  { exists (reg (US104_getkeymapentry (evt_key evt))).
    destruct (evt_key evt); try discriminate Hcap; (split; [simpl; lia | reflexivity]). }
  exists letter. split; [done |]. unfold KBD_getchar. rewrite Hf, He, Hr.
  rewrite lor_on. unfold shifted. cbn [reg shift HAS_NO_MODIFIERS HAS_CAPSLOCK_EFFECT flags].
  rewrite (proj2 (Z.eqb_neq letter 0)) by lia.
  change (HAS_NO_MODIFIERS (mk_keymap_entry CAPSLOCK letter (letter - 32) 0)) with false.
  change (HAS_CAPSLOCK_EFFECT (mk_keymap_entry CAPSLOCK letter (letter - 32) 0)) with true.
  simpl. fold (on (capslock (modifiers st))).
  by destruct (on (capslock (modifiers st))), (on (lshift (modifiers st)) || _).
Qed.

(** Each letter has its key on the US layout. *)
Lemma US104_all_letters letter : 97 <= letter <= 122 ->
  exists k, US104_getkeymapentry k = mk_keymap_entry CAPSLOCK letter (letter - 32) 0.
Proof.
  intros Hl.
  assert (letter = 97 \/ letter = 98 \/ letter = 99 \/ letter = 100 \/ letter = 101 \/
    letter = 102 \/ letter = 103 \/ letter = 104 \/ letter = 105 \/ letter = 106 \/
    letter = 107 \/ letter = 108 \/ letter = 109 \/ letter = 110 \/ letter = 111 \/
    letter = 112 \/ letter = 113 \/ letter = 114 \/ letter = 115 \/ letter = 116 \/
    letter = 117 \/ letter = 118 \/ letter = 119 \/ letter = 120 \/ letter = 121 \/
    letter = 122) as Hcases by lia.
  repeat destruct Hcases as [-> | Hcases]; subst;
  [exists KEY_A | exists KEY_B | exists KEY_C | exists KEY_D | exists KEY_E | exists KEY_F
  | exists KEY_G | exists KEY_H | exists KEY_I | exists KEY_J | exists KEY_K | exists KEY_L
  | exists KEY_M | exists KEY_N | exists KEY_O | exists KEY_P | exists KEY_Q | exists KEY_R
  | exists KEY_S | exists KEY_T | exists KEY_U | exists KEY_V | exists KEY_W | exists KEY_X
  | exists KEY_Y | exists KEY_Z]; reflexivity.
Qed.

(** On the FR layout the flag sits on the key of the comma instead of the key
    of the letter m: with caps lock on, the comma key gives a question mark and
    the m key still gives a lower case m. *)
Theorem FR_capslock_misplaced ty m :
  on (capslock m) = true -> shifted m = false -> ralt m = 0 ->
  let st := mk_state (Some FR_getkeymapentry) m 0 in
  KBD_getchar (mk_event ty KEY_M) st = 63 /\ KBD_getchar (mk_event ty KEY_COLON) st = 109.
Proof.
  intros Hc Hs Hr st. unfold KBD_getchar, st. simpl. rewrite lor_on. unfold shifted in Hs.
  rewrite Hs, Hr. fold (on (capslock m)). rewrite Hc. done.
Qed.

(** The FR layout has a percent sign, but no key gives it: it is the shifted character of a key without a
    regular one, and KBD_getchar returns 0 for such a key whatever the modifiers are. *)
Theorem FR_percent_unreachable evt m e : shift (FR_getkeymapentry KEY_SINGLE_QUOTE) = 37 /\
  KBD_getchar evt (mk_state (Some FR_getkeymapentry) m e) <> 37.
Proof.
  split; [done |]. unfold KBD_getchar. cbn [getkeymapentry modifiers].
  destruct (evt_key evt); cbn; repeat match goal with |- context [if ?b then _ else _] => destruct b end; discriminate.
Qed.

(** ** Witnesses *)

Definition shift_down : kbd_state :=
  mk_state (Some US104_getkeymapentry) (mk_modifiers (-1) 0 0 0 0 0 0 0) 0.

Lemma KBD_scancode_in_table_witness :
  KBD_scancode 0x1E (mk_event KEY_PRESSED UNKNOWN) kbd_st_init <> Err OutOfBounds.
Proof.
  apply (KBD_scancode_in_table 0x1E); [lia |]. right. vm_compute. reflexivity.
Defined.

(** Left shift down, A down and up, left shift up. *)
Lemma kbd_modifiers_track_witness :
  exists es st, kbd_read [0x2A; 0x1E; 0x9E; 0xAA] kbd_st_init = Ok (es, st) /\
    length es = 4%nat /\ modifiers st = modifiers_after (modifiers kbd_st_init) es.
Proof.
  eexists. eexists. split; [vm_compute; reflexivity |]. split; [reflexivity |].
  refine (proj1 (kbd_modifiers_track [0x2A; 0x1E; 0x9E; 0xAA] kbd_st_init _ _ eq_refl _)).
  vm_compute. reflexivity.
Defined.

Lemma KBD_getchar_ascii_witness :
  0 <= KBD_getchar (mk_event KEY_PRESSED KEY_A) shift_down < 128.
Proof.
  exact (proj1 (KBD_getchar_ascii (mk_event KEY_PRESSED KEY_A) shift_down
    US104_getkeymapentry eq_refl (or_introl eq_refl))).
Defined.

Lemma KBD_getchar_letters_witness :
  exists letter, 97 <= letter <= 122 /\
    KBD_getchar (mk_event KEY_PRESSED KEY_A) shift_down = letter - 32.
Proof.
  exact (KBD_getchar_letters (mk_event KEY_PRESSED KEY_A) shift_down eq_refl eq_refl eq_refl).
Defined.

Lemma FR_capslock_misplaced_witness :
  KBD_getchar (mk_event KEY_PRESSED KEY_COLON)
    (mk_state (Some FR_getkeymapentry) (mk_modifiers 0 0 (-1) 0 0 0 0 0) 0) = 109.
Proof.
  exact (proj2 (FR_capslock_misplaced KEY_PRESSED (mk_modifiers 0 0 (-1) 0 0 0 0 0)
    eq_refl eq_refl eq_refl)).
Defined.

End Keyboard.
