(* ===== verification/Rtc.v ===== *)
(** The real time clock driver (drivers/rtc/rtc.c, include/kernel/rtc.h).

    The driver polls the CMOS through two ports; the chip is a [Device], and
    the class [Cmos] states what its data sheet promises: a register that was
    selected is returned, and the update-in-progress flag goes away.  The
    [int] fields are integers, and [/] and [%] are C's truncated operators. *)

From Stdlib Require Import ZArith Lia Bool.
From stdpp Require Import base tactics numbers list option.
From S2P Require Import Prelude Port.

Local Open Scope Z_scope.

Module Rtc.

(** ** Data *)

Record rtc_time : Type := mk_rtc_time
  { sec : Z; min : Z; hour : Z; day : Z; mon : Z; year : Z; yday : Z }.

Definition cmos_addr : Z := 0x70.
Definition cmos_data : Z := 0x71.

Definition cmos_reg_sec : Z := 0x00.
Definition cmos_reg_min : Z := 0x02.
Definition cmos_reg_hour : Z := 0x04.
Definition cmos_reg_day : Z := 0x07.
Definition cmos_reg_mon : Z := 0x08.
Definition cmos_reg_year : Z := 0x09.
Definition cmos_reg_A : Z := 0x0A.
Definition cmos_reg_B : Z := 0x0B.

(** ** Operations *)

Definition rtc_get_yday (t : rtc_time) : Z :=
  let yday := day t - 1 in
  let yday := if 1 <? mon t then yday + 31 else yday in
  let yday :=
    if 2 <? mon t then
      if (Z.rem (year t) 4 =? 0) &&
         ((Z.rem (year t) 400 =? 0) || negb (Z.rem (year t) 100 =? 0))
      then yday + 29 else yday + 28
    else yday in
  let yday := if 3 <? mon t then yday + 31 else yday in
  let yday := if 4 <? mon t then yday + 30 else yday in
  let yday := if 5 <? mon t then yday + 31 else yday in
  let yday := if 6 <? mon t then yday + 30 else yday in
  let yday := if 7 <? mon t then yday + 31 else yday in
  let yday := if 8 <? mon t then yday + 31 else yday in
  let yday := if 9 <? mon t then yday + 30 else yday in
  let yday := if 10 <? mon t then yday + 31 else yday in
  let yday := if 11 <? mon t then yday + 30 else yday in
  yday.

Definition rtc_convert_BCDtobinary (tm : rtc_time) : rtc_time :=
  {| sec := Z.land (sec tm) 0x0F + Z.quot (sec tm) 16 * 10;
     min := Z.land (min tm) 0x0F + Z.quot (min tm) 16 * 10;
     hour := Z.lor (Z.land (hour tm) 0x0F + Z.quot (Z.land (hour tm) 0x70) 16 * 10)
                   (Z.land (hour tm) 0x80);
     day := Z.land (day tm) 0x0F + Z.quot (day tm) 16 * 10;
     mon := Z.land (mon tm) 0x0F + Z.quot (mon tm) 16 * 10;
     year := Z.land (year tm) 0x0F + Z.quot (year tm) 16 * 10;
     yday := yday tm |}.

Definition rtc_isdiff (tm1 tm2 : rtc_time) : bool :=
  negb (sec tm1 =? sec tm2) || negb (min tm1 =? min tm2) ||
  negb (hour tm1 =? hour tm2) || negb (day tm1 =? day tm2) ||
  negb (mon tm1 =? mon tm2) || negb (year tm1 =? year tm2).

Section driver.
Context {D : Type} `{Device D}.

Definition rtc_get_reg (reg : Z) (d : D) : Z * D :=
  port_read_u8 cmos_data (port_write_u8 cmos_addr reg d).

(** [while (rtc_get_reg(cmos_reg_A) & 0x80);] *)
Fixpoint rtc_wait (fuel : nat) (d : D) : result D :=
  match fuel with
  | O => Err OutOfFuel
  | S fuel =>
      let (v, d) := rtc_get_reg cmos_reg_A d in
      if negb (Z.land v 0x80 =? 0) then rtc_wait fuel d else Ok d
  end.

(** The six register reads of one round. *)
Definition rtc_read_regs (tm : rtc_time) (d : D) : rtc_time * D :=
  let (s, d) := rtc_get_reg cmos_reg_sec d in
  let (m, d) := rtc_get_reg cmos_reg_min d in
  let (h, d) := rtc_get_reg cmos_reg_hour d in
  let (dy, d) := rtc_get_reg cmos_reg_day d in
  let (mo, d) := rtc_get_reg cmos_reg_mon d in
  let (y, d) := rtc_get_reg cmos_reg_year d in
  (mk_rtc_time s m h dy mo y (yday tm), d).

(** The [do ... while (rtc_isdiff(tm, &ltm))] loop. *)
Fixpoint rtc_read_loop (fuel : nat) (tm : rtc_time) (d : D) : result (rtc_time * D) :=
  match fuel with
  | O => Err OutOfFuel
  | S fuel' =>
      let ltm := tm in
      d ← rtc_wait fuel d;
      let (tm, d) := rtc_read_regs tm d in
      if rtc_isdiff tm ltm then rtc_read_loop fuel' tm d else Ok (tm, d)
  end.

Definition curyear : Z := 2022.

(** What follows the loop: the conversions selected by register B. *)
Definition rtc_normalise (regB : Z) (tm : rtc_time) : rtc_time :=
  let tm := if Z.land regB 0x04 =? 0 then rtc_convert_BCDtobinary tm else tm in
  let h :=
    if (Z.land regB 0x02 =? 0) && negb (Z.land (hour tm) 0x80 =? 0)
    then Z.rem (Z.land (hour tm) 0x7f + 12) 24 else hour tm in
  let y := year tm + Z.quot curyear 100 * 100 in
  let y := if y <? curyear then y + 100 else y in
  let tm := mk_rtc_time (sec tm) (min tm) h (day tm) (mon tm) y (yday tm) in
  mk_rtc_time (sec tm) (min tm) (hour tm) (day tm) (mon tm) (year tm) (rtc_get_yday tm).

Definition rtc_read_time (fuel : nat) (d : D) : result (rtc_time * D) :=
  '(tm, d) ← rtc_read_loop fuel (mk_rtc_time 0 0 0 0 0 0 0) d;
  let (regB, d) := rtc_get_reg cmos_reg_B d in
  Ok (rtc_normalise regB tm, d).

(** The sums are done modulo [2^32]: [epoch] is a [uint32_t], and the [int]
    products are reduced to it. *)
Definition timestamp_of (t : rtc_time) : Z :=
  let year := year t - 1900 in
  let epoch := u32 (sec t) in
  let epoch := u32 (epoch + min t * 60) in
  let epoch := u32 (epoch + hour t * 3600) in
  let epoch := u32 (epoch + yday t * 86400) in
  let epoch := u32 (epoch + i32 ((year - 70) * 31536000)) in
  let epoch := u32 (epoch + Z.quot (year - 69) 4 * 86400) in
  let epoch := u32 (epoch - Z.quot (year - 1) 100 * 86400) in
  u32 (epoch + Z.quot (year + 299) 400 * 86400).

Definition rtc_get_timestamp (fuel : nat) (d : D) : result (Z * D) :=
  '(t, d) ← rtc_read_time fuel d; Ok (timestamp_of t, d).
End driver.

(** ** The calendar *)

Definition leap (y : Z) : bool :=
  (y mod 4 =? 0) && ((y mod 400 =? 0) || negb (y mod 100 =? 0)).

Definition month_len (y m : Z) : Z :=
  if m =? 2 then if leap y then 29 else 28
  else if (m =? 4) || (m =? 6) || (m =? 9) || (m =? 11) then 30 else 31.

Definition year_len (y : Z) : Z := if leap y then 366 else 365.

(** The days of the [n] months (years) from [m] (from [y]). *)
Fixpoint months_days (y m : Z) (n : nat) : Z :=
  match n with O => 0 | S n => month_len y m + months_days y (m + 1) n end.

Fixpoint years_days (y : Z) (n : nat) : Z :=
  match n with O => 0 | S n => years_days y n + year_len (y + Z.of_nat n) end.

(** Days since 1 January of the year, and since 1 January 1970. *)
Definition day_of_year (y m dd : Z) : Z := months_days y 1 (Z.to_nat (m - 1)) + (dd - 1).
Definition epoch_days (y m dd : Z) : Z :=
  years_days 1970 (Z.to_nat (y - 1970)) + day_of_year y m dd.
Definition epoch_seconds (y m dd h mi s : Z) : Z :=
  epoch_days y m dd * 86400 + h * 3600 + mi * 60 + s.

Lemma leap_rem y : 0 <= y ->
  ((Z.rem y 4 =? 0) && ((Z.rem y 400 =? 0) || negb (Z.rem y 100 =? 0))) = leap y.
Proof. intros. unfold leap. by rewrite !Z.rem_mod_nonneg by lia. Qed.

Lemma year_lengths m : forall y, y = 12 -> months_days m 1 12 = year_len m.
Proof. intros. cbn. unfold month_len, year_len. cbn. by destruct (leap m). Qed.

(** The driver's sum of months is the calendar's. *)
Lemma rtc_get_yday_spec t : 1 <= mon t <= 12 -> 0 <= year t ->
  rtc_get_yday t = day_of_year (year t) (mon t) (day t).
Proof.
  intros Hm Hy. unfold rtc_get_yday, day_of_year. rewrite leap_rem by done.
  assert (mon t = 1 \/ mon t = 2 \/ mon t = 3 \/ mon t = 4 \/ mon t = 5 \/ mon t = 6 \/
    mon t = 7 \/ mon t = 8 \/ mon t = 9 \/ mon t = 10 \/ mon t = 11 \/ mon t = 12)
    as Hcases by lia.
  repeat destruct Hcases as [-> | Hcases]; [.. | rewrite Hcases];
    match goal with |- context [Z.to_nat ?x] =>
      let v := eval vm_compute in (Z.to_nat x) in change (Z.to_nat x) with v end;
    cbn -[leap]; unfold month_len; destruct (leap (year t));
    match goal with |- _ = ?c + _ =>
      let v := eval vm_compute in c in change c with v end; lia.
Qed.

(** The closed form for the leap days that [rtc_get_timestamp] uses. *)
Lemma years_days_closed n : let y := 1970 + Z.of_nat n in
  years_days 1970 n =
    (y - 1970) * 365 + (y - 1969) / 4 - (y - 1901) / 100 + (y - 1601) / 400.
Proof.
  cbn. induction n as [| n IH]; [reflexivity |].
  cbn [years_days]. rewrite IH. unfold year_len, leap.
  set (y := 1970 + Z.of_nat n) in *.
  replace (1970 + Z.of_nat (S n)) with (y + 1) by lia.
  assert (0 <= y) by lia. clearbody y. clear IH.
  destruct (Z.eqb_spec (y mod 4) 0), (Z.eqb_spec (y mod 400) 0),
    (Z.eqb_spec (y mod 100) 0); cbn; dlia.
Qed.

(** ** Encodings of the clock's registers *)

Definition bcd (n : Z) : Z := n / 10 * 16 + n mod 10.

Definition binary_mode (regB : Z) : bool := negb (Z.land regB 0x04 =? 0).
Definition mode24 (regB : Z) : bool := negb (Z.land regB 0x02 =? 0).

Definition enc (regB n : Z) : Z := if binary_mode regB then n else bcd n.
Definition hour12 (h : Z) : Z := if h mod 12 =? 0 then 12 else h mod 12.
Definition enc_hour (regB h : Z) : Z :=
  if mode24 regB then enc regB h
  else enc regB (hour12 h) + (if 12 <=? h then 128 else 0).

(** The hour the driver computes: it gets noon and midnight of the 12-hour
    mode wrong. *)
Definition driver_hour (regB h : Z) : Z :=
  if negb (mode24 regB) && (h mod 12 =? 0) then 12 - h else h.

(** A property of the integers below [n], by computation. *)
Lemma below_by_compute (P : Z -> bool) (n : nat) :
  forallb (fun k => P (Z.of_nat k)) (seq 0 n) = true ->
  forall x, 0 <= x < Z.of_nat n -> P x = true.
Proof.
  intros Hall x Hx. rewrite forallb_forall in Hall.
  rewrite <- (Z2Nat.id x) by lia. apply Hall.
  apply list_elem_of_In, elem_of_seq. lia.
Qed.

Lemma bcd_roundtrip n : 0 <= n < 100 ->
  Z.land (bcd n) 0x0F + Z.quot (bcd n) 16 * 10 = n.
Proof.
  intros. apply Z.eqb_eq.
  apply (below_by_compute
           (fun n => Z.land (bcd n) 0x0F + Z.quot (bcd n) 16 * 10 =? n) 100); [| lia].
  vm_compute. reflexivity.
Qed.

Lemma bcd_range n : 0 <= n < 100 -> 0 <= bcd n < 160.
Proof. unfold bcd. intros. dlia. Qed.

(** The hour after the two conversions, in each of the four modes. *)
Definition decoded_hour (bin m24 : bool) (v : Z) : Z :=
  let h := if bin then v
           else Z.lor (Z.land v 0x0F + Z.quot (Z.land v 0x70) 16 * 10) (Z.land v 0x80) in
  if negb m24 && negb (Z.land h 0x80 =? 0) then Z.rem (Z.land h 0x7f + 12) 24 else h.

Lemma decoded_hour_spec regB h : 0 <= h < 24 ->
  decoded_hour (binary_mode regB) (mode24 regB) (enc_hour regB h) = driver_hour regB h.
Proof.
  intros Hh. unfold enc_hour, driver_hour, enc.
  assert (exists k : nat, (k < 24)%nat /\ h = Z.of_nat k) as (k & Hk & ->).
  { exists (Z.to_nat h). lia. }
  destruct (binary_mode regB), (mode24 regB);
    do 24 (destruct k as [| k]; [reflexivity |]); lia.
Qed.

(** ** The registers of a date *)

Record datetime : Type := mk_datetime
  { d_year : Z; d_mon : Z; d_day : Z; d_hour : Z; d_min : Z; d_sec : Z }.

(** The range of the driver's century rule: 2022 to 2121. *)
Definition valid (t : datetime) : Prop :=
  2022 <= d_year t < 2122 /\ 1 <= d_mon t <= 12 /\
  1 <= d_day t <= month_len (d_year t) (d_mon t) /\
  0 <= d_hour t < 24 /\ 0 <= d_min t < 60 /\ 0 <= d_sec t < 60.

(** What a round of register reads finds when the clock shows [t]. *)
Definition raw (regB : Z) (t : datetime) : rtc_time :=
  mk_rtc_time (enc regB (d_sec t)) (enc regB (d_min t)) (enc_hour regB (d_hour t))
    (enc regB (d_day t)) (enc regB (d_mon t)) (enc regB (d_year t mod 100)) 0.

Definition decoded (regB : Z) (t : datetime) : rtc_time :=
  mk_rtc_time (d_sec t) (d_min t) (driver_hour regB (d_hour t)) (d_day t) (d_mon t)
    (d_year t) (day_of_year (d_year t) (d_mon t) (d_day t)).

Lemma month_len_range y m : 28 <= month_len y m <= 31.
Proof. unfold month_len. repeat case_match; lia. Qed.

Lemma valid_day t : valid t -> 1 <= d_day t <= 31.
Proof. intros (_ & _ & H & _). pose proof (month_len_range (d_year t) (d_mon t)). lia. Qed.

Lemma rtc_normalise_spec regB t : valid t ->
  rtc_normalise regB (raw regB t) = decoded regB t.
Proof.
  intros Hv. pose proof (valid_day t Hv).
  destruct Hv as (Hy & Hm & _ & Hh & Hmi & Hs).
  assert (forall tm, rtc_get_yday tm = rtc_get_yday (mk_rtc_time (sec tm) (min tm) (hour tm)
            (day tm) (mon tm) (year tm) 0)) as Hyd by reflexivity.
  pose proof (decoded_hour_spec regB (d_hour t) Hh) as Hdec. unfold decoded_hour in Hdec.
  assert (forall y, y = d_year t mod 100 ->
            (if y + 2000 <? 2022 then y + 2000 + 100 else y + 2000) = d_year t) as Hcent.
  { intros y ->. destruct (Z.ltb_spec (d_year t mod 100 + 2000) 2022); dlia. }
  assert ((Z.land regB 0x04 =? 0) = negb (binary_mode regB)) as E1
    by (unfold binary_mode; by rewrite negb_involutive).
  assert ((Z.land regB 0x02 =? 0) = negb (mode24 regB)) as E2
    by (unfold mode24; by rewrite negb_involutive).
  unfold rtc_normalise, raw. rewrite E1, E2. clear E1 E2.
  unfold decoded.
  pose proof (rtc_get_yday_spec (mk_rtc_time 0 0 0 (d_day t) (d_mon t) (d_year t) 0))
    as Hspec. cbn [mon year day] in Hspec. rewrite <- Hspec by lia. clear Hspec.
  change (Z.quot curyear 100 * 100) with 2000. change curyear with 2022.
  destruct (binary_mode regB) eqn:Eb; cbn [negb] in *;
    [unfold enc | unfold rtc_convert_BCDtobinary; cbn; unfold enc]; rewrite Eb;
    cbn [sec min hour day mon year yday];
    rewrite ?bcd_roundtrip by dlia; rewrite Hdec, (Hcent _ eq_refl); reflexivity.
Qed.

(** ** The chip's promises *)

(** [cmos_reg d r] is the value register [r] holds, [cmos_busy d] bounds the
    polls for which the update flag stays set.  Between two updates the
    registers hold still. *)
Class Cmos (D : Type) `{Device D} : Type :=
  { cmos_reg : D -> Z -> Z;
    cmos_busy : D -> nat;
    cmos_read d r : 0 <= r < 256 -> r <> cmos_reg_A -> exists d',
      rtc_get_reg r d = (cmos_reg d r, d') /\ cmos_reg d' = cmos_reg d /\
      cmos_busy d' = cmos_busy d;
    cmos_poll d : exists v d',
      rtc_get_reg cmos_reg_A d = (v, d') /\ cmos_reg d' = cmos_reg d /\
      match cmos_busy d with
      | O => Z.land v 0x80 = 0 /\ cmos_busy d' = O
      | S _ => (cmos_busy d' < cmos_busy d)%nat
      end }.

(** The clock shows [t]. *)
Definition shows {D} `{Cmos D} (d : D) (t : datetime) : Prop :=
  let regB := cmos_reg d cmos_reg_B in
  cmos_reg d cmos_reg_sec = enc regB (d_sec t) /\
  cmos_reg d cmos_reg_min = enc regB (d_min t) /\
  cmos_reg d cmos_reg_hour = enc_hour regB (d_hour t) /\
  cmos_reg d cmos_reg_day = enc regB (d_day t) /\
  cmos_reg d cmos_reg_mon = enc regB (d_mon t) /\
  cmos_reg d cmos_reg_year = enc regB (d_year t mod 100).

Section polling.
Context {D : Type} `{Cmos D}.

Lemma rtc_wait_spec fuel : forall d, (cmos_busy d < fuel)%nat ->
  exists d', rtc_wait fuel d = Ok d' /\ cmos_reg d' = cmos_reg d /\
    (cmos_busy d' <= cmos_busy d)%nat.
Proof.
  induction fuel as [| fuel IH]; intros d Hf; [lia |]. cbn [rtc_wait].
  destruct (cmos_poll d) as (v & d' & -> & Hreg & Hbusy).
  destruct (cmos_busy d) as [| b] eqn:Eb.
  - destruct Hbusy as [-> Hb]. exists d'. cbn. rewrite Hb. auto.
  - destruct (Z.land v 0x80 =? 0); cbn.
    + exists d'. repeat split; [done | lia].
    + destruct (IH d') as (d'' & -> & Hr & Hb); [lia |].
      exists d''. repeat split; [congruence | lia].
Qed.

Lemma rtc_read_regs_spec tm d t : shows d t -> yday tm = 0 ->
  exists d', rtc_read_regs tm d = (raw (cmos_reg d cmos_reg_B) t, d') /\
    cmos_reg d' = cmos_reg d /\ cmos_busy d' = cmos_busy d.
Proof.
  intros (Hs & Hmi & Hh & Hd & Hmo & Hy) Hz. unfold rtc_read_regs.
  assert (forall r, 0 <= r < 256 -> r <> cmos_reg_A -> forall d0, cmos_reg d0 = cmos_reg d ->
    cmos_busy d0 = cmos_busy d -> exists d', rtc_get_reg r d0 = (cmos_reg d r, d') /\
    cmos_reg d' = cmos_reg d /\ cmos_busy d' = cmos_busy d) as Hget.
  { intros r Hr Hne d0 E1 E2. destruct (cmos_read d0 r Hr Hne) as (d' & -> & E3 & E4).
    exists d'. rewrite E1. repeat split; congruence. }
  destruct (Hget cmos_reg_sec ltac:(done) ltac:(done) d) as (d1 & -> & R1 & B1); [done.. |].
  destruct (Hget cmos_reg_min ltac:(done) ltac:(done) d1) as (d2 & -> & R2 & B2); [done.. |].
  destruct (Hget cmos_reg_hour ltac:(done) ltac:(done) d2) as (d3 & -> & R3 & B3); [done.. |].
  destruct (Hget cmos_reg_day ltac:(done) ltac:(done) d3) as (d4 & -> & R4 & B4); [done.. |].
  destruct (Hget cmos_reg_mon ltac:(done) ltac:(done) d4) as (d5 & -> & R5 & B5); [done.. |].
  destruct (Hget cmos_reg_year ltac:(done) ltac:(done) d5) as (d6 & -> & R6 & B6); [done.. |].
  exists d6. rewrite Hs, Hmi, Hh, Hd, Hmo, Hy, Hz. by repeat split.
Qed.
End polling.

Lemma rtc_isdiff_refl t : rtc_isdiff t t = false.
Proof. unfold rtc_isdiff. by rewrite !Z.eqb_refl. Qed.

(** A clock never shows the zero date, so the first round never ends the
    loop. *)
Lemma raw_not_zero regB t : valid t ->
  rtc_isdiff (raw regB t) (mk_rtc_time 0 0 0 0 0 0 0) = true.
Proof.
  intros Hv. apply valid_day in Hv. unfold rtc_isdiff, raw, enc. cbn.
  destruct (Z.eqb_spec (if binary_mode regB then d_day t else bcd (d_day t)) 0) as [E |];
    [| rewrite ?orb_true_r; done].
  unfold bcd in E. destruct (binary_mode regB); dlia.
Qed.

Section reading.
Context {D : Type} `{Cmos D}.

Lemma rtc_read_loop_spec d t fuel : valid t -> shows d t -> (cmos_busy d + 2 <= fuel)%nat ->
  exists d', rtc_read_loop fuel (mk_rtc_time 0 0 0 0 0 0 0) d =
               Ok (raw (cmos_reg d cmos_reg_B) t, d') /\ cmos_reg d' = cmos_reg d.
Proof.
  intros Hv Hs Hf. destruct fuel as [| [| fuel]]; [lia | lia |]. cbn [rtc_read_loop].
  destruct (rtc_wait_spec (S (S fuel)) d) as (d1 & -> & R1 & B1); [lia |]. cbn.
  destruct (rtc_read_regs_spec (mk_rtc_time 0 0 0 0 0 0 0) d1 t)
    as (d2 & -> & R2 & B2); [by unfold shows in *; rewrite R1 | done |].
  rewrite R1, raw_not_zero by done.
  destruct (rtc_wait_spec (S fuel) d2) as (d3 & E3 & R3 & B3); [lia |].
  cbn [rtc_wait] in E3. rewrite E3. cbn.
  destruct (rtc_read_regs_spec (raw (cmos_reg d cmos_reg_B) t) d3 t)
    as (d4 & -> & R4 & B4); [unfold shows in *; by rewrite R3, R2, R1 | done |].
  rewrite R3, R2, R1, rtc_isdiff_refl. exists d4. split; [done | congruence].
Qed.

Lemma rtc_read_time_spec d t fuel : valid t -> shows d t -> (cmos_busy d + 2 <= fuel)%nat ->
  exists d', rtc_read_time fuel d = Ok (decoded (cmos_reg d cmos_reg_B) t, d').
Proof.
  intros Hv Hs Hf. unfold rtc_read_time.
  destruct (rtc_read_loop_spec d t fuel Hv Hs Hf) as (d1 & -> & R1). cbn.
  destruct (cmos_read d1 cmos_reg_B ltac:(done) ltac:(done)) as (d2 & -> & R2 & _).
  exists d2. by rewrite R1, rtc_normalise_spec.
Qed.
End reading.

(** ** Properties *)

(** [rtc_get_yday] counts the days since 1 January: it is the sum of the lengths
    of the preceding months of the Gregorian year, plus the day less one. *)
Theorem rtc_get_yday_calendar t : 1 <= mon t <= 12 -> 0 <= year t ->
  rtc_get_yday t = months_days (year t) 1 (Z.to_nat (mon t - 1)) + (day t - 1).
Proof. apply rtc_get_yday_spec. Qed.

(** When the clock shows a date from 2022 to 2121, in BCD or binary and in
    the 24-hour mode or an hour other than noon and midnight's,
    [rtc_read_time] terminates and returns exactly that date. *)
Theorem rtc_read_time_correct {D} `{Cmos D} (d : D) t fuel :
  valid t -> shows d t -> (cmos_busy d + 2 <= fuel)%nat ->
  mode24 (cmos_reg d cmos_reg_B) = true \/ d_hour t mod 12 <> 0 ->
  exists d', rtc_read_time fuel d =
    Ok (mk_rtc_time (d_sec t) (d_min t) (d_hour t) (d_day t) (d_mon t) (d_year t)
          (day_of_year (d_year t) (d_mon t) (d_day t)), d').
Proof.
  intros Hv Hs Hf Hmode. destruct (rtc_read_time_spec d t fuel Hv Hs Hf) as (d' & E).
  exists d'. rewrite E. unfold decoded, driver_hour.
  destruct Hmode as [-> | Hh]; [done |].
  by rewrite (proj2 (Z.eqb_neq _ _) Hh), andb_false_r.
Qed.

(** In the 12-hour mode noon is read as hour 0 and midnight as hour 12. *)
Theorem rtc_noon_midnight_swapped {D} `{Cmos D} (d : D) t fuel :
  valid t -> shows d t -> (cmos_busy d + 2 <= fuel)%nat ->
  mode24 (cmos_reg d cmos_reg_B) = false -> d_hour t = 0 \/ d_hour t = 12 ->
  exists tm d', rtc_read_time fuel d = Ok (tm, d') /\ hour tm = 12 - d_hour t.
Proof.
  intros Hv Hs Hf Hmode Hh. destruct (rtc_read_time_spec d t fuel Hv Hs Hf) as (d' & E).
  eexists _, d'. split; [exact E |]. unfold decoded, driver_hour. cbn.
  rewrite Hmode. by destruct Hh as [-> | ->].
Qed.

(** [rtc_get_timestamp]'s formula, for any civil time the driver produces. *)
Lemma timestamp_of_spec y m dd h mi s : 2022 <= y < 2122 ->
  timestamp_of (mk_rtc_time s mi h dd m y (day_of_year y m dd)) =
  u32 (epoch_seconds y m dd h mi s).
Proof.
  intros Hy. unfold timestamp_of, epoch_seconds, epoch_days. cbn [sec min hour yday year].
  pose proof (years_days_closed (Z.to_nat (y - 1970))) as Hyd. cbv zeta in Hyd.
  rewrite Z2Nat.id in Hyd by lia. rewrite Hyd. clear Hyd.
  rewrite !Z.quot_div_nonneg by lia.
  replace (1970 + (y - 1970)) with y by lia.
  replace (y - 1900 - 69) with (y - 1969) by lia.
  replace (y - 1900 - 1) with (y - 1901) by lia.
  replace (y - 1900 + 299) with (y - 1601) by lia.
  replace (y - 1900 - 70) with (y - 1970) by lia.
  generalize ((y - 1969) / 4) ((y - 1901) / 100) ((y - 1601) / 400) (day_of_year y m dd).
  intros a b c e.
  assert (forall p q, u32 (p + i32 q) = u32 (p + q)) as Hi.
  { intros. unfold u32. rewrite <- Z.add_mod_idemp_r by lia.
    change (i32 q mod 4294967296) with (u32 (i32 q)). rewrite u32_i32.
    unfold u32. by rewrite Z.add_mod_idemp_r by lia. }
  assert (forall p q, u32 (u32 p + q) = u32 (p + q)) as Hl.
  { intros. unfold u32. by rewrite Z.add_mod_idemp_l by lia. }
  assert (forall p q, u32 (u32 p - q) = u32 (p - q)) as Hm.
  { intros. unfold u32. by rewrite Zminus_mod_idemp_l. }
  rewrite Hi.
  repeat match goal with
    | |- context [u32 (u32 ?p + ?q)] =>
        lazymatch p with context [u32] => fail | _ => rewrite (Hl p q) end
    | |- context [u32 (u32 ?p - ?q)] =>
        lazymatch p with context [u32] => fail | _ => rewrite (Hm p q) end
    end.
  f_equal. lia.
Qed.

Lemma rtc_timestamp_ok {D} `{Cmos D} (d : D) t fuel :
  valid t -> shows d t -> (cmos_busy d + 2 <= fuel)%nat ->
  mode24 (cmos_reg d cmos_reg_B) = true \/ d_hour t mod 12 <> 0 ->
  exists d', rtc_get_timestamp fuel d =
    Ok (u32 (epoch_seconds (d_year t) (d_mon t) (d_day t) (d_hour t) (d_min t) (d_sec t)),
        d').
Proof.
  intros Hv Hs Hf Hmode. destruct (rtc_read_time_spec d t fuel Hv Hs Hf) as (d' & E).
  exists d'. unfold rtc_get_timestamp. rewrite E. cbn. do 2 f_equal.
  unfold decoded, driver_hour.
  rewrite timestamp_of_spec by apply Hv. do 2 f_equal.
  destruct Hmode as [-> | Hh]; [done |].
  by rewrite (proj2 (Z.eqb_neq _ _) Hh), andb_false_r.
Qed.


(** ** Witnesses *)

(** A chip whose update flag stays set for [left] polls. *)
Record example_chip : Type := mk_example_chip
  { selected : Z; registers : Z -> Z; left : nat }.

#[local] Instance example_device : Device example_chip :=
  {| dev_in p d :=
       if p =? 0x71 then
         if selected d =? cmos_reg_A
         then (match left d with O => 0 | S _ => 0x80 end,
               mk_example_chip (selected d) (registers d) (Nat.pred (left d)))
         else (registers d (selected d) mod 256, d)
       else (0, d);
     dev_out p v d :=
       if p =? 0x70 then mk_example_chip v (registers d) (left d) else d |}.

#[local] Instance example_cmos : Cmos example_chip.
Proof.
  refine {| cmos_reg d r := registers d r mod 256; cmos_busy d := left d |}.
  - intros d r Hr Hne. exists (mk_example_chip r (registers d) (left d)).
    unfold rtc_get_reg, port_read_u8, port_write_u8. rewrite (u8_small r) by done. cbn.
    rewrite (proj2 (Z.eqb_neq _ _) Hne). unfold u8. by rewrite Z.mod_mod.
  - intros [s r [| n]].
    + exists 0, (mk_example_chip cmos_reg_A r 0). repeat split.
    + exists 0x80, (mk_example_chip cmos_reg_A r n). repeat split. cbn. lia.
Defined.

(** 3 May 2024, 17:04:09, in BCD; register B selects the 24-hour mode or the
    12-hour mode. *)
Definition example_regs (mode hour : Z) (r : Z) : Z :=
  if r =? cmos_reg_sec then 0x09 else if r =? cmos_reg_min then 0x04
  else if r =? cmos_reg_hour then hour else if r =? cmos_reg_day then 0x03
  else if r =? cmos_reg_mon then 0x05 else if r =? cmos_reg_year then 0x24
  else if r =? cmos_reg_B then mode else 0.

Definition chip24 : example_chip := mk_example_chip 0 (example_regs 0x02 0x17) 3.
Definition chip12 : example_chip := mk_example_chip 0 (example_regs 0x00 0x92) 3.
Definition example_date (h : Z) : datetime := mk_datetime 2024 5 3 h 4 9.

Lemma example_valid h : 0 <= h < 24 -> valid (example_date h).
Proof. intros. unfold valid. cbn. unfold month_len. cbn. lia. Qed.

Lemma chip24_shows : shows chip24 (example_date 17).
Proof. vm_compute. repeat split. Qed.

Lemma chip12_shows : shows chip12 (example_date 12).
Proof. vm_compute. repeat split. Qed.

Lemma rtc_get_yday_calendar_witness :
  rtc_get_yday (mk_rtc_time 0 0 0 1 3 2024 0) = 60.
Proof.
  rewrite (rtc_get_yday_calendar (mk_rtc_time 0 0 0 1 3 2024 0) ltac:(cbn; lia) ltac:(cbn; lia)).
  reflexivity.
Defined.

Lemma rtc_read_time_correct_witness :
  exists d, rtc_read_time 5 chip24 = Ok (mk_rtc_time 9 4 17 3 5 2024 123, d).
Proof.
  exact (rtc_read_time_correct chip24 (example_date 17) 5 (example_valid 17 ltac:(lia))
    chip24_shows (le_n _) (or_introl eq_refl)).
Defined.

Lemma rtc_noon_midnight_swapped_witness :
  exists tm d, rtc_read_time 5 chip12 = Ok (tm, d) /\ hour tm = 0.
Proof.
  exact (rtc_noon_midnight_swapped chip12 (example_date 12) 5 (example_valid 12 ltac:(lia))
    chip12_shows (le_n _) eq_refl (or_intror eq_refl)).
Defined.


End Rtc.
