(* ===== verification/Spinlock.v ===== *)
(** The spinlock library (kernel/spinlock.c) and its threads.

    The atomic [__sync_val_compare_and_swap] is one transition.  Threads run
    [kspin_lock], [kspin_trylock] and [kspin_drop] around a critical section
    that increments a shared word with a separate load and store; the
    transitions of different threads interleave in any order. *)

From Stdlib Require Import ZArith Lia Bool.
From stdpp Require Import base tactics numbers list option.
From S2P Require Import Prelude.

Local Open Scope Z_scope.

Module Spinlock.

(** ** The lock *)

Record kspin : Type := mk_kspin { lock : Z; data : Z }.

Definition acquire_or_one (ks : kspin) : Z * kspin :=
  (lock ks, if lock ks =? 0 then mk_kspin 1 (data ks) else ks).

Definition kspin_init (ks : kspin) (data : Z) : kspin :=
  mk_kspin 0 data.

(** [while (acquire_or_one(ks) == 1);] with nobody else running. *)
Fixpoint kspin_lock (fuel : nat) (ks : kspin) : result (Z * kspin) :=
  match fuel with
  | O => Err OutOfFuel
  | S fuel =>
      let (old, ks) := acquire_or_one ks in
      if old =? 1 then kspin_lock fuel ks else Ok (data ks, ks)
  end.

Definition kspin_trylock (ks : kspin) : Z * kspin :=
  let (old, ks) := acquire_or_one ks in (- old, ks).

Definition kspin_drop (ks : kspin) : kspin := mk_kspin 0 (data ks).

(** ** Threads *)

(** Where a thread is: outside, in the loop of [kspin_lock], in the critical
    section, or between its load and its store there. *)
Inductive pc : Type :=
  | Idle
  | Spinning
  | Critical
  | Loaded (v : Z)
  | Stored.

Definition holds (p : pc) : bool :=
  match p with Idle | Spinning => false | _ => true end.

Record world : Type := mk_world
  { spin : kspin;
    word : Z;              (** the shared word the lock protects *)
    threads : list pc;
    stores : Z }.          (** how many increments were completed *)

Definition move (w : world) (ks : kspin) (x : Z) (i : nat) (p : pc) (n : Z) : world :=
  mk_world ks x (<[i := p]> (threads w)) n.

Inductive tstep (w : world) : world -> Prop :=
  | call_lock i : threads w !! i = Some Idle ->
      tstep w (move w (spin w) (word w) i Spinning (stores w))
  | spin_again i ks : threads w !! i = Some Spinning ->
      acquire_or_one (spin w) = (1, ks) ->
      tstep w (move w ks (word w) i Spinning (stores w))
  | acquired i old ks : threads w !! i = Some Spinning ->
      acquire_or_one (spin w) = (old, ks) -> old <> 1 ->
      tstep w (move w ks (word w) i Critical (stores w))
  | try_lock i r ks : threads w !! i = Some Idle ->
      kspin_trylock (spin w) = (r, ks) ->
      tstep w (move w ks (word w) i (if r =? 0 then Critical else Idle) (stores w))
  | load i : threads w !! i = Some Critical ->
      tstep w (move w (spin w) (word w) i (Loaded (word w)) (stores w))
  | store i v : threads w !! i = Some (Loaded v) ->
      tstep w (move w (spin w) (v + 1) i Stored (stores w + 1))
  | drop i : threads w !! i = Some Stored ->
      tstep w (move w (kspin_drop (spin w)) (word w) i Idle (stores w)).

(** After [kspin_init], with [n] threads outside and the word at [x]. *)
Definition initial (ks : kspin) (d x : Z) (n : nat) : world :=
  mk_world (kspin_init ks d) x (repeat Idle n) 0.

(** ** The invariant *)

Definition exclusive (ts : list pc) : Prop :=
  forall i j p q, ts !! i = Some p -> ts !! j = Some q ->
    holds p = true -> holds q = true -> i = j.

(** The lock word is 1 while somebody holds the lock and 0 otherwise, only
    one thread holds it, and what that thread loaded is still in the word. *)
Record safe (x0 : Z) (w : world) : Prop :=
  { safe_free : lock (spin w) = 0 ->
      forall i p, threads w !! i = Some p -> holds p = false;
    safe_lock : lock (spin w) = 0 \/ lock (spin w) = 1;
    safe_busy : lock (spin w) = 1 ->
      exists i p, threads w !! i = Some p /\ holds p = true;
    safe_exclusive : exclusive (threads w);
    safe_loaded : forall i v, threads w !! i = Some (Loaded v) -> v = word w;
    safe_word : word w = x0 + stores w }.

Lemma initial_safe ks d x n : safe x (initial ks d x n).
Proof.
  assert (forall i p, repeat Idle n !! i = Some p -> p = Idle) as Hidle.
  { intros i p H%list_elem_of_lookup_2%list_elem_of_In. by apply repeat_spec in H. }
  split; cbn; intros; auto; try lia.
  - by rewrite (Hidle _ _ H0).
  - intros i j p q Hi%Hidle _ Hp. by subst p.
  - by apply Hidle in H.
Qed.

Lemma acquire_free ks : lock ks = 0 -> acquire_or_one ks = (0, mk_kspin 1 (data ks)).
Proof. unfold acquire_or_one. by intros ->. Qed.

Lemma acquire_busy ks : lock ks = 1 -> acquire_or_one ks = (1, ks).
Proof. unfold acquire_or_one. by intros ->. Qed.

(** Looking up the thread table after a move. *)
Lemma moved {w i p} j q : threads w !! i = Some p ->
  forall r, <[i := r]> (threads w) !! j = Some q ->
  (j = i /\ q = r) \/ (j <> i /\ threads w !! j = Some q).
Proof.
  intros Hi r. rewrite list_lookup_insert_Some.
  intros [(-> & -> & _) | [Hne Hj]]; auto.
Qed.

Lemma insert_here (ts : list pc) (i : nat) (p r : pc) : ts !! i = Some p -> <[i := r]> ts !! i = Some r.
Proof. intros H%lookup_lt_Some. by apply list_lookup_insert_eq. Qed.

(** A move of thread [i] that keeps who holds the lock, and the word. *)
Lemma safe_move_same x0 w i p r : safe x0 w -> threads w !! i = Some p ->
  holds r = holds p -> (forall v, r = Loaded v -> v = word w) ->
  safe x0 (move w (spin w) (word w) i r (stores w)).
Proof.
  intros [Hf Hl Hb He Hv Hw] Hi Hr Hload. split; cbn; auto.
  - intros Hz j q Hj. destruct (moved j q Hi r Hj) as [[-> ->] | [_ Hq]];
      rewrite ?Hr; eauto.
  - intros Hone. destruct (Hb Hone) as (j & q & Hj & Hq).
    destruct (decide (j = i)) as [-> | Hne].
    + exists i, r. split; [by apply insert_here with p | congruence].
    + exists j, q. by rewrite list_lookup_insert_ne by done.
  - intros j k q q' Hj Hk Hq Hq'.
    destruct (moved j q Hi r Hj) as [[-> ->] | [_ Hj']],
      (moved k q' Hi r Hk) as [[-> ->] | [_ Hk']]; [done | | |];
      rewrite ?Hr in *; eapply He; eauto.
  - intros j v Hj. destruct (moved j _ Hi r Hj) as [[-> <-] | [_ Hq]]; eauto.
Qed.

(** Taking a free lock. *)
Lemma safe_acquire x0 w i p : safe x0 w -> threads w !! i = Some p -> lock (spin w) = 0 ->
  safe x0 (move w (mk_kspin 1 (data (spin w))) (word w) i Critical (stores w)).
Proof.
  intros [Hf Hl Hb He Hv Hw] Hi Hz. specialize (Hf Hz). split; cbn; auto; [lia | | |].
  - intros _. exists i, Critical. split; [by apply insert_here with p | done].
  - intros j k q q' Hj Hk Hq Hq'.
    destruct (moved j q Hi _ Hj) as [[-> ->] | [_ Hj']];
      [| rewrite (Hf _ _ Hj') in Hq; done].
    destruct (moved k q' Hi _ Hk) as [[-> ->] | [_ Hk']]; [done |].
    rewrite (Hf _ _ Hk') in Hq'. done.
  - intros j v Hj. destruct (moved j _ Hi _ Hj) as [[_ E] | [_ Hq]]; [done | eauto].
Qed.

(** The other threads are outside while thread [i] holds the lock. *)
Lemma others_outside x0 w i p j q : safe x0 w -> threads w !! i = Some p ->
  holds p = true -> j <> i -> threads w !! j = Some q -> holds q = false.
Proof.
  intros Hs Hi Hp Hne Hj. destruct (holds q) eqn:E; [| done].
  destruct Hne. by apply (safe_exclusive x0 w Hs j i q p).
Qed.

Lemma tstep_safe x0 w w' : safe x0 w -> tstep w w' -> safe x0 w'.
Proof.
  intros Hs Hstep. pose proof (safe_lock _ _ Hs) as Hl.
  destruct Hstep as [i Hi | i ks Hi Ha | i old ks Hi Ha Hold | i r ks Hi Ha | i Hi
    | i v Hi | i Hi].
  - by apply (safe_move_same x0 w i Idle).
  - destruct Hl as [Hl | Hl]; [by rewrite acquire_free in Ha by done |].
    rewrite acquire_busy in Ha by done. injection Ha as <-.
    by apply (safe_move_same x0 w i Spinning).
  - destruct Hl as [Hl | Hl]; [| rewrite acquire_busy in Ha by done; congruence].
    rewrite acquire_free in Ha by done. injection Ha as <- <-.
    by apply (safe_acquire x0 w i Spinning).
  - unfold kspin_trylock in Ha. destruct Hl as [Hl | Hl].
    + rewrite acquire_free in Ha by done. injection Ha as <- <-.
      by apply (safe_acquire x0 w i Idle).
    + rewrite acquire_busy in Ha by done. injection Ha as <- <-.
      by apply (safe_move_same x0 w i Idle).
  - apply (safe_move_same x0 w i Critical); [done | done | done |]. by intros v [= <-].
  - pose proof (others_outside x0 w i (Loaded v)) as Hout.
    rewrite (safe_loaded _ _ Hs i v Hi).
    destruct Hs as [Hf Hl' Hb He Hv Hw]. split; cbn; auto; [| | | | lia].
    + intros Hz. by specialize (Hf Hz i (Loaded v) Hi).
    + intros _. exists i, Stored. split; [by apply insert_here with (Loaded v) | done].
    + intros j k q q' Hj Hk Hq Hq'.
      destruct (moved j q Hi _ Hj) as [[-> ->] | [Nj Hj']],
        (moved k q' Hi _ Hk) as [[-> ->] | [Nk Hk']]; [done | | |]; eapply He; eauto.
    + intros j u Hj. destruct (moved j _ Hi _ Hj) as [[_ E] | [Nj Hq]]; [done |].
      assert (holds (Loaded u) = false) as Hfalse; [| done].
      apply (Hout j (Loaded u)); auto. by split.
  - pose proof (others_outside x0 w i Stored) as Hout.
    assert (forall j q, <[i := Idle]> (threads w) !! j = Some q -> holds q = false) as Hall.
    { intros j q Hj. destruct (moved j _ Hi _ Hj) as [[_ ->] | [Nj Hq]]; [done |].
      by apply (Hout j q). }
    destruct Hs as [Hf Hl' Hb He Hv Hw]. split; cbn; auto; [done | |].
    + intros j k q q' Hj Hk Hq Hq'. rewrite (Hall _ _ Hj) in Hq. done.
    + intros j u Hj. by specialize (Hall _ _ Hj).
Qed.

Lemma reachable_safe ks d x n w : star tstep (initial ks d x n) w -> safe x w.
Proof.
  intros Hr. apply (star_invariant tstep (safe x)) with (initial ks d x n); [| | done].
  - intros s s'. apply tstep_safe.
  - apply initial_safe.
Qed.

(** A waiter takes a free lock; a holder can always run to its drop. *)
Lemma free_can_acquire w i : threads w !! i = Some Spinning -> lock (spin w) = 0 ->
  exists w', star tstep w w' /\ threads w' !! i = Some Critical.
Proof.
  intros Hi Hl. eexists. split.
  - apply star_step with w; [apply star_refl |].
    apply (acquired w i 0 (mk_kspin 1 (data (spin w)))); [done | by apply acquire_free | done].
  - by apply insert_here with Spinning.
Qed.

(** One move of the holder [j] leaves the waiter [i] alone. *)
Lemma holder_step w i j p q ks x n : threads w !! j = Some p -> threads w !! i = Some Spinning ->
  p <> Spinning -> let w' := move w ks x j q n in
  threads w' !! j = Some q /\ threads w' !! i = Some Spinning.
Proof.
  intros Hj Hi Hne. cbn. split; [by apply insert_here with p |].
  rewrite list_lookup_insert_ne; [done |]. intros ->. congruence.
Qed.

Lemma holder_can_drop w i j p : threads w !! j = Some p -> holds p = true ->
  threads w !! i = Some Spinning ->
  exists w', star tstep w w' /\ lock (spin w') = 0 /\ threads w' !! i = Some Spinning.
Proof.
  assert (forall w, threads w !! j = Some Stored -> threads w !! i = Some Spinning ->
    exists w', star tstep w w' /\ lock (spin w') = 0 /\ threads w' !! i = Some Spinning) as H1.
  { intros w0 Hj Hi. eexists. split; [eapply star_step; [apply star_refl | by apply (drop w0 j)] |].
    split; [done |]. by apply (holder_step w0 i j Stored Idle _ _ _ Hj Hi). }
  assert (forall w v, threads w !! j = Some (Loaded v) -> threads w !! i = Some Spinning ->
    exists w', star tstep w w' /\ lock (spin w') = 0 /\ threads w' !! i = Some Spinning) as H2.
  { intros w0 v Hj Hi. pose proof (store w0 j v Hj) as Hstep.
    destruct (holder_step w0 i j _ Stored (spin w0) (v + 1) (stores w0 + 1) Hj Hi ltac:(done))
      as [Hj1 Hi1].
    destruct (H1 _ Hj1 Hi1) as (w' & Hw' & Hrest). exists w'. split; [| done].
    by apply star_trans with (2 := Hw'), star_one. }
  intros Hj Hp Hi. destruct p as [| | | v |]; [done | done | | eauto | eauto].
  pose proof (load w j Hj) as Hstep.
  destruct (holder_step w i j _ (Loaded (word w)) (spin w) (word w) (stores w) Hj Hi ltac:(done))
    as [Hj1 Hi1].
  destruct (H2 _ _ Hj1 Hi1) as (w' & Hw' & Hrest). exists w'. split; [| done].
  by apply star_trans with (2 := Hw'), star_one.
Qed.

(** ** Properties *)

(** C20: Mutual exclusion: in every interleaving of threads that use the lock,
    at most one of them is between acquiring and dropping it. *)
Theorem kspin_mutual_exclusion ks d x n w i j p q :
  star tstep (initial ks d x n) w ->
  threads w !! i = Some p -> threads w !! j = Some q ->
  holds p = true -> holds q = true -> i = j.
Proof. intros Hr. apply (safe_exclusive x w (reachable_safe ks d x n w Hr)). Qed.

(** C21: No update is lost: the word is its initial value plus the number of
    completed increments, although each one is a load and a later store. *)
Theorem kspin_no_lost_update ks d x n w :
  star tstep (initial ks d x n) w -> word w = x + stores w.
Proof. intros Hr. apply (safe_word x w (reachable_safe ks d x n w Hr)). Qed.

(** [kspin_lock] and [kspin_trylock] on a lock in one of its two states:
    a free lock is taken at once and its data returned, [kspin_trylock] returns 0 then
    and -1 without changing a busy lock, which [kspin_lock] polls for ever. *)
Theorem kspin_acquire ks fuel : lock ks = 0 \/ lock ks = 1 ->
  if lock ks =? 0
  then kspin_lock (S fuel) ks = Ok (data ks, mk_kspin 1 (data ks)) /\
       kspin_trylock ks = (0, mk_kspin 1 (data ks))
  else kspin_lock fuel ks = Err OutOfFuel /\ kspin_trylock ks = (-1, ks).
Proof.
  intros Hl. destruct (Z.eqb_spec (lock ks) 0) as [Hz | Hz].
  - unfold kspin_trylock. cbn [kspin_lock]. by rewrite acquire_free.
  - assert (lock ks = 1) as H1 by lia. unfold kspin_trylock.
    rewrite acquire_busy by done. split; [| done].
    induction fuel as [| fuel IH]; [done |]. cbn [kspin_lock].
    by rewrite acquire_busy.
Qed.

(** C40: A lock is never lost: from every reachable state in which a thread
    waits, the threads can run on until that thread has the lock. *)
Theorem kspin_waiter_can_acquire ks d x n w i :
  star tstep (initial ks d x n) w -> threads w !! i = Some Spinning ->
  exists w', star tstep w w' /\ threads w' !! i = Some Critical.
Proof.
  intros Hr Hi. pose proof (reachable_safe ks d x n w Hr) as Hs.
  destruct (safe_lock _ _ Hs) as [Hl | Hl]; [by apply free_can_acquire |].
  destruct (safe_busy _ _ Hs Hl) as (j & p & Hj & Hp).
  destruct (holder_can_drop w i j p Hj Hp Hi) as (w1 & H1 & Hl1 & Hi1).
  destruct (free_can_acquire w1 i Hi1 Hl1) as (w2 & H2 & Hi2).
  exists w2. split; [by apply star_trans with w1 | done].
Qed.

(** ** Witnesses *)

(** Two threads call [kspin_lock]; the first one acquires the lock. *)
Definition two_waiting : world :=
  mk_world (mk_kspin 0 7) 40 [Spinning; Spinning] 0.
Definition one_inside : world :=
  mk_world (mk_kspin 1 7) 40 [Critical; Spinning] 0.

Lemma two_waiting_reachable : star tstep (initial (mk_kspin 5 0) 7 40 2) two_waiting.
Proof.
  apply star_trans with (mk_world (mk_kspin 0 7) 40 [Spinning; Idle] 0); apply star_one.
  - by apply (call_lock (initial (mk_kspin 5 0) 7 40 2) 0).
  - by apply (call_lock (mk_world (mk_kspin 0 7) 40 [Spinning; Idle] 0) 1).
Qed.

Lemma one_inside_reachable : star tstep (initial (mk_kspin 5 0) 7 40 2) one_inside.
Proof.
  apply star_step with two_waiting; [apply two_waiting_reachable |].
  by apply (acquired two_waiting 0 0 (mk_kspin 1 7)).
Qed.

Lemma kspin_mutual_exclusion_witness : 0%nat = 0%nat.
Proof.
  exact (kspin_mutual_exclusion (mk_kspin 5 0) 7 40 2 one_inside 0 0 Critical Critical
    one_inside_reachable eq_refl eq_refl eq_refl eq_refl).
Defined.

Lemma kspin_no_lost_update_witness : word one_inside = 40 + stores one_inside.
Proof.
  exact (kspin_no_lost_update (mk_kspin 5 0) 7 40 2 one_inside one_inside_reachable).
Defined.

Lemma kspin_acquire_witness : kspin_trylock (mk_kspin 1 7) = (-1, mk_kspin 1 7).
Proof. exact (proj2 (kspin_acquire (mk_kspin 1 7) 0 (or_intror eq_refl))). Defined.

Lemma kspin_waiter_can_acquire_witness :
  exists w, star tstep one_inside w /\ threads w !! 1%nat = Some Critical.
Proof.
  exact (kspin_waiter_can_acquire (mk_kspin 5 0) 7 40 2 one_inside 1
    one_inside_reachable eq_refl).
Defined.

End Spinlock.
