(* ===== verification/Desc.v ===== *)
(** The descriptor tables: kernel/gdt.c, gdt_internal.h, kernel/idt.c,
    idt_internal.h.

    The two tables are arrays in low memory; a table is the list of its
    entries, and the registers loaded by [lgdt] and [lidt] are part of the
    state.  The specifications read an entry the way the processor does. *)

From Stdlib Require Import ZArith Lia Bool.
From stdpp Require Import base tactics numbers list option.
From S2P Require Import Prelude.

Local Open Scope Z_scope.

Module Gdt.

(** ** gdt_internal.h *)

Definition GDT_BASE_ADDRESS : Z := 0x800.
Definition GDT_SIZE : Z := 0x6.
Definition GDT_KERNEL_LIMIT : Z := 0xFFFF.
Definition GDT_USER_LIMIT : Z := 0xFFFF.
Definition GDT_GRAN_BASE : Z := 0xCF.
Definition GDT_ENTRY_NULL : Z := 0x0.
Definition GDT_KERNEL_CODE : Z := 0x1.
Definition GDT_KERNEL_DATA : Z := 0x2.
Definition GDT_KERNEL_STACK : Z := 0x3.
Definition GDT_USER_CODE : Z := 0x4.
Definition GDT_USER_DATA : Z := 0x5.
Definition GDT_USER_STACK : Z := 0x6.
Definition GDT_BASE_SEGMENT : Z := 0x0.

Definition SEG_DESCTYPE (x : Z) : Z := Z.shiftl x 0x04.
Definition SEG_PRES (x : Z) : Z := Z.shiftl x 0x07.
Definition SEG_SAVL (x : Z) : Z := Z.shiftl x 0x0C.
Definition SEG_LONG (x : Z) : Z := Z.shiftl x 0x0D.
Definition SEG_SIZE (x : Z) : Z := Z.shiftl x 0x0E.
Definition SEG_GRAN (x : Z) : Z := Z.shiftl x 0x0F.
Definition SEG_PRIV (x : Z) : Z := Z.shiftl (Z.land x 0x03) 0x05.
Definition SEG_DATA_RD : Z := 0x00.
Definition SEG_DATA_RDA : Z := 0x01.
Definition SEG_DATA_RDWR : Z := 0x02.
Definition SEG_DATA_RDWRA : Z := 0x03.
Definition SEG_DATA_RDEXPD : Z := 0x04.
Definition SEG_DATA_RDEXPDA : Z := 0x05.
Definition SEG_DATA_RDWREXPD : Z := 0x06.
Definition SEG_DATA_RDWREXPDA : Z := 0x07.
Definition SEG_CODE_EX : Z := 0x08.
Definition SEG_CODE_EXA : Z := 0x09.
Definition SEG_CODE_EXRD : Z := 0x0A.
Definition SEG_CODE_EXRDA : Z := 0x0B.
Definition SEG_CODE_EXC : Z := 0x0C.
Definition SEG_CODE_EXCA : Z := 0x0D.
Definition SEG_CODE_EXRDC : Z := 0x0E.
Definition SEG_CODE_EXRDCA : Z := 0x0F.

(** The six [GDT_..._ACCESS] macros differ in the privilege and the type. *)
Definition segment_access (priv type : Z) : Z :=
  Z.lor (SEG_DESCTYPE 1) (Z.lor (SEG_PRES 1) (Z.lor (SEG_SAVL 0)
    (Z.lor (SEG_LONG 0) (Z.lor (SEG_SIZE 1) (Z.lor (SEG_GRAN 1)
      (Z.lor (SEG_PRIV priv) type)))))).
Definition GDT_KERNEL_CODE_ACCESS : Z := segment_access 0 SEG_CODE_EXRD.
Definition GDT_KERNEL_DATA_ACCESS : Z := segment_access 0 SEG_DATA_RDWR.
Definition GDT_KERNEL_STACK_ACCESS : Z := segment_access 0 SEG_DATA_RDWREXPD.
Definition GDT_USER_CODE_ACCESS : Z := segment_access 3 SEG_CODE_EXRD.
Definition GDT_USER_DATA_ACCESS : Z := segment_access 3 SEG_DATA_RDWR.
Definition GDT_USER_STACK_ACCESS : Z := segment_access 3 SEG_DATA_RDWREXPD.

Record t_gdt_entry : Type := mk_gdt_entry
  { limit_low : Z; base_low : Z; base_middle : Z; access : Z; granularity : Z;
    base_high : Z }.
Definition sizeof_gdt_entry : Z := 8.

Record t_gdt_ptr : Type := mk_gdt_ptr { limit : Z; base : Z }.

(** The table at [GDT_BASE_ADDRESS], [gdtp], and the processor's register. *)
Record gdt_state : Type := mk_gdt_state
  { gdt : list t_gdt_entry; gdtp : t_gdt_ptr; gdtr : t_gdt_ptr }.

(** ** gdt.c *)

Definition gdt_set_gate (num base limit access gran : Z) (st : gdt_state) : result gdt_state :=
  e ← rd (gdt st) num;
  let granularity := u8 (Z.land (Z.shiftr limit 16) 0x0F) in
  let granularity := u8 (Z.lor granularity (Z.land gran 0xFF)) in
  let e' := {| base_low := u16 (Z.land base 0xFFFF);
               base_middle := u8 (Z.land (Z.shiftr base 16) 0xFF);
               base_high := u8 (Z.land (Z.shiftr base 24) 0xFF);
               limit_low := u16 (Z.land limit 0xFFFF);
               granularity := granularity;
               access := u8 access |} in
  gdt' ← wr (gdt st) num e';
  Ok (mk_gdt_state gdt' (gdtp st) (gdtr st)).

(** gdt_flush.s: [lgdt] loads the register. *)
Definition gdt_flush (st : gdt_state) : gdt_state :=
  mk_gdt_state (gdt st) (gdtp st) (gdtp st).

Definition gdt_init (st : gdt_state) : result gdt_state :=
  let st := mk_gdt_state (gdt st)
    (mk_gdt_ptr (u16 (sizeof_gdt_entry * GDT_SIZE)) GDT_BASE_ADDRESS) (gdtr st) in
  st ← gdt_set_gate GDT_ENTRY_NULL GDT_ENTRY_NULL GDT_ENTRY_NULL GDT_ENTRY_NULL
         GDT_ENTRY_NULL st;
  st ← gdt_set_gate GDT_KERNEL_CODE GDT_BASE_SEGMENT GDT_KERNEL_LIMIT
         (u8 GDT_KERNEL_CODE_ACCESS) GDT_GRAN_BASE st;
  st ← gdt_set_gate GDT_KERNEL_DATA GDT_BASE_SEGMENT GDT_KERNEL_LIMIT
         (u8 GDT_KERNEL_DATA_ACCESS) GDT_GRAN_BASE st;
  st ← gdt_set_gate GDT_KERNEL_STACK GDT_BASE_SEGMENT GDT_KERNEL_LIMIT
         (u8 GDT_KERNEL_STACK_ACCESS) GDT_GRAN_BASE st;
  st ← gdt_set_gate GDT_USER_CODE GDT_BASE_SEGMENT GDT_USER_LIMIT
         (u8 GDT_USER_CODE_ACCESS) GDT_GRAN_BASE st;
  st ← gdt_set_gate GDT_USER_DATA GDT_BASE_SEGMENT GDT_USER_LIMIT
         (u8 GDT_USER_DATA_ACCESS) GDT_GRAN_BASE st;
  st ← gdt_set_gate GDT_USER_STACK GDT_BASE_SEGMENT GDT_USER_LIMIT
         (u8 GDT_USER_STACK_ACCESS) GDT_GRAN_BASE st;
  Ok (gdt_flush st).

(** ** How the processor reads an entry *)

Definition segment_base (e : t_gdt_entry) : Z :=
  base_low e + base_middle e * 2 ^ 16 + base_high e * 2 ^ 24.
Definition segment_limit (e : t_gdt_entry) : Z :=
  let raw := limit_low e + granularity e mod 16 * 2 ^ 16 in
  if Z.testbit (granularity e) 7 then raw * 4096 + 4095 else raw.
Definition segment_dpl (e : t_gdt_entry) : Z := access e / 32 mod 4.
Definition segment_present (e : t_gdt_entry) : bool := Z.testbit (access e) 7.
Definition segment_code (e : t_gdt_entry) : bool :=
  Z.testbit (access e) 4 && Z.testbit (access e) 3.
Definition segment_writable (e : t_gdt_entry) : bool :=
  Z.testbit (access e) 4 && negb (Z.testbit (access e) 3) && Z.testbit (access e) 1.
Definition segment_expand_down (e : t_gdt_entry) : bool :=
  Z.testbit (access e) 4 && negb (Z.testbit (access e) 3) && Z.testbit (access e) 2.

Definition segment_readable (e : t_gdt_entry) : bool :=
  Z.testbit (access e) 4 && (negb (Z.testbit (access e) 3) || Z.testbit (access e) 1).
Definition segment_conforming (e : t_gdt_entry) : bool :=
  Z.testbit (access e) 4 && Z.testbit (access e) 3 && Z.testbit (access e) 2.
Definition segment_accessed (e : t_gdt_entry) : bool :=
  Z.testbit (access e) 4 && Z.testbit (access e) 0.

(** The limit check of the processor for the byte at offset [a]: an expand-down
    segment begins behind its limit. *)
Definition segment_contains (e : t_gdt_entry) (a : Z) : bool :=
  if segment_expand_down e
  then (segment_limit e <? a) && (a <? if Z.testbit (granularity e) 6 then 2 ^ 32 else 2 ^ 16)
  else (0 <=? a) && (a <=? segment_limit e).

(** A selector can be loaded when the eight bytes of its entry lie within the
    limit of the register. *)
Definition selector_ok (r : t_gdt_ptr) (n : Z) : bool := n * 8 + 7 <=? limit r.

(** ** Properties *)

Lemma land_ff x : Z.land x 0xFF = x mod 256.
Proof. exact (Z.land_ones x 8 ltac:(lia)). Qed.
Lemma land_ffff x : Z.land x 0xFFFF = x mod 65536.
Proof. exact (Z.land_ones x 16 ltac:(lia)). Qed.
Lemma land_f x : Z.land x 0x0F = x mod 16.
Proof. exact (Z.land_ones x 4 ltac:(lia)). Qed.

(** The entry [gdt_set_gate] stores, without the masks. *)
Definition gate (base limit access gran : Z) : t_gdt_entry :=
  {| limit_low := limit mod 65536; base_low := base mod 65536;
     base_middle := base / 65536 mod 256; access := access mod 256;
     granularity := u8 (Z.lor (limit / 65536 mod 16) (gran mod 256));
     base_high := base / 16777216 mod 256 |}.

Lemma gdt_set_gate_spec num b l a g st : 0 <= num < zlen (gdt st) ->
  gdt_set_gate num b l a g st =
    Ok (mk_gdt_state (<[Z.to_nat num := gate b l a g]> (gdt st)) (gdtp st) (gdtr st)).
Proof.
  intros Hn. unfold gdt_set_gate, gate.
  rewrite (rd_ok (mk_gdt_entry 0 0 0 0 0 0)) by done. cbn [mbind result_bind].
  rewrite wr_ok by done. cbn [mbind result_bind].
  rewrite !land_ff, !land_ffff, land_f, !Z.shiftr_div_pow2 by lia.
  change (2 ^ 16) with 65536. change (2 ^ 24) with 16777216.
  unfold u8, u16. rewrite !Z.mod_mod by lia.
  rewrite (Z.mod_small (l / 65536 mod 16) 256) by dlia. done.
Qed.

Lemma gdt_set_gate_gdtp num b l a g st st' :
  gdt_set_gate num b l a g st = Ok st' -> gdtp st' = gdtp st.
Proof. unfold gdt_set_gate. intros H. by bind_tac. Qed.

Lemma gate_base b l a g : 0 <= b < 2 ^ 32 -> segment_base (gate b l a g) = b.
Proof. intros. unfold segment_base, gate. cbn. dlia. Qed.

(** The high nibble of the limit shares its byte with the flags: a nibble of
    [gran] is or-ed into the limit. *)
Lemma gate_limit b l a g :
  segment_limit (gate b l a g) =
    let raw := l mod 65536 + Z.lor (l / 65536 mod 16) (g mod 16) * 65536 in
    if Z.testbit g 7 then raw * 4096 + 4095 else raw.
Proof.
  unfold segment_limit, gate. cbn [granularity limit_low].
  assert (Z.testbit (u8 (Z.lor (l / 65536 mod 16) (g mod 256))) 7 = Z.testbit g 7) as ->.
  { rewrite testbit_u8, Z.lor_spec by lia.
    change 256 with (2 ^ 8). rewrite Z.mod_pow2_bits_low by lia.
    change 16 with (2 ^ 4). rewrite Z.mod_pow2_bits_high by lia. done. }
  assert (u8 (Z.lor (l / 65536 mod 16) (g mod 256)) mod 16 =
          Z.lor (l / 65536 mod 16) (g mod 16)) as ->; [| done].
  apply Z.bits_inj'. intros k Hk. unfold u8.
  change 16 with (2 ^ 4). change 256 with (2 ^ 8). rewrite Z.lor_spec.
  destruct (Z.lt_ge_cases k 4).
  - by rewrite !Z.mod_pow2_bits_low, Z.lor_spec, !Z.mod_pow2_bits_low by lia.
  - by rewrite !Z.mod_pow2_bits_high by lia.
Qed.

Lemma gate_access b l a g : access (gate b l a g) = u8 a.
Proof. done. Qed.

(** The seven entries [gdt_init] writes, in the order of their numbers. *)
Definition gdt_table : list t_gdt_entry :=
  gate 0 0 0 0 ::
  map (fun a => gate GDT_BASE_SEGMENT GDT_KERNEL_LIMIT (u8 a) GDT_GRAN_BASE)
    [GDT_KERNEL_CODE_ACCESS; GDT_KERNEL_DATA_ACCESS; GDT_KERNEL_STACK_ACCESS;
     GDT_USER_CODE_ACCESS; GDT_USER_DATA_ACCESS; GDT_USER_STACK_ACCESS].

Lemma gdt_init_spec st rest (e0 e1 e2 e3 e4 e5 e6 : t_gdt_entry) :
  gdt st = e0 :: e1 :: e2 :: e3 :: e4 :: e5 :: e6 :: rest ->
  gdt_init st = Ok (mk_gdt_state (gdt_table ++ rest) (mk_gdt_ptr 48 0x800)
                                 (mk_gdt_ptr 48 0x800)).
Proof.
  intros Hg. unfold gdt_init. rewrite Hg.
  unfold GDT_ENTRY_NULL, GDT_KERNEL_CODE, GDT_KERNEL_DATA, GDT_KERNEL_STACK, GDT_USER_CODE,
    GDT_USER_DATA, GDT_USER_STACK.
  repeat (rewrite gdt_set_gate_spec by
            (cbn [gdt]; rewrite ?zlen_insert; unfold zlen; cbn [length]; lia);
          cbn [mbind result_bind gdt gdtp gdtr]).
  done.
Qed.

(** [gdt_set_gate] writes one entry and keeps the rest of the table; the
    processor reads the given base and access byte back from it, and the given limit
    in the unit that bit 7 of [gran] selects, as long as the low nibble of
    [gran] is clear. *)
Theorem gdt_set_gate_decodes num b l a g st :
  0 <= num < zlen (gdt st) -> 0 <= b < 2 ^ 32 -> 0 <= l < 2 ^ 20 -> 0 <= a < 256 ->
  g mod 16 = 0 ->
  exists e, gdt_set_gate num b l a g st =
              Ok (mk_gdt_state (<[Z.to_nat num := e]> (gdt st)) (gdtp st) (gdtr st)) /\
    segment_base e = b /\ access e = a /\
    segment_limit e = if Z.testbit g 7 then l * 4096 + 4095 else l.
Proof.
  intros Hn Hb Hl Ha Hg. exists (gate b l a g).
  rewrite gate_base, gate_limit, gate_access, Hg, Z.lor_0_r by done.
  split; [by apply gdt_set_gate_spec |]. split; [done |].
  split; [by apply u8_small |]. cbv zeta.
  replace (l mod 65536 + l / 65536 mod 16 * 65536) with l by dlia. done.
Qed.

(** What the kernel's comments ask of its segments: flat 4 GiB segments, code
    or writable data, for ring 0 and ring 3. *)
Definition flat_segment (dpl : Z) (code down : bool) (e : t_gdt_entry) : Prop :=
  segment_present e = true /\ segment_base e = 0 /\ segment_limit e = 2 ^ 32 - 1 /\
  segment_dpl e = dpl /\ segment_code e = code /\ segment_writable e = negb code /\
  segment_expand_down e = down.

(** After [gdt_init] the table holds flat 4 GiB segments of the kinds and
    privileges their names announce, and the register points to the table. *)
Theorem gdt_init_segments st : 7 <= zlen (gdt st) ->
  exists st', gdt_init st = Ok st' /\ base (gdtr st') = GDT_BASE_ADDRESS /\
    segment_present (at_ (gate 0 0 0 0) (gdt st') GDT_ENTRY_NULL) = false /\
    flat_segment 0 true false (at_ (gate 0 0 0 0) (gdt st') GDT_KERNEL_CODE) /\
    flat_segment 0 false false (at_ (gate 0 0 0 0) (gdt st') GDT_KERNEL_DATA) /\
    flat_segment 0 false true (at_ (gate 0 0 0 0) (gdt st') GDT_KERNEL_STACK) /\
    flat_segment 3 true false (at_ (gate 0 0 0 0) (gdt st') GDT_USER_CODE) /\
    flat_segment 3 false false (at_ (gate 0 0 0 0) (gdt st') GDT_USER_DATA) /\
    flat_segment 3 false true (at_ (gate 0 0 0 0) (gdt st') GDT_USER_STACK).
Proof.
  intros Hlen. unfold zlen in Hlen.
  destruct (gdt st) as [| e0 [| e1 [| e2 [| e3 [| e4 [| e5 [| e6 rest]]]]]]] eqn:E;
    cbn [length] in Hlen; try lia.
  eexists. split; [by apply (gdt_init_spec st rest e0 e1 e2 e3 e4 e5 e6) |].
  repeat split.
Qed.

(** The stack segments are expand-down with the largest limit there is: they
    contain no offset at all, while the code and data segments contain all 2^32. *)
Theorem gdt_stack_segments_empty st : 7 <= zlen (gdt st) ->
  exists st', gdt_init st = Ok st' /\
    forall n a, 0 < n < 7 -> 0 <= a < 2 ^ 32 ->
      segment_contains (at_ (gate 0 0 0 0) (gdt st') n) a =
        negb ((n =? GDT_KERNEL_STACK) || (n =? GDT_USER_STACK)).
Proof.
  intros Hlen. unfold zlen in Hlen.
  destruct (gdt st) as [| e0 [| e1 [| e2 [| e3 [| e4 [| e5 [| e6 rest]]]]]]] eqn:E;
    cbn [length] in Hlen; try lia.
  eexists. split; [by apply (gdt_init_spec st rest e0 e1 e2 e3 e4 e5 e6) |].
  intros n a Hn Ha. cbn [gdt].
  assert (n = 1 \/ n = 2 \/ n = 3 \/ n = 4 \/ n = 5 \/ n = 6) as Hc by lia.
  destruct Hc as [-> | [-> | [-> | [-> | [-> | ->]]]]];
    (match goal with |- context [at_ ?d ?l ?k] =>
       let e := eval vm_compute in (at_ d gdt_table k) in change (at_ d l k) with e end;
     unfold segment_contains;
     match goal with |- context [segment_limit ?e] =>
       let x := eval vm_compute in (segment_limit e) in change (segment_limit e) with x end;
     cbn; destruct (Z.leb_spec 0 a), (Z.leb_spec a 4294967295), (Z.ltb_spec 4294967295 a); done || lia).
Qed.

(** The 16 types mean what the comments next to the macros say. *)
Definition type_entry (type : Z) : t_gdt_entry := gate 0 0 (u8 (segment_access 0 type)) 0.

Definition type_flags (e : t_gdt_entry) : list bool :=
  [segment_code e; segment_readable e; segment_writable e;
   segment_expand_down e || segment_conforming e; segment_accessed e].
Definition documented_types : list (Z * list bool) :=
  [(SEG_DATA_RD, [false; true; false; false; false]);
   (SEG_DATA_RDA, [false; true; false; false; true]);
   (SEG_DATA_RDWR, [false; true; true; false; false]);
   (SEG_DATA_RDWRA, [false; true; true; false; true]);
   (SEG_DATA_RDEXPD, [false; true; false; true; false]);
   (SEG_DATA_RDEXPDA, [false; true; false; true; true]);
   (SEG_DATA_RDWREXPD, [false; true; true; true; false]);
   (SEG_DATA_RDWREXPDA, [false; true; true; true; true]);
   (SEG_CODE_EX, [true; false; false; false; false]);
   (SEG_CODE_EXA, [true; false; false; false; true]);
   (SEG_CODE_EXRD, [true; true; false; false; false]);
   (SEG_CODE_EXRDA, [true; true; false; false; true]);
   (SEG_CODE_EXC, [true; false; false; true; false]);
   (SEG_CODE_EXCA, [true; false; false; true; true]);
   (SEG_CODE_EXRDC, [true; true; false; true; false]);
   (SEG_CODE_EXRDCA, [true; true; false; true; true])].
Theorem segment_types_documented :
  Forall (fun '(type, flags) => type_flags (type_entry type) = flags) documented_types.
Proof. by apply (bool_decide_unpack _); vm_compute. Qed.

(** The limit [gdt_init] loads is one entry too short: the six first
    entries can be selected, the user stack segment cannot. *)
Theorem gdt_user_stack_unreachable st st' n : gdt_init st = Ok st' -> 0 <= n ->
  selector_ok (gdtr st') n = true <-> n < GDT_USER_STACK.
Proof.
  intros Hi Hn. unfold gdt_init in Hi. bind_tac.
  repeat match goal with
    | H : gdt_set_gate _ _ _ _ _ _ = Ok _ |- _ => apply gdt_set_gate_gdtp in H
    end.
  cbn [gdtr gdt_flush].
  repeat match goal with H : gdtp ?x = _ |- context [gdtp ?x] => rewrite H; clear H end.
  cbn [gdtp]. unfold selector_ok, GDT_USER_STACK. rewrite Z.leb_le. change (limit _) with 48. lia.
Qed.

(** ** Witnesses *)

Definition example_gdt : gdt_state :=
  mk_gdt_state (repeat (gate 0 0 0 0) 7) (mk_gdt_ptr 0 0) (mk_gdt_ptr 0 0).

Lemma gdt_set_gate_decodes_witness :
  exists e st, gdt_set_gate 2 0x12345678 0xFFFFF 0x92 0xC0 example_gdt = Ok st /\
    segment_base e = 0x12345678 /\ segment_limit e = 0xFFFFFFFF.
Proof.
  destruct (gdt_set_gate_decodes 2 0x12345678 0xFFFFF 0x92 0xC0 example_gdt ltac:(done)
    ltac:(lia) ltac:(lia) ltac:(lia) eq_refl) as (e & E & Hb & _ & Hl).
  exists e. eexists. split; [exact E |]. split; [exact Hb | exact Hl].
Defined.

Lemma gdt_init_segments_witness :
  exists st, gdt_init example_gdt = Ok st /\ base (gdtr st) = GDT_BASE_ADDRESS.
Proof.
  destruct (gdt_init_segments example_gdt ltac:(done)) as (st & E & Hb & _).
  exists st. exact (conj E Hb).
Defined.

Lemma gdt_stack_segments_empty_witness :
  exists st, gdt_init example_gdt = Ok st /\
    segment_contains (at_ (gate 0 0 0 0) (gdt st) GDT_KERNEL_STACK) 0xC0101000 = false.
Proof.
  destruct (gdt_stack_segments_empty example_gdt ltac:(done)) as (st & E & H).
  exists st. split; [exact E |]. apply (H GDT_KERNEL_STACK); done.
Defined.

Lemma gdt_user_stack_unreachable_witness :
  exists st, gdt_init example_gdt = Ok st /\ ~ selector_ok (gdtr st) GDT_USER_STACK = true.
Proof.
  eexists. split; [vm_compute; reflexivity |].
  rewrite (gdt_user_stack_unreachable example_gdt _ GDT_USER_STACK
    ltac:(vm_compute; reflexivity) ltac:(done)).
  apply Z.lt_irrefl.
Defined.

End Gdt.

Module Idt.

(** ** idt_internal.h *)

Definition TRAP_GATE_FLAGS : Z := 0x8F.
Definition INT_GATE_FLAGS : Z := 0x8E.
Definition INT_GATE_FLAGS_USER : Z := 0xEE.
Definition ISR_DE : Z := 0.
Definition ISR_OF : Z := 4.
Definition ISR_DF : Z := 8.
Definition ISR_TM : Z := 32.
Definition ISR_KB : Z := 33.
Definition ISR_IRQ : Z := 32.
Definition IRQ_TM : Z := ISR_TM - ISR_IRQ.
Definition IRQ_KB : Z := ISR_KB - ISR_IRQ.

Record t_idt_entry : Type := mk_idt_entry
  { base_low : Z; selector : Z; zero : Z; type_attributes : Z; base_high : Z }.
Definition sizeof_idt_entry : Z := 8.

Record t_idt_ptr : Type := mk_idt_ptr { limit : Z; base : Z }.

(** The table at address 0, [idtp], the register, and the interrupt flag. *)
Record idt_state : Type := mk_idt_state
  { idt : list t_idt_entry; idtp : t_idt_ptr; idtr : t_idt_ptr; interrupts : bool }.

(** The addresses of the handlers of isr.c, which the linker chooses. *)
Record handlers : Type := mk_handlers
  { divide_error_handler : Z; overflow_handler : Z; double_fault_handler : Z;
    timer_handler : Z; keyboard_handler : Z }.

(** ** idt.c *)

Definition idt_set_descriptor (idt_index isr_addr flags : Z) (st : idt_state)
    : result idt_state :=
  let descriptor :=
    {| base_low := u16 (Z.land (u32 isr_addr) 0xFFFF);
       selector := 0x08;
       zero := 0;
       type_attributes := u8 flags;
       base_high := u16 (Z.shiftr (u32 isr_addr) 16) |} in
  idt' ← wr (idt st) (u8 idt_index) descriptor;
  Ok (mk_idt_state idt' (idtp st) (idtr st) (interrupts st)).

Definition idt_init (h : handlers) (st : idt_state) : result idt_state :=
  let st := mk_idt_state (idt st) (mk_idt_ptr (u16 (sizeof_idt_entry * 256)) 0x0)
              (idtr st) (interrupts st) in
  st ← idt_set_descriptor ISR_DE (divide_error_handler h) TRAP_GATE_FLAGS st;
  st ← idt_set_descriptor ISR_OF (overflow_handler h) TRAP_GATE_FLAGS st;
  st ← idt_set_descriptor ISR_DF (double_fault_handler h) TRAP_GATE_FLAGS st;
  st ← idt_set_descriptor ISR_TM (timer_handler h) INT_GATE_FLAGS st;
  st ← idt_set_descriptor ISR_KB (keyboard_handler h) INT_GATE_FLAGS st;
  Ok (mk_idt_state (idt st) (idtp st) (idtp st) true).

(** ** How the processor reads a gate *)

Definition gate_offset (e : t_idt_entry) : Z := base_low e + base_high e * 2 ^ 16.
Definition gate_present (e : t_idt_entry) : bool := Z.testbit (type_attributes e) 7.
Definition gate_dpl (e : t_idt_entry) : Z := type_attributes e / 32 mod 4.
(** An interrupt gate masks the interrupts during the handler, a trap gate
    does not. *)
Definition gate_masks (e : t_idt_entry) : bool := negb (Z.testbit (type_attributes e) 0).

(** ** Properties *)

Definition descriptor (isr_addr flags : Z) : t_idt_entry :=
  mk_idt_entry (u32 isr_addr mod 65536) 8 0 (u8 flags) (u32 isr_addr / 65536).

Lemma idt_set_descriptor_spec i a f st : 0 <= i < 256 -> i < zlen (idt st) ->
  idt_set_descriptor i a f st =
    Ok (mk_idt_state (<[Z.to_nat i := descriptor a f]> (idt st)) (idtp st) (idtr st)
                     (interrupts st)).
Proof.
  intros Hi Hlen. unfold idt_set_descriptor, descriptor.
  rewrite u8_small, wr_ok by lia. cbn [mbind result_bind].
  rewrite Gdt.land_ffff, Z.shiftr_div_pow2 by lia. change (2 ^ 16) with 65536.
  pose proof (u32_range a). rewrite !(u16_small) by dlia. done.
Qed.

Lemma descriptor_offset a f : 0 <= a < 2 ^ 32 -> gate_offset (descriptor a f) = a.
Proof. intros. unfold gate_offset, descriptor. cbn. rewrite u32_small by lia. dlia. Qed.

(** The vectors [idt_init] installs, their handlers and whether the gate masks
    interrupts. *)
Definition installed (h : handlers) : list (Z * Z * bool) :=
  [(ISR_DE, divide_error_handler h, false); (ISR_OF, overflow_handler h, false);
   (ISR_DF, double_fault_handler h, false); (ISR_TM, timer_handler h, true);
   (ISR_KB, keyboard_handler h, true)].

Lemma idt_init_runs h st : 256 <= zlen (idt st) ->
  exists st', idt_init h st = Ok st' /\ interrupts st' = true.
Proof.
  intros Hlen. unfold idt_init, ISR_DE, ISR_OF, ISR_DF, ISR_TM, ISR_KB.
  repeat (rewrite idt_set_descriptor_spec by (cbn [idt]; rewrite ?zlen_insert; lia);
          cbn [mbind result_bind idt idtp idtr interrupts]).
  eexists. split; reflexivity.
Qed.

(** After [idt_init] each installed vector leads to its handler, through a
    present ring 0 gate of the kernel's code segment that masks interrupts for the two
    IRQs only; the other vectors keep their entries, and interrupts are on. *)
Theorem idt_init_installs h st d : 256 <= zlen (idt st) ->
  Forall (fun '(_, a, _) => 0 <= a < 2 ^ 32) (installed h) ->
  exists st', idt_init h st = Ok st' /\ interrupts st' = true /\ base (idtr st') = 0 /\
    Forall (fun '(v, a, m) =>
      let e := at_ d (idt st') v in
      gate_offset e = a /\ selector e = 8 * Gdt.GDT_KERNEL_CODE /\ zero e = 0 /\
      gate_present e = true /\ gate_dpl e = 0 /\ gate_masks e = m) (installed h) /\
    forall v, 0 <= v -> Forall (fun '(w, _, _) => v <> w) (installed h) ->
      at_ d (idt st') v = at_ d (idt st) v.
Proof.
  intros Hlen Ha. unfold idt_init.
  unfold ISR_DE, ISR_OF, ISR_DF, ISR_TM, ISR_KB.
  repeat (rewrite idt_set_descriptor_spec by (cbn [idt]; rewrite ?zlen_insert; lia);
          cbn [mbind result_bind idt idtp idtr interrupts]).
  eexists. split; [reflexivity |]. cbn [idt idtr interrupts base].
  split; [done |]. split; [done |].
  unfold installed, ISR_DE, ISR_OF, ISR_DF, ISR_TM, ISR_KB in *.
  rewrite !List.Forall_cons_iff in Ha. destruct Ha as (A0 & A1 & A2 & A3 & A4 & _).
  split.
  - repeat apply Forall_cons_2; [.. | by apply Forall_nil];
      cbv zeta; rewrite !at_insert by (rewrite ?zlen_insert; lia); cbn [Z.eqb Pos.eqb];
      rewrite descriptor_offset by done; repeat split.
  - intros v Hv Hother.
    rewrite !List.Forall_cons_iff in Hother. destruct Hother as (N0 & N1 & N2 & N3 & N4 & _).
    rewrite !at_insert by (rewrite ?zlen_insert; lia).
    repeat match goal with |- context [v =? ?c] => destruct (Z.eqb_spec v c); [lia |] end.
    done.
Qed.

(** The 256 entries of the IDT end where the GDT begins. *)
Lemma tables_disjoint v n : 0 <= v < 256 -> 0 <= n ->
  v * sizeof_idt_entry + sizeof_idt_entry <= Gdt.GDT_BASE_ADDRESS + n * Gdt.sizeof_gdt_entry.
Proof. unfold sizeof_idt_entry, Gdt.GDT_BASE_ADDRESS, Gdt.sizeof_gdt_entry. lia. Qed.

(** ** Witness *)

Definition example_handlers : handlers :=
  mk_handlers 0xC0101000 0xC0101100 0xC0101200 0xC0101300 0xC0101400.
Definition example_idt : idt_state :=
  mk_idt_state (repeat (mk_idt_entry 0 0 0 0 0) 256) (mk_idt_ptr 0 0) (mk_idt_ptr 0 0) false.

Lemma idt_init_installs_witness :
  exists st, idt_init example_handlers example_idt = Ok st /\ interrupts st = true.
Proof.
  destruct (idt_init_installs example_handlers example_idt (mk_idt_entry 0 0 0 0 0)
    ltac:(done) ltac:(repeat constructor; cbn; lia)) as (st & E & Hi & _).
  exists st. exact (conj E Hi).
Defined.

End Idt.
