(* ===== verification/Pic.v ===== *)
(** The interrupt controllers (kernel/pic_8259.c, include/kernel/pic_8259.h)
    and the two hardware interrupt handlers of kernel/isr.c.

    The controllers are a [Device]; [Pic] states what the 8259A data sheet
    promises about their ports: the initialisation words in their order, the
    mask register, and the end-of-interrupt command. *)

From Stdlib Require Import ZArith Lia Bool.
From stdpp Require Import base tactics numbers list option.
From S2P Require Import Prelude Port Desc.

Local Open Scope Z_scope.

Module Pic.

(** ** pic_8259.h *)

Definition PIC1 : Z := 0x20.
Definition PIC2 : Z := 0xA0.
Definition PIC1_OFFSET : Z := 0x20.
Definition PIC2_OFFSET : Z := 0x28.
Definition PIC1_DATA : Z := PIC1 + 1.
Definition PIC2_DATA : Z := PIC2 + 1.
Definition PIC1_CMD : Z := PIC1.
Definition PIC2_CMD : Z := PIC2.
Definition PIC_EOI : Z := PIC1.
Definition ICW1 : Z := 0x11.
Definition ICW4 : Z := 0x01.

(** ** pic_8259.c *)

Section driver.
Context {D : Type} `{Device D}.

Definition irq_set_mask (irq_id : Z) (d : D) : D :=
  let (port, irq_id) := if irq_id <? 8 then (u16 (PIC1 + 1), irq_id)
                        else (u16 (PIC2 + 1), u8 (irq_id - 8)) in
  let (v, d) := port_read_u8 port d in
  let value := u8 (Z.lor v (Z.shiftl 1 irq_id)) in
  port_write_u8 port value d.

Definition irq_clear_mask (irq_id : Z) (d : D) : D :=
  let (port, irq_id) := if irq_id <? 8 then (u16 (PIC1 + 1), irq_id)
                        else (u16 (PIC2 + 1), u8 (irq_id - 8)) in
  let (v, d) := port_read_u8 port d in
  let value := u8 (Z.land v (Z.lnot (Z.shiftl 1 irq_id))) in
  port_write_u8 port value d.

Definition pic_8259_init (pic1 pic2 : Z) (d : D) : D :=
  let d := port_write_u8 PIC1_CMD ICW1 d in
  let d := port_write_u8 PIC2_CMD ICW1 d in
  let d := port_write_u8 PIC1_DATA pic1 d in
  let d := port_write_u8 PIC2_DATA pic2 d in
  let d := port_write_u8 PIC1_DATA 4 d in
  let d := port_write_u8 PIC2_DATA 2 d in
  let d := port_write_u8 PIC1_DATA ICW4 d in
  let d := port_write_u8 PIC2_DATA ICW4 d in
  let d := port_write_u8 PIC1_DATA 0xFF d in
  let d := port_write_u8 PIC2_DATA 0xFF d in
  let d := irq_clear_mask Idt.IRQ_TM d in
  irq_clear_mask Idt.IRQ_KB d.

Definition pic_8259_eoi (irq_id : Z) (d : D) : D :=
  let d := if 8 <? irq_id then port_write_u8 PIC2_CMD PIC_EOI d else d in
  port_write_u8 PIC1_CMD PIC_EOI d.

(** isr.c: the handlers of the two enabled IRQs. *)
Definition timer_handler (d : D) : D := pic_8259_eoi Idt.IRQ_TM d.
Definition keyboard_handler (d : D) : D := pic_8259_eoi Idt.IRQ_KB d.
End driver.

(** ** The controllers *)

Inductive expecting : Type := Ready | Icw2 | Icw3 | Icw4.
#[export] Instance expecting_eq_dec : EqDecision expecting.
Proof. solve_decision. Defined.

Record chip : Type := mk_chip
  { expect : expecting;
    vector : Z;          (** the vector of its first IRQ *)
    cascade : Z;
    mask : Z;            (** a set bit disables the IRQ *)
    serving : bool }.    (** an interrupt was delivered and not acknowledged *)

Definition chip_cmd (v : Z) (c : chip) : chip :=
  if Z.testbit v 4 then mk_chip Icw2 (vector c) (cascade c) 0 false
  else if v =? 0x20 then mk_chip (expect c) (vector c) (cascade c) (mask c) false
  else c.

Definition chip_data (v : Z) (c : chip) : chip :=
  match expect c with
  | Icw2 => mk_chip Icw3 (v / 8 * 8) (cascade c) (mask c) (serving c)
  | Icw3 => mk_chip Icw4 (vector c) v (mask c) (serving c)
  | Icw4 => mk_chip Ready (vector c) (cascade c) (mask c) (serving c)
  | Ready => mk_chip Ready (vector c) (cascade c) v (serving c)
  end.

Class Pic (D : Type) `{Device D} : Type :=
  { pics : D -> chip * chip;
    pic_cmd1 v d : pics (dev_out 0x20 v d) = (chip_cmd v (pics d).1, (pics d).2);
    pic_cmd2 v d : pics (dev_out 0xA0 v d) = ((pics d).1, chip_cmd v (pics d).2);
    pic_data1 v d : pics (dev_out 0x21 v d) = (chip_data v (pics d).1, (pics d).2);
    pic_data2 v d : pics (dev_out 0xA1 v d) = ((pics d).1, chip_data v (pics d).2);
    pic_mask1 d : expect (pics d).1 = Ready ->
      exists d', dev_in 0x21 d = (mask (pics d).1, d') /\ pics d' = pics d;
    pic_mask2 d : expect (pics d).2 = Ready ->
      exists d', dev_in 0xA1 d = (mask (pics d).2, d') /\ pics d' = pics d }.

Definition set_chip_mask (v : Z) (c : chip) : chip :=
  mk_chip (expect c) (vector c) (cascade c) v (serving c).

Lemma chip_data_ready v c : expect c = Ready -> chip_data v c = set_chip_mask v c.
Proof. intros E. unfold chip_data, set_chip_mask. by rewrite E. Qed.

Section properties.
Context {D : Type} `{Pic D}.

Lemma port_write_out port v d : 0 <= v < 256 -> port_write_u8 port v d = dev_out port v d.
Proof. intros. unfold port_write_u8. by rewrite u8_small. Qed.

(** Reading the mask register of a chip that is ready. *)
Lemma read_mask1 d : expect (pics d).1 = Ready -> 0 <= mask (pics d).1 < 256 ->
  exists d', port_read_u8 0x21 d = (mask (pics d).1, d') /\ pics d' = pics d.
Proof.
  intros He Hm. destruct (pic_mask1 d He) as (d' & E & Hp). exists d'.
  unfold port_read_u8. rewrite E, u8_small by done. done.
Qed.

Lemma read_mask2 d : expect (pics d).2 = Ready -> 0 <= mask (pics d).2 < 256 ->
  exists d', port_read_u8 0xA1 d = (mask (pics d).2, d') /\ pics d' = pics d.
Proof.
  intros He Hm. destruct (pic_mask2 d He) as (d' & E & Hp). exists d'.
  unfold port_read_u8. rewrite E, u8_small by done. done.
Qed.

(** Both controllers ready, with byte masks. *)
Definition ready (d : D) : Prop :=
  expect (pics d).1 = Ready /\ expect (pics d).2 = Ready /\
  0 <= mask (pics d).1 < 256 /\ 0 <= mask (pics d).2 < 256.

(** The mask bit of an IRQ. *)
Definition masked (d : D) (irq : Z) : bool :=
  if irq <? 8 then Z.testbit (mask (pics d).1) irq
  else Z.testbit (mask (pics d).2) (irq - 8).

(** A read-modify-write of the mask register that owns [irq]. *)
Lemma rmw_mask (f : Z -> Z) irq d : ready d ->
  (forall v, 0 <= v < 256 -> 0 <= f v < 256) ->
  pics (let (v, d) := port_read_u8 (if irq <? 8 then 0x21 else 0xA1) d in
        port_write_u8 (if irq <? 8 then 0x21 else 0xA1) (f v) d) =
    if irq <? 8
    then (set_chip_mask (f (mask (pics d).1)) (pics d).1, (pics d).2)
    else ((pics d).1, set_chip_mask (f (mask (pics d).2)) (pics d).2).
Proof.
  intros (R1 & R2 & M1 & M2) Hf. destruct (irq <? 8).
  - destruct (read_mask1 d R1 M1) as (d' & -> & E).
    rewrite port_write_out by auto. by rewrite pic_data1, E, chip_data_ready.
  - destruct (read_mask2 d R2 M2) as (d' & -> & E).
    rewrite port_write_out by auto. by rewrite pic_data2, E, chip_data_ready.
Qed.

Lemma irq_port irq : 0 <= irq < 16 ->
  (if irq <? 8 then (u16 (PIC1 + 1), irq) else (u16 (PIC2 + 1), u8 (irq - 8))) =
  (if irq <? 8 then 0x21 else 0xA1, if irq <? 8 then irq else irq - 8).
Proof. intros. destruct (Z.ltb_spec irq 8); [done |]. by rewrite u8_small by lia. Qed.

(** The bit of [irq] in the register that owns it. *)
Definition irq_bit (irq : Z) : Z := if irq <? 8 then irq else irq - 8.

Lemma irq_set_mask_spec irq d : ready d -> 0 <= irq < 16 ->
  let f v := u8 (Z.lor v (Z.shiftl 1 (irq_bit irq))) in
  pics (irq_set_mask irq d) =
    if irq <? 8
    then (set_chip_mask (f (mask (pics d).1)) (pics d).1, (pics d).2)
    else ((pics d).1, set_chip_mask (f (mask (pics d).2)) (pics d).2).
Proof.
  intros Hr Hi f. unfold irq_set_mask. rewrite irq_port by done.
  apply (rmw_mask f irq d Hr). intros. apply u8_range.
Qed.

Lemma irq_clear_mask_spec irq d : ready d -> 0 <= irq < 16 ->
  let f v := u8 (Z.land v (Z.lnot (Z.shiftl 1 (irq_bit irq)))) in
  pics (irq_clear_mask irq d) =
    if irq <? 8
    then (set_chip_mask (f (mask (pics d).1)) (pics d).1, (pics d).2)
    else ((pics d).1, set_chip_mask (f (mask (pics d).2)) (pics d).2).
Proof.
  intros Hr Hi f. unfold irq_clear_mask. rewrite irq_port by done.
  apply (rmw_mask f irq d Hr). intros. apply u8_range.
Qed.

(** What an update [f] of one bit of the owning register does to [masked]. *)
Lemma masked_update (f : Z -> Z) (b : bool) irq d d' : ready d -> 0 <= irq < 16 ->
  (forall v, 0 <= f v < 256) ->
  (forall v j, 0 <= j < 8 ->
     Z.testbit (f v) j = if j =? irq_bit irq then b else Z.testbit v j) ->
  pics d' = (if irq <? 8
    then (set_chip_mask (f (mask (pics d).1)) (pics d).1, (pics d).2)
    else ((pics d).1, set_chip_mask (f (mask (pics d).2)) (pics d).2)) ->
  ready d' /\ forall j, 0 <= j < 16 -> masked d' j = if j =? irq then b else masked d j.
Proof.
  intros (R1 & R2 & M1 & M2) Hi Hf Hbit Hp. unfold ready, masked, irq_bit in *.
  rewrite Hp. split.
  - destruct (irq <? 8); cbn; auto.
  - intros j Hj. destruct (Z.ltb_spec irq 8), (Z.ltb_spec j 8); cbn [fst snd mask set_chip_mask];
      rewrite ?Hbit by lia; destruct (Z.eqb_spec j irq); subst; try lia; try done;
      try (rewrite Z.eqb_refl; done); try (rewrite (proj2 (Z.eqb_neq _ _)) by lia; done).
Qed.

Lemma irq_masks_ok irq d : ready d -> 0 <= irq < 16 ->
  (ready (irq_set_mask irq d) /\
   forall j, 0 <= j < 16 -> masked (irq_set_mask irq d) j = (j =? irq) || masked d j) /\
  (ready (irq_clear_mask irq d) /\
   forall j, 0 <= j < 16 ->
     masked (irq_clear_mask irq d) j = negb (j =? irq) && masked d j).
Proof.
  intros Hr Hi. assert (0 <= irq_bit irq < 8) as Hb.
  { unfold irq_bit. destruct (Z.ltb_spec irq 8); lia. }
  split.
  - destruct (masked_update (fun v => u8 (Z.lor v (Z.shiftl 1 (irq_bit irq)))) true irq d (irq_set_mask irq d) Hr Hi
      ltac:(intros; apply u8_range)) with (2 := irq_set_mask_spec irq d Hr Hi) as [Hr' Hm].
    + intros v j Hj. rewrite testbit_u8, testbit_set by lia. by destruct (j =? irq_bit irq).
    + split; [done |]. intros j Hj. rewrite Hm by done. by destruct (j =? irq).
  - destruct (masked_update (fun v => u8 (Z.land v (Z.lnot (Z.shiftl 1 (irq_bit irq))))) false irq d (irq_clear_mask irq d) Hr Hi
      ltac:(intros; apply u8_range)) with (2 := irq_clear_mask_spec irq d Hr Hi) as [Hr' Hm].
    + intros v j Hj. rewrite testbit_u8, testbit_clear by lia. by destruct (j =? irq_bit irq).
    + split; [done |]. intros j Hj. rewrite Hm by done. by destruct (j =? irq).
Qed.

(** [irq_set_mask] and [irq_clear_mask] set and clear the mask bit of the
    IRQ, in the controller that owns it, and no other. *)
Theorem irq_masks_one_bit irq d : ready d -> 0 <= irq < 16 ->
  (ready (irq_set_mask irq d) /\
   forall j, 0 <= j < 16 -> masked (irq_set_mask irq d) j = (j =? irq) || masked d j) /\
  (ready (irq_clear_mask irq d) /\
   forall j, 0 <= j < 16 ->
     masked (irq_clear_mask irq d) j = negb (j =? irq) && masked d j).
Proof. apply irq_masks_ok. Qed.

(** Whatever state the controllers were in, [pic_8259_init] ends with both
    of them initialised: their vectors start where the arguments say, they
    are cascaded over IRQ 2, and only the timer and the keyboard are
    enabled. *)
Theorem pic_8259_init_remaps pic1 pic2 d : 0 <= pic1 < 256 -> 0 <= pic2 < 256 ->
  pics (pic_8259_init pic1 pic2 d) =
    (mk_chip Ready (pic1 / 8 * 8) 4 0xFC false, mk_chip Ready (pic2 / 8 * 8) 2 0xFF false).
Proof.
  intros H1 H2. unfold pic_8259_init.
  rewrite !port_write_out by (done || (vm_compute; split; congruence)).
  match goal with |- pics (irq_clear_mask _ (irq_clear_mask _ ?x)) = _ => set (d0 := x) end.
  assert (pics d0 = (mk_chip Ready (pic1 / 8 * 8) 4 0xFF false,
                     mk_chip Ready (pic2 / 8 * 8) 2 0xFF false)) as E0.
  { unfold d0.
    repeat first [rewrite pic_cmd1 | rewrite pic_cmd2 | rewrite pic_data1 | rewrite pic_data2].
    destruct (pics d). reflexivity. }
  assert (ready d0) as Hr0 by (unfold ready; rewrite E0; cbn; repeat split; lia).
  pose proof (irq_clear_mask_spec Idt.IRQ_TM d0 Hr0 ltac:(vm_compute; split; congruence)) as E1.
  rewrite E0 in E1. change (Idt.IRQ_TM <? 8) with true in E1. cbn [fst snd] in E1.
  assert (ready (irq_clear_mask Idt.IRQ_TM d0)) as Hr1
    by (unfold ready; rewrite E1; repeat split; vm_compute; congruence).
  assert (0 <= Idt.IRQ_KB < 16) as irq_kb by (vm_compute; split; congruence).
  rewrite (irq_clear_mask_spec Idt.IRQ_KB _ Hr1 irq_kb), E1. reflexivity.
Qed.

Definition acknowledged (c : chip) : chip :=
  mk_chip (expect c) (vector c) (cascade c) (mask c) false.

Lemma eoi_spec irq d : pics (pic_8259_eoi irq d) =
  (acknowledged (pics d).1, if 8 <? irq then acknowledged (pics d).2 else (pics d).2).
Proof.
  unfold pic_8259_eoi.
  rewrite !port_write_out by (vm_compute; split; congruence).
  destruct (8 <? irq).
  - change PIC1_CMD with 0x20. change PIC2_CMD with 0xA0. by rewrite pic_cmd1, pic_cmd2.
  - change PIC1_CMD with 0x20. by rewrite pic_cmd1.
Qed.

(** [pic_8259_eoi] acknowledges the interrupt at every controller it went
    through, except IRQ 8, the first one of the second controller, which
    only the first controller is told about. *)
Theorem pic_8259_eoi_acknowledges irq d : 0 <= irq < 16 ->
  let through2 := 8 <=? irq in
  pics (pic_8259_eoi irq d) =
    (acknowledged (pics d).1,
     if through2 && negb (irq =? 8) then acknowledged (pics d).2 else (pics d).2).
Proof.
  intros Hi through2. rewrite eoi_spec. f_equal. unfold through2.
  destruct (Z.ltb_spec 8 irq), (Z.leb_spec 8 irq), (Z.eqb_spec irq 8); cbn; (done || lia).
Qed.
End properties.

(** ** Witnesses *)

(** The two chips alone, as a device. *)
#[local] Instance example_device : Device (chip * chip) :=
  {| dev_in p d := (if p =? 0x21 then mask d.1 else if p =? 0xA1 then mask d.2 else 0, d);
     dev_out p v d :=
       if p =? 0x20 then (chip_cmd v d.1, d.2)
       else if p =? 0xA0 then (d.1, chip_cmd v d.2)
       else if p =? 0x21 then (chip_data v d.1, d.2)
       else if p =? 0xA1 then (d.1, chip_data v d.2) else d |}.

#[local] Instance example_pic : Pic (chip * chip).
Proof.
  refine {| pics d := d |}; try (intros v d; reflexivity); intros d _; exists d; done.
Defined.

Definition example_pics : chip * chip :=
  (mk_chip Ready 0x20 4 0xFC true, mk_chip Ready 0x28 2 0xFF true).

Lemma example_ready : ready example_pics.
Proof. repeat split; vm_compute; congruence. Qed.

Lemma irq_masks_one_bit_witness :
  masked (irq_set_mask 1 example_pics) 1 = true /\
  masked (irq_clear_mask 9 example_pics) 9 = false.
Proof.
  destruct (irq_masks_one_bit 1 example_pics example_ready ltac:(lia)) as [[_ Hs] _].
  destruct (irq_masks_one_bit 9 example_pics example_ready ltac:(lia)) as [_ [_ Hc]].
  rewrite (Hs 1 ltac:(lia)), (Hc 9 ltac:(lia)). split; reflexivity.
Defined.

Lemma pic_8259_init_remaps_witness :
  pics (pic_8259_init PIC1_OFFSET PIC2_OFFSET example_pics) =
    (mk_chip Ready 0x20 4 0xFC false, mk_chip Ready 0x28 2 0xFF false).
Proof.
  exact (pic_8259_init_remaps PIC1_OFFSET PIC2_OFFSET example_pics ltac:(done) ltac:(done)).
Defined.

Lemma pic_8259_eoi_acknowledges_witness :
  serving (pics (pic_8259_eoi 8 example_pics)).2 = true.
Proof.
  rewrite (pic_8259_eoi_acknowledges 8 example_pics ltac:(lia)). reflexivity.
Defined.

End Pic.
