(* ===== verification/Preempt.v ===== *)
(** Hardware interrupts between the port accesses of the drivers.

    Once idt_init has run, the timer and the keyboard interrupt the code at any time.  Their
    handlers (timer_handler and keyboard_handler of kernel/isr.c) touch nothing but
    the interrupt controllers, so only the order with port accesses matters.  [preempted D] is
    the device [D] together with a schedule: the interrupts that are requested before each
    access.  It is a device itself; the drivers run on it unchanged, and it keeps the
    promises that the drivers rely on ([Pic], [Cmos]) when the chips do. *)

From Stdlib Require Import ZArith Lia Bool.
From stdpp Require Import base tactics numbers list option.
From S2P Require Import Prelude Port Desc Pic Rtc.

Local Open Scope Z_scope.

Module Preempt.
Import Pic Rtc.

(** ** The chips of the machine *)

Definition begin_service (c : chip) : chip := mk_chip (expect c) (vector c) (cascade c) (mask c) true.

(** The two interrupt controllers and the clock behind one bus.  [raise] is the
    delivery of an interrupt: the controller notes that it is served.  The
    clock keeps the register that was selected; the ports of one chip do not concern
    the other one. *)
Class Chipset (D : Type) `{Pic D} : Type :=
  { raise : Z -> D -> D;
    selected : D -> Z;
    registers : D -> Z -> Z;
    busy : D -> nat;
    raise_pics irq d : 0 <= irq < 8 -> pics (raise irq d) = (begin_service (pics d).1, (pics d).2);
    raise_clock irq d : selected (raise irq d) = selected d /\ registers (raise irq d) = registers d /\
      busy (raise irq d) = busy d;
    command_clock port v d : port = 0x20 \/ port = 0xA0 ->
      selected (dev_out port v d) = selected d /\ registers (dev_out port v d) = registers d /\
      busy (dev_out port v d) = busy d;
    select_clock v d : selected (dev_out 0x70 v d) = v /\ registers (dev_out 0x70 v d) = registers d /\
      busy (dev_out 0x70 v d) = busy d /\ pics (dev_out 0x70 v d) = pics d;
    read_clock d : selected d <> cmos_reg_A -> exists v d', dev_in 0x71 d = (v, d') /\
      u8 v = registers d (selected d) /\ registers d' = registers d /\ busy d' = busy d /\ pics d' = pics d;
    poll_clock d : selected d = cmos_reg_A -> exists v d', dev_in 0x71 d = (v, d') /\
      registers d' = registers d /\ pics d' = pics d /\
      match busy d with
      | O => Z.land (u8 v) 0x80 = 0 /\ busy d' = O
      | S _ => (busy d' < busy d)%nat
      end }.

(** ** Interrupts *)

Section interrupts.
Context {D : Type} `{Chipset D}.

(** The processor takes an interrupt of the two lines that the kernel enables, unless it is
    masked or an interrupt is being served. *)
Definition accepts (irq : Z) (d : D) : bool :=
  ((irq =? Idt.IRQ_TM) || (irq =? Idt.IRQ_KB)) && bool_decide (expect (pics d).1 = Ready) &&
  negb (serving (pics d).1) && negb (Z.testbit (mask (pics d).1) irq).

(** A request: the handler runs to its end, as its gate masks interrupts. *)
Definition request (irq : Z) (d : D) : D :=
  if accepts irq d then
    let d := raise irq d in
    if irq =? Idt.IRQ_TM then timer_handler d else keyboard_handler d
  else d.
Definition requests (irqs : list Z) (d : D) : D := fold_left (fun d irq => request irq d) irqs d.

Lemma chip_served c : serving c = false -> acknowledged (begin_service c) = c.
Proof. by destruct c as [e v ca m s]; cbn; intros ->. Qed.

(** Handling an interrupt leaves every chip as it was. *)
Lemma request_keeps irq d : pics (request irq d) = pics d /\ selected (request irq d) = selected d /\
  registers (request irq d) = registers d /\ busy (request irq d) = busy d.
Proof.
  unfold request. destruct (accepts irq d) eqn:Ha; [| done].
  unfold accepts in Ha. rewrite !andb_true_iff, orb_true_iff, !Z.eqb_eq, !negb_true_iff in Ha.
  destruct Ha as [[[Hirq _] Hserving] _].
  assert (forall i, 0 <= i < 8 -> pics (pic_8259_eoi i (raise irq d)) = pics d /\
    selected (pic_8259_eoi i (raise irq d)) = selected d /\
    registers (pic_8259_eoi i (raise irq d)) = registers d /\ busy (pic_8259_eoi i (raise irq d)) = busy d) as Heoi.
  { intros i Hi. split.
    - rewrite eoi_spec, raise_pics by (destruct Hirq as [-> | ->]; done).
      cbn [fst snd]. rewrite (proj2 (Z.ltb_ge 8 i)), chip_served by (done || lia). by destruct (pics d).
    - unfold pic_8259_eoi. rewrite (proj2 (Z.ltb_ge 8 i)) by lia. unfold port_write_u8.
      destruct (raise_clock irq d) as (Es & Er & Eb).
      destruct (command_clock PIC1_CMD (u8 PIC_EOI) (raise irq d) (or_introl eq_refl)) as (Es' & Er' & Eb').
      rewrite Es', Er', Eb'. done. }
  destruct (irq =? Idt.IRQ_TM); by apply Heoi.
Qed.

Lemma requests_keep irqs : forall d, pics (requests irqs d) = pics d /\ selected (requests irqs d) = selected d /\
  registers (requests irqs d) = registers d /\ busy (requests irqs d) = busy d.
Proof.
  induction irqs as [| irq irqs IH]; intros d; [done |]. unfold requests in *. cbn [fold_left].
  destruct (IH (request irq d)) as (E1 & E2 & E3 & E4), (request_keeps irq d) as (F1 & F2 & F3 & F4).
  repeat split; congruence.
Qed.

(** The bus keeps what the driver of the clock relies on. *)
Lemma chipset_read d r : 0 <= r < 256 -> r <> cmos_reg_A -> exists d',
  rtc_get_reg r d = (registers d r, d') /\ registers d' = registers d /\ busy d' = busy d /\ pics d' = pics d.
Proof.
  intros Hr Hne. unfold rtc_get_reg, port_read_u8, port_write_u8. rewrite u8_small by done.
  change cmos_addr with 0x70. change cmos_data with 0x71.
  destruct (select_clock r d) as (Es & Er & Eb & Ep).
  destruct (read_clock (dev_out 0x70 r d)) as (v & d' & -> & Ev & Er' & Eb' & Ep'); [by rewrite Es |].
  exists d'. rewrite Ev, Es, Er. repeat split; congruence.
Qed.
End interrupts.

(** ** The device with its interrupts *)

Record preempted (D : Type) : Type := mk_preempted { base : D; schedule : list (list Z) }.
Arguments mk_preempted {D} base schedule.
Arguments base {D} p.
Arguments schedule {D} p.

Section preempted_device.
Context {D : Type} `{Chipset D}.

(** The requests before the next access are handled. *)
Definition arrive (p : preempted D) : preempted D :=
  match schedule p with
  | [] => p
  | irqs :: later => mk_preempted (requests irqs (base p)) later
  end.

#[export] Instance preempted_device : Device (preempted D) :=
  {| dev_in port p := let p := arrive p in let (v, d) := dev_in port (base p) in (v, mk_preempted d (schedule p));
     dev_out port v p := let p := arrive p in mk_preempted (dev_out port v (base p)) (schedule p) |}.

Lemma arrive_keeps p : pics (base (arrive p)) = pics (base p) /\ selected (base (arrive p)) = selected (base p) /\
  registers (base (arrive p)) = registers (base p) /\ busy (base (arrive p)) = busy (base p).
Proof. unfold arrive. destruct (schedule p); [done | apply requests_keep]. Qed.

(** The controllers keep their promises, ... *)
#[export] Instance preempted_pic : Pic (preempted D).
Proof.
  refine {| pics p := pics (base p) |}; intros.
  - cbn [dev_out preempted_device base]. rewrite pic_cmd1. by rewrite (proj1 (arrive_keeps d)).
  - cbn [dev_out preempted_device base]. rewrite pic_cmd2. by rewrite (proj1 (arrive_keeps d)).
  - cbn [dev_out preempted_device base]. rewrite pic_data1. by rewrite (proj1 (arrive_keeps d)).
  - cbn [dev_out preempted_device base]. rewrite pic_data2. by rewrite (proj1 (arrive_keeps d)).
  - cbn [dev_in preempted_device]. pose proof (proj1 (arrive_keeps d)) as Ep.
    destruct (pic_mask1 (base (arrive d))) as (d' & -> & E); [by rewrite Ep |].
    rewrite Ep. eexists. split; [reflexivity |]. cbn [base]. congruence.
  - cbn [dev_in preempted_device]. pose proof (proj1 (arrive_keeps d)) as Ep.
    destruct (pic_mask2 (base (arrive d))) as (d' & -> & E); [by rewrite Ep |].
    rewrite Ep. eexists. split; [reflexivity |]. cbn [base]. congruence.
Defined.

(** ... and so does the clock. *)
#[export] Instance preempted_cmos : Cmos (preempted D).
Proof.
  refine {| cmos_reg p := registers (base p); cmos_busy p := busy (base p) |}.
  - intros p r Hr Hne. unfold rtc_get_reg, port_read_u8, port_write_u8. rewrite u8_small by done.
    change cmos_addr with 0x70. change cmos_data with 0x71. cbn [dev_in dev_out preempted_device].
    set (p1 := mk_preempted (dev_out 0x70 r (base (arrive p))) (schedule (arrive p))).
    destruct (arrive_keeps p) as (_ & _ & Er & Eb), (select_clock r (base (arrive p))) as (Es1 & Er1 & Eb1 & _).
    destruct (arrive_keeps p1) as (_ & Es2 & Er2 & Eb2). cbn [p1 base] in Es2, Er2, Eb2.
    destruct (read_clock (base (arrive p1))) as (v & d' & -> & Ev & Er3 & Eb3 & _); [congruence |].
    eexists. rewrite Ev, Es2, Es1, Er2, Er1, Er. split; [reflexivity |]. cbn [base]. split; congruence.
  - intros p. unfold rtc_get_reg, port_read_u8, port_write_u8.
    change cmos_addr with 0x70. change cmos_data with 0x71. change (u8 cmos_reg_A) with cmos_reg_A.
    cbn [dev_in dev_out preempted_device].
    set (p1 := mk_preempted (dev_out 0x70 cmos_reg_A (base (arrive p))) (schedule (arrive p))).
    destruct (arrive_keeps p) as (_ & _ & Er & Eb), (select_clock cmos_reg_A (base (arrive p))) as (Es1 & Er1 & Eb1 & _).
    destruct (arrive_keeps p1) as (_ & Es2 & Er2 & Eb2). cbn [p1 base] in Es2, Er2, Eb2.
    destruct (poll_clock (base (arrive p1))) as (v & d' & -> & Er3 & _ & Hb); [congruence |].
    rewrite Eb2, Eb1, Eb in Hb. eexists _, _. split; [reflexivity |]. cbn [base]. split; [congruence | exact Hb].
Defined.
End preempted_device.

(** ** Properties *)

Section properties.
Context {D : Type} `{Chipset D}.

(** C36: Every interrupt that is delivered is acknowledged by its handler: whatever was
    requested, the controllers come out as they went in, with no interrupt being served,
    so that they take the next one. *)
Theorem interrupts_acknowledged irqs (d : D) :
  pics (requests irqs d) = pics d /\ forall irq, accepts irq (requests irqs d) = accepts irq d.
Proof.
  destruct (requests_keep irqs d) as (E & _). split; [done |]. intros irq. unfold accepts. by rewrite E.
Qed.

(** The clock is read right although the timer and the keyboard interrupt the driver
    between any two of its port accesses, also between the selection of a register and the
    read of its value: the timestamp is the one of the date on the chip. *)
Theorem rtc_timestamp_preempted (p : preempted D) t fuel :
  valid t -> shows p t -> (busy (base p) + 2 <= fuel)%nat ->
  mode24 (registers (base p) cmos_reg_B) = true \/ d_hour t mod 12 <> 0 ->
  exists p', rtc_get_timestamp fuel p =
    Ok (u32 (epoch_seconds (d_year t) (d_mon t) (d_day t) (d_hour t) (d_min t) (d_sec t)), p').
Proof. exact (rtc_timestamp_ok p t fuel). Qed.

(** An interrupt between the
    read of a mask register and its write changes no mask bit but the one of the
    IRQ. *)
Theorem irq_masks_preempted irq (p : preempted D) : ready p -> 0 <= irq < 16 ->
  (forall j, 0 <= j < 16 -> masked (irq_set_mask irq p) j = (j =? irq) || masked p j) /\
  (forall j, 0 <= j < 16 -> masked (irq_clear_mask irq p) j = negb (j =? irq) && masked p j).
Proof. intros Hr Hi. destruct (irq_masks_ok irq p Hr Hi) as [[_ Hs] [_ Hc]]. by split. Qed.
End properties.

(** ** Witnesses *)

(** Two controllers and the clock of Rtc.v. *)
Record example_bus : Type := mk_bus { b_pics : chip * chip; b_clock : example_chip }.

#[local] Instance bus_device : Device example_bus :=
  {| dev_in p d :=
       if p =? 0x71 then
         if Rtc.selected (b_clock d) =? cmos_reg_A
         then (match left (b_clock d) with O => 0 | S _ => 0x80 end,
               mk_bus (b_pics d) (mk_example_chip (Rtc.selected (b_clock d)) (Rtc.registers (b_clock d)) (Nat.pred (left (b_clock d)))))
         else (Rtc.registers (b_clock d) (Rtc.selected (b_clock d)) mod 256, d)
       else (if p =? 0x21 then mask (b_pics d).1 else if p =? 0xA1 then mask (b_pics d).2 else 0, d);
     dev_out p v d :=
       let (c1, c2) := b_pics d in
       if p =? 0x70 then mk_bus (c1, c2) (mk_example_chip v (Rtc.registers (b_clock d)) (left (b_clock d)))
       else if p =? 0x20 then mk_bus (chip_cmd v c1, c2) (b_clock d)
       else if p =? 0xA0 then mk_bus (c1, chip_cmd v c2) (b_clock d)
       else if p =? 0x21 then mk_bus (chip_data v c1, c2) (b_clock d)
       else if p =? 0xA1 then mk_bus (c1, chip_data v c2) (b_clock d)
       else d |}.

#[local] Instance bus_pic : Pic example_bus.
Proof.
  refine {| pics := b_pics |}; try (by intros v [[c1 c2] k]); intros [[c1 c2] k] _; by eexists.
Defined.

#[local] Instance bus_chipset : Chipset example_bus.
Proof.
  refine {| raise irq d := mk_bus (begin_service (b_pics d).1, (b_pics d).2) (b_clock d);
            selected d := Rtc.selected (b_clock d);
            registers d r := Rtc.registers (b_clock d) r mod 256;
            busy d := left (b_clock d) |}.
  - done.
  - done.
  - by intros port v [[c1 c2] k] [-> | ->].
  - by intros v [[c1 c2] k].
  - intros [[c1 c2] [s r n]] Hne. cbn in Hne. cbn [dev_in bus_device Rtc.selected b_clock].
    rewrite (proj2 (Z.eqb_neq _ _) Hne). eexists _, _. split; [reflexivity |].
    split; [unfold u8; by rewrite Z.mod_mod | done].
  - intros [[c1 c2] [s r n]] He. cbn in He. subst s. eexists _, _. split; [reflexivity |].
    split; [done |]. split; [done |]. destruct n; cbn; [done | lia].
Defined.

(** 3 May 2024, 17:04:09, with the timer and the keyboard active. *)
Definition busy_bus : preempted example_bus :=
  mk_preempted (mk_bus (mk_chip Ready 0x20 4 0xFC false, mk_chip Ready 0x28 2 0xFF false) chip24)
    [[0; 1]; [0]; []; [1; 0; 1]; [0]; [1]].

Lemma rtc_timestamp_preempted_witness : exists p, rtc_get_timestamp 5 busy_bus = Ok (1714755849, p).
Proof.
  exact (rtc_timestamp_preempted busy_bus (example_date 17) 5 (example_valid 17 ltac:(lia))
    ltac:(vm_compute; repeat split) (le_n _) (or_introl eq_refl)).
Defined.

Lemma irq_masks_preempted_witness : masked (irq_set_mask 1 busy_bus) 1 = true.
Proof.
  rewrite (proj1 (irq_masks_preempted 1 busy_bus ltac:(split; [reflexivity | split; [reflexivity | split; vm_compute; split; congruence]]) ltac:(lia)) 1 ltac:(lia)).
  reflexivity.
Defined.

(** The handlers run: both lines were served. *)
Example requests_served : base (arrive busy_bus) = base busy_bus /\ accepts 0 (base busy_bus) = true.
Proof. split; reflexivity. Qed.

End Preempt.

