(* ===== verification/Paging.v ===== *)
(** Page table entries and the boot page tables: include/kernel/paging.h,
    kernel/memory/paging.c and kernel/boot_init.c.

    The memory is the list of its bytes from physical address 0, as in Mem; an
    entry is a little-endian word of it, and its bit-fields are read and
    written in place.  [translate] is the processor's page walk. *)

From Stdlib Require String.
From Stdlib Require Import ZArith Lia Bool.
From stdpp Require Import base tactics numbers list option.
From S2P Require Import Prelude Logic Mem Kpm.

Local Open Scope Z_scope.

Module Paging.

Local Abbreviation mem := (list Z).

(** ** paging.h *)

Definition PAGE_DIRECTORY_LENGTH : Z := 1024.
Definition PAGE_TABLE_LENGTH : Z := PAGE_DIRECTORY_LENGTH.
Definition LAST_PAGE_ENTRY : Z := PAGE_DIRECTORY_LENGTH - 1.
Definition sizeof_page_entry : Z := 4.

Definition load32 (m : mem) (p : Z) : result Z :=
  b0 ← rd m p; b1 ← rd m (p + 1); b2 ← rd m (p + 2); b3 ← rd m (p + 3);
  Ok (b0 + b1 * 2 ^ 8 + b2 * 2 ^ 16 + b3 * 2 ^ 24).

Definition store32 (m : mem) (p v : Z) : result mem :=
  m ← wr m p (u8 v);
  m ← wr m (p + 1) (u8 (v / 2 ^ 8));
  m ← wr m (p + 2) (u8 (v / 2 ^ 16));
  wr m (p + 3) (u8 (v / 2 ^ 24)).

(** The bit-fields of struct page_entry: offset and width. *)
Inductive page_field : Type :=
  | present | writable | user | write_through | cache_disable | accessed | specific
  | avl_3 | avl_4 | avl_5 | address.
Definition field_offset (f : page_field) : Z :=
  match f with
  | present => 0 | writable => 1 | user => 2 | write_through => 3 | cache_disable => 4
  | accessed => 5 | specific => 6 | avl_3 => 9 | avl_4 => 10 | avl_5 => 11 | address => 12
  end.
Definition field_width (f : page_field) : Z :=
  match f with specific => 3 | address => 20 | _ => 1 end.

(** [pe->f = v] *)
Definition set_field (m : mem) (pe : Z) (f : page_field) (v : Z) : result mem :=
  x ← load32 m pe;
  let ones := Z.ones (field_width f) in
  store32 m pe (Z.lor (Z.land x (Z.lnot (Z.shiftl ones (field_offset f))))
                      (Z.shiftl (Z.land v ones) (field_offset f))).

(** The two other layouts of an entry, which name the bits the processor uses in a
    directory and in a table: the fields with their widths in the order of declaration. *)
Module Layouts.
Import Stdlib.Strings.String.
Local Open Scope string_scope.

Definition page_entry : list (string * Z) :=
  [("present", 1); ("writable", 1); ("user", 1); ("write_through", 1); ("cache_disable", 1);
   ("accessed", 1); ("specific", 3); ("avl_3", 1); ("avl_4", 1); ("avl_5", 1); ("address", 20)].
Definition page_directory_entry : list (string * Z) :=
  [("present", 1); ("writable", 1); ("user", 1); ("write_through", 1); ("cache_disable", 1);
   ("accessed", 1); ("avl_1", 1); ("page_size", 1); ("avl_2", 1); ("avl_3", 1); ("avl_4", 1);
   ("avl_5", 1); ("address", 20)].
Definition page_table_entry : list (string * Z) :=
  [("present", 1); ("writable", 1); ("user", 1); ("write_through", 1); ("cache_disable", 1);
   ("accessed", 1); ("dirty", 1); ("page_attribute_table", 1); ("global", 1); ("avl_3", 1);
   ("avl_4", 1); ("avl_5", 1); ("address", 20)].

(** Bit-fields are allocated from the lowest bit on: offset and width of a field. *)
Fixpoint place (name : string) (o : Z) (l : list (string * Z)) : option (Z * Z) :=
  match l with
  | [] => None
  | (n, w) :: l => if String.eqb n name then Some (o, w) else place name (o + w) l
  end.
Definition width (l : list (string * Z)) : Z := fold_right (fun '(_, w) s => w + s) 0 l.

Definition name_of (f : page_field) : string :=
  match f with
  | present => "present" | writable => "writable" | user => "user"
  | write_through => "write_through" | cache_disable => "cache_disable" | accessed => "accessed"
  | specific => "specific" | avl_3 => "avl_3" | avl_4 => "avl_4" | avl_5 => "avl_5"
  | address => "address"
  end.

(** All layouts fill a word, and what is written through struct page_entry, apart from the
    three bits that differ, is read the same way through the other two. *)
Lemma layouts_agree f :
  place (name_of f) 0 page_entry = Some (field_offset f, field_width f) /\
  (f <> specific -> place (name_of f) 0 page_directory_entry = Some (field_offset f, field_width f) /\
    place (name_of f) 0 page_table_entry = Some (field_offset f, field_width f)) /\
  map width [page_entry; page_directory_entry; page_table_entry] = [32; 32; 32].
Proof. by destruct f. Qed.
End Layouts.

(** ** paging.c *)

Definition page_init (m : mem) (pe addr w u : Z) : result mem :=
  m ← store32 m pe 0;
  m ← set_field m pe present 1;
  m ← set_field m pe writable w;
  m ← set_field m pe user u;
  set_field m pe address (Z.shiftr (u32 addr) 12).

Definition page_clear (m : mem) (pe : Z) : result mem := store32 m pe 0.

(** ** boot_init.c *)

Definition boot_directory : Z := 0x1000.
Definition boot_table : Z := 0x2000.

(** The result is the memory and the value loaded into [cr3]. *)
Definition boot_init (m : mem) : result (mem * Z) :=
  let page_directory := boot_directory in
  let page_table1 := boot_table in
  m ← Mem.memset m page_directory 0 PAGE_DIRECTORY_LENGTH;
  m ← page_init m (page_directory + LAST_PAGE_ENTRY * sizeof_page_entry) page_directory 1 0;
  m ← Mem.memset m page_directory 0 PAGE_DIRECTORY_LENGTH;
  m ← for_loop (Z.to_nat PAGE_TABLE_LENGTH) 0 (fun pindex m =>
        page_init m (page_table1 + pindex * sizeof_page_entry)
          (u32 (pindex * Kpm.PAGE_SIZE)) 1 0) m;
  m ← page_init m page_directory page_table1 1 0;
  m ← page_init m
        (page_directory + Z.shiftr Kpm.KERNEL_VIRT_OFFSET 22 * sizeof_page_entry)
        page_table1 1 0;
  Ok (m, page_directory).

(** ** Words of the memory *)

Definition word (m : mem) (p : Z) : Z :=
  at_ 0 m p + at_ 0 m (p + 1) * 2 ^ 8 + at_ 0 m (p + 2) * 2 ^ 16 + at_ 0 m (p + 3) * 2 ^ 24.

(** [m'] is [m] with the word [v] at [p]. *)
Definition word_set (m m' : mem) (p v : Z) : Prop :=
  zlen m' = zlen m /\ word m' p = v /\
  forall i, 0 <= i -> ~ (p <= i < p + 4) -> at_ 0 m' i = at_ 0 m i.

Lemma load32_ok m p : Mem.range_in m p 4 -> load32 m p = Ok (word m p).
Proof.
  intros (H0 & _ & H1). unfold load32. rewrite !(rd_ok 0) by lia. reflexivity.
Qed.

Lemma store32_ok m p v : Mem.range_in m p 4 ->
  exists m', store32 m p v = Ok m' /\ word_set m m' p (u32 v).
Proof.
  intros (H0 & _ & H1). unfold store32.
  rewrite wr_ok by lia. cbn [mbind result_bind].
  do 3 (rewrite wr_ok by (rewrite ?zlen_insert; lia); cbn [mbind result_bind]).
  eexists. split; [reflexivity |]. unfold word_set, word.
  split; [by rewrite !zlen_insert |]. split.
  - rewrite !at_insert by (rewrite ?zlen_insert; lia). Mem.inrange.
    unfold u8, u32. change (2 ^ 8) with 256. change (2 ^ 16) with 65536.
    change (2 ^ 24) with 16777216. dlia.
  - intros i Hi Hout. rewrite !at_insert by (rewrite ?zlen_insert; lia). Mem.inrange.
Qed.

Lemma word_set_range m m' p v q n : word_set m m' p v ->
  Mem.range_in m q n -> Mem.range_in m' q n.
Proof. intros (Hl & _) H. unfold Mem.range_in in *. by rewrite Hl. Qed.

Lemma word_set_other m m' p v q : word_set m m' p v -> 0 <= q -> q + 4 <= p \/ p + 4 <= q ->
  word m' q = word m q.
Proof. intros (_ & _ & Hf) Hq Hd. unfold word. rewrite !Hf by lia. done. Qed.

Lemma word_set_trans m m' m'' p v w : word_set m m' p v -> word_set m' m'' p w ->
  word_set m m'' p w.
Proof.
  intros (L1 & _ & F1) (L2 & W & F2). split; [congruence |]. split; [done |].
  intros i Hi Hout. by rewrite F2, F1.
Qed.

(** The value of a word after a bit-field was written. *)
Definition with_field (x : Z) (f : page_field) (v : Z) : Z :=
  u32 (Z.lor (Z.land x (Z.lnot (Z.shiftl (Z.ones (field_width f)) (field_offset f))))
             (Z.shiftl (Z.land v (Z.ones (field_width f))) (field_offset f))).

Lemma set_field_ok m p f v : Mem.range_in m p 4 ->
  exists m', set_field m p f v = Ok m' /\ word_set m m' p (with_field (word m p) f v).
Proof.
  intros Hr. unfold set_field. rewrite load32_ok by done. cbn [mbind result_bind].
  by apply store32_ok.
Qed.

(** The entry [page_init] builds. *)
Definition entry (addr w u : Z) : Z := addr / 4096 * 4096 + u mod 2 * 4 + w mod 2 * 2 + 1.

Lemma land_1 x : Z.land x (Z.ones 1) = x mod 2.
Proof. apply (Z.land_ones x 1). lia. Qed.

Lemma entry_fields addr w u : 0 <= addr < 2 ^ 32 ->
  with_field (with_field (with_field (with_field 0 present 1) writable w) user u) address
    (Z.shiftr addr 12) = entry addr w u.
Proof.
  intros Ha. unfold with_field at 2 3 4. cbn [field_width field_offset].
  rewrite !land_1. unfold entry.
  assert (addr / 4096 * 4096 = Z.shiftl (Z.land (Z.shiftr addr 12) (Z.ones 20)) 12) as ->.
  { rewrite Z.land_ones, Z.shiftl_mul_pow2, Z.shiftr_div_pow2 by lia.
    change (2 ^ 12) with 4096. change (2 ^ 20) with 1048576. dlia. }
  assert (exists k, 0 <= k < 1048576 /\ Z.land (Z.shiftr addr 12) (Z.ones 20) = k) as (k & Hk & E).
  { eexists. split; [| reflexivity]. rewrite Z.land_ones by lia. apply Z.mod_pos_bound. lia. }
  unfold with_field. cbn [field_width field_offset]. rewrite E. clear E.
  assert (w mod 2 = 0 \/ w mod 2 = 1) as Hw by dlia.
  assert (u mod 2 = 0 \/ u mod 2 = 1) as Hu by dlia.
  assert (forall x, 0 <= x < 4096 ->
            u32 (Z.lor (Z.land x (Z.lnot (Z.shiftl (Z.ones 20) 12))) (Z.shiftl k 12)) =
            Z.shiftl k 12 + x) as Hlor.
  { intros x Hx. rewrite <- Z.ldiff_land, (Z.shiftl_mul_pow2 k) by lia.
    assert (Z.ldiff x (Z.shiftl (Z.ones 20) 12) = x) as ->.
    { apply Z.bits_inj'. intros j Hj. rewrite Z.ldiff_spec, Z.shiftl_spec by lia.
      destruct (Z.lt_ge_cases j 12).
      - rewrite (Z.testbit_neg_r _ (j - 12)) by lia. apply andb_true_r.
      - replace x with (x mod 2 ^ 12) by (apply Z.mod_small; cbn; lia).
        by rewrite Z.mod_pow2_bits_high by lia. }
    rewrite <- Z.lxor_lor, <- Z.add_nocarry_lxor, Z.add_comm.
    - apply u32_small. change (2 ^ 12) with 4096. lia.
    - apply Z.bits_inj'. intros j Hj. rewrite Z.land_spec, Z.bits_0.
      destruct (Z.lt_ge_cases j 12).
      + by rewrite Z.mul_pow2_bits_low, andb_false_r by lia.
      + replace x with (x mod 2 ^ 12) by (apply Z.mod_small; cbn; lia).
        by rewrite Z.mod_pow2_bits_high by lia.
    - apply Z.bits_inj'. intros j Hj. rewrite Z.land_spec, Z.bits_0.
      destruct (Z.lt_ge_cases j 12).
      + by rewrite Z.mul_pow2_bits_low, andb_false_r by lia.
      + replace x with (x mod 2 ^ 12) by (apply Z.mod_small; cbn; lia).
        by rewrite Z.mod_pow2_bits_high by lia. }
  destruct Hw as [-> | ->], Hu as [-> | ->];
    match goal with |- u32 (Z.lor (Z.land ?x _) _) = _ =>
      let v := eval vm_compute in x in change x with v end;
    rewrite Hlor by lia; lia.
Qed.

Lemma page_init_ok m pe addr w u : Mem.range_in m pe 4 ->
  exists m', page_init m pe addr w u = Ok m' /\ word_set m m' pe (entry (u32 addr) w u).
Proof.
  intros Hr. unfold page_init.
  destruct (store32_ok m pe 0 Hr) as (m1 & -> & S1). cbn [mbind result_bind].
  pose proof (word_set_range _ _ _ _ _ _ S1 Hr) as R1.
  destruct (set_field_ok m1 pe present 1 R1) as (m2 & -> & S2). cbn [mbind result_bind].
  pose proof (word_set_range _ _ _ _ _ _ S2 R1) as R2.
  destruct (set_field_ok m2 pe writable w R2) as (m3 & -> & S3). cbn [mbind result_bind].
  pose proof (word_set_range _ _ _ _ _ _ S3 R2) as R3.
  destruct (set_field_ok m3 pe user u R3) as (m4 & -> & S4). cbn [mbind result_bind].
  pose proof (word_set_range _ _ _ _ _ _ S4 R3) as R4.
  destruct (set_field_ok m4 pe address (Z.shiftr (u32 addr) 12) R4) as (m5 & E5 & S5).
  exists m5. split; [done |].
  pose proof (proj1 (proj2 S1)) as W1. pose proof (proj1 (proj2 S2)) as W2.
  pose proof (proj1 (proj2 S3)) as W3. pose proof (proj1 (proj2 S4)) as W4.
  rewrite W4, W3, W2, W1 in S5. change (u32 0) with 0 in S5.
  rewrite entry_fields in S5 by apply u32_range.
  eauto using word_set_trans.
Qed.

(** ** The page walk *)

Definition translate (m : mem) (cr3 va : Z) : option Z :=
  let pde := word m (cr3 + va / 2 ^ 22 * 4) in
  if Z.odd pde then
    let pte := word m (pde / 4096 * 4096 + va / 4096 mod 1024 * 4) in
    if Z.odd pte then Some (pte / 4096 * 4096 + va mod 4096) else None
  else None.

(** ** The boot tables *)

Lemma word_ext m m' p : (forall k, 0 <= k < 4 -> at_ 0 m' (p + k) = at_ 0 m (p + k)) ->
  word m' p = word m p.
Proof.
  intros H. unfold word. pose proof (H 0 ltac:(lia)) as H0. rewrite Z.add_0_r in H0.
  by rewrite H0, !H by lia.
Qed.

Lemma word_memset m m' s c n p : Mem.updated m m' s n (fun _ => c) ->
  0 <= p -> (s <= p /\ p + 4 <= s + n -> word m' p = c * 16843009) /\
            (p + 4 <= s \/ s + n <= p -> word m' p = word m p).
Proof.
  intros [_ Hu] Hp. split; intros Hr.
  - unfold word. rewrite !Hu by lia. Mem.inrange.
  - apply word_ext. intros k Hk. rewrite Hu by lia. Mem.inrange.
Qed.

(** The loop over the page table. *)
Lemma table_loop m : 0x3000 <= zlen m ->
  exists m', for_loop (Z.to_nat PAGE_TABLE_LENGTH) 0 (fun pindex m =>
      page_init m (boot_table + pindex * sizeof_page_entry)
        (u32 (pindex * Kpm.PAGE_SIZE)) 1 0) m = Ok m' /\ zlen m' = zlen m /\
    (forall i, 0 <= i < 1024 -> word m' (boot_table + i * 4) = i * 4096 + 3) /\
    (forall p, 0 <= p -> p + 4 <= boot_table -> word m' p = word m p).
Proof.
  intros Hlen. unfold boot_table, sizeof_page_entry, Kpm.PAGE_SIZE.
  destruct (for_loop_inv (fun j t => zlen t = zlen m /\
      (forall i, 0 <= i < j -> word t (0x2000 + i * 4) = i * 4096 + 3) /\
      (forall p, 0 <= p -> p + 4 <= 0x2000 -> word t p = word m p))
    (Z.to_nat PAGE_TABLE_LENGTH)
    (fun pindex m => page_init m (0x2000 + pindex * 4) (u32 (pindex * 4096)) 1 0) 0 m)
    as (m' & E & Hl & Hw & Hf).
  - split; [done |]. split; [lia | done].
  - intros j t Hj (Hl & Hw & Hf). change (0 + Z.of_nat (Z.to_nat PAGE_TABLE_LENGTH)) with 1024 in Hj.
    destruct (page_init_ok t (0x2000 + j * 4) (u32 (j * 4096)) 1 0) as (t' & E & S).
    { unfold Mem.range_in. lia. }
    exists t'. split; [done |]. pose proof S as (L & W & _). split; [congruence |]. split.
    + intros i Hi. destruct (Z.eq_dec i j) as [-> | Hne].
      * rewrite W, !u32_small by (rewrite ?u32_small; lia). unfold entry.
        change (0 mod 2) with 0. change (1 mod 2) with 1. dlia.
      * rewrite (word_set_other _ _ _ _ _ S) by lia. apply Hw. lia.
    + intros p Hp1 Hp2. rewrite (word_set_other _ _ _ _ _ S) by lia. by apply Hf.
  - exists m'. change (0 + Z.of_nat (Z.to_nat PAGE_TABLE_LENGTH)) with 1024 in *. auto.
Qed.

(** The directory and the table that [boot_init] leaves. *)
Definition boot_tables (m m' : mem) : Prop :=
  (forall i, 0 <= i < 1024 -> word m' (boot_table + i * 4) = i * 4096 + 3) /\
  word m' boot_directory = boot_table + 3 /\
  word m' (boot_directory + 768 * 4) = boot_table + 3 /\
  word m' (boot_directory + 1023 * 4) = boot_directory + 3 /\
  (forall i, 1 <= i < 256 -> word m' (boot_directory + i * 4) = 0) /\
  (forall i, 256 <= i < 1023 -> i <> 768 ->
     word m' (boot_directory + i * 4) = word m (boot_directory + i * 4)).

Lemma boot_init_spec m : 0x3000 <= zlen m ->
  exists m', boot_init m = Ok (m', boot_directory) /\ zlen m' = zlen m /\ boot_tables m m'.
Proof.
  intros Hlen. unfold boot_init, boot_tables.
  change PAGE_DIRECTORY_LENGTH with 1024. change LAST_PAGE_ENTRY with 1023.
  change (Z.shiftr Kpm.KERNEL_VIRT_OFFSET 22) with 768.
  change (1023 * sizeof_page_entry) with (1023 * 4).
  change (768 * sizeof_page_entry) with (768 * 4).
  change boot_directory with 0x1000.
  destruct (Mem.memset_spec m 0x1000 0 1024) as (m1 & -> & U1); [unfold Mem.range_in; lia |].
  cbn [mbind result_bind]. pose proof (proj1 U1) as L1.
  destruct (page_init_ok m1 (0x1000 + 1023 * 4) 0x1000 1 0) as (m2 & -> & S2);
    [unfold Mem.range_in; lia |].
  cbn [mbind result_bind]. pose proof (proj1 S2) as L2.
  destruct (Mem.memset_spec m2 0x1000 0 1024) as (m3 & -> & U3); [unfold Mem.range_in; lia |].
  cbn [mbind result_bind]. pose proof (proj1 U3) as L3.
  destruct (table_loop m3) as (m4 & -> & L4 & T4 & F4); [lia |].
  cbn [mbind result_bind]. unfold boot_table in *.
  destruct (page_init_ok m4 0x1000 0x2000 1 0) as (m5 & -> & S5); [unfold Mem.range_in; lia |].
  cbn [mbind result_bind]. pose proof (proj1 S5) as L5.
  destruct (page_init_ok m5 (0x1000 + 768 * 4) 0x2000 1 0) as (m6 & -> & S6);
    [unfold Mem.range_in; lia |].
  cbn [mbind result_bind]. pose proof (proj1 S6) as L6.
  exists m6. split; [done |]. split; [congruence |].
  assert (forall p, 0 <= p -> p + 4 <= 0x1000 \/ 0x1004 <= p ->
            p + 4 <= 0x1c00 \/ 0x1c04 <= p -> word m6 p = word m4 p) as H64.
  { intros p Hp H5 H6. rewrite (word_set_other _ _ _ _ _ S6), (word_set_other _ _ _ _ _ S5); lia. }
  assert (forall p, 0x1400 <= p -> p + 4 <= 0x2000 -> word m4 p = word m2 p) as H42.
  { intros p H1 H2. rewrite F4 by lia. apply (word_memset _ _ _ _ _ p U3); lia. }
  split; [| split; [| split; [| split; [| split]]]].
  - intros i Hi. rewrite H64 by lia. by apply T4.
  - rewrite (word_set_other _ _ _ _ _ S6) by lia. apply S5.
  - apply S6.
  - rewrite H64, H42 by lia. apply S2.
  - intros i Hi. rewrite H64, F4 by lia.
    rewrite (proj1 (word_memset _ _ _ _ _ (0x1000 + i * 4) U3 ltac:(lia))) by lia. done.
  - intros i Hi Hne. rewrite H64, H42, (word_set_other _ _ _ _ _ S2) by lia.
    apply (word_memset _ _ _ _ _ _ U1); lia.
Qed.

(** Nothing behind the two tables is written. *)
Definition behind_kept (m m' : mem) : Prop :=
  zlen m' = zlen m /\ forall i, 0x3000 <= i -> at_ 0 m' i = at_ 0 m i.

Lemma behind_page_init m t pe addr w u : 0x3000 <= zlen m -> behind_kept m t -> 0 <= pe -> pe + 4 <= 0x3000 ->
  yields (page_init t pe addr w u) (behind_kept m).
Proof.
  intros Hm [Hl Hf] H0 Hpe. destruct (page_init_ok t pe addr w u) as (t' & -> & L & _ & F).
  { unfold Mem.range_in. lia. }
  apply yields_ok. split; [congruence |]. intros i Hi. rewrite F by lia. by apply Hf.
Qed.

Lemma behind_memset m t s c n : 0x3000 <= zlen m -> behind_kept m t -> 0 <= s -> 0 <= n -> s + n <= 0x3000 ->
  yields (Mem.memset t s c n) (behind_kept m).
Proof.
  intros Hm [Hl Hf] H0 Hn Hs. destruct (Mem.memset_spec t s c n) as (t' & -> & L & F).
  { unfold Mem.range_in. lia. }
  apply yields_ok. split; [congruence |]. intros i Hi. rewrite F by lia.
  destruct (Z.ltb_spec i (s + n)); [lia |]. rewrite andb_false_r. by apply Hf.
Qed.

Lemma boot_init_behind m : 0x3000 <= zlen m -> yields (boot_init m) (fun '(m', _) => behind_kept m m').
Proof.
  intros Hm. unfold boot_init. change PAGE_DIRECTORY_LENGTH with 1024. change LAST_PAGE_ENTRY with 1023.
  change (Z.shiftr Kpm.KERNEL_VIRT_OFFSET 22) with 768. unfold boot_directory, boot_table, sizeof_page_entry.
  assert (behind_kept m m) as H0 by done.
  ystep (behind_memset m m 0x1000 0 1024 Hm H0); [lia.. |]. intros m1 H1.
  ystep (behind_page_init m m1 (0x1000 + 1023 * 4) 0x1000 1 0 Hm H1); [lia.. |]. intros m2 H2.
  ystep (behind_memset m m2 0x1000 0 1024 Hm H2); [lia.. |]. intros m3 H3.
  eapply yields_bind.
  { apply (yields_for_loop (behind_kept m)); [exact H3 |]. intros j t Hj Ht.
    change (0 + Z.of_nat (Z.to_nat PAGE_TABLE_LENGTH)) with 1024 in Hj. apply behind_page_init; (done || lia). }
  intros m4 H4.
  ystep (behind_page_init m m4 0x1000 0x2000 1 0 Hm H4); [lia.. |]. intros m5 H5.
  ystep (behind_page_init m m5 (0x1000 + 768 * 4) 0x2000 1 0 Hm H5); [lia.. |]. intros m6 H6.
  by apply yields_ok.
Qed.

(** The walk through a directory entry that holds the boot table. *)
Lemma translate_boot m m' d va : boot_tables m m' -> d = 0 \/ d = 768 ->
  0 <= va < 2 ^ 22 -> translate m' boot_directory (d * 2 ^ 22 + va) = Some va.
Proof.
  intros (T & D0 & D768 & _) Hd Hva. unfold translate.
  replace ((d * 2 ^ 22 + va) / 2 ^ 22) with d by dlia.
  replace ((d * 2 ^ 22 + va) / 4096 mod 1024) with (va / 4096) by dlia.
  replace ((d * 2 ^ 22 + va) mod 4096) with (va mod 4096) by dlia.
  assert (word m' (boot_directory + d * 4) = boot_table + 3) as ->.
  { destruct Hd as [-> | ->]; [by rewrite Z.add_0_r | done]. }
  change (Z.odd (boot_table + 3)) with true. cbv iota.
  change ((boot_table + 3) / 4096 * 4096) with boot_table. cbv zeta.
  rewrite T by dlia.
  assert (Z.odd (va / 4096 * 4096 + 3) = true) as ->.
  { rewrite Z.odd_add, Z.odd_mul, andb_false_r. done. }
  f_equal. dlia.
Qed.

(** With the tables of [boot_init] the first 4 MiB of physical memory appear
    at virtual address 0 and at 0xC0000000, and the addresses from 4 MiB to
    1 GiB are not mapped. *)
Theorem boot_init_maps m : 0x3000 <= zlen m ->
  exists m' cr3, boot_init m = Ok (m', cr3) /\ forall va,
    (0 <= va < 2 ^ 22 -> translate m' cr3 va = Some va /\
                         translate m' cr3 (Kpm.KERNEL_VIRT_OFFSET + va) = Some va) /\
    (2 ^ 22 <= va < 2 ^ 30 -> translate m' cr3 va = None).
Proof.
  intros Hlen. destruct (boot_init_spec m Hlen) as (m' & E & _ & Hb).
  exists m', boot_directory. split; [done |]. intros va. split.
  - intros Hva. split.
    + apply (translate_boot m m' 0 va); auto.
    + apply (translate_boot m m' 768 va); auto.
  - intros Hva. destruct Hb as (_ & _ & _ & _ & Hz & _). unfold translate.
    rewrite Hz by dlia. done.
Qed.

(** The second half of a page directory is not cleared: [memset] is given the
    number of entries, not of bytes.  Entries 256 to 1022 but 768 keep what
    the memory held, so an odd word there maps a page. *)
Theorem boot_init_keeps_garbage m i : 0x3000 <= zlen m ->
  256 <= i < 1023 -> i <> 768 ->
  exists m' cr3, boot_init m = Ok (m', cr3) /\ word m' (cr3 + i * 4) = word m (cr3 + i * 4).
Proof.
  intros Hlen Hi Hne. destruct (boot_init_spec m Hlen) as (m' & E & _ & Hb).
  exists m', boot_directory. split; [done |]. by apply Hb.
Qed.

(** [page_init] writes one entry: present, with the flags' low bits and the
    page the address lies in, the other bits clear; the rest of the memory is
    unchanged. *)
Theorem page_init_entry m pe addr w u : Mem.range_in m pe 4 -> 0 <= addr < 2 ^ 32 ->
  exists m', page_init m pe addr w u = Ok m' /\
    word m' pe = addr / 4096 * 4096 + u mod 2 * 4 + w mod 2 * 2 + 1 /\
    forall i, 0 <= i -> ~ (pe <= i < pe + 4) -> at_ 0 m' i = at_ 0 m i.
Proof.
  intros Hr Ha. destruct (page_init_ok m pe addr w u Hr) as (m' & E & _ & W & F).
  exists m'. rewrite u32_small in W by lia. auto.
Qed.

(** ** Witnesses *)

Definition example_ram : mem := repeat 0xFF (Z.to_nat 0x3000).

Lemma example_ram_size : 0x3000 <= zlen example_ram.
Proof. vm_compute. congruence. Qed.

Lemma boot_init_maps_witness :
  exists m cr3, boot_init example_ram = Ok (m, cr3) /\
    translate m cr3 0xC0100000 = Some 0x100000 /\ translate m cr3 0x400000 = None.
Proof.
  destruct (boot_init_maps example_ram example_ram_size) as (m & cr3 & E & Ht).
  exists m, cr3. split; [exact E |]. split.
  - exact (proj2 (proj1 (Ht 0x100000) ltac:(lia))).
  - exact (proj2 (Ht 0x400000) ltac:(lia)).
Defined.

Lemma boot_init_keeps_garbage_witness :
  exists m cr3, boot_init example_ram = Ok (m, cr3) /\
    word m (cr3 + 300 * 4) = word example_ram (cr3 + 300 * 4).
Proof.
  exact (boot_init_keeps_garbage example_ram 300 example_ram_size ltac:(lia) ltac:(lia)).
Defined.

Lemma page_init_entry_witness :
  exists m, page_init (repeat 0xFF 8) 4 0x12345678 1 0 = Ok m /\ word m 4 = 0x12345003.
Proof.
  destruct (page_init_entry (repeat 0xFF 8) 4 0x12345678 1 0
    ltac:(repeat split; vm_compute; congruence) ltac:(lia)) as (m & E & W & _).
  exists m. exact (conj E W).
Defined.

End Paging.
