(* ===== verification/X86.v ===== *)
(** The fragment of the processor that the assembly of the kernel uses.

    [cpu] is what the processor and the memory hold; [step] runs one instruction.
    [None] stands for an exception (a page that is not mapped, a selector that cannot be
    loaded) and for an access outside of the memory.  The memory is the list of its bytes
    from physical address 0, as in Paging.v, and addresses go through the page walk of that
    file once paging is on.  Words do not cross pages here.  The segments are flat,
    so that an offset is a linear address; the table of their descriptors is the
    one of Desc.v. *)

From Stdlib Require Import ZArith Lia Bool.
From stdpp Require Import base tactics numbers list option.
From S2P Require Import Prelude Mem Kpm Paging Desc.

Local Open Scope Z_scope.

Module X86.

Inductive reg : Type := EAX | EBX | ECX | EDX | ESI | EDI | EBP | ESP.
Inductive sreg : Type := CS | DS | ES | FS | GS | SS.

#[export] Instance reg_eq_dec : EqDecision reg.
Proof. solve_decision. Defined.
#[export] Instance sreg_eq_dec : EqDecision sreg.
Proof. solve_decision. Defined.

(** [iflag] is the interrupt flag, [status] the other flags.  [gdt] is the table of
    descriptors with the register that points to it. *)
Record cpu : Type := mk_cpu
  { gpr : reg -> Z; seg : sreg -> Z; eip : Z; iflag : bool; status : Z; cr0 : Z; cr3 : Z;
    gdt : Gdt.gdt_state; ram : list Z }.

(** ** Updates *)

Definition fupd {A B} `{EqDecision A} (f : A -> B) (a : A) (b : B) : A -> B :=
  fun x => if decide (x = a) then b else f x.

Definition set_gpr (r : reg) (v : Z) (c : cpu) : cpu :=
  mk_cpu (fupd (gpr c) r (u32 v)) (seg c) (eip c) (iflag c) (status c) (cr0 c) (cr3 c) (gdt c) (ram c).
Definition set_seg (s : sreg) (v : Z) (c : cpu) : cpu :=
  mk_cpu (gpr c) (fupd (seg c) s (u16 v)) (eip c) (iflag c) (status c) (cr0 c) (cr3 c) (gdt c) (ram c).
Definition set_eip (v : Z) (c : cpu) : cpu :=
  mk_cpu (gpr c) (seg c) v (iflag c) (status c) (cr0 c) (cr3 c) (gdt c) (ram c).
Definition set_iflag (b : bool) (c : cpu) : cpu :=
  mk_cpu (gpr c) (seg c) (eip c) b (status c) (cr0 c) (cr3 c) (gdt c) (ram c).
Definition set_status (v : Z) (c : cpu) : cpu :=
  mk_cpu (gpr c) (seg c) (eip c) (iflag c) v (cr0 c) (cr3 c) (gdt c) (ram c).
Definition set_cr0 (v : Z) (c : cpu) : cpu :=
  mk_cpu (gpr c) (seg c) (eip c) (iflag c) (status c) v (cr3 c) (gdt c) (ram c).
Definition set_cr3 (v : Z) (c : cpu) : cpu :=
  mk_cpu (gpr c) (seg c) (eip c) (iflag c) (status c) (cr0 c) v (gdt c) (ram c).
Definition set_gdt (g : Gdt.gdt_state) (c : cpu) : cpu :=
  mk_cpu (gpr c) (seg c) (eip c) (iflag c) (status c) (cr0 c) (cr3 c) g (ram c).
Definition set_ram (m : list Z) (c : cpu) : cpu :=
  mk_cpu (gpr c) (seg c) (eip c) (iflag c) (status c) (cr0 c) (cr3 c) (gdt c) m.

(** ** Memory *)

Definition to_option {A} (r : result A) : option A := match r with Ok a => Some a | Err _ => None end.

Definition paging (c : cpu) : bool := Z.testbit (cr0 c) 31.
(** The physical address behind a linear one. *)
Definition physical (c : cpu) (a : Z) : option Z :=
  if paging c then Paging.translate (ram c) (cr3 c) a else Some a.

Definition word_inside (a : Z) : option unit := if a mod 4096 <=? 4092 then Some tt else None.
Definition load (c : cpu) (a : Z) : option Z :=
  _ ← word_inside a; p ← physical c a; to_option (Paging.load32 (ram c) p).
Definition store (a v : Z) (c : cpu) : option cpu :=
  _ ← word_inside a; p ← physical c a; m ← to_option (Paging.store32 (ram c) p v); Some (set_ram m c).

Definition push (v : Z) (c : cpu) : option cpu :=
  let sp := u32 (gpr c ESP - 4) in
  c ← store sp v c; Some (set_gpr ESP sp c).
Definition pop (c : cpu) : option (Z * cpu) :=
  v ← load c (gpr c ESP); Some (v, set_gpr ESP (gpr c ESP + 4) c).

(** ** Segments *)

(** A selector for a data segment, loaded in ring 0: the null selector, or an entry
    of the table that is present and can be read. *)
Definition loadable (g : Gdt.gdt_state) (v : Z) : bool :=
  if v / 4 =? 0 then true
  else if Z.testbit v 2 then false
  else Gdt.selector_ok (Gdt.gdtr g) (v / 8) && (Gdt.base (Gdt.gdtr g) =? Gdt.GDT_BASE_ADDRESS) &&
       match Gdt.gdt g !! Z.to_nat (v / 8) with
       | None => false
       | Some e =>
           Gdt.segment_present e && Z.testbit (Gdt.access e) 4 &&
           (negb (Z.testbit (Gdt.access e) 3) || Z.testbit (Gdt.access e) 1) &&
           (v mod 4 <=? Gdt.segment_dpl e)
       end.
(** For the stack: writable, and not null. *)
Definition stack_loadable (g : Gdt.gdt_state) (v : Z) : bool :=
  negb (v / 4 =? 0) && loadable g v &&
  match Gdt.gdt g !! Z.to_nat (v / 8) with
  | None => false
  | Some e => Gdt.segment_writable e && (Gdt.segment_dpl e =? 0) && (v mod 4 =? 0)
  end.
(** For a far jump: ring 0 code. *)
Definition code_loadable (g : Gdt.gdt_state) (v : Z) : bool :=
  negb (v / 4 =? 0) && loadable g v &&
  match Gdt.gdt g !! Z.to_nat (v / 8) with
  | None => false
  | Some e => Gdt.segment_code e && (Gdt.segment_dpl e =? 0)
  end.

(** ** Instructions *)

Inductive instr : Type :=
  | Cli | Sti | Pushf | Popf
  | Push (r : reg) | PushImm (v : Z) | Pop (r : reg)
  | Mov (src dst : reg) | MovImm (v : Z) (dst : reg)
  | MovImm16 (v : Z) (dst : reg)              (** the low half: [mov $v, %ax] *)
  | MovLoad (disp : Z) (base dst : reg)
  | MovFromSeg16 (s : sreg) (dst : reg)       (** [mov %ds, %ax] *)
  | MovFromSeg (s : sreg) (dst : reg)         (** [mov %ds, %eax] *)
  | MovToSeg (src : reg) (s : sreg)
  | AddImm (v : Z) (dst : reg) | SubImm (v : Z) (dst : reg) | OrImm (v : Z) (dst : reg)
  | MovFromCr0 (dst : reg) | MovToCr0 (src : reg) | MovFromCr3 (dst : reg)
  | Lgdt (r : reg)
  | Jmp (r : reg) | Ljmp (s target : Z).

(** The low half of a register. *)
Definition low16 (old v : Z) : Z := old / 65536 * 65536 + u16 v.

Section step.
(** The address of the variable [gdtp], and the status flags an arithmetic
    instruction leaves. *)
Context (gdtp_address : Z) (flags_after : instr -> Z -> Z).

Definition arith (i : instr) (r : reg) (v : Z) (c : cpu) : cpu :=
  set_status (flags_after i (gpr c r)) (set_gpr r v c).

Definition step (i : instr) (c : cpu) : option cpu :=
  match i with
  | Cli => Some (set_iflag false c)
  | Sti => Some (set_iflag true c)
  | Pushf => push (status c + if iflag c then 0x200 else 0) c
  | Popf => '(v, c) ← pop c; Some (set_iflag (Z.testbit v 9) (set_status (Z.ldiff v 0x200) c))
  | Push r => push (gpr c r) c
  | PushImm v => push v c
  | Pop r => '(v, c) ← pop c; Some (set_gpr r v c)
  | Mov src dst => Some (set_gpr dst (gpr c src) c)
  | MovImm v dst => Some (set_gpr dst v c)
  | MovImm16 v dst => Some (set_gpr dst (low16 (gpr c dst) v) c)
  | MovLoad disp base dst => v ← load c (u32 (gpr c base + disp)); Some (set_gpr dst v c)
  | MovFromSeg16 s dst => Some (set_gpr dst (low16 (gpr c dst) (seg c s)) c)
  | MovFromSeg s dst => Some (set_gpr dst (seg c s) c)
  | MovToSeg src s =>
      let v := u16 (gpr c src) in
      let ok := match s with CS => false | SS => stack_loadable (gdt c) v | _ => loadable (gdt c) v end in
      if ok then Some (set_seg s v c) else None
  | AddImm v dst => Some (arith i dst (gpr c dst + v) c)
  | SubImm v dst => Some (arith i dst (gpr c dst - v) c)
  | OrImm v dst => Some (arith i dst (Z.lor (gpr c dst) v) c)
  | MovFromCr0 dst => Some (set_gpr dst (cr0 c) c)
  | MovToCr0 src => Some (set_cr0 (gpr c src) c)
  | MovFromCr3 dst => Some (set_gpr dst (cr3 c) c)
  | Lgdt r => if gpr c r =? gdtp_address then Some (set_gdt (Gdt.gdt_flush (gdt c)) c) else None
  | Jmp r => Some (set_eip (gpr c r) c)
  | Ljmp s target => if code_loadable (gdt c) s then Some (set_eip target (set_seg CS s c)) else None
  end.

(** A straight piece of code: every instruction has to be fetched from a page that is
    mapped; [eip] is the address of the piece. *)
Fixpoint run (code : list instr) (c : cpu) : option cpu :=
  match code with
  | [] => Some c
  | i :: code => _ ← physical c (eip c); c ← step i c; run code c
  end.

Lemma run_app l1 l2 c : run (l1 ++ l2) c = (run l1 c ≫= run l2).
Proof.
  revert c. induction l1 as [| i l1 IH]; intros c; [done |]. cbn [app run].
  destruct (physical c (eip c)); [| done]. cbn [mbind option_bind].
  destruct (step i c); [apply IH | done].
Qed.
End step.

(** ** Words of the memory *)

Lemma fupd_same {A B} `{EqDecision A} (f : A -> B) a b : fupd f a b a = b.
Proof. unfold fupd. by rewrite decide_True. Qed.
Lemma fupd_other {A B} `{EqDecision A} (f : A -> B) a b x : x <> a -> fupd f a b x = f x.
Proof. intros. unfold fupd. by rewrite decide_False. Qed.

(** A store without paging, or through a page that is mapped. *)
Lemma store_ok a v c p : a mod 4096 <= 4092 -> physical c a = Some p -> Mem.range_in (ram c) p 4 ->
  exists m, store a v c = Some (set_ram m c) /\ Paging.word_set (ram c) m p (u32 v).
Proof.
  intros Ha Hp Hr. unfold store, word_inside. rewrite (proj2 (Z.leb_le _ _)) by done.
  cbn [mbind option_bind]. rewrite Hp. cbn [mbind option_bind].
  destruct (Paging.store32_ok (ram c) p v Hr) as (m & -> & Hs). by exists m.
Qed.

Lemma load_word_ok a c p : a mod 4096 <= 4092 -> physical c a = Some p -> Mem.range_in (ram c) p 4 ->
  load c a = Some (Paging.word (ram c) p).
Proof.
  intros Ha Hp Hr. unfold load, word_inside. rewrite (proj2 (Z.leb_le _ _)) by done.
  cbn [mbind option_bind]. rewrite Hp. cbn [mbind option_bind]. by rewrite Paging.load32_ok.
Qed.

(** ** The address space of the kernel *)

(** Paging is on, with the tables of boot_init. *)
Record kernel_mode (c : cpu) : Prop := mk_kernel_mode
  { k_paging : paging c = true;
    k_cr3 : cr3 c = Paging.boot_directory;
    k_tables : exists m, Paging.boot_tables m (ram c) }.

(** The linear address [a] of the physical address [p]. *)
Definition kernel_address (a p : Z) : Prop :=
  0 <= p < 2 ^ 22 /\ (a = p \/ a = Kpm.KERNEL_VIRT_OFFSET + p).

Lemma kernel_physical c a p : kernel_mode c -> kernel_address a p -> physical c a = Some p.
Proof.
  intros [Hp Hc [m Ht]] [Hr Ha]. unfold physical. rewrite Hp, Hc.
  destruct Ha as [-> | ->]; [apply (Paging.translate_boot m _ 0 p) | apply (Paging.translate_boot m _ 768 p)]; auto.
Qed.

(** The tables end at 0x3000. *)
Lemma boot_tables_kept m m' m'' p v : Paging.boot_tables m m' -> Paging.word_set m' m'' p v ->
  0x3000 <= p -> Paging.boot_tables m m''.
Proof.
  intros (T & D0 & D1 & D2 & Z & G) Hs Hp. unfold Paging.boot_tables in *.
  change Paging.boot_directory with 0x1000 in *. change Paging.boot_table with 0x2000 in *.
  assert (forall q, 0 <= q -> q + 4 <= 0x3000 -> Paging.word m'' q = Paging.word m' q) as Hw.
  { intros q H0 Hq. apply (Paging.word_set_other _ _ _ _ _ Hs); lia. }
  split; [intros i Hi; rewrite Hw by lia; auto |].
  split; [by rewrite Hw by lia |]. split; [by rewrite Hw by lia |]. split; [by rewrite Hw by lia |].
  split; intros i Hi; [| intros Hne]; rewrite Hw by lia; auto.
Qed.

(** A word of the memory behind the tables. *)
Record stack_word (c : cpu) (a p : Z) : Prop := mk_stack_word
  { w_address : kernel_address a p;
    w_aligned : p mod 4 = 0;
    w_behind : 0x3000 <= p;
    w_inside : p + 4 <= zlen (ram c) }.

Lemma stack_word_offset c a p : stack_word c a p -> a mod 4096 <= 4092.
Proof. intros [[Hr [-> | ->]] H4 _ _]; unfold Kpm.KERNEL_VIRT_OFFSET; dlia. Qed.

Lemma stack_word_range c a p : stack_word c a p -> Mem.range_in (ram c) p 4.
Proof. intros [[Hr _] _ Hb Hi]. unfold Mem.range_in. lia. Qed.

Lemma kernel_store c a p v : kernel_mode c -> stack_word c a p ->
  exists m, store a v c = Some (set_ram m c) /\ Paging.word_set (ram c) m p (u32 v) /\
    kernel_mode (set_ram m c).
Proof.
  intros Hk Hw. destruct (store_ok a v c p) as (m & E & Hs).
  - by apply stack_word_offset with c p.
  - by apply kernel_physical, Hw.
  - by apply stack_word_range with a.
  - exists m. split; [done |]. split; [done |]. destruct Hk as [Hp Hc [m0 Ht]].
    split; [done | done |]. exists m0. exact (boot_tables_kept _ _ _ _ _ Ht Hs (w_behind _ _ _ Hw)).
Qed.

Lemma kernel_load c a p : kernel_mode c -> stack_word c a p -> load c a = Some (Paging.word (ram c) p).
Proof.
  intros Hk Hw. apply load_word_ok; [by apply stack_word_offset with c p | | by apply stack_word_range with a].
  by apply kernel_physical, Hw.
Qed.

(** Pushing on the stack of the kernel. *)
Lemma kernel_push c v a p : kernel_mode c -> u32 (gpr c ESP - 4) = a -> stack_word c a p ->
  exists m, push v c = Some (set_gpr ESP a (set_ram m c)) /\ Paging.word_set (ram c) m p (u32 v) /\
    kernel_mode (set_ram m c).
Proof.
  intros Hk Ha Hw. destruct (kernel_store c a p v Hk Hw) as (m & E & Hs & Hk').
  exists m. unfold push. rewrite Ha, E. cbn [mbind option_bind]. done.
Qed.

(** Instructions that leave paging and the memory alone. *)
Lemma kernel_mode_same c c' : cr0 c' = cr0 c -> cr3 c' = cr3 c -> ram c' = ram c ->
  kernel_mode c -> kernel_mode c'.
Proof.
  intros E0 E3 Er [Hp Hc Ht]. split; [unfold paging in *; by rewrite E0 | congruence | by rewrite Er].
Qed.

(** The code lies in the pages that are mapped. *)
Definition fetched (c : cpu) : Prop := exists q, kernel_address (eip c) q.

Lemma run_step gdtp_address flags_after i l c c' : kernel_mode c -> fetched c ->
  step gdtp_address flags_after i c = Some c' ->
  run gdtp_address flags_after (i :: l) c = run gdtp_address flags_after l c'.
Proof.
  intros Hk [q Hq] E. cbn [run]. rewrite (kernel_physical c _ q Hk Hq). cbn [mbind option_bind]. by rewrite E.
Qed.

Lemma u16_low16 x v : u16 (u32 (low16 x v)) = u16 v.
Proof. unfold low16. ints. dlia. Qed.

(** The data segment of the kernel can be loaded once [gdt_init] has run. *)
Definition booted_gdt (g : Gdt.gdt_state) : Prop :=
  exists rest, g = Gdt.mk_gdt_state (Gdt.gdt_table ++ rest) (Gdt.mk_gdt_ptr 48 0x800) (Gdt.mk_gdt_ptr 48 0x800).

Lemma booted_data g : booted_gdt g -> loadable g 0x10 = true /\ stack_loadable g 0x10 = true.
Proof. intros [rest ->]. split; reflexivity. Qed.
Lemma booted_code g : booted_gdt g -> code_loadable g 0x08 = true.
Proof. intros [rest ->]. reflexivity. Qed.

End X86.
