(* ===== verification/Isr.v ===== *)
(** The frames of the interrupt handlers: the two macros of kernel/idt_internal.h that
    every handler of kernel/isr.c starts and ends with, and the registers that
    kernel/nsh/builtins/registers_internal.h reads.

    The first macro pushes the data segment of the interrupted code and takes it off the
    stack again at once, so that it lies below the stack pointer while the body of the handler
    runs; the second one loads all data segments with the word it finds there. *)

From Stdlib Require Import ZArith Lia Bool.
From stdpp Require Import base tactics numbers list option.
From S2P Require Import Prelude Mem Kpm Paging Desc X86.

Local Open Scope Z_scope.

Module Isr.
Import X86.

(** ** The code *)

Definition LOAD_INTERRUPT_STACK : list instr :=
  [Cli; MovFromSeg16 DS EAX; Push EAX; MovImm16 0x10 EAX;
   MovToSeg EAX DS; MovToSeg EAX ES; MovToSeg EAX FS; MovToSeg EAX GS; AddImm 4 ESP].

Definition RESET_INTERRUPT_STACK : list instr :=
  [SubImm 4 ESP; Pop EAX; MovToSeg EAX DS; MovToSeg EAX ES; MovToSeg EAX FS; MovToSeg EAX GS; Sti].

(** The macros of registers_internal.h. *)
Inductive register : Type :=
  | R_EAX | R_EBX | R_ECX | R_EDX | R_CS | R_DS | R_ES | R_FS | R_GS | R_SS | R_ESI | R_EDI | R_EBP
  | R_EIP | R_ESP | R_EFLAGS | R_CR0 | R_CR3.

#[export] Instance register_eq_dec : EqDecision register.
Proof. solve_decision. Defined.

(** [x] is the register of the output; [here] the address of the instruction. *)
Definition read_register (r : register) (here : Z) (x : reg) : list instr :=
  match r with
  | R_EAX => [Mov EAX x] | R_EBX => [Mov EBX x] | R_ECX => [Mov ECX x] | R_EDX => [Mov EDX x]
  | R_CS => [MovFromSeg CS x] | R_DS => [MovFromSeg DS x] | R_ES => [MovFromSeg ES x]
  | R_FS => [MovFromSeg FS x] | R_GS => [MovFromSeg GS x] | R_SS => [MovFromSeg SS x]
  | R_ESI => [Mov ESI x] | R_EDI => [Mov EDI x] | R_EBP => [Mov EBP x]
  | R_EIP => [MovImm here x] | R_ESP => [Mov ESP x]
  | R_EFLAGS => [Pushf; Pop x]
  | R_CR0 => [MovFromCr0 x] | R_CR3 => [MovFromCr3 x]
  end.

(** ** What the frame does *)

(** The processor in the kernel, with the word [p] below the stack pointer. *)
Record in_kernel (c : cpu) (p : Z) : Prop := mk_in_kernel
  { i_mode : kernel_mode c;
    i_fetch : fetched c;
    i_word : stack_word c (u32 (gpr c ESP - 4)) p;
    i_esp : u32 (gpr c ESP) = gpr c ESP;
    i_gdt : booted_gdt (gdt c) }.

(** The data segments all hold [v]. *)
Definition data_segments (c : cpu) (v : Z) : Prop := seg c DS = v /\ seg c ES = v /\ seg c FS = v /\ seg c GS = v.

(** The body of a handler returns with the stack pointer it was called with and leaves the
    tables of the processor alone. *)
Record returns (c c' : cpu) : Prop := mk_returns
  { b_mode : kernel_mode c';
    b_eip : eip c' = eip c;
    b_esp : gpr c' ESP = gpr c ESP;
    b_gdt : gdt c' = gdt c;
    b_ram : zlen (ram c') = zlen (ram c) }.

(** A body that calls a function with the argument [v], which is pushed first. *)
Definition calling (v : Z) (f : cpu -> option cpu) (c : cpu) : option cpu :=
  c ← push v c; c ← f c; Some (set_gpr ESP (gpr c ESP + 4) c).

Lemma u32_idem x : u32 (u32 x) = u32 x.
Proof. unfold u32. by rewrite Z.mod_mod. Qed.

Lemma calling_ok v f c p :
  (forall c, kernel_mode c -> exists c', f c = Some c' /\ returns c c' /\ Paging.word (ram c') p = Paging.word (ram c) p) ->
  kernel_mode c -> stack_word c (u32 (gpr c ESP - 4)) p -> u32 (gpr c ESP) = gpr c ESP ->
  exists c', calling v f c = Some c' /\ returns c c' /\ Paging.word (ram c') p = u32 v.
Proof.
  intros Hf Hk Hw He. unfold calling.
  destruct (kernel_push c v _ p Hk eq_refl Hw) as (m & -> & Hs & Hk1). cbn [mbind option_bind].
  set (c1 := set_gpr ESP _ _). destruct (Hf c1) as (c2 & -> & [Hk2 Eip Es Eg El] & Ew).
  { by apply (kernel_mode_same (set_ram m c)). }
  cbn [mbind option_bind]. eexists. split; [reflexivity |]. unfold c1 in *. cbn [eip gpr gdt ram set_gpr set_ram] in *.
  rewrite fupd_same in Es. split.
  - split; cbn [eip gpr gdt ram set_gpr]; try done.
    + by apply (kernel_mode_same c2).
    + rewrite fupd_same, Es, <- He at 1. ints. dlia.
    + rewrite El. apply Hs.
  - rewrite Ew. apply Hs.
Qed.

Section handler.
Context (gdtp_address : Z) (flags_after : instr -> Z -> Z).
Local Abbreviation run := (run gdtp_address flags_after).

(** A handler: the frame around its body. *)
Definition handler (body : cpu -> option cpu) (c : cpu) : option cpu :=
  c ← run LOAD_INTERRUPT_STACK c; c ← body c; run RESET_INTERRUPT_STACK c.

Lemma load_segments l c : kernel_mode c -> fetched c -> loadable (gdt c) (u16 (gpr c EAX)) = true ->
  run (MovToSeg EAX DS :: MovToSeg EAX ES :: MovToSeg EAX FS :: MovToSeg EAX GS :: l) c =
  run l (set_seg GS (u16 (gpr c EAX)) (set_seg FS (u16 (gpr c EAX))
    (set_seg ES (u16 (gpr c EAX)) (set_seg DS (u16 (gpr c EAX)) c)))).
Proof.
  intros Hk Hf Hl.
  do 4 (erewrite run_step; [| by apply (kernel_mode_same c) | exact Hf | cbn [step gdt gpr set_seg]; rewrite Hl; reflexivity]).
  done.
Qed.

Lemma load_frame c p : in_kernel c p -> exists c', run LOAD_INTERRUPT_STACK c = Some c' /\
  kernel_mode c' /\ eip c' = eip c /\ gdt c' = gdt c /\ gpr c' ESP = gpr c ESP /\ iflag c' = false /\
  data_segments c' 0x10 /\ Paging.word_set (ram c) (ram c') p (u32 (low16 (gpr c EAX) (seg c DS))).
Proof.
  intros [Hk Hf Hw He Hg]. unfold LOAD_INTERRUPT_STACK.
  rewrite (run_step _ _ _ _ c (set_iflag false c)) by done. set (c1 := set_iflag false c).
  assert (kernel_mode c1) as Hk1 by (by apply (kernel_mode_same c)).
  rewrite (run_step _ _ _ _ c1 (set_gpr EAX (low16 (gpr c EAX) (seg c DS)) c1)) by done.
  set (c2 := set_gpr EAX _ c1). assert (kernel_mode c2) as Hk2 by (by apply (kernel_mode_same c)).
  destruct (kernel_push c2 (gpr c2 EAX) (u32 (gpr c ESP - 4)) p Hk2) as (m & E & Hs & Hk3).
  { done. } { by destruct Hw. }
  rewrite (run_step _ _ (Push EAX) _ c2 _ Hk2 Hf E). clear E. set (c3 := set_gpr ESP _ _).
  assert (kernel_mode c3) as Hk3' by (by apply (kernel_mode_same (set_ram m c2))).
  rewrite (run_step _ _ (MovImm16 0x10 EAX) _ c3 (set_gpr EAX (low16 (gpr c3 EAX) 0x10) c3) Hk3' Hf eq_refl).
  set (c4 := set_gpr EAX (low16 (gpr c3 EAX) 0x10) c3). assert (kernel_mode c4) as Hk4 by (by apply (kernel_mode_same c3)).
  assert (u16 (gpr c4 EAX) = 0x10) as Ev by (unfold c4; cbn [gpr set_gpr]; by rewrite fupd_same, u16_low16).
  rewrite load_segments by (done || (rewrite Ev; by apply booted_data)). rewrite Ev.
  set (c5 := set_seg GS 0x10 _). assert (kernel_mode c5) as Hk5 by (by apply (kernel_mode_same c4)).
  erewrite run_step; [| exact Hk5 | exact Hf | reflexivity]. eexists. split; [reflexivity |].
  split; [by apply (kernel_mode_same c5) |]. split; [done |]. split; [done |].
  split; [| split; [done |]; split; [done |]].
  - unfold arith, c5, c4, c3. cbn [gpr set_gpr set_seg set_ram set_status].
    rewrite fupd_same, fupd_other, fupd_same by done. rewrite <- He at 2. ints. dlia.
  - unfold c2 in Hs at 2. cbn [gpr set_gpr] in Hs. rewrite fupd_same, u32_idem in Hs. exact Hs.
Qed.

(** What the second macro does depends on the word below the stack pointer. *)
Lemma reset_frame c p : kernel_mode c -> fetched c -> stack_word c (u32 (gpr c ESP - 4)) p ->
  u32 (gpr c ESP) = gpr c ESP ->
  let v := u16 (Paging.word (ram c) p) in
  if loadable (gdt c) v then
    exists c', run RESET_INTERRUPT_STACK c = Some c' /\ data_segments c' v /\
      gpr c' ESP = gpr c ESP /\ iflag c' = true /\ eip c' = eip c /\ ram c' = ram c
  else run RESET_INTERRUPT_STACK c = None.
Proof.
  intros Hk Hf Hw He v. unfold RESET_INTERRUPT_STACK.
  rewrite (run_step _ _ (SubImm 4 ESP) _ c (arith flags_after (SubImm 4 ESP) ESP (gpr c ESP - 4) c)) by done.
  set (c1 := arith _ _ _ _ _). assert (kernel_mode c1) as Hk1 by (by apply (kernel_mode_same c)).
  assert (load c1 (gpr c1 ESP) = Some (Paging.word (ram c) p)) as El.
  { unfold c1, arith. cbn [gpr set_gpr set_status]. rewrite fupd_same. exact (kernel_load c1 _ p Hk1 ltac:(by destruct Hw)). }
  assert (step gdtp_address flags_after (Pop EAX) c1 =
    Some (set_gpr EAX (Paging.word (ram c) p) (set_gpr ESP (gpr c1 ESP + 4) c1))) as Ep
    by (cbn [step]; unfold pop; by rewrite El).
  rewrite (run_step _ _ _ _ c1 _ Hk1 Hf Ep). clear Ep El. set (c2 := set_gpr EAX _ _).
  assert (kernel_mode c2) as Hk2 by (by apply (kernel_mode_same c1)).
  assert (u16 (gpr c2 EAX) = v) as Ev by (unfold c2, v; cbn [gpr set_gpr]; rewrite fupd_same; ints; dlia).
  change (loadable (gdt c) v) with (loadable (gdt c2) v). destruct (loadable (gdt c2) v) eqn:Hl.
  - rewrite load_segments by (done || by rewrite Ev). rewrite Ev. set (c3 := set_seg GS v _).
    assert (kernel_mode c3) as Hk3 by (by apply (kernel_mode_same c2)).
    rewrite (run_step _ _ Sti _ c3 (set_iflag true c3)) by done. eexists. split; [reflexivity |].
    assert (u16 v = v) as Eu by (unfold v, u16; by rewrite Z.mod_mod).
    split; [unfold data_segments, c3; cbn [seg set_iflag set_seg]; rewrite Eu; done |].
    split; [| done]. unfold c3, c2, c1, arith. cbn [gpr set_iflag set_seg set_gpr set_status].
    rewrite fupd_other, !fupd_same by done. rewrite <- He at 2. ints. dlia.
  - cbn [X86.run step]. destruct Hf as [q Hq].
    assert (physical c2 (eip c2) = Some q) as -> by (by apply kernel_physical). cbn [mbind option_bind].
    by rewrite Ev, Hl.
Qed.

Definition body_ok (p : Z) (body : cpu -> option cpu) : Prop :=
  forall c, kernel_mode c -> stack_word c (u32 (gpr c ESP - 4)) p -> u32 (gpr c ESP) = gpr c ESP ->
  exists c', body c = Some c' /\ returns c c'.

Lemma handler_runs body c p : body_ok p body -> in_kernel c p -> exists c1 c2,
  run LOAD_INTERRUPT_STACK c = Some c1 /\ body c1 = Some c2 /\ returns c1 c2 /\
  Paging.word (ram c1) p = u32 (low16 (gpr c EAX) (seg c DS)) /\
  let v := u16 (Paging.word (ram c2) p) in
  if loadable (gdt c) v then
    exists c', handler body c = Some c' /\ data_segments c' v /\ gpr c' ESP = gpr c ESP /\
      iflag c' = true /\ eip c' = eip c
  else handler body c = None.
Proof.
  intros Hb Hi. destruct (load_frame c p Hi) as (c1 & E1 & Hk1 & Eip1 & Eg1 & Es1 & _ & _ & Hw1).
  pose proof Hi as [_ _ Hw He _]. pose proof Hw as [Ha H4 Hp Hin]. pose proof (proj1 Hw1) as El1.
  assert (stack_word c1 (u32 (gpr c1 ESP - 4)) p) as Hsw by (rewrite Es1; split; try done; lia).
  destruct (Hb c1 Hk1 Hsw ltac:(congruence)) as (c2 & E2 & Hr). exists c1, c2. pose proof Hr as [Hk2 Eip2 Es2 Eg2 El2].
  split; [done |]. split; [done |]. split; [done |]. split; [apply Hw1 |].
  destruct Hi as [Hk Hf _ _ Hg]. unfold handler. rewrite E1. cbn [mbind option_bind]. rewrite E2. cbn [mbind option_bind].
  assert (gpr c2 ESP = gpr c ESP) as Es by congruence.
  pose proof (reset_frame c2 p Hk2) as Hreset. rewrite Es, Eg2, Eg1 in Hreset.
  specialize (Hreset ltac:(destruct Hf as [q Hq]; exists q; congruence)). cbv zeta in *.
  specialize (Hreset ltac:(split; try done; lia) He).
  destruct (loadable _ _); [| exact Hreset]. destruct Hreset as (c' & E & Hd & Es' & Hif & Eip' & _).
  exists c'. split; [done |]. split; [done |]. split; [done |]. split; [done |]. congruence.
Qed.

End handler.

(** ** Properties *)

Section properties.
Context (gdtp_address : Z) (flags_after : instr -> Z -> Z).

(** C37: A handler whose body leaves the word below its stack pointer alone returns to the
    interrupted code with the stack pointer and the data segment it had: all data
    segments hold the old one of ds.  Interrupts are on. *)
Theorem handler_restores body c p : body_ok p body -> in_kernel c p ->
  loadable (gdt c) (seg c DS) = true -> 0 <= seg c DS < 65536 ->
  (forall c1 c2, body c1 = Some c2 -> Paging.word (ram c2) p = Paging.word (ram c1) p) ->
  exists c', handler gdtp_address flags_after body c = Some c' /\ data_segments c' (seg c DS) /\
    gpr c' ESP = gpr c ESP /\ iflag c' = true /\ eip c' = eip c.
Proof.
  intros Hb Hi Hl Hr Hkeep.
  destruct (handler_runs gdtp_address flags_after body c p Hb Hi) as (c1 & c2 & _ & E2 & _ & Ew & Hh).
  cbv zeta in Hh. rewrite (Hkeep c1 c2 E2), Ew, u16_low16, u16_small, Hl in Hh by done. exact Hh.
Qed.

(** C38: The saved segment lies below the stack pointer while the body runs: the argument [v]
    of a function that the body calls overwrites it, and the handler loads the data
    segments with this word, or faults if it is no selector. *)
Theorem handler_loses_segment v f c p : in_kernel c p ->
  (forall c, kernel_mode c -> exists c', f c = Some c' /\ returns c c' /\ Paging.word (ram c') p = Paging.word (ram c) p) ->
  if loadable (gdt c) (u16 v) then
    exists c', handler gdtp_address flags_after (calling v f) c = Some c' /\ data_segments c' (u16 v) /\
      gpr c' ESP = gpr c ESP
  else handler gdtp_address flags_after (calling v f) c = None.
Proof.
  intros Hi Hf. destruct (handler_runs gdtp_address flags_after (calling v f) c p) as (c1 & c2 & E1 & E2 & _ & _ & Hh).
  - intros c0 Hk Hw He. destruct (calling_ok v f c0 p Hf Hk Hw He) as (c' & E & Hr & _). by exists c'.
  - done.
  - destruct (load_frame gdtp_address flags_after c p Hi) as (c1' & E1' & Hk1 & _ & _ & Es1 & _ & _ & Hw1).
    rewrite E1 in E1'. injection E1' as <-. destruct Hi as [_ _ [Ha H4 Hp Hin] He _]. pose proof (proj1 Hw1).
    destruct (calling_ok v f c1 p Hf Hk1) as (c2' & E2' & _ & Ew).
    { rewrite Es1. split; try done; lia. } { congruence. }
    rewrite E2 in E2'. injection E2' as <-.
    cbv zeta in Hh. rewrite Ew in Hh. replace (u16 (u32 v)) with (u16 v) in Hh by (ints; dlia).
    destruct (loadable _ _); [| exact Hh]. destruct Hh as (c' & E & Hd & Es & _). by exists c'.
Qed.
End properties.

(** ** The registers *)

Definition register_value (r : register) (here : Z) (c : cpu) : Z :=
  match r with
  | R_EAX => gpr c EAX | R_EBX => gpr c EBX | R_ECX => gpr c ECX | R_EDX => gpr c EDX
  | R_CS => seg c CS | R_DS => seg c DS | R_ES => seg c ES | R_FS => seg c FS | R_GS => seg c GS
  | R_SS => seg c SS | R_ESI => gpr c ESI | R_EDI => gpr c EDI | R_EBP => gpr c EBP
  | R_EIP => here | R_ESP => gpr c ESP
  | R_EFLAGS => status c + (if iflag c then 0x200 else 0)
  | R_CR0 => cr0 c | R_CR3 => cr3 c
  end.

(** Each macro puts the value of its register into [x] and leaves the other registers
    alone; the one for the flags uses the word below the stack pointer. *)
Theorem read_register_reads gdtp_address flags_after r here x c p : in_kernel c p -> x <> ESP ->
  exists c', run gdtp_address flags_after (read_register r here x) c = Some c' /\
    gpr c' x = u32 (register_value r here c) /\ (forall y, y <> x -> gpr c' y = gpr c y) /\
    (forall s, seg c' s = seg c s) /\ (forall i, 0 <= i -> ~ (p <= i < p + 4) -> at_ 0 (ram c') i = at_ 0 (ram c) i).
Proof.
  intros [Hk Hf Hw He _] Hx. destruct (decide (r = R_EFLAGS)) as [-> | Hr].
  - destruct (kernel_push c (status c + if iflag c then 0x200 else 0) _ p Hk eq_refl Hw) as (m & Ep & Hs & Hk1).
    cbn [read_register]. rewrite (run_step _ _ Pushf _ c _ Hk Hf Ep). set (c1 := set_gpr ESP _ _).
    assert (kernel_mode c1) as Hk1' by (by apply (kernel_mode_same (set_ram m c))).
    assert (load c1 (gpr c1 ESP) = Some (Paging.word m p)) as El.
    { unfold c1. cbn [gpr set_gpr]. rewrite fupd_same, u32_idem.
      apply (kernel_load (set_ram m c)); [done |]. destruct Hw as [Ha H4 Hp Hi]. split; try done. cbn [ram set_ram]. by rewrite (proj1 Hs). }
    assert (step gdtp_address flags_after (Pop x) c1 =
      Some (set_gpr x (Paging.word m p) (set_gpr ESP (gpr c1 ESP + 4) c1))) as Est
      by (cbn [step]; unfold pop; by rewrite El).
    rewrite (run_step _ _ (Pop x) _ c1 _ Hk1' Hf Est). eexists. split; [reflexivity |].
    cbn [gpr set_gpr seg ram set_ram c1]. rewrite fupd_same. destruct Hs as (_ & Ew & Hram).
    split; [by rewrite Ew, u32_idem |]. split; [| split; [done | exact Hram]].
    intros y Hy. rewrite fupd_other by done. destruct (decide (y = ESP)) as [-> | Hne].
    + rewrite !fupd_same, <- He. ints. dlia.
    + by rewrite !fupd_other by done.
  - destruct r; try done; (eexists; split; [cbn [read_register]; (erewrite run_step; [| exact Hk | exact Hf | reflexivity]); reflexivity |];
      cbn [gpr set_gpr register_value]; rewrite fupd_same; split; [done |];
      split; [intros y Hy; by apply fupd_other | done]).
Qed.

(** ** Witnesses *)

(** A processor in the kernel, with the boot tables and a stack behind them. *)
Lemma example_cpu : exists c, in_kernel c 0x3EFC /\ loadable (gdt c) (seg c DS) = true /\ seg c DS = 0x10 /\
  gpr c ESP = 0xC0003F00.
Proof.
  destruct (Paging.boot_init_spec (repeat 0 (Z.to_nat 0x4000))) as (m & _ & Hl & Ht).
  { rewrite zlen_repeat. lia. }
  rewrite zlen_repeat in Hl.
  exists (mk_cpu (fun r => match r with ESP => 0xC0003F00 | _ => 0 end) (fun s => match s with CS => 8 | _ => 0x10 end)
    0xC0100000 true 0 0x80000001 Paging.boot_directory
    (Gdt.mk_gdt_state (Gdt.gdt_table ++ []) (Gdt.mk_gdt_ptr 48 0x800) (Gdt.mk_gdt_ptr 48 0x800)) m).
  split; [| repeat split; reflexivity]. split; cbn [gpr eip gdt].
  - split; [reflexivity | reflexivity | by eexists].
  - exists 0x100000. split; [lia | by right].
  - split; cbn [ram]; [split; [lia | by right] | reflexivity | lia | lia].
  - reflexivity.
  - by exists [].
Qed.

Lemma read_register_reads_witness : exists c c',
  run 0 (fun _ _ => 0) (read_register R_ESP 0 EAX) c = Some c' /\ gpr c' EAX = 0xC0003F00.
Proof.
  destruct example_cpu as (c & Hi & _ & _ & Es).
  destruct (read_register_reads 0 (fun _ _ => 0) R_ESP 0 EAX c 0x3EFC Hi ltac:(discriminate)) as (c' & E & Ev & _).
  exists c, c'. split; [exact E |]. rewrite Ev. cbn [register_value]. by rewrite Es.
Defined.

Lemma handler_restores_witness : exists c c',
  handler 0 (fun _ _ => 0) (fun c => Some c) c = Some c' /\ data_segments c' 0x10 /\ iflag c' = true.
Proof.
  destruct example_cpu as (c & Hi & Hl & Ed & _).
  destruct (handler_restores 0 (fun _ _ => 0) (fun c => Some c) c 0x3EFC) as (c' & E & Hd & _ & Hif & _).
  - intros c0 Hk _ _. exists c0. split; [reflexivity | by split].
  - exact Hi.
  - exact Hl.
  - rewrite Ed. lia.
  - by intros c1 c2 [= ->].
  - exists c, c'. rewrite Ed in Hd. exact (conj E (conj Hd Hif)).
Defined.

(** The handler of the timer calls pic_8259_eoi with the argument 0: it comes back with null
    selectors when the compiler pushes it first. *)
Lemma handler_loses_segment_witness : exists c c',
  handler 0 (fun _ _ => 0) (calling Idt.IRQ_TM (fun c => Some c)) c = Some c' /\ data_segments c' 0.
Proof.
  destruct example_cpu as (c & Hi & _ & _ & _).
  destruct (handler_loses_segment 0 (fun _ _ => 0) Idt.IRQ_TM (fun c => Some c) c 0x3EFC Hi) as (c' & E & Hd & _).
  - intros c0 Hk. exists c0. split; [reflexivity |]. by split.
  - exists c, c'. exact (conj E Hd).
Defined.

End Isr.
