(* ===== verification/Boot.v ===== *)
(** From the boot loader to [kernel_main]: kernel/boot.s, and kernel/gdt_flush.s.

    The code is the instructions of the files.  The addresses are the linker's (linker.ld):
    [_start] and its stack lie in the first 4 MiB of the memory, the rest of the kernel is linked at
    0xC0000000 above its place in the memory.  boot_init (Paging.v) is called with its
    compiled stack frame, about which only the calling convention is known. *)

From Stdlib Require Import ZArith Lia Bool.
From stdpp Require Import base tactics numbers list option.
From S2P Require Import Prelude Mem Kpm Paging Desc X86.

Local Open Scope Z_scope.

Module Boot.
Import X86.

(** ** gdt_flush.s *)

(** What follows the far jump is the label [flush] with [ret]. *)
Definition gdt_flush (flush : Z) : list instr :=
  [MovLoad 4 ESP EAX; Lgdt EAX; MovImm16 0x10 EAX;
   MovToSeg EAX DS; MovToSeg EAX ES; MovToSeg EAX FS; MovToSeg EAX GS; MovToSeg EAX SS;
   Ljmp 0x08 flush].

(** ** boot.s *)

(** The addresses of its labels, and the return addresses of its calls. *)
Record layout : Type := mk_layout
  { multiboot_stack_bottom : Z; multiboot_stack_top : Z; stack_top : Z;
    kernel_start : Z; kernel_main : Z; after_boot_init : Z; after_kernel_main : Z }.

Section boot.
Context (gdtp_address : Z) (flags_after : instr -> Z -> Z) (l : layout).
(** What the compiled boot_init leaves in its registers and below its caller's frame. *)
Context (scratch : reg -> Z) (frame : list Z -> list Z).
Local Abbreviation run := (run gdtp_address flags_after).

(** _start, up to the call *)
Definition start_code : list instr :=
  [MovImm (multiboot_stack_top l) ESP; PushImm 0; Popf; Push EBX; Cli].
(** [call (boot_init - 0xc0000000)]: the function may change eax, ecx and edx. *)
Definition clobber (c : cpu) : cpu :=
  set_gpr EAX (scratch EAX) (set_gpr ECX (scratch ECX) (set_gpr EDX (scratch EDX) c)).
Definition call_boot_init (c : cpu) : option cpu :=
  c ← push (after_boot_init l) c;
  '(m, cr3) ← to_option (Paging.boot_init (frame (ram c)));
  let c := clobber (set_cr3 cr3 (set_ram m c)) in
  '(_, c) ← pop c;                                   (* ret *)
  Some c.
(** The rest of _start *)
Definition enable_code : list instr :=
  [Pop EBX; MovFromCr0 ECX; OrImm 0x80000001 ECX; MovToCr0 ECX; MovImm (kernel_start l) ECX; Jmp ECX].
(** kernel_start, up to the call *)
Definition kernel_start_code : list instr := [MovImm (stack_top l) ESP; Push EBX].
(** [call kernel_main] *)
Definition call_kernel_main (c : cpu) : option cpu :=
  c ← push (after_kernel_main l) c; Some (set_eip (kernel_main l) c).

(** From the entry point to the first instruction of kernel_main. *)
Definition start (c : cpu) : option cpu :=
  c ← run start_code c;
  c ← call_boot_init c;
  c ← run enable_code c;
  c ← run kernel_start_code c;
  call_kernel_main c.
End boot.

(** What the linker script promises. *)
Record layout_ok (l : layout) (size : Z) : Prop := mk_layout_ok
  { l_stack : 0x3000 <= multiboot_stack_bottom l /\ multiboot_stack_bottom l + 12 <= multiboot_stack_top l;
    l_stack_top : multiboot_stack_top l mod 4 = 0 /\ multiboot_stack_top l <= size /\ multiboot_stack_top l <= 2 ^ 22;
    l_high : exists q, stack_top l = Kpm.KERNEL_VIRT_OFFSET + q /\ q mod 4 = 0 /\ 0x3008 <= q /\ q <= size /\ q <= 2 ^ 22;
    l_start : exists q, kernel_address (kernel_start l) q }.

(** The frame of boot_init lies below the return address. *)
Definition frame_ok (l : layout) (frame : list Z -> list Z) : Prop :=
  forall m, zlen (frame m) = zlen m /\
    forall i, multiboot_stack_top l - 8 <= i \/ i < multiboot_stack_bottom l -> at_ 0 (frame m) i = at_ 0 m i.

(** ** What the memory keeps *)

Definition owned (rs : list (Z * Z)) (i : Z) : bool := existsb (fun '(a, b) => (a <=? i) && (i <? b)) rs.

(** From [m] to [m'] only the pages below 0x3000 and the regions [rs] may have changed. *)
Definition kept (rs : list (Z * Z)) (m m' : list Z) : Prop :=
  zlen m' = zlen m /\ forall i, 0x3000 <= i -> owned rs i = false -> at_ 0 m' i = at_ 0 m i.

Lemma kept_refl rs m : kept rs m m. Proof. done. Qed.
Lemma kept_steps rs m1 m2 m3 : kept rs m1 m2 -> kept rs m2 m3 -> kept rs m1 m3.
Proof. intros [L1 K1] [L2 K2]. split; [congruence |]. intros i Hi Ho. by rewrite K2, K1. Qed.

Lemma owned_in rs a b i : In (a, b) rs -> a <= i < b -> owned rs i = true.
Proof. intros Hin Hi. apply existsb_exists. exists (a, b). split; [done |]. lia. Qed.

Lemma kept_word rs m m' p v a b : Paging.word_set m m' p v -> In (a, b) rs -> a <= p -> p + 4 <= b ->
  kept rs m m'.
Proof.
  intros (Hl & _ & Hf) Hin Ha Hb. split; [done |]. intros i Hi Ho. apply Hf; [lia |]. intros Hp.
  rewrite (owned_in rs a b i Hin ltac:(lia)) in Ho. done.
Qed.

(** The two stacks. *)
Definition stacks (l : layout) : list (Z * Z) :=
  [(multiboot_stack_bottom l, multiboot_stack_top l);
   (stack_top l - Kpm.KERNEL_VIRT_OFFSET - 8, stack_top l - Kpm.KERNEL_VIRT_OFFSET)].

Lemma kept_boot_stack l m m' p v : Paging.word_set m m' p v -> multiboot_stack_bottom l <= p ->
  p + 4 <= multiboot_stack_top l -> kept (stacks l) m m'.
Proof.
  intros Hw. apply (kept_word (stacks l) m m' p v _ _ Hw). by left.
Qed.

Lemma kept_kernel_stack l m m' p v q : Paging.word_set m m' p v -> stack_top l = Kpm.KERNEL_VIRT_OFFSET + q ->
  q - 8 <= p -> p + 4 <= q -> kept (stacks l) m m'.
Proof.
  intros Hw Hq Ha Hb. apply (kept_word (stacks l) m m' p v (q - 8) q Hw); [| done | done].
  right. left. rewrite Hq. f_equal; lia.
Qed.

(** ** Before paging *)

Lemma flat_step gdtp_address flags_after i l c c' : paging c = false ->
  step gdtp_address flags_after i c = Some c' ->
  run gdtp_address flags_after (i :: l) c = run gdtp_address flags_after l c'.
Proof. intros Hp E. cbn [run]. unfold physical. rewrite Hp. cbn [mbind option_bind]. by rewrite E. Qed.

Lemma aligned_word a : a mod 4 = 0 -> a mod 4096 <= 4092.
Proof. intros. dlia. Qed.

Lemma flat_push c v a : paging c = false -> u32 (gpr c ESP - 4) = a -> a mod 4 = 0 -> 0 <= a -> a + 4 <= zlen (ram c) ->
  exists m, push v c = Some (set_gpr ESP a (set_ram m c)) /\ Paging.word_set (ram c) m a (u32 v).
Proof.
  intros Hp Ha H4 H0 Hi. destruct (store_ok a v c a) as (m & E & Hs).
  - by apply aligned_word.
  - unfold physical. by rewrite Hp.
  - unfold Mem.range_in. lia.
  - exists m. unfold push. rewrite Ha, E. done.
Qed.

Lemma flat_pop c a : paging c = false -> gpr c ESP = a -> a mod 4 = 0 -> 0 <= a -> a + 4 <= zlen (ram c) ->
  pop c = Some (Paging.word (ram c) a, set_gpr ESP (a + 4) c).
Proof.
  intros Hp <- H4 H0 Hi. unfold pop. rewrite (load_word_ok _ c (gpr c ESP)); [done | by apply aligned_word | |].
  - unfold physical. by rewrite Hp.
  - unfold Mem.range_in. lia.
Qed.

(** boot_init leaves the tables in the memory and comes back to its caller's stack. *)
Lemma call_boot_init_ok l scratch frame c size : layout_ok l size -> frame_ok l frame -> zlen (ram c) = size -> paging c = false ->
  gpr c ESP = multiboot_stack_top l - 4 ->
  exists c' m, call_boot_init l scratch frame c = Some c' /\ paging c' = false /\ cr0 c' = cr0 c /\ eip c' = eip c /\
    gdt c' = gdt c /\ iflag c' = iflag c /\ gpr c' ESP = gpr c ESP /\ zlen (ram c') = size /\
    cr3 c' = Paging.boot_directory /\ Paging.boot_tables m (ram c') /\
    Paging.word (ram c') (multiboot_stack_top l - 4) = Paging.word (ram c) (multiboot_stack_top l - 4) /\
    kept (stacks l) (ram c) (ram c').
Proof.
  intros [[Hs Hb] (H4 & Hsz & Ht) _ _] Hf Hl Hp Hsp. set (top := multiboot_stack_top l) in *. unfold call_boot_init.
  destruct (flat_push c (after_boot_init l) (top - 8)) as (m & -> & Hw); [done | rewrite Hsp; rewrite u32_small; lia | dlia | lia | lia |].
  cbn [mbind option_bind ram set_gpr set_ram]. destruct (Hf m) as [Lf Ff]. pose proof (proj1 Hw) as Lm.
  destruct (Paging.boot_init_spec (frame m)) as (m' & Eb & Lm' & Htab); [lia |].
  destruct (Paging.boot_init_behind (frame m)) as ([m'' d] & Eb' & _ & Fb); [lia |].
  rewrite Eb in Eb'. injection Eb' as <- _. rewrite Eb. cbn [mbind option_bind to_option].
  set (c1 := clobber _ _).
  assert (gpr c1 ESP = top - 8) as E1.
  { unfold c1, clobber. cbn [gpr set_gpr set_cr3 set_ram]. rewrite !fupd_other, fupd_same by done. apply u32_small. lia. }
  assert (zlen (ram c1) = size) as L1 by (unfold c1, clobber; cbn [ram set_gpr set_cr3 set_ram]; lia).
  rewrite (flat_pop c1 (top - 8) Hp E1) by (dlia || lia). cbn [mbind option_bind].
  eexists _, (frame m). split; [reflexivity |]. repeat (split; [done |]).
  split; [cbn [gpr set_gpr]; rewrite fupd_same, Hsp, u32_small by lia; lia |]. split; [done |]. split; [done |].
  unfold c1, clobber. cbn [ram set_gpr set_cr3 set_ram]. split; [exact Htab |].
  split; [apply Paging.word_ext; intros k Hk; rewrite Fb, Ff by lia; destruct Hw as (_ & _ & Hw); apply Hw; lia |].
  apply kept_steps with m; [apply (kept_boot_stack l _ _ _ _ Hw); fold top; lia |].
  split; [lia |]. intros i Hi Ho. rewrite Fb by lia. apply Ff.
  destruct (decide (multiboot_stack_top l - 8 <= i \/ i < multiboot_stack_bottom l)); [done |].
  rewrite (owned_in (stacks l) (multiboot_stack_bottom l) (multiboot_stack_top l) i (or_introl eq_refl)) in Ho by lia. done.
Qed.

Section boot_lemmas.
Context (gdtp_address : Z) (flags_after : instr -> Z -> Z) (l : layout).
Local Abbreviation run := (run gdtp_address flags_after).

(** The stack at the call of boot_init holds the pointer of the boot loader. *)
Lemma start_code_ok c size : layout_ok l size -> zlen (ram c) = size -> paging c = false ->
  exists c', run (start_code l) c = Some c' /\ paging c' = false /\ cr0 c' = cr0 c /\ eip c' = eip c /\ gdt c' = gdt c /\
    iflag c' = false /\ gpr c' ESP = multiboot_stack_top l - 4 /\ zlen (ram c') = size /\
    Paging.word (ram c') (multiboot_stack_top l - 4) = u32 (gpr c EBX) /\ kept (stacks l) (ram c) (ram c').
Proof.
  intros [[Hs Hb] (H4 & Hsz & Ht) _ _] Hl Hp. set (top := multiboot_stack_top l) in *.
  unfold start_code. fold top.
  rewrite (flat_step _ _ _ _ c (set_gpr ESP top c)) by done. set (c1 := set_gpr ESP top c).
  assert (gpr c1 ESP = top) as E1 by (unfold c1; cbn [gpr set_gpr]; rewrite fupd_same; apply u32_small; lia).
  destruct (flat_push c1 0 (top - 4)) as (m & E & Hw); [done | rewrite E1; apply u32_small; lia | dlia | lia | cbn [c1 ram set_gpr]; lia |].
  rewrite (flat_step _ _ (PushImm 0) _ c1 _ Hp E). clear E. set (c2 := set_gpr ESP _ _).
  assert (gpr c2 ESP = top - 4) as E2 by (unfold c2; cbn [gpr set_gpr]; rewrite fupd_same; apply u32_small; lia).
  pose proof (proj1 Hw) as Lm. cbn [c1 ram set_gpr] in Lm.
  assert (pop c2 = Some (0, set_gpr ESP (top - 4 + 4) c2)) as Ep.
  { rewrite (flat_pop c2 (top - 4) Hp E2); [| dlia | lia | cbn [c2 ram set_gpr set_ram]; lia].
    cbn [c2 ram set_gpr set_ram]. by rewrite (proj1 (proj2 Hw)). }
  assert (step gdtp_address flags_after Popf c2 = Some (set_iflag false (set_status 0 (set_gpr ESP (top - 4 + 4) c2)))) as Est
    by (cbn [step]; by rewrite Ep).
  rewrite (flat_step _ _ Popf _ c2 _ Hp Est). clear Est.
  set (c3 := set_iflag _ _).
  assert (gpr c3 ESP = top) as E3 by (unfold c3; cbn [gpr set_iflag set_status set_gpr]; rewrite fupd_same, u32_small; lia).
  assert (gpr c3 EBX = gpr c EBX) as Eb by (unfold c3, c2, c1; cbn [gpr set_iflag set_status set_gpr set_ram]; by rewrite !fupd_other by done).
  destruct (flat_push c3 (gpr c3 EBX) (top - 4)) as (m' & E & Hw'); [exact Hp | rewrite E3; apply u32_small; lia | dlia | lia | cbn [c3 c2 ram set_iflag set_status set_gpr set_ram]; lia |].
  rewrite (flat_step _ _ (Push EBX) _ c3 _ Hp E). clear E. set (c4 := set_gpr ESP _ _).
  rewrite (flat_step _ _ Cli _ c4 (set_iflag false c4)) by done. eexists. split; [reflexivity |].
  do 5 (split; [reflexivity || done |]).
  split; [unfold c4; cbn [gpr set_iflag set_gpr]; rewrite fupd_same; apply u32_small; lia |]. split.
  - pose proof (proj1 Hw') as Lm'. cbn [c3 c2 ram set_iflag set_status set_gpr set_ram] in Lm'. cbn [c4 ram set_iflag set_gpr set_ram]. lia.
  - cbn [c4 ram set_iflag set_gpr set_ram]. split; [by rewrite (proj1 (proj2 Hw')), Eb |].
    apply kept_steps with m.
    + apply (kept_boot_stack l _ _ _ _ Hw); fold top; lia.
    + apply (kept_boot_stack l _ _ _ _ Hw'); fold top; lia.
Qed.

(** Paging is switched on while the code runs at its address in the memory. *)
Lemma enable_code_ok c m size : layout_ok l size -> zlen (ram c) = size -> paging c = false ->
  gpr c ESP = multiboot_stack_top l - 4 -> 0 <= eip c < 2 ^ 22 -> cr3 c = Paging.boot_directory ->
  Paging.boot_tables m (ram c) ->
  exists c', run (enable_code l) c = Some c' /\ kernel_mode c' /\ Z.testbit (cr0 c') 0 = true /\
    eip c' = u32 (kernel_start l) /\ gdt c' = gdt c /\ iflag c' = iflag c /\ ram c' = ram c /\
    gpr c' EBX = u32 (Paging.word (ram c) (multiboot_stack_top l - 4)).
Proof.
  intros [[Hs Hb] (H4 & Hsz & Ht) _ _] Hl Hp Hsp He H3 Htab. set (top := multiboot_stack_top l) in *. unfold enable_code.
  assert (pop c = Some (Paging.word (ram c) (top - 4), set_gpr ESP (top - 4 + 4) c)) as Ep
    by (apply flat_pop; (done || dlia || lia)).
  set (w := Paging.word (ram c) (top - 4)) in *. set (c1 := set_gpr EBX w (set_gpr ESP (top - 4 + 4) c)).
  rewrite (flat_step _ _ (Pop EBX) _ c c1 Hp) by (cbn [step]; by rewrite Ep).
  set (c2 := set_gpr ECX (cr0 c) c1). rewrite (flat_step _ _ (MovFromCr0 ECX) _ c1 c2 Hp eq_refl).
  set (v := Z.lor (gpr c2 ECX) 0x80000001).
  set (c3 := arith flags_after (OrImm 0x80000001 ECX) ECX v c2).
  rewrite (flat_step _ _ (OrImm 0x80000001 ECX) _ c2 c3 Hp eq_refl).
  assert (gpr c3 ECX = u32 v) as E3 by (unfold c3, arith; cbn [gpr set_gpr set_status]; by rewrite fupd_same).
  set (c4 := set_cr0 (gpr c3 ECX) c3). rewrite (flat_step _ _ (MovToCr0 ECX) _ c3 c4 Hp eq_refl).
  assert (forall b, 0 <= b < 32 -> Z.testbit (cr0 c4) b = Z.testbit v b) as Hcr.
  { intros b Hbit. unfold c4. cbn [cr0 set_cr0]. rewrite E3. unfold u32. change 4294967296 with (2 ^ 32).
    apply Z.mod_pow2_bits_low. lia. }
  assert (kernel_mode c4) as Hk.
  { split; [unfold paging; rewrite Hcr by lia; unfold v; by rewrite Z.lor_spec, orb_true_r | exact H3 | by exists m]. }
  assert (fetched c4) as Hf by (exists (eip c); split; [exact He | by left]).
  set (c5 := set_gpr ECX (kernel_start l) c4).
  rewrite (run_step _ _ (MovImm (kernel_start l) ECX) _ c4 c5 Hk Hf eq_refl).
  assert (kernel_mode c5) as Hk5 by (by apply (kernel_mode_same c4)).
  rewrite (run_step _ _ (Jmp ECX) _ c5 (set_eip (gpr c5 ECX) c5) Hk5 Hf eq_refl).
  eexists. split; [reflexivity |]. split; [by apply (kernel_mode_same c4) |].
  split; [change (Z.testbit (cr0 c4) 0 = true); rewrite Hcr by lia; unfold v; by rewrite Z.lor_spec, orb_true_r |].
  split; [cbn [eip set_eip]; unfold c5; cbn [gpr set_gpr]; by rewrite fupd_same |].
  do 3 (split; [reflexivity |]). cbn [gpr set_eip]. unfold c5, c4, c3, c2, c1, arith.
  cbn [gpr set_gpr set_cr0 set_status]. by rewrite !fupd_other, fupd_same by done.
Qed.

(** kernel_main is called on the new stack, with the pointer as its argument. *)
Lemma kernel_start_ok c size : layout_ok l size -> zlen (ram c) = size -> kernel_mode c -> fetched c ->
  exists c', (run (kernel_start_code l) c ≫= call_kernel_main l) = Some c' /\ kernel_mode c' /\
    cr0 c' = cr0 c /\ eip c' = kernel_main l /\ gdt c' = gdt c /\ iflag c' = iflag c /\ gpr c' ESP = stack_top l - 8 /\
    load c' (stack_top l - 8) = Some (u32 (after_kernel_main l)) /\ load c' (stack_top l - 4) = Some (u32 (gpr c EBX)) /\
    kept (stacks l) (ram c) (ram c').
Proof.
  intros [_ _ (q & Hst & H4 & Hq & Hsz & Ht) _] Hl Hk Hf. unfold kernel_start_code. unfold Kpm.KERNEL_VIRT_OFFSET in Hst.
  set (c1 := set_gpr ESP (stack_top l) c). rewrite (run_step _ _ (MovImm (stack_top l) ESP) _ c c1 Hk Hf eq_refl).
  assert (kernel_mode c1) as Hk1 by (by apply (kernel_mode_same c)).
  assert (u32 (gpr c1 ESP - 4) = stack_top l - 4) as E1.
  { unfold c1. cbn [gpr set_gpr]. rewrite fupd_same, !u32_small; rewrite ?u32_small; lia. }
  assert (forall c k, zlen (ram c) = size -> k = 4 \/ k = 8 -> stack_word c (stack_top l - k) (q - k)) as Hword.
  { intros c0 k Hz Hk'. split; [split; [lia | right; unfold Kpm.KERNEL_VIRT_OFFSET; lia] | | lia | lia]. destruct Hk' as [-> | ->]; dlia. }
  destruct (kernel_push c1 (gpr c1 EBX) (stack_top l - 4) (q - 4) Hk1 E1 (Hword c1 4 Hl (or_introl eq_refl))) as (m & Ep & Hw & Hk2).
  rewrite (run_step _ _ (Push EBX) _ c1 _ Hk1 Hf Ep). set (c2 := set_gpr ESP _ _). cbn [X86.run mbind option_bind].
  assert (zlen (ram c2) = size) as L2 by (unfold c2; cbn [ram set_gpr set_ram]; rewrite (proj1 Hw); exact Hl).
  assert (kernel_mode c2) as Hk2' by (by apply (kernel_mode_same (set_ram m c1))).
  assert (u32 (gpr c2 ESP - 4) = stack_top l - 8) as E2.
  { unfold c2. cbn [gpr set_gpr]. rewrite fupd_same, !u32_small; rewrite ?u32_small; lia. }
  unfold call_kernel_main.
  destruct (kernel_push c2 (after_kernel_main l) (stack_top l - 8) (q - 8) Hk2' E2 (Hword c2 8 L2 (or_intror eq_refl))) as (m' & -> & Hw' & Hk3).
  cbn [mbind option_bind]. eexists. split; [reflexivity |]. set (c3 := set_eip _ _).
  assert (kernel_mode c3) as Hk3' by (by apply (kernel_mode_same (set_ram m' c2))).
  assert (zlen (ram c3) = size) as L3 by (unfold c3; cbn [ram set_eip set_gpr set_ram]; rewrite (proj1 Hw'); exact L2).
  split; [done |]. do 4 (split; [reflexivity |]).
  split; [unfold c3; cbn [gpr set_eip set_gpr]; rewrite fupd_same, u32_small by lia; done |].
  rewrite (kernel_load c3 _ (q - 8) Hk3' (Hword c3 8 L3 (or_intror eq_refl))).
  rewrite (kernel_load c3 _ (q - 4) Hk3' (Hword c3 4 L3 (or_introl eq_refl))).
  change (ram c3) with m'. rewrite (proj1 (proj2 Hw')). split; [done |].
  rewrite (Paging.word_set_other _ _ _ _ (q - 4) Hw') by lia. change (ram c2) with m. rewrite (proj1 (proj2 Hw)).
  unfold c1 at 1. cbn [gpr set_gpr]. rewrite fupd_other by done. split; [done |].
  apply kept_steps with m.
  - apply (kept_kernel_stack l _ _ _ _ q Hw); [done | lia | lia].
  - apply (kept_kernel_stack l _ _ _ _ q Hw'); [done | lia | lia].
Qed.
End boot_lemmas.

(** The whole way to kernel_main. *)
Lemma start_ok gdtp_address flags_after l scratch frame c :
  layout_ok l (zlen (ram c)) -> frame_ok l frame -> paging c = false -> 0 <= eip c < 2 ^ 22 ->
  exists c', start gdtp_address flags_after l scratch frame c = Some c' /\ eip c' = kernel_main l /\
    kernel_mode c' /\ Z.testbit (cr0 c') 0 = true /\ iflag c' = false /\
    gpr c' ESP = stack_top l - 8 /\ load c' (stack_top l - 4) = Some (u32 (gpr c EBX)) /\
    load c' (stack_top l - 8) = Some (u32 (after_kernel_main l)) /\ kept (stacks l) (ram c) (ram c').
Proof.
  intros Hl Hf Hp He. unfold start.
  destruct (start_code_ok gdtp_address flags_after l c _ Hl eq_refl Hp) as (c1 & -> & P1 & C1 & I1 & _ & F1 & S1 & L1 & W1 & U1).
  cbn [mbind option_bind].
  destruct (call_boot_init_ok l scratch frame c1 _ Hl Hf L1 P1 S1) as (c2 & m & -> & P2 & C2 & I2 & _ & F2 & S2 & L2 & D2 & T2 & W2 & U2).
  cbn [mbind option_bind].
  destruct (enable_code_ok gdtp_address flags_after l c2 m _ Hl L2 P2 ltac:(congruence) ltac:(congruence) D2 T2)
    as (c3 & -> & K3 & B3 & I3 & _ & F3 & R3 & E3).
  cbn [mbind option_bind].
  assert (fetched c3) as Hf3.
  { destruct (l_start _ _ Hl) as [q [Hq Ha]]. exists q. split; [done |]. rewrite I3.
    unfold Kpm.KERNEL_VIRT_OFFSET in *. rewrite u32_small by lia. exact Ha. }
  destruct (kernel_start_ok gdtp_address flags_after l c3 _ Hl ltac:(congruence) K3 Hf3)
    as (c4 & E & K4 & C4 & I4 & _ & F4 & S4 & W4 & V4 & U4).
  exists c4. split; [exact E |]. split; [done |]. split; [exact K4 |]. split; [congruence |]. split; [congruence |].
  split; [done |]. split; [rewrite V4, E3, W2, W1; unfold u32; by rewrite !Z.mod_mod |]. split; [done |].
  apply kept_steps with (ram c1); [done |]. apply kept_steps with (ram c2); [done |]. by rewrite <- R3.
Qed.

(** ** Properties *)

(** From the entry point with the pointer of the boot loader in ebx the code reaches
    kernel_main without an exception: in protected mode with paging, the first 4 MiB at 0
    and at 0xC0000000, interrupts off, on the new stack, with the pointer as its argument. *)
Theorem start_reaches_kernel_main gdtp_address flags_after l scratch frame c :
  layout_ok l (zlen (ram c)) -> frame_ok l frame -> paging c = false -> 0 <= eip c < 2 ^ 22 ->
  exists c', start gdtp_address flags_after l scratch frame c = Some c' /\ eip c' = kernel_main l /\
    paging c' = true /\ Z.testbit (cr0 c') 0 = true /\ iflag c' = false /\
    gpr c' ESP = stack_top l - 8 /\ load c' (gpr c' ESP + 4) = Some (u32 (gpr c EBX)) /\
    load c' (gpr c' ESP) = Some (u32 (after_kernel_main l)) /\
    forall a, 0 <= a < 2 ^ 22 -> physical c' a = Some a /\ physical c' (Kpm.KERNEL_VIRT_OFFSET + a) = Some a.
Proof.
  intros Hl Hf Hp He.
  destruct (start_ok gdtp_address flags_after l scratch frame c Hl Hf Hp He)
    as (c' & E & Ei & Hk & Hc & Hi & Hs & W & V & _).
  exists c'. split; [exact E |]. split; [done |]. split; [apply Hk |]. do 2 (split; [done |]). split; [done |].
  rewrite Hs. replace (stack_top l - 8 + 4) with (stack_top l - 4) by lia. split; [done |]. split; [done |].
  intros a Ha. split; apply (kernel_physical c' _ a Hk); (split; [done |]); [by left | by right].
Qed.

(** gdt_flush, called on the tables that gdt_init fills, loads the register, all data
    segments and the stack segment with the data segment and cs with the code segment,
    without an exception. *)
Theorem gdt_flush_loads gdtp_address flags_after flush c p : kernel_mode c -> fetched c ->
  stack_word c (u32 (gpr c ESP + 4)) p -> Paging.word (ram c) p = gdtp_address -> 0 <= gdtp_address < 2 ^ 32 ->
  (exists rest r, gdt c = Gdt.mk_gdt_state (Gdt.gdt_table ++ rest) (Gdt.mk_gdt_ptr 48 0x800) r) ->
  exists c', run gdtp_address flags_after (gdt_flush flush) c = Some c' /\ eip c' = flush /\
    booted_gdt (gdt c') /\ seg c' CS = 8 * Gdt.GDT_KERNEL_CODE /\ gpr c' ESP = gpr c ESP /\
    forall s, s <> CS -> seg c' s = 8 * Gdt.GDT_KERNEL_DATA.
Proof.
  intros Hk Hf Hw Ew Hr (rest & r & Eg). unfold gdt_flush.
  assert (step gdtp_address flags_after (MovLoad 4 ESP EAX) c = Some (set_gpr EAX gdtp_address c)) as E1
    by (cbn [step]; by rewrite (kernel_load c _ p Hk Hw), Ew).
  rewrite (run_step _ _ _ _ c _ Hk Hf E1). clear E1. set (c1 := set_gpr EAX gdtp_address c).
  assert (kernel_mode c1) as Hk1 by (by apply (kernel_mode_same c)).
  set (c2 := set_gdt (Gdt.gdt_flush (gdt c1)) c1).
  assert (step gdtp_address flags_after (Lgdt EAX) c1 = Some c2) as E2.
  { cbn [step]. unfold c1 at 1. cbn [gpr set_gpr]. rewrite fupd_same, u32_small by lia. by rewrite Z.eqb_refl. }
  rewrite (run_step _ _ _ _ c1 _ Hk1 Hf E2). clear E2.
  assert (booted_gdt (gdt c2)) as Hg by (exists rest; unfold c2; cbn [gdt c1 set_gdt set_gpr]; by rewrite Eg).
  assert (kernel_mode c2) as Hk2 by (by apply (kernel_mode_same c)).
  set (c3 := set_gpr EAX (low16 (gpr c2 EAX) 0x10) c2).
  rewrite (run_step _ _ (MovImm16 0x10 EAX) _ c2 c3 Hk2 Hf eq_refl).
  assert (u16 (gpr c3 EAX) = 0x10) as Ev by (unfold c3; cbn [gpr set_gpr]; by rewrite fupd_same, u16_low16).
  destruct (booted_data _ Hg) as [Hd Hs].
  do 5 (erewrite run_step; [| by apply (kernel_mode_same c) | exact Hf |
    cbn [step gdt gpr set_seg]; rewrite Ev; change (gdt c3) with (gdt c2); rewrite ?Hd, ?Hs; reflexivity]).
  erewrite run_step; [| by apply (kernel_mode_same c) | exact Hf |
    cbn [step gdt set_seg]; change (gdt c3) with (gdt c2); rewrite (booted_code _ Hg); reflexivity].
  eexists. split; [reflexivity |]. split; [done |]. split; [exact Hg |]. split; [reflexivity |].
  split; [reflexivity |]. intros s Hs'. by destruct s.
Qed.

(** ** Witnesses *)

Definition example_layout : layout :=
  mk_layout 0x3000 0x4000 0xC0005000 0xC0101000 0xC0102000 0x100020 0xC0101010.
Definition example_start : cpu :=
  mk_cpu (fun r => match r with EBX => 0x9500 | _ => 0 end) (fun _ => 0x10) 0x100000 true 2 0x11 0
    (Gdt.mk_gdt_state [] (Gdt.mk_gdt_ptr 0 0) (Gdt.mk_gdt_ptr 0 0)) (repeat 0 (Z.to_nat 0x6000)).

Lemma example_layout_ok size : 0x5000 <= size -> layout_ok example_layout size.
Proof.
  intros Hs. unfold example_layout. split;
    cbn [multiboot_stack_bottom multiboot_stack_top stack_top kernel_start].
  - lia.
  - split; [reflexivity | lia].
  - exists 0x5000. split; [reflexivity |]. split; [reflexivity | lia].
  - exists 0x101000. split; [lia | by right].
Qed.

Lemma start_reaches_kernel_main_witness : exists c,
  start 0xC0103000 (fun _ v => v) example_layout (fun _ => 0) (fun m => m) example_start = Some c /\
  eip c = 0xC0102000 /\ load c (gpr c ESP + 4) = Some 0x9500.
Proof.
  destruct (start_reaches_kernel_main 0xC0103000 (fun _ v => v) example_layout (fun _ => 0) (fun m => m) example_start)
    as (c & E & Ei & _ & _ & _ & _ & El & _).
  - apply example_layout_ok. unfold example_start. cbn [ram]. rewrite zlen_repeat. lia.
  - intros m. split; reflexivity.
  - reflexivity.
  - split; [discriminate | reflexivity].
  - exists c. exact (conj E (conj Ei El)).
Defined.

(** A call with 7 as the pointer to [gdtp]. *)
Lemma gdt_flush_loads_witness : exists c c', kernel_mode c /\
  run 7 (fun _ v => v) (gdt_flush 0xC0100100) c = Some c' /\ seg c' CS = 0x08 /\ seg c' SS = 0x10.
Proof.
  destruct (Paging.boot_init_spec (repeat 7 3 ++ repeat 0 (Z.to_nat 0x4000))) as (m & _ & Hl & Ht).
  { rewrite zlen_app, !zlen_repeat. lia. }
  destruct (Paging.store32_ok m 0x3F04 7) as (m' & _ & Hs).
  { rewrite zlen_app, !zlen_repeat in Hl. unfold Mem.range_in. lia. }
  rewrite zlen_app, !zlen_repeat in Hl. pose proof (proj1 Hs) as Hl'.
  set (c := mk_cpu (fun r => match r with ESP => 0xC0003F00 | _ => 0 end) (fun _ => 0)
    0xC0100000 false 0 0x80000001 Paging.boot_directory
    (Gdt.mk_gdt_state (Gdt.gdt_table ++ []) (Gdt.mk_gdt_ptr 48 0x800) (Gdt.mk_gdt_ptr 0 0)) m').
  assert (kernel_mode c) as Hk.
  { split; [reflexivity | reflexivity |]. exists (repeat 7 3 ++ repeat 0 (Z.to_nat 0x4000)).
    apply (boot_tables_kept _ m m' 0x3F04 _ Ht Hs). lia. }
  destruct (gdt_flush_loads 7 (fun _ v => v) 0xC0100100 c 0x3F04 Hk) as (c' & E & _ & _ & Ec & _ & Es).
  - exists 0x100000. split; [lia | by right].
  - split; [split; [lia | by right] | reflexivity | lia | cbn [c ram]; lia].
  - cbn [c ram]. rewrite (proj1 (proj2 Hs)). reflexivity.
  - lia.
  - exists [], (Gdt.mk_gdt_ptr 0 0). reflexivity.
  - exists c, c'. exact (conj Hk (conj E (conj Ec (Es SS ltac:(discriminate))))).
Defined.

End Boot.
