(* ===== verification/Str.v ===== *)
(** The string routines (lib/string/str.c).

    Strings are read from and written to the memory of Mem: the list of its
    bytes, with indices as addresses.  A [char] is signed; [rdc] is the value
    of a [char] access.  A loop of the source is a recursion with fuel; since
    each of its turns reads the memory further on, one more than the size of
    the memory is enough ([fuel_for]). *)

From Stdlib Require Import ZArith Lia Bool.
From stdpp Require Import base tactics numbers list option.
From S2P Require Import Prelude Mem.

Local Open Scope Z_scope.

Module Str.

Local Abbreviation mem := (list Z).

Definition rdc (m : mem) (p : Z) : result Z := b ← rd m p; Ok (i8 b).
Definition fuel_for (m : mem) : nat := S (length m).

(** ** str.c *)

Fixpoint isof_loop (fuel : nat) (m : mem) (c charset : Z) : result bool :=
  match fuel with
  | O => Err OutOfFuel
  | S fuel =>
      x ← rdc m charset;
      if x =? 0 then Ok false
      else if c =? x then Ok true else isof_loop fuel m c (charset + 1)
  end.
Definition isof (m : mem) (c charset : Z) : result bool :=
  isof_loop (fuel_for m) m c charset.

Fixpoint strlen_loop (fuel : nat) (m : mem) (s i : Z) : result Z :=
  match fuel with
  | O => Err OutOfFuel
  | S fuel =>
      x ← rdc m s;
      if x =? 0 then Ok i else strlen_loop fuel m (s + 1) (i + 1)
  end.
Definition strlen (m : mem) (s : Z) : result Z := strlen_loop (fuel_for m) m s 0.

(** [while ( *s && *s != c) s++;] *)
Fixpoint strchr_loop (fuel : nat) (m : mem) (s c : Z) : result Z :=
  match fuel with
  | O => Err OutOfFuel
  | S fuel =>
      x ← rdc m s;
      if negb (x =? 0) && negb (x =? c) then strchr_loop fuel m (s + 1) c else Ok s
  end.
Definition strchr (m : mem) (s c : Z) : result (option Z) :=
  s ← strchr_loop (fuel_for m) m s c;
  x ← rdc m s;
  Ok (if x =? c then Some s else None).

(** [while (len-- && *s != c) s--;] *)
Fixpoint strrchr_loop (len : nat) (m : mem) (s c : Z) : result Z :=
  match len with
  | O => Ok s
  | S len =>
      x ← rdc m s;
      if negb (x =? c) then strrchr_loop len m (s - 1) c else Ok s
  end.
Definition strrchr (m : mem) (s c : Z) : result (option Z) :=
  len ← strlen m s;
  s ← strrchr_loop (Z.to_nat len) m (s + len) c;
  x ← rdc m s;
  Ok (if x =? c then Some s else None).

(** The loop of strcmp stops at the first difference or at an end. *)
Fixpoint strcmp_loop (fuel : nat) (m : mem) (s1 s2 : Z) : result (Z * Z) :=
  match fuel with
  | O => Err OutOfFuel
  | S fuel =>
      x1 ← rdc m s1;
      if x1 =? 0 then Ok (s1, s2)
      else
        x2 ← rdc m s2;
        if negb (x2 =? 0) && (x1 =? x2) then strcmp_loop fuel m (s1 + 1) (s2 + 1)
        else Ok (s1, s2)
  end.
Definition strcmp (m : mem) (s1 s2 : Z) : result Z :=
  '(s1, s2) ← strcmp_loop (fuel_for m) m s1 s2;
  x1 ← rdc m s1; x2 ← rdc m s2; Ok (x1 - x2).

(** The loop of strncmp: [n--] is tested first, and wraps around at 0. *)
Fixpoint strncmp_loop (fuel : nat) (m : mem) (s1 s2 n : Z) : result (Z * Z * Z) :=
  match fuel with
  | O => Err OutOfFuel
  | S fuel =>
      if n =? 0 then Ok (s1, s2, u32 (n - 1))
      else
        let n := u32 (n - 1) in
        x1 ← rdc m s1;
        if x1 =? 0 then Ok (s1, s2, n)
        else
          x2 ← rdc m s2;
          if negb (x2 =? 0) && (x1 =? x2) then strncmp_loop fuel m (s1 + 1) (s2 + 1) n
          else Ok (s1, s2, n)
  end.
Definition strncmp (m : mem) (s1 s2 n : Z) : result Z :=
  '(s1, s2, n) ← strncmp_loop (fuel_for m) m s1 s2 n;
  if n =? 0 then Ok 0 else x1 ← rdc m s1; x2 ← rdc m s2; Ok (x1 - x2).

Fixpoint strcpy_loop (fuel : nat) (m : mem) (dst src : Z) : result mem :=
  match fuel with
  | O => Err OutOfFuel
  | S fuel =>
      x ← rdc m src;
      if x =? 0 then wr m dst 0
      else m ← wr m dst (u8 x); strcpy_loop fuel m (dst + 1) (src + 1)
  end.
(** The functions that return their first argument return it with the memory. *)
Definition strcpy (m : mem) (dst src : Z) : result (Z * mem) :=
  m ← strcpy_loop (fuel_for m) m dst src; Ok (dst, m).

Fixpoint strncpy_loop (n : nat) (m : mem) (dst src : Z) : result mem :=
  match n with
  | O => Ok m
  | S n => x ← rdc m src; m ← wr m dst (u8 x); strncpy_loop n m (dst + 1) (src + 1)
  end.
Definition strncpy (m : mem) (dst src n : Z) : result (Z * mem) :=
  m ← strncpy_loop (Z.to_nat n) m dst src; Ok (dst, m).

(** The loops of strspn ([want] is true) and of strcspn and strpbrk. *)
Fixpoint span_loop (fuel : nat) (want : bool) (m : mem) (s set count : Z)
    : result (Z * Z) :=
  match fuel with
  | O => Err OutOfFuel
  | S fuel =>
      x ← rdc m s;
      if x =? 0 then Ok (s, count)
      else
        b ← isof m x set;
        if eqb b want then span_loop fuel want m (s + 1) set (count + 1)
        else Ok (s, count)
  end.
Definition strspn (m : mem) (s accept : Z) : result Z :=
  '(_, count) ← span_loop (fuel_for m) true m s accept 0; Ok count.
Definition strcspn (m : mem) (s reject : Z) : result Z :=
  '(_, count) ← span_loop (fuel_for m) false m s reject 0; Ok count.
Definition strpbrk (m : mem) (s accept : Z) : result (option Z) :=
  '(s, _) ← span_loop (fuel_for m) false m s accept 0;
  x ← rdc m s;
  Ok (if negb (x =? 0) then Some s else None).

(** strstr: the inner loop returns where [tmpn] stops. *)
Fixpoint strstr_match (fuel : nat) (m : mem) (tmph tmpn : Z) : result Z :=
  match fuel with
  | O => Err OutOfFuel
  | S fuel =>
      h ← rdc m tmph;
      if h =? 0 then Ok tmpn
      else
        x ← rdc m tmpn;
        if negb (x =? 0) && (h =? x) then strstr_match fuel m (tmph + 1) (tmpn + 1)
        else Ok tmpn
  end.
Fixpoint strstr_loop (fuel : nat) (m : mem) (haystack needle : Z) : result Z :=
  match fuel with
  | O => Err OutOfFuel
  | S fuel =>
      h ← rdc m haystack;
      if h =? 0 then Ok haystack
      else
        tmpn ← strstr_match (fuel_for m) m haystack needle;
        x ← rdc m tmpn;
        if x =? 0 then Ok haystack else strstr_loop fuel m (haystack + 1) needle
  end.
Definition strstr (m : mem) (haystack needle : Z) : result Z :=
  strstr_loop (fuel_for m) m haystack needle.

(** strtok: [ptr] is the static variable, null before the first call; the
    other static one is always assigned before it is used. *)
Definition strtok (m : mem) (ptr str : option Z) (delim : Z)
    : result (Z * mem * option Z) :=
  let ptr := match str with Some s => Some s | None => ptr end in
  match ptr with
  | None => Err NullDeref
  | Some p =>
      '(p, _) ← span_loop (fuel_for m) true m p delim 0;
      '(tmp, _) ← span_loop (fuel_for m) false m p delim 0;
      m ← wr m tmp 0;
      Ok (p, m, Some p)
  end.

(** [while ( *dst++);] leaves [dst] behind the terminator. *)
Fixpoint skip_string (fuel : nat) (m : mem) (dst : Z) : result Z :=
  match fuel with
  | O => Err OutOfFuel
  | S fuel =>
      x ← rdc m dst;
      if negb (x =? 0) then skip_string fuel m (dst + 1) else Ok (dst + 1)
  end.
Definition strcat (m : mem) (dst src : Z) : result (Z * mem) :=
  let ptr := dst in
  dst ← skip_string (fuel_for m) m dst;
  '(_, m) ← strcpy m dst src;
  Ok (ptr, m).
Definition strncat (m : mem) (dst src n : Z) : result (Z * mem) :=
  let ptr := dst in
  dst ← skip_string (fuel_for m) m dst;
  '(_, m) ← strncpy m dst src n;
  m ← wr m (dst + n) 0;
  Ok (ptr, m).

(** ** Strings in memory *)

(** The memory holds the characters [l] and a terminator from [p] on. *)
Inductive cstr (m : mem) : Z -> list Z -> Prop :=
  | cstr_nil p : rdc m p = Ok 0 -> cstr m p []
  | cstr_cons p c l : rdc m p = Ok c -> c <> 0 -> cstr m (p + 1) l -> cstr m p (c :: l).

Lemma cstr_inv m p c l : cstr m p (c :: l) ->
  rdc m p = Ok c /\ c <> 0 /\ cstr m (p + 1) l.
Proof. intros H. by inversion H. Qed.

Lemma rdc_inv m p c : rdc m p = Ok c -> 0 <= p < zlen m /\ i8 (at_ 0 m p) = c.
Proof.
  unfold rdc. intros H. bind_tac. apply rd_inv in Hx as [Hr Ha]. by rewrite Ha.
Qed.

Lemma rdc_ok m p : 0 <= p < zlen m -> rdc m p = Ok (i8 (at_ 0 m p)).
Proof. intros. unfold rdc. by rewrite (rd_ok 0). Qed.

Lemma rdc_agree m m' p : zlen m' = zlen m -> at_ 0 m' p = at_ 0 m p -> rdc m' p = rdc m p.
Proof.
  intros Hl Ha. destruct (decide (0 <= p < zlen m)).
  - rewrite !rdc_ok by lia. by rewrite Ha.
  - unfold rdc. by rewrite !rd_out by lia.
Qed.

Lemma cstr_bound m p l : cstr m p l -> 0 <= p /\ p + zlen l < zlen m.
Proof.
  unfold zlen. induction 1 as [p H | p c l H Hc _ IH];
    apply rdc_inv in H; unfold zlen in *; cbn [length] in *; lia.
Qed.

Lemma cstr_fuel m p l : cstr m p l -> (length l < fuel_for m)%nat.
Proof. intros H%cstr_bound. unfold fuel_for, zlen in *. lia. Qed.

(** A string depends on its own bytes only. *)
Lemma cstr_agree m m' p l : cstr m p l -> zlen m' = zlen m ->
  (forall i, p <= i <= p + zlen l -> at_ 0 m' i = at_ 0 m i) -> cstr m' p l.
Proof.
  intros H Hl. induction H as [p H | p c l H Hc _ IH]; intros Ha.
  - apply cstr_nil. rewrite (rdc_agree m); [done | done | apply Ha; unfold zlen; cbn; lia].
  - unfold zlen in *. cbn [length] in Ha. apply cstr_cons; [| done |].
    + rewrite (rdc_agree m); [done | done | apply Ha; lia].
    + apply IH. intros i Hi. apply Ha. lia.
Qed.

Lemma cstr_inj m p l : cstr m p l -> forall l', cstr m p l' -> l' = l.
Proof.
  induction 1 as [p H | p c l H Hc _ IH]; intros l' Hl'; inversion Hl'; subst; try congruence.
  f_equal; [congruence | by apply IH].
Qed.

(** ** Scanning *)

Lemma strlen_loop_spec m s l : cstr m s l -> forall fuel i, (length l < fuel)%nat ->
  strlen_loop fuel m s i = Ok (i + zlen l).
Proof.
  unfold zlen.
  induction 1 as [p H | p c l H Hc _ IH]; intros [| fuel] i Hf; cbn [length] in *; try lia;
    cbn [strlen_loop]; rewrite H; cbn [mbind result_bind].
  - f_equal. cbn. lia.
  - rewrite (proj2 (Z.eqb_neq _ _) Hc), IH by lia. f_equal. lia.
Qed.

Lemma strlen_spec m s l : cstr m s l -> strlen m s = Ok (zlen l).
Proof. intros H. apply (strlen_loop_spec m s l H). by apply cstr_fuel with s. Qed.

Lemma isof_loop_spec m p l c : cstr m p l -> forall fuel, (length l < fuel)%nat ->
  isof_loop fuel m c p = Ok (bool_decide (c ∈ l)).
Proof.
  induction 1 as [p H | p x l H Hx _ IH]; intros [| fuel] Hf; cbn [length] in *; try lia;
    cbn [isof_loop]; rewrite H; cbn [mbind result_bind]; [done |].
  rewrite (proj2 (Z.eqb_neq _ _) Hx). destruct (Z.eqb_spec c x) as [-> | Hne].
  - by rewrite bool_decide_true by left.
  - rewrite IH by lia. f_equal. apply bool_decide_ext. rewrite elem_of_cons. tauto.
Qed.

Lemma isof_spec m p l c : cstr m p l -> isof m c p = Ok (bool_decide (c ∈ l)).
Proof. intros H. apply (isof_loop_spec m p l c H). by apply cstr_fuel with p. Qed.

(** The length of the longest prefix made of (or without) characters of a set. *)
Fixpoint span_len (want : bool) (set l : list Z) : nat :=
  match l with
  | [] => O
  | c :: l => if eqb (bool_decide (c ∈ set)) want then S (span_len want set l) else O
  end.

Lemma span_loop_spec want m s l q set : cstr m s l -> cstr m q set ->
  forall fuel count, (length l < fuel)%nat ->
  span_loop fuel want m s q count =
    Ok (s + Z.of_nat (span_len want set l), count + Z.of_nat (span_len want set l)).
Proof.
  intros Hl Hset. induction Hl as [p H | p x l H Hx _ IH]; intros [| fuel] count Hf;
    cbn [length] in *; try lia; cbn [span_loop span_len]; rewrite H; cbn [mbind result_bind].
  - do 2 f_equal; lia.
  - rewrite (proj2 (Z.eqb_neq _ _) Hx), (isof_spec m q set x Hset). cbn [mbind result_bind].
    destruct (eqb _ want); [rewrite IH by lia |]; do 2 f_equal; lia.
Qed.

(** ** Comparison *)

(** The difference of the first characters that differ, an end counting as a
    null character. *)
Fixpoint cmp (l1 l2 : list Z) : Z :=
  match l1, l2 with
  | [], [] => 0
  | [], c2 :: _ => - c2
  | c1 :: _, [] => c1
  | c1 :: l1, c2 :: l2 => if c1 =? c2 then cmp l1 l2 else c1 - c2
  end.

Lemma strcmp_loop_spec m s1 l1 : cstr m s1 l1 -> forall s2 l2 fuel, cstr m s2 l2 ->
  (length l1 < fuel)%nat ->
  ('(p1, p2) ← strcmp_loop fuel m s1 s2; x1 ← rdc m p1; x2 ← rdc m p2; Ok (x1 - x2)) =
    Ok (cmp l1 l2).
Proof.
  induction 1 as [p H | p c l H Hc _ IH]; intros s2 l2 [| fuel] H2 Hf; cbn [length] in *;
    try lia; cbn [strcmp_loop]; rewrite H; cbn [mbind result_bind].
  - cbn [Z.eqb mbind result_bind]. rewrite H.
    destruct H2 as [q E | q c2 l2 E Hc2 _]; cbn [mbind result_bind]; rewrite E; done.
  - rewrite (proj2 (Z.eqb_neq _ _) Hc).
    destruct H2 as [q E | q c2 l2 E Hc2 H2]; rewrite E; cbn [mbind result_bind].
    + cbn [Z.eqb negb andb mbind result_bind]. rewrite H, E. cbn. by rewrite Z.sub_0_r.
    + rewrite (proj2 (Z.eqb_neq _ _) Hc2). cbn [negb andb cmp].
      destruct (Z.eqb_spec c c2) as [-> | Hne]; [apply IH; [done | lia] |].
      cbn [mbind result_bind]. rewrite H, E. done.
Qed.

Lemma strcmp_spec m s1 l1 s2 l2 : cstr m s1 l1 -> cstr m s2 l2 ->
  strcmp m s1 s2 = Ok (cmp l1 l2).
Proof.
  intros H1 H2. apply (strcmp_loop_spec m s1 l1 H1); [done |]. by apply cstr_fuel with s1.
Qed.

Lemma cmp_zero l1 : forall l2, (forall c, c ∈ l1 -> c <> 0) -> (forall c, c ∈ l2 -> c <> 0) ->
  cmp l1 l2 = 0 <-> l1 = l2.
Proof.
  induction l1 as [| c l1 IH]; intros [| c2 l2] H1 H2; cbn [cmp]; [done | | |].
  - specialize (H2 c2 ltac:(left)). split; [lia | done].
  - specialize (H1 c ltac:(left)). split; [lia | done].
  - destruct (Z.eqb_spec c c2) as [-> | Hne].
    + rewrite IH; [| intros; apply H1; by right | intros; apply H2; by right].
      split; [by intros -> | by intros [= ->]].
    + split; [lia | congruence].
Qed.

Lemma cstr_nonzero m p l : cstr m p l -> forall c, c ∈ l -> c <> 0.
Proof.
  induction 1 as [p H | p c l H Hc _ IH]; intros x Hx; [by apply not_elem_of_nil in Hx |].
  apply elem_of_cons in Hx as [-> | Hx]; auto.
Qed.

(** strncmp when the strings agree on a prefix [l]. *)
Lemma strncmp_loop_prefix m l : forall s1 t1 s2 t2 fuel n,
  cstr m s1 (l ++ t1) -> cstr m s2 (l ++ t2) -> zlen l <= n < 4294967296 ->
  strncmp_loop (length l + fuel) m s1 s2 n =
    strncmp_loop fuel m (s1 + zlen l) (s2 + zlen l) (n - zlen l).
Proof.
  unfold zlen. induction l as [| c l IH]; intros s1 t1 s2 t2 fuel n H1 H2 Hn; cbn [length] in *.
  - by rewrite !Z.add_0_r, Z.sub_0_r.
  - inversion H1 as [| ? ? ? E1 Hc H1']; subst. inversion H2 as [| ? ? ? E2 _ H2']; subst.
    cbn [Nat.add strncmp_loop]. rewrite (proj2 (Z.eqb_neq n 0)) by lia. cbv zeta.
    rewrite E1. cbn [mbind result_bind]. rewrite (proj2 (Z.eqb_neq _ _) Hc), E2.
    cbn [mbind result_bind]. rewrite (proj2 (Z.eqb_neq _ _) Hc), Z.eqb_refl. cbn [negb andb].
    rewrite u32_small by lia. rewrite (IH _ t1 _ t2) by (done || lia). f_equal; lia.
Qed.

Lemma cstr_app m l : forall p t, cstr m p (l ++ t) -> cstr m (p + zlen l) t.
Proof.
  unfold zlen. induction l as [| c l IH]; intros p t H; cbn [length].
  - by rewrite Z.add_0_r.
  - inversion H; subst. replace (p + Z.of_nat (S (length l))) with (p + 1 + Z.of_nat (length l))
      by lia. by apply IH.
Qed.

(** The first character of a string, its end counting as a null one. *)
Definition head (l : list Z) : Z := match l with [] => 0 | c :: _ => c end.

Lemma cstr_head m p l : cstr m p l -> rdc m p = Ok (head l).
Proof. by destruct 1. Qed.

Lemma fuel_split m p l t : cstr m p (l ++ t) -> exists fuel, fuel_for m = (length l + S fuel)%nat.
Proof.
  intros H%cstr_fuel. rewrite length_app in H. exists (fuel_for m - length l - 1)%nat. lia.
Qed.

(** ** Copies *)

Lemma u8_i8 x : u8 (i8 x) = u8 x.
Proof. ints. destruct (Z.ltb_spec (x mod 256) 128); dlia. Qed.

Lemma i8_u8 x : i8 (u8 x) = i8 x.
Proof. ints. rewrite Z.mod_mod by lia. done. Qed.

(** What strcpy leaves: the string at its new place, and nothing else. *)
Lemma strcpy_loop_spec l : forall m fuel dst src, cstr m src l -> (length l < fuel)%nat ->
  0 <= dst -> dst + zlen l < zlen m ->
  dst + zlen l < src \/ src + zlen l < dst ->
  exists m', strcpy_loop fuel m dst src = Ok m' /\ cstr m' dst l /\ zlen m' = zlen m /\
    forall i, 0 <= i -> ~ (dst <= i <= dst + zlen l) -> at_ 0 m' i = at_ 0 m i.
Proof.
  unfold zlen. induction l as [| c l IH]; intros m [| fuel] dst src Hs Hf Hd Hin Hdis;
    cbn [length] in *; try lia; cbn [strcpy_loop].
  - inversion Hs as [? E |]; subst. rewrite E. cbn [mbind result_bind Z.eqb].
    rewrite wr_ok by (unfold zlen; lia). eexists. split; [done |].
    assert (forall i, 0 <= i ->
      at_ 0 (<[Z.to_nat dst := 0]> m) i = if i =? dst then 0 else at_ 0 m i) as Hat.
    { intros i Hi. apply at_insert; unfold zlen; lia. }
    split; [| split].
    + apply cstr_nil. rewrite rdc_ok by (rewrite zlen_insert; unfold zlen; lia).
      rewrite Hat by lia. by rewrite Z.eqb_refl.
    + by rewrite length_insert.
    + intros i Hi Hout. rewrite Hat by lia. by rewrite (proj2 (Z.eqb_neq i dst)) by lia.
  - inversion Hs as [| ? ? ? E Hc Hs']; subst. rewrite E. cbn [mbind result_bind].
    rewrite (proj2 (Z.eqb_neq _ _) Hc), wr_ok by (unfold zlen; lia). cbn [mbind result_bind].
    set (m1 := <[Z.to_nat dst := u8 c]> m).
    assert (forall i, 0 <= i -> at_ 0 m1 i = if i =? dst then u8 c else at_ 0 m i) as Hat.
    { intros i Hi. apply at_insert; unfold zlen; lia. }
    assert (length m1 = length m) as Hlen by apply length_insert.
    destruct (IH m1 fuel (dst + 1) (src + 1)) as (m' & -> & Hc' & Hl & Hfr); [| lia.. |].
    { apply (cstr_agree m); [done | unfold zlen; lia |]. intros i Hi. unfold zlen in Hi.
      pose proof (cstr_bound m _ _ Hs'). rewrite Hat by lia.
      by rewrite (proj2 (Z.eqb_neq i dst)) by lia. }
    exists m'. split; [done |]. split; [| split].
    + apply cstr_cons; [| done | done]. rewrite rdc_ok by (unfold zlen; lia).
      rewrite Hfr, Hat, Z.eqb_refl by lia. rewrite i8_u8.
      apply rdc_inv in E as [_ E]. rewrite <- E. unfold i8 at 1. by rewrite u8_i8.
    + lia.
    + intros i Hi Hout. rewrite Hfr, Hat by lia. by rewrite (proj2 (Z.eqb_neq i dst)) by lia.
Qed.

Lemma skip_string_spec m p l : cstr m p l -> forall fuel, (length l < fuel)%nat ->
  skip_string fuel m p = Ok (p + zlen l + 1).
Proof.
  unfold zlen. induction 1 as [p H | p c l H Hc _ IH]; intros [| fuel] Hf; cbn [length] in *;
    try lia; cbn [skip_string]; rewrite H; cbn [mbind result_bind].
  - cbn. f_equal. lia.
  - rewrite (proj2 (Z.eqb_neq _ _) Hc). cbn [negb]. rewrite IH by lia. f_equal. lia.
Qed.

(** ** Tokens *)

(** Cutting a string with a terminator. *)
Lemma cstr_cut m p l : cstr m p l -> forall b, (b <= length l)%nat ->
  cstr (<[Z.to_nat (p + Z.of_nat b) := 0]> m) p (take b l).
Proof.
  induction 1 as [p H | p c l H Hc Hl IH]; intros b Hb; cbn [length] in Hb.
  - assert (b = 0%nat) as -> by lia. apply cstr_nil. apply rdc_inv in H as [Hr _].
    rewrite rdc_ok by (by rewrite zlen_insert). rewrite at_insert by lia.
    by rewrite Z.add_0_r, Z.eqb_refl.
  - pose proof (cstr_bound m _ _ Hl). pose proof (rdc_inv _ _ _ H) as [Hr _].
    unfold zlen in *. destruct b as [| b]; cbn [take].
    + apply cstr_nil. rewrite rdc_ok by (by rewrite zlen_insert).
      rewrite at_insert by (unfold zlen; lia). by rewrite Z.add_0_r, Z.eqb_refl.
    + replace (p + Z.of_nat (S b)) with (p + 1 + Z.of_nat b) by lia.
      apply cstr_cons; [| done | apply IH; lia].
      rewrite (rdc_agree m); [done | apply zlen_insert |].
      rewrite at_insert by (unfold zlen; lia). by rewrite (proj2 (Z.eqb_neq _ _)) by lia.
Qed.

Lemma span_len_le want set l : (span_len want set l <= length l)%nat.
Proof. induction l as [| c l IH]; cbn; [lia |]. destruct (eqb _ want); lia. Qed.

Lemma span_len_take want set l :
  span_len want set (take (span_len want set l) l) = span_len want set l /\
  span_len (negb want) set (take (span_len want set l) l) = O.
Proof.
  induction l as [| c l IH]; cbn; [done |].
  destruct (bool_decide (c ∈ set)) eqn:E, want; cbn; rewrite ?E; cbn; try done;
    (split; [f_equal; apply IH | done]).
Qed.

Lemma cstr_drop m p l n : cstr m p l -> (n <= length l)%nat ->
  cstr m (p + Z.of_nat n) (drop n l).
Proof.
  intros H Hn. rewrite <- (take_drop n l) in H. apply cstr_app in H.
  unfold zlen in H. rewrite length_take in H. by replace (n `min` length l)%nat with n in H by lia.
Qed.

Lemma strtok_spec m ptr str p l d dl :
  (match str with Some s => Some s | None => ptr end) = Some p ->
  cstr m p l -> cstr m d dl ->
  let a := span_len true dl l in
  let b := span_len false dl (drop a l) in
  let q := p + Z.of_nat a in
  strtok m ptr str d = Ok (q, <[Z.to_nat (q + Z.of_nat b) := 0]> m, Some q).
Proof.
  intros Hp Hl Hd a b q. unfold strtok. rewrite Hp.
  rewrite (span_loop_spec true m p l d dl Hl Hd) by (by apply cstr_fuel with p).
  cbn [mbind result_bind].
  assert (cstr m q (drop a l)) as Hq by (apply cstr_drop; [done | apply span_len_le]).
  rewrite (span_loop_spec false m q (drop a l) d dl Hq Hd) by (by apply cstr_fuel with q).
  cbn [mbind result_bind]. pose proof (cstr_bound _ _ _ Hq).
  pose proof (span_len_le false dl (drop a l)). unfold zlen in *.
  rewrite wr_ok by (unfold zlen; lia). done.
Qed.

(** ** Properties *)

(** On terminated strings [strlen] returns the length, and [strcmp] the
    difference of the first characters that differ, so 0 exactly for equal
    strings. *)
Theorem strlen_strcmp_correct m s1 l1 s2 l2 : cstr m s1 l1 -> cstr m s2 l2 ->
  strlen m s1 = Ok (zlen l1) /\
  exists r, strcmp m s1 s2 = Ok r /\ r = cmp l1 l2 /\ (r = 0 <-> l1 = l2).
Proof.
  intros H1 H2. split; [by apply strlen_spec |]. exists (cmp l1 l2).
  split; [by apply strcmp_spec |]. split; [done |].
  apply cmp_zero; eauto using cstr_nonzero.
Qed.

(** [strncmp] is wrong at its bound: when the strings agree on their first [n]
    characters it returns the difference of the next ones, and when they differ
    only in the last character of the bound it returns 0. *)
Theorem strncmp_wrong_at_bound m s1 s2 l t1 t2 :
  cstr m s1 (l ++ t1) -> cstr m s2 (l ++ t2) -> zlen l + 1 < 4294967296 ->
  strncmp m s1 s2 (zlen l) = Ok (head t1 - head t2) /\
  (head t1 <> head t2 -> strncmp m s1 s2 (zlen l + 1) = Ok 0).
Proof.
  intros H1 H2 Hl. destruct (fuel_split m s1 l t1 H1) as (fuel & Hfuel).
  pose proof (zlen_nonneg l).
  pose proof (cstr_head _ _ _ (cstr_app m l s1 t1 H1)) as E1.
  pose proof (cstr_head _ _ _ (cstr_app m l s2 t2 H2)) as E2.
  unfold strncmp. rewrite Hfuel. split.
  - rewrite (strncmp_loop_prefix m l s1 t1 s2 t2) by (done || lia).
    rewrite Z.sub_diag. cbn [strncmp_loop Z.eqb mbind result_bind].
    change (u32 (0 - 1) =? 0) with false. cbv iota. by rewrite E1, E2.
  - intros Hne. rewrite (strncmp_loop_prefix m l s1 t1 s2 t2) by (done || lia).
    replace (zlen l + 1 - zlen l) with 1 by lia. cbn [strncmp_loop Z.eqb].
    change (u32 (1 - 1)) with 0. cbv zeta. rewrite E1. cbn [mbind result_bind].
    destruct (head t1 =? 0); [done |]. rewrite E2. cbn [mbind result_bind].
    by rewrite (proj2 (Z.eqb_neq _ _) Hne), andb_false_r.
Qed.

(** [strcat] appends nothing: it skips the terminator of the destination too,
    so the source is copied behind it and the destination remains the string it
    was. *)
Theorem strcat_appends_nothing m dst src l1 l2 :
  cstr m dst l1 -> cstr m src l2 ->
  let end_ := dst + zlen l1 + 1 in
  end_ + zlen l2 < zlen m -> end_ + zlen l2 < src \/ src + zlen l2 < end_ ->
  exists m', strcat m dst src = Ok (dst, m') /\ cstr m' dst l1 /\ cstr m' end_ l2.
Proof.
  intros H1 H2 end_ Hin Hdis. pose proof (cstr_bound _ _ _ H1). pose proof (zlen_nonneg l1).
  unfold strcat. rewrite (skip_string_spec m dst l1 H1) by (by apply cstr_fuel with dst).
  cbn [mbind result_bind]. unfold strcpy. fold end_.
  destruct (strcpy_loop_spec l2 m (fuel_for m) end_ src) as (m' & -> & Hc & Hl & Hfr);
    [done | by apply cstr_fuel with src | lia.. |].
  cbn [mbind result_bind]. exists m'. split; [done |]. split; [| done].
  apply (cstr_agree m); [done | done |]. intros i Hi. apply Hfr; lia.
Qed.

(** [strtok] does not advance: called again with a null pointer it returns the
    token of the first call again, and changes nothing. *)
Theorem strtok_never_advances m ptr s l d dl :
  cstr m s l -> cstr m d dl ->
  let a := span_len true dl l in
  let b := span_len false dl (drop a l) in
  ~ (d <= s + Z.of_nat a + Z.of_nat b <= d + zlen dl) ->
  exists p m', strtok m ptr (Some s) d = Ok (p, m', Some p) /\
    cstr m' p (take b (drop a l)) /\ strtok m' (Some p) None d = Ok (p, m', Some p).
Proof.
  intros Hl Hd a b Hout. pose proof (cstr_bound _ _ _ Hl) as Hb. unfold zlen in Hb.
  pose proof (span_len_le true dl l) as Ha. fold a in Ha.
  pose proof (span_len_le false dl (drop a l)) as Hbl. fold b in Hbl.
  rewrite length_drop in Hbl.
  set (p := s + Z.of_nat a). set (q := p + Z.of_nat b).
  exists p, (<[Z.to_nat q := 0]> m).
  assert (cstr (<[Z.to_nat q := 0]> m) p (take b (drop a l))) as Htok.
  { apply cstr_cut; [by apply cstr_drop | rewrite length_drop; lia]. }
  split; [by apply strtok_spec |]. split; [done |].
  assert (cstr (<[Z.to_nat q := 0]> m) d dl) as Hd'.
  { apply (cstr_agree m); [done | apply zlen_insert |]. intros i Hi.
    pose proof (cstr_bound _ _ _ Hd). rewrite at_insert by (unfold zlen; lia).
    by rewrite (proj2 (Z.eqb_neq i q)) by (unfold q, p; lia). }
  pose proof (strtok_spec _ (Some p) None p _ d dl eq_refl Htok Hd') as E. cbv zeta in E.
  destruct (span_len_take false dl (drop a l)) as [E1 E2]. fold b in E1, E2.
  cbn [negb] in E2. rewrite E2, drop_0, E1, Z.add_0_r in E. fold q in E.
  by rewrite list_insert_insert_eq in E.
Qed.

(** ** Witnesses *)

(** "ab", "ac" and " a b": the strings at 0, 3 and 6, delimiters at 11. *)
Definition example_mem : mem :=
  [97; 98; 0; 97; 99; 0; 32; 97; 32; 98; 0; 32; 0; 97; 0; 0; 0; 0].

Ltac string := repeat (first [ apply cstr_nil; reflexivity
                             | apply cstr_cons; [reflexivity | discriminate |] ]).

Lemma strlen_strcmp_correct_witness :
  strlen example_mem 0 = Ok 2 /\ strcmp example_mem 0 3 <> Ok 0.
Proof.
  destruct (strlen_strcmp_correct example_mem 0 [97; 98] 3 [97; 99]) as (Hl & r & Hc & _ & Hr);
    [string | string |].
  split; [exact Hl |]. rewrite Hc. intros [= ->]. discriminate (proj1 Hr eq_refl).
Defined.

Lemma strncmp_wrong_at_bound_witness :
  strncmp example_mem 0 3 1 = Ok (-1) /\ strncmp example_mem 0 3 2 = Ok 0.
Proof.
  destruct (strncmp_wrong_at_bound example_mem 0 3 [97] [98] [99]) as [H1 H2];
    [string | string | reflexivity |].
  split; [exact H1 | apply H2; discriminate].
Defined.

Lemma strcat_appends_nothing_witness :
  exists m, strcat example_mem 13 0 = Ok (13, m) /\ cstr m 13 [97].
Proof.
  destruct (strcat_appends_nothing example_mem 13 0 [97] [97; 98]) as (m & E & H & _);
    [string | string | reflexivity | right; reflexivity |].
  exists m. exact (conj E H).
Defined.

Lemma strtok_never_advances_witness :
  exists m, strtok example_mem None (Some 6) 11 = Ok (7, m, Some 7) /\
    strtok m (Some 7) None 11 = Ok (7, m, Some 7).
Proof.
  destruct (strtok_never_advances example_mem None 6 [32; 97; 32; 98] 11 [32])
    as (p & m & E & _ & E'); [string | string | vm_compute; intuition congruence |].
  assert (p = 7) as Hp by (vm_compute in E; congruence). subst p.
  exists m. exact (conj E E').
Defined.

End Str.
