(* ===== verification/StrTol.v ===== *)
(** Numbers from strings and the rest of the standard library: lib/std/strtol.c,
    strtoll.c, strtoul.c, strtoull.c, atoi.c, abs.c and bsearch.c.

    The four conversions are two functions written for two widths; [w] is the
    width of the result ([long] has 32 bits here, [long long] 64).  Every turn
    of their loops reads the string further on, so [Str.fuel_for] is enough
    fuel. *)

From Stdlib Require Import ZArith Lia Bool.
From stdpp Require Import base tactics numbers list option.
From S2P Require Import Prelude Logic Mem Str.

Local Open Scope Z_scope.

Module StrTol.

Local Abbreviation mem := (list Z).
Import Str.

(** ** Conversions *)

(** An unsigned, and a signed, integer of [w] bits. *)
Definition uw (w x : Z) : Z := x mod 2 ^ w.
Definition iw (w x : Z) : Z := let y := uw w x in if y <? 2 ^ (w - 1) then y else y - 2 ^ w.

Definition MAX (w : Z) : Z := 2 ^ (w - 1) - 1.
Definition MIN (w : Z) : Z := - 2 ^ (w - 1).
Definition UMAX (w : Z) : Z := 2 ^ w - 1.

(** [do { c = *s++; } while (c == ' ');]: the character and the new [s]. *)
Fixpoint skip_spaces (fuel : nat) (m : mem) (s : Z) : result (Z * Z) :=
  match fuel with
  | O => Err OutOfFuel
  | S fuel =>
      c ← rdc m s;
      if c =? 32 then skip_spaces fuel m (s + 1) else Ok (c, s + 1)
  end.

(** The value of a digit, in any base. *)
Definition digit (c : Z) : option Z :=
  if (48 <=? c) && (c <=? 57) then Some (c - 48)
  else if (65 <=? c) && (c <=? 90) then Some (c - (65 - 10))
  else if (97 <=? c) && (c <=? 122) then Some (c - (97 - 10))
  else None.

(** The detection of a prefix and of the base, from the current character. *)
Definition base_prefix (m : mem) (c s base : Z) : result (Z * Z * Z) :=
  '(c, s, base) ←
    (if ((base =? 0) || (base =? 16)) && (c =? 48) then
       x ← rdc m s;
       if (x =? 120) || (x =? 88) then c ← rdc m (s + 1); Ok (c, s + 2, 16)
       else Ok (c, s, base)
     else Ok (c, s, base));
  Ok (c, s, if base =? 0 then if c =? 48 then 8 else 10 else base).

(** The loop over the digits; [any] is -1 after an overflow. *)
Fixpoint digits_loop (fuel : nat) (w : Z) (m : mem) (c s base cutoff cutlim acc any : Z)
    : result (Z * Z * Z) :=
  match fuel with
  | O => Err OutOfFuel
  | S fuel =>
      match digit c with
      | None => Ok (acc, any, s)
      | Some c =>
          if c >=? base then Ok (acc, any, s)
          else
            let (acc, any) :=
              if (any <? 0) || (acc >? cutoff) || ((acc =? cutoff) && (c >? cutlim))
              then (acc, -1)
              else (uw w (uw w (acc * base) + c), 1) in
            c ← rdc m s;
            digits_loop fuel w m c (s + 1) base cutoff cutlim acc any
      end
  end.

(** strtol and strtoll: the result and the value stored in [*endptr]. *)
Definition strto_signed (w : Z) (m : mem) (nptr base : Z) : result (Z * Z) :=
  '(c, s) ← skip_spaces (fuel_for m) m nptr;
  '(neg, c, s) ←
    (if c =? 45 then c ← rdc m s; Ok (true, c, s + 1)
     else if c =? 43 then c ← rdc m s; Ok (false, c, s + 1)
     else Ok (false, c, s));
  '(c, s, base) ← base_prefix m c s base;
  let cutoff := if neg : bool then uw w (- uw w (MIN w)) else MAX w in
  let cutlim := cutoff mod base in
  let cutoff := cutoff / base in
  '(acc, any, s) ← digits_loop (fuel_for m) w m c s base cutoff cutlim 0 0;
  let acc := if any <? 0 then uw w (if neg then MIN w else MAX w)
             else if neg then uw w (- acc) else acc in
  Ok (iw w acc, if negb (any =? 0) then s - 1 else nptr).

(** strtoul and strtoull *)
Definition strto_unsigned (w : Z) (m : mem) (nptr base : Z) : result (Z * Z) :=
  '(c, s) ← skip_spaces (fuel_for m) m nptr;
  '(c, s) ← (if c =? 43 then c ← rdc m s; Ok (c, s + 1) else Ok (c, s));
  '(c, s, base) ← base_prefix m c s base;
  let cutoff := UMAX w in
  let cutlim := cutoff mod base in
  let cutoff := cutoff / base in
  '(acc, any, s) ← digits_loop (fuel_for m) w m c s base cutoff cutlim 0 0;
  let acc := if any <? 0 then UMAX w else acc in
  Ok (acc, if negb (any =? 0) then s - 1 else nptr).

Definition strtol (m : mem) (nptr base : Z) : result (Z * Z) := strto_signed 32 m nptr base.
Definition strtoll (m : mem) (nptr base : Z) : result (Z * Z) := strto_signed 64 m nptr base.
Definition strtoul (m : mem) (nptr base : Z) : result (Z * Z) := strto_unsigned 32 m nptr base.
Definition strtoull (m : mem) (nptr base : Z) : result (Z * Z) :=
  strto_unsigned 64 m nptr base.

Definition atoi (m : mem) (nptr : Z) : result Z :=
  '(r, _) ← strtol m nptr 10; Ok (i32 r).

(** ** abs.c and bsearch.c *)

Definition abs (x : Z) : Z := if x <? 0 then i32 (- x) else x.
Definition labs (x : Z) : Z := if x <? 0 then i32 (- x) else x.
Definition llabs (x : Z) : Z := if x <? 0 then i64 (- x) else x.

(** [compar] is the function the caller passes, applied to two addresses; the
    search is linear. *)
Fixpoint bsearch_loop (n : nat) (compar : Z -> Z -> result Z) (key base i size : Z)
    : result (option Z) :=
  match n with
  | O => Ok None
  | S n =>
      let ptr := base + u32 (i * size) in
      r ← compar key ptr;
      if r =? 0 then Ok (Some ptr) else bsearch_loop n compar key base (i + 1) size
  end.
Definition bsearch (key base nitems size : Z) (compar : Z -> Z -> result Z)
    : result (option Z) :=
  bsearch_loop (Z.to_nat nitems) compar key base 0 size.

(** ** The digits of a number *)

(** The characters [l] are digits of [base] and denote [ds]. *)
Definition denotes (base : Z) (l ds : list Z) : Prop :=
  Forall2 (fun c d => digit c = Some d /\ d < base) l ds.

(** The value of a list of digits, after the digits read so far. *)
Definition value (base acc : Z) (ds : list Z) : Z :=
  fold_left (fun a d => a * base + d) ds acc.

Lemma digit_nonneg c d : digit c = Some d -> 0 <= d.
Proof.
  unfold digit. intros H.
  destruct (Z.leb_spec 48 c), (Z.leb_spec c 57), (Z.leb_spec 65 c), (Z.leb_spec c 90),
    (Z.leb_spec 97 c), (Z.leb_spec c 122); cbn in H; try discriminate H; injection H as <-; lia.
Qed.

Lemma value_mono base acc ds : 1 <= base -> 0 <= acc -> Forall (fun d => 0 <= d) ds ->
  acc <= value base acc ds.
Proof.
  intros Hb. revert acc. induction ds as [| d ds IH]; intros acc Ha Hds; [done |].
  inversion Hds; subst. cbn. etrans; [| apply IH; [nia | done]]. nia.
Qed.

Lemma denotes_nonneg base l ds : denotes base l ds -> Forall (fun d => 0 <= d) ds.
Proof.
  induction 1 as [| c d l ds [H _] _ IH]; constructor; [by apply digit_nonneg in H | done].
Qed.

(** The overflow test of the loop, without overflow. *)
Lemma cutoff_spec lim base acc d : 0 < base -> 0 <= lim -> 0 <= d < base -> 0 <= acc ->
  ((acc >? lim / base) || ((acc =? lim / base) && (d >? lim mod base))) =
  (acc * base + d >? lim).
Proof.
  intros Hb Hl Hd Ha. pose proof (Z.div_mod lim base ltac:(lia)).
  pose proof (Z.mod_pos_bound lim base ltac:(lia)).
  destruct (Z.gtb_spec acc (lim / base)), (Z.eqb_spec acc (lim / base)),
    (Z.gtb_spec d (lim mod base)), (Z.gtb_spec (acc * base + d) lim); cbn; (done || nia).
Qed.

(** The end of a number: a character that is no digit of the base. *)
Definition stops (base c : Z) : Prop :=
  match digit c with Some d => base <= d | None => True end.

(** The memory holds the characters [l] at [p], and [c] behind them. *)
Fixpoint chars (m : mem) (p : Z) (l : list Z) (c : Z) : Prop :=
  match l with
  | [] => rdc m p = Ok c
  | x :: l => rdc m p = Ok x /\ chars m (p + 1) l c
  end.

Lemma chars_head m p l c : chars m p l c -> exists x, rdc m p = Ok x.
Proof. destruct l; cbn; [eauto | intros [? _]; eauto]. Qed.

Lemma chars_bound m l c : forall p, chars m p l c -> 0 <= p /\ p + zlen l < zlen m.
Proof.
  unfold zlen. induction l as [| x l IH]; intros p H; cbn in H.
  - apply rdc_inv in H. unfold zlen in H. cbn. lia.
  - destruct H as [H%rdc_inv H2%IH]. unfold zlen in *. cbn [length]. lia.
Qed.

(** Digits past an overflow are skipped. *)
Lemma digits_loop_overflow w m base cutoff cutlim e l ds : denotes base l ds ->
  forall c s acc fuel, chars m (s - 1) l e -> rdc m (s - 1) = Ok c -> stops base e ->
  (length l < fuel)%nat ->
  digits_loop fuel w m c s base cutoff cutlim acc (-1) = Ok (acc, -1, s + zlen l).
Proof.
  unfold zlen. induction 1 as [| x d l ds [Hd Hlt] _ IH]; intros c s acc [| fuel] Hch Hc Hs Hf;
    cbn [length] in *; try lia; cbn [digits_loop].
  - cbn in Hch. rewrite Hch in Hc. injection Hc as ->. unfold stops in Hs.
    destruct (digit c) as [d |]; [rewrite (proj2 (Z.geb_le d base)) by lia |];
      do 2 f_equal; lia.
  - destruct Hch as [Hx Hch]. rewrite Hx in Hc. injection Hc as <-. rewrite Hd.
    destruct (Z.geb_spec d base); [lia |]. cbn [Z.ltb Z.compare orb].
    replace (s - 1 + 1) with s in Hch by lia.
    destruct (chars_head _ _ _ _ Hch) as [c' Hc']. rewrite Hc'. cbn [mbind result_bind].
    rewrite (IH c' (s + 1)); [do 2 f_equal; lia | by rewrite Z.add_simpl_r
                             | by rewrite Z.add_simpl_r | done | lia].
Qed.

(** The accumulator is the value of the digits while it fits below [lim]. *)
Lemma digits_loop_spec w m base lim e l ds :
  denotes base l ds -> 1 < base -> 0 <= lim < 2 ^ w -> stops base e ->
  forall c s acc any fuel, chars m (s - 1) l e -> rdc m (s - 1) = Ok c ->
  0 <= any -> 0 <= acc <= lim -> (length l < fuel)%nat ->
  exists acc' any',
    digits_loop fuel w m c s base (lim / base) (lim mod base) acc any =
      Ok (acc', any', s + zlen l) /\
    if value base acc ds <=? lim
    then acc' = value base acc ds /\ any' = (match ds with [] => any | _ => 1 end)
    else any' = -1.
Proof.
  intros Hden Hb Hlim Hs. unfold zlen.
  induction Hden as [| x d l ds [Hd Hlt] Hden IH]; intros c s acc any [| fuel] Hch Hc Hany Hacc Hf;
    cbn [length] in *; try lia; cbn [digits_loop].
  - exists acc, any. cbn in Hch. rewrite Hch in Hc. injection Hc as ->. cbn [value fold_left].
    rewrite (proj2 (Z.leb_le acc lim)) by lia. split; [| done]. unfold stops in Hs.
    destruct (digit c) as [d |]; [rewrite (proj2 (Z.geb_le d base)) by lia |];
      do 2 f_equal; lia.
  - pose proof (digit_nonneg _ _ Hd) as Hd0.
    destruct Hch as [Hx Hch]. rewrite Hx in Hc. injection Hc as <-. rewrite Hd.
    destruct (Z.geb_spec d base); [lia |]. rewrite (proj2 (Z.ltb_ge any 0)) by lia.
    cbn [orb]. rewrite cutoff_spec by lia.
    replace (s - 1 + 1) with s in Hch by lia.
    destruct (chars_head _ _ _ _ Hch) as [c' Hc'].
    pose proof (denotes_nonneg _ _ _ Hden) as Hnn.
    change (value base acc (d :: ds)) with (value base (acc * base + d) ds).
    destruct (Z.gtb_spec (acc * base + d) lim) as [Hgt | Hle]; rewrite Hc';
      cbn [mbind result_bind].
    + rewrite (digits_loop_overflow _ _ _ _ _ e l ds Hden);
        [| by rewrite Z.add_simpl_r | by rewrite Z.add_simpl_r | done | lia].
      exists acc, (-1). split; [do 2 f_equal; unfold zlen; lia |].
      pose proof (value_mono base (acc * base + d) ds ltac:(lia) ltac:(nia) Hnn).
      by rewrite (proj2 (Z.leb_gt _ _)) by lia.
    + unfold uw at 2. rewrite (Z.mod_small (acc * base)) by nia.
      unfold uw. rewrite (Z.mod_small (acc * base + d)) by nia.
      destruct (IH c' (s + 1) (acc * base + d) 1 fuel) as (acc' & any' & -> & Hres);
        [by rewrite Z.add_simpl_r | by rewrite Z.add_simpl_r | lia | nia | lia |].
      exists acc', any'. split; [do 2 f_equal; lia |].
      destruct (value base (acc * base + d) ds <=? lim); [| done].
      destruct Hres as [-> ->]. split; [done |]. by destruct ds.
Qed.

(** ** Whole numbers *)

(** The text of a number: spaces, a sign, an optional prefix of base 16, digits. *)
Inductive sign : Type := Plain | Plus | Minus.
Definition sign_text (sg : sign) : list Z :=
  match sg with Plain => [] | Plus => [43] | Minus => [45] end.

Definition negative (sg : sign) : bool := match sg with Minus => true | _ => false end.

Lemma chars_app m l1 l2 c : forall p, chars m p (l1 ++ l2) c ->
  chars m (p + zlen l1) l2 c.
Proof.
  unfold zlen. induction l1 as [| x l1 IH]; intros p H; cbn [length].
  - by rewrite Z.add_0_r.
  - destruct H as [_ H%IH]. by replace (p + Z.of_nat (S (length l1)))
      with (p + 1 + Z.of_nat (length l1)) by lia.
Qed.

(** Skipping [n] spaces. *)
Lemma skip_spaces_spec m e l x : x <> 32 -> forall n p fuel,
  chars m p (repeat 32 n ++ l) e -> rdc m (p + Z.of_nat n) = Ok x -> (n < fuel)%nat ->
  skip_spaces fuel m p = Ok (x, p + Z.of_nat n + 1).
Proof.
  intros Hx. induction n as [| n IH]; intros p [| fuel] Hch Hr Hf; try lia; cbn [skip_spaces].
  - rewrite Z.add_0_r in Hr |- *. rewrite Hr. cbn [mbind result_bind].
    by rewrite (proj2 (Z.eqb_neq _ _) Hx).
  - destruct Hch as [Hc Hch]. rewrite Hc. cbn [mbind result_bind]. cbn [Z.eqb Pos.eqb].
    rewrite IH; [do 2 f_equal; lia | done | | lia].
    by replace (p + 1 + Z.of_nat n) with (p + Z.of_nat (S n)) by lia.
Qed.

(** In a base from 2 to 36 other than 16 no prefix is looked for. *)
Lemma base_prefix_none m c s base : base <> 0 -> base <> 16 ->
  base_prefix m c s base = Ok (c, s, base).
Proof.
  intros H0 H16. unfold base_prefix.
  rewrite (proj2 (Z.eqb_neq _ _) H0), (proj2 (Z.eqb_neq _ _) H16).
  cbn [orb andb mbind result_bind]. by rewrite (proj2 (Z.eqb_neq _ _) H0).
Qed.

(** The value a signed conversion returns: the number, or the nearest bound. *)
Definition clamp (w x : Z) : Z := Z.max (MIN w) (Z.min (MAX w) x).

Lemma pow2_half w : 1 <= w -> 2 ^ w = 2 * 2 ^ (w - 1).
Proof. intros. rewrite <- Z.pow_succ_r by lia. f_equal. lia. Qed.

Lemma iw_small w x : 1 <= w -> MIN w <= x <= MAX w -> iw w x = x.
Proof.
  unfold MIN, MAX, iw, uw. intros Hw Hx. pose proof (pow2_half w Hw).
  pose proof (Z.pow_pos_nonneg 2 (w - 1)). cbv zeta.
  destruct (Z.lt_ge_cases x 0).
  - assert (x mod 2 ^ w = x + 2 ^ w) as -> by (symmetry; apply Z.mod_unique with (-1); lia).
    destruct (Z.ltb_spec (x + 2 ^ w) (2 ^ (w - 1))); lia.
  - rewrite Z.mod_small by lia. destruct (Z.ltb_spec x (2 ^ (w - 1))); lia.
Qed.

Lemma iw_uw w x : iw w (uw w x) = iw w x.
Proof.
  unfold iw, uw. destruct (Z.eq_dec (2 ^ w) 0) as [-> |]; [by rewrite !Z.mod_0_r |].
  by rewrite Z.mod_mod.
Qed.

(** The limit the code compares with. *)
Lemma cutoff_value w neg : 1 <= w ->
  (if neg : bool then uw w (- uw w (MIN w)) else MAX w) =
  (if neg then 2 ^ (w - 1) else 2 ^ (w - 1) - 1).
Proof.
  intros Hw. destruct neg; [| done]. unfold uw, MIN.
  pose proof (pow2_half w Hw). pose proof (Z.pow_pos_nonneg 2 (w - 1)).
  rewrite <- (Z.mod_unique (- 2 ^ (w - 1)) (2 ^ w) (-1) (2 ^ (w - 1))) by lia.
  symmetry. apply Z.mod_unique with (-1); lia.
Qed.

Lemma chars_first_digit m p l ds base e : chars m p l e -> denotes base l ds -> l <> [] ->
  exists x, rdc m p = Ok x /\ x <> 32 /\ x <> 45 /\ x <> 43.
Proof.
  intros Hch Hden Hne. destruct Hden as [| x d l ds [Hd _] _]; [done |].
  destruct Hch as [Hx _]. exists x. split; [done |].
  split_and!; intros ->; discriminate Hd.
Qed.

(** The loop and the final clamping, for the digits that follow a sign. *)
Lemma finish_signed w neg m base c s nptr l ds e :
  1 <= w -> 1 < base -> denotes base l ds -> l <> [] -> stops base e ->
  chars m (s - 1) l e -> rdc m (s - 1) = Ok c ->
  (let cutoff := if neg : bool then uw w (- uw w (MIN w)) else MAX w in
   let cutlim := cutoff mod base in
   let cutoff := cutoff / base in
   '(acc, any, s) ← digits_loop (fuel_for m) w m c s base cutoff cutlim 0 0;
   let acc := if any <? 0 then uw w (if neg then MIN w else MAX w)
              else if neg then uw w (- acc) else acc in
   Ok (iw w acc, if negb (any =? 0) then s - 1 else nptr)) =
  Ok (clamp w (if neg then - value base 0 ds else value base 0 ds), s - 1 + zlen l).
Proof.
  intros Hw Hb Hden Hne Hs Hch Hc. cbv zeta. rewrite (cutoff_value w neg Hw).
  pose proof (pow2_half w Hw). pose proof (Z.pow_pos_nonneg 2 (w - 1)).
  set (lim := if neg then 2 ^ (w - 1) else 2 ^ (w - 1) - 1).
  assert (0 <= lim < 2 ^ w) as Hlim by (unfold lim; destruct neg; lia).
  pose proof (chars_bound _ _ _ _ Hch) as Hbd. unfold zlen in Hbd.
  destruct (digits_loop_spec w m base lim e l ds Hden Hb Hlim Hs c s 0 0 (fuel_for m))
    as (acc & any & -> & Hres); [done | done | lia | lia | unfold fuel_for; lia |].
  cbn [mbind result_bind].
  pose proof (value_mono base 0 ds ltac:(lia) ltac:(lia) (denotes_nonneg _ _ _ Hden)) as Hv.
  assert (match ds with [] => 0 | _ => 1 end = 1) as Hone.
  { destruct Hden; done. }
  destruct (Z.leb_spec (value base 0 ds) lim) as [Hle | Hgt].
  - destruct Hres as [-> ->]. rewrite Hone. cbn [Z.ltb Z.compare Z.eqb negb].
    f_equal. f_equal; [| lia]. unfold clamp.
    rewrite Z.min_r, Z.max_r by (unfold lim, MIN, MAX in *; destruct neg; lia).
    destruct neg; [rewrite iw_uw |]; apply iw_small; unfold lim, MIN, MAX in *; lia.
  - rewrite Hres. cbn [Z.ltb Z.compare Z.eqb negb]. f_equal. f_equal; [| lia].
    rewrite iw_uw, iw_small by (unfold MIN, MAX; destruct neg; lia).
    unfold clamp, lim, MIN, MAX in *. destruct neg; lia.
Qed.

Lemma strto_signed_spec w m nptr n sg l ds e base :
  1 <= w -> 2 <= base <= 36 -> base <> 16 ->
  chars m nptr (repeat 32 n ++ sign_text sg ++ l) e -> denotes base l ds -> l <> [] ->
  stops base e ->
  strto_signed w m nptr base =
    Ok (clamp w (if negative sg then - value base 0 ds else value base 0 ds),
        nptr + Z.of_nat n + zlen (sign_text sg) + zlen l).
Proof.
  intros Hw Hb H16 Hch Hden Hne Hs. unfold strto_signed.
  pose proof (chars_bound _ _ _ _ Hch) as Hbd.
  pose proof (chars_app _ _ _ _ _ Hch) as Hch1. unfold zlen in Hch1.
  rewrite repeat_length in Hch1.
  pose proof (chars_app _ _ _ _ _ Hch1) as Hch2.
  destruct (chars_first_digit _ _ _ _ _ _ Hch2 Hden Hne) as (x & Hx & N1 & N2 & N3).
  assert (n < fuel_for m)%nat as Hfuel.
  { unfold fuel_for, zlen in *. rewrite length_app, repeat_length in Hbd. lia. }
  destruct sg; cbn [sign_text negative app] in *; unfold zlen in *; cbn [length] in *;
    change (Z.of_nat 1) with 1 in *.
  - rewrite Z.add_0_r in Hch2, Hx.
    rewrite (skip_spaces_spec m e l x N1 n nptr) by done. cbn [mbind result_bind].
    rewrite (proj2 (Z.eqb_neq _ _) N2), (proj2 (Z.eqb_neq _ _) N3). cbn [mbind result_bind].
    rewrite base_prefix_none by lia. cbn [mbind result_bind].
    rewrite (finish_signed w false m base x _ nptr l ds e);
      rewrite ?Z.add_simpl_r; try (done || lia).
    do 2 f_equal. unfold zlen. lia.
  - destruct Hch1 as [H43 _].
    rewrite (skip_spaces_spec m e (43 :: l) 43 ltac:(done) n nptr) by done.
    cbn [mbind result_bind Z.eqb Pos.eqb]. rewrite Hx. cbn [mbind result_bind].
    rewrite base_prefix_none by lia. cbn [mbind result_bind].
    rewrite (finish_signed w false m base x _ nptr l ds e);
      rewrite ?Z.add_simpl_r; try (done || lia).
  - destruct Hch1 as [H45 _].
    rewrite (skip_spaces_spec m e (45 :: l) 45 ltac:(done) n nptr) by done.
    cbn [mbind result_bind Z.eqb Pos.eqb]. rewrite Hx. cbn [mbind result_bind].
    rewrite base_prefix_none by lia. cbn [mbind result_bind].
    rewrite (finish_signed w true m base x _ nptr l ds e);
      rewrite ?Z.add_simpl_r; try (done || lia).
Qed.

(** C35: [strtol] and [strtoll] on spaces, an optional sign and digits of a base
    from 2 to 36 other than 16, up to a character that is no digit: the number, or the
    bound of the type it lies beyond, and the address of that character. *)
Theorem strto_signed_correct w m nptr n sg l ds e base :
  1 <= w -> 2 <= base <= 36 -> base <> 16 ->
  chars m nptr (repeat 32 n ++ sign_text sg ++ l) e -> denotes base l ds -> l <> [] ->
  stops base e ->
  strto_signed w m nptr base =
    Ok (clamp w (if negative sg then - value base 0 ds else value base 0 ds),
        nptr + Z.of_nat n + zlen (sign_text sg) + zlen l).
Proof. apply strto_signed_spec. Qed.

(** [strtoul] and [strtoull] on spaces, an optional plus sign and digits: the
    number, or the largest value of the type; a minus sign is not accepted. *)
Theorem strto_unsigned_correct w m nptr n sg l ds e base :
  1 <= w -> 2 <= base <= 36 -> base <> 16 -> sg <> Minus ->
  chars m nptr (repeat 32 n ++ sign_text sg ++ l) e -> denotes base l ds -> l <> [] ->
  stops base e ->
  strto_unsigned w m nptr base =
    Ok (Z.min (UMAX w) (value base 0 ds),
        nptr + Z.of_nat n + zlen (sign_text sg) + zlen l).
Proof.
  intros Hw Hb H16 Hsg Hch Hden Hne Hs. unfold strto_unsigned.
  pose proof (chars_bound _ _ _ _ Hch) as Hbd.
  pose proof (chars_app _ _ _ _ _ Hch) as Hch1. unfold zlen in Hch1.
  rewrite repeat_length in Hch1.
  pose proof (chars_app _ _ _ _ _ Hch1) as Hch2.
  destruct (chars_first_digit _ _ _ _ _ _ Hch2 Hden Hne) as (x & Hx & N1 & N2 & N3).
  assert (n < fuel_for m)%nat as Hfuel.
  { unfold fuel_for, zlen in *. rewrite length_app, repeat_length in Hbd. lia. }
  assert (exists s, ('(c, s) ← skip_spaces (fuel_for m) m nptr;
                     if c =? 43 then c ← rdc m s; Ok (c, s + 1) else Ok (c, s)) = Ok (x, s) /\
            s - 1 = nptr + Z.of_nat n + zlen (sign_text sg)) as (s & Es & Hpos).
  { destruct sg; cbn [sign_text app] in *; unfold zlen in *; cbn [length] in *; [| | done].
    - rewrite Z.add_0_r in Hch2, Hx.
      rewrite (skip_spaces_spec m e l x N1 n nptr) by done. cbn [mbind result_bind].
      rewrite (proj2 (Z.eqb_neq _ _) N3). eexists. split; [done | lia].
    - destruct Hch1 as [H43 _]. change (Z.of_nat 1) with 1 in *.
      rewrite (skip_spaces_spec m e (43 :: l) 43 ltac:(done) n nptr) by done.
      cbn [mbind result_bind Z.eqb Pos.eqb]. rewrite Hx. eexists. split; [done | lia]. }
  rewrite <- Hpos in Hch2, Hx |- *.
  destruct (skip_spaces (fuel_for m) m nptr) as [[c0 s0] |]; [| discriminate Es].
  cbn [mbind result_bind] in Es |- *. rewrite Es. cbn [mbind result_bind].
  rewrite base_prefix_none by lia. cbn [mbind result_bind].
  pose proof (Z.pow_pos_nonneg 2 w ltac:(lia) ltac:(lia)).
  destruct (digits_loop_spec w m base (UMAX w) e l ds Hden ltac:(lia)
      ltac:(unfold UMAX; lia) Hs x s 0 0 (fuel_for m)) as (acc & any & -> & Hres);
    [done | done | lia | unfold UMAX; lia | |].
  { pose proof (chars_bound _ _ _ _ Hch2). unfold fuel_for, zlen in *. lia. }
  cbn [mbind result_bind].
  assert (match ds with [] => 0 | _ => 1 end = 1) as Hone by (destruct Hden; done).
  destruct (Z.leb_spec (value base 0 ds) (UMAX w)).
  - destruct Hres as [-> ->]. rewrite Hone. cbn. do 2 f_equal; lia.
  - rewrite Hres. cbn [Z.ltb Z.compare Z.eqb negb]. do 2 f_equal; lia.
Qed.

(** [atoi] converts the clamped number, which it therefore keeps. *)
Lemma atoi_spec m nptr n sg l ds e :
  chars m nptr (repeat 32 n ++ sign_text sg ++ l) e -> denotes 10 l ds -> l <> [] ->
  stops 10 e ->
  atoi m nptr = Ok (clamp 32 (if negative sg then - value 10 0 ds else value 10 0 ds)).
Proof.
  intros Hch Hden Hne Hs. unfold atoi, strtol.
  rewrite (strto_signed_spec 32 m nptr n sg l ds e 10) by (done || lia).
  cbn [mbind result_bind]. rewrite i32_small; [done |].
  unfold clamp, MIN, MAX. cbn. lia.
Qed.

(** The absolute value overflows on the least integer only. *)
Lemma abs_spec x : -2147483648 <= x < 2147483648 ->
  abs x = if x =? -2147483648 then x else Z.abs x.
Proof.
  intros Hx. unfold abs. destruct (Z.ltb_spec x 0), (Z.eqb_spec x (-2147483648)); try lia.
  - by subst.
  - rewrite i32_small; lia.
Qed.

(** [bsearch] finds the first item that compares equal, sorted or not. *)
Lemma bsearch_loop_spec (compar : Z -> Z -> result Z) key base size (f : Z -> Z) n : forall i,
  (forall j, i <= j < i + Z.of_nat n -> compar key (base + u32 (j * size)) = Ok (f j)) ->
  match bsearch_loop n compar key base i size with
  | Ok (Some p) => exists j, i <= j < i + Z.of_nat n /\ p = base + u32 (j * size) /\ f j = 0 /\
                   forall k, i <= k < j -> f k <> 0
  | Ok None => forall j, i <= j < i + Z.of_nat n -> f j <> 0
  | Err _ => False
  end.
Proof.
  induction n as [| n IH]; intros i Hf; cbn [bsearch_loop].
  - lia.
  - rewrite Hf by lia. cbn [mbind result_bind]. destruct (Z.eqb_spec (f i) 0) as [E | E].
    + exists i. split_and!; [lia | lia | done | done | lia].
    + specialize (IH (i + 1) ltac:(intros j Hj; apply Hf; lia)).
      destruct (bsearch_loop n compar key base (i + 1) size) as [[p |] |]; [| | done].
      * destruct IH as (j & Hj & -> & Hz & Hk). exists j. split_and!; [lia | lia | done | done |].
        intros k Hk'. destruct (Z.eq_dec k i) as [-> |]; [done | apply Hk; lia].
      * intros j Hj. destruct (Z.eq_dec j i) as [-> |]; [done | apply IH; lia].
Qed.

(** ** Totality *)

(** The current character of a conversion: it was read at [s - 1], where [l] is
    left of a string that ends at [e]. *)
Record current (m : mem) (c s e : Z) (l : list Z) : Prop := mk_current
  { cur_string : cstr m (s - 1) l; cur_char : c = head l; cur_end : s - 1 + zlen l = e }.

Lemma current_next m c s e x l : current m c s e (x :: l) ->
  rdc m s = Ok (head l) /\ current m (head l) (s + 1) e l.
Proof.
  intros [Hs _ He]. apply cstr_inv in Hs as (_ & _ & Hs). rewrite Z.sub_add in Hs.
  split; [by apply cstr_head |]. split; [by rewrite Z.add_simpl_r | done |].
  rewrite <- He. unfold zlen. cbn [length]. lia.
Qed.

Lemma current_nonzero m c s e l : current m c s e l -> c <> 0 ->
  exists l', l = c :: l' /\ rdc m s = Ok (head l') /\ current m (head l') (s + 1) e l'.
Proof.
  intros Hc Hne. destruct l as [| x l]; [by destruct Hc as [_ -> _] |].
  pose proof Hc as [_ -> _]. exists l. split; [done |]. by apply (current_next m x s e x l).
Qed.

Lemma skip_spaces_total m fuel : forall p w, cstr m p w -> (length w < fuel)%nat ->
  yields (skip_spaces fuel m p) (fun '(c, s) => p < s /\ exists l, current m c s (p + zlen w) l).
Proof.
  induction fuel as [| fuel IH]; intros p w Hw Hf; [lia |]. cbn [skip_spaces].
  rewrite (cstr_head _ _ _ Hw). cbn [mbind result_bind]. destruct (Z.eqb_spec (head w) 32) as [E | _].
  - destruct w as [| x w]; [done |]. apply cstr_inv in Hw as (_ & _ & Hw). cbn [length] in Hf.
    eapply yields_weaken; [apply (IH (p + 1) w Hw); lia |]. intros [c s] (Hs & l & Hc).
    split; [lia |]. exists l. replace (p + zlen (x :: w)) with (p + 1 + zlen w); [done |].
    unfold zlen. cbn [length]. lia.
  - apply yields_ok. split; [lia |]. exists w. split; rewrite ?Z.add_simpl_r; done.
Qed.

(** One more character behind a sign. *)
Lemma sign_total m c s e l : current m c s e l -> c <> 0 ->
  exists c' l', rdc m s = Ok c' /\ current m c' (s + 1) e l'.
Proof.
  intros Hc Hne. destruct (current_nonzero m c s e l Hc Hne) as (l' & _ & Hr & Hc'). by exists (head l'), l'.
Qed.

Lemma base_prefix_total m c s e l base : current m c s e l ->
  yields (base_prefix m c s base) (fun '(c, s', _) => s <= s' /\ exists l', current m c s' e l').
Proof.
  intros Hc. unfold base_prefix. eapply (yields_bind _ _ (fun '(c, s', _) => s <= s' /\ exists l', current m c s' e l')).
  - apply yields_if; [| intros _; apply yields_ok; eauto with lia].
    intros [_ ->%Z.eqb_eq]%andb_true_iff.
    destruct (current_nonzero m 48 s e l Hc ltac:(lia)) as (l' & -> & -> & Hc'). cbn [mbind result_bind].
    apply yields_if; [| intros _; apply yields_ok; split; [lia | by eexists]].
    intros Hx. destruct (current_nonzero m _ _ _ _ Hc') as (l2 & _ & -> & Hc2).
    { apply orb_true_iff in Hx as [->%Z.eqb_eq | ->%Z.eqb_eq]; lia. }
    cbn [mbind result_bind]. apply yields_ok. split; [lia |].
    exists l2. by replace (s + 2) with (s + 1 + 1) by lia.
  - intros [[c' s'] b] H. by apply yields_ok.
Qed.

Lemma digits_loop_total w m base cutoff cutlim e fuel : forall c s acc any l,
  current m c s e l -> (length l < fuel)%nat ->
  yields (digits_loop fuel w m c s base cutoff cutlim acc any) (fun '(_, _, s') => s - 1 <= s' - 1 <= e).
Proof.
  induction fuel as [| fuel IH]; intros c s acc any l Hc Hf; [lia |]. cbn [digits_loop].
  pose proof (zlen_nonneg l). pose proof (cur_end _ _ _ _ _ Hc).
  destruct (digit c) as [d |] eqn:Ed; [| apply yields_ok; lia].
  apply yields_if; [intros _; apply yields_ok; lia | intros _].
  destruct (current_nonzero m c s e l Hc) as (l' & -> & Hr & Hc'); [by intros -> |].
  match goal with |- context [if ?b then (acc, -1) else ?t] =>
    destruct (if b then (acc, -1) else t) as [acc' any'] end. rewrite Hr. cbn [mbind result_bind length] in *.
  eapply yields_weaken; [apply (IH _ _ acc' any' l' Hc'); lia |]. intros [[? ?] s'] ?. lia.
Qed.

Lemma iw_range w x : 1 <= w -> MIN w <= iw w x <= MAX w.
Proof.
  intros Hw. unfold iw, MIN, MAX, uw. pose proof (pow2_half w Hw).
  pose proof (Z.pow_pos_nonneg 2 (w - 1) ltac:(lia) ltac:(lia)).
  pose proof (Z.mod_pos_bound x (2 ^ w) ltac:(lia)). destruct (Z.ltb_spec (x mod 2 ^ w) (2 ^ (w - 1))); lia.
Qed.

(** Every string converts to a number of the type, and [*endptr] points into it. *)
Lemma strto_signed_total w m p str base : 1 <= w -> cstr m p str ->
  yields (strto_signed w m p base) (fun '(r, e) => MIN w <= r <= MAX w /\ p <= e <= p + zlen str).
Proof.
  intros Hw Hs. unfold strto_signed. pose proof (cstr_fuel _ _ _ Hs) as Hf.
  ystep (skip_spaces_total m (fuel_for m) p str Hs Hf). intros [c s] (Hps & l & Hc).
  eapply (yields_bind _ _ (fun '((_, c, s') : bool * Z * Z) => s <= s' /\ exists l', current m c s' (p + zlen str) l')).
  { apply yields_if; [intros ->%Z.eqb_eq | intros _; apply yields_if; [intros ->%Z.eqb_eq | intros _]].
    - destruct (sign_total _ _ _ _ _ Hc) as (c' & l' & -> & Hc'); [lia |]. apply yields_ok. eauto with lia.
    - destruct (sign_total _ _ _ _ _ Hc) as (c' & l' & -> & Hc'); [lia |]. apply yields_ok. eauto with lia.
    - apply yields_ok. eauto with lia. }
  intros [[neg c1] s1] (H1 & l1 & Hc1).
  ystep (base_prefix_total m c1 s1 (p + zlen str) l1 base Hc1). intros [[c2 s2] b2] (H2 & l2 & Hc2).
  cbv zeta. pose proof (cur_end _ _ _ _ _ Hc2). pose proof (zlen_nonneg l2).
  ystep (digits_loop_total w m b2 ((if neg : bool then uw w (- uw w (MIN w)) else MAX w) / b2)
    ((if neg : bool then uw w (- uw w (MIN w)) else MAX w) mod b2) (p + zlen str) (fuel_for m)
    c2 s2 0 0 l2 Hc2).
  { pose proof (cstr_fuel _ _ _ (cur_string _ _ _ _ _ Hc2)). done. }
  intros [[acc any] s'] Hb. apply yields_ok. pose proof (zlen_nonneg str).
  split; [by apply iw_range |]. destruct (any =? 0); cbn [negb]; lia.
Qed.

Lemma strto_unsigned_total w m p str base : 1 <= w -> cstr m p str ->
  yields (strto_unsigned w m p base) (fun '(_, e) => p <= e <= p + zlen str).
Proof.
  intros Hw Hs. unfold strto_unsigned. pose proof (cstr_fuel _ _ _ Hs) as Hf.
  ystep (skip_spaces_total m (fuel_for m) p str Hs Hf). intros [c s] (Hps & l & Hc).
  eapply (yields_bind _ _ (fun '((c, s') : Z * Z) => s <= s' /\ exists l', current m c s' (p + zlen str) l')).
  { apply yields_if; [intros ->%Z.eqb_eq | intros _].
    - destruct (sign_total _ _ _ _ _ Hc) as (c' & l' & -> & Hc'); [lia |]. apply yields_ok. eauto with lia.
    - apply yields_ok. eauto with lia. }
  intros [c1 s1] (H1 & l1 & Hc1).
  ystep (base_prefix_total m c1 s1 (p + zlen str) l1 base Hc1). intros [[c2 s2] b2] (H2 & l2 & Hc2).
  cbv zeta. pose proof (cur_end _ _ _ _ _ Hc2). pose proof (zlen_nonneg l2).
  ystep (digits_loop_total w m b2 (UMAX w / b2) (UMAX w mod b2) (p + zlen str) (fuel_for m)
    c2 s2 0 0 l2 Hc2).
  { pose proof (cstr_fuel _ _ _ (cur_string _ _ _ _ _ Hc2)). done. }
  intros [[acc any] s'] Hb. apply yields_ok. pose proof (zlen_nonneg str).
  destruct (any =? 0); cbn [negb]; lia.
Qed.

(** ** Witnesses *)

(** " -129" and a terminator. *)
Definition example_mem : mem := [32; 45; 49; 50; 57; 0].

Lemma example_denotes : denotes 10 [49; 50; 57] [1; 2; 9].
Proof. repeat constructor. Qed.

Lemma strto_signed_correct_witness :
  strtol example_mem 0 10 = Ok (-129, 5) /\ strto_signed 8 example_mem 0 10 = Ok (-128, 5).
Proof.
  split.
  - exact (strto_signed_correct 32 example_mem 0 1 Minus [49; 50; 57] [1; 2; 9] 0 10
      ltac:(lia) ltac:(lia) ltac:(lia) ltac:(vm_compute; intuition congruence)
      example_denotes ltac:(discriminate) I).
  - exact (strto_signed_correct 8 example_mem 0 1 Minus [49; 50; 57] [1; 2; 9] 0 10
      ltac:(lia) ltac:(lia) ltac:(lia) ltac:(vm_compute; intuition congruence)
      example_denotes ltac:(discriminate) I).
Defined.

Lemma strto_unsigned_correct_witness : strtoul example_mem 2 10 = Ok (129, 5).
Proof.
  exact (strto_unsigned_correct 32 example_mem 2 0 Plain [49; 50; 57] [1; 2; 9] 0 10
    ltac:(lia) ltac:(lia) ltac:(lia) ltac:(discriminate)
    ltac:(vm_compute; intuition congruence) example_denotes ltac:(discriminate) I).
Defined.

End StrTol.
