(* ===== verification/Print.v ===== *)
(** Formatted output (kernel/print.c).

    The buffer, the format and the strings lie in one memory.  A [va_list] is
    the list of the arguments that are left, integers and addresses alike.
    [render] is the text a format and its arguments stand for. *)

From Stdlib Require Import ZArith Lia Bool.
From stdpp Require Import base tactics numbers list option.
From S2P Require Import Prelude Mem Str StrTol.

Local Open Scope Z_scope.

Module Print.

Local Abbreviation mem := (list Z).
Import Str.

Definition BUFSIZE : Z := 4096.

(** ** Numbers *)

(** [do { n /= base; len++; } while (n != 0);]: an [unsigned int] has at most
    32 digits. *)
Fixpoint basepow_loop (fuel : nat) (n base len : Z) : result Z :=
  match fuel with
  | O => Err OutOfFuel
  | S fuel =>
      let n := n / base in
      let len := len + 1 in
      if negb (n =? 0) then basepow_loop fuel n base len else Ok len
  end.
Definition basepow (n base : Z) : result Z := basepow_loop 32 n base 0.

(** The array [digits]. *)
Definition digits : list Z :=
  [48; 49; 50; 51; 52; 53; 54; 55; 56; 57; 97; 98; 99; 100; 101; 102; 0].

(** The loop that pads with zeros. *)
Fixpoint pad_loop (k : nat) (m : mem) (buf count size : Z) : result (mem * Z * Z) :=
  match k with
  | O => Ok (m, buf, count)
  | S k =>
      m ← wr m buf 48;
      let buf := buf + 1 in
      let count := count + 1 in
      if count =? size then Ok (m, buf, count) else pad_loop k m buf count size
  end.

(** The loop that writes the digits, the last one first. *)
Fixpoint num_loop (fuel : nat) (m : mem) (buf un nl count base size : Z) : result (mem * Z) :=
  match fuel with
  | O => Err OutOfFuel
  | S fuel =>
      let nl := nl - 1 in
      '(m, count) ←
        (if u32 (count + nl) <? size
         then d ← rd digits (un mod base); m ← wr m (buf + nl) d; Ok (m, count + 1)
         else Ok (m, count));
      let un := un / base in
      if negb (un =? 0) then num_loop fuel m buf un nl count base size else Ok (m, count)
  end.

Definition snprintnum (m : mem) (buf size n base : Z) (issigned : bool) (padding : Z)
    : result (mem * Z) :=
  if (base >? 16) || (size =? 0) then Ok (m, 0)
  else
    '(m, buf, count, un) ←
      (if issigned && (n <? 0)
       then m ← wr m buf 45; Ok (m, buf + 1, 1, u32 (- n))
       else Ok (m, buf, 0, u32 n));
    nl ← basepow un base;
    let padding := padding - nl in
    '(m, buf, count) ← pad_loop (Z.to_nat padding) m buf count size;
    num_loop 32 m buf un nl count base size.

(** ** Formats *)

Definition va_arg (ap : list Z) : result (Z * list Z) :=
  match ap with [] => Err OutOfBounds | a :: ap => Ok (a, ap) end.

(** [while ( *s && count < size) buf[count++] = *s++;] *)
Fixpoint str_loop (fuel : nat) (m : mem) (buf size s count : Z) : result (mem * Z) :=
  match fuel with
  | O => Err OutOfFuel
  | S fuel =>
      c ← rdc m s;
      if negb (c =? 0) && (count <? size)
      then m ← wr m (buf + count) (u8 c); str_loop fuel m buf size (s + 1) (count + 1)
      else Ok (m, count)
  end.

(** The four integer conversions. *)
Definition put_num (m : mem) (buf size count : Z) (ap : list Z) (base : Z) (issigned : bool)
    (padding : Z) : result (mem * Z * list Z) :=
  '(i, ap) ← va_arg ap;
  '(m, k) ← snprintnum m (buf + count) (size - count) (i32 i) base issigned padding;
  Ok (m, count + k, ap).

(** One specifier [c]; [None] is the [return] of the default case. *)
Definition specifier (m : mem) (buf size c count padding : Z) (ap : list Z)
    : result (option (mem * Z * list Z)) :=
  if c =? 37 then m ← wr m (buf + count) 37; Ok (Some (m, count + 1, ap))
  else if c =? 99 then
    '(a, ap) ← va_arg ap; m ← wr m (buf + count) (u8 a); Ok (Some (m, count + 1, ap))
  else if c =? 115 then
    '(s, ap) ← va_arg ap;
    '(m, count) ← str_loop (fuel_for m) m buf size s count;
    Ok (Some (m, count, ap))
  else if c =? 120 then r ← put_num m buf size count ap 16 false padding; Ok (Some r)
  else if c =? 112 then
    if size - count >? 2 then
      '(i, ap) ← va_arg ap;
      m ← wr m (buf + count) 48;
      m ← wr m (buf + (count + 1)) 120;
      let count := count + 2 in
      '(m, k) ← snprintnum m (buf + count) (size - count) (i32 i) 16 false padding;
      Ok (Some (m, count + k, ap))
    else Ok (Some (m, count, ap))
  else if c =? 98 then r ← put_num m buf size count ap 2 false padding; Ok (Some r)
  else if c =? 100 then r ← put_num m buf size count ap 10 true padding; Ok (Some r)
  else if c =? 117 then r ← put_num m buf size count ap 10 false padding; Ok (Some r)
  else Ok None.

(** The loop over the format; [padding] keeps its value between specifiers. *)
Fixpoint vsnprintf_loop (fuel : nat) (m : mem) (buf size fmt count padding : Z)
    (ap : list Z) : result (mem * Z) :=
  match fuel with
  | O => Err OutOfFuel
  | S fuel =>
      c ← rdc m fmt;
      if negb (c =? 0) && (count <? size) then
        if c =? 37 then
          let fmt := fmt + 1 in
          d ← rdc m fmt;
          let (padding, fmt) :=
            if (48 <=? d) && (d <=? 57) then (d - 48, fmt + 1) else (padding, fmt) in
          c ← rdc m fmt;
          r ← specifier m buf size c count padding ap;
          match r with
          | None => Ok (m, count)
          | Some (m, count, ap) => vsnprintf_loop fuel m buf size (fmt + 1) count padding ap
          end
        else
          m ← wr m (buf + count) (u8 c);
          vsnprintf_loop fuel m buf size (fmt + 1) (count + 1) padding ap
      else Ok (m, count)
  end.
Definition vsnprintf (m : mem) (buf size fmt : Z) (ap : list Z) : result (mem * Z) :=
  vsnprintf_loop (fuel_for m) m buf size fmt 0 0 ap.

Definition snprintf (m : mem) (buf size fmt : Z) (ap : list Z) : result (mem * Z) :=
  vsnprintf m buf size fmt ap.

(** kprintf: the local buffer lies behind the memory; the result is [ret] and
    the buffer, which the caller's [sb_putstr] prints. *)
Definition kprintf (m : mem) (fmt : Z) (ap : list Z) : result (Z * list Z) :=
  '(m', ret) ← vsnprintf (m ++ repeat 0 (Z.to_nat BUFSIZE)) (zlen m) (BUFSIZE - 1) fmt ap;
  Ok (ret, drop (length m) m').

(** ** The text of a number *)

(** The digits of [n], the first one first. *)
Fixpoint to_digits (fuel : nat) (base n : Z) : list Z :=
  match fuel with
  | O => []
  | S fuel => if n <? base then [n] else to_digits fuel base (n / base) ++ [n mod base]
  end.

Definition digit_char (d : Z) : Z := at_ 0 digits d.

Definition num_digits (base n : Z) : list Z := to_digits 32 base n.

(** The text snprintnum writes. *)
Definition num_text (n base : Z) (issigned : bool) (padding : Z) : list Z :=
  let neg := issigned && (n <? 0) in
  let un := if neg then u32 (- n) else u32 n in
  let ds := num_digits base un in
  (if neg then [45] else []) ++ repeat 48 (Z.to_nat (padding - zlen ds)) ++
  map digit_char ds.

(** ** The memory around the buffer *)

(** Nothing outside of the [n] bytes at [p] has changed. *)
Definition within (m m' : mem) (p n : Z) : Prop :=
  zlen m' = zlen m /\ forall i, 0 <= i -> ~ (p <= i < p + n) -> at_ 0 m' i = at_ 0 m i.

(** The memory holds the bytes [l] at [p]. *)
Definition holds (m : mem) (p : Z) (l : list Z) : Prop :=
  forall k, 0 <= k < zlen l -> at_ 0 m (p + k) = at_ 0 l k.

Lemma within_refl m p n : within m m p n.
Proof. by split. Qed.

Lemma within_trans m1 m2 m3 p n q k : within m1 m2 p n -> within m2 m3 q k ->
  p <= q -> q + k <= p + n -> within m1 m3 p n.
Proof.
  intros [L1 F1] [L2 F2] Hp Hn. split; [congruence |]. intros i Hi Hout.
  rewrite F2, F1 by lia. done.
Qed.

Lemma within_weaken m m' p n q k : within m m' p n -> q <= p -> p + n <= q + k ->
  within m m' q k.
Proof. intros [L F] H1 H2. split; [done |]. intros i Hi Hout. apply F; lia. Qed.

Lemma within_write m p v : 0 <= p < zlen m -> within m (<[Z.to_nat p := v]> m) p 1.
Proof.
  intros Hp. split; [apply zlen_insert |]. intros i Hi Hout. rewrite at_insert by lia.
  by rewrite (proj2 (Z.eqb_neq _ _)) by lia.
Qed.

Lemma holds_nil m p : holds m p [].
Proof. intros k Hk. unfold zlen in Hk. cbn in Hk. lia. Qed.

Lemma holds_app m p l1 l2 : holds m p (l1 ++ l2) <-> holds m p l1 /\ holds m (p + zlen l1) l2.
Proof.
  pose proof (zlen_nonneg l1). pose proof (zlen_nonneg l2).
  unfold holds. rewrite zlen_app. split.
  - intros Hh. split; intros k Hk.
    + rewrite Hh, at_app by lia. by rewrite (proj2 (Z.ltb_lt _ _)) by lia.
    + replace (p + zlen l1 + k) with (p + (zlen l1 + k)) by lia. rewrite Hh, at_app by lia.
      rewrite (proj2 (Z.ltb_ge _ _)) by lia. f_equal. lia.
  - intros [H1 H2] k Hk. rewrite at_app by lia. destruct (Z.ltb_spec k (zlen l1)).
    + apply H1. lia.
    + rewrite <- H2 by lia. f_equal. lia.
Qed.

Lemma holds_one m p c : holds m p [c] <-> at_ 0 m p = c.
Proof.
  unfold holds, zlen. cbn [length]. split.
  - intros Hh. specialize (Hh 0 ltac:(lia)). by rewrite Z.add_0_r in Hh.
  - intros Hh k Hk. assert (k = 0) as -> by lia. by rewrite Z.add_0_r.
Qed.

(** Text that was written stays when the writes go elsewhere. *)
Lemma holds_within m m' p l q n : holds m p l -> within m m' q n -> 0 <= p ->
  p + zlen l <= q \/ q + n <= p -> holds m' p l.
Proof. intros Hh [_ Hf] Hp Hd k Hk. rewrite Hf by lia. by apply Hh. Qed.

(** ** Digits *)

(** One turn of the digit loop. *)
Lemma num_loop_step fuel m buf un nl count base size :
  num_loop (S fuel) m buf un nl count base size =
    ('(m, count) ←
       (if u32 (count + (nl - 1)) <? size
        then d ← rd digits (un mod base); m ← wr m (buf + (nl - 1)) d; Ok (m, count + 1)
        else Ok (m, count));
     if negb (un / base =? 0)
     then num_loop fuel m buf (un / base) (nl - 1) count base size else Ok (m, count)).
Proof. reflexivity. Qed.

Section numbers.
Context (base : Z) (Hbase : 2 <= base <= 16).

Lemma to_digits_length fuel n : 1 <= zlen (to_digits (S fuel) base n) <= Z.of_nat (S fuel).
Proof using.
  revert n. induction fuel as [| fuel IH]; intros n; cbn [to_digits].
  - destruct (n <? base); unfold zlen; cbn; lia.
  - destruct (n <? base); [unfold zlen; cbn; lia |].
    specialize (IH (n / base)). cbn [to_digits] in IH. rewrite zlen_app.
    change (zlen [n mod base]) with 1. lia.
Qed.

Lemma div_bound fuel n : 0 <= n < base ^ Z.of_nat (S fuel) ->
  0 <= n / base < base ^ Z.of_nat fuel.
Proof using Hbase.
  intros [H0 H1]. rewrite Nat2Z.inj_succ, Z.pow_succ_r in H1 by lia.
  split; [apply Z.div_pos; lia | apply Z.div_lt_upper_bound; lia].
Qed.

Lemma div_zero n : 0 <= n -> (n / base =? 0) = (n <? base).
Proof using Hbase.
  intros. destruct (Z.ltb_spec n base), (Z.eqb_spec (n / base) 0); try done.
  - rewrite Z.div_small in n0 by lia. done.
  - apply Z.div_small_iff in e; lia.
Qed.

Lemma basepow_loop_spec fuel : forall n len, 0 <= n < base ^ Z.of_nat (S fuel) ->
  basepow_loop (S fuel) n base len = Ok (len + zlen (to_digits (S fuel) base n)).
Proof using Hbase.
  induction fuel as [| fuel IH]; intros n len Hn; cbn [basepow_loop to_digits]; cbv zeta;
    rewrite div_zero by lia.
  - rewrite Nat2Z.inj_succ, Z.pow_1_r in Hn. by rewrite (proj2 (Z.ltb_lt _ _)) by lia.
  - destruct (Z.ltb_spec n base); cbn [negb]; [done |].
    apply div_bound in Hn. specialize (IH (n / base) (len + 1) Hn).
    cbn [basepow_loop to_digits] in IH. cbv zeta in IH. rewrite IH.
    rewrite zlen_app. change (zlen [n mod base]) with 1. f_equal. lia.
Qed.

(** Enough room: all the digits are written. *)
Lemma num_loop_fits buf size fuel : forall un count m,
  let L := zlen (to_digits (S fuel) base un) in
  0 <= un < base ^ Z.of_nat (S fuel) -> 0 <= buf -> buf + L <= zlen m ->
  0 <= count -> count + L <= size -> size < 2147483648 ->
  exists m', num_loop (S fuel) m buf un L count base size = Ok (m', count + L) /\
    within m m' buf L /\ holds m' buf (map digit_char (to_digits (S fuel) base un)).
Proof using Hbase.
  induction fuel as [| fuel IH]; intros un count m L Hun Hb Hin Hc Hfit Hsz;
    rewrite num_loop_step, div_zero by lia.
  - rewrite Nat2Z.inj_succ, Z.pow_1_r in Hun. unfold L in *. cbn [to_digits] in *.
    rewrite (proj2 (Z.ltb_lt un base)) in * by lia.
    change (zlen [un]) with 1 in *. cbn [negb].
    rewrite u32_small, (proj2 (Z.ltb_lt (count + (1 - 1)) size)) by lia.
    rewrite Z.mod_small, (rd_ok 0) by (unfold digits, zlen; cbn [length]; lia).
    cbn [mbind result_bind]. rewrite wr_ok by lia. cbn [mbind result_bind].
    eexists. split; [done |]. split.
    + rewrite Z.add_0_r. apply within_write. lia.
    + cbn [map]. apply holds_one. rewrite at_insert by lia. by rewrite Z.add_0_r, Z.eqb_refl.
  - pose proof (to_digits_length (S fuel) un) as HL. fold L in HL.
    rewrite u32_small, (proj2 (Z.ltb_lt (count + (L - 1)) size)) by lia.
    pose proof (Z.mod_pos_bound un base ltac:(lia)).
    rewrite (rd_ok 0) by (unfold digits, zlen; cbn [length]; lia).
    cbn [mbind result_bind]. rewrite wr_ok by lia. cbn [mbind result_bind].
    unfold L in *. remember (S fuel) as fuel1 eqn:E. cbn [to_digits] in *.
    destruct (Z.ltb_spec un base) as [Hlt | Hge]; cbn [negb].
    + change (zlen [un]) with 1 in *. rewrite Z.mod_small by lia.
      eexists. split; [done |]. split.
      * rewrite Z.add_0_r. apply within_write. lia.
      * cbn [map]. apply holds_one. rewrite at_insert by lia. by rewrite Z.add_0_r, Z.eqb_refl.
    + rewrite zlen_app in *. change (zlen [un mod base]) with 1 in *. subst fuel1.
      pose proof (div_bound _ _ Hun) as Hun'.
      set (L' := zlen (to_digits (S fuel) base (un / base))) in *.
      replace (L' + 1 - 1) with L' by lia.
      destruct (IH (un / base) (count + 1)
        (<[Z.to_nat (buf + L') := at_ 0 digits (un mod base)]> m))
        as (m' & Eq & Hw & Hh); fold L'; rewrite ?zlen_insert; try lia.
      fold L' in Eq, Hw. rewrite Eq. exists m'. split; [do 2 f_equal; lia |]. split.
      * apply (within_trans _ _ _ _ _ buf L'
                 (within_weaken _ _ (buf + L') 1 buf (L' + 1) (within_write m (buf + L') _ ltac:(lia))
                    ltac:(lia) ltac:(lia)) Hw); lia.
      * rewrite map_app. apply holds_app. split; [done |]. cbn [map].
        assert (zlen (map digit_char (to_digits (S fuel) base (un / base))) = L') as ->
          by (unfold zlen; by rewrite length_map).
        eapply (holds_within _ _ _ _ buf L'); [| exact Hw | lia | unfold zlen; cbn [length]; lia].
        apply holds_one. rewrite at_insert by lia. by rewrite Z.eqb_refl.
Qed.

(** In any case: what is written stays below [size]. *)
Lemma num_loop_bounded buf size fuel : forall un count m,
  0 <= un < base ^ Z.of_nat (S fuel) -> 0 <= buf -> 0 <= count <= size ->
  size < 2147483648 -> buf + (size - count) <= zlen m -> Z.of_nat fuel < 100 ->
  exists m' c, num_loop (S fuel) m buf un (zlen (to_digits (S fuel) base un)) count base size =
      Ok (m', c) /\ count <= c <= size /\ within m m' buf (size - count).
Proof using Hbase.
  induction fuel as [| fuel IH]; intros un count m Hun Hb Hc Hsz Hin Hfl;
    match goal with |- context [num_loop (S ?f) _ _ _ ?L] =>
      pose proof (to_digits_length f un) as HL; set (L0 := L) in * end;
    rewrite num_loop_step, div_zero by lia; rewrite u32_small by lia;
    pose proof (Z.mod_pos_bound un base ltac:(lia)).
  - rewrite Nat2Z.inj_succ, Z.pow_1_r in Hun. rewrite (proj2 (Z.ltb_lt un base)) by lia.
    cbn [negb]. destruct (Z.ltb_spec (count + (L0 - 1)) size).
    + rewrite (rd_ok 0) by (unfold digits, zlen; cbn [length]; lia).
      cbn [mbind result_bind]. rewrite wr_ok by lia. cbn [mbind result_bind].
      eexists _, _. split; [done |]. split; [lia |].
      apply (within_weaken _ _ _ _ _ _ (within_write m (buf + (L0 - 1)) _ ltac:(lia))); lia.
    + cbn [mbind result_bind]. exists m, count. split; [done |]. split; [lia |].
      apply within_refl.
  - assert ((un <? base) = false -> L0 - 1 = zlen (to_digits (S fuel) base (un / base))) as HL1.
    { intros E. unfold L0. remember (S fuel) as fuel1. cbn [to_digits]. rewrite E, zlen_app.
      change (zlen [un mod base]) with 1. lia. }
    clearbody L0. pose proof (div_bound _ _ Hun) as Hun'.
    destruct (Z.ltb_spec (count + (L0 - 1)) size).
    + rewrite (rd_ok 0) by (unfold digits, zlen; cbn [length]; lia).
      cbn [mbind result_bind]. rewrite wr_ok by lia. cbn [mbind result_bind].
      pose proof (within_weaken _ _ _ _ buf (size - count)
        (within_write m (buf + (L0 - 1)) (at_ 0 digits (un mod base)) ltac:(lia))
        ltac:(lia) ltac:(lia)) as Hw1.
      destruct (un <? base) eqn:E; cbn [negb].
      * eexists _, _. split; [done |]. split; [lia | done].
      * rewrite (HL1 eq_refl) in *.
        match type of Hw1 with within _ ?m1 _ _ =>
          destruct (IH (un / base) (count + 1) m1) as (m' & c & -> & Hr & Hw) end;
          rewrite ?zlen_insert; try lia.
        exists m', c. split; [done |]. split; [lia |].
        apply (within_trans _ _ _ _ _ _ _ Hw1 Hw); lia.
    + cbn [mbind result_bind]. destruct (un <? base) eqn:E; cbn [negb].
      * exists m, count. split; [done |]. split; [lia |]. apply within_refl.
      * rewrite (HL1 eq_refl) in *. apply (IH (un / base) count m); lia.
Qed.

Lemma u32_pow32 x : 0 <= u32 x < base ^ Z.of_nat 32.
Proof using Hbase.
  pose proof (u32_range x). pose proof (Z.pow_le_mono_l 2 base 32 ltac:(lia)).
  change (Z.of_nat 32) with 32. lia.
Qed.
End numbers.

Lemma pad_loop_fits size k : forall m buf count,
  0 <= buf -> buf + Z.of_nat k <= zlen m -> 0 <= count -> count + Z.of_nat k < size ->
  exists m', pad_loop k m buf count size = Ok (m', buf + Z.of_nat k, count + Z.of_nat k) /\
    within m m' buf (Z.of_nat k) /\ holds m' buf (repeat 48 k).
Proof.
  induction k as [| k IH]; intros m buf count Hb Hin Hc Hfit; cbn [pad_loop].
  - exists m. split; [do 2 f_equal; [f_equal |]; lia |]. split; [apply within_refl |].
    apply holds_nil.
  - rewrite wr_ok by lia. cbn [mbind result_bind]. cbv zeta.
    rewrite (proj2 (Z.eqb_neq (count + 1) size)) by lia.
    destruct (IH (<[Z.to_nat buf := 48]> m) (buf + 1) (count + 1)) as (m' & -> & Hw & Hh);
      rewrite ?zlen_insert; try lia.
    exists m'. split; [do 2 f_equal; [f_equal |]; lia |]. split.
    + apply (within_trans _ _ _ _ _ (buf + 1) (Z.of_nat k)
        (within_weaken _ _ buf 1 buf _ (within_write m buf _ ltac:(lia)) ltac:(lia)
          (ltac:(lia) : buf + 1 <= buf + Z.of_nat (S k))) Hw); lia.
    + cbn [repeat]. apply (holds_app _ _ [48]). change (zlen [48]) with 1.
      split; [| done]. eapply (holds_within _ _ _ _ (buf + 1) (Z.of_nat k));
        [| exact Hw | lia | unfold zlen; cbn [length]; lia].
      apply holds_one. rewrite at_insert by lia. by rewrite Z.eqb_refl.
Qed.

Lemma pad_loop_bounded size k : forall m buf count,
  0 <= buf -> 0 <= count < size -> buf + (size - count) <= zlen m ->
  exists m' c, pad_loop k m buf count size = Ok (m', buf + (c - count), c) /\
    count <= c <= size /\ within m m' buf (size - count).
Proof.
  induction k as [| k IH]; intros m buf count Hb Hc Hin; cbn [pad_loop].
  - exists m, count. rewrite Z.sub_diag, Z.add_0_r. split; [done |]. split; [lia |].
    apply within_refl.
  - rewrite wr_ok by lia. cbn [mbind result_bind]. cbv zeta.
    pose proof (within_weaken _ _ _ _ buf (size - count)
      (within_write m buf 48 ltac:(lia)) ltac:(lia) ltac:(lia)) as Hw1.
    destruct (Z.eqb_spec (count + 1) size) as [E | E].
    + eexists _, (count + 1). split; [do 2 f_equal; f_equal; lia |]. split; [lia | done].
    + destruct (IH (<[Z.to_nat buf := 48]> m) (buf + 1) (count + 1)) as (m' & c & -> & Hr & Hw);
        rewrite ?zlen_insert; try lia.
      exists m', c. split; [do 2 f_equal; f_equal; lia |]. split; [lia |].
      apply (within_trans _ _ _ _ _ _ _ Hw1 Hw); lia.
Qed.

(** ** snprintnum *)

Lemma basepow_spec base x : 2 <= base <= 16 ->
  basepow (u32 x) base = Ok (zlen (num_digits base (u32 x))).
Proof.
  intros Hb. unfold basepow, num_digits.
  rewrite basepow_loop_spec by (done || by apply u32_pow32). done.
Qed.

Lemma zlen_num_digits base n : 1 <= zlen (num_digits base n) <= 32.
Proof. apply (to_digits_length base 31 n). Qed.

(** Padding and digits behind the sign. *)
Lemma put_digits_fits m buf size base x padding count : 2 <= base <= 16 ->
  let ds := num_digits base (u32 x) in
  let text := repeat 48 (Z.to_nat (padding - zlen ds)) ++ map digit_char ds in
  0 <= buf -> buf + zlen text <= zlen m -> 0 <= count -> count + zlen text <= size ->
  size < 2147483648 ->
  exists m', (nl ← basepow (u32 x) base;
              let padding := padding - nl in
              '(m, buf, count) ← pad_loop (Z.to_nat padding) m buf count size;
              num_loop 32 m buf (u32 x) nl count base size) = Ok (m', count + zlen text) /\
    within m m' buf (zlen text) /\ holds m' buf text.
Proof.
  intros Hb ds text H0 Hin Hc Hfit Hsz. pose proof (zlen_num_digits base (u32 x)) as Hds.
  fold ds in Hds. rewrite basepow_spec by done. fold ds. cbn [mbind result_bind]. cbv zeta.
  unfold text in *. rewrite zlen_app, zlen_repeat, zlen_map in *.
  set (k := Z.to_nat (padding - zlen ds)) in *.
  destruct (pad_loop_fits size k m buf count) as (m1 & -> & W1 & H1); [lia.. |].
  cbn [mbind result_bind]. unfold ds, num_digits in *.
  destruct (num_loop_fits base Hb (buf + Z.of_nat k) size 31 (u32 x) (count + Z.of_nat k) m1)
    as (m2 & -> & W2 & H2); [by apply u32_pow32 | lia | destruct W1; lia | lia | lia | lia |].
  exists m2. split; [do 2 f_equal; lia |]. split.
  - apply (within_trans _ _ _ _ _ _ _
      (within_weaken _ _ _ _ buf (Z.of_nat k + zlen (to_digits 32 base (u32 x))) W1
         ltac:(lia) ltac:(lia)) W2); lia.
  - apply holds_app. rewrite zlen_repeat. split; [| done].
    apply (holds_within _ _ _ _ _ _ H1 W2); rewrite ?zlen_repeat; lia.
Qed.

(** What follows the sign. *)
Definition put_digits (m : mem) (buf size base x padding count : Z) : result (mem * Z) :=
  nl ← basepow (u32 x) base;
  let padding := padding - nl in
  '(m, buf, count) ← pad_loop (Z.to_nat padding) m buf count size;
  num_loop 32 m buf (u32 x) nl count base size.

Lemma snprintnum_split m buf size n base issigned padding : base <= 16 -> 0 < size ->
  snprintnum m buf size n base issigned padding =
    if issigned && (n <? 0)
    then m ← wr m buf 45; put_digits m (buf + 1) size base (- n) padding 1
    else put_digits m buf size base n padding 0.
Proof.
  intros Hb Hs. unfold snprintnum, put_digits.
  destruct (Z.gtb_spec base 16); [lia |]. rewrite (proj2 (Z.eqb_neq size 0)) by lia.
  cbn [orb]. destruct (issigned && (n <? 0)); [| done]. by destruct (wr m buf 45).
Qed.

Lemma num_text_split n base issigned padding :
  num_text n base issigned padding =
    let x := if issigned && (n <? 0) then - n else n in
    let ds := num_digits base (u32 x) in
    (if issigned && (n <? 0) then [45] else []) ++
    repeat 48 (Z.to_nat (padding - zlen ds)) ++ map digit_char ds.
Proof. unfold num_text. by destruct (issigned && (n <? 0)). Qed.

(** With enough room snprintnum writes the text of the number. *)
Lemma snprintnum_fits m buf size n base issigned padding : 2 <= base <= 16 ->
  let text := num_text n base issigned padding in
  0 <= buf -> buf + zlen text <= zlen m -> zlen text <= size -> size < 2147483648 ->
  exists m', snprintnum m buf size n base issigned padding = Ok (m', zlen text) /\
    within m m' buf (zlen text) /\ holds m' buf text.
Proof.
  intros Hb text H0 Hin Hfit Hsz. unfold text in *. rewrite num_text_split in *. cbv zeta in *.
  set (x := if issigned && (n <? 0) then - n else n) in *.
  set (ds := num_digits base (u32 x)) in *.
  set (tail := repeat 48 (Z.to_nat (padding - zlen ds)) ++ map digit_char ds) in *.
  assert (1 <= zlen tail) as Ht.
  { unfold tail. rewrite zlen_app, zlen_map. pose proof (zlen_num_digits base (u32 x)).
    pose proof (zlen_nonneg (repeat 48 (Z.to_nat (padding - zlen ds)))). fold ds in H. lia. }
  rewrite zlen_app in *.
  destruct (issigned && (n <? 0)) eqn:E; [change (zlen [45]) with 1 in * | change (zlen []) with 0 in *].
  - rewrite snprintnum_split, E by lia. rewrite wr_ok by lia. cbn [mbind result_bind].
    destruct (put_digits_fits (<[Z.to_nat buf := 45]> m) (buf + 1) size base x padding 1 Hb)
      as (m' & Eq & W & Hh); fold ds tail; rewrite ?zlen_insert; [lia.. |].
    fold ds tail in Eq, W, Hh. exists m'. split; [exact Eq |].
    split.
    + apply (within_trans _ _ _ _ _ _ _
        (within_weaken _ _ _ _ buf (1 + zlen tail) (within_write m buf 45 ltac:(lia))
           ltac:(lia) ltac:(lia)) W); lia.
    + apply holds_app. split; [| done]. eapply holds_within; [| exact W | lia |].
      * apply holds_one. rewrite at_insert by lia. by rewrite Z.eqb_refl.
      * change (zlen [45]) with 1. lia.
  - rewrite snprintnum_split, E by lia.
    destruct (put_digits_fits m buf size base x padding 0 Hb)
      as (m' & Eq & W & Hh); fold ds tail; [lia.. |].
    fold ds tail in Eq, W, Hh. exists m'. split; [exact Eq | split; [done | exact Hh]].
Qed.

(** In any case what follows the sign stays below [size], if it starts there. *)
Lemma put_digits_bounded m buf size base x padding count : 2 <= base <= 16 ->
  0 <= buf -> 0 <= count <= size -> size < 2147483648 -> buf + (size - count) <= zlen m ->
  count < size \/ padding <= zlen (num_digits base (u32 x)) ->
  exists m' c, put_digits m buf size base x padding count = Ok (m', c) /\
    count <= c <= size /\ within m m' buf (size - count).
Proof.
  intros Hb H0 Hc Hsz Hin Hsafe. unfold put_digits. rewrite basepow_spec by done.
  cbn [mbind result_bind]. cbv zeta. pose proof (zlen_num_digits base (u32 x)) as Hd.
  set (k := Z.to_nat (padding - zlen (num_digits base (u32 x)))).
  assert (exists m1 c1, pad_loop k m buf count size = Ok (m1, buf + (c1 - count), c1) /\
    count <= c1 <= size /\ within m m1 buf (size - count)) as (m1 & c1 & -> & Hc1 & W1).
  { destruct (decide (count < size)); [apply pad_loop_bounded; lia |].
    assert (k = 0%nat) as -> by lia. exists m, count. cbn.
    rewrite Z.sub_diag, Z.add_0_r. split; [done |]. split; [lia | apply within_refl]. }
  cbn [mbind result_bind]. unfold num_digits.
  destruct (num_loop_bounded base Hb (buf + (c1 - count)) size 31 (u32 x) c1 m1)
    as (m2 & c2 & -> & Hc2 & W2); [by apply u32_pow32 | lia.. | destruct W1; lia | lia |].
  exists m2, c2. split; [done |]. split; [lia |].
  apply (within_trans _ _ _ _ _ _ _ W1 W2); lia.
Qed.

(** The width overflows the buffer only behind a sign that fills it. *)
Definition width_overflows (size n base : Z) (issigned : bool) (padding : Z) : bool :=
  issigned && (n <? 0) && (size =? 1) && (zlen (num_digits base (u32 (- n))) <? padding).

Lemma snprintnum_in_bounds m buf size n base issigned padding : 2 <= base <= 16 ->
  0 <= buf -> 0 <= size < 2147483648 -> buf + size <= zlen m ->
  width_overflows size n base issigned padding = false ->
  exists m' c, snprintnum m buf size n base issigned padding = Ok (m', c) /\
    0 <= c <= size /\ within m m' buf size.
Proof.
  intros Hb H0 Hs Hin Hsafe. destruct (Z.eq_dec size 0) as [-> |].
  { exists m, 0. split; [| split; [lia | apply within_refl]]. unfold snprintnum.
    by rewrite orb_true_r. }
  rewrite snprintnum_split by lia. unfold width_overflows in Hsafe.
  destruct (issigned && (n <? 0)); cbn [andb] in Hsafe.
  - rewrite wr_ok by lia. cbn [mbind result_bind].
    destruct (put_digits_bounded (<[Z.to_nat buf := 45]> m) (buf + 1) size base (- n) padding 1)
      as (m' & c & -> & Hc & W); rewrite ?zlen_insert; try (done || lia).
    exists m', c. split; [done |]. split; [lia |].
    apply (within_trans _ _ _ _ _ _ _
      (within_weaken _ _ _ _ buf size (within_write m buf 45 ltac:(lia)) ltac:(lia) ltac:(lia))
      W); lia.
  - destruct (put_digits_bounded m buf size base n padding 0) as (m' & c & -> & Hc & W);
      try (done || lia).
    exists m', c. split; [done |]. split; [lia |]. by rewrite Z.sub_0_r in W.
Qed.

(** ** Past the end *)

Lemma pad_loop_past size k : forall m buf count,
  0 <= buf -> buf + Z.of_nat k <= zlen m -> size <= count ->
  exists m', pad_loop k m buf count size = Ok (m', buf + Z.of_nat k, count + Z.of_nat k) /\
    within m m' buf (Z.of_nat k) /\ holds m' buf (repeat 48 k).
Proof.
  induction k as [| k IH]; intros m buf count Hb Hin Hc; cbn [pad_loop].
  - exists m. split; [do 2 f_equal; [f_equal |]; lia |]. split; [apply within_refl |].
    apply holds_nil.
  - rewrite wr_ok by lia. cbn [mbind result_bind]. cbv zeta.
    rewrite (proj2 (Z.eqb_neq (count + 1) size)) by lia.
    destruct (IH (<[Z.to_nat buf := 48]> m) (buf + 1) (count + 1)) as (m' & -> & Hw & Hh);
      rewrite ?zlen_insert; try lia.
    exists m'. split; [do 2 f_equal; [f_equal |]; lia |]. split.
    + apply (within_trans _ _ _ _ _ (buf + 1) (Z.of_nat k)
        (within_weaken _ _ buf 1 buf _ (within_write m buf _ ltac:(lia)) ltac:(lia)
          (ltac:(lia) : buf + 1 <= buf + Z.of_nat (S k))) Hw); lia.
    + cbn [repeat]. apply (holds_app _ _ [48]). change (zlen [48]) with 1.
      split; [| done]. eapply (holds_within _ _ _ _ (buf + 1) (Z.of_nat k));
        [| exact Hw | lia | unfold zlen; cbn [length]; lia].
      apply holds_one. rewrite at_insert by lia. by rewrite Z.eqb_refl.
Qed.

Lemma num_loop_full base : 2 <= base <= 16 -> forall fuel m buf un count size,
  0 <= un < base ^ Z.of_nat (S fuel) -> 0 <= size <= count ->
  count + 100 < 4294967296 -> Z.of_nat fuel < 100 ->
  num_loop (S fuel) m buf un (zlen (to_digits (S fuel) base un)) count base size = Ok (m, count).
Proof.
  intros Hb. induction fuel as [| fuel IH]; intros m buf un count size Hun Hs Hc Hf;
    match goal with |- context [num_loop (S ?f) _ _ _ ?L] =>
      pose proof (to_digits_length base f un) end;
    rewrite num_loop_step, div_zero by lia; rewrite u32_small by lia;
    rewrite (proj2 (Z.ltb_ge _ size)) by lia; cbn [mbind result_bind].
  - rewrite Nat2Z.inj_succ, Z.pow_1_r in Hun. by rewrite (proj2 (Z.ltb_lt un base)) by lia.
  - destruct (un <? base) eqn:E; cbn [negb]; [done |].
    assert (zlen (to_digits (S (S fuel)) base un) - 1 =
            zlen (to_digits (S fuel) base (un / base))) as ->.
    { remember (S fuel) as fuel1. cbn [to_digits]. rewrite E, zlen_app.
      change (zlen [un mod base]) with 1. lia. }
    apply IH; [by apply div_bound | lia.. ].
Qed.

(** ** Numbers back from their text *)

Lemma digit_of_char d : 0 <= d < 16 -> StrTol.digit (digit_char d) = Some d /\
  48 <= digit_char d < 128.
Proof.
  intros Hd. assert (exists k : nat, (k < 16)%nat /\ d = Z.of_nat k) as (k & Hk & ->).
  { exists (Z.to_nat d). lia. }
  do 16 (destruct k as [| k]; [vm_compute; intuition congruence |]). lia.
Qed.

Lemma value_app base a l1 l2 :
  StrTol.value base a (l1 ++ l2) = StrTol.value base (StrTol.value base a l1) l2.
Proof. unfold StrTol.value. apply fold_left_app. Qed.

Lemma to_digits_range base : 2 <= base <= 16 -> forall fuel n, 0 <= n ->
  Forall (fun d => 0 <= d < base) (to_digits fuel base n).
Proof.
  intros Hb. induction fuel as [| fuel IH]; intros n Hn; cbn [to_digits]; [constructor |].
  destruct (Z.ltb_spec n base); [by repeat constructor |].
  apply Forall_app_2; [apply IH; apply Z.div_pos; lia |].
  repeat constructor; apply Z.mod_pos_bound; lia.
Qed.

Lemma to_digits_value base : 2 <= base <= 16 -> forall fuel n,
  0 <= n < base ^ Z.of_nat fuel -> StrTol.value base 0 (to_digits fuel base n) = n.
Proof.
  intros Hb. induction fuel as [| fuel IH]; intros n Hn; cbn [to_digits].
  - change (base ^ Z.of_nat 0) with 1 in Hn. cbn. lia.
  - destruct (Z.ltb_spec n base); [cbn; lia |].
    rewrite value_app, IH by (by apply div_bound). cbn.
    pose proof (Z.div_mod n base). lia.
Qed.

Lemma digits_denote base ds : 2 <= base <= 16 -> Forall (fun d => 0 <= d < base) ds ->
  StrTol.denotes base (map digit_char ds) ds /\
  Forall (fun c => 0 <= c < 128) (map digit_char ds).
Proof.
  intros Hb. induction 1 as [| d ds Hd _ [IH1 IH2]]; cbn [map]; [split; constructor |].
  destruct (digit_of_char d ltac:(lia)) as [H1 H2].
  split; (constructor; [| done]); [split; [done | lia] | lia].
Qed.

Lemma holds_chars m p l e : holds m p l -> Forall (fun c => 0 <= c < 128) l -> 0 <= p ->
  p + zlen l < zlen m -> rdc m (p + zlen l) = Ok e -> StrTol.chars m p l e.
Proof.
  intros Hh Hl. revert p Hh. induction Hl as [| c l Hc _ IH]; intros p Hh H0 Hin He.
  - change (zlen []) with 0 in He. by rewrite Z.add_0_r in He.
  - apply (holds_app m p [c] l) in Hh as [H1 H2]. apply holds_one in H1.
    change (zlen [c]) with 1 in H2.
    assert (zlen (c :: l) = 1 + zlen l) as El by (unfold zlen; cbn [length]; lia).
    rewrite El in *. pose proof (zlen_nonneg l). cbn [StrTol.chars]. split.
    + rewrite rdc_ok, H1 by lia. f_equal. unfold i8. rewrite u8_small by lia.
      by rewrite (proj2 (Z.ltb_lt _ _)) by lia.
    + apply IH; [done | lia | lia |]. by rewrite <- Z.add_assoc.
Qed.

(** C33: [snprintnum] writes the text of the number, and [strtol] reads the number
    back from it, for every [int], every base from 2 to 10 and every width, when
    the text fits and the byte behind it is no digit. *)
Theorem snprintnum_strtol_roundtrip m buf size n base padding e :
  2 <= base <= 10 -> -2147483648 <= n < 2147483648 ->
  let text := num_text n base true padding in
  zlen text <= size < 2147483648 -> 0 <= buf -> buf + zlen text < zlen m ->
  rdc m (buf + zlen text) = Ok e -> StrTol.stops base e ->
  exists m', snprintnum m buf size n base true padding = Ok (m', zlen text) /\
    holds m' buf text /\ StrTol.strtol m' buf base = Ok (n, buf + zlen text).
Proof.
  intros Hb Hn text Hsz H0 Hin He Hs.
  destruct (snprintnum_fits m buf size n base true padding ltac:(lia))
    as (m' & Eq & W & Hh); [fold text; lia.. |].
  exists m'. split; [exact Eq |]. split; [exact Hh |]. clear Eq.
  assert (rdc m' (buf + zlen text) = Ok e) as He'.
  { rewrite (rdc_agree m); [done | apply W |]. destruct W as [_ W].
    pose proof (zlen_nonneg text). apply W; fold text; lia. }
  fold text in Hh. unfold text in *. rewrite num_text_split in *. cbv zeta in *. cbn [andb] in *.
  set (x := if n <? 0 then - n else n) in *.
  assert (u32 x = x) as Ex by (apply u32_small; unfold x; destruct (Z.ltb_spec n 0); lia).
  assert (0 <= x < base ^ Z.of_nat 32) as Hx by (rewrite <- Ex; apply u32_pow32; lia).
  rewrite Ex in *. unfold num_digits in *. set (ds := to_digits 32 base x) in *.
  set (k := Z.to_nat (padding - zlen ds)) in *.
  destruct (digits_denote base (repeat 0 k ++ ds) ltac:(lia)) as [Hden Hasc].
  { apply Forall_app_2; [| apply to_digits_range; lia].
    apply Forall_forall. intros d Hd. apply repeat_spec in Hd. lia. }
  rewrite map_app, map_repeat in Hden, Hasc. change (digit_char 0) with 48 in *.
  assert (StrTol.value base 0 (repeat 0 k ++ ds) = x) as Hv.
  { rewrite value_app. assert (StrTol.value base 0 (repeat 0 k) = 0) as ->;
      [| by apply to_digits_value; [lia |]].
    clear. induction k as [| k IH]; [done | exact IH]. }
  set (l := repeat 48 k ++ map digit_char ds) in *.
  assert (l <> []) as Hl.
  { intros El. pose proof (to_digits_length base 31 x) as H. fold ds in H.
    assert (zlen l = 0) as Hl0 by (by rewrite El). unfold l in Hl0.
    rewrite zlen_app, zlen_map in Hl0. pose proof (zlen_nonneg (repeat 48 k)). lia. }
  pose (sg := if n <? 0 then StrTol.Minus else StrTol.Plain).
  assert ((if n <? 0 then [45] else []) = StrTol.sign_text sg) as Esg
    by (unfold sg; by destruct (n <? 0)).
  rewrite Esg in *. unfold StrTol.strtol.
  rewrite (StrTol.strto_signed_spec 32 m' buf 0 sg l (repeat 0 k ++ ds) e base);
    [| lia | lia | lia | | done | done | done].
  - rewrite zlen_app, Hv. do 2 f_equal; [| lia].
    unfold StrTol.clamp, StrTol.MIN, StrTol.MAX, sg, x. change (2 ^ (32 - 1)) with 2147483648.
    destruct (Z.ltb_spec n 0); cbn [StrTol.negative]; lia.
  - cbn [repeat app]. apply holds_chars; [done | | done | by destruct W as [-> _] | done].
    apply Forall_app_2; [unfold sg; destruct (n <? 0); repeat constructor; lia | done].
Qed.

(** C34: [snprintnum] writes inside of the [size] bytes it is given and returns at
    most [size], unless a width is combined with a sign that fills the buffer: a
    negative number printed with a width in the last byte of the buffer writes the
    whole padding behind it. *)
Theorem snprintnum_bounds m buf size n base issigned padding :
  2 <= base <= 16 -> 0 <= buf -> 0 <= size < 2147483648 -> 0 <= padding < 10 ->
  buf + size + padding <= zlen m ->
  if width_overflows size n base issigned padding
  then let k := padding - zlen (num_digits base (u32 (- n))) in
       exists m', snprintnum m buf size n base issigned padding = Ok (m', 1 + k) /\ 0 < k /\
         holds m' (buf + 1) (repeat 48 (Z.to_nat k))
  else exists m' c, snprintnum m buf size n base issigned padding = Ok (m', c) /\
         0 <= c <= size /\ within m m' buf size.
Proof.
  intros Hb H0 Hs Hp Hin.
  destruct (width_overflows size n base issigned padding) eqn:E;
    [| apply snprintnum_in_bounds; (done || lia)]. intros k. unfold width_overflows in E.
  apply andb_true_iff in E as [[Esg Esz]%andb_true_iff Ek].
  apply Z.eqb_eq in Esz as ->. apply Z.ltb_lt in Ek.
  assert (0 < k) as Hk by (unfold k; lia).
  rewrite snprintnum_split, Esg by lia. rewrite wr_ok by lia. cbn [mbind result_bind].
  pose proof (zlen_num_digits base (u32 (- n))) as Hd.
  unfold put_digits. rewrite basepow_spec by done. cbn [mbind result_bind]. cbv zeta. fold k.
  destruct (pad_loop_past 1 (Z.to_nat k) (<[Z.to_nat buf := 45]> m) (buf + 1) 1)
    as (m' & -> & _ & Hh); rewrite ?zlen_insert; [lia.. |].
  cbn [mbind result_bind]. unfold num_digits.
  rewrite (num_loop_full base Hb 31) by (try apply u32_pow32; lia).
  exists m'. split; [do 2 f_equal; lia | done].
Qed.

(** ** The text of a format *)

(** An argument: an integer, or the address of a string and its characters. *)
Inductive arg : Type :=
  | Int (z : Z)
  | Text (p : Z) (l : list Z).
Definition arg_val (a : arg) : Z := match a with Int z => z | Text p _ => p end.

(** The text of a specifier and the arguments that are left; [None] when the
    argument is missing or of the wrong kind, or the specifier unknown. *)
Definition spec_text (c padding : Z) (ap : list arg) : option (list Z * list arg) :=
  if c =? 37 then Some ([37], ap)
  else
    match ap with
    | [] => None
    | Text _ l :: ap => if c =? 115 then Some (map u8 l, ap) else None
    | Int i :: ap =>
        if c =? 99 then Some ([u8 i], ap)
        else if c =? 120 then Some (num_text (i32 i) 16 false padding, ap)
        else if c =? 112 then Some (48 :: 120 :: num_text (i32 i) 16 false padding, ap)
        else if c =? 98 then Some (num_text (i32 i) 2 false padding, ap)
        else if c =? 100 then Some (num_text (i32 i) 10 true padding, ap)
        else if c =? 117 then Some (num_text (i32 i) 10 false padding, ap)
        else None
    end.

Definition is_width (d : Z) : bool := (48 <=? d) && (d <=? 57).

(** The text of a format; a width is in force until the next one. *)
Fixpoint render (l : list Z) (padding : Z) (ap : list arg) : option (list Z) :=
  match l with
  | [] => Some []
  | c :: l =>
      if c =? 37 then
        match l with
        | [] => None
        | d :: l =>
            if is_width d then
              match l with
              | [] => None
              | c :: l =>
                  '(t, ap) ← spec_text c (d - 48) ap;
                  r ← render l (d - 48) ap; Some (t ++ r)
              end
            else
              '(t, ap) ← spec_text d padding ap;
              r ← render l padding ap; Some (t ++ r)
        end
      else r ← render l padding ap; Some (u8 c :: r)
  end.

(** A string lies outside of the buffer. *)
Definition outside (buf size p : Z) (l : list Z) : Prop :=
  p + zlen l < buf \/ buf + size <= p.

Definition arg_ok (m : mem) (buf size : Z) (a : arg) : Prop :=
  match a with Int _ => True | Text p l => cstr m p l /\ outside buf size p l end.

(** Strings outside of the buffer survive the writes into it. *)
Lemma cstr_within m m' buf size p l q n : cstr m p l -> outside buf size p l ->
  within m m' q n -> buf <= q -> q + n <= buf + size -> cstr m' p l.
Proof.
  intros Hc Ho [Hl Hf] H1 H2. pose proof (cstr_bound _ _ _ Hc).
  apply (cstr_agree m); [done | done |]. intros i Hi. unfold outside in Ho. apply Hf; lia.
Qed.

Lemma args_within m m' buf size q n ap : Forall (arg_ok m buf size) ap ->
  within m m' q n -> buf <= q -> q + n <= buf + size -> Forall (arg_ok m' buf size) ap.
Proof.
  intros Ha Hw H1 H2. induction Ha as [| [z | p l] ap Hp _ IH]; constructor; try done.
  destruct Hp as [Hc Ho]. split; [by apply (cstr_within m m' buf size p l q n) | done].
Qed.

(** Copying a string that fits. *)
Lemma str_loop_fits buf size l : forall m fuel s count,
  cstr m s l -> outside buf size s l -> (length l < fuel)%nat ->
  0 <= buf -> buf + size <= zlen m -> 0 <= count -> count + zlen l <= size ->
  exists m', str_loop fuel m buf size s count = Ok (m', count + zlen l) /\
    within m m' (buf + count) (zlen l) /\ holds m' (buf + count) (map u8 l).
Proof.
  induction l as [| c l IH]; intros m [| fuel] s count Hc Ho Hf H0 Hin Hct Hfit;
    cbn [length] in *; try lia; inversion Hc as [? E | ? ? ? E Hne Hc']; subst;
    cbn [str_loop]; rewrite E; cbn [mbind result_bind].
  - cbn. exists m. split; [do 2 f_equal; unfold zlen; cbn; lia |].
    split; [apply within_refl | apply holds_nil].
  - assert (zlen (c :: l) = 1 + zlen l) as El by (unfold zlen; cbn [length]; lia).
    rewrite El in *. pose proof (zlen_nonneg l).
    rewrite (proj2 (Z.eqb_neq _ _) Hne), (proj2 (Z.ltb_lt count size)) by lia. cbn [negb andb].
    rewrite wr_ok by lia. cbn [mbind result_bind].
    pose proof (within_write m (buf + count) (u8 c) ltac:(lia)) as W1.
    unfold outside in Ho. rewrite El in Ho.
    destruct (IH (<[Z.to_nat (buf + count) := u8 c]> m) fuel (s + 1) (count + 1))
      as (m' & -> & W & Hh); rewrite ?zlen_insert; try lia.
    { apply (cstr_within m _ buf size _ _ (buf + count) 1); [done | | done | lia | lia].
      unfold outside. lia. }
    { unfold outside. lia. }
    exists m'. split; [do 2 f_equal; lia |].
    replace (buf + (count + 1)) with (buf + count + 1) in * by lia. split.
    + apply (within_trans _ _ _ _ _ _ _
        (within_weaken _ _ _ _ (buf + count) (1 + zlen l) W1 ltac:(lia) ltac:(lia)) W); lia.
    + cbn [map]. apply (holds_app _ _ [u8 c]). change (zlen [u8 c]) with 1. split; [| done].
      eapply holds_within; [| exact W | lia | change (zlen [u8 c]) with 1; lia].
      apply holds_one. rewrite at_insert by lia. by rewrite Z.eqb_refl.
Qed.

(** One character in the buffer. *)
Lemma put_char_fits m buf size count c : 0 <= buf -> buf + size <= zlen m ->
  0 <= count < size ->
  exists m', wr m (buf + count) c = Ok m' /\ within m m' (buf + count) 1 /\
    holds m' (buf + count) [c].
Proof.
  intros H0 Hin Hc. rewrite wr_ok by lia. eexists. split; [done |].
  split; [apply within_write; lia |]. apply holds_one. rewrite at_insert by lia.
  by rewrite Z.eqb_refl.
Qed.

(** The result of one specifier that fits. *)
Definition fits (m : mem) (buf count : Z) (t : list Z) (r : result (mem * Z * list Z))
    (ap : list arg) : Prop :=
  exists m', r = Ok (m', count + zlen t, map arg_val ap) /\
    within m m' (buf + count) (zlen t) /\ holds m' (buf + count) t.

Lemma put_num_fits m buf size count i ap base issigned padding : 2 <= base <= 16 ->
  let t := num_text (i32 i) base issigned padding in
  0 <= buf -> buf + size <= zlen m -> 0 <= count -> count + zlen t <= size ->
  size < 2147483648 ->
  fits m buf count t (put_num m buf size count (map arg_val (Int i :: ap)) base issigned padding)
    ap.
Proof.
  intros Hb t H0 Hin Hc Hfit Hs. unfold put_num, fits. cbn [map va_arg arg_val mbind result_bind].
  destruct (snprintnum_fits m (buf + count) (size - count) (i32 i) base issigned padding Hb)
    as (m' & -> & W & Hh); fold t; [lia.. |].
  exists m'. split; [done | split; done].
Qed.

(** Two pieces of text, one after the other. *)
Lemma pieces m m1 m2 p t r : 0 <= p -> within m m1 p (zlen t) -> holds m1 p t ->
  within m1 m2 (p + zlen t) (zlen r) -> holds m2 (p + zlen t) r ->
  within m m2 p (zlen (t ++ r)) /\ holds m2 p (t ++ r).
Proof.
  intros Hp W1 H1 W2 H2. rewrite zlen_app. pose proof (zlen_nonneg t). pose proof (zlen_nonneg r).
  split.
  - apply (within_trans _ _ _ _ _ _ _
      (within_weaken _ _ _ _ p (zlen t + zlen r) W1 ltac:(lia) ltac:(lia)) W2); lia.
  - apply holds_app. split; [| done]. apply (holds_within _ _ _ _ _ _ H1 W2); lia.
Qed.

(** A number, as the last step of a specifier. *)
Lemma num_fits m buf size count i ap base sg padding : 2 <= base <= 16 ->
  0 <= buf -> buf + size <= zlen m -> 0 <= count ->
  count + zlen (num_text (i32 i) base sg padding) <= size -> size < 2147483648 ->
  exists r, (r ← put_num m buf size count (i :: map arg_val ap) base sg padding; Ok (Some r)) =
      Ok (Some r) /\ fits m buf count (num_text (i32 i) base sg padding) (Ok r) ap.
Proof.
  intros Hb H0 Hin Hc Hf Hs.
  destruct (put_num_fits m buf size count i ap base sg padding Hb) as (m' & E & W & Hh); [lia.. |].
  cbn [map arg_val] in E. rewrite E. eexists. split; [done |]. by exists m'.
Qed.

Lemma num_text_pos x base sg padding : 1 <= zlen (num_text x base sg padding).
Proof.
  rewrite num_text_split. cbv zeta. rewrite !zlen_app, zlen_map.
  match goal with |- context [num_digits base ?y] =>
    pose proof (zlen_num_digits base y);
    pose proof (zlen_nonneg (repeat 48 (Z.to_nat (padding - zlen (num_digits base y))))) end.
  destruct (_ && _); unfold zlen in *; cbn [length] in *; lia.
Qed.

(** A pointer: the prefix and a number. *)
Lemma pointer_fits m buf size count i ap padding :
  let t := 48 :: 120 :: num_text (i32 i) 16 false padding in
  0 <= buf -> buf + size <= zlen m -> 0 <= count -> count + zlen t <= size ->
  size < 2147483648 ->
  exists r, (m ← wr m (buf + count) 48;
             m ← wr m (buf + (count + 1)) 120;
             '(m, k) ← snprintnum m (buf + (count + 2)) (size - (count + 2)) (i32 i) 16 false padding;
             Ok (Some (m, count + 2 + k, map arg_val ap))) = Ok (Some r) /\
    fits m buf count t (Ok r) ap.
Proof.
  intros t H0 Hin Hc Hfit Hs. set (tail := num_text (i32 i) 16 false padding) in *.
  change t with ([48] ++ [120] ++ tail) in *. clear t. rewrite !zlen_app in Hfit.
  change (zlen [48]) with 1 in Hfit. change (zlen [120]) with 1 in Hfit.
  pose proof (zlen_nonneg tail).
  destruct (put_char_fits m buf size count 48) as (m1 & -> & W1 & H1); [lia.. |].
  cbn [mbind result_bind]. pose proof (proj1 W1) as L1.
  destruct (put_char_fits m1 buf size (count + 1) 120) as (m2 & -> & W2 & H2); [lia.. |].
  cbn [mbind result_bind]. pose proof (proj1 W2) as L2.
  destruct (snprintnum_fits m2 (buf + (count + 2)) (size - (count + 2)) (i32 i) 16 false padding)
    as (m3 & -> & W3 & H3); fold tail; [lia.. |]. fold tail in W3, H3.
  cbn [mbind result_bind]. eexists. split; [reflexivity |]. exists m3.
  split; [rewrite !zlen_app; do 3 f_equal; change (zlen [48]) with 1; change (zlen [120]) with 1; lia |].
  replace (buf + (count + 2)) with (buf + (count + 1) + zlen [120]) in W3, H3
    by (change (zlen [120]) with 1; lia).
  destruct (pieces m1 m2 m3 (buf + (count + 1)) [120] tail) as [W H']; try done; [lia |].
  replace (buf + (count + 1)) with (buf + count + zlen [48]) in W, H' by (change (zlen [48]) with 1; lia).
  apply (pieces m m1); (done || lia).
Qed.

Lemma specifier_fits m buf size c count padding ap t ap' :
  spec_text c padding ap = Some (t, ap') -> Forall (arg_ok m buf size) ap ->
  0 <= buf -> buf + size <= zlen m -> 0 <= count < size -> count + zlen t <= size ->
  size < 2147483648 ->
  exists r, specifier m buf size c count padding (map arg_val ap) = Ok (Some r) /\
    fits m buf count t (Ok r) ap'.
Proof.
  intros Ht Hap H0 Hin Hc Hfit Hs. unfold spec_text in Ht. unfold specifier.
  destruct (Z.eqb_spec c 37) as [-> | N37].
  { injection Ht as <- <-. destruct (put_char_fits m buf size count 37) as (m' & -> & W & Hh);
      [done.. |]. eexists. split; [done |]. by exists m'. }
  destruct ap as [| [i | p l] ap]; [done | |].
  - cbn [map va_arg arg_val mbind result_bind].
    destruct (Z.eqb_spec c 99) as [-> | N99].
    { injection Ht as <- <-.
      destruct (put_char_fits m buf size count (u8 i)) as (m' & -> & W & Hh); [done.. |].
      eexists. split; [done |]. by exists m'. }
    destruct (Z.eqb_spec c 120) as [-> | N120]; [injection Ht as <- <-; apply num_fits; lia |].
    destruct (Z.eqb_spec c 112) as [-> | N112].
    { injection Ht as <- <-. cbn [Z.eqb Pos.eqb].
      pose proof (num_text_pos (i32 i) 16 false padding) as Hl.
      destruct (Z.gtb_spec (size - count) 2); [| unfold zlen in *; cbn [length] in *; lia].
      apply pointer_fits; (done || lia). }
    destruct (Z.eqb_spec c 98) as [-> | N98]; [injection Ht as <- <-; apply num_fits; lia |].
    destruct (Z.eqb_spec c 100) as [-> | N100]; [injection Ht as <- <-; apply num_fits; lia |].
    destruct (Z.eqb_spec c 117) as [-> | N117]; [injection Ht as <- <-; apply num_fits; lia |].
    done.
  - destruct (Z.eqb_spec c 115) as [-> | N115]; [| done]. injection Ht as <- <-.
    pose proof (Forall_inv Hap) as [Hc' Ho]. cbn [map va_arg arg_val mbind result_bind Z.eqb Pos.eqb].
    unfold fits. rewrite zlen_map in *.
    destruct (str_loop_fits buf size l m (fuel_for m) p count) as (m' & -> & W & Hh);
      [done | done | by apply cstr_fuel with p | lia.. |].
    cbn [mbind result_bind]. eexists. split; [done |]. by exists m'.
Qed.

(** The arguments a specifier leaves. *)
Lemma spec_args m buf size c padding ap t ap' : spec_text c padding ap = Some (t, ap') ->
  Forall (arg_ok m buf size) ap -> Forall (arg_ok m buf size) ap'.
Proof.
  unfold spec_text. intros H Ha. destruct (c =? 37); [by injection H as _ <- |].
  destruct ap as [| [i | p l] ap]; [done | |]; apply Forall_inv_tail in Ha;
    repeat match type of H with (if ?b then _ else _) = _ => destruct b end;
    try done; by injection H as _ <-.
Qed.

Section formatting.
Context (buf size : Z) (Hbuf : 0 <= buf) (Hsize : size < 2147483648).

(** What the loop promises for the rest of a format. *)
Definition renders (l : list Z) : Prop :=
  forall m fuel fmt count padding ap text,
  cstr m fmt l -> outside buf size fmt l -> Forall (arg_ok m buf size) ap ->
  render l padding ap = Some text -> buf + size <= zlen m -> 0 <= count ->
  count + zlen text <= size -> (length l < fuel)%nat ->
  exists m', vsnprintf_loop fuel m buf size fmt count padding (map arg_val ap) =
      Ok (m', count + zlen text) /\
    within m m' (buf + count) (zlen text) /\ holds m' (buf + count) text.

(** The loop goes on behind a piece of text. *)
Lemma renders_after l m m1 fuel fmt count padding ap t text : renders l ->
  within m m1 (buf + count) (zlen t) -> holds m1 (buf + count) t ->
  cstr m fmt l -> outside buf size fmt l -> Forall (arg_ok m buf size) ap ->
  render l padding ap = Some text -> buf + size <= zlen m -> 0 <= count ->
  count + zlen (t ++ text) <= size -> (length l < fuel)%nat ->
  exists m', vsnprintf_loop fuel m1 buf size fmt (count + zlen t) padding (map arg_val ap) =
      Ok (m', count + zlen (t ++ text)) /\
    within m m' (buf + count) (zlen (t ++ text)) /\ holds m' (buf + count) (t ++ text).
Proof using Hbuf.
  intros IH W1 H1 Hc Ho Ha Hr Hin H0 Hfit Hf. rewrite zlen_app in Hfit.
  pose proof (zlen_nonneg t) as Z1. pose proof (zlen_nonneg text) as Z2.
  destruct (IH m1 fuel fmt (count + zlen t) padding ap text) as (m2 & -> & W2 & H2);
    try done; try lia.
  - apply (cstr_within m m1 buf size fmt l _ _ Hc Ho W1); lia.
  - apply (args_within m m1 buf size _ _ ap Ha W1); lia.
  - by destruct W1 as [-> _].
  - exists m2. split; [rewrite zlen_app; do 2 f_equal; lia |].
    rewrite Z.add_assoc in W2, H2. apply (pieces m m1); (done || lia).
Qed.

(** A specifier and the rest of the format. *)
Lemma renders_specifier l m fuel fmt c count padding ap text : renders l ->
  cstr m fmt l -> outside buf size fmt l -> Forall (arg_ok m buf size) ap ->
  ('(t, ap) ← spec_text c padding ap; r ← render l padding ap; Some (t ++ r)) = Some text ->
  buf + size <= zlen m -> 0 <= count < size -> count + zlen text <= size -> (length l < fuel)%nat ->
  exists m', (r ← specifier m buf size c count padding (map arg_val ap);
              match r with
              | None => Ok (m, count)
              | Some (m, count, ap) => vsnprintf_loop fuel m buf size fmt count padding ap
              end) = Ok (m', count + zlen text) /\
    within m m' (buf + count) (zlen text) /\ holds m' (buf + count) text.
Proof using Hbuf Hsize.
  intros IH Hc Ho Ha Hr Hin H0 Hfit Hf.
  apply bind_Some in Hr as ([t ap'] & Ht & Hr). apply bind_Some in Hr as (r & Hr & Heq).
  injection Heq as <-. rewrite zlen_app in Hfit. pose proof (zlen_nonneg r) as Zr.
  destruct (specifier_fits m buf size c count padding ap t ap' Ht Ha) as (rr & -> & Hfits);
    [lia.. |]. destruct Hfits as (m1 & [= ->] & W1 & H1). cbn [mbind result_bind].
  apply (renders_after l m m1); try done; try lia;
    first [by apply (spec_args _ _ _ _ _ _ _ _ Ht) | rewrite zlen_app; lia].
Qed.

Lemma vsnprintf_loop_renders n : forall l, (length l <= n)%nat -> renders l.
Proof using Hbuf Hsize.
  induction n as [| n IH]; intros l Hn m [| fuel] fmt count padding ap text Hc Ho Ha Hr Hin H0
    Hfit Hf; try lia.
  { destruct l; [| cbn in Hn; lia]. inversion Hc as [? E |]; subst. injection Hr as <-.
    cbn [vsnprintf_loop]. rewrite E. cbn. exists m. split; [do 2 f_equal; unfold zlen; cbn; lia |].
    split; [apply within_refl | apply holds_nil]. }
  destruct Hc as [fmt E | fmt c l E Hne Hc].
  { injection Hr as <-. cbn [vsnprintf_loop]. rewrite E. cbn. exists m.
    split; [do 2 f_equal; unfold zlen; cbn; lia |]. split; [apply within_refl | apply holds_nil]. }
  cbn [vsnprintf_loop]. rewrite E. cbn [mbind result_bind].
  rewrite (proj2 (Z.eqb_neq _ _) Hne). cbn [negb andb].
  destruct (Z.ltb_spec count size) as [Hlt | Hge].
  2: { pose proof (zlen_nonneg text) as Zt. assert (text = []) as ->.
       { destruct text; [done |]. unfold zlen in *. cbn [length] in *. lia. }
       exists m. split; [do 2 f_equal; unfold zlen; cbn; lia |].
       split; [apply within_refl | apply holds_nil]. }
  cbn [length] in Hn, Hf. unfold outside in Ho.
  rewrite zlen_cons in Ho. pose proof (cstr_bound _ _ _ Hc) as Hbd. cbn [render] in Hr.
  destruct (Z.eqb_spec c 37) as [-> | N37].
  - destruct l as [| d l]; [done |]. apply cstr_inv in Hc as (Ed & Nd & Hc). rewrite Ed. cbn [mbind result_bind].
    rewrite (zlen_cons d l) in *. pose proof (zlen_nonneg l) as Zl. cbn [length] in Hn, Hf.
    fold (is_width d). destruct (is_width d).
    + destruct l as [| c l]; [done |]. apply cstr_inv in Hc as (Ec & Nc & Hc). rewrite Ec. cbn [mbind result_bind].
      rewrite (zlen_cons c l) in *. cbn [length] in Hn, Hf.
      apply (renders_specifier l); first [done | lia | unfold outside; lia | apply IH; lia].
    + rewrite Ed. cbn [mbind result_bind].
      apply (renders_specifier l); first [done | lia | unfold outside; lia | apply IH; lia].
  - apply bind_Some in Hr as (r & Hr & Heq). injection Heq as <-.
    destruct (put_char_fits m buf size count (u8 c)) as (m1 & -> & W1 & H1); [lia.. |].
    cbn [mbind result_bind]. change (u8 c :: r) with ([u8 c] ++ r) in *.
    change 1 with (zlen [u8 c]) in W1.
    apply (renders_after l m m1 fuel (fmt + 1) count padding ap [u8 c] r); try done; try lia;
      first [unfold outside; lia | apply IH; lia].
Qed.
End formatting.

(** ** Properties of the formatted output *)

(** The caller of snprintf: a buffer inside of the memory, and a format and
    strings outside of the buffer. *)
Record format_ok (m : mem) (buf size fmt : Z) (l : list Z) (ap : list arg) : Prop := mk_format_ok
  { fo_buf : 0 <= buf /\ buf + size <= zlen m;
    fo_size : size < 2147483648;
    fo_fmt : cstr m fmt l /\ outside buf size fmt l;
    fo_args : Forall (arg_ok m buf size) ap }.

Lemma vsnprintf_spec m buf size fmt l ap text :
  format_ok m buf size fmt l ap -> render l 0 ap = Some text -> zlen text <= size ->
  exists m', vsnprintf m buf size fmt (map arg_val ap) = Ok (m', zlen text) /\
    within m m' buf (zlen text) /\ holds m' buf text.
Proof.
  intros [[H0 Hin] Hs [Hc Ho] Ha] Hr Hfit. unfold vsnprintf.
  destruct (vsnprintf_loop_renders buf size H0 Hs (length l) l (le_n _) m (fuel_for m) fmt 0 0
              ap text Hc Ho Ha Hr Hin) as (m' & E & W & Hh);
    try done; try lia; try (by apply cstr_fuel with fmt).
  rewrite Z.add_0_r in W, Hh. exists m'. rewrite E. by split.
Qed.

(** C32: [snprintf] writes the text of the format and its arguments, returns the
    text's length and changes nothing else, when the text fits. *)
Theorem snprintf_renders m buf size fmt l ap text :
  format_ok m buf size fmt l ap -> render l 0 ap = Some text -> zlen text <= size ->
  exists m', snprintf m buf size fmt (map arg_val ap) = Ok (m', zlen text) /\
    within m m' buf (zlen text) /\ holds m' buf text.
Proof. apply vsnprintf_spec. Qed.

Lemma at_app_l (m x : mem) i : 0 <= i < zlen m -> at_ 0 (m ++ x) i = at_ 0 m i.
Proof. intros Hi. rewrite at_app by lia. by rewrite (proj2 (Z.ltb_lt _ _)) by lia. Qed.

(** A string of the caller is a string of the memory with the local buffer. *)
Lemma cstr_extend m x p l : cstr m p l -> cstr (m ++ x) p l.
Proof.
  assert (forall p c, rdc m p = Ok c -> rdc (m ++ x) p = Ok c) as Hr.
  { intros q c H. apply rdc_inv in H as [Hq <-]. pose proof (zlen_nonneg x).
    rewrite rdc_ok by (rewrite zlen_app; lia). by rewrite at_app_l. }
  induction 1 as [p H | p c l H Hc _ IH]; [by apply cstr_nil, Hr | apply cstr_cons; auto].
Qed.

Lemma at_drop (m : mem) n k : 0 <= k -> at_ 0 (drop n m) k = at_ 0 m (Z.of_nat n + k).
Proof.
  intros Hk. unfold at_. destruct (Z.ltb_spec k 0), (Z.ltb_spec (Z.of_nat n + k) 0); try lia.
  rewrite lookup_drop. do 2 f_equal. lia.
Qed.

Lemma at_repeat (x : Z) n k : 0 <= k < Z.of_nat n -> at_ 0 (repeat x n) k = x.
Proof.
  intros Hk. unfold at_. destruct (Z.ltb_spec k 0); [lia |].
  destruct (repeat x n !! Z.to_nat k) eqn:E; [| apply lookup_ge_None_1 in E;
    rewrite repeat_length in E; lia].
  apply list_elem_of_lookup_2, list_elem_of_In, repeat_spec in E. by subst.
Qed.

Lemma kprintf_spec m fmt l ap text :
  cstr m fmt l -> Forall (fun a => match a with Int _ => True | Text p t => cstr m p t end) ap ->
  render l 0 ap = Some text -> zlen text <= BUFSIZE - 1 ->
  exists b, kprintf m fmt (map arg_val ap) = Ok (zlen text, b) /\ zlen b = BUFSIZE /\
    forall k, 0 <= k < BUFSIZE -> at_ 0 b k = at_ 0 text k.
Proof.
  intros Hc Ha Hr Hfit. unfold kprintf, BUFSIZE in *. change (4096 - 1) with 4095 in *.
  set (z := repeat 0 (Z.to_nat 4096)). set (m0 := m ++ z).
  assert (zlen z = 4096) as Ez by (unfold z; rewrite zlen_repeat; lia).
  assert (zlen m0 = zlen m + 4096) as Em by (unfold m0; rewrite zlen_app; lia).
  pose proof (zlen_nonneg m) as Hm. pose proof (zlen_nonneg text) as Ht.
  assert (forall p t, cstr m p t -> cstr m0 p t /\ outside (zlen m) 4095 p t) as Hext.
  { intros p t Hp. split; [by apply cstr_extend |]. left. apply cstr_bound in Hp. lia. }
  destruct (vsnprintf_spec m0 (zlen m) 4095 fmt l ap text) as (m' & -> & [Hl W] & Hh);
    [| exact Hr | lia |].
  { split; [lia | lia | by apply Hext |].
    refine (List.Forall_impl _ _ Ha). intros [i | p t]; [done | apply Hext]. }
  cbn [mbind result_bind]. eexists. split; [done |]. split.
  - unfold zlen. rewrite length_drop. unfold zlen in *. lia.
  - intros k Hk. rewrite at_drop by lia. fold (zlen m).
    destruct (Z.lt_ge_cases k (zlen text)); [apply Hh; lia |].
    rewrite W, (at_over 0 text k) by lia. unfold m0. rewrite at_app by lia.
    rewrite (proj2 (Z.ltb_ge _ _)) by lia. unfold z. apply at_repeat. lia.
Qed.

(** [kprintf] hands the text of the format to the screen, followed by zeros up to
    the end of its buffer, when the text has at most 4095 characters. *)
Theorem kprintf_renders m fmt l ap text :
  cstr m fmt l -> Forall (fun a => match a with Int _ => True | Text p t => cstr m p t end) ap ->
  render l 0 ap = Some text -> zlen text <= BUFSIZE - 1 ->
  exists b, kprintf m fmt (map arg_val ap) = Ok (zlen text, b) /\ zlen b = BUFSIZE /\
    forall k, 0 <= k < BUFSIZE -> at_ 0 b k = at_ 0 text k.
Proof. apply kprintf_spec. Qed.

(** ** Witnesses *)

(** The format "%4d%s%%" at 0, "ok" at 8, a buffer of 12 bytes at 11. *)
Definition example_mem : mem :=
  [37; 52; 100; 37; 115; 37; 37; 0; 111; 107; 0] ++ repeat 0 12.
Definition example_format : list Z := [37; 52; 100; 37; 115; 37; 37].
Definition example_args : list arg := [Int (-42); Text 8 [111; 107]].

Lemma example_format_ok : format_ok example_mem 11 12 0 example_format example_args.
Proof.
  split; [vm_compute; intuition congruence | lia | |].
  - split; [string | left; reflexivity].
  - repeat (constructor; try done).
Qed.

(** "-0042ok%" *)
Lemma snprintf_renders_witness :
  exists m, snprintf example_mem 11 12 0 [-42; 8] = Ok (m, 8) /\
    holds m 11 [45; 48; 48; 52; 50; 111; 107; 37].
Proof.
  destruct (snprintf_renders example_mem 11 12 0 example_format example_args
    [45; 48; 48; 52; 50; 111; 107; 37] example_format_ok eq_refl ltac:(vm_compute; congruence))
    as (m & E & _ & H).
  exists m. exact (conj E H).
Defined.

Lemma kprintf_renders_witness :
  exists b, kprintf example_mem 0 [-42; 8] = Ok (8, b) /\ at_ 0 b 7 = 37.
Proof.
  destruct (kprintf_renders example_mem 0 example_format example_args
    [45; 48; 48; 52; 50; 111; 107; 37]) as (b & E & _ & H);
    [string | repeat (constructor; try done) | reflexivity | vm_compute; congruence |].
  exists b. split; [exact E |]. exact (H 7 ltac:(unfold BUFSIZE; lia)).
Defined.

Lemma snprintnum_strtol_roundtrip_witness :
  exists m, snprintnum (repeat 0 12) 1 11 (-42) 10 true 4 = Ok (m, 5) /\
    StrTol.strtol m 1 10 = Ok (-42, 6).
Proof.
  destruct (snprintnum_strtol_roundtrip (repeat 0 12) 1 11 (-42) 10 4 0) as (m & E & _ & H);
    [lia | lia | vm_compute; intuition congruence | lia | reflexivity | reflexivity | exact I |].
  exists m. exact (conj E H).
Defined.

(** One byte is left for -7 with a width of 4: three zeros go behind it. *)
Lemma snprintnum_bounds_witness :
  exists m, snprintnum (repeat 0 12) 0 1 (-7) 10 true 4 = Ok (m, 4) /\ holds m 1 [48; 48; 48].
Proof.
  destruct (snprintnum_bounds (repeat 0 12) 0 1 (-7) 10 true 4) as (m & E & _ & H);
    [lia | lia | lia | lia | vm_compute; congruence |].
  exists m. exact (conj E H).
Defined.

End Print.
