(* ===== verification/Format.v ===== *)
(** Types for formats.

    A format is checked against the kinds of its arguments once; every argument
    list of these kinds then renders to a text of printing characters whose length
    is known. *)

From Stdlib Require Import ZArith Lia Bool.
From stdpp Require Import base tactics numbers list option.
From S2P Require Import Prelude Mem Str StrTol Print.

Local Open Scope Z_scope.

Module Format.
Import Print.

(** The characters that only add to a screen: not the terminator, tabulation or
    backspace. *)
Definition visible (c : Z) : Prop := 0 < c < 128 /\ c <> 8 /\ c <> 9.

#[export] Instance visible_dec c : Decision (visible c).
Proof. unfold visible. apply _. Defined.

(** What a specifier consumes: an integer, a character or a string. *)
Inductive kind : Type := KInt | KChar | KText.

Definition of_kind (k : kind) (a : arg) : Prop :=
  match k, a with
  | KInt, Int _ => True
  | KChar, Int c => visible c
  | KText, Text _ l => Forall visible l
  | _, _ => False
  end.

Definition spec_kinds (c : Z) : option (list kind) :=
  if c =? 37 then Some []
  else if c =? 99 then Some [KChar]
  else if c =? 115 then Some [KText]
  else if (c =? 120) || (c =? 112) || (c =? 98) || (c =? 100) || (c =? 117) then Some [KInt]
  else None.

(** The kinds of the arguments of a format; [None] if it is malformed. *)
Fixpoint format_type (l : list Z) : option (list kind) :=
  match l with
  | [] => Some []
  | c :: l =>
      if c =? 37 then
        match l with
        | [] => None
        | d :: l =>
            if is_width d then
              match l with
              | [] => None
              | c :: l => ks ← spec_kinds c; r ← format_type l; Some (ks ++ r)
              end
            else ks ← spec_kinds d; r ← format_type l; Some (ks ++ r)
        end
      else if bool_decide (visible c) then format_type l else None
  end.

(** The longest text of an argument: a sign and 32 binary digits, or [0x] and
    8 digits, or a string. *)
Definition arg_size (a : arg) : Z := match a with Int _ => 35 | Text _ l => zlen l end.
Definition args_size (ap : list arg) : Z := foldr (fun a n => arg_size a + n) 0 ap.

Lemma arg_size_nonneg a : 0 <= arg_size a.
Proof. destruct a; cbn; [lia | apply zlen_nonneg]. Qed.

(** ** Texts *)

Lemma digit_visible d : 0 <= d < 16 -> visible (digit_char d).
Proof. intros Hd. pose proof (digit_of_char d Hd). unfold visible. lia. Qed.

Lemma num_text_visible n base sg padding : 2 <= base <= 16 -> padding <= 9 ->
  Forall visible (num_text n base sg padding) /\ zlen (num_text n base sg padding) <= 33.
Proof.
  intros Hb Hp. unfold num_text. set (un := if sg && (n <? 0) then u32 (- n) else u32 n).
  pose proof (zlen_num_digits base un) as Hl.
  assert (0 <= un) as Hun by (unfold un; destruct (_ && _); apply u32_range).
  split.
  - apply Forall_app. split.
    { destruct (sg && (n <? 0)); [apply List.Forall_cons; [unfold visible; lia |] |]; constructor. }
    apply Forall_app. split.
    { apply List.Forall_forall. intros x Hx%repeat_spec. subst. unfold visible. lia. }
    rewrite Forall_map. eapply List.Forall_impl; [| exact (to_digits_range base Hb 32 un Hun)].
    intros d Hd. apply digit_visible. cbv beta in Hd. lia.
  - rewrite !zlen_app, zlen_map, zlen_repeat.
    assert (zlen (if sg && (n <? 0) then [45] else []) <= 1) by (by destruct (sg && (n <? 0))).
    lia.
Qed.

Lemma visible_u8 c : visible c -> u8 c = c.
Proof. unfold visible. intros. apply u8_small. lia. Qed.

Lemma map_u8_visible l : Forall visible l -> map u8 l = l.
Proof.
  induction 1 as [| c l Hc _ IH]; [done |]. cbn [map]. by rewrite visible_u8, IH.
Qed.

(** The text of one specifier. *)
Lemma spec_text_typed c padding ks ap ap' : spec_kinds c = Some ks -> padding <= 9 ->
  Forall2 of_kind ks ap ->
  exists t, spec_text c padding (ap ++ ap') = Some (t, ap') /\ Forall visible t /\
    zlen t <= 1 + args_size ap.
Proof.
  intros Hc Hp Ha. unfold spec_kinds in Hc. unfold spec_text.
  assert (forall l, 2 <= l <= 16 -> forall n sg, Forall visible (num_text n l sg padding) /\
    zlen (num_text n l sg padding) <= 33) as Hnum by (intros; by apply num_text_visible).
  destruct (c =? 37).
  { injection Hc as <-. inversion Ha; subst ap. exists [37]. split; [done |].
    split; [by apply (bool_decide_unpack _) | by vm_compute]. }
  destruct (c =? 99).
  { injection Hc as <-. inversion Ha as [| ? [z |] ? ? Hz Hr]; subst; [| done]. inversion Hr; subst.
    cbn in Hz. cbn [app]. rewrite visible_u8 by done. exists [z]. split; [done |].
    split; [by constructor | unfold zlen; cbn; lia]. }
  destruct (c =? 115).
  { injection Hc as <-. inversion Ha as [| ? [| p l] ? ? Hz Hr]; subst; [done |]. inversion Hr; subst.
    cbn in Hz. cbn [app]. rewrite map_u8_visible by done. exists l. split; [done |].
    split; [done | cbn; lia]. }
  assert (exists i, ap = [Int i]) as [i ->].
  { destruct (_ || _); [| done]. injection Hc as <-.
    inversion Ha as [| ? [z |] ? ? Hz Hr]; subst; [| done]. inversion Hr; subst. by exists z. }
  cbn [app args_size foldr arg_size].
  destruct (c =? 120); [eexists; split; [done |]; split; [apply Hnum; lia |]; pose proof (Hnum 16 ltac:(lia) (i32 i) false); lia |].
  destruct (c =? 112).
  { eexists. split; [done |]. destruct (Hnum 16 ltac:(lia) (i32 i) false) as [Hv Hl]. split.
    - constructor; [unfold visible; lia |]. constructor; [unfold visible; lia | done].
    - unfold zlen in *. cbn [length]. lia. }
  destruct (c =? 98); [eexists; split; [done |]; split; [apply Hnum; lia |]; pose proof (Hnum 2 ltac:(lia) (i32 i) false); lia |].
  destruct (c =? 100); [eexists; split; [done |]; split; [apply Hnum; lia |]; pose proof (Hnum 10 ltac:(lia) (i32 i) true); lia |].
  destruct (c =? 117); [| done].
  eexists; split; [done |]; split; [apply Hnum; lia |]; pose proof (Hnum 10 ltac:(lia) (i32 i) false); lia.
Qed.

Lemma args_size_app l1 l2 : args_size (l1 ++ l2) = args_size l1 + args_size l2.
Proof.
  induction l1 as [| a l1 IH]; [done |].
  change (arg_size a + args_size (l1 ++ l2) = arg_size a + args_size l1 + args_size l2). lia.
Qed.

(** ** Well-typed formats *)

Lemma typed_renders n : forall l ks ap padding, (length l <= n)%nat -> format_type l = Some ks ->
  padding <= 9 -> Forall2 of_kind ks ap ->
  exists t, render l padding ap = Some t /\ Forall visible t /\ zlen t <= zlen l + args_size ap.
Proof.
  induction n as [| n IH]; intros [| c l] ks ap padding Hn Ht Hp Ha; try (cbn in Hn; lia);
    try (injection Ht as <-; inversion Ha; exists []; by repeat constructor).
  cbn [length] in Hn. cbn [format_type render] in *.
  assert (forall d l' padding', (length l' <= n)%nat -> padding' <= 9 -> zlen l' + 1 <= zlen (c :: l) ->
    spec_kinds d ≫= (fun ks => format_type l' ≫= (fun r => Some (ks ++ r))) = Some ks ->
    exists t, ('(t, ap) ← spec_text d padding' ap; r ← render l' padding' ap; Some (t ++ r)) = Some t /\
      Forall visible t /\ zlen t <= zlen (c :: l) + args_size ap) as Hspec.
  { intros d l' p' Hl' Hp' Hz (k1 & Hk1 & (k2 & Hk2 & [= <-])%bind_Some)%bind_Some.
    apply Forall2_app_inv_l in Ha as (a1 & a2 & H1 & H2 & ->).
    destruct (spec_text_typed d p' k1 a1 a2 Hk1 Hp' H1) as (t1 & -> & Hv1 & Hl1).
    destruct (IH l' k2 a2 p' Hl' Hk2 Hp' H2) as (t2 & E2 & Hv2 & Hl2).
    cbn. rewrite E2. cbn. exists (t1 ++ t2). split; [done |].
    rewrite Forall_app, zlen_app, args_size_app. split; [done | lia]. }
  unfold zlen in Hspec. cbn [length] in Hspec.
  destruct (c =? 37).
  { destruct l as [| d l]; [done |]. cbn [length] in *. destruct (is_width d) eqn:Ew.
    - destruct l as [| c' l]; [done |]. cbn [length] in *. apply Hspec; try lia; [| done].
      unfold is_width in Ew. apply andb_true_iff in Ew as [E1%Z.leb_le E2%Z.leb_le]. lia.
    - apply Hspec; try lia. done. }
  case_bool_decide as Hc; [| done].
  destruct (IH l ks ap padding ltac:(lia) Ht Hp Ha) as (t & -> & Hv & Hl).
  cbn. rewrite visible_u8 by done. exists (c :: t). split; [done |]. split; [by constructor |].
  unfold zlen in *. cbn [length]. lia.
Qed.

Lemma typed_format_spec fmt ks ap : format_type fmt = Some ks -> Forall2 of_kind ks ap ->
  exists t, render fmt 0 ap = Some t /\ Forall visible t /\ zlen t <= zlen fmt + args_size ap.
Proof. intros Ht Ha. apply (typed_renders (length fmt) fmt ks); (done || lia). Qed.

(** ** The check of a call *)

(** At most this many characters for the arguments of a format; strings have at
    most 1100, more than a line of the shell. *)
Definition kinds_size (ks : list kind) : Z :=
  foldr (fun k n => match k with KText => 1100 | _ => 35 end + n) 0 ks.

(** The kinds of the arguments of a format whose text fits kprintf's buffer. *)
Definition format_check (fmt : list Z) : option (list kind) :=
  match format_type fmt with
  | Some ks => if zlen fmt + kinds_size ks <=? 4095 then Some ks else None
  | None => None
  end.

(** The values [zs] are arguments of the kinds [ks] in the memory [m]. *)
Fixpoint args_in (m : list Z) (ks : list kind) (zs : list Z) : Prop :=
  match ks, zs with
  | [], [] => True
  | KInt :: ks, _ :: zs => args_in m ks zs
  | KChar :: ks, z :: zs => visible z /\ args_in m ks zs
  | KText :: ks, z :: zs =>
      (exists t, Str.cstr m z t /\ Forall visible t /\ zlen t <= 1100) /\ args_in m ks zs
  | _, _ => False
  end.

Lemma args_in_spec m ks : forall zs, args_in m ks zs ->
  exists ap, zs = map arg_val ap /\ Forall2 of_kind ks ap /\
    Forall (fun a => match a with Int _ => True | Text p t => Str.cstr m p t end) ap /\
    args_size ap <= kinds_size ks.
Proof.
  induction ks as [| k ks IH]; intros [| z zs] Ha; try done; try (by destruct k).
  { by exists []. }
  assert (exists a ap, z :: zs = map arg_val (a :: ap) /\ of_kind k a /\ Forall2 of_kind ks ap /\
    match a with Int _ => True | Text p t => Str.cstr m p t end /\
    Forall (fun a => match a with Int _ => True | Text p t => Str.cstr m p t end) ap /\
    arg_size a <= (match k with KText => 1100 | _ => 35 end) /\ args_size ap <= kinds_size ks)
    as (a & ap & E & H1 & H2 & H3 & H4 & H5 & H6).
  { destruct k; cbn [args_in] in Ha.
    - destruct (IH zs Ha) as (ap & -> & H2 & H4 & H6). by exists (Int z), ap.
    - destruct Ha as [Hz Ha]. destruct (IH zs Ha) as (ap & -> & H2 & H4 & H6). by exists (Int z), ap.
    - destruct Ha as [(t & Ht & Hv & Hl) Ha]. destruct (IH zs Ha) as (ap & -> & H2 & H4 & H6).
      by exists (Text z t), ap. }
  exists (a :: ap). split; [done |]. split; [by constructor |]. split; [by constructor |].
  change (arg_size a + args_size ap <= match k with KText => 1100 | _ => 35 end + kinds_size ks). lia.
Qed.

Lemma spec_kinds_visible c ks : spec_kinds c = Some ks -> visible c.
Proof.
  unfold spec_kinds, visible.
  repeat match goal with |- context [c =? ?k] => destruct (Z.eqb_spec c k); [intros; lia |] end. done.
Qed.

Lemma format_type_visible n : forall l ks, (length l <= n)%nat -> format_type l = Some ks ->
  Forall visible l.
Proof.
  induction n as [| n IH]; intros [| c l] ks Hn Ht; try constructor; cbn [length] in Hn; try lia;
    cbn [format_type] in Ht.
  - destruct (Z.eqb_spec c 37) as [-> | _]; [unfold visible; lia |]. by case_bool_decide.
  - destruct (c =? 37).
    + destruct l as [| d l]; [done |]. cbn [length] in Hn. destruct (is_width d) eqn:Ew.
      * destruct l as [| c' l]; [done |]. cbn [length] in Hn.
        apply bind_Some in Ht as (k1 & H1 & (k2 & H2 & _)%bind_Some).
        apply andb_true_iff in Ew as [E1%Z.leb_le E2%Z.leb_le].
        constructor; [unfold visible; lia |]. constructor; [by apply spec_kinds_visible in H1 |].
        apply (IH l k2); [lia | done].
      * apply bind_Some in Ht as (k1 & H1 & (k2 & H2 & _)%bind_Some).
        constructor; [by apply spec_kinds_visible in H1 |]. apply (IH l k2); [lia | done].
    + case_bool_decide; [| done]. apply (IH l ks); [lia | done].
Qed.

End Format.
