(* ===== verification/Screenbuf.v ===== *)
(** The screen buffers: include/kernel/screenbuf.h and kernel/screenbuf.c.

    The pointers [top], [viewport], [endbuf] and [cursor] are counted in words
    from [buf]; the frame buffer is the list of the words from VGA_PTR on, and
    the ports of the cursor belong to a [Device].  [screen] is the abstract
    screen, the last 200 lines of what was written, and [rep] relates it to the
    circular buffer and to what the frame buffer shows. *)

From Stdlib Require Import ZArith Lia Bool.
From stdpp Require Import base tactics numbers list option.
From S2P Require Import Prelude Port Mem Str.

Local Open Scope Z_scope.

Module Screenbuf.

(** ** screenbuf.h *)

Definition VGA_WIDTH : Z := 80.
Definition VGA_HEIGHT : Z := 25.
Definition SB_HEIGHT : Z := VGA_HEIGHT * 8.

Inductive sb_color : Type :=
  | SB_COLOR_BLACK | SB_COLOR_BLUE | SB_COLOR_GREEN | SB_COLOR_CYAN | SB_COLOR_RED
  | SB_COLOR_MAGENTA | SB_COLOR_BROWN | SB_COLOR_LIGHT_GREY | SB_COLOR_DARK_GREY
  | SB_COLOR_LIGHT_BLUE | SB_COLOR_LIGHT_GREEN | SB_COLOR_LIGHT_CYAN | SB_COLOR_LIGHT_RED
  | SB_COLOR_LIGHT_MAGENTA | SB_COLOR_LIGHT_BROWN | SB_COLOR_WHITE.
Definition color_val (c : sb_color) : Z :=
  match c with
  | SB_COLOR_BLACK => 0 | SB_COLOR_BLUE => 1 | SB_COLOR_GREEN => 2 | SB_COLOR_CYAN => 3
  | SB_COLOR_RED => 4 | SB_COLOR_MAGENTA => 5 | SB_COLOR_BROWN => 6 | SB_COLOR_LIGHT_GREY => 7
  | SB_COLOR_DARK_GREY => 8 | SB_COLOR_LIGHT_BLUE => 9 | SB_COLOR_LIGHT_GREEN => 10
  | SB_COLOR_LIGHT_CYAN => 11 | SB_COLOR_LIGHT_RED => 12 | SB_COLOR_LIGHT_MAGENTA => 13
  | SB_COLOR_LIGHT_BROWN => 14 | SB_COLOR_WHITE => 15
  end.

Definition SB_DFL_FG_COLOR : Z := color_val SB_COLOR_WHITE.
Definition SB_DLF_BG_COLOR : Z := color_val SB_COLOR_BLACK.
Definition SB_DFL_COLOR : Z := u8 (Z.lor (Z.shiftl SB_DLF_BG_COLOR 4) SB_DFL_FG_COLOR).
Definition SB_WHITESPACE : Z := u16 (Z.shiftl SB_DFL_COLOR 8).
Definition SB_CURSOR_PORT1 : Z := 0x3D4.
Definition SB_CURSOR_PORT2 : Z := 0x3D5.
Definition TABSIZE : Z := 4.

Record screenbuf : Type := mk_screenbuf
  { top : Z; viewport : Z; endbuf : Z; cursor : Z; cursor_offset : Z; color : Z;
    loaded : Z; buf : list Z }.

Definition set_top (sb : screenbuf) (p : Z) : screenbuf :=
  mk_screenbuf p (viewport sb) (endbuf sb) (cursor sb) (cursor_offset sb) (color sb)
    (loaded sb) (buf sb).
Definition set_viewport (sb : screenbuf) (p : Z) : screenbuf :=
  mk_screenbuf (top sb) p (endbuf sb) (cursor sb) (cursor_offset sb) (color sb)
    (loaded sb) (buf sb).
Definition set_cursor (sb : screenbuf) (p off : Z) : screenbuf :=
  mk_screenbuf (top sb) (viewport sb) (endbuf sb) p off (color sb) (loaded sb) (buf sb).
Definition set_color (sb : screenbuf) (c : Z) : screenbuf :=
  mk_screenbuf (top sb) (viewport sb) (endbuf sb) (cursor sb) (cursor_offset sb) c
    (loaded sb) (buf sb).
Definition set_loaded (sb : screenbuf) (l : Z) : screenbuf :=
  mk_screenbuf (top sb) (viewport sb) (endbuf sb) (cursor sb) (cursor_offset sb) (color sb)
    l (buf sb).
Definition set_buf (sb : screenbuf) (b : list Z) : screenbuf :=
  mk_screenbuf (top sb) (viewport sb) (endbuf sb) (cursor sb) (cursor_offset sb) (color sb)
    (loaded sb) b.

(** What the screen buffers share: the frame buffer and the device. *)
Record world (D : Type) : Type := mk_world { vga : list Z; dev : D }.
Arguments mk_world {D} vga dev.
Arguments vga {D} w.
Arguments dev {D} w.

(** ** screenbuf.c: positions *)

Definition abs (x : Z) : Z := if x <? 0 then i32 (- x) else x.

Fixpoint sb_memset (b : list Z) (ptr word : Z) (n : nat) : result (list Z) :=
  match n with
  | O => Ok b
  | S n => b ← wr b ptr word; sb_memset b (ptr + 1) word n
  end.

Definition sb_diff (sb : screenbuf) (a b : Z) : Z :=
  if a <=? b then b - a else (endbuf sb - a) + b.
Definition sb_ldiff (sb : screenbuf) (a b : Z) : Z := Z.quot (sb_diff sb a b) VGA_WIDTH.

(** [while (newpos >= sb->endbuf) newpos -= bufsize;] *)
Fixpoint wrap_end (fuel : nat) (endbuf bufsize newpos : Z) : result Z :=
  match fuel with
  | O => Err OutOfFuel
  | S fuel => if newpos >=? endbuf then wrap_end fuel endbuf bufsize (newpos - bufsize)
              else Ok newpos
  end.
(** [while (newpos < sb->buf) newpos += bufsize;] *)
Fixpoint wrap_begin (fuel : nat) (bufsize newpos : Z) : result Z :=
  match fuel with
  | O => Err OutOfFuel
  | S fuel => if newpos <? 0 then wrap_begin fuel bufsize (newpos + bufsize) else Ok newpos
  end.
Definition sb_addline (sb : screenbuf) (a n : Z) : result Z :=
  let newpos := a + n * VGA_WIDTH in
  let bufsize := endbuf sb in
  let fuel := S (Z.to_nat (Z.abs newpos)) in
  p ← wrap_end fuel (endbuf sb) bufsize newpos;
  wrap_begin fuel bufsize p.

(** [memcpy(VGA_PTR + dst, buf + src, 2 * n)] *)
Fixpoint copy_words (v : list Z) (dst : Z) (b : list Z) (src : Z) (n : nat) : result (list Z) :=
  match n with
  | O => Ok v
  | S n => x ← rd b src; v ← wr v dst x; copy_words v (dst + 1) b (src + 1) n
  end.

Section code.
Context {D : Type} `{Device D}.
Implicit Types w : world D.

(** ** The cursor *)

Definition cursor_enable (d : D) : D :=
  let d := port_write_u8 SB_CURSOR_PORT1 0x0a d in
  let (x, d) := port_read_u8 SB_CURSOR_PORT2 d in
  let cstart := Z.land x 0xc0 in
  let d := port_write_u8 SB_CURSOR_PORT2 (Z.lor cstart 0) d in
  let d := port_write_u8 SB_CURSOR_PORT1 0x0b d in
  let (x, d) := port_read_u8 SB_CURSOR_PORT2 d in
  let cend := Z.land x 0xe0 in
  port_write_u8 SB_CURSOR_PORT2 (Z.lor cend 15) d.

Definition cursor_disable (d : D) : D :=
  let d := port_write_u8 SB_CURSOR_PORT1 0x0a d in
  port_write_u8 SB_CURSOR_PORT2 0x20 d.

Definition cursor_update (pos : Z) (d : D) : D :=
  if pos <? VGA_WIDTH * SB_HEIGHT then
    let d := cursor_enable d in
    let d := port_write_u8 SB_CURSOR_PORT1 0x0f d in
    let d := port_write_u8 SB_CURSOR_PORT2 (u8 (Z.land pos 0xff)) d in
    let d := port_write_u8 SB_CURSOR_PORT1 0x0e d in
    port_write_u8 SB_CURSOR_PORT2 (u8 (Z.land (Z.shiftr pos 8) 0xff)) d
  else cursor_disable d.

Definition on_vga (w : world D) (v : list Z) : world D := mk_world v (dev w).
Definition on_dev (w : world D) (d : D) : world D := mk_world (vga w) d.

(** ** Creating and loading *)

(** sb_init: [color] keeps its old value while the buffer is first cleared. *)
Definition sb_init (sb : screenbuf) : result screenbuf :=
  let sb := set_top sb 0 in
  let sb := set_viewport sb 0 in
  let sb := set_cursor sb 0 0 in
  b ← sb_memset (buf sb) 0 SB_WHITESPACE (Z.to_nat (VGA_WIDTH * SB_HEIGHT));
  let sb := set_color (set_buf sb b) SB_DFL_COLOR in
  let sb := mk_screenbuf (top sb) (viewport sb) (VGA_WIDTH * SB_HEIGHT) (cursor sb)
              (cursor_offset sb) (color sb) 0 (buf sb) in
  b ← sb_memset (buf sb) 0 SB_WHITESPACE (Z.to_nat (VGA_WIDTH * SB_HEIGHT));
  Ok (set_buf sb b).

Definition sb_sync (sb : screenbuf) (w : world D) : result (world D) :=
  if negb (loaded sb =? 0) then
    v ← for_loop (Z.to_nat VGA_HEIGHT) 0 (fun i v =>
          p ← sb_addline sb (viewport sb) i;
          copy_words v (i * VGA_WIDTH) (buf sb) p (Z.to_nat VGA_WIDTH)) (vga w);
    let pos := u32 (sb_diff sb (viewport sb) (cursor sb) + cursor_offset sb) in
    Ok (mk_world v (cursor_update pos (dev w)))
  else Ok w.

Definition sb_load (sb : screenbuf) (w : world D) : result (screenbuf * world D) :=
  let sb := set_loaded sb 1 in
  w ← sb_sync sb w; Ok (sb, w).
Definition sb_unload (sb : screenbuf) : screenbuf := set_loaded sb 0.

(** ** Colours *)

Definition sb_set_color (sb : screenbuf) (c : Z) : screenbuf := set_color sb (u8 c).
Definition sb_set_fg (sb : screenbuf) (fg : Z) : screenbuf :=
  set_color sb (u8 (Z.lor (Z.land (color sb) 0xf0) (Z.land fg 0x0f))).
Definition sb_set_bg (sb : screenbuf) (bg : Z) : screenbuf :=
  set_color sb (u8 (Z.lor (Z.land (Z.shiftl bg 4) 0xf0) (Z.land (color sb) 0x0f))).
Definition sb_get_color (sb : screenbuf) : Z := color sb.

(** ** Scrolling *)

Definition sb_scroll_top (sb : screenbuf) (w : world D) : result (screenbuf * world D) :=
  let sb := set_viewport sb (top sb) in
  w ← sb_sync sb w; Ok (sb, w).

Definition sb_scroll_down (sb : screenbuf) (w : world D) : result (screenbuf * world D) :=
  if sb_ldiff sb (viewport sb) (cursor sb) >? VGA_HEIGHT then
    let sb := set_viewport sb (cursor sb - VGA_WIDTH * (VGA_HEIGHT - 1)) in
    w ← sb_sync sb w; Ok (sb, w)
  else Ok (sb, w).

Definition sb_scroll (sb : screenbuf) (n : Z) (w : world D) : result (screenbuf * world D) :=
  let lines_room :=
    if n <? 0 then sb_ldiff sb (top sb) (viewport sb)
    else sb_ldiff sb (viewport sb) (cursor sb) - (VGA_HEIGHT - 1) in
  if lines_room >=? abs n then
    p ← sb_addline sb (viewport sb) n;
    let sb := set_viewport sb p in
    w ← sb_sync sb w; Ok (sb, w)
  else if n <? 0 then sb_scroll_top sb w else sb_scroll_down sb w.

(** ** Writing *)

Definition sb_write_word (sb : screenbuf) (word : Z) (w : world D)
    : result (screenbuf * world D) :=
  b ← wr (buf sb) (cursor sb + cursor_offset sb) word;
  let sb := set_buf sb b in
  if negb (loaded sb =? 0) then
    let diff := sb_diff sb (viewport sb) (cursor sb) in
    if Z.quot diff VGA_WIDTH <? VGA_HEIGHT then
      v ← wr (vga w) (diff + cursor_offset sb) word; Ok (sb, on_vga w v)
    else Ok (sb, w)
  else Ok (sb, w).

Definition sb_crlf (sb : screenbuf) (w : world D) : result (screenbuf * world D) :=
  p ← sb_addline sb (cursor sb) 1;
  let sb := set_cursor sb p 0 in
  b ← sb_memset (buf sb) (cursor sb) SB_WHITESPACE (Z.to_nat VGA_WIDTH);
  let sb := set_buf sb b in
  '(sb, w) ←
    (if cursor sb =? top sb then
       '(sb, w) ←
         (if viewport sb =? top sb then
            p ← sb_addline sb (top sb) 1;
            let sb := set_viewport sb p in
            w ← sb_sync sb w; Ok (sb, w)
          else Ok (sb, w));
       p ← sb_addline sb (top sb) 1;
       Ok (set_top sb p, w)
     else Ok (sb, w));
  if sb_ldiff sb (viewport sb) (cursor sb) =? VGA_HEIGHT then sb_scroll sb 1 w
  else Ok (sb, w).

(** [while (off < VGA_WIDTH && cursor[off] != SB_WHITESPACE) off++;] *)
Fixpoint find_blank (fuel : nat) (b : list Z) (cur off : Z) : result Z :=
  match fuel with
  | O => Err OutOfFuel
  | S fuel =>
      if off <? VGA_WIDTH then
        x ← rd b (cur + off);
        if negb (x =? SB_WHITESPACE) then find_blank fuel b cur (u16 (off + 1)) else Ok off
      else Ok off
  end.

Definition sb_backspace (sb : screenbuf) (w : world D) : result (screenbuf * world D) :=
  if (cursor_offset sb =? 0) && (cursor sb =? top sb) then Ok (sb, w)
  else
    '(sb, w) ←
      (if cursor_offset sb =? 0 then
         '(sb, w) ← (if viewport sb =? cursor sb then sb_scroll sb (-1) w else Ok (sb, w));
         p ← sb_addline sb (cursor sb) (-1);
         let sb := set_cursor sb p 0 in
         off ← find_blank (S (Z.to_nat VGA_WIDTH)) (buf sb) (cursor sb) 0;
         Ok (set_cursor sb (cursor sb) off, w)
       else Ok (sb, w));
    let sb := set_cursor sb (cursor sb) (u16 (cursor_offset sb - 1)) in
    sb_write_word sb SB_WHITESPACE w.

(** The do-while loop of sb_tabulation. *)
Fixpoint tab_loop (fuel : nat) (sb : screenbuf) (w : world D) : result (screenbuf * world D) :=
  match fuel with
  | O => Err OutOfFuel
  | S fuel =>
      '(sb, w) ← sb_write_word sb (u16 (Z.lor (Z.shiftl (color sb) 8) 0)) w;
      let sb := set_cursor sb (cursor sb) (u16 (cursor_offset sb + 1)) in
      if negb (Z.rem (cursor_offset sb) TABSIZE =? 0) && (cursor_offset sb <? VGA_WIDTH)
      then tab_loop fuel sb w else Ok (sb, w)
  end.

Definition sb_tabulation (sb : screenbuf) (w : world D) : result (screenbuf * world D) :=
  '(sb, w) ← tab_loop (S (Z.to_nat TABSIZE)) sb w;
  if cursor_offset sb =? VGA_WIDTH then sb_crlf sb w else Ok (sb, w).

Definition sb_regular (sb : screenbuf) (c : Z) (w : world D) : result (screenbuf * world D) :=
  b ← wr (buf sb) (cursor sb + cursor_offset sb)
         (Z.lor (u16 c) (u16 (Z.shiftl (color sb) 8)));
  let sb := set_cursor (set_buf sb b) (cursor sb) (u16 (cursor_offset sb + 1)) in
  w ← (if negb (loaded sb =? 0) then
         let diff := sb_diff sb (viewport sb) (cursor sb) in
         v ← copy_words (vga w) (diff + cursor_offset sb - 1) (buf sb)
               (cursor sb + cursor_offset sb - 1) 1;
         Ok (on_vga w v)
       else Ok w);
  if cursor_offset sb =? VGA_WIDTH then sb_crlf sb w else Ok (sb, w).

Definition sb_putchar (sb : screenbuf) (c : Z) (w : world D) : result (screenbuf * world D) :=
  '(sb, w) ←
    (if c =? 10 then sb_crlf sb w
     else if c =? 9 then sb_tabulation sb w
     else if c =? 8 then sb_backspace sb w
     else sb_regular sb c w);
  let newpos := sb_diff sb (viewport sb) (cursor sb) + cursor_offset sb in
  Ok (sb, on_dev w (cursor_update (u32 newpos) (dev w))).

(** sb_putstr: the string [s] of the memory [m]. *)
Fixpoint sb_putstr_loop (fuel : nat) (m : list Z) (s : Z) (sb : screenbuf) (w : world D)
    : result (screenbuf * world D) :=
  match fuel with
  | O => Err OutOfFuel
  | S fuel =>
      c ← Str.rdc m s;
      if negb (c =? 0) then
        '(sb, w) ← sb_putchar sb c w; sb_putstr_loop fuel m (s + 1) sb w
      else Ok (sb, w)
  end.
Definition sb_putstr (m : list Z) (s : Z) (sb : screenbuf) (w : world D)
    : result (screenbuf * world D) := sb_putstr_loop (Str.fuel_for m) m s sb w.

Definition sb_clear (sb : screenbuf) (w : world D) : result (screenbuf * world D) :=
  let sb := set_top sb 0 in
  let sb := set_viewport sb 0 in
  let sb := set_cursor sb 0 0 in
  b ← sb_memset (buf sb) 0 SB_WHITESPACE (Z.to_nat (VGA_WIDTH * SB_HEIGHT));
  let sb := set_buf sb b in
  w ← sb_sync sb w; Ok (sb, w).
End code.

(** ** The abstract screen *)

(** The lines, the current one first, the column, the number of lines between
    the first visible line and the current one, and the colour. *)
Record screen : Type := mk_screen
  { sc_lines : list (list Z); sc_col : Z; sc_view : Z; sc_color : Z }.

Definition NLINES : nat := 200.
Definition blank : list Z := replicate 80 SB_WHITESPACE.
Definition line (s : screen) (j : Z) : list Z := at_ blank (sc_lines s) j.

Definition with_view (s : screen) (v : Z) : screen :=
  mk_screen (sc_lines s) (sc_col s) v (sc_color s).
Definition with_col (s : screen) (c : Z) : screen :=
  mk_screen (sc_lines s) c (sc_view s) (sc_color s).

(** The word at the cursor becomes [x]. *)
Definition put_word (s : screen) (x : Z) : screen :=
  mk_screen (<[0%nat := <[Z.to_nat (sc_col s) := x]> (line s 0)]> (sc_lines s))
    (sc_col s) (sc_view s) (sc_color s).

(** Scrolling by one line keeps a cursor that leaves the window in it. *)
Definition newline (s : screen) : screen :=
  let v := Z.min (sc_view s + 1) 199 in
  mk_screen (take NLINES (blank :: sc_lines s)) 0 (if v =? 25 then 24 else v) (sc_color s).

Definition wrap (s : screen) : screen := if sc_col s =? 80 then newline s else s.

Definition char_word (s : screen) (c : Z) : Z := Z.lor (u16 c) (u16 (sc_color s * 256)).
Definition put_char (s : screen) (c : Z) : screen :=
  wrap (with_col (put_word s (char_word s c)) (sc_col s + 1)).

(** A tabulation: blanks in the current colour up to a multiple of four. *)
Fixpoint put_blanks (n : nat) (s : screen) : screen :=
  match n with
  | O => s
  | S n => put_blanks n (with_col (put_word s (u16 (sc_color s * 256))) (sc_col s + 1))
  end.
Definition tabulation (s : screen) : screen :=
  wrap (put_blanks (Z.to_nat (4 - sc_col s mod 4)) s).

(** The position of the first blank of a line, or its length. *)
Fixpoint text_length (l : list Z) : Z :=
  match l with
  | [] => 0
  | x :: l => if x =? SB_WHITESPACE then 0 else 1 + text_length l
  end.

Definition erase (s : screen) : screen := put_word (with_col s (sc_col s - 1)) SB_WHITESPACE.

(** A backspace at the start of a line joins it with the line before it.  This
    says what it does when the line is empty and the line before is not. *)
Definition join (s : screen) : option screen :=
  let v := (if sc_view s =? 0 then 1 else sc_view s) - 1 in
  let n := text_length (line s 1) in
  if bool_decide (line s 0 = blank) && (0 <? n)
  then Some (mk_screen (drop 1 (sc_lines s)) n v (sc_color s)) else None.
Definition backspace (s : screen) : option screen :=
  if sc_col s =? 0 then
    if zlen (sc_lines s) =? 1 then Some s else erase <$> join s
  else Some (erase s).

Definition putchar (s : screen) (c : Z) : option screen :=
  if c =? 10 then Some (newline s)
  else if c =? 9 then Some (tabulation s)
  else if c =? 8 then backspace s
  else Some (put_char s c).

(** Scrolling: up to the first line, down to where the cursor is visible. *)
Definition scroll_down (s : screen) : screen :=
  with_view s (if sc_view s >? 25 then 24 else sc_view s).
Definition scroll_top (s : screen) : screen := with_view s (zlen (sc_lines s) - 1).
Definition scroll (s : screen) (n : Z) : screen :=
  let room := if n <? 0 then zlen (sc_lines s) - 1 - sc_view s else sc_view s - 24 in
  if room >=? Z.abs n then with_view s (sc_view s - n)
  else if n <? 0 then scroll_top s else scroll_down s.

(** ** Representation *)

(** Row [i] of the frame buffer shows the line [sc_view s - i]; the rows below
    the current line are blank. *)
Definition shown (s : screen) (v : list Z) : Prop :=
  forall i k, 0 <= i < 25 -> 0 <= k < 80 ->
    at_ 0 v (80 * i + k) = at_ 0 (line s (sc_view s - i)) k.

(** Line [j] of the screen is line [c - j] of the circular buffer; the lines
    that are not in use are blank. *)
Definition stored (c : Z) (s : screen) (b : list Z) : Prop :=
  forall j k, 0 <= j < 200 -> 0 <= k < 80 ->
    at_ 0 b (80 * ((c - j) mod 200) + k) = at_ 0 (line s j) k.

(** The lines of the cursor and of the viewport are [c] and [v].  After
    sb_scroll_down the viewport may lie in front of the buffer. *)
Record core (c v : Z) (sb : screenbuf) (s : screen) : Prop := mk_core
  { c_cursor : cursor sb = 80 * c /\ 0 <= c < 200;
    c_top : top sb = 80 * ((c - (zlen (sc_lines s) - 1)) mod 200);
    c_viewport : viewport sb = 80 * v;
    c_view : v = (c - sc_view s) mod 200 \/ (v = c - sc_view s /\ v < 0 /\ sc_view s <= 25);
    c_len : 1 <= zlen (sc_lines s) <= 200 /\ 0 <= sc_view s < zlen (sc_lines s);
    c_room : 24 <= sc_view s + (200 - zlen (sc_lines s));
    c_end : endbuf sb = 16000;
    c_col : cursor_offset sb = sc_col s /\ 0 <= sc_col s <= 80;
    c_color : color sb = sc_color s /\ 0 <= sc_color s < 256;
    c_wf : Forall (fun l => zlen l = 80) (sc_lines s);
    c_buf : zlen (buf sb) = 16000;
    c_stored : stored c s (buf sb) }.

Record rep_at (c v : Z) (sb : screenbuf) (vg : list Z) (s : screen) : Prop := mk_rep
  { r_core : core c v sb s;
    r_front : v < 0 -> sc_view s <= 24;
    r_vga : 16000 <= zlen vg;
    r_shown : loaded sb <> 0 -> shown s vg }.

(** ** Cells and lines *)

Lemma zlen_blank : zlen blank = 80. Proof. reflexivity. Qed.

Lemma blank_at k : 0 <= k < 80 -> at_ 0 blank k = SB_WHITESPACE.
Proof.
  intros Hk. unfold at_. destruct (Z.ltb_spec k 0); [lia |].
  unfold blank. by rewrite lookup_replicate_2 by lia.
Qed.

Lemma at_take {A} (d : A) l n j : j < Z.of_nat n -> at_ d (take n l) j = at_ d l j.
Proof.
  intros. unfold at_. destruct (Z.ltb_spec j 0); [done |]. by rewrite lookup_take_lt by lia.
Qed.

Lemma at_drop1 {A} (d : A) l j : 0 <= j -> at_ d (drop 1 l) j = at_ d l (j + 1).
Proof.
  intros. unfold at_. destruct (Z.ltb_spec j 0), (Z.ltb_spec (j + 1) 0); try lia.
  rewrite lookup_drop. by replace (1 + Z.to_nat j)%nat with (Z.to_nat (j + 1)) by lia.
Qed.

Lemma line_zlen s j : Forall (fun l => zlen l = 80) (sc_lines s) -> zlen (line s j) = 80.
Proof.
  intros Hf. unfold line, at_. destruct (j <? 0); [done |].
  destruct (sc_lines s !! Z.to_nat j) as [l |] eqn:E; [| done].
  by apply (Forall_lookup_1 _ _ _ _ Hf E).
Qed.

Lemma line_put s x j : 1 <= zlen (sc_lines s) ->
  line (put_word s x) j =
    if j =? 0 then <[Z.to_nat (sc_col s) := x]> (line s 0) else line s j.
Proof.
  intros Hl. unfold put_word, line. cbn [sc_lines].
  destruct (sc_lines s) as [| l0 ls]; [unfold zlen in Hl; simpl in Hl; lia |].
  cbn [insert list_insert]. rewrite !at_cons. by destruct (Z.eqb_spec j 0).
Qed.

(** ** The circular buffer *)

Lemma mod_shift a b k : 0 < b -> (a + b * k) mod b = a mod b.
Proof. intros. rewrite (Z.mul_comm b k). apply Z_mod_plus_full. Qed.

Lemma wrap_end_spec fuel b : 0 < b -> forall p, p < b * Z.of_nat fuel -> (0 < fuel)%nat ->
  wrap_end fuel b b p = Ok (if p <? b then p else p mod b).
Proof.
  intros Hb. induction fuel as [| f IH]; intros p Hp Hf; [lia |]. cbn [wrap_end].
  rewrite Z.geb_leb. destruct (Z.leb_spec b p), (Z.ltb_spec p b); try lia; [| done].
  rewrite IH by nia. replace (p mod b) with ((p - b) mod b).
  - destruct (Z.ltb_spec (p - b) b); [by rewrite (Z.mod_small (p - b) b) by lia | done].
  - replace (p - b) with (p + b * -1) by lia. by apply mod_shift.
Qed.

Lemma wrap_begin_spec fuel b : 0 < b -> forall p, - b * (Z.of_nat fuel - 1) <= p ->
  (0 < fuel)%nat -> wrap_begin fuel b p = Ok (if p <? 0 then p mod b else p).
Proof.
  intros Hb. induction fuel as [| f IH]; intros p Hp Hf; [lia |]. cbn [wrap_begin].
  destruct (Z.ltb_spec p 0); [| done].
  rewrite IH by nia. replace (p mod b) with ((p + b) mod b).
  - destruct (Z.ltb_spec (p + b) 0); [done | by rewrite (Z.mod_small (p + b) b) by lia].
  - replace (p + b) with (p + b * 1) by lia. by apply mod_shift.
Qed.

Lemma sb_addline_spec sb l n : endbuf sb = 16000 ->
  sb_addline sb (80 * l) n = Ok (80 * ((l + n) mod 200)).
Proof.
  intros He. unfold sb_addline, VGA_WIDTH. rewrite He.
  replace (80 * l + n * 80) with (80 * (l + n)) by lia. set (p := 80 * (l + n)).
  assert (80 * ((l + n) mod 200) = p mod 16000) as ->.
  { unfold p. rewrite <- Z.mul_mod_distr_l by lia. reflexivity. }
  rewrite wrap_end_spec by lia. cbn [mbind result_bind].
  destruct (Z.ltb_spec p 16000).
  - rewrite wrap_begin_spec by lia. destruct (Z.ltb_spec p 0); [done |].
    by rewrite (Z.mod_small p 16000) by lia.
  - pose proof (Z.mod_pos_bound p 16000 ltac:(lia)).
    rewrite wrap_begin_spec by lia. by destruct (Z.ltb_spec (p mod 16000) 0); [lia |].
Qed.

Section represented.
Context (c v : Z) (sb : screenbuf) (s : screen) (Hc : core c v sb s).

Lemma view_diff : sb_diff sb (viewport sb) (cursor sb) = 80 * sc_view s.
Proof using Hc.
  destruct Hc. unfold sb_diff. rewrite c_viewport0, c_end0. destruct c_cursor0 as [-> ?].
  destruct (Z.leb_spec (80 * v) (80 * c)); dlia.
Qed.

Lemma view_ldiff : sb_ldiff sb (viewport sb) (cursor sb) = sc_view s.
Proof using Hc.
  unfold sb_ldiff. rewrite view_diff. unfold VGA_WIDTH. rewrite Z.mul_comm.
  by apply Z.quot_mul.
Qed.

Lemma top_ldiff : sb_ldiff sb (top sb) (viewport sb) = zlen (sc_lines s) - 1 - sc_view s.
Proof using Hc.
  destruct Hc. unfold sb_ldiff, sb_diff, VGA_WIDTH.
  rewrite c_viewport0, c_end0, c_top0.
  set (t := (c - (zlen (sc_lines s) - 1)) mod 200) in *.
  assert (0 <= t < 200 /\ exists q, t = c - (zlen (sc_lines s) - 1) + 200 * q) as [Ht (q & Hq)].
  { unfold t. split; [dlia |]. exists (- ((c - (zlen (sc_lines s) - 1)) / 200)). dlia. }
  transitivity (Z.quot ((zlen (sc_lines s) - 1 - sc_view s) * 80) 80);
    [| by apply Z.quot_mul].
  f_equal. destruct (Z.leb_spec (80 * t) (80 * v)); dlia.
Qed.

(** The 25 lines from the viewport on. *)
Lemma window i k : 0 <= i < 25 -> 0 <= k < 80 ->
  at_ 0 (buf sb) (80 * ((v + i) mod 200) + k) = at_ 0 (line s (sc_view s - i)) k.
Proof using Hc.
  intros Hi Hk. destruct Hc.
  destruct (Z.le_gt_cases i (sc_view s)) as [Hle | Hgt].
  - rewrite <- c_stored0 by lia. do 3 f_equal. dlia.
  - replace (line s (sc_view s - i)) with (line s (200 + sc_view s - i)).
    + rewrite <- c_stored0 by lia. do 3 f_equal. dlia.
    + unfold line. rewrite at_over by lia. by rewrite at_neg by lia.
Qed.
End represented.

(** ** Filling and copying *)

Lemma sb_memset_spec word n : forall b p, 0 <= p -> p + Z.of_nat n <= zlen b ->
  exists b', sb_memset b p word n = Ok b' /\ zlen b' = zlen b /\
    forall i, 0 <= i -> at_ 0 b' i = if (p <=? i) && (i <? p + Z.of_nat n) then word else at_ 0 b i.
Proof.
  induction n as [| n IH]; intros b p H0 H1.
  - exists b. repeat split. intros i Hi. Mem.inrange.
  - cbn [sb_memset]. rewrite wr_ok by lia. cbn [mbind result_bind].
    destruct (IH (<[Z.to_nat p := word]> b) (p + 1)) as (b' & -> & Hl & Hb);
      [lia | rewrite zlen_insert; lia |].
    rewrite zlen_insert in Hl. exists b'. split; [done |]. split; [done |].
    intros i Hi. rewrite Hb, at_insert by lia. Mem.inrange.
Qed.

Lemma copy_words_spec b n : forall vg dst src,
  0 <= dst -> dst + Z.of_nat n <= zlen vg -> 0 <= src -> src + Z.of_nat n <= zlen b ->
  exists vg', copy_words vg dst b src n = Ok vg' /\ zlen vg' = zlen vg /\
    forall i, 0 <= i -> at_ 0 vg' i =
      if (dst <=? i) && (i <? dst + Z.of_nat n) then at_ 0 b (src + (i - dst)) else at_ 0 vg i.
Proof.
  induction n as [| n IH]; intros vg dst src H0 H1 H2 H3.
  - exists vg. repeat split. intros i Hi. Mem.inrange.
  - cbn [copy_words]. rewrite (rd_ok 0) by lia. cbn [mbind result_bind].
    rewrite wr_ok by lia. cbn [mbind result_bind].
    destruct (IH (<[Z.to_nat dst := at_ 0 b src]> vg) (dst + 1) (src + 1))
      as (vg' & -> & Hl & Hv); try lia; [rewrite zlen_insert; lia |].
    rewrite zlen_insert in Hl. exists vg'. split; [done |]. split; [done |].
    intros i Hi. rewrite Hv, at_insert by lia.
    replace (src + 1 + (i - (dst + 1))) with (src + (i - dst)) by lia. Mem.inrange.
    by replace (src + (i - dst)) with src by lia.
Qed.

(** ** Writing a word *)

Lemma put_stored c v sb s x : core c v sb s -> sc_col s < 80 ->
  stored c (put_word s x) (<[Z.to_nat (cursor sb + cursor_offset sb) := x]> (buf sb)).
Proof.
  intros [[-> Hc] _ _ _ Hl _ _ [-> Ho] _ Hw Hb Hst] Hcol j k Hj Hk.
  rewrite at_insert by dlia. rewrite line_put by lia.
  assert (0 <= (c - j) mod 200 < 200 /\ ((c - j) mod 200 = c <-> j = 0)) as [Hm Hm0]
    by (split; [dlia | dlia]).
  destruct (Z.eqb_spec j 0) as [-> | Hj0].
  - pose proof (line_zlen s 0 Hw). rewrite at_insert by lia. rewrite <- Hst by lia.
    rewrite (proj2 Hm0 eq_refl) in *.
    destruct (Z.eqb_spec k (sc_col s)), (Z.eqb_spec (80 * c + k) (80 * c + sc_col s)); (done || lia).
  - rewrite <- Hst by lia.
    destruct (Z.eqb_spec (80 * ((c - j) mod 200) + k) (80 * c + sc_col s)); [| done].
    exfalso. apply Hj0, Hm0. lia.
Qed.

Lemma zlen_put s x : zlen (sc_lines (put_word s x)) = zlen (sc_lines s).
Proof. apply zlen_insert. Qed.

Lemma put_core c v sb s x : core c v sb s -> sc_col s < 80 ->
  core c v (set_buf sb (<[Z.to_nat (cursor sb + cursor_offset sb) := x]> (buf sb))) (put_word s x).
Proof.
  intros Hc Hcol. pose proof (put_stored c v sb s x Hc Hcol) as Hst.
  pose proof (line_zlen s 0 (c_wf _ _ _ _ Hc)) as H0.
  destruct Hc. split; rewrite ?zlen_put; try done.
  - unfold put_word. cbn [sc_lines]. apply Forall_insert; [done |]. by rewrite zlen_insert.
  - cbn [buf set_buf]. by rewrite zlen_insert.
Qed.

(** The word is shown when it is in the window. *)
Lemma put_shown s x vg vg' : shown s vg -> 1 <= zlen (sc_lines s) ->
  Forall (fun l => zlen l = 80) (sc_lines s) -> 0 <= sc_col s < 80 ->
  (forall i, 0 <= i < 2000 ->
     at_ 0 vg' i = if i =? 80 * sc_view s + sc_col s then x else at_ 0 vg i) ->
  shown (put_word s x) vg'.
Proof.
  intros Hs Hl Hw Hcol Hv i k Hi Hk. rewrite Hv by lia. rewrite line_put by done.
  cbn [sc_view put_word]. pose proof (line_zlen s 0 Hw).
  destruct (Z.eqb_spec (sc_view s - i) 0) as [E | E].
  - rewrite at_insert by lia.
    destruct (Z.eqb_spec (80 * i + k) (80 * sc_view s + sc_col s)), (Z.eqb_spec k (sc_col s));
      try lia; try done; rewrite Hs by done; by rewrite E.
  - destruct (Z.eqb_spec (80 * i + k) (80 * sc_view s + sc_col s)); [lia |]. by apply Hs.
Qed.

Lemma col_core c v sb s n : core c v sb s -> 0 <= n <= 80 ->
  core c v (set_cursor sb (cursor sb) n) (with_col s n).
Proof. intros [] Hn. by split. Qed.

Lemma col_rep c v sb vg s n : rep_at c v sb vg s -> 0 <= n <= 80 ->
  rep_at c v (set_cursor sb (cursor sb) n) vg (with_col s n).
Proof. intros [Hc ? ? ?] Hn. split; try done. by apply col_core. Qed.

(** ** A new line *)

Definition newline_raw (s : screen) : screen :=
  mk_screen (take NLINES (blank :: sc_lines s)) 0 (Z.min (sc_view s + 1) 199) (sc_color s).

Lemma newline_eq s : newline s =
  with_view (newline_raw s) (if sc_view (newline_raw s) =? 25 then 24 else sc_view (newline_raw s)).
Proof. reflexivity. Qed.

Lemma zlen_newline s : zlen (sc_lines s) <= 200 ->
  zlen (sc_lines (newline_raw s)) = Z.min (zlen (sc_lines s) + 1) 200.
Proof. intros. unfold zlen in *. cbn [newline_raw sc_lines]. rewrite length_take. cbn [length]. unfold NLINES. lia. Qed.

Lemma line_newline s j : j < 200 -> line (newline_raw s) j = if j =? 0 then blank else line s (j - 1).
Proof.
  intros Hj. unfold line. cbn [newline_raw sc_lines].
  rewrite at_take by (unfold NLINES; lia). by rewrite at_cons.
Qed.

Lemma newline_wf s : Forall (fun l => zlen l = 80) (sc_lines s) ->
  Forall (fun l => zlen l = 80) (sc_lines (newline_raw s)).
Proof. intros. apply Forall_take. by constructor. Qed.

(** The buffer after its line [c + 1] was cleared. *)
Lemma newline_stored c s b b' : stored c s b -> 0 <= c < 200 -> zlen (sc_lines s) <= 200 ->
  (forall i, 0 <= i -> at_ 0 b' i =
     if (80 * ((c + 1) mod 200) <=? i) && (i <? 80 * ((c + 1) mod 200) + 80)
     then SB_WHITESPACE else at_ 0 b i) ->
  stored ((c + 1) mod 200) (newline_raw s) b'.
Proof.
  intros Hst Hc Hl Hb j k Hj Hk. set (d := (c + 1) mod 200) in *.
  assert (0 <= d < 200 /\ (d - j) mod 200 = (c - (j - 1)) mod 200) as [Hd Hm]
    by (unfold d; split; dlia).
  assert (0 <= (d - j) mod 200 < 200 /\ ((d - j) mod 200 = d <-> j = 0)) as [Hr Hd0]
    by (split; dlia).
  rewrite Hb by lia. rewrite line_newline by lia. rewrite Hm in *.
  destruct (Z.eqb_spec j 0) as [E | E].
  - rewrite (proj2 Hd0 E). rewrite blank_at by done.
    by destruct (Z.leb_spec (80 * d) (80 * d + k)), (Z.ltb_spec (80 * d + k) (80 * d + 80)); try lia.
  - rewrite Hst by lia. set (m := (c - (j - 1)) mod 200) in *.
    assert (m <> d) as Hne by (intros Hmd; apply E, Hd0; done).
    destruct (Z.leb_spec (80 * d) (80 * m + k)), (Z.ltb_spec (80 * m + k) (80 * d + 80)); try done; lia.
Qed.

(** A window that stays where it is shows the new line already. *)
Lemma newline_shown s vg : shown s vg -> sc_view s < 199 -> shown (newline_raw s) vg.
Proof.
  intros Hs Hv i k Hi Hk. rewrite Hs by done. cbn [newline_raw sc_view].
  replace (Z.min (sc_view s + 1) 199) with (sc_view s + 1) by lia.
  rewrite line_newline by lia.
  destruct (Z.eqb_spec (sc_view s + 1 - i) 0) as [E | E].
  - unfold line. by rewrite (at_neg blank _ (sc_view s - i)) by lia.
  - by replace (sc_view s + 1 - i - 1) with (sc_view s - i) by lia.
Qed.

(** ** Joining lines *)

Lemma text_length_bound l : 0 <= text_length l <= zlen l.
Proof.
  unfold zlen. induction l as [| x l IH]; cbn [text_length length]; [lia |].
  destruct (x =? SB_WHITESPACE); lia.
Qed.

Lemma find_blank_spec b cur l0 : 0 <= cur -> cur + 80 <= zlen b ->
  (forall k, 0 <= k < 80 -> at_ 0 b (cur + k) = at_ 0 l0 k) ->
  forall l off fuel, zlen l + off = 80 -> 0 <= off -> zlen l < Z.of_nat fuel ->
  (forall k, 0 <= k < zlen l -> at_ 0 l k = at_ 0 l0 (off + k)) ->
  find_blank fuel b cur off = Ok (off + text_length l).
Proof.
  intros H0 H1 Hb l. induction l as [| x l IH]; intros off fuel Hl Ho Hf Ha;
    (destruct fuel as [| fuel]; [pose proof (zlen_nonneg ([] : list Z)); unfold zlen in *; lia |]);
    cbn [find_blank text_length].
  - change (zlen []) with 0 in Hl. rewrite (proj2 (Z.ltb_ge off VGA_WIDTH)) by (unfold VGA_WIDTH; lia).
    f_equal. lia.
  - assert (zlen (x :: l) = zlen l + 1) as El by (unfold zlen; cbn [length]; lia).
    pose proof (zlen_nonneg l).
    rewrite (proj2 (Z.ltb_lt off VGA_WIDTH)) by (unfold VGA_WIDTH; lia).
    rewrite (rd_ok 0) by lia. cbn [mbind result_bind].
    rewrite Hb, <- (Z.add_0_r off), <- Ha, at_cons by lia. cbn [Z.eqb].
    destruct (x =? SB_WHITESPACE); cbn [negb]; [f_equal; lia |].
    rewrite Z.add_0_r, u16_small by lia. rewrite IH; [f_equal; lia | lia | lia | lia |].
    intros k Hk. replace (off + 1 + k) with (off + (k + 1)) by lia. rewrite <- Ha by lia.
    rewrite at_cons. destruct (Z.eqb_spec (k + 1) 0); [lia |]. f_equal. lia.
Qed.

(** The screen with the cursor at column [n] of the line before. *)
Definition up (s : screen) (n : Z) : screen :=
  mk_screen (drop 1 (sc_lines s)) n (sc_view s - 1) (sc_color s).

Lemma up_line s n j : 0 <= j -> line (up s n) j = line s (j + 1).
Proof. intros. by apply at_drop1. Qed.

Lemma zlen_up s n : 1 <= zlen (sc_lines s) -> zlen (sc_lines (up s n)) = zlen (sc_lines s) - 1.
Proof. unfold zlen, up. cbn [sc_lines]. rewrite length_drop. lia. Qed.

Lemma up_core c v sb s n : core c v sb s -> 0 <= v -> 2 <= zlen (sc_lines s) ->
  line s 0 = blank -> 1 <= sc_view s -> 0 <= n <= 80 ->
  core ((c - 1) mod 200) v (set_cursor sb (80 * ((c - 1) mod 200)) n) (up s n).
Proof.
  intros [] Hv Hl Hb Hview Hn. set (len := zlen (sc_lines s)) in *.
  pose proof (zlen_up s n ltac:(lia)) as Hlen. fold len in Hlen.
  split; rewrite ?Hlen;
    cbn [cursor top viewport endbuf cursor_offset color buf up sc_col sc_view sc_color set_cursor];
    try done; try lia; try dlia.
  - by apply Forall_drop.
  - intros j k Hj Hk. rewrite up_line by lia.
    replace (((c - 1) mod 200 - j) mod 200) with ((c - (j + 1)) mod 200) by dlia.
    destruct (decide (j = 199)) as [-> | Hne].
    + replace ((c - (199 + 1)) mod 200) with ((c - 0) mod 200) by dlia.
      rewrite c_stored0 by lia. rewrite Hb. f_equal. symmetry. apply at_over. fold len. lia.
    + apply c_stored0; [lia | done].
Qed.

Lemma up_shown s n vg : shown s vg -> line s 0 = blank -> shown (up s n) vg.
Proof.
  intros Hs Hb i k Hi Hk. rewrite Hs by done. cbn [up sc_view].
  destruct (Z.lt_ge_cases (sc_view s - 1 - i) 0) as [Hneg | Hpos].
  - unfold line at 2. rewrite (at_neg blank) by lia.
    destruct (decide (sc_view s - i = 0)) as [-> | Hne]; [by rewrite Hb |].
    unfold line. by rewrite (at_neg blank) by lia.
  - rewrite up_line by lia. do 2 f_equal. lia.
Qed.

Section refinement.
Context {D : Type} `{Device D}.
Implicit Types w : world D.

(** ** Synchronising *)

Lemma sync_rep c v sb s w :
  core c v sb s -> (v < 0 -> sc_view s <= 24) -> 16000 <= zlen (vga w) ->
  exists w', sb_sync sb w = Ok w' /\ rep_at c v sb (vga w') s.
Proof.
  intros Hc Hf Hv. unfold sb_sync. destruct (Z.eqb_spec (loaded sb) 0) as [Hl | Hl].
  { exists w. split; [done |]. by split. }
  cbn [negb].
  destruct (for_loop_inv (fun i vg => zlen vg = zlen (vga w) /\
      forall i' k, 0 <= i' < i -> 0 <= k < 80 ->
        at_ 0 vg (80 * i' + k) = at_ 0 (line s (sc_view s - i')) k)
    (Z.to_nat VGA_HEIGHT) (fun i v0 =>
          p ← sb_addline sb (viewport sb) i;
          copy_words v0 (i * VGA_WIDTH) (buf sb) p (Z.to_nat VGA_WIDTH)) 0 (vga w))
    as (vg & -> & Hz & Hs).
  - split; [done | lia].
  - intros i vg Hi (Hz & Hs). change (0 + Z.of_nat (Z.to_nat VGA_HEIGHT)) with 25 in Hi.
    rewrite (c_viewport _ _ _ _ Hc), sb_addline_spec by apply Hc. cbn [mbind result_bind].
    pose proof (c_buf _ _ _ _ Hc) as Hb.
    assert (0 <= (v + i) mod 200 < 200) as Hm by dlia.
    unfold VGA_WIDTH.
    destruct (copy_words_spec (buf sb) (Z.to_nat 80) vg (i * 80) (80 * ((v + i) mod 200)))
      as (vg' & -> & Hz' & Hs'); try lia.
    exists vg'. split; [done |]. split; [lia |]. intros i' k Hi' Hk. rewrite Hs' by lia.
    destruct (decide (i' = i)) as [-> | Hne].
    + rewrite <- (window c v sb s Hc) by lia.
      destruct (Z.leb_spec (i * 80) (80 * i + k)), (Z.ltb_spec (80 * i + k) (i * 80 + Z.of_nat (Z.to_nat 80)));
        try lia. cbn [andb]. f_equal. lia.
    + rewrite <- Hs by lia.
      destruct (Z.leb_spec (i * 80) (80 * i' + k)), (Z.ltb_spec (80 * i' + k) (i * 80 + Z.of_nat (Z.to_nat 80)));
        try lia; done.
  - cbn [mbind result_bind]. eexists. split; [done |]. split; [done | done | cbn [vga]; lia |].
    intros _ i k Hi Hk. apply Hs; [| done]. change (0 + Z.of_nat (Z.to_nat VGA_HEIGHT)) with 25. lia.
Qed.

(** ** Scrolling *)

Lemma set_viewport_core c v sb s n : core c v sb s ->
  0 <= n < zlen (sc_lines s) -> 24 <= n + (200 - zlen (sc_lines s)) ->
  (forall p, p = (c - n) mod 200 \/ (p = c - n /\ p < 0 /\ n <= 25) ->
     core c p (set_viewport sb (80 * p)) (with_view s n)).
Proof. intros [] Hn Hr p Hp. split; cbn; try done; lia. Qed.

Lemma scroll_move c v sb s n w :
  core c v sb s -> 16000 <= zlen (vga w) ->
  0 <= sc_view s - n < zlen (sc_lines s) ->
  24 <= sc_view s - n + (200 - zlen (sc_lines s)) ->
  exists sb' w' v', (p ← sb_addline sb (viewport sb) n;
          w ← sb_sync (set_viewport sb p) w; Ok (set_viewport sb p, w)) = Ok (sb', w') /\
    loaded sb' = loaded sb /\ 0 <= v' /\ rep_at c v' sb' (vga w') (with_view s (sc_view s - n)).
Proof.
  intros Hc Hv H0 H1. rewrite (c_viewport _ _ _ _ Hc), sb_addline_spec by apply Hc.
  cbn [mbind result_bind].
  destruct (sync_rep c ((v + n) mod 200) (set_viewport sb (80 * ((v + n) mod 200)))
    (with_view s (sc_view s - n)) w) as (w' & -> & Hr).
  - apply set_viewport_core with v; [done | done | done |]. left.
    destruct (c_view _ _ _ _ Hc) as [E | [E _]]; clear - E; dlia.
  - dlia.
  - done.
  - eexists _, w', _. split; [done |]. split; [done |]. split; [| done]. dlia.
Qed.

Lemma scroll_top_rep c v sb s w :
  core c v sb s -> 16000 <= zlen (vga w) ->
  exists sb' w' v', sb_scroll_top sb w = Ok (sb', w') /\ loaded sb' = loaded sb /\ 0 <= v' /\
    rep_at c v' sb' (vga w') (scroll_top s).
Proof.
  intros Hc Hv. unfold sb_scroll_top, scroll_top.
  rewrite (c_top _ _ _ _ Hc). set (t := (c - (zlen (sc_lines s) - 1)) mod 200).
  pose proof (c_len _ _ _ _ Hc) as Hl.
  destruct (sync_rep c t (set_viewport sb (80 * t)) (with_view s (zlen (sc_lines s) - 1)) w)
    as (w' & E & Hr).
  - apply set_viewport_core with v; [done | lia | lia | by left].
  - unfold t. dlia.
  - done.
  - cbn zeta. rewrite E. eexists _, w', _. split; [done |]. split; [done |]. split; [| done].
    unfold t. dlia.
Qed.

Lemma scroll_down_rep c v sb s w :
  rep_at c v sb (vga w) s ->
  exists sb' w' v', sb_scroll_down sb w = Ok (sb', w') /\ loaded sb' = loaded sb /\
    rep_at c v' sb' (vga w') (scroll_down s).
Proof.
  intros [Hc Hf Hv Hs]. unfold sb_scroll_down, scroll_down.
  rewrite (view_ldiff c v sb s Hc). change VGA_HEIGHT with 25.
  destruct (Z.gtb_spec (sc_view s) 25).
  - destruct (sync_rep c (c - 24) (set_viewport sb (80 * (c - 24))) (with_view s 24) w)
      as (w' & E & Hr).
    + pose proof (c_len _ _ _ _ Hc). pose proof (c_cursor _ _ _ _ Hc).
      apply set_viewport_core with v; [done | lia | lia |].
      destruct (decide (c - 24 < 0)); [right; lia | left; dlia].
    + cbn [sc_view with_view]. lia.
    + done.
    + destruct (c_cursor _ _ _ _ Hc) as [-> _].
      replace (80 * c - VGA_WIDTH * (25 - 1)) with (80 * (c - 24)) by (unfold VGA_WIDTH; lia).
      cbn zeta. rewrite E. eexists _, w', _. by split.
  - eexists sb, w, v. split; [done |]. split; [done |].
    replace (with_view s (sc_view s)) with s by (by destruct s). by split.
Qed.

Lemma scroll_rep c v sb s n w :
  rep_at c v sb (vga w) s -> -2147483648 < n < 2147483648 ->
  exists sb' w' v', sb_scroll sb n w = Ok (sb', w') /\ loaded sb' = loaded sb /\
    rep_at c v' sb' (vga w') (scroll s n).
Proof.
  intros Hr Hn. pose proof (r_core _ _ _ _ _ Hr) as Hc. pose proof (r_vga _ _ _ _ _ Hr) as Hv.
  pose proof (c_len _ _ _ _ Hc) as Hl. pose proof (c_room _ _ _ _ Hc) as Ho.
  unfold sb_scroll, scroll.
  rewrite (top_ldiff c v sb s Hc), (view_ldiff c v sb s Hc). change (VGA_HEIGHT - 1) with 24.
  assert (abs n = Z.abs n) as ->.
  { unfold abs. destruct (Z.ltb_spec n 0); [rewrite i32_small by lia |]; lia. }
  rewrite !Z.geb_leb.
  destruct (Z.leb_spec (Z.abs n) (if n <? 0 then zlen (sc_lines s) - 1 - sc_view s else sc_view s - 24)) as [Hm | _].
  - destruct (scroll_move c v sb s n w) as (sb' & w' & v' & -> & El & _ & Hr'); try done.
    + destruct (Z.ltb_spec n 0); lia.
    + destruct (Z.ltb_spec n 0); lia.
    + by eexists sb', w', v'.
  - destruct (n <? 0).
    + destruct (scroll_top_rep c v sb s w) as (sb' & w' & v' & -> & El & _ & Hr'); try done.
      by eexists sb', w', v'.
    + by apply scroll_down_rep with v.
Qed.

(** ** Writing *)

Lemma cell_bounds c v sb s : core c v sb s -> sc_col s < 80 ->
  0 <= cursor sb + cursor_offset sb < zlen (buf sb) /\ 0 <= 80 * sc_view s + sc_col s < 16000.
Proof. intros [] Hcol. lia. Qed.

Lemma write_word_rep c v sb s x w : rep_at c v sb (vga w) s -> sc_col s < 80 ->
  exists w', sb_write_word sb x w =
      Ok (set_buf sb (<[Z.to_nat (cursor sb + cursor_offset sb) := x]> (buf sb)), w') /\
    rep_at c v (set_buf sb (<[Z.to_nat (cursor sb + cursor_offset sb) := x]> (buf sb)))
      (vga w') (put_word s x).
Proof.
  intros [Hc Hf Hv Hs] Hcol. pose proof (cell_bounds c v sb s Hc Hcol) as [Hb Hg].
  pose proof (put_core c v sb s x Hc Hcol) as Hc'.
  pose proof (c_len _ _ _ _ Hc) as Hl. pose proof (c_col _ _ _ _ Hc) as [Ho Hcol0].
  pose proof (c_wf _ _ _ _ Hc) as Hw.
  unfold sb_write_word. rewrite wr_ok by done. cbn [mbind result_bind].
  set (sb' := set_buf sb _) in *. change (loaded sb') with (loaded sb).
  rewrite (view_diff c v sb' _ Hc'). cbn [sc_view put_word].
  rewrite (Z.mul_comm 80), Z.quot_mul by done.
  destruct (Z.eqb_spec (loaded sb) 0) as [El | El]; cbn [negb].
  { exists w. split; [done |]. by split. }
  destruct (Z.ltb_spec (sc_view s) VGA_HEIGHT) as [Hin | Hin]; change VGA_HEIGHT with 25 in Hin.
  - change (cursor_offset sb') with (cursor_offset sb). rewrite Ho.
    rewrite wr_ok by lia. cbn [mbind result_bind]. eexists. split; [done |].
    split; [done | done | cbn [vga on_vga]; rewrite zlen_insert; lia |].
    intros _. apply put_shown with (vga w); auto; [lia | lia |].
    intros i Hi. cbn [vga on_vga]. rewrite at_insert by lia.
    by rewrite (Z.mul_comm (sc_view s)).
  - exists w. split; [done |]. split; [done | done | done |].
    intros _. apply put_shown with (vga w); auto; [lia | lia |].
    intros i Hi. by destruct (Z.eqb_spec i (80 * sc_view s + sc_col s)); [lia |].
Qed.

(** The end of sb_crlf: scrolling by one line. *)
Lemma crlf_scroll c v sb s w : core c v sb s -> 16000 <= zlen (vga w) ->
  (loaded sb <> 0 -> sc_view s <> 25 -> shown s (vga w)) ->
  exists sb' w' v',
    (if sb_ldiff sb (viewport sb) (cursor sb) =? VGA_HEIGHT then sb_scroll sb 1 w
     else Ok (sb, w)) = Ok (sb', w') /\ loaded sb' = loaded sb /\
    (0 <= v -> 0 <= v') /\
    rep_at c v' sb' (vga w') (with_view s (if sc_view s =? 25 then 24 else sc_view s)).
Proof.
  intros Hc Hv Hs. rewrite (view_ldiff c v sb s Hc). change VGA_HEIGHT with 25.
  pose proof (c_len _ _ _ _ Hc) as Hl. pose proof (c_room _ _ _ _ Hc) as Hr.
  destruct (Z.eqb_spec (sc_view s) 25) as [E | E].
  - unfold sb_scroll. cbn [Z.ltb Z.compare]. rewrite (view_ldiff c v sb s Hc), E.
    change (25 - (VGA_HEIGHT - 1) >=? abs 1) with true. cbn iota.
    destruct (scroll_move c v sb s 1 w) as (sb' & w' & v' & -> & El & H0 & Hr');
      [done | done | lia | lia |].
    rewrite E in Hr'. by eexists sb', w', v'.
  - eexists sb, w, v. split; [done |]. split; [done |]. split; [done |].
    replace (with_view s (sc_view s)) with s by (by destruct s).
    split; [done | | done | auto].
    intros Hneg. destruct (c_view _ _ _ _ Hc); dlia.
Qed.

(** The buffer behind a line feed: the cursor on line [d], the top line [t], the
    window from line [v] on. *)
Definition fed (sb : screenbuf) (b : list Z) (d t v : Z) : screenbuf :=
  mk_screenbuf (80 * t) (80 * v) (endbuf sb) (80 * d) 0 (color sb) (loaded sb) b.
Definition feed_line (c : Z) : Z := (c + 1) mod 200.
Definition feed_top (c : Z) (s : screen) : Z :=
  (feed_line c - (Z.min (zlen (sc_lines s) + 1) 200 - 1)) mod 200.

Lemma feed_core c v sb s b v' : core c v sb s -> zlen b = 16000 ->
  stored (feed_line c) (newline_raw s) b ->
  v' = (feed_line c - Z.min (sc_view s + 1) 199) mod 200 \/
    (v' = feed_line c - Z.min (sc_view s + 1) 199 /\ v' < 0 /\ Z.min (sc_view s + 1) 199 <= 25) ->
  core (feed_line c) v' (fed sb b (feed_line c) (feed_top c s) v') (newline_raw s).
Proof.
  intros [[Ecur Hcr] Etop Evp Hview Hl Hroom Eend Hcol Hcolor Hw Hb Hst] Hbl Hst' Hv'.
  pose proof (zlen_newline s ltac:(lia)) as Hlen. unfold feed_top, feed_line in *.
  split; rewrite ?Hlen;
    cbn [fed cursor top viewport endbuf cursor_offset color buf newline_raw sc_col sc_view sc_color];
    try done; try dlia; by apply (newline_wf s).
Qed.

(** The window that starts at the line that is dropped moves on. *)
Lemma feed_moved c v sb s b w : rep_at c v sb (vga w) s -> zlen b = 16000 ->
  stored (feed_line c) (newline_raw s) b -> sc_view s = 199 -> zlen (sc_lines s) = 200 ->
  exists w1 sb' w' v',
    sb_sync (fed sb b (feed_line c) (feed_top c s) (feed_top c s)) w = Ok w1 /\
    (if sb_ldiff (fed sb b (feed_line c) (feed_top c s) (feed_top c s)) (80 * feed_top c s) (80 * feed_line c)
        =? VGA_HEIGHT
     then sb_scroll (fed sb b (feed_line c) (feed_top c s) (feed_top c s)) 1 w1
     else Ok (fed sb b (feed_line c) (feed_top c s) (feed_top c s), w1)) = Ok (sb', w') /\
    loaded sb' = loaded sb /\ 0 <= v' /\ rep_at (feed_line c) v' sb' (vga w') (newline s).
Proof.
  intros [Hc Hf Hv Hs] Hbl Hst E Hl.
  assert (0 <= feed_top c s) as Ht by (unfold feed_top; dlia).
  destruct (sync_rep (feed_line c) (feed_top c s) (fed sb b (feed_line c) (feed_top c s) (feed_top c s))
    (newline_raw s) w) as (w1 & Es & Hr).
  - apply feed_core with v; try done. left. unfold feed_top, feed_line. dlia.
  - lia.
  - done.
  - destruct (crlf_scroll _ _ _ (newline_raw s) w1 (r_core _ _ _ _ _ Hr) (r_vga _ _ _ _ _ Hr))
      as (sb' & w' & v' & Ef & El & H0 & Hr'); [intros; by apply Hr |].
    exists w1, sb', w', v'. split; [done |]. split; [exact Ef |]. split; [exact El |].
    split; [auto | by rewrite newline_eq].
Qed.

(** A window that starts elsewhere is kept, unless the cursor leaves it. *)
Lemma feed_kept c v sb s b w : rep_at c v sb (vga w) s -> zlen b = 16000 ->
  stored (feed_line c) (newline_raw s) b -> sc_view s < 199 ->
  exists sb' w' v',
    (if sb_ldiff (fed sb b (feed_line c) (feed_top c s) v) (80 * v) (80 * feed_line c) =? VGA_HEIGHT
     then sb_scroll (fed sb b (feed_line c) (feed_top c s) v) 1 w
     else Ok (fed sb b (feed_line c) (feed_top c s) v, w)) = Ok (sb', w') /\
    loaded sb' = loaded sb /\ (0 <= v -> 0 <= v') /\
    rep_at (feed_line c) v' sb' (vga w') (newline s).
Proof.
  intros [Hc Hf Hv Hs] Hbl Hst E. pose proof (c_view _ _ _ _ Hc) as Hview.
  pose proof (proj2 (c_cursor _ _ _ _ Hc)) as Hcr. pose proof (c_len _ _ _ _ Hc) as Hl.
  destruct (crlf_scroll (feed_line c) v (fed sb b (feed_line c) (feed_top c s) v) (newline_raw s) w)
    as (sb' & w' & v' & Ef & El & H0 & Hr').
  - apply feed_core with v; try done. clear - Hview Hf E Hl Hcr. unfold feed_line. dlia.
  - done.
  - intros Hld _. apply newline_shown; [by apply Hs | done].
  - exists sb', w', v'. split; [exact Ef |]. split; [exact El |]. split; [done | by rewrite newline_eq].
Qed.

(** [sb_crlf] with the cursor on the line before the top one: the top line is
    dropped, and a window that starts there moves on. *)
Lemma crlf_rep c v sb s w : rep_at c v sb (vga w) s ->
  exists sb' w' v', sb_crlf sb w = Ok (sb', w') /\ loaded sb' = loaded sb /\
    (0 <= v -> 0 <= v') /\ rep_at (feed_line c) v' sb' (vga w') (newline s).
Proof.
  intros Hr. pose proof Hr as [Hc Hf Hv Hs].
  pose proof Hc as [[Ecur Hcr] Etop Evp Hview Hl Hroom Eend _ Hcol Hw Hb Hst].
  unfold sb_crlf. rewrite Ecur, sb_addline_spec by done. cbn [mbind result_bind].
  fold (feed_line c). assert (0 <= feed_line c < 200) as Hd by (unfold feed_line; dlia).
  destruct (sb_memset_spec SB_WHITESPACE (Z.to_nat VGA_WIDTH) (buf sb) (80 * feed_line c))
    as (b & Eb & Hbl & Hb'); [lia | unfold VGA_WIDTH; lia |].
  cbn [buf cursor set_cursor]. rewrite Eb. cbn [mbind result_bind].
  change (80 * feed_line c + Z.of_nat (Z.to_nat VGA_WIDTH)) with (80 * feed_line c + 80) in Hb'.
  assert (stored (feed_line c) (newline_raw s) b) as Hst' by (apply newline_stored with (buf sb); try done; lia).
  rewrite Hb in Hbl. cbn [set_buf set_cursor top viewport cursor].
  set (len := zlen (sc_lines s)) in *. set (t := (c - (len - 1)) mod 200) in *.
  rewrite Etop, Evp. destruct (Z.eqb_spec (80 * feed_line c) (80 * t)) as [E | E].
  - assert (len = 200) as El by (unfold feed_line, t in *; dlia).
    assert (feed_top c s = (t + 1) mod 200) as Et by (unfold feed_top, feed_line in *; fold len; dlia).
    destruct (Z.eqb_spec (80 * v) (80 * t)) as [E' | E'].
    + destruct (feed_moved c v sb s b w Hr Hbl Hst') as (w1 & sb' & w' & v' & Es & Ef & Hr');
        [unfold t in *; dlia | done |].
      rewrite sb_addline_spec by done. cbn [mbind result_bind]. rewrite <- Et.
      change (sb_sync _ w) with (sb_sync (fed sb b (feed_line c) (feed_top c s) (feed_top c s)) w).
      rewrite Es. cbn [mbind result_bind top set_viewport set_buf set_cursor].
      rewrite Etop, sb_addline_spec by done. cbn [mbind result_bind]. rewrite <- Et.
      exists sb', w', v'. destruct Hr' as (El' & H0 & Hr'). split; [exact Ef | by split].
    + destruct (feed_kept c v sb s b w Hr Hbl Hst') as (sb' & w' & v' & Ef & Hr'); [unfold t in *; dlia |].
      cbn [mbind result_bind top set_viewport set_buf set_cursor].
      rewrite Etop, sb_addline_spec by done. cbn [mbind result_bind]. rewrite <- Et.
      exists sb', w', v'. unfold fed in Ef. rewrite <- Evp in Ef. split; [exact Ef | exact Hr'].
  - assert (len < 200) as H199 by (unfold t, feed_line in *; dlia). cbn [mbind result_bind].
    assert (feed_top c s = t) as Et by (unfold feed_top, feed_line, t in *; fold len; dlia).
    destruct (feed_kept c v sb s b w Hr Hbl Hst') as (sb' & w' & v' & Ef & Hr'); [lia |].
    exists sb', w', v'. unfold fed in Ef. rewrite Et, <- Etop, <- Evp in Ef. split; [exact Ef | exact Hr'].
Qed.

Definition rep (sb : screenbuf) (vg : list Z) (s : screen) : Prop :=
  exists c v, rep_at c v sb vg s.

(** [r], run from [sb], ends in a screen buffer that represents [s]. *)
Definition leads (r : result (screenbuf * world D)) (sb : screenbuf) (s : screen) : Prop :=
  exists sb' w', r = Ok (sb', w') /\ loaded sb' = loaded sb /\
    (0 <= viewport sb -> 0 <= viewport sb') /\ rep sb' (vga w') s.

Lemma leads_crlf sb s w : rep sb (vga w) s -> leads (sb_crlf sb w) sb (newline s).
Proof.
  intros (c & v & Hr). destruct (crlf_rep c v sb s w Hr) as (sb' & w' & v' & E & El & Hv & Hr').
  exists sb', w'. split; [done |]. split; [done |]. split; [| by eexists _, v'].
  rewrite (c_viewport _ _ _ _ (r_core _ _ _ _ _ Hr)),
    (c_viewport _ _ _ _ (r_core _ _ _ _ _ Hr')). lia.
Qed.

Lemma newline_col s : sc_col (newline s) = 0.
Proof. reflexivity. Qed.

Lemma wrap_col s : 0 <= sc_col s <= 80 -> 0 <= sc_col (wrap s) < 80.
Proof. unfold wrap. destruct (Z.eqb_spec (sc_col s) 80); [rewrite newline_col |]; lia. Qed.

Lemma leads_wrap sb s w o : rep sb (vga w) s -> cursor_offset sb = o ->
  leads (if o =? VGA_WIDTH then sb_crlf sb w else Ok (sb, w)) sb (wrap s).
Proof.
  intros Hr <-. unfold wrap. destruct Hr as (c & v & Hr).
  destruct (c_col _ _ _ _ (r_core _ _ _ _ _ Hr)) as [-> _]. change VGA_WIDTH with 80.
  destruct (sc_col s =? 80); [apply leads_crlf; by exists c, v |].
  exists sb, w. split; [done |]. split; [done |]. split; [done |]. by exists c, v.
Qed.

(** What [r] leads to, when it starts from a changed [sb]. *)
Lemma leads_from r sb sb1 s : loaded sb1 = loaded sb -> viewport sb1 = viewport sb ->
  leads r sb1 s -> leads r sb s.
Proof. intros El Ev (sb' & w' & H'). exists sb', w'. by rewrite <- El, <- Ev. Qed.

Lemma u16_color sb : 0 <= color sb < 256 -> u16 (Z.shiftl (color sb) 8) = u16 (color sb * 256).
Proof. intros. by rewrite Z.shiftl_mul_pow2. Qed.

Lemma leads_regular sb s ch w : rep sb (vga w) s -> sc_col s < 80 ->
  leads (sb_regular sb ch w) sb (put_char s ch).
Proof.
  intros (c & v & [Hc Hf Hv Hs]) Hcol.
  pose proof (cell_bounds c v sb s Hc Hcol) as [Hb Hg].
  pose proof (c_len _ _ _ _ Hc) as Hl. pose proof (c_wf _ _ _ _ Hc) as Hw.
  destruct (c_col _ _ _ _ Hc) as [Eo H0]. destruct (c_color _ _ _ _ Hc) as [Ec Hcr].
  unfold sb_regular, put_char. rewrite wr_ok by done. cbn [mbind result_bind].
  rewrite u16_color by lia. rewrite Ec. fold (char_word s ch).
  set (b' := <[_ := _]> (buf sb)).
  pose proof (put_core c v sb s (char_word s ch) Hc Hcol) as Hc1. fold b' in Hc1.
  rewrite u16_small by lia.
  pose proof (col_core c v _ _ (cursor_offset sb + 1) Hc1 ltac:(lia)) as Hc2.
  cbn [cursor set_buf] in Hc2. set (sb2 := set_cursor (set_buf sb b') _ _) in *.
  rewrite (view_diff c v _ _ Hc2). cbn [sc_view with_col put_word].
  change (loaded sb2) with (loaded sb). change (cursor_offset sb2) with (cursor_offset sb + 1).
  change (cursor sb2) with (cursor sb). change (buf sb2) with b'. rewrite Eo in *.
  assert (at_ 0 b' (cursor sb + sc_col s) = char_word s ch) as Hcell.
  { unfold b'. rewrite Eo, at_insert by lia. by rewrite Z.eqb_refl. }
  assert (zlen b' = zlen (buf sb)) as Hbl by apply zlen_insert.
  replace (80 * sc_view s + (sc_col s + 1) - 1) with (80 * sc_view s + sc_col s) by lia.
  replace (cursor sb + (sc_col s + 1) - 1) with (cursor sb + sc_col s) by lia.
  apply leads_from with sb2; [done | done |].
  destruct (Z.eqb_spec (loaded sb) 0) as [El | El]; cbn [negb mbind result_bind].
  - apply leads_wrap; [| cbn; lia]. exists c, v. split; done.
  - destruct (copy_words_spec b' 1 (vga w) (80 * sc_view s + sc_col s) (cursor sb + sc_col s))
      as (vg & -> & Hz & Hat); try lia.
    cbn [mbind result_bind]. apply (leads_wrap sb2 _ (on_vga w vg)); [| cbn; lia]. exists c, v.
    split; [done | done | cbn [vga on_vga]; lia |]. intros _.
    apply (put_shown s (char_word s ch) (vga w)); try done; try lia; [by apply Hs |]. intros i Hi. cbn [vga on_vga].
    rewrite Hat by lia. change (Z.of_nat 1) with 1.
    destruct (Z.eqb_spec i (80 * sc_view s + sc_col s)) as [-> | Hne].
    + rewrite Z.sub_diag, Z.add_0_r, Hcell.
      by rewrite (proj2 (Z.leb_le _ _)), (proj2 (Z.ltb_lt _ _)) by lia.
    + destruct (Z.leb_spec (80 * sc_view s + sc_col s) i), (Z.ltb_spec i (80 * sc_view s + sc_col s + 1));
        (done || lia).
Qed.

Lemma leads_tab_loop fuel : forall sb s w, rep sb (vga w) s -> 0 <= sc_col s < 80 ->
  4 - sc_col s mod 4 < Z.of_nat fuel ->
  exists sb' w', tab_loop fuel sb w = Ok (sb', w') /\ loaded sb' = loaded sb /\
    viewport sb' = viewport sb /\
    rep sb' (vga w') (put_blanks (Z.to_nat (4 - sc_col s mod 4)) s).
Proof.
  induction fuel as [| fuel IH]; intros sb s w (c & v & Hr) Hcol Hf; [dlia |].
  pose proof (r_core _ _ _ _ _ Hr) as Hc.
  destruct (c_col _ _ _ _ Hc) as [Eo _]. destruct (c_color _ _ _ _ Hc) as [Ec Hcr].
  cbn [tab_loop]. rewrite Z.lor_0_r, u16_color by lia. rewrite Ec.
  destruct (write_word_rep c v sb s (u16 (sc_color s * 256)) w Hr ltac:(lia)) as (w1 & -> & Hr1).
  cbn [mbind result_bind]. set (sb1 := set_buf sb _) in *.
  change (cursor_offset sb1) with (cursor_offset sb). rewrite Eo, u16_small by lia.
  apply (col_rep _ _ _ _ _ (sc_col s + 1)) in Hr1; [| lia].
  set (sb2 := set_cursor sb1 _ _) in *. change (cursor_offset sb2) with (sc_col s + 1).
  change TABSIZE with 4. change VGA_WIDTH with 80. rewrite Z.rem_mod_nonneg by lia.
  replace (Z.to_nat (4 - sc_col s mod 4)) with (S (Z.to_nat (3 - sc_col s mod 4))) by dlia.
  cbn [put_blanks].
  destruct (Z.eqb_spec ((sc_col s + 1) mod 4) 0) as [E | E]; cbn [negb andb].
  - exists sb2, w1. split; [done |]. split; [done |]. split; [done |].
    replace (Z.to_nat (3 - sc_col s mod 4)) with O by dlia. by exists c, v.
  - rewrite (proj2 (Z.ltb_lt (sc_col s + 1) 80)) by dlia.
    destruct (IH sb2 (with_col (put_word s (u16 (sc_color s * 256))) (sc_col s + 1)) w1)
      as (sb' & w' & Et & El & Ev & Hr'); [by exists c, v | cbn; dlia | cbn; dlia |].
    exists sb', w'. split; [done |]. split; [done |]. split; [done |].
    cbn [sc_col with_col] in Hr'.
    by replace (4 - (sc_col s + 1) mod 4) with (3 - sc_col s mod 4) in Hr' by dlia.
Qed.

Lemma leads_tabulation sb s w : rep sb (vga w) s -> 0 <= sc_col s < 80 ->
  leads (sb_tabulation sb w) sb (tabulation s).
Proof.
  intros Hr Hcol. unfold sb_tabulation, tabulation.
  destruct (leads_tab_loop (S (Z.to_nat TABSIZE)) sb s w Hr Hcol) as (sb' & w' & -> & El & Ev & Hr').
  { change (Z.of_nat (S (Z.to_nat TABSIZE))) with 5. dlia. }
  cbn [mbind result_bind]. apply leads_from with sb'; [done | done |]. by apply leads_wrap.
Qed.

(** A backspace at the start of a line first brings the line before it into
    the window. *)
Lemma window_up c v sb s w : rep_at c v sb (vga w) s -> 2 <= zlen (sc_lines s) ->
  exists sb1 w1 v1,
    (if viewport sb =? cursor sb then sb_scroll sb (-1) w else Ok (sb, w)) = Ok (sb1, w1) /\
    loaded sb1 = loaded sb /\ (0 <= v -> 0 <= v1) /\
    rep_at c v1 sb1 (vga w1) (with_view s (if sc_view s =? 0 then 1 else sc_view s)).
Proof.
  intros Hr Hl. pose proof (r_core _ _ _ _ _ Hr) as Hc.
  assert (viewport sb = cursor sb <-> sc_view s = 0) as Hvc.
  { destruct Hc as [[-> ?] _ -> ? ? _ _ _ _ _ _ _]. split; dlia. }
  destruct (Z.eqb_spec (viewport sb) (cursor sb)) as [E | E].
  - apply Hvc in E as E0. rewrite E0. cbn [Z.eqb].
    unfold sb_scroll. cbn [Z.ltb Z.compare]. rewrite (top_ldiff c v sb s Hc), E0.
    change (abs (-1)) with 1. rewrite Z.geb_leb, (proj2 (Z.leb_le _ _)) by lia.
    pose proof (c_len _ _ _ _ Hc). pose proof (c_room _ _ _ _ Hc).
    destruct (scroll_move c v sb s (-1) w Hc (r_vga _ _ _ _ _ Hr)) as (sb1 & w1 & v1 & -> & El & Hv & Hr');
      [lia | lia |].
    rewrite E0 in Hr'. by exists sb1, w1, v1.
  - destruct (Z.eqb_spec (sc_view s) 0) as [E0 | E0]; [by apply Hvc in E0 |].
    exists sb, w, v. replace (with_view s (sc_view s)) with s by (by destruct s). done.
Qed.

(** The position the cursor gets on the line before. *)
Lemma up_found c v sb s w : rep_at c v sb (vga w) s -> 2 <= zlen (sc_lines s) ->
  find_blank (S (Z.to_nat VGA_WIDTH)) (buf sb) (80 * ((c - 1) mod 200)) 0
    = Ok (text_length (line s 1)).
Proof.
  intros Hr Hl. pose proof (r_core _ _ _ _ _ Hr) as Hc.
  pose proof (c_buf _ _ _ _ Hc). pose proof (line_zlen s 1 (c_wf _ _ _ _ Hc)) as H80.
  rewrite (find_blank_spec (buf sb) (80 * ((c - 1) mod 200)) (line s 1)) with (l := line s 1);
    try (unfold VGA_WIDTH; dlia); [by rewrite Z.add_0_l | |].
  - intros k Hk. apply (c_stored _ _ _ _ Hc 1); [lia | done].
  - intros k Hk. by rewrite Z.add_0_l.
Qed.

Lemma erase_rep c v sb s n w : rep_at c v sb (vga w) (with_col s n) -> 0 < n <= 80 ->
  leads (sb_write_word (set_cursor sb (cursor sb) (n - 1)) SB_WHITESPACE w) sb
    (erase (with_col s n)).
Proof.
  intros Hr Hn. apply (col_rep _ _ _ _ _ (n - 1)) in Hr; [| lia].
  destruct (write_word_rep c v _ _ SB_WHITESPACE w Hr) as (w' & -> & Hr'); [cbn; lia |].
  eexists _, w'. split; [done |]. split; [done |]. split; [done |]. by exists c, v.
Qed.

(** sb_backspace at the start of a line, up to the search in the line before. *)
Lemma backspace_up c v sb s w : rep_at c v sb (vga w) s -> 0 <= v -> 2 <= zlen (sc_lines s) ->
  sc_col s = 0 -> line s 0 = blank ->
  exists sb1 w1, loaded sb1 = loaded sb /\ 0 <= viewport sb1 /\
    sb_backspace sb w =
      sb_write_word (set_cursor sb1 (cursor sb1) (u16 (text_length (line s 1) - 1))) SB_WHITESPACE w1 /\
    rep_at ((c - 1) mod 200) (viewport sb1 / 80) sb1 (vga w1)
      (up (with_view s (if sc_view s =? 0 then 1 else sc_view s)) (text_length (line s 1))).
Proof.
  intros Hr Hv Hl Hcol Hb. pose proof (r_core _ _ _ _ _ Hr) as Hc.
  destruct (c_col _ _ _ _ Hc) as [Eo _]. rewrite Hcol in Eo.
  pose proof (text_length_bound (line s 1)) as Hn.
  rewrite (line_zlen s 1 (c_wf _ _ _ _ Hc)) in Hn. set (n := text_length (line s 1)) in *.
  assert ((cursor sb =? top sb) = false) as Etop.
  { apply Z.eqb_neq. destruct Hc as [[-> ?] -> ? ? ? _ _ _ _ _ _ _]. dlia. }
  destruct (window_up c v sb s w Hr Hl) as (sb1 & w1 & v1 & E1 & El & Hv1 & Hr1).
  pose proof (r_core _ _ _ _ _ Hr1) as Hc1. pose proof (c_viewport _ _ _ _ Hc1) as Evp.
  destruct (c_cursor _ _ _ _ Hc1) as [Ecur _].
  assert (1 <= (if sc_view s =? 0 then 1 else sc_view s)) as Hview.
  { pose proof (c_len _ _ _ _ Hc). destruct (Z.eqb_spec (sc_view s) 0); lia. }
  exists (set_cursor sb1 (80 * ((c - 1) mod 200)) n), w1.
  split; [exact El |]. split; [cbn [viewport set_cursor]; lia |]. split.
  - unfold sb_backspace. rewrite Eo, Etop. cbn [Z.eqb andb]. rewrite E1. cbn [mbind result_bind].
    rewrite Ecur, sb_addline_spec by apply Hc1. cbn [mbind result_bind].
    pose proof (up_found c v1 sb1 _ w1 Hr1 Hl) as Ef.
    cbn [buf cursor set_cursor]. change (c + -1) with (c - 1). rewrite Ef. done.
  - cbn [viewport set_cursor]. rewrite Evp, (Z.mul_comm 80), Z.div_mul by done.
    split; [apply up_core; try done; auto | cbn [up with_view sc_view]; lia | apply Hr1 |].
    intros Hld. apply up_shown; [by apply Hr1 | done].
Qed.

Lemma leads_backspace sb s s' w : rep sb (vga w) s -> 0 <= sc_col s < 80 ->
  (sc_col s = 0 -> 0 <= viewport sb) -> backspace s = Some s' ->
  leads (sb_backspace sb w) sb s'.
Proof.
  intros (c & v & Hr) Hcol Hv Hs. pose proof (r_core _ _ _ _ _ Hr) as Hc.
  destruct (c_col _ _ _ _ Hc) as [Eo _]. unfold backspace in Hs.
  destruct (Z.eqb_spec (sc_col s) 0) as [E0 | E0].
  - pose proof (c_len _ _ _ _ Hc) as Hl.
    destruct (Z.eqb_spec (zlen (sc_lines s)) 1) as [E1 | E1].
    + injection Hs as <-. unfold sb_backspace. rewrite Eo, E0, (c_top _ _ _ _ Hc), E1.
      destruct (c_cursor _ _ _ _ Hc) as [-> ?].
      rewrite (proj2 (Z.eqb_eq (80 * c) _)) by dlia. cbn [Z.eqb andb].
      exists sb, w. split; [done |]. split; [done |]. split; [done |]. by exists c, v.
    + unfold join in Hs. case_bool_decide as Hb; [| done].
      destruct (Z.ltb_spec 0 (text_length (line s 1))) as [Hn |]; [| done].
      injection Hs as <-. pose proof (c_viewport _ _ _ _ Hc).
      destruct (backspace_up c v sb s w Hr) as (sb1 & w1 & El & Hv1 & -> & Hr1); try done; try lia.
      pose proof (text_length_bound (line s 1)) as Hn'.
      rewrite (line_zlen s 1 (c_wf _ _ _ _ Hc)) in Hn'. rewrite u16_small by lia.
      destruct (erase_rep _ _ sb1 (up (with_view s (if sc_view s =? 0 then 1 else sc_view s))
        (text_length (line s 1))) (text_length (line s 1)) w1 Hr1 ltac:(lia))
        as (sb' & w' & E & El' & Hv' & Hr'').
      exists sb', w'. split; [exact E |]. split; [by rewrite El' |]. split; [auto |]. exact Hr''.
  - injection Hs as <-. unfold sb_backspace. rewrite Eo.
    rewrite (proj2 (Z.eqb_neq _ _)) by done. cbn [andb mbind result_bind].
    rewrite Eo, u16_small by lia.
    replace s with (with_col s (sc_col s)) at 2 by (by destruct s).
    apply erase_rep with c v; [| lia]. by destruct s.
Qed.

Lemma leads_putchar sb s s' ch w : rep sb (vga w) s -> 0 <= sc_col s < 80 ->
  (ch = 8 -> sc_col s = 0 -> 0 <= viewport sb) -> putchar s ch = Some s' ->
  leads (sb_putchar sb ch w) sb s'.
Proof.
  intros Hr Hcol Hv Hs.
  assert (leads (if ch =? 10 then sb_crlf sb w else if ch =? 9 then sb_tabulation sb w
     else if ch =? 8 then sb_backspace sb w else sb_regular sb ch w) sb s')
    as (sb' & w' & E & El & Hv' & Hr').
  { unfold putchar in Hs.
    destruct (Z.eqb_spec ch 10); [injection Hs as <-; by apply leads_crlf |].
    destruct (Z.eqb_spec ch 9); [injection Hs as <-; by apply leads_tabulation |].
    destruct (Z.eqb_spec ch 8); [apply leads_backspace with s; auto |].
    injection Hs as <-. apply leads_regular; [done | lia]. }
  unfold sb_putchar. rewrite E. cbn [mbind result_bind]. eexists sb', _. split; [done |].
  split; [done |]. split; [done |]. exact Hr'.
Qed.

Lemma put_blanks_col n : forall s, sc_col (put_blanks n s) = sc_col s + Z.of_nat n.
Proof.
  induction n as [| n IH]; intros s; cbn [put_blanks]; [lia |].
  rewrite IH. cbn [with_col sc_col]. lia.
Qed.

Lemma putchar_col s ch s' : putchar s ch = Some s' ->
  Forall (fun l => zlen l = 80) (sc_lines s) -> 0 <= sc_col s < 80 -> 0 <= sc_col s' < 80.
Proof.
  unfold putchar. intros Hs Hw Hcol.
  destruct (ch =? 10); [injection Hs as <-; rewrite newline_col; lia |].
  destruct (ch =? 9).
  { injection Hs as <-. apply wrap_col. rewrite put_blanks_col. dlia. }
  destruct (ch =? 8); [| injection Hs as <-; apply wrap_col; cbn [with_col sc_col]; lia].
  unfold backspace in Hs. destruct (Z.eqb_spec (sc_col s) 0) as [E0 | E0].
  - destruct (zlen (sc_lines s) =? 1); [by injection Hs as <- |].
    unfold join in Hs. destruct (bool_decide _ && _) eqn:E; [| done].
    apply andb_true_iff in E as [_ E%Z.ltb_lt]. injection Hs as <-. cbn [erase put_word with_col sc_col].
    pose proof (text_length_bound (line s 1)). pose proof (line_zlen s 1 Hw). lia.
  - injection Hs as <-. cbn [erase put_word with_col sc_col]. lia.
Qed.

(** ** Texts *)

Fixpoint puts (s : screen) (l : list Z) : option screen :=
  match l with [] => Some s | c :: l => s ← putchar s c; puts s l end.

(** Without a backspace every text can be written. *)
Lemma puts_total l : forall s, Forall (fun c => c <> 8) l -> is_Some (puts s l).
Proof.
  induction l as [| c l IH]; intros s Hl; [by eexists |].
  apply List.Forall_cons_iff in Hl as [Hc Hl]. cbn [puts]. unfold putchar.
  destruct (c =? 10); [by apply IH |]. destruct (c =? 9); [by apply IH |].
  destruct (Z.eqb_spec c 8); [done |]. by apply IH.
Qed.

(** The screen buffer represents [s], with the cursor on the line. *)
Definition shows (sb : screenbuf) (w : world D) (s : screen) : Prop :=
  rep sb (vga w) s /\ 0 <= sc_col s < 80.

Lemma rep_wf sb vg s : rep sb vg s -> Forall (fun l => zlen l = 80) (sc_lines s).
Proof. intros (c & v & Hr). apply (c_wf _ _ _ _ (r_core _ _ _ _ _ Hr)). Qed.

Lemma putstr_loop_shows m l : forall p sb s s' w fuel,
  Str.cstr m p l -> (length l < fuel)%nat -> shows sb w s ->
  (In 8 l -> 0 <= viewport sb) -> puts s l = Some s' ->
  exists sb' w', sb_putstr_loop fuel m p sb w = Ok (sb', w') /\ loaded sb' = loaded sb /\
    (0 <= viewport sb -> 0 <= viewport sb') /\ shows sb' w' s'.
Proof.
  induction l as [| ch l IH]; intros p sb s s' w fuel Hp Hf [Hr Hcol] Hv Hs;
    (destruct fuel as [| fuel]; [cbn in Hf; lia |]); cbn [sb_putstr_loop].
  - inversion Hp as [q Hq |]; subst. rewrite Hq. injection Hs as <-. exists sb, w. by split.
  - apply Str.cstr_inv in Hp as (-> & Hne & Hp). cbn [mbind result_bind].
    rewrite (proj2 (Z.eqb_neq _ _) Hne). cbn [negb].
    cbn [puts] in Hs. apply bind_Some in Hs as (s1 & Hs1 & Hs).
    destruct (leads_putchar sb s s1 ch w Hr Hcol) as (sb1 & w1 & -> & El & Hv1 & Hr1).
    { intros -> _. apply Hv. by left. }
    { done. }
    cbn [mbind result_bind]. pose proof (putchar_col s ch s1 Hs1 (rep_wf _ _ _ Hr) Hcol).
    destruct (IH (p + 1) sb1 s1 s' w1 fuel) as (sb' & w' & E & El' & Hv' & Hr'); try done.
    { cbn [length] in Hf. lia. }
    { intros Hin. apply Hv1, Hv. by right. }
    exists sb', w'. split; [done |]. split; [by rewrite El' |]. split; [auto | done].
Qed.

Lemma putstr_shows m p l sb s s' w :
  Str.cstr m p l -> shows sb w s -> (In 8 l -> 0 <= viewport sb) -> puts s l = Some s' ->
  exists sb' w', sb_putstr m p sb w = Ok (sb', w') /\ loaded sb' = loaded sb /\
    (0 <= viewport sb -> 0 <= viewport sb') /\ shows sb' w' s'.
Proof.
  intros Hp Hr Hv Hs. apply (putstr_loop_shows m l p sb s s' w); try done.
  by apply Str.cstr_fuel with p.
Qed.

(** ** Creating, loading and clearing *)

(** The empty screen. *)
Definition cleared (col : Z) : screen := mk_screen [blank] 0 0 col.

Lemma cleared_core sb col : color sb = col -> zlen (buf sb) = 16000 -> endbuf sb = 16000 ->
  top sb = 0 -> viewport sb = 0 -> cursor sb = 0 -> cursor_offset sb = 0 ->
  0 <= color sb < 256 -> (forall i, 0 <= i < 16000 -> at_ 0 (buf sb) i = SB_WHITESPACE) ->
  core 0 0 sb (cleared col).
Proof.
  intros <- Hl He Ht Hv Hcu Ho Hcol Hb. split; try done; try (cbn; lia).
  - by left.
  - by repeat constructor.
  - intros j k Hj Hk. rewrite Hb by dlia.
    assert (line (cleared (color sb)) j = blank) as ->; [| by rewrite blank_at].
    unfold line, cleared. cbn [sc_lines]. rewrite at_cons. destruct (Z.eqb_spec j 0); [done |].
    apply at_over. change (zlen []) with 0. lia.
Qed.

Lemma clear_buf b : zlen b = 16000 ->
  exists b', sb_memset b 0 SB_WHITESPACE (Z.to_nat (VGA_WIDTH * SB_HEIGHT)) = Ok b' /\
    zlen b' = 16000 /\ forall i, 0 <= i < 16000 -> at_ 0 b' i = SB_WHITESPACE.
Proof.
  intros Hl. change (VGA_WIDTH * SB_HEIGHT) with 16000.
  destruct (sb_memset_spec SB_WHITESPACE (Z.to_nat 16000) b 0) as (b' & E & Hl' & Hb); [done | lia |].
  exists b'. split; [exact E |]. split; [lia |]. intros i Hi. rewrite Hb by lia.
  by rewrite (proj2 (Z.leb_le 0 i)), (proj2 (Z.ltb_lt i _)) by lia.
Qed.

Lemma init_shows sb w : zlen (buf sb) = 16000 -> 16000 <= zlen (vga w) ->
  exists sb', sb_init sb = Ok sb' /\ loaded sb' = 0 /\ viewport sb' = 0 /\
    shows sb' w (cleared SB_DFL_COLOR).
Proof.
  intros Hl Hv. unfold sb_init. cbn [buf set_cursor set_viewport set_top].
  destruct (clear_buf (buf sb) Hl) as (b1 & -> & Hl1 & _). cbn [mbind result_bind buf].
  cbn [buf set_color set_buf].
  destruct (clear_buf b1 Hl1) as (b2 & -> & Hl2 & Hb2). cbn [mbind result_bind].
  eexists. split; [done |]. split; [done |]. split; [done |]. split; [| cbn; lia].
  exists 0, 0. split; try done. by apply cleared_core.
Qed.

Lemma load_shows sb w s : shows sb w s ->
  exists sb' w', sb_load sb w = Ok (sb', w') /\ loaded sb' = 1 /\
    viewport sb' = viewport sb /\ shows sb' w' s.
Proof.
  intros [(c & v & [Hc Hf Hv _]) Hcol].
  destruct (sync_rep c v (set_loaded sb 1) s w) as (w' & E & Hr); try done.
  { by destruct Hc. }
  unfold sb_load. cbn zeta. rewrite E. eexists _, w'. split; [done |].
  split; [done |]. split; [done |]. split; [by exists c, v | done].
Qed.

Lemma clear_shows sb w : zlen (buf sb) = 16000 -> endbuf sb = 16000 -> 0 <= color sb < 256 ->
  16000 <= zlen (vga w) ->
  exists sb' w', sb_clear sb w = Ok (sb', w') /\ loaded sb' = loaded sb /\ viewport sb' = 0 /\
    shows sb' w' (cleared (color sb)).
Proof.
  intros Hl He Hcol Hv. unfold sb_clear. cbn [buf set_cursor set_viewport set_top].
  destruct (clear_buf (buf sb) Hl) as (b1 & -> & Hl1 & Hb1). cbn [mbind result_bind].
  destruct (sync_rep 0 0 (set_buf (set_cursor (set_viewport (set_top sb 0) 0) 0 0) b1)
    (cleared (color sb)) w) as (w' & E & Hr).
  - by apply cleared_core.
  - done.
  - done.
  - rewrite E. eexists _, w'. split; [done |]. split; [done |]. split; [done |].
    split; [by exists 0, 0 | cbn; lia].
Qed.
End refinement.

(** ** Typing and erasing *)

(** The text of the current line ends at the cursor. *)
Definition tidy (s : screen) : Prop :=
  forall k, 0 <= k < 80 -> (at_ 0 (line s 0) k = SB_WHITESPACE <-> sc_col s <= k).

Lemma text_length_full l : (forall k, 0 <= k < zlen l -> at_ 0 l k <> SB_WHITESPACE) ->
  text_length l = zlen l.
Proof.
  unfold zlen. induction l as [| x l IH]; intros Hk; [done |]. cbn [text_length length] in *.
  pose proof (Hk 0 ltac:(lia)) as H0. rewrite at_cons in H0. cbn [Z.eqb] in H0.
  rewrite (proj2 (Z.eqb_neq _ _) H0), IH; [lia |]. intros k Hr.
  specialize (Hk (k + 1) ltac:(lia)). rewrite at_cons in Hk.
  destruct (Z.eqb_spec (k + 1) 0); [lia |]. by replace (k + 1 - 1) with k in Hk by lia.
Qed.

(** The low byte of the word of a character is the character. *)
Lemma char_word_visible s ch : -128 <= ch < 128 -> ch <> 0 -> char_word s ch <> SB_WHITESPACE.
Proof.
  intros Hch H0 E. apply (f_equal (fun x => x mod 256)) in E. unfold char_word in E.
  change 256 with (2 ^ 8) in E at 2. rewrite <- Z.land_ones, Z.land_lor_distr_l, !Z.land_ones in E by lia.
  change (SB_WHITESPACE mod 256) with 0 in E. change (2 ^ 8) with 256 in E.
  assert (u16 (sc_color s * 256) mod 256 = 0) as Ez by (unfold u16; dlia).
  rewrite Ez, Z.lor_0_r in E. unfold u16 in E. dlia.
Qed.

Lemma insert_undo (l : list Z) n x y : l !! n = Some y -> <[n := y]> (<[n := x]> l) = l.
Proof. intros. rewrite list_insert_insert_eq. by apply list_insert_id. Qed.

Lemma cell_lookup (l : list Z) k x : 0 <= k < zlen l -> at_ 0 l k = x -> l !! Z.to_nat k = Some x.
Proof.
  unfold at_, zlen. intros Hk. destruct (Z.ltb_spec k 0); [lia |].
  destruct (lookup_lt_is_Some_2 l (Z.to_nat k)) as [y ->]; [lia |]. cbn. by intros ->.
Qed.

Lemma put_then_erase s ch : tidy s -> Forall (fun l => zlen l = 80) (sc_lines s) ->
  1 <= zlen (sc_lines s) -> 0 <= sc_col s < 80 -> -128 <= ch < 128 -> ch <> 0 ->
  exists s', backspace (put_char s ch) = Some s' /\
    sc_lines s' = (if sc_col s =? 79 then take 199 (sc_lines s) else sc_lines s) /\
    sc_col s' = sc_col s /\ sc_color s' = sc_color s.
Proof.
  intros Ht Hw Hl Hcol Hch Hne. pose proof (char_word_visible s ch Hch Hne) as Hvis.
  unfold put_char. set (x := char_word s ch) in *. clearbody x.
  destruct s as [[| l0 ls] col view colr]; [done |]. cbn [sc_col sc_lines sc_color] in *.
  assert (zlen l0 = 80) as H0 by by apply List.Forall_cons_iff in Hw as [? _].
  unfold tidy, put_word, line in *. cbn [sc_lines sc_col] in *.
  change (at_ blank (l0 :: ls) 0) with l0 in *.
  assert (l0 !! Z.to_nat col = Some SB_WHITESPACE) as Hws
    by (apply cell_lookup; [lia | apply Ht; lia]).
  unfold wrap. cbn [with_col sc_col].
  destruct (Z.eqb_spec (col + 1) 80) as [E | E], (Z.eqb_spec col 79); try lia.
  - assert (text_length (<[Z.to_nat col := x]> l0) = 80) as Elen.
    { rewrite text_length_full; rewrite zlen_insert; [done |]. rewrite H0. intros k Hk.
      rewrite at_insert by lia. destruct (Z.eqb_spec k col); [done |].
      intros Hk'%Ht; lia. }
    set (l1 := <[Z.to_nat col := x]> l0) in *.
    assert (<[Z.to_nat (80 - 1) := SB_WHITESPACE]> l1 = l0) as Eback.
    { replace (80 - 1) with col by lia. by apply insert_undo. }
    unfold backspace, newline. cbn [sc_col sc_lines with_col].
    change (take NLINES (blank :: <[0%nat := l1]> (l0 :: ls))) with (blank :: l1 :: take 198 ls).
    change (0 =? 0) with true. cbn iota.
    rewrite (proj2 (Z.eqb_neq (zlen _) 1)) by (unfold zlen; cbn [length]; lia).
    unfold join, line. cbn [sc_lines].
    change (at_ blank (blank :: l1 :: take 198 ls) 0) with blank.
    change (at_ blank (blank :: l1 :: take 198 ls) 1) with l1. rewrite Elen.
    rewrite bool_decide_eq_true_2 by done. cbn [andb Z.ltb Z.compare fmap option_fmap option_map].
    eexists. split; [done |]. unfold erase, put_word, with_col, line. cbn [sc_lines sc_col sc_color].
    change (at_ blank (drop 1 (blank :: l1 :: take 198 ls)) 0) with l1. rewrite Eback.
    split; [done |]. split; [lia | done].
  - unfold backspace. cbn [sc_col with_col]. rewrite (proj2 (Z.eqb_neq (col + 1) 0)) by lia.
    eexists. split; [done |]. unfold erase, put_word, with_col, line. cbn [sc_lines sc_col sc_color].
    replace (col + 1 - 1) with col by lia. split; [| done].
    change (at_ blank (<[0%nat := ?l]> (l0 :: ls)) 0) with l.
    change (<[0%nat := ?a]> (<[0%nat := ?b]> (l0 :: ls))) with (a :: ls).
    by rewrite insert_undo.
Qed.

(** ** Properties *)

Section properties.
Context {D : Type} `{Device D}.
Implicit Types w : world D.

(** C3: [sb_putstr] writes a text: the circular buffer holds the last 200 lines of
    the screen, and while it is loaded the frame buffer shows the 25 lines of the
    window.  A text with a backspace needs a viewport inside of the buffer, and a
    backspace that does not join an empty line or leave text behind it. *)
Theorem sb_putstr_shows m p l sb s s' w :
  Str.cstr m p l -> shows sb w s -> (In 8 l -> 0 <= viewport sb) -> puts s l = Some s' ->
  exists sb' w', sb_putstr m p sb w = Ok (sb', w') /\ loaded sb' = loaded sb /\
    (0 <= viewport sb -> 0 <= viewport sb') /\ shows sb' w' s'.
Proof. apply putstr_shows. Qed.

(** C27: Scrolling moves the window by [n] lines or to its limit; after
    [sb_scroll_down] the line of the cursor is in the window, unless it was the line
    just below of it. *)
Theorem sb_scroll_shows sb s n w :
  shows sb w s -> -2147483648 < n < 2147483648 ->
  (exists sb' w', sb_scroll sb n w = Ok (sb', w') /\ shows sb' w' (scroll s n)) /\
  (exists sb' w', sb_scroll_top sb w = Ok (sb', w') /\ shows sb' w' (scroll_top s)) /\
  (exists sb' w', sb_scroll_down sb w = Ok (sb', w') /\ shows sb' w' (scroll_down s) /\
     (sc_view s <> 25 -> sc_view (scroll_down s) < 25) /\
     (sc_view s = 25 -> (sb', w') = (sb, w))).
Proof.
  intros [(c & v & Hr) Hcol] Hn. pose proof (r_core _ _ _ _ _ Hr) as Hc. split; [| split].
  - destruct (scroll_rep c v sb s n w Hr Hn) as (sb' & w' & v' & E & _ & Hr').
    exists sb', w'. split; [done |]. split; [by exists c, v' |].
    unfold scroll, scroll_top, scroll_down. by destruct (_ >=? _), (n <? 0).
  - destruct (scroll_top_rep c v sb s w Hc (r_vga _ _ _ _ _ Hr)) as (sb' & w' & v' & E & _ & _ & Hr').
    exists sb', w'. split; [done |]. split; [by exists c, v' | done].
  - destruct (scroll_down_rep c v sb s w Hr) as (sb' & w' & v' & E & _ & Hr').
    exists sb', w'. split; [done |]. split; [split; [by exists c, v' | done] |].
    unfold scroll_down. cbn [sc_view with_view]. destruct (Z.gtb_spec (sc_view s) 25); split; try lia.
    intros E25. unfold sb_scroll_down in E. rewrite (view_ldiff c v sb s Hc), E25 in E.
    by injection E as -> ->.
Qed.

(** A screen buffer is empty after [sb_init] and after [sb_clear], and loading
    one makes the frame buffer show it. *)
Theorem sb_start_shows sb s w :
  zlen (buf sb) = 16000 -> 16000 <= zlen (vga w) ->
  (exists sb', sb_init sb = Ok sb' /\ loaded sb' = 0 /\ shows sb' w (cleared SB_DFL_COLOR)) /\
  (shows sb w s -> exists sb' w', sb_load sb w = Ok (sb', w') /\ loaded sb' = 1 /\ shows sb' w' s) /\
  (endbuf sb = 16000 -> 0 <= color sb < 256 ->
     exists sb' w', sb_clear sb w = Ok (sb', w') /\ loaded sb' = loaded sb /\
       shows sb' w' (cleared (color sb))).
Proof.
  intros Hl Hv. split; [| split].
  - destruct (init_shows sb w Hl Hv) as (sb' & E & El & _ & Hs). by exists sb'.
  - intros Hs. destruct (load_shows sb w s Hs) as (sb' & w' & E & El & _ & Hs'). by exists sb', w'.
  - intros He Hc. destruct (clear_shows sb w Hl He Hc Hv) as (sb' & w' & E & El & _ & Hs').
    by exists sb', w'.
Qed.

(** C28: A backspace takes back a character, also the one that filled a line and
    started the next. *)
Theorem sb_backspace_undoes sb s ch w :
  shows sb w s -> 0 <= viewport sb -> tidy s -> -128 <= ch < 128 ->
  ch <> 0 -> ch <> 8 -> ch <> 9 -> ch <> 10 ->
  exists sb1 w1 sb2 w2 s2, sb_putchar sb ch w = Ok (sb1, w1) /\
    sb_putchar sb1 8 w1 = Ok (sb2, w2) /\ shows sb2 w2 s2 /\
    sc_lines s2 = (if sc_col s =? 79 then take 199 (sc_lines s) else sc_lines s) /\
    sc_col s2 = sc_col s.
Proof.
  intros [Hr Hcol] Hv Ht Hch H0 H8 H9 H10. pose proof (rep_wf _ _ _ Hr) as Hw.
  assert (1 <= zlen (sc_lines s)) as Hl
    by (destruct Hr as (c & v & Hr); apply (c_len _ _ _ _ (r_core _ _ _ _ _ Hr))).
  destruct (put_then_erase s ch Ht Hw Hl Hcol Hch H0) as (s2 & E2 & El & Ec & _).
  assert (putchar s ch = Some (put_char s ch)) as E1.
  { unfold putchar. by rewrite (proj2 (Z.eqb_neq ch 10)), (proj2 (Z.eqb_neq ch 9)), (proj2 (Z.eqb_neq ch 8)). }
  destruct (leads_putchar sb s _ ch w Hr Hcol ltac:(done) E1) as (sb1 & w1 & P1 & _ & Hv1 & Hr1).
  pose proof (putchar_col s ch _ E1 Hw Hcol) as Hcol1.
  destruct (leads_putchar sb1 (put_char s ch) s2 8 w1 Hr1 Hcol1 ltac:(auto) E2) as (sb2 & w2 & P2 & _ & _ & Hr2).
  exists sb1, w1, sb2, w2, s2. split; [done |]. split; [done |]. split; [| done].
  split; [done | lia].
Qed.

(** A backspace on an empty line behind another empty line writes outside of
    the buffer: the cursor goes to column 65535. *)
Theorem sb_backspace_overflows sb s w :
  shows sb w s -> 0 <= viewport sb -> 2 <= zlen (sc_lines s) -> sc_col s = 0 ->
  line s 0 = blank -> text_length (line s 1) = 0 ->
  sb_putchar sb 8 w = Err OutOfBounds.
Proof.
  intros [(c & v & Hr) _] Hv Hl Hcol Hb Hn.
  rewrite (c_viewport _ _ _ _ (r_core _ _ _ _ _ Hr)) in Hv.
  destruct (backspace_up c v sb s w Hr ltac:(lia) Hl Hcol Hb) as (sb1 & w1 & _ & _ & E & Hr1).
  unfold sb_putchar. change (8 =? 10) with false. change (8 =? 9) with false.
  change (8 =? 8) with true. cbn iota. rewrite E, Hn. unfold sb_write_word.
  cbn [cursor cursor_offset set_cursor buf]. change (u16 (0 - 1)) with 65535.
  pose proof (r_core _ _ _ _ _ Hr1) as Hc1. destruct (c_cursor _ _ _ _ Hc1) as [-> ?].
  by rewrite wr_out by (rewrite (c_buf _ _ _ _ Hc1); lia).
Qed.
End properties.

(** ** Witnesses *)

#[local] Instance no_device : Device unit :=
  { dev_in := fun _ d => (0, d); dev_out := fun _ _ d => d }.

Definition zero_sb : screenbuf := mk_screenbuf 0 0 0 0 0 0 0 (repeat 0 (Z.to_nat 16000)).
Definition zero_world : world unit := mk_world (repeat 0 (Z.to_nat 16000)) tt.

Lemma booted : exists sb w, shows (D := unit) sb w (cleared SB_DFL_COLOR) /\
  viewport sb = 0 /\ loaded sb = 1.
Proof.
  destruct (init_shows zero_sb zero_world) as (sb & _ & _ & Ev & Hs).
  1, 2: cbn [buf vga zero_sb zero_world]; unfold zlen; rewrite repeat_length; lia.
  destruct (load_shows sb zero_world _ Hs) as (sb' & w' & _ & El & Ev' & Hs').
  exists sb', w'. split; [done |]. split; [congruence | done].
Qed.

(** "Hi\n" *)
Definition example_text : list Z := [72; 105; 10; 0].

Lemma sb_putstr_shows_witness :
  exists sb w sb' w', sb_putstr example_text 0 sb w = Ok (sb', w') /\ loaded sb' = 1 /\
    at_ 0 (vga (D := unit) w') 1 = 0x0f69.
Proof.
  destruct booted as (sb & w & Hs & Ev & El).
  destruct (sb_putstr_shows example_text 0 [72; 105; 10] sb (cleared SB_DFL_COLOR) _ w
    ltac:(Str.string) Hs ltac:(lia) eq_refl) as (sb' & w' & E & El' & _ & [(c & v & Hr) _]).
  exists sb, w, sb', w'. split; [exact E |]. split; [lia |].
  rewrite <- (Z.add_0_l 1), <- (Z.mul_0_r 80). rewrite (r_shown _ _ _ _ _ Hr ltac:(lia)) by lia.
  reflexivity.
Defined.

Lemma sb_scroll_shows_witness :
  exists sb w sb' w', sb_scroll (D := unit) sb (-1) w = Ok (sb', w').
Proof.
  destruct booted as (sb & w & Hs & _).
  destruct (sb_scroll_shows sb _ (-1) w Hs ltac:(lia)) as [(sb' & w' & E & _) _].
  by exists sb, w, sb', w'.
Defined.

Lemma sb_start_shows_witness : exists sb, sb_init zero_sb = Ok sb /\ loaded sb = 0.
Proof.
  destruct (sb_start_shows zero_sb (cleared 0) zero_world) as [(sb & E & El & _) _].
  1, 2: cbn [buf vga zero_sb zero_world]; unfold zlen; rewrite repeat_length; lia.
  exists sb. exact (conj E El).
Defined.

Lemma sb_backspace_undoes_witness :
  exists sb w sb1 w1 sb2 w2 s, sb_putchar (D := unit) sb 65 w = Ok (sb1, w1) /\
    sb_putchar sb1 8 w1 = Ok (sb2, w2) /\ shows sb2 w2 s /\ sc_lines s = [blank].
Proof.
  destruct booted as (sb & w & Hs & Ev & _).
  destruct (sb_backspace_undoes sb _ 65 w Hs ltac:(lia)) as (sb1 & w1 & sb2 & w2 & s2 & E1 & E2 & H2 & Hl & _);
    try lia.
  { intros k Hk. change (line (cleared SB_DFL_COLOR) 0) with blank. rewrite blank_at by lia.
    cbn [cleared sc_col]. lia. }
  exists sb, w, sb1, w1, sb2, w2, s2. exact (conj E1 (conj E2 (conj H2 Hl))).
Defined.

Lemma sb_backspace_overflows_witness :
  exists sb w sb1 w1, sb_putstr [10; 0] 0 sb w = Ok (sb1, w1) /\
    sb_putchar (D := unit) sb1 8 w1 = Err OutOfBounds.
Proof.
  destruct booted as (sb & w & Hs & Ev & _).
  destruct (putstr_shows [10; 0] 0 [10] sb _ (newline (cleared SB_DFL_COLOR)) w
    ltac:(Str.string) Hs ltac:(lia) eq_refl) as (sb1 & w1 & E1 & _ & Hv & Hs1).
  exists sb, w, sb1, w1. split; [exact E1 |].
  apply (sb_backspace_overflows sb1 _ w1 Hs1); [lia | by vm_compute | done | done | done].
Defined.

End Screenbuf.
