(* ===== verification/Scrollback.v ===== *)
(** Scrolling back while the cursor is at the top of the circular buffer.

    sb_scroll_down puts the viewport 24 lines in front of the cursor without
    wrapping it around.  As long as the cursor does not move to a line before,
    nobody notices: [rep] of Screenbuf.v allows such a viewport, and the theorems
    there hold for it.  This file shows what happens when it does move, which
    takes a backspace that joins two lines. *)

From Stdlib Require Import ZArith Lia Bool.
From stdpp Require Import base tactics numbers list option.
From S2P Require Import Prelude Port Mem Str Screenbuf.

Local Open Scope Z_scope.

Module Scrollback.
Import Screenbuf.

(** ** The length of the frame buffer *)

Lemma copy_words_zlen b n : forall vg dst src vg',
  copy_words vg dst b src n = Ok vg' -> zlen vg' = zlen vg.
Proof.
  induction n as [| n IH]; intros vg dst src vg'; cbn [copy_words]; [by intros [= ->] |].
  unfold rd, wr. intros E. repeat case_match; simplify_eq/=; try done.
  rewrite (IH _ _ _ _ E). apply zlen_insert.
Qed.

Lemma text_length_cell l k : 0 <= k < text_length l -> at_ 0 l k <> SB_WHITESPACE.
Proof.
  revert k. induction l as [| x l IH]; intros k; cbn [text_length]; [lia |].
  destruct (Z.eqb_spec x SB_WHITESPACE) as [| Hx]; [lia |]. intros Hk.
  rewrite at_cons. destruct (Z.eqb_spec k 0); [done |]. apply IH. lia.
Qed.

Lemma for_loop_keeps {S} (P : S -> Prop) n body : forall i (s s' : S),
  (forall j t t', P t -> body j t = Ok t' -> P t') -> P s ->
  for_loop n i body s = Ok s' -> P s'.
Proof.
  induction n as [| n IH]; intros i s s' Hb Hs; cbn [for_loop]; [by intros [= <-] |].
  destruct (body i s) as [t |] eqn:E; [| done]. cbn [mbind result_bind].
  apply IH; [done |]. by apply Hb with i s.
Qed.

Section scrollback.
Context {D : Type} `{Device D}.
Implicit Types w : world D.

Lemma sync_zlen sb w w' : sb_sync sb w = Ok w' -> zlen (vga w') = zlen (vga w).
Proof.
  unfold sb_sync. destruct (negb (loaded sb =? 0)); [| by intros [= <-]].
  destruct (for_loop _ _ _ _) as [vg |] eqn:E; [| done]. intros [= <-]. cbn [vga].
  apply (for_loop_keeps (fun vg => zlen vg = zlen (vga w)) _ _ _ _ _) in E; [done | | done].
  intros j t t' Ht E'. destruct (sb_addline sb (viewport sb) j); [| done].
  apply copy_words_zlen in E'. congruence.
Qed.

(** sb_scroll_down with the cursor on the first line of the buffer. *)
Lemma scroll_down_front v sb s w :
  rep_at 0 v sb (vga w) s -> 25 < sc_view s ->
  exists w', sb_scroll_down sb w = Ok (set_viewport sb (80 * -24), w') /\
    zlen (vga w') = zlen (vga w) /\
    rep_at 0 (-24) (set_viewport sb (80 * -24)) (vga w') (with_view s 24).
Proof.
  intros [Hc Hf Hv Hs] H25. unfold sb_scroll_down.
  rewrite (view_ldiff 0 v sb s Hc). change VGA_HEIGHT with 25.
  destruct (Z.gtb_spec (sc_view s) 25); [| lia].
  destruct (c_cursor _ _ _ _ Hc) as [-> _].
  change (80 * 0 - VGA_WIDTH * (25 - 1)) with (80 * -24).
  destruct (sync_rep 0 (-24) (set_viewport sb (80 * -24)) (with_view s 24) w) as (w' & E & Hr).
  - pose proof (c_len _ _ _ _ Hc). apply set_viewport_core with v; [done | lia | lia | right; lia].
  - cbn [sc_view with_view]. lia.
  - done.
  - cbn zeta. rewrite E. exists w'. split; [done |]. split; [by apply sync_zlen in E | done].
Qed.

(** The buffer after the backspace: the cursor on the last line, the viewport
    in front of the buffer. *)
Definition joined (sb : screenbuf) (off : Z) : screenbuf :=
  set_buf (set_cursor sb (80 * 199) off)
    (<[Z.to_nat (80 * 199 + off) := SB_WHITESPACE]> (buf sb)).

Lemma joined_diff sb off : viewport sb = 80 * -24 ->
  sb_diff (joined sb off) (viewport (joined sb off)) (cursor (joined sb off)) = 80 * 223.
Proof. unfold sb_diff. cbn [joined viewport cursor set_buf set_cursor]. by intros ->. Qed.

Lemma backspace_front sb s w :
  rep_at 0 (-24) sb (vga w) s -> viewport sb = 80 * -24 -> 2 <= zlen (sc_lines s) ->
  sc_col s = 0 -> 0 < text_length (line s 1) ->
  sb_backspace sb w = Ok (joined sb (text_length (line s 1) - 1), w).
Proof.
  intros Hr Ev Hl Hcol Hn. pose proof (r_core _ _ _ _ _ Hr) as Hc.
  destruct (c_col _ _ _ _ Hc) as [Eo _]. rewrite Hcol in Eo.
  destruct (c_cursor _ _ _ _ Hc) as [Ecur _]. pose proof (c_len _ _ _ _ Hc) as Hlen.
  pose proof (text_length_bound (line s 1)) as Hb.
  rewrite (line_zlen s 1 (c_wf _ _ _ _ Hc)) in Hb.
  assert ((cursor sb =? top sb) = false) as Etop.
  { apply Z.eqb_neq. rewrite Ecur, (c_top _ _ _ _ Hc). dlia. }
  assert ((viewport sb =? cursor sb) = false) as Evc by (apply Z.eqb_neq; lia).
  unfold sb_backspace. rewrite Eo, Etop, Evc. cbn [Z.eqb andb mbind result_bind].
  rewrite Ecur, sb_addline_spec by apply Hc. cbn [mbind result_bind].
  pose proof (up_found 0 (-24) sb s w Hr Hl) as Ef. cbn [buf cursor set_cursor].
  change ((0 + -1) mod 200) with ((0 - 1) mod 200). rewrite Ef. cbn [mbind result_bind].
  change (80 * ((0 - 1) mod 200)) with (80 * 199). cbn [cursor_offset set_cursor].
  rewrite u16_small by lia. unfold sb_write_word. cbn [buf cursor cursor_offset set_cursor].
  rewrite wr_ok by (rewrite (c_buf _ _ _ _ Hc); lia). cbn [mbind result_bind].
  set (n := text_length (line s 1)) in *.
  match goal with |- context [set_buf ?a ?b] => change (set_buf a b) with (joined sb (n - 1)) end.
  rewrite joined_diff by done. rewrite Z.mul_comm, Z.quot_mul by done.
  change (223 <? VGA_HEIGHT) with false. by destruct (negb _).
Qed.

(** sb_regular behind it copies the character to line 223 of the display. *)
Lemma regular_far sb off ch w : loaded sb <> 0 -> viewport sb = 80 * -24 ->
  zlen (buf sb) = 16000 -> 0 <= off < 80 -> zlen (vga w) <= 80 * 223 ->
  sb_regular (joined sb off) ch w = Err OutOfBounds.
Proof.
  intros Hld Ev Hz Ho Hv. unfold sb_regular.
  cbn [joined buf cursor cursor_offset set_buf set_cursor].
  rewrite wr_ok by (rewrite zlen_insert; lia). cbn [mbind result_bind].
  rewrite u16_small by lia. cbn [loaded set_cursor set_buf joined].
  destruct (Z.eqb_spec (loaded sb) 0); [done |]. cbn [negb].
  cbn [copy_words cursor cursor_offset buf set_cursor set_buf joined viewport color].
  rewrite (rd_ok 0) by (rewrite zlen_insert, zlen_insert; lia). cbn [mbind result_bind].
  unfold sb_diff. cbn [endbuf set_cursor set_buf joined]. rewrite Ev.
  rewrite (proj2 (Z.leb_le (80 * -24) (80 * 199))) by lia.
  by rewrite wr_out by lia.
Qed.
End scrollback.

Section properties.
Context {D : Type} `{Device D}.
Implicit Types w : world D.

(** C29: A screen on display is scrolled back and the cursor is on the first line of
    the circular buffer.  sb_scroll_down followed by the backspace that joins
    that line with the one before erases the last character of the text, but
    not on the display, where it stays in row 23; the next ordinary character
    is written 223 lines behind the start of the frame buffer, outside of the
    memory of the display. *)
Theorem scrolled_backspace_leaves_vga sb s w ch :
  shows sb w s -> loaded sb <> 0 -> cursor sb = 0 -> 25 < sc_view s -> sc_col s = 0 ->
  0 < text_length (line s 1) ->
  exists sb1 w1 sb2 w2,
    sb_scroll_down sb w = Ok (sb1, w1) /\ sb_putchar sb1 8 w1 = Ok (sb2, w2) /\
    at_ 0 (buf sb2) (cursor sb2 + cursor_offset sb2) = SB_WHITESPACE /\
    cursor_offset sb2 = text_length (line s 1) - 1 /\
    at_ 0 (vga w2) (80 * 23 + cursor_offset sb2) <> SB_WHITESPACE /\
    (zlen (vga w) <= 80 * 223 -> ch <> 8 -> ch <> 9 -> ch <> 10 ->
     sb_putchar sb2 ch w2 = Err OutOfBounds).
Proof.
  intros [(c & v & Hr) _] Hld Hcur Hview Hcol Hn.
  pose proof (r_core _ _ _ _ _ Hr) as Hc. pose proof (c_len _ _ _ _ Hc) as Hlen.
  assert (c = 0) as -> by (destruct (c_cursor _ _ _ _ Hc); lia).
  destruct (scroll_down_front v sb s w Hr Hview) as (w1 & E1 & Hz & Hr1).
  set (sb1 := set_viewport sb (80 * -24)) in *.
  pose proof (backspace_front sb1 _ w1 Hr1 eq_refl ltac:(cbn; lia) Hcol Hn) as E2.
  change (line (with_view s 24) 1) with (line s 1) in E2.
  pose proof (text_length_bound (line s 1)) as Hb.
  rewrite (line_zlen s 1 (c_wf _ _ _ _ Hc)) in Hb.
  set (n := text_length (line s 1)) in *.
  pose proof (c_buf _ _ _ _ Hc) as Hbuf.
  exists sb1, w1. do 2 eexists. split; [exact E1 |]. split.
  { unfold sb_putchar. change (8 =? 10) with false. change (8 =? 9) with false.
    change (8 =? 8) with true. cbn iota. rewrite E2. reflexivity. }
  cbn [joined buf cursor cursor_offset set_buf set_cursor vga on_dev].
  split; [rewrite at_insert by (change (buf sb1) with (buf sb); lia);
          by rewrite (proj2 (Z.eqb_eq _ _)) |].
  split; [done |]. split.
  - rewrite (r_shown _ _ _ _ _ Hr1 Hld) by lia.
    apply (text_length_cell (line s 1)). fold n. lia.
  - intros Hvz H8 H9 H10. unfold sb_putchar.
    rewrite (proj2 (Z.eqb_neq ch 10)), (proj2 (Z.eqb_neq ch 9)), (proj2 (Z.eqb_neq ch 8)) by done.
    by rewrite regular_far by (done || lia || (cbn; lia)).
Qed.
End properties.

(** ** Witness *)

#[local] Instance no_device : Device unit :=
  { dev_in := fun _ d => (0, d); dev_out := fun _ _ d => d }.

(** 200 lines, an empty one behind one with the letter A, scrolled back by 100. *)
Definition letter : list Z := 0x0f41 :: replicate 79 SB_WHITESPACE.
Definition full : screen := mk_screen (blank :: letter :: replicate 198 blank) 0 100 15.
Definition full_sb : screenbuf := mk_screenbuf 80 8000 16000 0 0 15 1
  (replicate (Z.to_nat 15920) SB_WHITESPACE ++ letter).
Definition full_vga : list Z := replicate (Z.to_nat 16000) SB_WHITESPACE.

Lemma full_line j : line full j = if j =? 1 then letter else blank.
Proof.
  unfold line, full. cbn [sc_lines]. rewrite !at_cons.
  destruct (Z.eqb_spec j 0) as [-> |]; [done |].
  destruct (Z.eqb_spec (j - 1) 0), (Z.eqb_spec j 1); try lia; [done |].
  unfold at_. case_match; [done |].
  destruct (replicate 198 blank !! Z.to_nat (j - 1 - 1)) eqn:E; [| done].
  by apply lookup_replicate in E as [-> _].
Qed.

Lemma at_replicate n k : 0 <= k < Z.of_nat n -> at_ 0 (replicate n SB_WHITESPACE) k = SB_WHITESPACE.
Proof.
  intros. unfold at_. destruct (Z.ltb_spec k 0); [lia |]. by rewrite lookup_replicate_2 by lia.
Qed.

Lemma full_shown : shows (D := unit) full_sb (mk_world full_vga tt) full.
Proof.
  assert (zlen (sc_lines full) = 200) as Hz by reflexivity.
  split; [| cbn; lia]. exists 0, 100. split; [split | lia | |]; rewrite ?Hz;
    cbn [full_sb full top viewport cursor cursor_offset endbuf color sc_view sc_col sc_color];
    try dlia.
  - cbn [sc_lines full]. do 2 (constructor; [done |]). by apply Forall_replicate.
  - unfold zlen, full_sb. cbn [buf]. rewrite length_app, length_replicate. cbn. lia.
  - intros j k Hj Hk. rewrite full_line. unfold full_sb. cbn [buf].
    rewrite at_app by dlia. unfold zlen; rewrite length_replicate.
    destruct (Z.eqb_spec j 1) as [-> | Hne].
    + change (80 * ((0 - 1) mod 200)) with 15920.
      destruct (Z.ltb_spec (15920 + k) (Z.of_nat (Z.to_nat 15920))); [lia |]. f_equal. lia.
    + rewrite blank_at by done.
      destruct (Z.ltb_spec (80 * ((0 - j) mod 200) + k) (Z.of_nat (Z.to_nat 15920))); [| dlia].
      apply at_replicate. dlia.
  - unfold full_vga. cbn [vga]. unfold zlen; rewrite length_replicate. lia.
  - intros _ i k Hi Hk. rewrite full_line. cbn [sc_view full vga].
    destruct (Z.eqb_spec (100 - i) 1); [lia |]. rewrite blank_at by done.
    apply at_replicate. lia.
Qed.

Lemma scrolled_backspace_leaves_vga_witness :
  exists sb w sb2 w2, sb_putchar (D := unit) sb 8 w = Ok (sb2, w2) /\
    at_ 0 (vga w2) (80 * 23) <> SB_WHITESPACE /\ sb_putchar sb2 65 w2 = Err OutOfBounds.
Proof.
  destruct (scrolled_backspace_leaves_vga full_sb full (mk_world full_vga tt) 65 full_shown)
    as (sb1 & w1 & sb2 & w2 & _ & E & _ & Ho & Hv & Hp);
    [done | done | cbn; lia | done | by vm_compute |].
  change (text_length (line full 1) - 1) with 0 in Ho. rewrite Ho in Hv.
  exists sb1, w1, sb2, w2. split; [exact E |]. split; [exact Hv |].
  apply Hp; [| done | done | done]. unfold full_vga. cbn [vga]. unfold zlen; rewrite length_replicate. lia.
Defined.

End Scrollback.
