(* ===== verification/Typing.v ===== *)
(** Typing on the abstract screen of Screenbuf.v.

    A screen is [neat] when no line has a hole: the text of a line is followed by
    blanks only, and the text of the current line ends at the cursor.  With [low], the
    window also ends at the cursor's line, as long as nobody scrolled up.  Output of
    printing characters keeps a screen neat.  [wrapped ls k] says that the last [k]
    characters before the cursor follow each other without a line break in between,
    so that [k] backspaces take them back. *)

From Stdlib Require Import ZArith Lia Bool.
From stdpp Require Import base tactics numbers list option.
From S2P Require Import Prelude Port Mem Str Print Format Screenbuf.

Local Open Scope Z_scope.

Module Typing.
Import Screenbuf Format.

(** The first [n] cells of the line hold text, the others are blank. *)
Definition text_line (n : Z) (l : list Z) : Prop :=
  zlen l = 80 /\ 0 <= n <= 80 /\ forall k, 0 <= k < 80 -> (at_ 0 l k = SB_WHITESPACE <-> n <= k).

Record neat (low : bool) (s : screen) : Prop := mk_neat
  { n_lines : Forall (fun l => exists n, text_line n l) (sc_lines s);
    n_size : 1 <= zlen (sc_lines s) <= 200;
    n_tidy : text_line (sc_col s) (line s 0);
    n_col : 0 <= sc_col s < 80;
    n_view : low = true -> sc_view s <= 24 }.

(** The last [k] characters lie on the current line and full lines before it. *)
Fixpoint wrapped (ls : list (list Z)) (k : Z) : Prop :=
  match ls with
  | [] => k <= 0
  | l :: ls =>
      k <= text_length l \/
      (match ls with [] => False | l1 :: _ => text_length l1 = 80 end /\ wrapped ls (k - text_length l))
  end.

(** ** Lines *)

Lemma text_length_at l : forall n, 0 <= n <= zlen l ->
  (forall k, 0 <= k < n -> at_ 0 l k <> SB_WHITESPACE) ->
  (n < zlen l -> at_ 0 l n = SB_WHITESPACE) -> text_length l = n.
Proof.
  unfold zlen. induction l as [| x l IH]; intros n Hn Hk Hb; cbn [length text_length] in *; [lia |].
  destruct (Z.eq_dec n 0) as [-> | Hne].
  - specialize (Hb ltac:(lia)). rewrite at_cons in Hb. cbn [Z.eqb] in Hb. by rewrite Hb.
  - pose proof (Hk 0 ltac:(lia)) as H0. rewrite at_cons in H0. cbn [Z.eqb] in H0.
    rewrite (proj2 (Z.eqb_neq _ _) H0), (IH (n - 1)); [lia | lia | |].
    + intros k Hr. specialize (Hk (k + 1) ltac:(lia)). rewrite at_cons in Hk.
      destruct (Z.eqb_spec (k + 1) 0); [lia |]. by rewrite Z.add_simpl_r in Hk.
    + intros Hlt. specialize (Hb ltac:(lia)). rewrite at_cons in Hb.
      by destruct (Z.eqb_spec n 0).
Qed.

Lemma text_line_length n l : text_line n l -> text_length l = n.
Proof.
  intros (Hl & Hn & Hk). apply text_length_at; [lia | |].
  - intros k Hr E. apply Hk in E; lia.
  - intros Hlt. apply Hk; lia.
Qed.

Lemma text_line_blank : text_line 0 blank.
Proof. split; [done |]. split; [lia |]. intros k Hk. rewrite blank_at by done. split; [lia | done]. Qed.

Lemma text_line_empty l : text_line 0 l -> l = blank.
Proof.
  intros (Hl & _ & Hk). apply list_eq. intros i. unfold zlen in Hl.
  destruct (decide (i < 80)%nat) as [Hi | Hi].
    assert (l !! Z.to_nat (Z.of_nat i) = Some SB_WHITESPACE) as E
      by (apply cell_lookup; [unfold zlen; lia | apply Hk; lia]).
    rewrite Nat2Z.id in E. rewrite E. unfold blank. symmetry. by apply lookup_replicate_2.
  - rewrite !lookup_ge_None_2; [done | by unfold blank; rewrite length_replicate; lia | lia].
Qed.

(** A character behind the text. *)
Lemma text_line_put n l x : text_line n l -> n < 80 -> x <> SB_WHITESPACE ->
  text_line (n + 1) (<[Z.to_nat n := x]> l).
Proof.
  intros (Hl & Hn & Hk) Hlt Hx. split; [by rewrite zlen_insert |]. split; [lia |].
  intros k Hr. rewrite at_insert by lia. destruct (Z.eqb_spec k n); [split; [done | lia] |].
  rewrite Hk by done. lia.
Qed.

(** A blank instead of the last character. *)
Lemma text_line_erase n l : text_line n l -> 0 < n ->
  text_line (n - 1) (<[Z.to_nat (n - 1) := SB_WHITESPACE]> l).
Proof.
  intros (Hl & Hn & Hk) Hlt. split; [by rewrite zlen_insert |]. split; [lia |].
  intros k Hr. rewrite at_insert by lia. destruct (Z.eqb_spec k (n - 1)); [split; [lia | done] |].
  rewrite Hk by done. lia.
Qed.

(** ** Wrapped text *)

Lemma wrapped_nonpos ls k : k <= 0 -> wrapped ls k.
Proof. destruct ls as [| l ls]; [done |]. intros Hk. left. pose proof (text_length_bound l). lia. Qed.

(** Only the first lines matter. *)
Lemma wrapped_take_full m : forall l ls k, text_length l = 80 -> wrapped (l :: ls) k ->
  k <= 80 * Z.of_nat m -> (0 < m)%nat -> wrapped (take m (l :: ls)) k.
Proof.
  induction m as [| m IH]; intros l ls k Hl Hw Hk Hm; [lia |]. cbn [take wrapped] in *.
  destruct Hw as [Hw | [Hnext Hw]]; [by left |].
  destruct (Z.le_gt_cases k 80); [left; lia |]. right. destruct ls as [| l1 ls]; [done |].
  destruct m as [| m]; [lia |]. split; [done |].
  change (wrapped (take (S m) (l1 :: ls)) (k - text_length l)). apply IH; [done | done | lia | lia].
Qed.

Lemma wrapped_take m ls k : wrapped ls k -> k <= 80 * (Z.of_nat m - 1) -> (1 < m)%nat ->
  wrapped (take m ls) k.
Proof.
  intros Hw Hk Hm. destruct ls as [| l ls]; [by rewrite take_nil |]. destruct m as [| m]; [lia |].
  cbn [take wrapped] in *. destruct Hw as [Hw | [Hnext Hw]]; [by left |]. right.
  destruct ls as [| l1 ls]; [done |]. destruct m as [| m]; [lia |]. split; [done |].
  pose proof (text_length_bound l).
  change (wrapped (take (S m) (l1 :: ls)) (k - text_length l)).
  apply wrapped_take_full; [done | done | lia | lia].
Qed.

(** ** Output *)

Lemma newline_neat low s : neat low s -> neat low (newline s).
Proof.
  intros [Hl Hs Ht Hc Hv]. unfold newline.
  split; cbn [sc_lines sc_col sc_view line].
  - apply Forall_take. constructor; [exists 0; apply text_line_blank | done].
  - unfold zlen in *. rewrite length_take. cbn [length]. unfold NLINES. lia.
  - unfold line. cbn [sc_lines]. rewrite at_take by (unfold NLINES; lia). rewrite at_cons.
    apply text_line_blank.
  - lia.
  - intros Hlow. specialize (Hv Hlow). destruct (Z.eqb_spec (Z.min (sc_view s + 1) 199) 25); lia.
Qed.

Lemma put_char_spec low s c : neat low s -> -128 <= c < 128 -> c <> 0 ->
  neat low (put_char s c) /\
  forall k, k <= 1024 -> wrapped (sc_lines s) k -> wrapped (sc_lines (put_char s c)) (k + 1).
Proof.
  intros [Hl Hs Ht Hc Hv] Hch Hne. pose proof (char_word_visible s c Hch Hne) as Hx. unfold put_char.
  set (x := char_word s c) in *. clearbody x. destruct s as [[| l0 ls] col view clr]; [unfold zlen in Hs; cbn in Hs; lia |].
  unfold line, put_word in *. cbn [sc_lines sc_col sc_view sc_color insert list_insert] in *.
  unfold line in *. cbn [sc_lines] in *. change (at_ blank (l0 :: ls) 0) with l0 in *.
  pose proof (text_line_put col l0 x Ht ltac:(lia) Hx) as Ht'.
  pose proof (text_line_length _ _ Ht) as E0. pose proof (text_line_length _ _ Ht') as E1.
  set (l0' := <[Z.to_nat col := x]> l0) in *. clearbody l0'.
  apply List.Forall_cons_iff in Hl as [_ Hl].
  assert (zlen (l0' :: ls) = zlen (l0 :: ls)) as Ez by done.
  assert (forall k, wrapped (l0 :: ls) k -> wrapped (l0' :: ls) (k + 1)) as Hw.
  { intros k. cbn [wrapped]. rewrite E0, E1. intros [? | [? Hw]]; [left; lia | right].
    split; [done |]. by replace (k + 1 - (col + 1)) with (k - col) by lia. }
  unfold wrap. cbn [with_col sc_col sc_lines sc_view sc_color].
  destruct (Z.eqb_spec (col + 1) 80) as [E80 | N80].
  - split.
    + unfold newline. cbn [sc_lines sc_col sc_view sc_color with_col]. split; cbn [sc_lines sc_col sc_view].
      * apply Forall_take. constructor; [exists 0; apply text_line_blank |].
        constructor; [by exists (col + 1) | done].
      * unfold zlen in *. rewrite length_take. cbn [length] in *. unfold NLINES. lia.
      * unfold line. cbn [sc_lines]. rewrite at_take by (unfold NLINES; lia). rewrite at_cons.
        apply text_line_blank.
      * lia.
      * intros Hlow. specialize (Hv Hlow). destruct (Z.eqb_spec (Z.min (view + 1) 199) 25); lia.
    + intros k Hk Hwk. unfold newline. cbn [sc_lines with_col].
      apply wrapped_take; [| unfold NLINES; lia | unfold NLINES; lia]. right. split; [lia |].
      change (text_length blank) with 0. rewrite Z.sub_0_r. by apply Hw.
  - split; [| by intros k _; apply Hw].
    split; cbn [with_col sc_lines sc_col sc_view]; try done; try lia.
    constructor; [by exists (col + 1) | done].
Qed.

Lemma putchar_neat low s c s' : neat low s -> visible c -> putchar s c = Some s' -> neat low s'.
Proof.
  intros Hn Hc. unfold putchar, visible in *. destruct (Z.eqb_spec c 10).
  - intros [= <-]. by apply newline_neat.
  - destruct (Z.eqb_spec c 9); [lia |]. destruct (Z.eqb_spec c 8); [lia |]. intros [= <-].
    apply (put_char_spec low); [done | lia | lia].
Qed.

Lemma puts_neat low l : forall s s', neat low s -> Forall visible l -> puts s l = Some s' -> neat low s'.
Proof.
  induction l as [| c l IH]; intros s s' Hn Hl Hp; [by injection Hp as <- |].
  apply List.Forall_cons_iff in Hl as [Hc Hl]. cbn [puts] in Hp.
  apply bind_Some in Hp as (s1 & E1 & Hp). apply (IH s1); [| done | done].
  by apply (putchar_neat low s c).
Qed.

(** Text without a line break stays together. *)
Lemma puts_wrapped low l : forall s s' k, neat low s -> Forall (fun c => visible c /\ c <> 10) l ->
  puts s l = Some s' -> k + zlen l <= 1024 -> wrapped (sc_lines s) k ->
  wrapped (sc_lines s') (k + zlen l).
Proof.
  unfold zlen. induction l as [| c l IH]; intros s s' k Hn Hl Hp Hk Hw; cbn [length] in *.
  { injection Hp as <-. by rewrite Z.add_0_r. }
  apply List.Forall_cons_iff in Hl as [[Hc H10] Hl]. cbn [puts] in Hp.
  apply bind_Some in Hp as (s1 & E1 & Hp).
  replace (k + Z.of_nat (S (length l))) with (k + 1 + Z.of_nat (length l)) by lia.
  pose proof (putchar_neat low s c s1 Hn Hc E1) as Hn1. apply (IH s1); [done | done | done | lia |].
  unfold putchar, visible in *. destruct (Z.eqb_spec c 10); [lia |].
  destruct (Z.eqb_spec c 9); [lia |]. destruct (Z.eqb_spec c 8); [lia |]. injection E1 as <-.
  apply (put_char_spec low); [done | lia | lia | lia | done].
Qed.

(** ** Backspace *)

Lemma backspace_neat low s k : neat low s -> 1 <= k -> wrapped (sc_lines s) k ->
  exists s', backspace s = Some s' /\ neat low s' /\ wrapped (sc_lines s') (k - 1).
Proof.
  intros [Hl Hs Ht Hc Hv] Hk Hw. destruct s as [[| l0 ls] col view clr]; [unfold zlen in Hs; cbn in Hs; lia |].
  unfold line in *. cbn [sc_lines sc_col sc_view sc_color] in *.
  change (at_ blank (l0 :: ls) 0) with l0 in *. pose proof (text_line_length _ _ Ht) as E0.
  apply List.Forall_cons_iff in Hl as [_ Hl]. unfold backspace. cbn [sc_col sc_lines].
  destruct (Z.eqb_spec col 0) as [-> | Hne].
  - apply text_line_empty in Ht as ->. cbn [wrapped] in Hw. rewrite E0 in Hw.
    destruct Hw as [? | [Hfull Hw]]; [lia |]. destruct ls as [| l1 ls]; [done |].
    apply List.Forall_cons_iff in Hl as [(n1 & H1) Hl]. rewrite (text_line_length _ _ H1) in Hfull.
    subst n1. unfold zlen in Hs. cbn [length] in Hs.
    rewrite (proj2 (Z.eqb_neq _ 1)) by (unfold zlen; cbn [length]; lia).
    unfold join, line. cbn [sc_lines sc_view sc_color].
    change (at_ blank (blank :: l1 :: ls) 0) with blank. change (at_ blank (blank :: l1 :: ls) 1) with l1.
    rewrite (text_line_length _ _ H1), bool_decide_eq_true_2 by done. cbn [Z.ltb Z.compare andb fmap option_fmap option_map drop].
    eexists. split; [done |].
    unfold erase, put_word, with_col, line. cbn [sc_lines sc_col sc_view sc_color insert list_insert].
    change (at_ blank (l1 :: ls) 0) with l1. pose proof (text_line_erase 80 l1 H1 ltac:(lia)) as H1'.
    split; [split |]; cbn [sc_lines sc_col sc_view]; try done; try lia.
    + constructor; [by exists (80 - 1) | done].
    + unfold zlen. cbn [length]. lia.
    + intros Hlow. specialize (Hv Hlow). destruct (view =? 0) eqn:Ev; [lia |]. apply Z.eqb_neq in Ev. lia.
    + cbn [wrapped] in Hw |- *. rewrite Z.sub_0_r in Hw. rewrite (text_line_length _ _ H1) in Hw.
      rewrite (text_line_length _ _ H1'). destruct Hw as [? | [? Hw]]; [left; lia | right].
      split; [done |]. by replace (k - 1 - (80 - 1)) with (k - 80) by lia.
  - eexists. split; [done |]. unfold erase, put_word, with_col, line.
    cbn [sc_lines sc_col sc_view sc_color insert list_insert]. change (at_ blank (l0 :: ls) 0) with l0.
    pose proof (text_line_erase col l0 Ht ltac:(lia)) as Ht'.
    split; [split |]; cbn [sc_lines sc_col sc_view]; try done; try lia.
    + constructor; [by exists (col - 1) | done].
    + cbn [wrapped] in Hw |- *. rewrite E0 in Hw. rewrite (text_line_length _ _ Ht').
      destruct Hw as [? | [? Hw]]; [left; lia | right]. split; [done |].
      by replace (k - 1 - (col - 1)) with (k - col) by lia.
Qed.

(** ** The other operations *)

Lemma scroll_down_low s : neat true s -> scroll_down s = s.
Proof.
  intros Hn. unfold scroll_down, with_view. destruct s as [ls col v clr]. cbn [sc_view sc_lines sc_col sc_color].
  destruct (Z.gtb_spec v 25); [| done]. pose proof (n_view _ _ Hn eq_refl). cbn in *. lia.
Qed.

Lemma scroll_down_neat low s : neat low s -> neat low (scroll_down s).
Proof.
  intros [Hl Hs Ht Hc Hv]. split; try done. intros Hlow. specialize (Hv Hlow).
  unfold scroll_down, with_view. cbn [sc_view]. destruct (Z.gtb_spec (sc_view s) 25); lia.
Qed.

(** Any window is good enough for a screen that may be scrolled up. *)
Lemma with_view_neat low s v : neat low s -> neat false (with_view s v).
Proof. by intros [Hl Hs Ht Hc Hv]. Qed.

Lemma recolor_neat low s c : neat low s -> neat low (mk_screen (sc_lines s) (sc_col s) (sc_view s) c).
Proof. by intros [Hl Hs Ht Hc Hv]. Qed.

Lemma cleared_neat low c : neat low (cleared c).
Proof.
  split; cbn [cleared sc_lines sc_col sc_view]; try lia.
  - constructor; [exists 0; apply text_line_blank | constructor].
  - unfold zlen. cbn. lia.
  - apply text_line_blank.
Qed.

End Typing.
