(* ===== verification/Console.v ===== *)
(** The console: what kernel.c, print.c and isr.c do with the screen buffers.

    kernel.c declares the array [sb] and the pointer [sb_current]; every
    kprintf writes to the screen buffer it points to.  String literals are
    written with [str]; a call of kprintf finds its format behind the memory
    [m] of its caller ([lit]). *)

From Stdlib Require Import Ascii String.
From Stdlib Require Import ZArith Lia Bool.
From stdpp Require Import base tactics numbers list option.
From S2P Require Import Prelude Port Mem Str Print Screenbuf.

Local Open Scope Z_scope.

(** ** String literals *)

Definition str (s : String.string) : list Z :=
  map (fun c => Z.of_nat (nat_of_ascii c)) (list_ascii_of_string s).
Arguments str s%_string.
Definition nl : list Z := [10].

Module Console.
Import Screenbuf.

(** [m] with the literal [s] behind it, at address [zlen m]. *)
Definition lit (m s : list Z) : list Z := m ++ s ++ [0].

(** [sb], [sb_current] (as an index) and what the screen buffers share. *)
Record console (D : Type) : Type := mk_console
  { sb : list screenbuf; sb_current : Z; shared : world D }.
Arguments mk_console {D} sb sb_current shared.
Arguments sb {D} c.
Arguments sb_current {D} c.
Arguments shared {D} c.

(** struct interrupt_frame of idt_internal.h *)
Record t_int_frame : Type := mk_int_frame { eip : Z; cs : Z; flags : Z; sp : Z; ss : Z }.

Section code.
Context {D : Type} `{Device D}.
Implicit Types c : console D.

(** A call with [sb_current]. *)
Definition on_current (f : screenbuf -> world D -> result (screenbuf * world D)) c
    : result (console D) :=
  b ← rd (sb c) (sb_current c);
  '(b, w) ← f b (shared c);
  l ← wr (sb c) (sb_current c) b;
  Ok (mk_console l (sb_current c) w).

Definition set_on_current (f : screenbuf -> screenbuf) c : result (console D) :=
  on_current (fun b w => Ok (f b, w)) c.
Definition get_color c : result Z := b ← rd (sb c) (sb_current c); Ok (sb_get_color b).

(** kprintf; no caller uses its result. *)
Definition kprintf (m fmt : list Z) (ap : list Z) c : result (console D) :=
  '(_, b) ← Print.kprintf (lit m fmt) (zlen m) ap;
  on_current (sb_putstr b 0) c.

(** ** isr.c *)

(** [frame] is the address of the structure [f]. *)
Definition print_int_frame (frame : Z) (f : t_int_frame) (errcode : option Z) c
    : result (console D) :=
  c ← kprintf [] (str "frame interupt: %p" ++ nl) [frame] c;
  c ← kprintf [] (str "     eip: %x" ++ nl) [eip f] c;
  c ← kprintf [] (str "      cs: %x" ++ nl) [cs f] c;
  c ← kprintf [] (str "     flg: %x" ++ nl) [flags f] c;
  c ← kprintf [] (str "      sp: %x" ++ nl) [sp f] c;
  c ← kprintf [] (str "      ss: %x" ++ nl) [ss f] c;
  match errcode with
  | Some e => kprintf [] (str "     err: %x" ++ nl) [e] c
  | None => Ok c
  end.

Definition divide_error_handler (frame : Z) (f : t_int_frame) c : result (console D) :=
  c ← kprintf [] (str "DIVIDE ERROR" ++ nl) [] c;
  print_int_frame frame f None c.

Definition overflow_handler (frame : Z) (f : t_int_frame) c : result (console D) :=
  c ← kprintf [] (str "OVERFLOW" ++ nl) [] c;
  print_int_frame frame f None c.

(** The handler halts behind its output. *)
Definition double_fault_handler (frame : Z) (f : t_int_frame) (error_code : Z) c
    : result (console D) :=
  c ← kprintf [] (str "DOUBLE FAULT" ++ nl) [] c;
  print_int_frame frame f (Some error_code) c.
End code.

(** ** Literals *)

(** The characters of a terminal: 7-bit and not the terminator. *)
Definition plain (c : Z) : Prop := 0 < c < 128.
#[export] Instance plain_dec c : Decision (plain c).
Proof. unfold plain. apply _. Defined.

Lemma plain_i8 c : plain c -> i8 c = c.
Proof. unfold plain. intros. ints. rewrite Z.mod_small by lia. by destruct (Z.ltb_spec c 128); [| lia]. Qed.

Lemma cstr_cells m s : forall p, 0 <= p -> Forall plain s -> p + zlen s < zlen m ->
  (forall k, 0 <= k < zlen s -> at_ 0 m (p + k) = at_ 0 s k) -> at_ 0 m (p + zlen s) = 0 ->
  Str.cstr m p s.
Proof.
  unfold zlen. induction s as [| c s IH]; intros p Hp Hs Hin Hc H0; cbn [length] in *.
  - apply Str.cstr_nil. rewrite Str.rdc_ok by (unfold zlen; lia).
    rewrite Z.add_0_r in H0. by rewrite H0.
  - apply List.Forall_cons_iff in Hs as [Hpl Hs].
    apply Str.cstr_cons; [| unfold plain in Hpl; lia |].
    + rewrite Str.rdc_ok by (unfold zlen; lia). pose proof (Hc 0 ltac:(lia)) as E.
      rewrite Z.add_0_r in E. rewrite E, at_cons. cbn [Z.eqb]. by rewrite plain_i8.
    + apply IH; [lia | done | lia | |].
      * intros k Hk. replace (p + 1 + k) with (p + (k + 1)) by lia. rewrite Hc by lia.
        rewrite at_cons. destruct (Z.eqb_spec (k + 1) 0); [lia |]. f_equal. lia.
      * replace (p + 1 + Z.of_nat (length s)) with (p + Z.of_nat (S (length s))) by lia. done.
Qed.

Lemma lit_cstr m s : Forall plain s -> Str.cstr (lit m s) (zlen m) s.
Proof.
  intros Hs. pose proof (zlen_nonneg m). pose proof (zlen_nonneg s).
  apply cstr_cells; [lia | done | | |]; unfold lit; rewrite ?zlen_app.
  - change (zlen [0]) with 1. lia.
  - intros k Hk. rewrite at_app by lia. destruct (Z.ltb_spec (zlen m + k) (zlen m)); [lia |].
    replace (zlen m + k - zlen m) with k by lia. apply Print.at_app_l. lia.
  - rewrite at_app by lia. destruct (Z.ltb_spec (zlen m + zlen s) (zlen m)); [lia |].
    replace (zlen m + zlen s - zlen m) with (zlen s) by lia. rewrite at_app by lia.
    destruct (Z.ltb_spec (zlen s) (zlen s)); [lia |]. by rewrite Z.sub_diag.
Qed.

Section consoles.
Context {D : Type} `{Device D}.
Implicit Types c : console D.

(** The screens of a console: exactly the current one is loaded. *)
Record console_ok c (ss : list screen) : Prop := mk_console_ok
  { ok_length : length (sb c) = length ss;
    ok_current : 0 <= sb_current c < zlen ss;
    ok_shows : forall i b s, sb c !! i = Some b -> ss !! i = Some s ->
      shows b (shared c) s /\ (loaded b <> 0 <-> Z.of_nat i = sb_current c) }.

Lemma rep_unloaded b vg vg' s : rep b vg s -> loaded b = 0 -> 16000 <= zlen vg' -> rep b vg' s.
Proof. intros (l & v & [Hc Hf Hv _]) H0 Hv'. exists l, v. by split. Qed.

Lemma rep_vga b vg s : rep b vg s -> 16000 <= zlen vg.
Proof. intros (l & v & Hr). apply (r_vga _ _ _ _ _ Hr). Qed.

Lemma current_lookup c ss : console_ok c ss ->
  exists b s, sb c !! Z.to_nat (sb_current c) = Some b /\ ss !! Z.to_nat (sb_current c) = Some s /\
    rd (sb c) (sb_current c) = Ok b /\ shows b (shared c) s /\ loaded b <> 0.
Proof.
  intros [Hl Hc Hs]. unfold zlen in Hc.
  destruct (lookup_lt_is_Some_2 ss (Z.to_nat (sb_current c))) as [s Es]; [lia |].
  destruct (lookup_lt_is_Some_2 (sb c) (Z.to_nat (sb_current c))) as [b Eb]; [lia |].
  exists b, s. destruct (Hs _ b s Eb Es) as [Hsh Hld]. repeat split; try done; try apply Hsh.
  - unfold rd. destruct (Z.ltb_spec (sb_current c) 0); [lia |]. by rewrite Eb.
  - apply Hld. lia.
Qed.

(** All viewports lie inside of their buffers. *)
Definition front c : Prop := forall i b, sb c !! i = Some b -> 0 <= viewport b.

Lemma on_current_front f c c' : on_current f c = Ok c' ->
  (forall b b' w, sb c !! Z.to_nat (sb_current c) = Some b -> f b (shared c) = Ok (b', w) ->
     0 <= viewport b -> 0 <= viewport b') ->
  front c -> front c'.
Proof.
  unfold on_current. intros E Hf Hc. apply bind_inv in E as (b & Hb & E).
  apply bind_inv in E as ([b' w] & Ef & E). apply bind_inv in E as (l & Hl & [= <-]).
  unfold rd in Hb. destruct (sb_current c <? 0); [done |].
  destruct (sb c !! Z.to_nat (sb_current c)) as [b0 |] eqn:Eb; [| done]. injection Hb as ->.
  unfold wr in Hl. destruct (_ && _); [| done]. injection Hl as <-.
  intros i b1 Hi. cbn [sb] in Hi. destruct (decide (i = Z.to_nat (sb_current c))) as [-> | Hne].
  - rewrite list_lookup_insert_eq in Hi by (by apply lookup_lt_Some in Eb). injection Hi as <-.
    apply (Hf b b' w eq_refl Ef). by apply (Hc (Z.to_nat (sb_current c))).
  - rewrite list_lookup_insert_ne in Hi by done. by apply (Hc i).
Qed.

(** An operation on the current screen. *)
Lemma on_current_ok f c ss s' : console_ok c ss ->
  (forall b s, sb c !! Z.to_nat (sb_current c) = Some b -> ss !! Z.to_nat (sb_current c) = Some s ->
     shows b (shared c) s -> exists b' w', f b (shared c) = Ok (b', w') /\ loaded b' = loaded b /\
       shows b' w' s') ->
  exists c', on_current f c = Ok c' /\ sb_current c' = sb_current c /\
    console_ok c' (<[Z.to_nat (sb_current c) := s']> ss) /\
    exists b b', sb c !! Z.to_nat (sb_current c) = Some b /\
      f b (shared c) = Ok (b', shared c') /\ sb c' !! Z.to_nat (sb_current c) = Some b'.
Proof.
  intros Hok Hf. destruct (current_lookup c ss Hok) as (b & s & Eb & Es & Hrd & Hsh & Hld).
  destruct (Hf b s Eb Es Hsh) as (b' & w' & E & El & Hsh'). destruct Hok as [Hl Hc Hs].
  unfold on_current. rewrite Hrd. cbn [mbind result_bind]. rewrite E. cbn [mbind result_bind].
  rewrite wr_ok by (unfold zlen in *; lia). cbn [mbind result_bind].
  eexists. split; [done |]. split; [done |]. unfold zlen in *.
  split; [split; cbn [sb sb_current shared] |].
  - by rewrite !length_insert.
  - unfold zlen. by rewrite length_insert.
  - intros i b0 s0 Hb0 Hs0. destruct (decide (i = Z.to_nat (sb_current c))) as [-> | Hne].
    + rewrite list_lookup_insert_eq in Hb0 by lia. rewrite list_lookup_insert_eq in Hs0 by lia. injection Hb0 as <-. injection Hs0 as <-.
      split; [done |]. rewrite El. split; [lia | done].
    + rewrite list_lookup_insert_ne in Hb0 by done. rewrite list_lookup_insert_ne in Hs0 by done.
      destruct (Hs i b0 s0 Hb0 Hs0) as [[Hr Hcol] Hi]. split; [| done]. split; [| done].
      apply rep_unloaded with (vga (shared c)); [done | | apply (rep_vga b' _ s'), Hsh'].
      destruct (Z.eq_dec (loaded b0) 0); [done | lia].
  - exists b, b'. split; [done |]. split; [done |]. cbn [sb]. apply list_lookup_insert_eq. lia.
Qed.

(** The text a call of kprintf writes to the current screen. *)
Lemma kprintf_ok m fmt ap text c ss s s' : console_ok c ss ->
  ss !! Z.to_nat (sb_current c) = Some s ->
  Forall plain fmt ->
  Forall (fun a => match a with Print.Int _ => True | Print.Text p t => Str.cstr (lit m fmt) p t end) ap ->
  Print.render fmt 0 ap = Some text -> zlen text <= 4095 -> Forall plain text ->
  (In 8 text -> forall b, sb c !! Z.to_nat (sb_current c) = Some b -> 0 <= viewport b) ->
  puts s text = Some s' ->
  exists c', kprintf m fmt (map Print.arg_val ap) c = Ok c' /\ sb_current c' = sb_current c /\
    console_ok c' (<[Z.to_nat (sb_current c) := s']> ss) /\ (front c -> front c').
Proof.
  intros Hok Es Hfmt Hap Hr Hlen Htext Hv Hputs. unfold kprintf.
  destruct (Print.kprintf_spec (lit m fmt) (zlen m) fmt ap text (lit_cstr m fmt Hfmt) Hap Hr Hlen)
    as (b & -> & Hb & Hcells). cbn [mbind result_bind].
  change Print.BUFSIZE with 4096 in *. pose proof (zlen_nonneg text).
  assert (Str.cstr b 0 text) as Hstr.
  { apply cstr_cells; [done | done | lia | |].
    - intros k Hk. rewrite Z.add_0_l. apply Hcells. lia.
    - rewrite Z.add_0_l, Hcells by lia. by apply at_over. }
  assert (forall b0, sb c !! Z.to_nat (sb_current c) = Some b0 -> shows b0 (shared c) s ->
    exists b' w', sb_putstr b 0 b0 (shared c) = Ok (b', w') /\ loaded b' = loaded b0 /\
      (0 <= viewport b0 -> 0 <= viewport b') /\ shows b' w' s') as Hput
    by (intros b0 Hb0 Hsh; apply (putstr_shows b 0 text b0 s s' (shared c) Hstr Hsh); auto).
  destruct (on_current_ok (sb_putstr b 0) c ss s' Hok) as (c' & E & Ec & Hok' & _).
  - intros b0 s0 Hb0 Hs0 Hsh. rewrite Es in Hs0. injection Hs0 as <-.
    destruct (Hput b0 Hb0 Hsh) as (b' & w' & E & El & _ & Hsh'). by exists b', w'.
  - exists c'. split; [done |]. split; [done |]. split; [done |].
    apply (on_current_front _ _ _ E). intros b0 b1 w Hb0 Ef.
    destruct (current_lookup c ss Hok) as (b2 & s2 & Hb2 & Es2 & _ & Hsh & _).
    rewrite Hb0 in Hb2. injection Hb2 as <-. rewrite Es in Es2. injection Es2 as <-.
    destruct (Hput b0 Hb0 Hsh) as (b' & w' & E' & _ & Hfr & _). rewrite Ef in E'. injection E' as <- _. done.
Qed.

(** A change of the colour. *)
Lemma set_color_ok f c ss s col : console_ok c ss -> ss !! Z.to_nat (sb_current c) = Some s ->
  0 <= col < 256 -> (forall b, color b = sc_color s -> f b = set_color b col) ->
  exists c', set_on_current f c = Ok c' /\ sb_current c' = sb_current c /\
    console_ok c' (<[Z.to_nat (sb_current c) :=
      mk_screen (sc_lines s) (sc_col s) (sc_view s) col]> ss) /\ (front c -> front c').
Proof.
  intros Hok Es Hcol Hf.
  destruct (on_current_ok (fun b w => Ok (f b, w)) c ss (mk_screen (sc_lines s) (sc_col s) (sc_view s) col) Hok)
    as (c' & E & Ec & Hok' & _).
  - intros b s0 Hb Hs0 [(l & v & [Hc Hfr Hv Hsh]) Hsc]. rewrite Es in Hs0. injection Hs0 as <-.
    rewrite Hf by apply Hc. eexists _, _. split; [done |]. split; [done |]. split; [| done].
    exists l, v. split; try done. by destruct Hc.
  - exists c'. split; [done |]. split; [done |]. split; [done |]. apply (on_current_front _ _ _ E).
    intros b b' w Hb [= <- _].
    destruct (current_lookup c ss Hok) as (b2 & s2 & Hb2 & Es2 & _ & [(l & v & [Hc _ _ _]) _] & _).
    rewrite Hb in Hb2. injection Hb2 as <-. rewrite Es in Es2. injection Es2 as <-.
    rewrite Hf; [done | apply Hc].
Qed.

Lemma get_color_ok c ss s : console_ok c ss -> ss !! Z.to_nat (sb_current c) = Some s ->
  get_color c = Ok (sc_color s) /\ 0 <= sc_color s < 256.
Proof.
  intros Hok Es. destruct (current_lookup c ss Hok) as (b & s0 & _ & Es0 & Hrd & [(l & v & Hr) _] & _).
  rewrite Es in Es0. injection Es0 as <-. unfold get_color. rewrite Hrd. cbn [mbind result_bind]. unfold sb_get_color.
  destruct (c_color _ _ _ _ (r_core _ _ _ _ _ Hr)) as [-> ?]. done.
Qed.

(** ** Switching *)

(** Between an unload and a load no screen buffer is loaded. *)
Record none_loaded c (ss : list screen) : Prop := mk_none_loaded
  { nl_length : length (sb c) = length ss;
    nl_shows : forall i b s, sb c !! i = Some b -> ss !! i = Some s ->
      shows b (shared c) s /\ loaded b = 0 }.

Lemma unload_ok c ss : console_ok c ss ->
  exists c', on_current (fun b w => Ok (sb_unload b, w)) c = Ok c' /\ none_loaded c' ss /\
    sb_current c' = sb_current c.
Proof.
  intros Hok. destruct (current_lookup c ss Hok) as (b & s & Eb & Es & Hrd & Hsh & _).
  destruct Hok as [Hl Hc Hs]. unfold zlen in Hc. unfold on_current. rewrite Hrd.
  cbn [mbind result_bind]. rewrite wr_ok by (unfold zlen; lia). cbn [mbind result_bind].
  eexists. split; [done |]. split; [| done]. split; cbn [sb shared]; [by rewrite length_insert |].
  intros i b0 s0 Hb0 Hs0. destruct (decide (i = Z.to_nat (sb_current c))) as [-> | Hne].
  - rewrite list_lookup_insert_eq in Hb0 by lia. injection Hb0 as <-. rewrite Es in Hs0.
    injection Hs0 as <-. split; [| done]. destruct Hsh as [(l & v & [Hcore Hf Hv _]) Hcol].
    split; [| done]. exists l, v. split; try done. by destruct Hcore.
  - rewrite list_lookup_insert_ne in Hb0 by done. destruct (Hs i b0 s0 Hb0 Hs0) as [Hsh0 Hld].
    split; [done |]. destruct (Z.eq_dec (loaded b0) 0); [done | lia].
Qed.

Lemma load_ok c ss cur : none_loaded c ss -> 0 <= cur < zlen ss ->
  exists c', on_current sb_load (mk_console (sb c) cur (shared c)) = Ok c' /\ console_ok c' ss /\
    sb_current c' = cur.
Proof.
  intros [Hl Hs] Hc. unfold zlen in Hc.
  destruct (lookup_lt_is_Some_2 ss (Z.to_nat cur)) as [s Es]; [lia |].
  destruct (lookup_lt_is_Some_2 (sb c) (Z.to_nat cur)) as [b Eb]; [lia |].
  destruct (Hs _ b s Eb Es) as [Hsh Hld].
  destruct (load_shows b (shared c) s Hsh) as (b' & w' & E & El & _ & Hsh').
  unfold on_current. cbn [sb sb_current shared].
  replace (rd (sb c) cur) with (Ok b)
    by (unfold rd; destruct (Z.ltb_spec cur 0); [lia | by rewrite Eb]).
  cbn [mbind result_bind]. rewrite E. cbn [mbind result_bind].
  rewrite wr_ok by (unfold zlen; lia). cbn [mbind result_bind].
  eexists. split; [done |]. split; [| done]. split; cbn [sb sb_current shared]; [by rewrite length_insert | unfold zlen; lia |].
  intros i b0 s0 Hb0 Hs0. destruct (decide (i = Z.to_nat cur)) as [-> | Hne].
  - rewrite list_lookup_insert_eq in Hb0 by lia. injection Hb0 as <-. rewrite Es in Hs0.
    injection Hs0 as <-. split; [done | lia].
  - rewrite list_lookup_insert_ne in Hb0 by done. destruct (Hs i b0 s0 Hb0 Hs0) as [[Hr Hcol] Hld0].
    split; [| lia]. split; [| done]. apply rep_unloaded with (vga (shared c)); [done | done |].
    apply (rep_vga b' _ s), Hsh'.
Qed.
End consoles.

(** ** Properties *)

Section properties.
Context {D : Type} `{Device D}.

(** C30: A call of kprintf writes the text of its format and arguments to the
    current screen, and the frame buffer shows it; the other screens keep their
    contents. *)
Theorem kprintf_shows m fmt ap text (c : console D) ss s s' : console_ok c ss ->
  ss !! Z.to_nat (sb_current c) = Some s ->
  Forall plain fmt ->
  Forall (fun a => match a with Print.Int _ => True | Print.Text p t => Str.cstr (lit m fmt) p t end) ap ->
  Print.render fmt 0 ap = Some text -> zlen text <= 4095 -> Forall plain text ->
  (In 8 text -> forall b, sb c !! Z.to_nat (sb_current c) = Some b -> 0 <= viewport b) ->
  puts s text = Some s' ->
  exists c', kprintf m fmt (map Print.arg_val ap) c = Ok c' /\ sb_current c' = sb_current c /\
    console_ok c' (<[Z.to_nat (sb_current c) := s']> ss).
Proof.
  intros Hok Es Hf Ha Hr Hl Hp Hv Hs.
  destruct (kprintf_ok m fmt ap text c ss s s' Hok Es Hf Ha Hr Hl Hp Hv Hs) as (c' & ? & ? & ? & _).
  by exists c'.
Qed.
End properties.

#[local] Existing Instance no_device.

Lemma booted_console : exists c, console_ok (D := unit) c [cleared SB_DFL_COLOR] /\
  sb_current c = 0 /\ forall b, sb c !! 0%nat = Some b -> viewport b = 0.
Proof.
  destruct booted as (b & w & Hs & Ev & El). exists (mk_console [b] 0 w).
  split; [split; [done | done |] | split; [done |]]; cbn [sb sb_current shared].
  - intros [| i] b0 s0 Hb Hs0; [| done]. injection Hb as <-. injection Hs0 as <-. split; [done | lia].
  - intros b0 Hb. by injection Hb as <-.
Qed.

(** Two screens, as kernel.c has them. *)
Lemma two_consoles : exists c, console_ok (D := unit) c [cleared SB_DFL_COLOR; cleared SB_DFL_COLOR] /\
  sb_current c = 0.
Proof.
  destruct (init_shows zero_sb zero_world) as (b & _ & El & _ & Hs).
  1, 2: cbn [buf vga zero_sb zero_world]; unfold zlen; rewrite repeat_length; lia.
  destruct (load_ok (mk_console [b; b] 0 zero_world) [cleared SB_DFL_COLOR; cleared SB_DFL_COLOR] 0)
    as (c & _ & Hok & Ec); [| by vm_compute |].
  - split; [done |]. intros [| [| i]] b0 s0 Hb Hs0; try done; injection Hb as <-; by injection Hs0 as <-.
  - by exists c.
Qed.

(** kprintf("%s=%d", "n", -7) *)
Lemma kprintf_shows_witness : exists c c' : console unit,
  kprintf (str "n" ++ [0]) (str "%s=%d") [0; -7] c = Ok c' /\ sb_current c' = 0.
Proof.
  destruct booted_console as (c & Hok & E0 & _).
  destruct (kprintf_shows (str "n" ++ [0]) (str "%s=%d") [Print.Text 0 (str "n"); Print.Int (-7)]
    (str "n=-7") c [cleared SB_DFL_COLOR] (cleared SB_DFL_COLOR)
    (default (cleared 0) (puts (cleared SB_DFL_COLOR) (str "n=-7"))) Hok) as (c' & E & E' & _).
  - by rewrite E0.
  - by repeat constructor.
  - repeat (constructor; try done).
  - reflexivity.
  - vm_compute. discriminate.
  - by repeat constructor.
  - intros Hin. exfalso. revert Hin. vm_compute. intuition discriminate.
  - reflexivity.
  - exists c, c'. split; [exact E |]. by rewrite E'.
Defined.

End Console.
