(* ===== verification/Builtins.v ===== *)
(** The builtins of the shell: kernel/nsh/builtins/*.c.

    A builtin gets [argc] and [argv]: pointers into the memory [m] of the
    strings of the command line, [None] for the null pointer.  The state is the
    [machine]: the console and what the other parts of the kernel keep.  What
    only the processor knows (registers, memory behind an address, exception
    delivery, the addresses of linker symbols) is the record [hardware]. *)

From Stdlib Require Import Ascii String.
From Stdlib Require Import ZArith Lia Bool.
From stdpp Require Import base tactics numbers list option.
From S2P Require Import Prelude Port Mem Kpm Keyboard Desc Str StrTol Print Screenbuf Console.

Local Open Scope Z_scope.

Module Builtins.
Import Screenbuf Console.

(** ** State *)

Record machine (D : Type) : Type := mk_machine
  { con : console D; kbd : Keyboard.kbd_state; kpm_st : Kpm.kpm;
    gdt_st : Gdt.gdt_state; idt_st : Idt.idt_state }.
Arguments mk_machine {D} con kbd kpm_st gdt_st idt_st.
Arguments con {D} m.
Arguments kbd {D} m.
Arguments kpm_st {D} m.
Arguments gdt_st {D} m.
Arguments idt_st {D} m.

Record hardware (D : Type) : Type := mk_hardware
  { peek : machine D -> Z -> Z;                         (** the byte at an address *)
    read_registers : list Z;                            (** in the order of info_registers *)
    int_n : Z -> machine D -> result (machine D);       (** the [int] instruction *)
    hlt : machine D -> machine D;                       (** the [hlt] instruction *)
    stack_top : Z; stack_bottom : Z }.
Arguments mk_hardware {D} peek read_registers int_n hlt stack_top stack_bottom.
Arguments peek {D} h.
Arguments read_registers {D} h.
Arguments int_n {D} h.
Arguments hlt {D} h.
Arguments stack_top {D} h.
Arguments stack_bottom {D} h.

Definition with_con {D} (st : machine D) (c : console D) : machine D :=
  mk_machine c (kbd st) (kpm_st st) (gdt_st st) (idt_st st).
Definition with_kpm {D} (st : machine D) (k : Kpm.kpm) : machine D :=
  mk_machine (con st) (kbd st) k (gdt_st st) (idt_st st).
Definition with_kbd {D} (st : machine D) (k : Keyboard.kbd_state) : machine D :=
  mk_machine (con st) k (kpm_st st) (gdt_st st) (idt_st st).

(** ** ps2.h *)

Definition PS2_INPUT_BUFFER_FULL : Z := 2.
Definition CPU_RESET : Z := 0xFE.

(** [argv[i]] as an argument of a function that reads it *)
Definition arg_ptr (argv : list (option Z)) (i : Z) : result Z :=
  p ← rd argv i; match p with Some p => Ok p | None => Err NullDeref end.

(** [strcmp(p, "s")] and [strcmp("s", p)] are zero for equal strings only. *)
Definition strcmp_lit (m : list Z) (p : Z) (s : list Z) : result bool :=
  r ← Str.strcmp (lit m s) p (zlen m); Ok (r =? 0).
Definition lit_strcmp (s : list Z) (m : list Z) (p : Z) : result bool :=
  r ← Str.strcmp (lit m s) (zlen m) p; Ok (r =? 0).

Section code.
Context {D : Type} `{Device D} (hw : hardware D).
Implicit Types st : machine D.
Implicit Types m : list Z.
Implicit Types argv : list (option Z).

Definition say m (fmt : list Z) (ap : list Z) st : result (machine D) :=
  c ← kprintf m fmt ap (con st); Ok (with_con st c).
Definition paint (f : screenbuf -> screenbuf) st : result (machine D) :=
  c ← set_on_current f (con st); Ok (with_con st c).

(** ** utils.c *)

Definition clear st : result (Z * machine D) :=
  c ← on_current sb_clear (con st); Ok (0, with_con st c).

Definition sb_nbscreen (c : console D) : Z := zlen (sb c).

(** [sb_unload(sb_current++)] and the like: unload, then move. *)
Definition unload_current (c : console D) : result (console D) :=
  on_current (fun b w => Ok (sb_unload b, w)) c.

Definition next st : result (Z * machine D) :=
  let c := con st in
  c ← unload_current c;
  let cur := sb_current c + 1 in
  let cur := if cur =? sb_nbscreen c then 0 else cur in
  c ← on_current sb_load (mk_console (sb c) cur (shared c));
  Ok (0, with_con st c).

Definition prev st : result (Z * machine D) :=
  let c := con st in
  c ← unload_current c;
  let cur := sb_current c - 1 in
  let cur := if cur <? 0 then 0 + (sb_nbscreen c - 1) else cur in
  c ← on_current sb_load (mk_console (sb c) cur (shared c));
  Ok (0, with_con st c).

(** [builtins] lists the names and descriptions of the table of nsh.c. *)
Fixpoint help_loop (builtins : list (list Z * list Z)) st : result (machine D) :=
  match builtins with
  | [] => Ok st
  | (name, description) :: rest =>
      st ← say (name ++ [0] ++ description ++ [0]) (str "-> %s: %s" ++ nl)
             [0; zlen name + 1] st;
      help_loop rest st
  end.
Definition help (builtins : list (list Z * list Z)) st : result (Z * machine D) :=
  st ← say [] (str "KFS - available commands:" ++ nl) [] st;
  st ← help_loop builtins st;
  Ok (0, st).

(** ** power.c *)

Definition on_device (f : D -> D) st : machine D :=
  let w := shared (con st) in
  with_con st (mk_console (sb (con st)) (sb_current (con st)) (mk_world (vga w) (f (dev w)))).

(** [while (port_read_u8(PS2_STATUS_REGISTER_PORT) & PS2_INPUT_BUFFER_FULL);] *)
Fixpoint reboot_wait (fuel : nat) (d : D) : result D :=
  match fuel with
  | O => Err OutOfFuel
  | S fuel =>
      let (x, d) := port_read_u8 Keyboard.PS2_STATUS_REGISTER_PORT d in
      if negb (Z.land x PS2_INPUT_BUFFER_FULL =? 0) then reboot_wait fuel d else Ok d
  end.
Definition reboot (fuel : nat) st : result (Z * machine D) :=
  d ← reboot_wait fuel (dev (shared (con st)));
  let st := on_device (fun _ => port_write_u8 Keyboard.PS2_STATUS_COMMAND_PORT CPU_RESET d) st in
  Ok (0, hlt hw st).
Definition poweroff st : result (Z * machine D) :=
  let st := on_device (port_write_u16 0x604 0x2000) st in
  Ok (0, hlt hw st).

(** ** interrupt.c *)

Definition interrupt_usage m st : result (machine D) := say m (str "Usage: interrupt int" ++ nl) [] st.
Definition interrupt (argc : Z) m argv st : result (Z * machine D) :=
  if argc <? 2 then st ← interrupt_usage m st; Ok (-1, st)
  else
    p ← arg_ptr argv 1;
    '(i, ptr) ← StrTol.strtol m p 0;
    c ← Str.rdc m ptr;
    if negb (c =? 0) then
      st ← say m (str "interrupt: interrupt number not well formated." ++ nl) [] st; Ok (-1, st)
    else
      st ← (if i =? 0 then int_n hw 0 st
            else if i =? 4 then int_n hw 4 st
            else if i =? 8 then int_n hw 8 st
            else say m (str "interrupt: interrupt number '%d' not implemented." ++ nl) [i] st);
      Ok (0, st).

(** ** keymap.c *)

Definition layouts : list (list Z * (Keyboard.kbd_keycode -> Keyboard.kbd_keymap_entry)) :=
  [(str "us", Keyboard.US104_getkeymapentry); (str "fr", Keyboard.FR_getkeymapentry)].

Fixpoint keymap_list (l : list (list Z * (Keyboard.kbd_keycode -> Keyboard.kbd_keymap_entry))) st
    : result (machine D) :=
  match l with
  | [] => Ok st
  | (name, _) :: l => st ← say (name ++ [0]) (str "- %s" ++ nl) [0] st; keymap_list l st
  end.
Fixpoint keymap_find (l : list (list Z * (Keyboard.kbd_keycode -> Keyboard.kbd_keymap_entry))) m (p : Z)
    : result (option (Keyboard.kbd_keycode -> Keyboard.kbd_keymap_entry)) :=
  match l with
  | [] => Ok None
  | (name, entry) :: l =>
      e ← strcmp_lit m p name;
      if e : bool then Ok (Some entry) else keymap_find l m p
  end.
Definition keymap_usage m st : result (machine D) :=
  st ← say m (str "Usage: keymap LAYOUT" ++ nl) [] st;
  say m (str "       keymap list" ++ nl) [] st.
Definition keymap (argc : Z) m argv st : result (Z * machine D) :=
  if argc <? 2 then
    st ← keymap_usage m st; Ok (-1, st)
  else
    p ← arg_ptr argv 1;
    e ← strcmp_lit m p (str "list");
    if e : bool then
      st ← say m (str "Layout:" ++ nl) [] st;
      st ← keymap_list layouts st;
      Ok (-1, st)
    else
      r ← keymap_find layouts m p;
      match r with
      | Some entry => Ok (0, with_kbd st (Keyboard.KBD_setkeymap entry (kbd st)))
      | None => st ← say m (str "keymap: Layout '%s' not found." ++ nl) [p] st; Ok (-1, st)
      end.

(** ** color.c *)

Definition colors : list (list Z) :=
  [str "black"; str "blue"; str "green"; str "cyan"; str "red"; str "magenta"; str "brown";
   str "lightgrey"; str "darkgrey"; str "lightblue"; str "lightgreen"; str "lightcyan";
   str "lightred"; str "lightmagenta"; str "lightbrown"; str "white"].

Fixpoint color_find (l : list (list Z)) m (p i : Z) : result (option Z) :=
  match l with
  | [] => Ok None
  | c :: l => e ← lit_strcmp c m p; if e : bool then Ok (Some i) else color_find l m p (i + 1)
  end.
Definition color_usage m st : result (machine D) :=
  st ← say m (str "Usage: color fg/bg COLOR" ++ nl) [] st;
  say m (str "       color reset" ++ nl) [] st.
Definition color_set (set : screenbuf -> Z -> screenbuf) m argv st : result (Z * machine D) :=
  p ← arg_ptr argv 2;
  r ← color_find colors m p 0;
  match r with
  | Some i => st ← paint (fun b => set b i) st; Ok (0, st)
  | None => st ← say m (str "color: '%s' unknown color." ++ nl) [p] st; Ok (-1, st)
  end.
Definition color (argc : Z) m argv st : result (Z * machine D) :=
  if argc <? 2 then st ← color_usage m st; Ok (-1, st)
  else
    p ← arg_ptr argv 1;
    e ← strcmp_lit m p (str "reset");
    if e : bool then st ← paint (fun b => sb_set_color b SB_DFL_COLOR) st; Ok (-1, st)
    else if argc <? 3 then st ← color_usage m st; Ok (-1, st)
    else
      e ← strcmp_lit m p (str "fg");
      if e : bool then color_set sb_set_fg m argv st
      else
        e ← strcmp_lit m p (str "bg");
        if e : bool then color_set sb_set_bg m argv st
        else st ← say m (str "color: '%s' unknown command." ++ nl) [p] st; Ok (-1, st).

(** ** alloc.c and free.c *)

(** The loop of alloc_loop: every turn allocates at least one page. *)
Fixpoint alloc_chunks (fuel : nat) (chunk : Kpm.kpm_chunk_t) (size : Z) st
    : result (Z * machine D) :=
  match fuel with
  | O => Err OutOfFuel
  | S fuel =>
      if size >? 0 then
        '(r, chunk, k) ← Kpm.kpm_alloc (kpm_st st) chunk size;
        let st := with_kpm st k in
        if r <? 0 then Ok (-1, st)
        else
          st ← say [] (str "chunk: {" ++ nl ++ str "    addr = %p" ++ nl ++ str "    size = %u"
                 ++ nl ++ str "}" ++ nl) [Kpm.chunk_addr chunk; Kpm.chunk_size chunk] st;
          if Kpm.chunk_size chunk >=? size then Ok (0, st)
          else alloc_chunks fuel chunk (u32 (size - Kpm.chunk_size chunk)) st
      else Ok (0, st)
  end.
Definition alloc_loop (chunk : Kpm.kpm_chunk_t) (size : Z) st : result (Z * machine D) :=
  oldcolor ← get_color (con st);
  st ← paint (fun b => sb_set_fg b (color_val SB_COLOR_GREEN)) st;
  '(r, st) ← alloc_chunks (S (Z.to_nat (size / Kpm.PAGE_SIZE + 1))) chunk size st;
  st ← paint (fun b => sb_set_color b oldcolor) st;
  Ok (r, st).

Definition alloc_usage m st : result (machine D) := say m (str "Usage: alloc size" ++ nl) [] st.
(** [chunk] is a local variable; [garbage] is what it holds at first. *)
Definition alloc (garbage : Kpm.kpm_chunk_t) (argc : Z) m argv st : result (Z * machine D) :=
  if argc <? 2 then st ← alloc_usage m st; Ok (-1, st)
  else
    p ← arg_ptr argv 1;
    '(size, ptr) ← StrTol.strtol m p 0;
    c ← Str.rdc m ptr;
    if negb (c =? 0) || (size <? 0) then
      st ← say m (str "alloc: Size not well formatted." ++ nl) [] st; Ok (-1, st)
    else
      st ← say m (str "Asked for allocation of %d bytes" ++ nl) [size] st;
      '(r, st) ← alloc_loop garbage size st;
      st ← (if r =? -1 then say m (str "Failed to allocate memory area." ++ nl) [] st else Ok st);
      Ok (0, st).

Definition free_usage m st : result (machine D) := say m (str "Usage: free size" ++ nl) [] st.
Definition free (argc : Z) m argv st : result (Z * machine D) :=
  if argc <? 2 then st ← free_usage m st; Ok (-1, st)
  else
    p ← arg_ptr argv 1;
    '(addr, ptr) ← StrTol.strtol m p 0;
    let addr := u32 addr in
    c ← Str.rdc m ptr;
    bad ← (if negb (c =? 0) then Ok true else c ← Str.rdc m p; Ok (c =? 45));
    if bad : bool then
      st ← say m (str "free: Address not well formatted." ++ nl) [] st; Ok (-1, st)
    else
      q ← arg_ptr argv 2;
      '(size, ptr) ← StrTol.strtol m q 0;
      c ← Str.rdc m ptr;
      if negb (c =? 0) || (size <? 0) then
        st ← say m (str "free: Size not well formatted." ++ nl) [] st; Ok (-1, st)
      else
        k ← Kpm.kpm_free (kpm_st st) (Kpm.mk_chunk addr size);
        Ok (0, with_kpm st k).

(** ** hexdump.c *)

Definition NBYTES_LINE : Z := 16.
Definition C_ACTIVE : Z := color_val SB_COLOR_LIGHT_RED.
Definition C_INACTIVE : Z := SB_DFL_FG_COLOR.
Definition C_NONPRINT : Z := SB_DFL_FG_COLOR.

Definition fg (c : Z) st : result (machine D) := paint (fun b => sb_set_fg b c) st.

(** One turn of the first loop of hx_printline, the hexadecimal digits ... *)
Definition hx_byte (base nbytes i : Z) st : result (machine D) :=
  st ← (if Z.rem i 2 =? 0 then say [] (str " ") [] st else Ok st);
  if nbytes - i >? 0 then
    let byte := u8 (peek hw st (u32 (base + i))) in
    st ← fg (if negb (byte =? 0) then C_ACTIVE else C_INACTIVE) st;
    st ← say [] (str "%2x") [byte] st;
    fg C_INACTIVE st
  else say [] (str "  ") [] st.
(** ... and one of the second, the characters. *)
Definition hx_char (base nbytes i : Z) st : result (machine D) :=
  if nbytes - i >? 0 then
    let byte := u8 (peek hw st (u32 (base + i))) in
    '(byte, st) ←
      (if byte =? 0 then st ← fg C_INACTIVE st; Ok (46, st)
       else if (byte <? 32) || (byte >? 127) then st ← fg C_NONPRINT st; Ok (46, st)
       else st ← fg C_ACTIVE st; Ok (byte, st));
    st ← say [] (str "%c") [byte] st;
    fg C_INACTIVE st
  else say [] (str " ") [] st.
Definition hx_printline (base nbytes : Z) st : result (machine D) :=
  st ← say [] (str "%8p: ") [base] st;
  st ← for_loop (Z.to_nat NBYTES_LINE) 0 (hx_byte base (i32 nbytes)) st;
  st ← fg C_INACTIVE st;
  st ← say [] (str "  |") [] st;
  st ← for_loop (Z.to_nat NBYTES_LINE) 0 (hx_char base (i32 nbytes)) st;
  say [] (str "|" ++ nl) [] st.

Fixpoint hx_lines (fuel : nat) (base size : Z) st : result (Z * Z * machine D) :=
  match fuel with
  | O => Err OutOfFuel
  | S fuel =>
      if size >=? NBYTES_LINE then
        st ← hx_printline base NBYTES_LINE st;
        hx_lines fuel (u32 (base + NBYTES_LINE)) (size - NBYTES_LINE) st
      else Ok (base, size, st)
  end.
Definition hx_print (base size : Z) st : result (machine D) :=
  c ← get_color (con st);
  st ← paint (fun b => sb_set_color b SB_DFL_COLOR) st;
  st ← fg C_INACTIVE st;
  '(base, size, st) ← hx_lines (S (Z.to_nat (size / NBYTES_LINE))) base size st;
  st ← (if negb (size =? 0) then hx_printline base size st else Ok st);
  paint (fun b => sb_set_color b c) st.

Definition hexdump_usage m st : result (machine D) := say m (str "Usage: hexdump address size" ++ nl) [] st.
Definition hexdump (argc : Z) m argv st : result (Z * machine D) :=
  if argc <? 3 then st ← hexdump_usage m st; Ok (-1, st)
  else
    p ← arg_ptr argv 1;
    '(addr, ptr) ← StrTol.strtoul m p 0;
    c ← Str.rdc m ptr;
    if negb (c =? 0) then
      st ← say m (str "hexdump: Address not well formated." ++ nl) [] st; Ok (-1, st)
    else
      p ← arg_ptr argv 2;
      '(size, ptr) ← StrTol.strtoul m p 0;
      c ← Str.rdc m ptr;
      if negb (c =? 0) then
        st ← say m (str "hexdump: Size not well formated." ++ nl) [] st; Ok (-1, st)
      else
        st ← hx_print addr size st;
        Ok (0, st).

(** ** info.c *)

(** Calls of kprintf one after the other. *)
Fixpoint say_all (l : list (list Z * list Z)) st : result (machine D) :=
  match l with
  | [] => Ok st
  | (fmt, ap) :: l => st ← say [] fmt ap st; say_all l st
  end.

Definition register_formats : list (list Z) :=
  [str "eax : %8p" ++ nl; str "ebx : %8p" ++ nl; str "ecx : %8p" ++ nl; str "edx : %8p" ++ nl;
   str "cs : %8p" ++ nl; str "ds : %8p" ++ nl; str "es : %8p" ++ nl; str "gs : %8p" ++ nl;
   str "ss : %8p" ++ nl; str "esi : %8p" ++ nl; str "edi : %8p" ++ nl; str "ebp : %8p" ++ nl;
   str "eip : %8p" ++ nl; str "esp : %8p" ++ nl; str "eflags : %b" ++ nl; str "cr0 : %8b" ++ nl;
   str "cr3 : %8p" ++ nl].
Definition info_registers st : result (machine D) :=
  say_all (zip_with (fun fmt r => (fmt, [r])) register_formats (read_registers hw)) st.

Definition info_idt st : result (machine D) :=
  let i := idt_st st in
  say_all [(str "INFO IDT" ++ nl, []);
           (str "Base:  %8p | Limit: %8p" ++ nl, [Idt.base (Idt.idtp i); Idt.limit (Idt.idtp i)]);
           (str "Size = %u bytes" ++ nl, [Idt.sizeof_idt_entry * 256])] st.

Definition info_buddy_print_byte (o : Kpm.order) (oldcolor i : Z) st : result (machine D) :=
  st ← (if i mod 32 =? 0 then say [] (nl ++ str "%4x  ") [i] st else Ok st);
  v ← Kpm.load8 (kpm_st st) (Kpm.bitmap o + i);
  st ← (if v =? 0 then
          st ← paint (fun b => sb_set_bg b (color_val SB_COLOR_WHITE)) st; say [] (str "  ") [] st
        else if v =? 0xff then
          st ← paint (fun b => sb_set_bg b (color_val SB_COLOR_RED)) st; say [] (str "  ") [] st
        else
          st ← paint (fun b => sb_set_bg b (color_val SB_COLOR_BROWN)) st; say [] (str "%2x") [v] st);
  paint (fun b => sb_set_color b oldcolor) st.
Definition info_buddy_print_order (order : Z) st : result (machine D) :=
  oldcolor ← get_color (con st);
  o ← rd (Kpm.orders (Kpm.buddy (kpm_st st))) order;
  st ← say [] (str "order %u(size of %u)" ++ nl) [order; Kpm.order_size o] st;
  st ← for_loop (Z.to_nat (Kpm.order_size o)) 0 (info_buddy_print_byte o oldcolor) st;
  st ← paint (fun b => sb_set_color b oldcolor) st;
  say [] nl [] st.

Definition info_buddy (order : Z) st : result (machine D) :=
  let b := Kpm.buddy (kpm_st st) in
  o ← rd (Kpm.orders b) 0;
  st ← say_all [(str "INFO BUDDY" ++ nl, []);
                (str "buddy address:        %p" ++ nl, [Kpm.buddy_ptr (kpm_st st)]);
                (str "buddy size:           %u KB" ++ nl, [Kpm.buddy_size b / 1024]);
                (str "orders address:       %p" ++ nl, [Kpm.bitmap o]);
                (str "frame number:         %x" ++ nl, [Kpm.nframes b]);
                (str "memory size:          %u KB" ++ nl, [u32 (Z.shiftl (Kpm.nframes b) 2)])] st;
  if order >=? 0 then info_buddy_print_order order st else Ok st.

Definition info_stack st : result (machine D) :=
  say_all [(str "INFO STACK" ++ nl, []);
           (str "Top:   %8p | Bottom : %8p" ++ nl, [stack_top hw; stack_bottom hw]);
           (str "Size = %d bytes" ++ nl, [stack_top hw - stack_bottom hw])] st.

(** [sizeof(gdt)] is the size of a pointer. *)
Definition info_gdt_entry (i : Z) st : result (machine D) :=
  e ← rd (Gdt.gdt (gdt_st st)) i;
  say_all [(str "%4p      ", [Gdt.base_low e]); (str "%4p      ", [Gdt.base_middle e]);
           (str "%4p      ", [Gdt.base_high e]); (str "%4p      ", [Gdt.limit_low e]);
           (str "%4p      ", [Gdt.granularity e]); (str "%4p      ", [Gdt.access e]); (nl, [])] st.
Definition info_gdt st : result (machine D) :=
  let g := gdt_st st in
  st ← say_all [(str "INFO GDT" ++ nl, []);
                (str "Base:  %8p | Limit: %8p" ++ nl, [Gdt.base (Gdt.gdtp g); Gdt.limit (Gdt.gdtp g)]);
                (str "Size = %u bytes" ++ nl, [4 * Gdt.GDT_SIZE]);
                (str "BASE LOW    BASE MID    BASE HIGH   LIMIT LOW   GRAN        ACC" ++ nl, [])] st;
  for_loop (Z.to_nat Gdt.GDT_SIZE) 0 info_gdt_entry st.

Definition info_usage m st : result (machine D) := say m (str "Usage: info [gdt/idt/stack/buddy/registers]" ++ nl) [] st.
Definition info (argc : Z) m argv st : result (Z * machine D) :=
  if argc <? 2 then
    st ← info_usage m st; Ok (-1, st)
  else
    p ← arg_ptr argv 1;
    e ← strcmp_lit m p (str "gdt");
    if e : bool then st ← info_gdt st; Ok (0, st)
    else
    e ← strcmp_lit m p (str "stack");
    if e : bool then st ← info_stack st; Ok (0, st)
    else
    e ← strcmp_lit m p (str "buddy");
    if e : bool then
      if argc >? 2 then
        q ← arg_ptr argv 2;
        '(order, ptr) ← StrTol.strtol m q 0;
        c ← Str.rdc m ptr;
        if negb (c =? 0) || (order <? 0) || (order >=? Kpm.KPM_NORDERS) then
          st ← say m (str "info: order number not formatted correctly" ++ nl) [] st; Ok (-1, st)
        else st ← info_buddy order st; Ok (0, st)
      else st ← info_buddy (-1) st; Ok (0, st)
    else
    e ← strcmp_lit m p (str "idt");
    if e : bool then st ← info_idt st; Ok (0, st)
    else
    e ← strcmp_lit m p (str "registers");
    if e : bool then st ← info_registers st; Ok (0, st)
    else st ← say m (str "info: '%s' doesn't exist." ++ nl) [p] st; Ok (-1, st).
End code.

Lemma plain_u8 c : plain c -> u8 c = c.
Proof. unfold plain. intros. apply u8_small. lia. Qed.

Lemma map_u8_plain q : Forall plain q -> map u8 q = q.
Proof.
  induction q as [| c q IH]; intros Hq; [done |]. apply List.Forall_cons_iff in Hq as [Hc Hq].
  cbn. by rewrite plain_u8, IH.
Qed.

(** ** Output *)

Section output.
Context {D : Type} `{Device D}.
Implicit Types st : machine D.

(** What a console operation leaves alone. *)
Definition others st := (kbd st, kpm_st st, gdt_st st, idt_st st).

(** The current screen of [st] becomes [s]. *)
Definition screen_now st ss s st' : Prop :=
  sb_current (con st') = sb_current (con st) /\ others st' = others st /\
  console_ok (con st') (<[Z.to_nat (sb_current (con st)) := s]> ss).

Lemma screen_same st ss s : console_ok (con st) ss ->
  ss !! Z.to_nat (sb_current (con st)) = Some s -> screen_now st ss s st.
Proof. intros Hok Es. split; [done |]. split; [done |]. by rewrite list_insert_id. Qed.

Lemma screen_trans st ss s st1 s1 st2 : screen_now st ss s1 st1 ->
  screen_now st1 (<[Z.to_nat (sb_current (con st)) := s1]> ss) s st2 -> screen_now st ss s st2.
Proof.
  intros (E1 & O1 & C1) (E2 & O2 & C2). rewrite E1, list_insert_insert_eq in C2.
  split; [congruence |]. split; [congruence | done].
Qed.

Lemma screen_lookup st ss s st' : console_ok (con st) ss -> screen_now st ss s st' ->
  (<[Z.to_nat (sb_current (con st)) := s]> ss) !! Z.to_nat (sb_current (con st')) = Some s.
Proof.
  intros [_ Hc _] (-> & _). unfold zlen in Hc. apply list_lookup_insert_eq. lia.
Qed.

Lemma say_ok m fmt ap text st ss s s' : console_ok (con st) ss ->
  ss !! Z.to_nat (sb_current (con st)) = Some s -> Forall plain fmt ->
  Forall (fun a => match a with Print.Int _ => True | Print.Text p t => Str.cstr (lit m fmt) p t end) ap ->
  Print.render fmt 0 ap = Some text -> zlen text <= 4095 -> Forall plain text ->
  (In 8 text -> forall b, sb (con st) !! Z.to_nat (sb_current (con st)) = Some b -> 0 <= viewport b) ->
  puts s text = Some s' ->
  exists st', say m fmt (map Print.arg_val ap) st = Ok st' /\ screen_now st ss s' st' /\
    (front (con st) -> front (con st')).
Proof.
  intros Hok Es Hf Ha Hr Hl Hp Hv Hs.
  destruct (kprintf_ok m fmt ap text (con st) ss s s' Hok Es Hf Ha Hr Hl Hp Hv Hs) as (c & E & Ec & Hok' & Hfr).
  unfold say. rewrite E. exists (with_con st c). split; [done |]. split; [by split | done].
Qed.
End output.

(** ** Properties *)

Section properties.
Context {D : Type} `{Device D}.
Implicit Types st : machine D.

Lemma switch_ok (c : console D) ss cur : console_ok c ss -> 0 <= cur < zlen ss ->
  exists c1 c2, unload_current c = Ok c1 /\ sb_current c1 = sb_current c /\ sb_nbscreen c1 = zlen ss /\
    on_current sb_load (mk_console (sb c1) cur (shared c1)) = Ok c2 /\
    console_ok c2 ss /\ sb_current c2 = cur /\ (front c -> front c2).
Proof.
  intros Hok Hc. destruct (unload_ok c ss Hok) as (c1 & E1 & Hn & Ec1).
  destruct (load_ok c1 ss cur Hn Hc) as (c2 & E2 & Hok2 & Ec2).
  exists c1, c2. split; [done |]. split; [done |]. split.
  { unfold sb_nbscreen, zlen. by rewrite (nl_length _ _ Hn). }
  split; [done |]. split; [done |]. split; [done |]. intros Hf.
  apply (on_current_front _ _ _ E2).
  - intros b b' w _ E. unfold sb_load in E. by apply bind_inv in E as (w' & _ & [= <- _]).
  - apply (on_current_front _ _ _ E1); [| done]. by intros b b' w _ [= <- _].
Qed.

Lemma next_prev_ok st ss : console_ok (con st) ss ->
  (exists c, next st = Ok (0, with_con st c) /\ console_ok c ss /\
     sb_current c = (sb_current (con st) + 1) mod zlen ss /\ (front (con st) -> front c)) /\
  (exists c, prev st = Ok (0, with_con st c) /\ console_ok c ss /\
     sb_current c = (sb_current (con st) - 1) mod zlen ss /\ (front (con st) -> front c)).
Proof.
  intros Hok. pose proof (ok_current _ _ Hok) as Hc. set (n := zlen ss) in *.
  set (cur := sb_current (con st)) in *. split.
  - destruct (switch_ok (con st) ss (if cur + 1 =? n then 0 else cur + 1) Hok)
      as (c1 & c2 & E1 & Ec1 & En & E2 & Hok2 & Ec2 & Hf).
    { fold n. destruct (Z.eqb_spec (cur + 1) n); lia. }
    unfold next. rewrite E1. cbn [mbind result_bind]. rewrite Ec1, En. fold cur n. rewrite E2.
    exists c2. split; [done |]. split; [done |]. split; [| done]. rewrite Ec2.
    destruct (Z.eqb_spec (cur + 1) n) as [-> |]; [by rewrite Z_mod_same_full | by rewrite Z.mod_small by lia].
  - destruct (switch_ok (con st) ss (if cur - 1 <? 0 then 0 + (n - 1) else cur - 1) Hok)
      as (c1 & c2 & E1 & Ec1 & En & E2 & Hok2 & Ec2 & Hf).
    { fold n. destruct (Z.ltb_spec (cur - 1) 0); lia. }
    unfold prev. rewrite E1. cbn [mbind result_bind]. rewrite Ec1, En. fold cur n. rewrite E2.
    exists c2. split; [done |]. split; [done |]. split; [| done]. rewrite Ec2.
    destruct (Z.ltb_spec (cur - 1) 0).
    + replace (cur - 1) with (n - 1 + n * -1) by lia. rewrite mod_shift by lia.
      by rewrite (Z.mod_small (n - 1) n) by lia.
    + by rewrite Z.mod_small by lia.
Qed.

(** [next] and [prev] move to the neighbouring screen, around the ends: it becomes
    the loaded one and the frame buffer shows it, and no screen loses its contents. *)
Theorem next_prev_switch st ss : console_ok (con st) ss ->
  (exists st', next st = Ok (0, st') /\ console_ok (con st') ss /\
     sb_current (con st') = (sb_current (con st) + 1) mod zlen ss) /\
  (exists st', prev st = Ok (0, st') /\ console_ok (con st') ss /\
     sb_current (con st') = (sb_current (con st) - 1) mod zlen ss).
Proof.
  intros Hok. destruct (next_prev_ok st ss Hok) as [(c1 & E1 & H1 & C1 & _) (c2 & E2 & H2 & C2 & _)].
  split; eexists; (split; [eassumption |]); by split.
Qed.

(** [free] with an address and no size: the check of [argc] lets it pass, and the
    null pointer behind the address is read. *)
Theorem free_reads_null m argv p addr e st :
  argv !! 1%nat = Some (Some p) -> argv !! 2%nat = Some None ->
  StrTol.strtol m p 0 = Ok (addr, e) -> Str.rdc m e = Ok 0 ->
  (exists c, Str.rdc m p = Ok c /\ c <> 45) ->
  free 2 m argv st = Err NullDeref.
Proof.
  intros H1 H2 Hs He (c & Hc & Hne). unfold free, arg_ptr, rd. cbn [Z.ltb Z.compare Pos.compare Pos.compare_cont].
  change (Z.to_nat 1) with 1%nat. change (Z.to_nat 2) with 2%nat. rewrite H1. cbn [mbind result_bind].
  rewrite Hs. cbn [mbind result_bind]. rewrite He. cbn [mbind result_bind Z.eqb negb]. rewrite Hc.
  cbn [mbind result_bind]. rewrite (proj2 (Z.eqb_neq c 45)) by done. by rewrite H2.
Qed.
End properties.

(** ** Witnesses *)

#[local] Existing Instance no_device.

Definition idle_machine (c : console unit) : machine unit :=
  mk_machine c Keyboard.kbd_st_init (Kpm.mk_kpm 0 (Kpm.mk_buddy 0 0 0 []) [])
    (Gdt.mk_gdt_state [] (Gdt.mk_gdt_ptr 0 0) (Gdt.mk_gdt_ptr 0 0))
    (Idt.mk_idt_state [] (Idt.mk_idt_ptr 0 0) (Idt.mk_idt_ptr 0 0) false).

Lemma next_prev_switch_witness :
  exists st st' : machine unit, next st = Ok (0, st') /\ sb_current (con st) = 0 /\
    sb_current (con st') = 1.
Proof.
  destruct two_consoles as (c & Hok & E0).
  destruct (next_prev_switch (idle_machine c) [cleared SB_DFL_COLOR; cleared SB_DFL_COLOR] Hok)
    as [(st' & E & _ & Ec) _].
  exists (idle_machine c), st'. split; [exact E |]. split; [exact E0 |].
  rewrite Ec. cbn [idle_machine con]. by rewrite E0.
Defined.

(** "free 0x1000" *)
Lemma free_reads_null_witness :
  exists st : machine unit, free 2 (str "free" ++ [0] ++ str "4096" ++ [0]) [Some 0; Some 5; None] st = Err NullDeref.
Proof.
  exists (idle_machine (mk_console [] 0 zero_world)).
  apply (free_reads_null _ _ 5 4096 9); [reflexivity | reflexivity | vm_compute; reflexivity | reflexivity |].
  exists 52. split; [reflexivity | discriminate].
Defined.

End Builtins.
