(* ===== verification/Machine.v ===== *)
(** The invariant of the machine, and rules for what its programs do with the screen.

    [good low] says that all screens are shown as they should be and are neat and, with
    [low], that every window ends at its cursor's line and starts inside of the buffer.
    [quiet low st st'] says that the console is good in [st'] and that nothing else has
    changed since [st]; the rules below give a step of a builtin this postcondition.
    [machine_ok] adds the other parts of the kernel. *)

From Stdlib Require Import Ascii String.
From Stdlib Require Import ZArith Lia Bool.
From stdpp Require Import base tactics numbers list option.
From S2P Require Import Prelude Logic Port Mem Kpm KpmBits KpmTree Keyboard Desc.
From S2P Require Import Str StrTol Print Format Screenbuf Typing Console Builtins.

Local Open Scope Z_scope.

Module Machine.
Import Screenbuf Console Builtins Format Typing.

(** What a function does to the colour of a screen buffer. *)
Class Recolors (f : screenbuf -> screenbuf) : Prop :=
  recolors : exists g, forall b, f b = set_color b (g (Screenbuf.color b)) /\ forall x, 0 <= g x < 256.

#[export] Instance set_color_recolors c : Recolors (fun b => sb_set_color b c).
Proof. exists (fun _ => u8 c). intros b. split; [done | intros; apply u8_range]. Qed.
#[export] Instance set_fg_recolors c : Recolors (fun b => sb_set_fg b c).
Proof.
  exists (fun x => u8 (Z.lor (Z.land x 0xf0) (Z.land c 0x0f))). intros b.
  split; [done | intros; apply u8_range].
Qed.
#[export] Instance set_bg_recolors c : Recolors (fun b => sb_set_bg b c).
Proof.
  exists (fun x => u8 (Z.lor (Z.land (Z.shiftl c 4) 0xf0) (Z.land x 0x0f))). intros b.
  split; [done | intros; apply u8_range].
Qed.

Lemma visible_plain l : Forall visible l -> Forall plain l.
Proof. intros H. eapply List.Forall_impl; [| exact H]. unfold visible, plain. intros. lia. Qed.

Lemma visible_no_backspace l : Forall visible l -> Forall (fun c => c <> 8) l.
Proof. intros H. eapply List.Forall_impl; [| exact H]. unfold visible. intros. lia. Qed.

Section machine.
Context {D : Type} `{Device D}.
Implicit Types c : console D.
Implicit Types st : machine D.

(** ** Good consoles *)

Definition good (low : bool) c : Prop :=
  exists ss, console_ok c ss /\ Forall (neat low) ss /\ (low = true -> front c).

Lemma good_current {low} c ss : console_ok c ss -> Forall (neat low) ss ->
  exists s, ss !! Z.to_nat (sb_current c) = Some s /\ neat low s.
Proof.
  intros Hok Hn. destruct (current_lookup c ss Hok) as (b & s & _ & Es & _).
  exists s. split; [done |]. by apply (Forall_lookup_1 _ _ _ _ Hn Es).
Qed.

(** The check of the format of a call, once and for all. *)
Lemma checked_format fmt ks : format_check fmt = Some ks ->
  format_type fmt = Some ks /\ Forall visible fmt /\ zlen fmt + kinds_size ks <= 4095.
Proof.
  unfold format_check. destruct (format_type fmt) as [ks' |] eqn:E; [| done].
  destruct (Z.leb_spec (zlen fmt + kinds_size ks') 4095); [| done]. intros [= <-].
  split; [done |]. split; [| done]. by apply (format_type_visible (length fmt) fmt ks').
Qed.

Definition quiet (low : bool) st st' : Prop := others st' = others st /\ good low (con st').

Lemma quiet_refl {low} st : good low (con st) -> quiet low st st.
Proof. by split. Qed.

Lemma quiet_trans {low} st st1 st2 : quiet low st st1 -> quiet low st1 st2 -> quiet low st st2.
Proof. intros [O1 _] [O2 Hg]. split; [congruence | done]. Qed.

Lemma quiet_console {low} st0 st c : quiet low st0 st -> good low c -> quiet low st0 (with_con st c).
Proof. intros [Ho _] Hg. by split. Qed.

(** A call of kprintf with the right arguments. *)
Lemma say_screen m fmt ks zs st ss s : console_ok (con st) ss ->
  ss !! Z.to_nat (sb_current (con st)) = Some s ->
  format_check fmt = Some ks -> args_in m ks zs ->
  exists s' st', say m fmt zs st = Ok st' /\ screen_now st ss s' st' /\
    (front (con st) -> front (con st')) /\ (forall low, neat low s -> neat low s').
Proof.
  intros Hok Es Hf Ha. destruct (checked_format fmt ks Hf) as (Ht & Hv & Hl).
  destruct (args_in_spec m ks zs Ha) as (ap & -> & Hk & Htext & Hsz).
  destruct (typed_format_spec fmt ks ap Ht Hk) as (t & Hr & Hvt & Hlt).
  destruct (puts_total t s (visible_no_backspace t Hvt)) as [s' Hs].
  destruct (say_ok m fmt ap t st ss s s' Hok Es) as (st' & E & Hnow & Hfr); try done; try lia.
  - by apply visible_plain.
  - eapply List.Forall_impl; [| exact Htext]. intros [z | p l] Hc; [done |]. by apply Print.cstr_extend.
  - by apply visible_plain.
  - intros Hin. pose proof (visible_no_backspace t Hvt) as Hn. rewrite List.Forall_forall in Hn.
    by specialize (Hn 8 Hin).
  - exists s', st'. split; [done |]. split; [done |]. split; [done |].
    intros low Hneat. by apply (puts_neat low t s s').
Qed.

Lemma screen_good {low} st ss s s' st' : console_ok (con st) ss -> Forall (neat low) ss -> (low = true -> front (con st)) ->
  ss !! Z.to_nat (sb_current (con st)) = Some s ->
  screen_now st ss s' st' -> (front (con st) -> front (con st')) -> neat low s' -> good low (con st').
Proof.
  intros Hok Hn Hfr Es (_ & _ & Hok') Hf Hs. eexists. split; [exact Hok' |].
  split; [| auto]. by apply Forall_insert.
Qed.

Lemma say_quiet {low} m fmt ks zs st0 st : quiet low st0 st -> format_check fmt = Some ks ->
  args_in m ks zs -> yields (say m fmt zs st) (quiet low st0).
Proof.
  intros Hq Hf Ha. pose proof Hq as [_ (ss & Hok & Hn & Hfr)].
  destruct (good_current _ _ Hok Hn) as (s & Es & Hs).
  destruct (say_screen m fmt ks zs st ss s Hok Es Hf Ha) as (s' & st' & -> & Hnow & Hfr' & Hn').
  apply yields_ok. apply (quiet_trans st0 st); [done |]. split; [apply Hnow |].
  apply (screen_good st ss s s'); auto.
Qed.

Lemma set_on_current_good {low} f c : Recolors f -> good low c -> yields (set_on_current f c) (good low).
Proof.
  intros [g Hg] (ss & Hok & Hn & Hfr). destruct (good_current _ _ Hok Hn) as (s & Es & Hs).
  destruct (set_color_ok f c ss s (g (sc_color s)) Hok Es) as (c' & -> & _ & Hok' & Hfr').
  - destruct (Hg zero_sb) as [_ Hr]. apply Hr.
  - intros b <-. apply Hg.
  - apply yields_ok. eexists. split; [exact Hok' |]. split; [| auto].
    apply Forall_insert; [done |]. by apply recolor_neat.
Qed.

Lemma paint_quiet {low} f st0 st : Recolors f -> quiet low st0 st -> yields (paint f st) (quiet low st0).
Proof.
  intros Hf Hq. unfold paint. ystep (set_on_current_good (low := low) f (con st) Hf); [apply Hq |].
  intros c Hc. apply yields_ok. by apply quiet_console.
Qed.

Lemma get_color_yields {low} c : good low c -> yields (get_color c) (fun _ => True).
Proof.
  intros (ss & Hok & Hn & _). destruct (good_current _ _ Hok Hn) as (s & Es & _).
  destruct (get_color_ok c ss s Hok Es) as [-> _]. by apply yields_ok.
Qed.

(** Other devices do not concern the screens. *)
Lemma good_device {low} c d : good low c -> good low (mk_console (sb c) (sb_current c) (mk_world (vga (shared c)) d)).
Proof. intros (ss & [Hl Hc Hs] & Hn & Hf). exists ss. split; [by split | done]. Qed.

Lemma on_device_quiet {low} f st0 st : quiet low st0 st -> quiet low st0 (on_device f st).
Proof. intros Hq. apply quiet_console; [done |]. apply good_device, Hq. Qed.

(** ** The machine *)

Definition layout_ok (k : Keyboard.kbd_state) : Prop :=
  exists f, Keyboard.getkeymapentry k = Some f /\ Keyboard.keyboard_layout f.

Record machine_ok (low : bool) (nf : Z) st : Prop := mk_machine_ok
  { m_kpm : kpm_inv nf (kpm_st st);
    m_good : good low (con st);
    m_gdt : 7 <= zlen (Gdt.gdt (gdt_st st));
    m_layout : layout_ok (kbd st) }.

Lemma quiet_machine {low} nf st0 st : machine_ok low nf st0 -> quiet low st0 st -> machine_ok low nf st.
Proof.
  intros [Hk Hg Hgdt Hl] [Ho Hg']. unfold others in Ho. injection Ho as Ek Ekp Egd _.
  split; rewrite ?Ek, ?Ekp, ?Egd; done.
Qed.

(** Strings of a command line. *)
Definition word_at (m : list Z) (p : Z) : Prop :=
  exists w, Str.cstr m p w /\ Forall visible w /\ zlen w <= 1100.

Lemma word_inside m p w e : Str.cstr m p w -> p <= e <= p + zlen w -> exists x, Str.rdc m e = Ok x.
Proof.
  intros Hw He. unfold zlen in He.
  pose proof (Str.cstr_drop m p w (Z.to_nat (e - p)) Hw ltac:(lia)) as Hd.
  replace (p + Z.of_nat (Z.to_nat (e - p))) with e in Hd by lia.
  eexists. apply (Str.cstr_head _ _ _ Hd).
Qed.

(** A number of the command line, and the character behind it. *)
Lemma word_strtol m p : word_at m p -> yields (StrTol.strtol m p 0) (fun '(r, e) =>
  -2147483648 <= r <= 2147483647 /\ exists x, Str.rdc m e = Ok x).
Proof.
  intros (w & Hw & _ & _). eapply yields_weaken; [by apply (StrTol.strto_signed_total 32 m p w 0) |].
  intros [r e] [Hr He]. split; [exact Hr |]. by apply (word_inside m p w).
Qed.

Lemma word_strtoul m p : word_at m p -> yields (StrTol.strtoul m p 0) (fun '(_, e) =>
  exists x, Str.rdc m e = Ok x).
Proof.
  intros (w & Hw & _ & _). eapply yields_weaken; [by apply (StrTol.strto_unsigned_total 32 m p w 0) |].
  intros [r e] He. by apply (word_inside m p w).
Qed.
End machine.

(** ** Output of the handlers of interrupts, which see the console only *)

Definition bare {D} (c : console D) : machine D :=
  mk_machine c Keyboard.kbd_st_init (Kpm.mk_kpm 0 (Kpm.mk_buddy 0 0 0 []) [])
    (Gdt.mk_gdt_state [] (Gdt.mk_gdt_ptr 0 0) (Gdt.mk_gdt_ptr 0 0))
    (Idt.mk_idt_state [] (Idt.mk_idt_ptr 0 0) (Idt.mk_idt_ptr 0 0) false).

Lemma kprintf_good {low} {D} `{Device D} m fmt ks zs (c : console D) : good low c -> format_check fmt = Some ks ->
  args_in m ks zs -> yields (kprintf m fmt zs c) (fun c' => good low c' /\ sb_current c' = sb_current c).
Proof.
  intros (ss & Hok & Hn & Hfr) Hf Ha. destruct (good_current _ _ Hok Hn) as (s & Es & Hs).
  destruct (say_screen m fmt ks zs (bare c) ss s Hok Es Hf Ha) as (s' & st' & E & Hnow & Hfr' & Hn').
  pose proof (screen_good (bare c) ss s s' st' Hok Hn Hfr Es Hnow Hfr' (Hn' low Hs)) as Hg.
  apply bind_inv in E as (c' & Ek & [= <-]). cbn [bare con] in Ek. rewrite Ek. apply yields_ok.
  split; [exact Hg | apply Hnow].
Qed.

(** A handler prints lines with literal formats and numbers. *)
Lemma print_number_good {low} {D} `{Device D} fmt z (c : console D) : good low c -> format_check fmt = Some [KInt] ->
  yields (kprintf [] fmt [z] c) (good low).
Proof. intros Hg Hf. eapply yields_weaken; [by apply (kprintf_good (low := low) [] fmt [KInt]) | by intros c' [? _]]. Qed.

Lemma print_line_good {low} {D} `{Device D} fmt (c : console D) : good low c -> format_check fmt = Some [] ->
  yields (kprintf [] fmt [] c) (good low).
Proof. intros Hg Hf. eapply yields_weaken; [by apply (kprintf_good (low := low) [] fmt []) | by intros c' [? _]]. Qed.

Lemma print_int_frame_good {low} {D} `{Device D} frame f err (c : console D) : good low c ->
  yields (print_int_frame frame f err c) (good low).
Proof.
  intros Hg. unfold print_int_frame.
  do 6 (eapply yields_bind; [eapply print_number_good; [eassumption | vm_compute; reflexivity] |
    clear c Hg; cbv beta; intros c Hg]).
  destruct err; [| by apply yields_ok]. eapply print_number_good; [eassumption | vm_compute; reflexivity].
Qed.

(** ** Properties *)

(** C31: A call of kprintf that passes the static check of its format, with arguments
    of the kinds the format asks for, never fails: it keeps every screen neat and shown,
    and stays on the current one. *)
Theorem kprintf_type_safe low {D} `{Device D} m fmt ks zs (c : console D) : good low c ->
  format_check fmt = Some ks -> args_in m ks zs ->
  exists c', kprintf m fmt zs c = Ok c' /\ good low c' /\ sb_current c' = sb_current c.
Proof. intros Hg Hf Ha. exact (kprintf_good (low := low) m fmt ks zs c Hg Hf Ha). Qed.

(** Calls of kprintf: the format is checked by computation. *)
Ltac say_step :=
  eapply yields_bind; [eapply say_quiet; [eassumption | vm_compute; reflexivity |] |
    cbv beta; intros].
Ltac say_last := eapply say_quiet; [eassumption | vm_compute; reflexivity |].
Ltac paint_step :=
  eapply yields_bind; [eapply paint_quiet; [apply _ | eassumption] | cbv beta; intros].
Ltac paint_last := eapply paint_quiet; [apply _ | eassumption].

(** ** Witness *)

#[local] Existing Instance no_device.

(** kprintf("%s: %4d", "n", -7) *)
Lemma kprintf_type_safe_witness : exists c c' : console unit,
  kprintf (str "n" ++ [0]) (str "%s: %4d") [0; -7] c = Ok c' /\ good true c'.
Proof.
  destruct booted_console as (c & Hok & E0 & Hv).
  destruct (kprintf_type_safe true (str "n" ++ [0]) (str "%s: %4d") [KText; KInt] [0; -7] c)
    as (c' & E & Hg & _).
  - exists [cleared SB_DFL_COLOR]. split; [exact Hok |].
    split; [apply List.Forall_cons; [apply cleared_neat | done] |]. intros _ i b Hb.
    assert (i = 0%nat) as ->; [| rewrite (Hv b Hb); lia].
    destruct Hok as [Hl _ _]. apply lookup_lt_Some in Hb. cbn [length] in *. lia.
  - vm_compute. reflexivity.
  - split; [| done]. exists (str "n"). split; [| split; [by apply (bool_decide_unpack _); vm_compute | done]].
    apply (lit_cstr []). by apply (bool_decide_unpack _); vm_compute.
  - exists c, c'. exact (conj E Hg).
Defined.

End Machine.
