(* ===== verification/AllocCmd.v ===== *)
(** The alloc builtin against the allocator: kernel/nsh/builtins/alloc.c with
    kernel/memory/kpm.c. *)

From Stdlib Require Import Ascii String.
From Stdlib Require Import ZArith Lia Bool.
From stdpp Require Import base tactics numbers list option gmap.
From S2P Require Import Prelude Port Mem Kpm KpmBits KpmTree KpmOps KpmInit KpmSafety KpmTheorems.
From S2P Require Import Logic Str Print Format Screenbuf Typing Console Builtins Machine.

Local Open Scope Z_scope.

Module AllocCmd.
Import Screenbuf Console Builtins Format Typing Machine.

Definition chunk_format : list Z :=
  str "chunk: {" ++ nl ++ str "    addr = %p" ++ nl ++ str "    size = %u" ++ nl ++ str "}" ++ nl.

Lemma chunk_format_checked : format_check chunk_format = Some [KInt; KInt].
Proof. by vm_compute. Qed.

(** ** The loop *)

(** [k'] is [k] after the chunks [cs] were handed out: each frame of theirs was
    free, and belongs to one of them. *)
Definition handed_out (nf : Z) (k : Kpm.kpm) (cs : list Kpm.kpm_chunk_t) (k' : Kpm.kpm) : Prop :=
  Forall (chunk_ok nf) cs /\
  forall f, 0 <= f < nf -> frame_enabled k' f = frame_enabled k f /\
    Z.b2z (frame_alloc k' f) = Z.b2z (frame_alloc k f) + owners cs f.

Definition total (cs : list Kpm.kpm_chunk_t) : Z := foldr (fun c n => Kpm.chunk_size c + n) 0 cs.

Lemma total_cons c cs : total (c :: cs) = Kpm.chunk_size c + total cs.
Proof. reflexivity. Qed.

Lemma handed_out_nil nf k : handed_out nf k [] k.
Proof. split; [done |]. intros f Hf. split; [done |]. cbn. lia. Qed.

Lemma handed_out_cons nf k k1 k2 chunk size c cs : kpm_inv nf k -> 0 <= size < 2147483648 ->
  Kpm.kpm_alloc k chunk size = Ok (0, c, k1) -> handed_out nf k1 cs k2 ->
  handed_out nf k (c :: cs) k2.
Proof.
  intros Hinv Hs E [Hok Hf].
  destruct (alloc_success nf k chunk size c k1 Hinv ltac:(lia) ltac:(lia) E) as (Hc & _ & Hwas & Hfr).
  split; [by constructor |]. intros f Hr. destruct (Hf f Hr) as [-> ->], (Hfr f Hr) as [-> ->].
  split; [done |]. cbn [owners]. destruct (in_chunk c f) eqn:Ec; cbn [orb Z.b2z]; [| lia].
  destruct (Hwas f Ec) as (_ & -> & _). cbn [Z.b2z]. lia.
Qed.

#[local] Opaque say Kpm.kpm_alloc frame_alloc frame_enabled.

Section loop.
Context {D : Type} `{Device D} (nf : Z).
Implicit Types st : machine D.

(** The parts of the machine that neither the allocator nor output changes. *)
Definition rest st := (kbd st, gdt_st st, idt_st st).

(** The screen [s'] after an operation is as good as [s]. *)
Definition kept st s st' s' : Prop :=
  (front (con st) -> front (con st')) /\ (forall low, neat low s -> neat low s') /\ rest st' = rest st.

Lemma kept_trans st s st1 s1 st2 s2 : kept st s st1 s1 -> kept st1 s1 st2 s2 -> kept st s st2 s2.
Proof. intros (F1 & N1 & E1) (F2 & N2 & E2). split; [auto |]. split; [auto | congruence]. Qed.

(** The printed chunk. *)
Lemma say_chunk a b st ss s : console_ok (con st) ss ->
  ss !! Z.to_nat (sb_current (con st)) = Some s ->
  exists s' st', say [] chunk_format [a; b] st = Ok st' /\ screen_now st ss s' st' /\ kept st s st' s'.
Proof.
  intros Hok Es.
  destruct (say_screen [] chunk_format [KInt; KInt] [a; b] st ss s Hok Es chunk_format_checked I)
    as (s' & st' & E & Hnow & Hfr & Hn). exists s', st'. split; [exact E |]. split; [exact Hnow |].
  split; [exact Hfr |]. split; [exact Hn |]. destruct Hnow as (_ & Eo & _).
  unfold others, rest in *. by injection Eo as -> _ -> ->.
Qed.

Lemma alloc_chunks_step fuel chunk size st : alloc_chunks (S fuel) chunk size st =
  if size >? 0 then
    '(r, chunk, k) ← Kpm.kpm_alloc (kpm_st st) chunk size;
    let st := with_kpm st k in
    if r <? 0 then Ok (-1, st)
    else
      st ← say [] chunk_format [Kpm.chunk_addr chunk; Kpm.chunk_size chunk] st;
      if Kpm.chunk_size chunk >=? size then Ok (0, st)
      else alloc_chunks fuel chunk (u32 (size - Kpm.chunk_size chunk)) st
  else Ok (0, st).
Proof. reflexivity. Qed.
Lemma alloc_chunks_done fuel chunk size st : size <= 0 -> alloc_chunks (S fuel) chunk size st = Ok (0, st).
Proof. intros. rewrite alloc_chunks_step. by destruct (Z.gtb_spec size 0); [lia |]. Qed.

Lemma alloc_chunks_full fuel chunk chunk' size st k : 0 < size ->
  Kpm.kpm_alloc (kpm_st st) chunk size = Ok (-1, chunk', k) ->
  alloc_chunks (S fuel) chunk size st = Ok (-1, with_kpm st k).
Proof. intros Hs E. rewrite alloc_chunks_step, E. by rewrite (proj2 (Z.gtb_lt size 0)). Qed.

Lemma alloc_chunks_next fuel chunk size st c k st2 : 0 < size ->
  Kpm.kpm_alloc (kpm_st st) chunk size = Ok (0, c, k) ->
  say [] chunk_format [Kpm.chunk_addr c; Kpm.chunk_size c] (with_kpm st k) = Ok st2 ->
  alloc_chunks (S fuel) chunk size st =
    if Kpm.chunk_size c >=? size then Ok (0, st2)
    else alloc_chunks fuel c (u32 (size - Kpm.chunk_size c)) st2.
Proof.
  intros Hs E Esay. rewrite alloc_chunks_step, E, (proj2 (Z.gtb_lt size 0)) by done.
  revert Esay. generalize (say (D := D) []), (alloc_chunks (D := D) fuel), chunk_format.
  intros print loop fmt Esay. cbn. by rewrite Esay.
Qed.

Lemma alloc_chunks_covers fuel : forall st ss s chunk size,
  kpm_inv nf (kpm_st st) -> console_ok (con st) ss ->
  ss !! Z.to_nat (sb_current (con st)) = Some s ->
  0 <= size < 2147483648 -> size < 4096 * Z.of_nat fuel ->
  exists r st' cs s', alloc_chunks fuel chunk size st = Ok (r, st') /\
    kpm_inv nf (kpm_st st') /\ handed_out nf (kpm_st st) cs (kpm_st st') /\
    sb_current (con st') = sb_current (con st) /\
    console_ok (con st') (<[Z.to_nat (sb_current (con st)) := s']> ss) /\
    kept st s st' s' /\
    ((r = 0 /\ size <= total cs) \/
     (r = -1 /\ forall f, 0 <= f < nf -> frame_alloc (kpm_st st') f = true)).
Proof.
  induction fuel as [| fuel IH]; intros st ss s chunk size Hinv Hok Es Hs Hf; [lia |].
  destruct (Z.lt_ge_cases 0 size) as [Hpos | Hz].
  2: { exists 0, st, [], s. rewrite alloc_chunks_done by done. split; [reflexivity |]. split; [exact Hinv |].
       split; [apply handed_out_nil |]. split; [reflexivity |].
       split; [by rewrite list_insert_id |]. split; [done |]. left; change (total []) with 0; lia. }
  destruct (alloc_or_full nf (kpm_st st) chunk size Hinv ltac:(lia) ltac:(lia))
    as [(c & k & E & _) | [E Hfull]].
  2: { rewrite (alloc_chunks_full _ _ _ _ _ _ Hpos E).
       exists (-1), (with_kpm st (kpm_st st)), [], s. split; [reflexivity |]. split; [exact Hinv |].
       split; [apply handed_out_nil |]. split; [reflexivity |].
       split; [by rewrite list_insert_id |]. split; [done |]. right; split; [reflexivity | exact Hfull]. }
  destruct (alloc_success nf (kpm_st st) chunk size c k Hinv ltac:(lia) ltac:(lia) E)
    as (Hc & Hinv' & _).
  destruct (chunk_ok_bounds nf c (wf_nf_ok _ _ (inv_wf _ _ Hinv)) Hc) as (_ & Hsz & _).
  set (st1 := with_kpm st k).
  destruct (say_chunk (Kpm.chunk_addr c) (Kpm.chunk_size c) st1 ss s Hok Es) as (s1 & st2 & Esay & Hnow & Hkept).
  rewrite (alloc_chunks_next _ _ _ _ _ _ _ Hpos E Esay).
  pose proof Hnow as (Ecur & Eo & Hok2).
  assert (kpm_st st2 = k) as Ek by (unfold others in Eo; by injection Eo).
  rewrite Z.geb_leb. destruct (Z.leb_spec size (Kpm.chunk_size c)) as [Hle | Hgt].
  - exists 0, st2, [c], s1. rewrite Ek. split; [done |]. split; [done |].
    split; [apply (handed_out_cons nf _ k k chunk size); [assumption | lia | assumption | apply handed_out_nil] |].
    split; [done |]. split; [done |]. split; [exact Hkept |].
    left; rewrite total_cons; change (total []) with 0; lia.
  - rewrite u32_small by lia. rewrite <- Ek in Hinv'.
    destruct (IH st2 _ s1 c (size - Kpm.chunk_size c) Hinv' Hok2) as
      (r & st' & cs & s' & Er & Hi & Hh & Ec & Hok' & Hkept' & Hcase); [| lia | lia |].
    { by apply (screen_lookup st1). }
    exists r, st', (c :: cs), s'. split; [done |]. split; [done |].
    split; [rewrite Ek in Hh; apply (handed_out_cons nf _ k _ chunk size); [assumption | lia | assumption | assumption] |].
    rewrite Ecur in *. split; [done |].
    split; [by rewrite list_insert_insert_eq in Hok' |].
    split; [by apply (kept_trans st1 s st2 s1) |].
    destruct Hcase as [[-> ?] | [-> ?]]; [left; rewrite total_cons; lia | right; split; [reflexivity | assumption]].
Qed.

Lemma paint_eq f st c : set_on_current f (con st) = Ok c -> paint f st = Ok (with_con st c).
Proof. intros E. unfold paint. by rewrite E. Qed.

Lemma alloc_loop_spec st ss s chunk size :
  kpm_inv nf (kpm_st st) -> console_ok (con st) ss ->
  ss !! Z.to_nat (sb_current (con st)) = Some s -> 0 <= size < 2147483648 ->
  exists r st' cs s', alloc_loop chunk size st = Ok (r, st') /\
    kpm_inv nf (kpm_st st') /\ handed_out nf (kpm_st st) cs (kpm_st st') /\
    sb_current (con st') = sb_current (con st) /\ sc_color s' = sc_color s /\
    console_ok (con st') (<[Z.to_nat (sb_current (con st)) := s']> ss) /\
    kept st s st' s' /\
    ((r = 0 /\ size <= total cs) \/
     (r = -1 /\ forall f, 0 <= f < nf -> frame_alloc (kpm_st st') f = true)).
Proof.
  intros Hinv Hok Es Hs. unfold alloc_loop.
  destruct (get_color_ok (con st) ss s Hok Es) as [-> Hcol]. cbn [mbind result_bind].
  set (green := u8 (Z.lor (Z.land (sc_color s) 0xf0) (Z.land (color_val SB_COLOR_GREEN) 0x0f))).
  destruct (set_color_ok (fun b => sb_set_fg b (color_val SB_COLOR_GREEN)) (con st) ss s green Hok Es)
    as (c1 & E1 & Ec1 & Hok1 & Hfr1); [apply u8_range | intros b Hb; unfold sb_set_fg; by rewrite Hb |].
  rewrite (paint_eq _ _ _ E1). cbn [mbind result_bind].
  set (st1 := with_con st c1). set (s1 := mk_screen (sc_lines s) (sc_col s) (sc_view s) green) in *.
  assert ((<[Z.to_nat (sb_current (con st)) := s1]> ss) !! Z.to_nat (sb_current (con st1)) = Some s1) as Es1.
  { cbn [st1 con with_con]. rewrite Ec1. apply list_lookup_insert_eq.
    by apply lookup_lt_Some in Es. }
  change Kpm.PAGE_SIZE with 4096.
  destruct (alloc_chunks_covers (S (Z.to_nat (size / 4096 + 1))) st1 _ s1 chunk size Hinv Hok1 Es1 Hs)
    as (r & st2 & cs & s2 & -> & Hinv2 & Hh & Ec2 & Hok2 & (Hfr2 & Hn2 & Er2) & Hcase); [dlia |].
  cbn [mbind result_bind]. cbn [st1 con with_con kpm_st] in *. rewrite Ec1 in *.
  rewrite list_insert_insert_eq in Hok2.
  assert ((<[Z.to_nat (sb_current (con st)) := s2]> ss) !! Z.to_nat (sb_current (con st2)) = Some s2) as Es2.
  { rewrite Ec2. apply list_lookup_insert_eq. by apply lookup_lt_Some in Es. }
  destruct (set_color_ok (fun b => sb_set_color b (sc_color s)) (con st2) _ s2 (sc_color s) Hok2 Es2 Hcol)
    as (c3 & E3 & Ec3 & Hok3 & Hfr3); [intros b Hb; unfold sb_set_color; by rewrite u8_small |].
  rewrite (paint_eq _ _ _ E3). cbn [mbind result_bind].
  exists r, (with_con st2 c3), cs, (mk_screen (sc_lines s2) (sc_col s2) (sc_view s2) (sc_color s)).
  split; [reflexivity |]. split; [exact Hinv2 |]. split; [exact Hh |]. cbn [con with_con kpm_st].
  split; [congruence |]. split; [reflexivity |]. rewrite Ec2, list_insert_insert_eq in Hok3.
  split; [exact Hok3 |]. split; [| exact Hcase].
  split; [intros; apply Hfr3, Hfr2, Hfr1; assumption |]. split; [| exact Er2].
  intros low Hn. apply recolor_neat, Hn2, (recolor_neat low s green Hn).
Qed.

(** C7: [alloc_loop] ends: it prints and hands out chunks of free pages that cover the
    request together, or it stops with -1 when no page of the machine is free; the
    screen gets its old colour back. *)
Theorem alloc_loop_covers st ss s chunk size :
  kpm_inv nf (kpm_st st) -> console_ok (con st) ss ->
  ss !! Z.to_nat (sb_current (con st)) = Some s -> 0 <= size < 2147483648 ->
  exists r st' cs s', alloc_loop chunk size st = Ok (r, st') /\
    kpm_inv nf (kpm_st st') /\ handed_out nf (kpm_st st) cs (kpm_st st') /\
    sb_current (con st') = sb_current (con st) /\ sc_color s' = sc_color s /\
    console_ok (con st') (<[Z.to_nat (sb_current (con st)) := s']> ss) /\
    ((r = 0 /\ size <= total cs) \/
     (r = -1 /\ forall f, 0 <= f < nf -> frame_alloc (kpm_st st') f = true)).
Proof.
  intros Hinv Hok Es Hs.
  destruct (alloc_loop_spec st ss s chunk size Hinv Hok Es Hs)
    as (r & st' & cs & s' & E & Hi & Hh & Ec & Hcol & Hok' & _ & Hcase).
  exists r, st', cs, s'. repeat (split; [assumption |]). exact Hcase.
Qed.
End loop.

(** ** Witness *)

#[local] Existing Instance no_device.

Definition booted_machine (c : console unit) : machine unit := with_kpm (idle_machine c) boot_state.

Lemma alloc_loop_covers_witness : exists (st : machine unit) r st',
  alloc_loop chunk0 15000 st = Ok (r, st') /\ kpm_inv 1024 (kpm_st st').
Proof.
  destruct booted_console as (c & Hok & E0 & _).
  destruct (alloc_loop_covers 1024 (booted_machine c) [cleared SB_DFL_COLOR] (cleared SB_DFL_COLOR)
    chunk0 15000 boot_inv Hok ltac:(cbn [booted_machine con with_kpm idle_machine]; by rewrite E0) ltac:(lia))
    as (r & st' & cs & s' & E & Hi & _).
  exists (booted_machine c), r, st'. exact (conj E Hi).
Defined.

End AllocCmd.
