(* ===== verification/Nsh.v ===== *)
(** The shell: include/kernel/nsh.h and kernel/nsh/nsh.c.

    [nsh_buf] is the list of its 1024 bytes, [nsh_cmd] the array of pointers
    into it (as indices; [None] is the null pointer). *)

From Stdlib Require Import Ascii String.
From Stdlib Require Import ZArith Lia Bool.
From stdpp Require Import base tactics numbers list option.
From S2P Require Import Prelude Port Mem Kpm Keyboard Desc Str StrTol Print Screenbuf Console Builtins.

Local Open Scope Z_scope.

Module Nsh.
Import Screenbuf Console Builtins.

(** ** State *)

Definition NSH_BUFSIZE : Z := 1024.

Record nsh_state : Type := mk_nsh
  { nsh_buf : list Z; nsh_cmd : list (option Z); nsh_cmdnarg : Z; nsh_bufindex : Z }.

(** The functions the entries of [builtin] point to. *)
Inductive exec : Type :=
  | Reboot | Poweroff | Keymap | Color | Alloc | Free | Info | Clear | Hexdump | Next | Prev
  | Help | Interrupt.

(** struct builtin *)
Record builtin_t : Type := mk_builtin { name : list Z; exec_fn : exec; description : list Z }.

(** The table less its last entry, three null pointers. *)
Definition builtin : list builtin_t :=
  [mk_builtin (str "reboot") Reboot (str "Reboot the machine");
   mk_builtin (str "poweroff") Poweroff (str "Power-off the machine");
   mk_builtin (str "exit") Poweroff (str "Alias of 'poweroff'");
   mk_builtin (str "keymap") Keymap (str "Switch keyboard layout");
   mk_builtin (str "color") Color (str "Change the screen buffer color");
   mk_builtin (str "alloc") Alloc (str "Allocate a memory area");
   mk_builtin (str "free") Free (str "Free a given memory area");
   mk_builtin (str "info") Info (str "Print some information about system");
   mk_builtin (str "clear") Clear (str "Clear the screen buffer");
   mk_builtin (str "hexdump") Hexdump (str "Dump a memory zone");
   mk_builtin (str "next") Next (str "Switch to next screen buffer");
   mk_builtin (str "prev") Prev (str "Switch to prev screen buffer");
   mk_builtin (str "help") Help (str "Print help");
   mk_builtin (str "interrupt") Interrupt (str "Raise an interrupt")].

(** ** nsh_createcmd *)

(** [while (nsh_buf[ibuf] != ' ' && nsh_buf[ibuf] != 0) ibuf++;] *)
Fixpoint skip_word (fuel : nat) (b : list Z) (ibuf : Z) : result Z :=
  match fuel with
  | O => Err OutOfFuel
  | S fuel =>
      c ← Str.rdc b ibuf;
      if negb (c =? 32) && negb (c =? 0) then skip_word fuel b (ibuf + 1) else Ok ibuf
  end.
(** [while (nsh_buf[ibuf] == ' ') ibuf++;] *)
Fixpoint skip_blanks (fuel : nat) (b : list Z) (ibuf : Z) : result Z :=
  match fuel with
  | O => Err OutOfFuel
  | S fuel =>
      c ← Str.rdc b ibuf;
      if c =? 32 then skip_blanks fuel b (ibuf + 1) else Ok ibuf
  end.

Fixpoint createcmd_loop (fuel : nat) (b : list Z) (cmd : list (option Z)) (bufindex ibuf icmd : Z)
    : result (list Z * list (option Z) * Z) :=
  match fuel with
  | O => Err OutOfFuel
  | S fuel =>
      if ibuf <? bufindex then
        c ← Str.rdc b ibuf;
        if negb (c =? 32) && negb (c =? 0) then
          cmd ← wr cmd icmd (Some ibuf);
          ibuf ← skip_word (Str.fuel_for b) b ibuf;
          createcmd_loop fuel b cmd bufindex ibuf (icmd + 1)
        else if c =? 32 then
          b ← wr b ibuf 0;
          ibuf ← skip_blanks (Str.fuel_for b) b (ibuf + 1);
          createcmd_loop fuel b cmd bufindex ibuf icmd
        else createcmd_loop fuel b cmd bufindex ibuf icmd
      else Ok (b, cmd, icmd)
  end.
Definition nsh_createcmd (n : nsh_state) : result nsh_state :=
  '(b, cmd, icmd) ← createcmd_loop (S (Str.fuel_for (nsh_buf n))) (nsh_buf n) (nsh_cmd n)
                      (nsh_bufindex n) 0 0;
  Ok (mk_nsh b cmd icmd (nsh_bufindex n)).

(** ** The shell in the machine *)

Section code.
Context {D : Type} `{Device D} (hw : hardware D).
(** The first value of a local variable of alloc.c, and the bound on the
    polls of the keyboard controller. *)
Context (garbage : Kpm.kpm_chunk_t) (polls : nat).
Implicit Types st : machine D.

Definition nsh_prompt st : result (machine D) :=
  oldcolor ← get_color (con st);
  st ← paint (fun b => sb_set_fg b (color_val SB_COLOR_LIGHT_BLUE)) st;
  st ← say [] (str "nsh$ ") [] st;
  paint (fun b => sb_set_color b oldcolor) st.

(** [memset(nsh_cmd, 0, NSH_BUFSIZE / 2)] clears 512 bytes of pointers of 4 bytes. *)
Definition cleared_pointers : nat := Z.to_nat (NSH_BUFSIZE / 2 / 4).
Definition nsh_newline (n : nsh_state) st : result (nsh_state * machine D) :=
  b ← Mem.memset (nsh_buf n) 0 0 NSH_BUFSIZE;
  let cmd := replicate cleared_pointers None ++ drop cleared_pointers (nsh_cmd n) in
  st ← nsh_prompt st;
  Ok (mk_nsh b cmd 0 0, st).

Definition exec_builtin (e : exec) (argc : Z) (m : list Z) (argv : list (option Z)) st
    : result (Z * machine D) :=
  match e with
  | Reboot => reboot hw polls st
  | Poweroff => poweroff hw st
  | Keymap => keymap argc m argv st
  | Color => color argc m argv st
  | Alloc => alloc garbage argc m argv st
  | Free => free argc m argv st
  | Info => info hw argc m argv st
  | Clear => clear st
  | Hexdump => hexdump hw argc m argv st
  | Next => next st
  | Prev => prev st
  | Help => help (map (fun b => (name b, description b)) builtin) st
  | Interrupt => interrupt hw argc m argv st
  end.

(** The loop on the table; behind its last entry with a name the null pointer
    is compared. *)
Fixpoint execcmd_loop (table : list builtin_t) (n : nsh_state) (cmd0 : Z) st : result (machine D) :=
  match table with
  | [] => Err NullDeref
  | b :: table =>
      e ← strcmp_lit (nsh_buf n) cmd0 (name b);
      if e : bool then
        '(_, st) ← exec_builtin (exec_fn b) (nsh_cmdnarg n) (nsh_buf n) (nsh_cmd n) st; Ok st
      else execcmd_loop table n cmd0 st
  end.
Definition nsh_execcmd (n : nsh_state) st : result (machine D) :=
  p ← rd (nsh_cmd n) 0;
  match p with
  | None => Ok st
  | Some cmd0 => execcmd_loop builtin n cmd0 st
  end.

Definition nsh_shortcut (key : Keyboard.kbd_keycode) st : result (machine D) :=
  match key with
  | Keyboard.KEY_CURSOR_UP => c ← on_current (fun b => sb_scroll b (-1)) (con st); Ok (with_con st c)
  | Keyboard.KEY_CURSOR_DOWN => c ← on_current (fun b => sb_scroll b 1) (con st); Ok (with_con st c)
  | Keyboard.KEY_PAGE_DOWN => c ← on_current sb_scroll_down (con st); Ok (with_con st c)
  | Keyboard.KEY_PAGE_UP => c ← on_current sb_scroll_top (con st); Ok (with_con st c)
  | _ => Ok st
  end.

(** The completion: [while ( *p && *q && *p == *q) p++, q++;], with the rest of
    the name at [q], and the loop that appends it. *)
Fixpoint common (b : list Z) (p : Z) (q : list Z) : result (Z * list Z) :=
  c ← Str.rdc b p;
  match q with
  | [] => Ok (p, q)
  | d :: q' => if negb (c =? 0) && (c =? d) then common b (p + 1) q' else Ok (p, q)
  end.
Fixpoint append_rest (n : nsh_state) (q : list Z) : result nsh_state :=
  match q with
  | [] => Ok n
  | d :: q =>
      if nsh_bufindex n <? NSH_BUFSIZE then
        b ← wr (nsh_buf n) (nsh_bufindex n) d;
        append_rest (mk_nsh b (nsh_cmd n) (nsh_cmdnarg n) (nsh_bufindex n + 1)) q
      else Ok n
  end.
Fixpoint complete_loop (table : list builtin_t) (n : nsh_state) st : result (nsh_state * machine D) :=
  match table with
  | [] => Ok (n, st)
  | e :: table =>
      '(p, q) ← common (nsh_buf n) 0 (name e);
      c ← Str.rdc (nsh_buf n) p;
      if (c =? 0) && negb (bool_decide (q = [])) then
        st ← say (q ++ [0]) (str "%s") [0] st;
        n ← append_rest n q;
        complete_loop table n st
      else complete_loop table n st
  end.

(** nsh_addchar *)
Definition nsh_addchar (n : nsh_state) (c : Z) st : result (nsh_state * machine D) :=
  con' ← on_current sb_scroll_down (con st);
  let st := with_con st con' in
  if c =? 10 then
    st ← say [] nl [] st;
    '(n, st) ←
      (if negb (nsh_bufindex n =? 0)
       then n ← nsh_createcmd n; st ← nsh_execcmd n st; Ok (n, st)
       else Ok (n, st));
    nsh_newline n st
  else if c =? 8 then
    if nsh_bufindex n >? 0 then
      b ← wr (nsh_buf n) (nsh_bufindex n - 1) 0;
      st ← say [] [8] [] st;
      Ok (mk_nsh b (nsh_cmd n) (nsh_cmdnarg n) (nsh_bufindex n - 1), st)
    else Ok (n, st)
  else if c =? 9 then
    if nsh_bufindex n =? 0 then Ok (n, st) else complete_loop builtin n st
  else if nsh_bufindex n <? NSH_BUFSIZE - 1 then
    b ← wr (nsh_buf n) (nsh_bufindex n) (u8 c);
    st ← say [] (str "%c") [c] st;
    Ok (mk_nsh b (nsh_cmd n) (nsh_cmdnarg n) (nsh_bufindex n + 1), st)
  else Ok (n, st).

(** One turn of the loop of nsh: [evt] keeps the last event. *)
Definition nsh_turn (evt : Keyboard.kbd_event) (n : nsh_state) st
    : result (Keyboard.kbd_event * nsh_state * machine D) :=
  '(evt, k, d) ← Keyboard.KBD_geteventbytype polls Keyboard.KEY_PRESSED evt (kbd st)
                   (dev (shared (con st)));
  let st := with_kbd (on_device (fun _ => d) st) k in
  let c := i8 (Keyboard.KBD_getchar evt k) in
  if negb (c =? 0) then '(n, st) ← nsh_addchar n c st; Ok (evt, n, st)
  else st ← nsh_shortcut (Keyboard.evt_key evt) st; Ok (evt, n, st).

(** The endless loop of nsh as a transition system. *)
Inductive nsh_runs : Keyboard.kbd_event * nsh_state * machine D ->
    Keyboard.kbd_event * nsh_state * machine D -> Prop :=
  | nsh_runs_turn evt n st s' : nsh_turn evt n st = Ok s' -> nsh_runs (evt, n, st) s'.
Definition nsh (evt : Keyboard.kbd_event) (n : nsh_state) st
    (s : Keyboard.kbd_event * nsh_state * machine D) : Prop :=
  exists n1 st1, nsh_newline n st = Ok (n1, st1) /\ star nsh_runs (evt, n1, st1) s.
End code.

(** ** The command line *)

(** The buffer holds [text], followed by zeros. *)
Record text_ok (n : nsh_state) (text : list Z) : Prop := mk_text_ok
  { t_size : zlen (nsh_buf n) = NSH_BUFSIZE;
    t_cmd : zlen (nsh_cmd n) = NSH_BUFSIZE / 2 + 1;
    t_len : zlen text < NSH_BUFSIZE;
    t_index : nsh_bufindex n = zlen text;
    t_plain : Forall plain text;
    t_text : forall k, 0 <= k < zlen text -> at_ 0 (nsh_buf n) k = at_ 0 text k;
    t_zero : forall k, zlen text <= k < NSH_BUFSIZE -> at_ 0 (nsh_buf n) k = 0 }.

Lemma text_cstr n text : text_ok n text -> Str.cstr (nsh_buf n) 0 text.
Proof.
  intros []. pose proof (zlen_nonneg text).
  apply cstr_cells; [lia | done | lia | |].
  - intros k Hk. rewrite Z.add_0_l. by apply t_text0.
  - rewrite Z.add_0_l. apply t_zero0. lia.
Qed.

(** The words between the blanks. *)
Fixpoint words (l : list Z) : list (list Z) :=
  match l with
  | [] => []
  | c :: l =>
      if c =? 32 then words l
      else match l with
           | [] => [[c]]
           | d :: _ => if d =? 32 then [c] :: words l
                       else match words l with [] => [[c]] | w :: ws => (c :: w) :: ws end
           end
  end.

Definition no_blank (w : list Z) : Prop := Forall (fun c => c <> 32) w.
Definition word_end (l : list Z) : Prop := match l with [] => True | c :: _ => c = 32 end.

Lemma words_cons w l : w <> [] -> no_blank w -> word_end l -> words (w ++ l) = w :: words l.
Proof.
  intros Hne Hw Hl. induction w as [| c w IH]; [done |]. apply List.Forall_cons_iff in Hw as [Hc Hw].
  cbn [app words]. rewrite (proj2 (Z.eqb_neq c 32)) by done.
  destruct w as [| d w].
  - destruct l as [| x l]; [done |]. cbn [app]. cbn [word_end] in Hl. by rewrite Hl.
  - specialize (IH ltac:(done) Hw). apply List.Forall_cons_iff in Hw as [Hd _].
    cbn [app]. rewrite (proj2 (Z.eqb_neq d 32)) by done. cbn [app] in IH. by rewrite IH.
Qed.

Lemma words_blanks k l : words (repeat 32 k ++ l) = words l.
Proof. induction k; [done | by cbn]. Qed.

Lemma split_word l : exists w r, l = w ++ r /\ no_blank w /\ word_end r.
Proof.
  induction l as [| c l (w & r & -> & Hw & Hr)]; [exists [], []; split; [done |]; split; [constructor | done] |].
  destruct (Z.eq_dec c 32) as [-> | Hc].
  - exists [], (32 :: w ++ r). split; [done |]. split; [constructor | done].
  - exists (c :: w), r. split; [done |]. split; [by constructor | done].
Qed.

Lemma split_blanks l : exists k r, l = repeat 32 k ++ r /\ match r with [] => True | c :: _ => c <> 32 end.
Proof.
  induction l as [| c l (k & r & -> & Hr)]; [by exists O, [] |].
  destruct (Z.eq_dec c 32) as [-> | Hc]; [by exists (S k), r | by exists O, (c :: repeat 32 k ++ r)].
Qed.

(** [r] is what is left of the line from [p] on. *)
Definition rest (b : list Z) (p : Z) (r : list Z) : Prop :=
  0 <= p /\ p + zlen r < zlen b /\ Forall plain r /\
  (forall k, 0 <= k < zlen r -> at_ 0 b (p + k) = at_ 0 r k) /\ at_ 0 b (p + zlen r) = 0.

Lemma rest_tail b p c r : rest b p (c :: r) -> rest b (p + 1) r.
Proof.
  intros (H0 & H1 & H2 & H3 & H4). rewrite zlen_cons in *.
  apply List.Forall_cons_iff in H2 as [_ H2]. pose proof (zlen_nonneg r).
  split; [lia |]. split; [lia |]. split; [done |]. split.
  - intros k Hk. replace (p + 1 + k) with (p + (k + 1)) by lia. rewrite H3 by lia.
    rewrite at_cons. destruct (Z.eqb_spec (k + 1) 0); [lia |]. f_equal. lia.
  - by replace (p + 1 + zlen r) with (p + (zlen r + 1)) by lia.
Qed.

Lemma rest_app b p w r : rest b p (w ++ r) -> rest b (p + zlen w) r.
Proof.
  revert p. induction w as [| c w IH]; intros p Hr; [by rewrite Z.add_0_r |].
  cbn [app] in Hr. apply rest_tail, IH in Hr. rewrite zlen_cons.
  by replace (p + (zlen w + 1)) with (p + 1 + zlen w) by lia.
Qed.

(** The character at [p], 0 at the end. *)
Lemma rest_rdc b p r : rest b p r -> Str.rdc b p = Ok (Str.head r) /\ at_ 0 b p = Str.head r.
Proof.
  intros (H0 & H1 & H2 & H3 & H4). pose proof (zlen_nonneg r).
  rewrite Str.rdc_ok by lia. destruct r as [| c r]; cbn [Str.head].
  - rewrite Z.add_0_r in H4. by rewrite H4.
  - rewrite zlen_cons in *. pose proof (H3 0 ltac:(pose proof (zlen_nonneg r); lia)) as E.
    rewrite Z.add_0_r, at_cons in E. cbn [Z.eqb] in E. rewrite E.
    apply List.Forall_cons_iff in H2 as [Hc _]. by rewrite plain_i8.
Qed.

Lemma skip_word_spec b w r : no_blank w -> word_end r -> forall p fuel,
  rest b p (w ++ r) -> (length w < fuel)%nat -> skip_word fuel b p = Ok (p + zlen w).
Proof.
  intros Hw He. induction w as [| c w IH]; intros p fuel Hr Hf;
    (destruct fuel as [| fuel]; [cbn in Hf; lia |]); cbn [skip_word];
    destruct (rest_rdc _ _ _ Hr) as [-> _]; cbn [mbind result_bind app Str.head].
  - rewrite Z.add_0_r. destruct r as [| x r]; [done |]. cbn [Str.head word_end] in *. by rewrite He.
  - apply List.Forall_cons_iff in Hw as [Hc Hw].
    assert (c <> 0) as H0 by (destruct Hr as (_ & _ & Hp & _); apply Forall_inv in Hp; unfold plain in Hp; lia).
    rewrite (proj2 (Z.eqb_neq c 32)), (proj2 (Z.eqb_neq c 0)) by done. cbn [negb andb].
    cbn [app] in Hr. apply rest_tail in Hr. rewrite IH; [| done | done | cbn [length] in Hf; lia].
    rewrite zlen_cons. f_equal. lia.
Qed.

Lemma skip_blanks_spec b k r : match r with [] => True | c :: _ => c <> 32 end -> forall p fuel,
  rest b p (repeat 32 k ++ r) -> (k < fuel)%nat -> skip_blanks fuel b p = Ok (p + Z.of_nat k).
Proof.
  intros He. induction k as [| k IH]; intros p fuel Hr Hf;
    (destruct fuel as [| fuel]; [lia |]); cbn [skip_blanks];
    destruct (rest_rdc _ _ _ Hr) as [-> _]; cbn [mbind result_bind app repeat Str.head].
  - rewrite Z.add_0_r. destruct r as [| x r]; [done |]. cbn [Str.head].
    by rewrite (proj2 (Z.eqb_neq x 32)).
  - cbn [app repeat] in Hr. apply rest_tail in Hr. cbn [Z.eqb Pos.eqb].
    rewrite IH; [f_equal; lia | done | lia].
Qed.

(** The words found so far: their pointers, and the terminator each has or gets
    with the next blank. *)
Definition placed (b : list Z) (cmd : list (option Z)) (ibuf : Z) (r : list Z) (ws : list (list Z)) : Prop :=
  forall i w, ws !! i = Some w -> exists p, cmd !! i = Some (Some p) /\ 0 <= p /\
    p + zlen w <= ibuf /\ Forall plain w /\
    (forall k, 0 <= k < zlen w -> at_ 0 b (p + k) = at_ 0 w k) /\
    (at_ 0 b (p + zlen w) = 0 \/ (p + zlen w = ibuf /\ word_end r)).

Lemma placed_word b cmd p w r ws : placed b cmd p (w ++ r) ws -> rest b p (w ++ r) -> w <> [] ->
  no_blank w -> word_end r -> zlen ws < zlen cmd ->
  placed b (<[length ws := Some p]> cmd) (p + zlen w) r (ws ++ [w]).
Proof.
  intros Hp Hr Hne Hw Hend Hl i w' Hi. unfold zlen in Hl.
  destruct (decide (i = length ws)) as [-> | Hne'].
  - rewrite list_lookup_middle in Hi by done. injection Hi as <-.
    destruct Hr as (H0 & H1 & H2 & H3 & H4). rewrite zlen_app in *. pose proof (zlen_nonneg r).
    exists p. rewrite list_lookup_insert_eq by lia. split; [done |]. split; [done |]. split; [lia |].
    split; [by apply Forall_app in H2 as [? _] |]. split; [| right; done].
    intros k Hk. rewrite H3 by lia. by apply Print.at_app_l.
  - assert (ws !! i = Some w') as Hi'.
    { apply lookup_app_Some in Hi as [Hi | [Hge Hi]]; [done |].
      apply list_lookup_singleton_Some in Hi as [Hi _]. lia. }
    destruct (Hp i w' Hi') as (q & Hq & H0 & H1 & H2 & H3 & H4). exists q.
    rewrite list_lookup_insert_ne by done. pose proof (zlen_nonneg w).
    split; [done |]. split; [done |]. split; [lia |]. split; [done |]. split; [done |].
    destruct H4 as [H4 | [_ H4]]; [by left |]. destruct w as [| c w]; [done |].
    apply List.Forall_cons_iff in Hw as [Hc _]. done.
Qed.

Lemma placed_blank b cmd p k r ws : placed b cmd p (repeat 32 (S k) ++ r) ws -> 0 <= p < zlen b ->
  placed (<[Z.to_nat p := 0]> b) cmd (p + 1 + Z.of_nat k) r ws.
Proof.
  intros Hp Hb i w Hi. destruct (Hp i w Hi) as (q & Hq & H0 & H1 & H2 & H3 & H4). exists q.
  pose proof (zlen_nonneg w). split; [done |]. split; [done |]. split; [lia |]. split; [done |]. split.
  - intros j Hj. rewrite at_insert by lia. destruct (Z.eqb_spec (q + j) p); [lia | auto].
  - left. rewrite at_insert by lia. destruct (Z.eqb_spec (q + zlen w) p); [done |].
    destruct H4 as [? | [? _]]; [done | lia].
Qed.

Lemma rest_write b p c r : rest b p (c :: r) -> rest (<[Z.to_nat p := 0]> b) (p + 1) r.
Proof.
  intros Hr. pose proof Hr as (Hp & Hl & _). rewrite zlen_cons in Hl.
  apply rest_tail in Hr as (H0 & H1 & H2 & H3 & H4). pose proof (zlen_nonneg r).
  split; [lia |]. rewrite zlen_insert. split; [done |]. split; [done |]. split.
  - intros k Hk. rewrite at_insert by lia. destruct (Z.eqb_spec (p + 1 + k) p); [lia | auto].
  - rewrite at_insert by lia. by destruct (Z.eqb_spec (p + 1 + zlen r) p); [lia |].
Qed.

Definition split_ok (b : list Z) (cmd cmd0 : list (option Z)) (ws : list (list Z)) : Prop :=
  zlen cmd = zlen cmd0 /\
  (forall i w, ws !! i = Some w -> exists p, cmd !! i = Some (Some p) /\ Str.cstr b p w) /\
  (forall i, (length ws <= i)%nat -> cmd !! i = cmd0 !! i).

(** The loop with the text [r] still to be split at [ibuf], and the words [ws]
    found before it. *)
Record splitting (bufindex : Z) (b : list Z) (cmd : list (option Z)) (ibuf : Z) (r : list Z)
    (ws : list (list Z)) : Prop := mk_splitting
  { sp_rest : rest b ibuf r;
    sp_buf : zlen b = NSH_BUFSIZE;
    sp_cmd : zlen cmd = NSH_BUFSIZE / 2 + 1;
    sp_end : bufindex = ibuf + zlen r;
    sp_placed : placed b cmd ibuf r ws;
    sp_room : 2 * zlen ws <= ibuf \/ (2 * zlen ws <= ibuf + 1 /\ word_end r) }.

(** The turn over [k + 1] blanks: the first becomes a terminator. *)
Lemma splitting_blanks bufindex b cmd ibuf k r ws :
  splitting bufindex b cmd ibuf (32 :: repeat 32 k ++ r) ws ->
  match r with [] => True | c :: _ => c <> 32 end ->
  wr b ibuf 0 = Ok (<[Z.to_nat ibuf := 0]> b) /\
  skip_blanks (Str.fuel_for (<[Z.to_nat ibuf := 0]> b)) (<[Z.to_nat ibuf := 0]> b) (ibuf + 1)
    = Ok (ibuf + 1 + Z.of_nat k) /\
  splitting bufindex (<[Z.to_nat ibuf := 0]> b) cmd (ibuf + 1 + Z.of_nat k) r ws.
Proof.
  intros [Hr Hb Hcmd Hidx Hp H2] Hend. pose proof Hr as (Hi0 & Hi1 & _).
  rewrite zlen_cons, zlen_app, zlen_repeat in *. pose proof (zlen_nonneg r).
  pose proof (rest_write b ibuf 32 (repeat 32 k ++ r) Hr) as Hr1.
  split; [apply wr_ok; lia |]. split.
  - apply (skip_blanks_spec _ k r Hend (ibuf + 1)); [done |].
    unfold Str.fuel_for. rewrite length_insert. unfold zlen in *. lia.
  - split; [| by rewrite zlen_insert | done | lia | | lia].
    + rewrite <- (zlen_repeat 32 k). by apply rest_app.
    + apply placed_blank; [done | lia].
Qed.

(** The turn over a word. *)
Lemma splitting_word bufindex b cmd ibuf w r ws :
  splitting bufindex b cmd ibuf (w ++ r) ws -> w <> [] -> no_blank w -> word_end r ->
  wr cmd (zlen ws) (Some ibuf) = Ok (<[length ws := Some ibuf]> cmd) /\
  skip_word (Str.fuel_for b) b ibuf = Ok (ibuf + zlen w) /\
  splitting bufindex b (<[length ws := Some ibuf]> cmd) (ibuf + zlen w) r (ws ++ [w]).
Proof.
  intros [Hr Hb Hcmd Hidx Hp H2] Hne Hw Hend. pose proof Hr as (Hi0 & Hi1 & _).
  rewrite zlen_app in *. pose proof (zlen_nonneg r). pose proof (zlen_nonneg ws).
  change (NSH_BUFSIZE / 2 + 1) with 513 in *. change NSH_BUFSIZE with 1024 in *.
  assert (1 <= zlen w) as Hw1.
  { destruct w; [done |]. rewrite zlen_cons. pose proof (zlen_nonneg w). lia. }
  assert (2 * zlen ws <= ibuf) as H2w.
  { destruct H2 as [? | [_ Hwe]]; [done |]. destruct w as [| c w]; [done |].
    apply List.Forall_cons_iff in Hw as [Hc _]. done. }
  split; [| split].
  - rewrite wr_ok by lia. by replace (Z.to_nat (zlen ws)) with (length ws) by (unfold zlen; lia).
  - apply (skip_word_spec b w r Hw Hend ibuf); [done | unfold Str.fuel_for, zlen in *; lia].
  - split; [by apply rest_app | done | by rewrite zlen_insert | lia | |].
    + apply placed_word; try done. lia.
    + right. rewrite zlen_app. change (zlen [w]) with 1. split; [lia | done].
Qed.

Lemma splitting_done bufindex b cmd ibuf ws : splitting bufindex b cmd ibuf [] ws -> split_ok b cmd cmd ws.
Proof.
  intros [Hr _ _ _ Hp _]. split; [done |].
  split; [| done]. intros i w Hi. destruct (Hp i w Hi) as (p & Hq & H0 & H1 & Hw & H3 & H4).
  exists p. split; [done |]. destruct Hr as (_ & Hl & _ & _ & Hz). change (zlen []) with 0 in *.
  apply cstr_cells; try done; [lia |]. destruct H4 as [? | [-> _]]; [done |].
  by rewrite Z.add_0_r in Hz.
Qed.

Lemma createcmd_loop_spec bufindex : forall fuel b cmd ibuf r ws,
  splitting bufindex b cmd ibuf r ws -> zlen r < Z.of_nat fuel ->
  exists b' cmd', createcmd_loop fuel b cmd bufindex ibuf (zlen ws) = Ok (b', cmd', zlen (ws ++ words r)) /\
    zlen b' = zlen b /\ split_ok b' cmd' cmd (ws ++ words r).
Proof.
  induction fuel as [| fuel IH]; intros b cmd ibuf r ws Hs Hf; [pose proof (zlen_nonneg r); lia |].
  pose proof (sp_rest _ _ _ _ _ _ Hs) as Hr. pose proof (sp_end _ _ _ _ _ _ Hs) as Hidx.
  cbn [createcmd_loop]. destruct r as [| c r0].
  { rewrite (proj2 (Z.ltb_ge _ _)) by (change (zlen []) with 0 in *; lia).
    cbn [words]. rewrite app_nil_r. exists b, cmd. split; [done |]. split; [done |].
    by apply splitting_done with bufindex ibuf. }
  pose proof (zlen_nonneg r0). rewrite zlen_cons in *. rewrite (proj2 (Z.ltb_lt _ _)) by lia.
  destruct (rest_rdc _ _ _ Hr) as [-> _]. cbn [mbind result_bind Str.head].
  destruct Hr as (_ & _ & Hpl & _). apply Forall_inv in Hpl.
  rewrite (proj2 (Z.eqb_neq c 0)) by (unfold plain in Hpl; lia). rewrite andb_true_r.
  destruct (Z.eqb_spec c 32) as [-> | Hc]; cbn [negb].
  - destruct (split_blanks r0) as (k & r' & -> & Hr').
    destruct (splitting_blanks _ _ _ _ _ _ _ Hs Hr') as (-> & E & Hs'). cbn [mbind result_bind].
    rewrite E. cbn [mbind result_bind]. rewrite zlen_app in Hf. pose proof (zlen_nonneg (repeat 32 k)).
    change (32 :: repeat 32 k ++ r') with (repeat 32 (S k) ++ r'). rewrite words_blanks.
    destruct (IH _ _ _ _ _ Hs') as (b' & cmd' & E' & El & Hok); [lia |].
    exists b', cmd'. split; [done |]. rewrite zlen_insert in El. by split.
  - destruct (split_word (c :: r0)) as (w & r' & E & Hw & Hend).
    assert (w <> []) as Hne by (intros ->; cbn in E; subst r'; cbn in Hend; lia).
    rewrite <- zlen_cons with (x := c) in Hf. rewrite E in *.
    destruct (splitting_word _ _ _ _ _ _ _ Hs Hne Hw Hend) as (-> & E1 & Hs'). cbn [mbind result_bind].
    rewrite E1. cbn [mbind result_bind]. rewrite words_cons by done.
    assert (1 <= zlen w).
    { destruct w; [done |]. rewrite zlen_cons. pose proof (zlen_nonneg w). lia. }
    rewrite zlen_app in Hf. destruct (IH _ _ _ _ _ Hs') as (b' & cmd' & E' & El & Hl & Hp & Hk); [lia |].
    rewrite (zlen_app ws [w]), <- app_assoc in E'. rewrite <- ?app_assoc, ?zlen_insert in *. cbn [app] in *.
    exists b', cmd'. split; [exact E' |]. split; [done |]. split; [done |]. split; [done |].
    intros i Hi. rewrite Hk by done. apply list_lookup_insert_ne.
    rewrite length_app in Hi. cbn [length] in Hi. lia.
Qed.

Lemma createcmd_spec n text : text_ok n text ->
  exists n', nsh_createcmd n = Ok n' /\ nsh_cmdnarg n' = zlen (words text) /\
    zlen (nsh_buf n') = NSH_BUFSIZE /\
    split_ok (nsh_buf n') (nsh_cmd n') (nsh_cmd n) (words text).
Proof.
  intros Ht. pose proof Ht as []. pose proof (zlen_nonneg text).
  destruct (createcmd_loop_spec (nsh_bufindex n) (S (Str.fuel_for (nsh_buf n))) (nsh_buf n)
    (nsh_cmd n) 0 text []) as (b & cmd & E & El & Hs).
  - split; try done; try lia; [| left; change (zlen []) with 0; lia].
    split; [lia |]. split; [lia |]. split; [done |]. split.
    + intros k Hk. rewrite Z.add_0_l. by apply t_text0.
    + rewrite Z.add_0_l. apply t_zero0. lia.
  - unfold Str.fuel_for, zlen in *. lia.
  - unfold nsh_createcmd. change (zlen []) with 0 in E. rewrite E. cbn [mbind result_bind app] in *.
    eexists. split; [done |]. split; [done |]. cbn [nsh_buf nsh_cmd]. split; [lia | done].
Qed.

(** The entry of the table with this name. *)
Definition find_builtin (table : list builtin_t) (w : list Z) : option builtin_t :=
  List.find (fun b => bool_decide (name b = w)) table.

Lemma strcmp_lit_spec m p l s : Str.cstr m p l -> Forall plain s ->
  strcmp_lit m p s = Ok (bool_decide (l = s)).
Proof.
  intros Hp Hs. unfold strcmp_lit.
  assert (Str.cstr (lit m s) p l) as Hp' by by apply Print.cstr_extend.
  rewrite (Str.strcmp_spec _ _ _ _ _ Hp' (lit_cstr m s Hs)). cbn [mbind result_bind].
  f_equal. assert (Str.cmp l s = 0 <-> l = s) as Hz
    by (apply Str.cmp_zero; [exact (Str.cstr_nonzero _ _ _ Hp') | exact (Str.cstr_nonzero _ _ _ (lit_cstr m s Hs))]).
  case_bool_decide; destruct (Z.eqb_spec (Str.cmp l s) 0); tauto.
Qed.

Lemma builtin_names : Forall (fun b => Forall plain (name b) /\ zlen (name b) <= 9 /\ Forall (fun c => c <> 8) (name b)) builtin.
Proof. by apply (bool_decide_unpack _); vm_compute. Qed.

(** ** Editing *)

(** The name a non-empty text is completed to: the first one of the table it is
    a proper prefix of, and again for the result. *)
Definition complete (names : list (list Z)) (text : list Z) : list Z :=
  foldl (fun t q => if bool_decide (t `prefix_of` q /\ t <> q) then q else t) text names.

(** The text after the key [c] (not Enter), and what goes to the screen. *)
Definition edit (text : list Z) (c : Z) : list Z * list Z :=
  if c =? 8 then
    match text with [] => ([], []) | _ => (take (length text - 1) text, [8]) end
  else if c =? 9 then
    match text with
    | [] => ([], [])
    | _ => let t := complete (map name builtin) text in (t, drop (length text) t)
    end
  else if zlen text <? NSH_BUFSIZE - 1 then (text ++ [c], [c]) else (text, []).

Lemma text_append n text c : text_ok n text -> plain c -> zlen text < NSH_BUFSIZE - 1 ->
  exists b, wr (nsh_buf n) (nsh_bufindex n) c = Ok b /\
    text_ok (mk_nsh b (nsh_cmd n) (nsh_cmdnarg n) (nsh_bufindex n + 1)) (text ++ [c]).
Proof.
  intros [] Hc Hl. pose proof (zlen_nonneg text).
  assert (zlen (text ++ [c]) = zlen text + 1) as El by (by rewrite zlen_app).
  rewrite t_index0. eexists. split; [apply wr_ok; lia |].
  split; cbn [nsh_buf nsh_cmd nsh_bufindex]; rewrite ?El, ?zlen_insert; try done; try lia.
  - apply Forall_app. split; [done |]. by constructor.
  - intros k Hk. rewrite at_insert by lia. destruct (Z.eqb_spec k (zlen text)) as [-> | Hne].
    + rewrite at_app by lia. destruct (Z.ltb_spec (zlen text) (zlen text)); [lia |].
      by rewrite Z.sub_diag.
    + rewrite t_text0 by lia. rewrite at_app by lia.
      by destruct (Z.ltb_spec k (zlen text)); [| lia].
  - intros k Hk. rewrite at_insert by lia. destruct (Z.eqb_spec k (zlen text)); [lia |]. apply t_zero0. lia.
Qed.

Lemma text_erase n text : text_ok n text -> text <> [] ->
  exists b, wr (nsh_buf n) (nsh_bufindex n - 1) 0 = Ok b /\
    text_ok (mk_nsh b (nsh_cmd n) (nsh_cmdnarg n) (nsh_bufindex n - 1)) (take (length text - 1) text).
Proof.
  intros [] Hne. assert (1 <= zlen text) as H1 by (destruct text; [done |]; rewrite zlen_cons; pose proof (zlen_nonneg text); lia).
  assert (zlen (take (length text - 1) text) = zlen text - 1) as El
    by (unfold zlen in *; rewrite length_take; lia).
  rewrite t_index0. eexists. split; [apply wr_ok; lia |].
  split; cbn [nsh_buf nsh_cmd nsh_bufindex]; rewrite ?El, ?zlen_insert; try done; try lia.
  - by apply Forall_take.
  - intros k Hk. rewrite at_insert by lia. destruct (Z.eqb_spec k (zlen text - 1)); [lia |].
    rewrite t_text0 by lia. symmetry. apply at_take. unfold zlen in *. lia.
  - intros k Hk. rewrite at_insert by lia. destruct (Z.eqb_spec k (zlen text - 1)); [done |].
    apply t_zero0. lia.
Qed.

Lemma append_rest_spec q : forall n text, text_ok n text -> Forall plain q ->
  zlen text + zlen q < NSH_BUFSIZE ->
  exists n', append_rest n q = Ok n' /\ text_ok n' (text ++ q) /\ nsh_cmd n' = nsh_cmd n.
Proof.
  induction q as [| d q IH]; intros n text Ht Hq Hl.
  - exists n. by rewrite app_nil_r.
  - apply List.Forall_cons_iff in Hq as [Hd Hq]. rewrite zlen_cons in Hl. pose proof (zlen_nonneg q).
    cbn [append_rest]. rewrite (t_index n text Ht).
    rewrite (proj2 (Z.ltb_lt (zlen text) NSH_BUFSIZE)) by lia.
    destruct (text_append n text d Ht Hd ltac:(lia)) as (b & E & Ht').
    rewrite (t_index n text Ht) in E, Ht'. rewrite E. cbn [mbind result_bind].
    destruct (IH _ _ Ht' Hq) as (n' & E' & Ht'' & Hc); [rewrite zlen_app; change (zlen [d]) with 1; lia |].
    exists n'. split; [done |]. split; [by rewrite <- app_assoc in Ht'' | done].
Qed.

(** What the search of the completion finds. *)
Lemma common_spec b q : forall t p, Str.cstr b p t ->
  exists p' q' c, common b p q = Ok (p', q') /\ Str.rdc b p' = Ok c /\
    ((c = 0 /\ q = t ++ q') \/ (c <> 0 /\ ~ t `prefix_of` q)).
Proof.
  induction q as [| d q IH]; intros t p Ht; cbn [common].
  - destruct t as [| x t].
    + inversion Ht as [r Hr |]; subst. rewrite Hr. cbn [mbind result_bind].
      exists p, [], 0. split; [done |]. split; [done |]. by left.
    + apply Str.cstr_inv in Ht as (Hr & Hx & _). rewrite Hr. cbn [mbind result_bind].
      exists p, [], x. split; [done |]. split; [done |]. right. split; [done |].
      intros [? ?]. done.
  - destruct t as [| x t].
    + inversion Ht as [r Hr |]; subst. rewrite Hr. cbn [mbind result_bind].
      exists p, (d :: q), 0. split; [done |]. split; [done |]. by left.
    + apply Str.cstr_inv in Ht as (Hr & Hx & Ht). rewrite Hr. cbn [mbind result_bind].
      rewrite (proj2 (Z.eqb_neq x 0)) by done. cbn [negb andb].
      destruct (Z.eqb_spec x d) as [-> | Hne].
      * destruct (IH t (p + 1) Ht) as (p' & q' & c & E & Hc & Hcase). exists p', q', c.
        split; [done |]. split; [done |]. destruct Hcase as [[H0 ->] | [H0 Hn]]; [by left |].
        right. split; [done |]. intros Hpre. apply prefix_cons_inv_2 in Hpre. by apply Hn.
      * exists p, (d :: q), x. split; [done |]. split; [done |]. right. split; [done |].
        intros Hpre. by apply prefix_cons_inv_1 in Hpre.
Qed.

Lemma complete_extends names : forall t, t `prefix_of` complete names t.
Proof.
  induction names as [| q names IH]; intros t; [done |]. unfold complete. cbn [foldl].
  case_bool_decide as Hq; [| apply IH]. destruct Hq as [Hq _]. etransitivity; [exact Hq | apply IH].
Qed.

Lemma complete_drop names t q : drop (length t) (complete names (t ++ q)) =
  q ++ drop (length (t ++ q)) (complete names (t ++ q)).
Proof.
  destruct (complete_extends names (t ++ q)) as [z ->].
  rewrite <- app_assoc, drop_app_length, app_assoc, drop_app_length. done.
Qed.

Section editing.
Context {D : Type} `{Device D} (hw : hardware D) (garbage : Kpm.kpm_chunk_t) (polls : nat).
Implicit Types st : machine D.

Lemma puts_app l1 l2 : forall s, puts s (l1 ++ l2) = puts s l1 ≫= (fun s => puts s l2).
Proof.
  induction l1 as [| c l1 IH]; intros s; [done |]. cbn [app puts].
  destruct (putchar s c); [apply IH | done].
Qed.

Definition name_ok (q : list Z) : Prop :=
  Forall plain q /\ zlen q <= 9 /\ Forall (fun c => c <> 8) q.

Lemma name_tail t q : name_ok (t ++ q) -> name_ok q.
Proof.
  intros (H1 & H2 & H3). apply Forall_app in H1 as [_ H1]. apply Forall_app in H3 as [_ H3].
  rewrite zlen_app in H2. pose proof (zlen_nonneg t). split; [done |]. split; [lia | done].
Qed.

Lemma name_no_backspace q : name_ok q -> ~ In 8 q.
Proof. intros (_ & _ & H3) Hin. rewrite List.Forall_forall in H3. by apply (H3 8). Qed.

(** kprintf("%s", q) *)
Lemma say_name q st ss s s' : console_ok (con st) ss ->
  ss !! Z.to_nat (sb_current (con st)) = Some s -> name_ok q -> puts s q = Some s' ->
  exists st', say (q ++ [0]) (str "%s") [0] st = Ok st' /\ screen_now st ss s' st' /\
    (front (con st) -> front (con st')).
Proof.
  intros Hok Es Hq Hs. pose proof Hq as (H1 & H2 & _).
  apply (say_ok (q ++ [0]) (str "%s") [Print.Text 0 q] q st ss s s' Hok Es); try done; try lia.
  - by repeat constructor.
  - constructor; [| done]. apply Print.cstr_extend. apply (lit_cstr [] q H1).
  - change (str "%s") with [37; 115]. cbn. by rewrite app_nil_r, map_u8_plain.
  - intros Hin. by apply name_no_backspace in Hin.
Qed.

Lemma complete_loop_ok table : forall n text st ss s s',
  Forall (fun b => name_ok (name b)) table -> text_ok n text -> console_ok (con st) ss ->
  ss !! Z.to_nat (sb_current (con st)) = Some s ->
  puts s (drop (length text) (complete (map name table) text)) = Some s' ->
  exists n' st', complete_loop table n st = Ok (n', st') /\
    text_ok n' (complete (map name table) text) /\ nsh_cmd n' = nsh_cmd n /\
    screen_now st ss s' st' /\ (front (con st) -> front (con st')).
Proof.
  induction table as [| e table IH]; intros n text st ss s s' Hn Ht Hok Es Hs.
  - cbn [map complete foldl] in *. rewrite drop_all in Hs. injection Hs as <-.
    exists n, st. split; [done |]. split; [done |]. split; [done |]. split; [by apply screen_same | done].
  - apply List.Forall_cons_iff in Hn as [Hname Hn]. cbn [complete_loop].
    destruct (common_spec (nsh_buf n) (name e) text 0 (text_cstr n text Ht))
      as (p' & q' & c & -> & Hc & Hcase).
    cbn [mbind result_bind]. rewrite Hc. cbn [mbind result_bind].
    unfold complete in *. cbn [map foldl] in *.
    destruct Hcase as [[-> E] | [Hc0 Hno]].
    2: { rewrite (proj2 (Z.eqb_neq c 0)) by done. cbn [andb].
         rewrite bool_decide_eq_false_2 in * by (intros [? _]; done). by apply IH with s. }
    cbn [Z.eqb andb]. destruct (decide (q' = [])) as [-> | Hq].
    + rewrite bool_decide_eq_true_2 by done. cbn [negb]. rewrite app_nil_r in E.
      rewrite bool_decide_eq_false_2 in * by (intros [_ ?]; congruence). by apply IH with s.
    + rewrite bool_decide_eq_false_2 by done. cbn [negb]. rewrite E in *.
      rewrite bool_decide_eq_true_2 in *.
      2-3: split; [by eexists |]; intros Et; apply Hq, (app_inv_head text); by rewrite app_nil_r.
      fold (complete (map name table) (text ++ q')) in *. rewrite complete_drop, puts_app in Hs.
      apply bind_Some in Hs as (s1 & Hs1 & Hs). pose proof (name_tail _ _ Hname) as Hq'.
      destruct (say_name q' st ss s s1 Hok Es Hq' Hs1) as (st1 & -> & Hnow & Hfr). cbn [mbind result_bind].
      destruct (append_rest_spec q' n text Ht) as (n1 & -> & Ht1 & Hc1); [apply Hq' | |].
      { destruct Hname as (_ & Hl & _). rewrite zlen_app in Hl. unfold NSH_BUFSIZE. lia. }
      cbn [mbind result_bind]. pose proof Hnow as (Ecur & _ & Hok1).
      destruct (IH n1 (text ++ q') st1 _ s1 s' Hn Ht1 Hok1) as (n2 & st2 & E2 & Ht2 & Hc2 & Hnow2 & Hfr2).
      * by apply screen_lookup.
      * done.
      * exists n2, st2. split; [done |]. split; [done |]. split; [congruence |].
        split; [by apply screen_trans with st1 s1 | auto].
Qed.

Lemma names_ok : Forall (fun b => name_ok (name b)) builtin.
Proof. apply builtin_names. Qed.

(** The first statement of nsh_addchar. *)
Lemma bottom_ok st ss s : console_ok (con st) ss ->
  ss !! Z.to_nat (sb_current (con st)) = Some s ->
  exists c, on_current sb_scroll_down (con st) = Ok c /\
    screen_now st ss (scroll_down s) (with_con st c) /\
    (sc_view s <= 25 -> c = con st).
Proof.
  intros Hok Es.
  destruct (on_current_ok sb_scroll_down (con st) ss (scroll_down s) Hok) as (c & E & Ec & Hok' & Hb).
  - intros b s0 Hb Hs0 [(l & v & Hr) Hcol]. rewrite Es in Hs0. injection Hs0 as <-.
    destruct (scroll_down_rep l v b s (shared (con st)) Hr) as (b' & w' & v' & E & El & Hr').
    exists b', w'. split; [done |]. split; [done |]. split; [by exists l, v' | done].
  - exists c. split; [done |]. split; [by split |]. intros Hv. clear Hb.
    destruct (current_lookup _ _ Hok) as (b0 & s0 & Hb0 & Es0 & Hrd & [(l & v & Hr) _] & _).
    rewrite Es in Es0. injection Es0 as <-. unfold on_current in E. rewrite Hrd in E.
    cbn [mbind result_bind] in E. unfold sb_scroll_down in E.
    rewrite (view_ldiff _ _ _ _ (r_core _ _ _ _ _ Hr)) in E. change VGA_HEIGHT with 25 in E.
    destruct (Z.gtb_spec (sc_view s) 25); [lia |]. cbn [mbind result_bind] in E.
    pose proof (ok_current _ _ Hok). pose proof (lookup_lt_Some _ _ _ Hb0).
    rewrite wr_ok in E by (unfold zlen in *; lia). injection E as <-.
    rewrite list_insert_id by done. by destruct (con st).
Qed.

(** [r] leaves the line [text'] and the screen [s']. *)
Definition edits (r : result (nsh_state * machine D)) n (text' : list Z) st ss s' : Prop :=
  exists n' st', r = Ok (n', st') /\ text_ok n' text' /\ nsh_cmd n' = nsh_cmd n /\
    screen_now st ss s' st' /\ (front (con st) -> front (con st')).

Lemma erase_key n text st ss s s' : text_ok n text -> text <> [] -> console_ok (con st) ss ->
  ss !! Z.to_nat (sb_current (con st)) = Some s -> puts s [8] = Some s' ->
  (forall b, sb (con st) !! Z.to_nat (sb_current (con st)) = Some b -> 0 <= viewport b) ->
  edits (b ← wr (nsh_buf n) (nsh_bufindex n - 1) 0;
         st ← say [] [8] [] st;
         Ok (mk_nsh b (nsh_cmd n) (nsh_cmdnarg n) (nsh_bufindex n - 1), st))
    n (take (length text - 1) text) st ss s'.
Proof.
  intros Ht Hne Hok Es Hs Hv. destruct (text_erase n text Ht Hne) as (b & -> & Ht').
  cbn [mbind result_bind].
  destruct (say_ok [] [8] [] [8] st ss s s' Hok Es) as (st2 & E2 & Hnow2 & Hfr2); try done.
  { by repeat constructor. }
  { by repeat constructor. }
  cbn [map] in E2. rewrite E2. cbn [mbind result_bind]. by eexists _, st2.
Qed.

Lemma insert_key n text c st ss s s' : text_ok n text -> plain c -> c <> 8 ->
  zlen text < NSH_BUFSIZE - 1 -> console_ok (con st) ss ->
  ss !! Z.to_nat (sb_current (con st)) = Some s -> puts s [c] = Some s' ->
  edits (b ← wr (nsh_buf n) (nsh_bufindex n) (u8 c);
         st ← say [] (str "%c") [c] st;
         Ok (mk_nsh b (nsh_cmd n) (nsh_cmdnarg n) (nsh_bufindex n + 1), st))
    n (text ++ [c]) st ss s'.
Proof.
  intros Ht Hc H8 Hl Hok Es Hs. destruct (text_append n text c Ht Hc Hl) as (b & Ew & Ht').
  rewrite plain_u8 by done. rewrite Ew. cbn [mbind result_bind].
  destruct (say_ok [] (str "%c") [Print.Int c] [c] st ss s s' Hok Es) as (st2 & E2 & Hnow2 & Hfr2); try done.
  { by repeat constructor. }
  { by repeat constructor. }
  { change (str "%c") with [37; 99]. cbn. by rewrite plain_u8. }
  { by constructor. }
  { intros [Hin | []]. by rewrite Hin in H8. }
  cbn [map Print.arg_val] in E2. rewrite E2. cbn [mbind result_bind]. by eexists _, st2.
Qed.

(** What follows the first statement of nsh_addchar. *)
Lemma key_ok n text c st ss s text' out s' : text_ok n text -> console_ok (con st) ss ->
  ss !! Z.to_nat (sb_current (con st)) = Some s -> plain c ->
  edit text c = (text', out) -> puts s out = Some s' ->
  (c = 8 -> out <> [] ->
     forall b, sb (con st) !! Z.to_nat (sb_current (con st)) = Some b -> 0 <= viewport b) ->
  edits (if c =? 8 then
           if nsh_bufindex n >? 0 then
             b ← wr (nsh_buf n) (nsh_bufindex n - 1) 0;
             st ← say [] [8] [] st;
             Ok (mk_nsh b (nsh_cmd n) (nsh_cmdnarg n) (nsh_bufindex n - 1), st)
           else Ok (n, st)
         else if c =? 9 then
           if nsh_bufindex n =? 0 then Ok (n, st) else complete_loop builtin n st
         else if nsh_bufindex n <? NSH_BUFSIZE - 1 then
           b ← wr (nsh_buf n) (nsh_bufindex n) (u8 c);
           st ← say [] (str "%c") [c] st;
           Ok (mk_nsh b (nsh_cmd n) (nsh_cmdnarg n) (nsh_bufindex n + 1), st)
         else Ok (n, st)) n text' st ss s'.
Proof.
  intros Ht Hok Es Hc He Hs Hv. unfold edit in He. pose proof (t_index n text Ht) as Hi.
  assert (out = [] -> text' = text -> edits (Ok (n, st)) n text' st ss s') as Hidle.
  { intros -> ->. injection Hs as <-. exists n, st. repeat (split; [done |]).
    split; [by apply screen_same | done]. }
  assert (zlen text = 0 <-> text = []) as Hnil.
  { split; [| by intros ->]. destruct text; [done |]. rewrite zlen_cons.
    pose proof (zlen_nonneg text). lia. }
  rewrite Hi. pose proof (zlen_nonneg text).
  destruct (Z.eqb_spec c 8) as [-> | H8]; [| destruct (Z.eqb_spec c 9) as [-> | H9]].
  - destruct (Z.gtb_spec (zlen text) 0) as [Hp |].
    + assert (text <> []) as Hne by (intros ->; done).
      destruct text as [| x t] eqn:Et; [done |]. rewrite <- Et in *. injection He as <- <-.
      rewrite <- Hi. by apply (erase_key n text st ss s s'); auto.
    + destruct text; [| by exfalso; destruct Hnil as [Hnil _]; discriminate Hnil; lia].
      injection He as <- <-. by apply Hidle.
  - destruct (Z.eqb_spec (zlen text) 0) as [E0 | Hne].
    + apply Hnil in E0 as ->. injection He as <- <-. by apply Hidle.
    + destruct text as [| x t] eqn:Et; [done |]. rewrite <- Et in *. apply pair_equal_spec in He as [<- <-].
      by apply (complete_loop_ok builtin n text st ss s s' names_ok).
  - destruct (Z.ltb_spec (zlen text) (NSH_BUFSIZE - 1)) as [Hl | Hl]; injection He as <- <-;
      [| by apply Hidle].
    rewrite <- Hi. by apply (insert_key n text c st ss s s').
Qed.

Lemma addchar_ok n text c st ss s text' out s' : text_ok n text -> console_ok (con st) ss ->
  ss !! Z.to_nat (sb_current (con st)) = Some s -> plain c -> c <> 10 ->
  edit text c = (text', out) -> puts (scroll_down s) out = Some s' ->
  (c = 8 -> out <> [] -> sc_view s <= 25 /\
     forall b, sb (con st) !! Z.to_nat (sb_current (con st)) = Some b -> 0 <= viewport b) ->
  exists n' st', nsh_addchar hw garbage polls n c st = Ok (n', st') /\ text_ok n' text' /\
    nsh_cmd n' = nsh_cmd n /\ screen_now st ss s' st' /\
    (sc_view s <= 25 -> front (con st) -> front (con st')).
Proof.
  intros Ht Hok Es Hc H10 He Hs Hv.
  destruct (bottom_ok st ss s Hok Es) as (c1 & E1 & Hnow & Hb). unfold nsh_addchar. rewrite E1.
  cbn [mbind result_bind]. set (st1 := with_con st c1) in *.
  pose proof (screen_lookup st ss (scroll_down s) st1 Hok Hnow) as Es1.
  pose proof Hnow as (Ecur & Eo & Hok1). rewrite (proj2 (Z.eqb_neq c 10)) by done.
  destruct (key_ok n text c st1 _ _ text' out s' Ht Hok1 Es1 Hc He Hs)
    as (n2 & st2 & E & Ht2 & Hc2 & Hnow2 & Hfr2).
  { intros H8 Ho b. destruct (Hv H8 Ho) as [Hview Hvp]. cbn [st1 con with_con].
    rewrite (Hb Hview). apply Hvp. }
  exists n2, st2. split; [exact E |]. split; [done |]. split; [done |].
  split; [by apply screen_trans with st1 (scroll_down s) |]. intros Hview Hfr. apply Hfr2.
  cbn [st1 con with_con]. by rewrite (Hb Hview).
Qed.
End editing.

(** ** Properties *)

(** C22: [nsh_createcmd] cuts the line into its words: entry [i] of [nsh_cmd] points to
    the terminated word [i], the words are counted, and the entries behind them keep
    their values. *)
Theorem nsh_createcmd_splits n text : text_ok n text ->
  exists n', nsh_createcmd n = Ok n' /\ nsh_cmdnarg n' = zlen (words text) /\
    (forall i w, words text !! i = Some w ->
       exists p, nsh_cmd n' !! i = Some (Some p) /\ Str.cstr (nsh_buf n') p w) /\
    (forall i, (length (words text) <= i)%nat -> nsh_cmd n' !! i = nsh_cmd n !! i).
Proof.
  intros Ht. destruct (createcmd_spec n text Ht) as (n' & E & Ea & _ & _ & Hs & Hr).
  exists n'. by repeat split.
Qed.

Section properties.
Context {D : Type} `{Device D} (hw : hardware D) (garbage : Kpm.kpm_chunk_t) (polls : nat).

(** C12: A key other than Enter edits the line: it appends the character, takes back
    the last one or completes the name of a builtin, and the screen shows the same
    change; nothing else of the machine changes.  For a backspace the window is at the
    end of the buffer. *)
Theorem nsh_addchar_edits n text c (st : machine D) ss s text' out s' : text_ok n text -> console_ok (con st) ss ->
  ss !! Z.to_nat (sb_current (con st)) = Some s -> plain c -> c <> 10 ->
  edit text c = (text', out) -> puts (scroll_down s) out = Some s' ->
  (c = 8 -> sc_view s <= 25 /\
     forall b, sb (con st) !! Z.to_nat (sb_current (con st)) = Some b -> 0 <= viewport b) ->
  exists n' st', nsh_addchar hw garbage polls n c st = Ok (n', st') /\ text_ok n' text' /\
    nsh_cmd n' = nsh_cmd n /\ screen_now st ss s' st'.
Proof.
  intros Ht Hok Es Hc H10 He Hs Hv.
  destruct (addchar_ok hw garbage polls n text c st ss s text' out s' Ht Hok Es Hc H10 He Hs (fun E _ => Hv E))
    as (n' & st' & ? & ? & ? & ? & _). by exists n', st'.
Qed.

Lemma execcmd_loop_spec table : forall n p w (st : machine D), Str.cstr (nsh_buf n) p w ->
  Forall (fun b => Forall plain (name b)) table ->
  execcmd_loop hw garbage polls table n p st =
    match find_builtin table w with
    | Some b => '(_, st) ← exec_builtin hw garbage polls (exec_fn b) (nsh_cmdnarg n) (nsh_buf n) (nsh_cmd n) st; Ok st
    | None => Err NullDeref
    end.
Proof.
  induction table as [| b table IH]; intros n p w st Hp Hn; [done |].
  apply List.Forall_cons_iff in Hn as [Hb Hn]. cbn [execcmd_loop].
  rewrite (strcmp_lit_spec _ _ w) by done. cbn [mbind result_bind]. unfold find_builtin. cbn [List.find].
  case_bool_decide as E; case_bool_decide as E'; try congruence. by apply IH.
Qed.

Lemma execcmd_spec n text w ws (st : machine D) b cmd : words text = w :: ws ->
  nsh_cmdnarg n = zlen (words text) -> nsh_buf n = b -> split_ok b (nsh_cmd n) cmd (words text) ->
  nsh_execcmd hw garbage polls n st =
    match find_builtin builtin w with
    | Some e => '(_, st) ← exec_builtin hw garbage polls (exec_fn e) (zlen (w :: ws)) (nsh_buf n) (nsh_cmd n) st;
                Ok st
    | None => Err NullDeref
    end.
Proof.
  intros Hw Ea <- (_ & Hs & _). rewrite Hw in *. destruct (Hs 0%nat w eq_refl) as (p & Hp & Hc).
  unfold nsh_execcmd, rd. cbn [Z.ltb Z.compare]. change (Z.to_nat 0) with 0%nat. rewrite Hp.
  cbn [mbind result_bind]. rewrite (execcmd_loop_spec _ _ _ w), Ea; [done | done |].
  eapply List.Forall_impl; [| exact builtin_names]. by intros e [? _].
Qed.

(** C23: Enter runs the builtin the first word names, with the words as its arguments;
    when there is none the null pointer that ends the table is compared. *)
Theorem nsh_execcmd_dispatch n text w ws (st : machine D) : text_ok n text -> words text = w :: ws ->
  exists n', nsh_createcmd n = Ok n' /\
    nsh_execcmd hw garbage polls n' st =
      match find_builtin builtin w with
      | Some b => '(_, st) ← exec_builtin hw garbage polls (exec_fn b) (zlen (w :: ws)) (nsh_buf n') (nsh_cmd n') st;
                  Ok st
      | None => Err NullDeref
      end.
Proof.
  intros Ht Hw. destruct (createcmd_spec n text Ht) as (n' & E & Ea & _ & Hs).
  exists n'. split; [done |]. by apply (execcmd_spec n' text w ws st (nsh_buf n') (nsh_cmd n)).
Qed.
End properties.

(** ** Witnesses *)

(** A line that was typed. *)
Definition typed (text : list Z) : nsh_state :=
  mk_nsh (text ++ replicate (1024 - length text) 0) (replicate 513 None) 0 (zlen text).

Lemma typed_ok text : Forall plain text -> zlen text < 1024 -> text_ok (typed text) text.
Proof.
  intros Hp Hl. pose proof (zlen_nonneg text).
  assert (zlen (replicate (1024 - length text) 0) = 1024 - zlen text) as Er
    by (unfold zlen in *; rewrite length_replicate; lia).
  split; cbn [typed nsh_buf nsh_cmd nsh_bufindex]; try done.
  - rewrite zlen_app, Er. unfold NSH_BUFSIZE. lia.
  - intros k Hk. by apply Print.at_app_l.
  - intros k Hk. change NSH_BUFSIZE with 1024 in Hk. rewrite at_app by lia.
    destruct (Z.ltb_spec k (zlen text)); [lia |]. unfold at_. destruct (_ <? 0); [done |].
    destruct (replicate (1024 - length text) 0 !! Z.to_nat (k - zlen text)) eqn:E; [| done].
    by apply lookup_replicate in E as [-> _].
Qed.

#[local] Existing Instance no_device.

Definition no_hardware : hardware unit :=
  mk_hardware (fun _ _ => 0) [] (fun _ st => Ok st) (fun st => st) 0 0.

Lemma nsh_createcmd_splits_witness :
  exists n, nsh_createcmd (typed (str " free  4096 ")) = Ok n /\ nsh_cmdnarg n = 2.
Proof.
  destruct (nsh_createcmd_splits (typed (str " free  4096 ")) (str " free  4096 ")) as (n & E & Ea & _).
  { apply typed_ok; [by repeat constructor | done]. }
  exists n. exact (conj E Ea).
Defined.

(** Tab after "he" completes "hexdump". *)
Lemma nsh_addchar_edits_witness :
  exists st n' st', nsh_addchar no_hardware (Kpm.mk_chunk 0 0) 0 (typed (str "he")) 9 st = Ok (n', st') /\
    text_ok n' (str "hexdump").
Proof.
  destruct booted_console as (c & Hok & E0 & _).
  destruct (nsh_addchar_edits no_hardware (Kpm.mk_chunk 0 0) 0 (typed (str "he")) (str "he") 9
    (idle_machine c) [cleared SB_DFL_COLOR] (cleared SB_DFL_COLOR) (str "hexdump") (str "xdump")
    (default (cleared 0) (puts (cleared SB_DFL_COLOR) (str "xdump")))) as (n' & st' & E & Ht & _).
  - apply typed_ok; [by repeat constructor | done].
  - exact Hok.
  - cbn [idle_machine con]. by rewrite E0.
  - done.
  - done.
  - vm_compute. reflexivity.
  - vm_compute. reflexivity.
  - done.
  - exists (idle_machine c), n', st'. exact (conj E Ht).
Defined.

(** "foo": no such command. *)
Lemma nsh_execcmd_dispatch_witness :
  exists (st : machine unit) n, nsh_createcmd (typed (str "foo 1")) = Ok n /\
    nsh_execcmd no_hardware (Kpm.mk_chunk 0 0) 0 n st = Err NullDeref.
Proof.
  set (st := idle_machine (mk_console [] 0 zero_world)).
  destruct (nsh_execcmd_dispatch no_hardware (Kpm.mk_chunk 0 0) 0 (typed (str "foo 1")) (str "foo 1")
    (str "foo") [str "1"] st) as (n & E & Ex).
  - apply typed_ok; [by repeat constructor | done].
  - reflexivity.
  - exists st, n. split; [exact E |]. exact Ex.
Defined.

End Nsh.
