(* ===== verification/Results.v ===== *)
(** What the builtins print and change: kernel/nsh/builtins/*.c.

    An [action] writes a text or changes the colour; [play] performs actions on an abstract
    screen.  [drawn acts st] says that [st] is the machine [st0] with [acts]
    played on its current screen, and nothing else changed.  Each builtin has a function from its words to
    its answer; the theorems say that the C function gives this answer. *)

From Stdlib Require Import Ascii String.
From Stdlib Require Import ZArith Lia Bool.
From stdpp Require Import base tactics numbers list option.
From S2P Require Import Prelude Logic Port Mem Kpm Keyboard Desc.
From S2P Require Import Str StrTol Print Format Screenbuf Typing Console Builtins Machine Nsh.

Local Open Scope Z_scope.

Module Results.
Import Screenbuf Console Builtins Format Typing Machine.

(** ** Actions *)

Inductive action : Type := Put (t : list Z) | Paint (g : Z -> Z).

Definition recolor (g : Z -> Z) (s : screen) : screen := mk_screen (sc_lines s) (sc_col s) (sc_view s) (g (sc_color s)).
Definition perform (s : screen) (a : action) : option screen :=
  match a with Put t => puts s t | Paint g => Some (recolor g s) end.
Fixpoint play (s : screen) (acts : list action) : option screen :=
  match acts with [] => Some s | a :: acts => s ← perform s a; play s acts end.

Definition text_of (acts : list action) : list Z := concat (map (fun a => match a with Put t => t | Paint _ => [] end) acts).

Lemma play_app a1 a2 : forall s, play s (a1 ++ a2) = play s a1 ≫= (fun s => play s a2).
Proof.
  induction a1 as [| a a1 IH]; intros s; [done |]. cbn [app play].
  destruct (perform s a) as [s1 |]; [apply IH | done].
Qed.

Lemma play_put s t : play s [Put t] = puts s t.
Proof. cbn [play perform]. by destruct (puts s t). Qed.

Lemma text_of_app a1 a2 : text_of (a1 ++ a2) = text_of a1 ++ text_of a2.
Proof. unfold text_of. by rewrite map_app, concat_app. Qed.

(** The change of colour of a function on screen buffers. *)
Class PaintsAs (f : screenbuf -> screenbuf) (g : Z -> Z) : Prop :=
  paints_as : forall b, f b = set_color b (g (Screenbuf.color b)) /\ forall x, 0 <= g x < 256.
#[export] Instance set_color_paints c : PaintsAs (fun b => sb_set_color b c) (fun _ => u8 c).
Proof. intros b. split; [done | intros; apply u8_range]. Qed.
Definition set_fg_nibble (c x : Z) : Z := u8 (Z.lor (Z.land x 0xf0) (Z.land c 0x0f)).
Definition set_bg_nibble (c x : Z) : Z := u8 (Z.lor (Z.land (Z.shiftl c 4) 0xf0) (Z.land x 0x0f)).
#[export] Instance set_fg_paints c : PaintsAs (fun b => sb_set_fg b c) (set_fg_nibble c).
Proof. intros b. split; [done | intros; apply u8_range]. Qed.
#[export] Instance set_bg_paints c : PaintsAs (fun b => sb_set_bg b c) (set_bg_nibble c).
Proof. intros b. split; [done | intros; apply u8_range]. Qed.

(** The words of a command line. *)
Definition word (w : list Z) : Prop := Forall visible w /\ zlen w <= 1100.
Definition words_at (m : list Z) (argv : list (option Z)) (ws : list (list Z)) : Prop :=
  forall i w, ws !! i = Some w -> word w /\ exists p, argv !! i = Some (Some p) /\ Str.cstr m p w.

Section drawing.
Context {D : Type} `{Device D} (st0 : machine D) (ss : list screen) (s0 : screen).
Context (Hok : console_ok (con st0) ss) (Es : ss !! Z.to_nat (sb_current (con st0)) = Some s0).
Implicit Types st : machine D.
Implicit Types m : list Z.

Definition drawn (acts : list action) st : Prop := exists s, play s0 acts = Some s /\ screen_now st0 ss s st.

Lemma drawn_nil : drawn [] st0.
Proof using Hok Es. exists s0. split; [done | by apply screen_same]. Qed.

Lemma say_drawn acts m fmt ap t st : drawn acts st ->
  Forall visible fmt -> Forall (fun a => match a with Print.Int _ => True | Print.Text p w => Str.cstr m p w end) ap ->
  Print.render fmt 0 ap = Some t -> Forall visible t -> zlen t <= 4095 ->
  yields (say m fmt (map Print.arg_val ap) st) (drawn (acts ++ [Put t])).
Proof using Hok.
  intros (s & Hp & Hnow) Hf Ha Hr Hv Hl. destruct (puts_total t s (visible_no_backspace t Hv)) as [s' Hs'].
  pose proof Hnow as (_ & _ & Hok').
  destruct (say_ok m fmt ap t st _ s s' Hok') as (st' & -> & Hnow' & _); try done.
  - by apply (screen_lookup st0).
  - by apply visible_plain.
  - eapply List.Forall_impl; [| exact Ha]. intros [z | p w]; [done |]. by apply Print.cstr_extend.
  - by apply visible_plain.
  - intros Hin. pose proof (visible_no_backspace t Hv) as Hn. rewrite List.Forall_forall in Hn. by apply Hn in Hin.
  - apply yields_ok. exists s'. split; [| by apply screen_trans with st s].
    rewrite play_app, Hp. cbn [mbind option_bind]. by rewrite play_put.
Qed.

Lemma paint_drawn acts f g st : PaintsAs f g -> drawn acts st -> yields (paint f st) (drawn (acts ++ [Paint g])).
Proof using Hok.
  intros Hg (s & Hp & Hnow). pose proof Hnow as (_ & _ & Hok').
  destruct (set_color_ok f (con st) _ s (g (sc_color s)) Hok') as (c & E & Ec & Hok2 & _).
  - by apply (screen_lookup st0).
  - apply (Hg zero_sb).
  - intros b <-. apply Hg.
  - unfold paint. rewrite E. apply yields_ok. exists (recolor g s). split; [by rewrite play_app, Hp |].
    apply screen_trans with st s; [done |]. by split.
Qed.

Lemma color_drawn acts st : drawn acts st -> exists s, play s0 acts = Some s /\ get_color (con st) = Ok (sc_color s) /\
  0 <= sc_color s < 256.
Proof using Hok.
  intros (s & Hp & Hnow). exists s. split; [done |]. pose proof Hnow as (_ & _ & Hok').
  apply (get_color_ok (con st) _ s Hok'). by apply (screen_lookup st0).
Qed.

(** A text from a format without conversions. *)
Lemma render_plain fmt : Forall (fun c => visible c /\ c <> 37) fmt -> Print.render fmt 0 [] = Some fmt.
Proof.
  induction 1 as [| c l [Hc H37] _ IH]; [done |]. cbn [Print.render]. rewrite (proj2 (Z.eqb_neq c 37)) by done.
  rewrite IH. cbn [mbind option_bind]. rewrite u8_small; [done |]. unfold visible in Hc. lia.
Qed.
Definition literal (fmt : list Z) : Prop := Forall (fun c => visible c /\ c <> 37) fmt /\ zlen fmt <= 4095.
Lemma line_drawn acts m fmt st : literal fmt -> drawn acts st -> yields (say m fmt [] st) (drawn (acts ++ [Put fmt])).
Proof using Hok.
  intros [Hl Hlen] Hd.
  assert (Forall visible fmt) as Hv by (eapply List.Forall_impl; [| exact Hl]; by intros c [? _]).
  apply (say_drawn acts m fmt [] fmt st); try done. by apply render_plain.
Qed.
End drawing.

#[export] Instance literal_dec fmt : Decision (literal fmt).
Proof. unfold literal. apply _. Defined.

#[local] Opaque say paint.

Ltac decide_check := by apply (bool_decide_unpack _); vm_compute.

(** ** Arguments *)

Lemma words_arg m argv ws i w : words_at m argv ws -> ws !! Z.to_nat i = Some w -> 0 <= i ->
  word w /\ exists p, arg_ptr argv i = Ok p /\ Str.cstr m p w.
Proof.
  intros Hw Ei Hi. destruct (Hw _ _ Ei) as (Hok & p & Ep & Hp). split; [done |]. exists p. split; [| done].
  unfold arg_ptr, rd. destruct (Z.ltb_spec i 0); [lia |]. by rewrite Ep.
Qed.

Lemma lit_strcmp_spec m p l s : Str.cstr m p l -> Forall plain s -> lit_strcmp s m p = Ok (bool_decide (s = l)).
Proof.
  intros Hp Hs. unfold lit_strcmp. assert (Str.cstr (lit m s) p l) as Hp' by by apply Print.cstr_extend.
  rewrite (Str.strcmp_spec _ _ _ _ _ (lit_cstr m s Hs) Hp'). cbn [mbind result_bind].
  f_equal. assert (Str.cmp s l = 0 <-> s = l) as Hz
    by (apply Str.cmp_zero; [exact (Str.cstr_nonzero _ _ _ (lit_cstr m s Hs)) | exact (Str.cstr_nonzero _ _ _ Hp')]).
  case_bool_decide; destruct (Z.eqb_spec (Str.cmp s l) 0); tauto.
Qed.

(** ** keymap.c *)

Definition layout_named (w : list Z) : option (Keyboard.kbd_keycode -> Keyboard.kbd_keymap_entry) :=
  snd <$> List.find (fun e => bool_decide (w = e.1)) layouts.

(** The layout, or the message. *)
Definition keymap_answer (ws : list (list Z)) : (Keyboard.kbd_keycode -> Keyboard.kbd_keymap_entry) + list action :=
  match ws with
  | _ :: w :: _ =>
      if bool_decide (w = str "list") then inr [Put (str "Layout:" ++ nl); Put (str "- us" ++ nl); Put (str "- fr" ++ nl)]
      else match layout_named w with
           | Some f => inl f
           | None => inr [Put (str "keymap: Layout '" ++ w ++ str "' not found." ++ nl)]
           end
  | _ => inr [Put (str "Usage: keymap LAYOUT" ++ nl); Put (str "       keymap list" ++ nl)]
  end.

Lemma keymap_answer_layout ws f : keymap_answer ws = inl f -> Keyboard.keyboard_layout f.
Proof.
  destruct ws as [| w0 [| w ws]]; [done | done |]. unfold keymap_answer, layout_named, layouts. cbn [List.find fst].
  repeat case_match; try done; intros [= <-]; simplify_eq/=; [by left | by right].
Qed.

(** ** color.c *)

Definition color_usage_answer : list action * Z :=
  ([Put (str "Usage: color fg/bg COLOR" ++ nl); Put (str "       color reset" ++ nl)], -1).
Definition color_setter (w : list Z) : option (Z -> Z -> Z) :=
  if bool_decide (w = str "fg") then Some set_fg_nibble
  else if bool_decide (w = str "bg") then Some set_bg_nibble else None.
Definition color_answer (ws : list (list Z)) : list action * Z :=
  match ws with
  | _ :: w :: rest =>
      if bool_decide (w = str "reset") then ([Paint (fun _ => u8 SB_DFL_COLOR)], -1)
      else match rest with
           | [] => color_usage_answer
           | name :: _ =>
               match color_setter w with
               | None => ([Put (str "color: '" ++ w ++ str "' unknown command." ++ nl)], -1)
               | Some set =>
                   match list_find (fun c => c = name) colors with
                   | Some (i, _) => ([Paint (set (Z.of_nat i))], 0)
                   | None => ([Put (str "color: '" ++ name ++ str "' unknown color." ++ nl)], -1)
                   end
               end
           end
  | _ => color_usage_answer
  end.

Section answers.
Context {D : Type} `{Device D} (st0 : machine D) (ss : list screen) (s0 : screen).
Context (Hok : console_ok (con st0) ss) (Es : ss !! Z.to_nat (sb_current (con st0)) = Some s0).
Local Abbreviation drawn := (drawn st0 ss s0).

(** A message with one word in it. *)
Lemma word_drawn acts m fmt1 fmt2 p w st : literal fmt1 -> literal fmt2 -> zlen fmt1 + zlen fmt2 <= 2000 ->
  word w -> Str.cstr m p w -> drawn acts st ->
  yields (say m (fmt1 ++ str "%s" ++ fmt2) [p] st) (drawn (acts ++ [Put (fmt1 ++ w ++ fmt2)])).
Proof using Hok.
  intros [H1 L1] [H2 L2] Hl [Hw Lw] Hp Hd.
  assert (forall f, Forall (fun c => visible c /\ c <> 37) f -> Forall visible f) as Hvis
    by (intros f Hf; eapply List.Forall_impl; [| exact Hf]; by intros c [? _]).
  apply (say_drawn st0 ss s0 Hok acts m _ [Print.Text p w]); try done.
  - apply Forall_app. split; [auto |]. apply Forall_app. split; [decide_check | auto].
  - by constructor.
  - induction H1 as [| c l [Hc H37] _ IH].
    + change (str "%s") with [37; 115]. cbn. rewrite (render_plain _ H2). cbn.
      rewrite map_u8_plain; [done |]. by apply visible_plain.
    + cbn [app Print.render]. rewrite (proj2 (Z.eqb_neq c 37)) by done. rewrite zlen_cons in *.
      rewrite IH by lia. cbn [mbind option_bind]. rewrite u8_small; [done |]. unfold visible in Hc. lia.
  - apply Forall_app. split; [auto |]. apply Forall_app. split; [done | auto].
  - rewrite !zlen_app. lia.
Qed.

Context (m : list Z) (argv : list (option Z)).

Lemma strcmp_step p w s {B} (f : bool -> result B) : Str.cstr m p w -> Forall plain s ->
  (e ← strcmp_lit m p s; f e) = f (bool_decide (w = s)).
Proof. intros Hp Hs. by rewrite (Nsh.strcmp_lit_spec m p w s Hp Hs). Qed.

Lemma keymap_find_spec p w l : Str.cstr m p w -> Forall (fun e => Forall plain e.1) l ->
  keymap_find l m p = Ok (snd <$> List.find (fun e => bool_decide (w = e.1)) l).
Proof.
  intros Hp. induction 1 as [| [n f] l Hn _ IH]; [done |]. cbn [keymap_find].
  rewrite (strcmp_step p w n _ Hp Hn). cbn [List.find fst].
  destruct (bool_decide (w = n)); [done | exact IH].
Qed.

Lemma color_find_spec p w l : Str.cstr m p w -> Forall (Forall plain) l ->
  forall i, color_find l m p i = Ok ((fun x => i + Z.of_nat x.1) <$> list_find (fun c => c = w) l).
Proof.
  intros Hp. induction 1 as [| c l Hc _ IH]; intros i; [done |]. cbn [color_find list_find].
  rewrite (lit_strcmp_spec m p w c Hp Hc). cbn [mbind result_bind].
  destruct (decide (c = w)) as [E | E]; [rewrite bool_decide_eq_true_2 by done; cbn; do 2 f_equal; lia |].
  rewrite bool_decide_eq_false_2 by done. rewrite IH.
  destruct (list_find (fun c => c = w) l) as [[j x] |]; [| done]. cbn. do 2 f_equal. lia.
Qed.

Lemma layouts_plain : Forall (fun e => Forall plain e.1) layouts.
Proof. repeat (apply List.Forall_cons; [decide_check |]). apply List.Forall_nil. Qed.

Lemma colors_plain : Forall (Forall plain) colors.
Proof. decide_check. Qed.

(** The first line of a message, and one behind others. *)
Lemma first_line fmt : literal fmt -> yields (say m fmt [] st0) (drawn [Put fmt]).
Proof using Hok Es. intros Hf. apply (line_drawn st0 ss s0 Hok [] m fmt st0 Hf). by apply drawn_nil. Qed.

Lemma two_lines fmt1 fmt2 : literal fmt1 -> literal fmt2 ->
  yields (st ← say m fmt1 [] st0; say m fmt2 [] st) (drawn [Put fmt1; Put fmt2]).
Proof using Hok Es.
  intros H1 H2. ystep (first_line fmt1 H1). intros st1 Hd. exact (line_drawn st0 ss s0 Hok [Put fmt1] m fmt2 st1 H2 Hd).
Qed.

Lemma first_word fmt1 fmt2 p w : literal fmt1 -> literal fmt2 -> zlen fmt1 + zlen fmt2 <= 2000 ->
  word w -> Str.cstr m p w -> yields (say m (fmt1 ++ str "%s" ++ fmt2) [p] st0) (drawn [Put (fmt1 ++ w ++ fmt2)]).
Proof using Hok Es. intros. apply (word_drawn [] m fmt1 fmt2 p w st0); try done. by apply drawn_nil. Qed.

Lemma answer_ok (r : result (machine D)) (z : Z) acts : yields r (drawn acts) ->
  yields (st ← r; Ok (z, st)) (fun '(x, st) => x = z /\ drawn acts st).
Proof. intros Hr. eapply yields_bind; [exact Hr |]. intros st Hs. by apply yields_ok. Qed.

Lemma keymap_list_drawn : yields (st ← say m (str "Layout:" ++ nl) [] st0; keymap_list layouts st)
  (drawn [Put (str "Layout:" ++ nl); Put (str "- us" ++ nl); Put (str "- fr" ++ nl)]).
Proof using Hok Es.
  ystep (first_line (str "Layout:" ++ nl)); [decide_check |]. intros st1 H1. unfold layouts. cbn [keymap_list].
  ystep (word_drawn [Put (str "Layout:" ++ nl)] (str "us" ++ [0]) (str "- ") nl 0 (str "us") st1);
    [decide_check | decide_check | done | split; [decide_check | done] | apply (lit_cstr []); decide_check | exact H1 |].
  intros st2 H2.
  ystep (word_drawn [Put (str "Layout:" ++ nl); Put (str "- us" ++ nl)] (str "fr" ++ [0]) (str "- ") nl 0 (str "fr") st2);
    [decide_check | decide_check | done | split; [decide_check | done] | apply (lit_cstr []); decide_check | exact H2 |].
  intros st3 H3. by apply yields_ok.
Qed.

Lemma keymap_spec ws : words_at m argv ws ->
  match keymap_answer ws with
  | inl f => keymap (zlen ws) m argv st0 = Ok (0, with_kbd st0 (Keyboard.KBD_setkeymap f (kbd st0)))
  | inr acts => yields (keymap (zlen ws) m argv st0) (fun '(r, st) => r = -1 /\ drawn acts st)
  end.
Proof using Hok Es.
  intros Hw. unfold keymap. destruct ws as [| w0 [| w ws]]; cbn [keymap_answer].
  1, 2: rewrite (proj2 (Z.ltb_lt _ 2)) by (vm_compute; done); apply answer_ok, two_lines; decide_check.
  rewrite (proj2 (Z.ltb_ge _ 2)) by (rewrite !zlen_cons; pose proof (zlen_nonneg ws); lia).
  destruct (words_arg m argv _ 1 w Hw eq_refl ltac:(lia)) as (Hword & p & -> & Hp). cbn [mbind result_bind].
  rewrite (strcmp_step p w (str "list")) by (done || decide_check). destruct (bool_decide (w = str "list")).
  - pose proof keymap_list_drawn as (st1 & E & Hd). apply bind_inv in E as (st2 & -> & E). cbn [mbind result_bind].
    rewrite E. by apply yields_ok.
  - rewrite (keymap_find_spec p w layouts Hp layouts_plain). cbn [mbind result_bind].
    unfold layout_named. destruct (List.find _ layouts) as [[n f] |]; [done |]. cbn [fmap option_fmap option_map].
    apply answer_ok. apply (first_word (str "keymap: Layout '") (str "' not found." ++ nl)); try done; decide_check.
Qed.

(** The setters of the foreground and the background. *)
Lemma color_set_spec ws set g name : words_at m argv ws -> ws !! 2%nat = Some name ->
  (forall c, PaintsAs (fun b => set b c) (g c)) ->
  let '(acts, z) := match list_find (fun c => c = name) colors with
                    | Some (i, _) => ([Paint (g (Z.of_nat i))], 0)
                    | None => ([Put (str "color: '" ++ name ++ str "' unknown color." ++ nl)], -1)
                    end in
  yields (color_set set m argv st0) (fun '(r, st) => r = z /\ drawn acts st).
Proof using Hok Es.
  intros Hw En Hg. unfold color_set.
  destruct (words_arg m argv ws 2 name Hw En ltac:(lia)) as (Hword & p & -> & Hp). cbn [mbind result_bind].
  rewrite (color_find_spec p name colors Hp colors_plain). cbn [mbind result_bind].
  destruct (list_find (fun c => c = name) colors) as [[i x] |]; cbn [fmap option_fmap option_map fst];
    apply answer_ok.
  - apply (paint_drawn st0 ss s0 Hok []); [apply Hg | by apply drawn_nil].
  - apply (first_word (str "color: '") (str "' unknown color." ++ nl)); try done; decide_check.
Qed.

Lemma color_spec ws : words_at m argv ws ->
  yields (Builtins.color (zlen ws) m argv st0) (fun '(r, st) => r = (color_answer ws).2 /\ drawn (color_answer ws).1 st).
Proof using Hok Es.
  intros Hw. unfold Builtins.color. destruct ws as [| w0 [| w ws]]; cbn [color_answer].
  1, 2: rewrite (proj2 (Z.ltb_lt _ 2)) by (vm_compute; done); apply answer_ok, two_lines; decide_check.
  rewrite (proj2 (Z.ltb_ge _ 2)) by (rewrite !zlen_cons; pose proof (zlen_nonneg ws); lia).
  destruct (words_arg m argv _ 1 w Hw eq_refl ltac:(lia)) as (Hword & p & -> & Hp). cbn [mbind result_bind].
  rewrite (strcmp_step p w (str "reset")) by (done || decide_check). destruct (bool_decide (w = str "reset")).
  { apply answer_ok. apply (paint_drawn st0 ss s0 Hok []); [apply _ | by apply drawn_nil]. }
  destruct ws as [| name ws].
  { rewrite (proj2 (Z.ltb_lt _ 3)) by (vm_compute; done). apply answer_ok, two_lines; decide_check. }
  rewrite (proj2 (Z.ltb_ge _ 3)) by (rewrite !zlen_cons; pose proof (zlen_nonneg ws); lia).
  unfold color_setter. rewrite (strcmp_step p w (str "fg")) by (done || decide_check).
  destruct (bool_decide (w = str "fg")).
  { pose proof (color_set_spec _ sb_set_fg set_fg_nibble name Hw eq_refl _) as Hs.
    by destruct (list_find (fun c => c = name) colors) as [[i x] |]. }
  rewrite (strcmp_step p w (str "bg")) by (done || decide_check). destruct (bool_decide (w = str "bg")).
  { pose proof (color_set_spec _ sb_set_bg set_bg_nibble name Hw eq_refl _) as Hs.
    by destruct (list_find (fun c => c = name) colors) as [[i x] |]. }
  apply answer_ok, (first_word (str "color: '") (str "' unknown command." ++ nl)); try done; decide_check.
Qed.
End answers.

(** ** All answers *)

(** The result, the actions on the screen and the new layout of the keyboard, if any. *)
Record answer_t : Type := mk_answer
  { result_of : Z; actions_of : list action; layout_of : option (Keyboard.kbd_keycode -> Keyboard.kbd_keymap_entry) }.

Definition message (t : list Z) : answer_t := mk_answer (-1) [Put t] None.

Definition help_answer (table : list (list Z * list Z)) : list action :=
  Put (str "KFS - available commands:" ++ nl) ::
  map (fun '(n, d) => Put (str "-> " ++ n ++ str ": " ++ d ++ nl)) table.

Definition info_topics : list (list Z) := [str "gdt"; str "stack"; str "buddy"; str "idt"; str "registers"].

(** What a builtin answers to its words, as far as the words decide it. *)
Definition answer (e : Nsh.exec) (ws : list (list Z)) : option answer_t :=
  match e, ws with
  | Nsh.Keymap, _ =>
      Some (match keymap_answer ws with inl f => mk_answer 0 [] (Some f) | inr acts => mk_answer (-1) acts None end)
  | Nsh.Color, _ => Some (mk_answer (color_answer ws).2 (color_answer ws).1 None)
  | Nsh.Help, _ => Some (mk_answer 0 (help_answer (map (fun b => (Nsh.name b, Nsh.description b)) Nsh.builtin)) None)
  | Nsh.Alloc, ([] | [_]) => Some (message (str "Usage: alloc size" ++ nl))
  | Nsh.Free, ([] | [_]) => Some (message (str "Usage: free size" ++ nl))
  | Nsh.Interrupt, ([] | [_]) => Some (message (str "Usage: interrupt int" ++ nl))
  | Nsh.Hexdump, ([] | [_] | [_; _]) => Some (message (str "Usage: hexdump address size" ++ nl))
  | Nsh.Info, ([] | [_]) => Some (message (str "Usage: info [gdt/idt/stack/buddy/registers]" ++ nl))
  | Nsh.Info, _ :: w :: _ =>
      if bool_decide (w ∈ info_topics) then None
      else Some (message (str "info: '" ++ w ++ str "' doesn't exist." ++ nl))
  | _, _ => None
  end.

Section all_answers.
Context {D : Type} `{Device D} (hw : hardware D) (garbage : Kpm.kpm_chunk_t) (polls : nat).
Context (st0 : machine D) (ss : list screen) (s0 : screen).
Context (Hok : console_ok (con st0) ss) (Es : ss !! Z.to_nat (sb_current (con st0)) = Some s0).
Local Abbreviation drawn := (drawn st0 ss s0).

(** One line of help. *)
Lemma help_line_drawn acts n d st : word n -> word d -> drawn acts st ->
  yields (say (n ++ [0] ++ d ++ [0]) (str "-> %s: %s" ++ nl) [0; zlen n + 1] st)
    (drawn (acts ++ [Put (str "-> " ++ n ++ str ": " ++ d ++ nl)])).
Proof using Hok.
  intros [Hn Ln] [Hd Ld] Hs.
  apply (say_drawn st0 ss s0 Hok acts _ (str "-> %s: %s" ++ nl) [Print.Text 0 n; Print.Text (zlen n + 1) d]); [done | decide_check | | | |].
  - apply List.Forall_cons; [rewrite app_assoc; apply Print.cstr_extend, (lit_cstr [] n), visible_plain, Hn |].
    apply List.Forall_cons; [| apply List.Forall_nil].
    replace (n ++ [0] ++ d ++ [0]) with (lit (n ++ [0]) d) by (unfold lit; by rewrite <- app_assoc).
    replace (zlen n + 1) with (zlen (n ++ [0])) by (rewrite zlen_app; reflexivity).
    apply lit_cstr, visible_plain, Hd.
  - change (str "-> %s: %s" ++ nl) with [45; 62; 32; 37; 115; 58; 32; 37; 115; 10]. cbn -[map].
    by rewrite !map_u8_plain by (by apply visible_plain).
  - repeat (apply Forall_app; split); try done; decide_check.
  - rewrite !zlen_app. change (zlen (str "-> ")) with 3. change (zlen (str ": ")) with 2. change (zlen nl) with 1. lia.
Qed.

Lemma help_drawn table : Forall (fun '(n, d) => word n /\ word d) table ->
  yields (help table st0) (fun '(r, st) => r = 0 /\ drawn (help_answer table) st).
Proof using Hok Es.
  intros Ht. unfold help, help_answer.
  ystep (first_line st0 ss s0 Hok Es [] (str "KFS - available commands:" ++ nl)); [decide_check |].
  intros st1 H1. apply answer_ok.
  assert (forall acts st, drawn acts st -> yields (help_loop table st)
    (drawn (acts ++ map (fun '(n, d) => Put (str "-> " ++ n ++ str ": " ++ d ++ nl)) table))) as Hloop.
  { induction Ht as [| [n d] table [Hn Hd] _ IH]; intros acts st Hs; cbn [help_loop map].
    - rewrite app_nil_r. by apply yields_ok.
    - ystep (help_line_drawn acts n d st Hn Hd Hs). intros st2 H2.
      eapply yields_weaken; [by apply IH | by rewrite <- app_assoc]. }
  exact (Hloop _ st1 H1).
Qed.

(** [r] gives the answer [a]. *)
Definition gives_answer (a : answer_t) (r : result (Z * machine D)) : Prop :=
  exists st' s', r = Ok (result_of a, st') /\ play s0 (actions_of a) = Some s' /\
    sb_current (con st') = sb_current (con st0) /\ console_ok (con st') (<[Z.to_nat (sb_current (con st0)) := s']> ss) /\
    kbd st' = match layout_of a with Some f => Keyboard.KBD_setkeymap f (kbd st0) | None => kbd st0 end /\
    kpm_st st' = kpm_st st0 /\ gdt_st st' = gdt_st st0 /\ idt_st st' = idt_st st0.

Lemma drawn_answer z acts r : yields r (fun '(x, st) => x = z /\ drawn acts st) -> gives_answer (mk_answer z acts None) r.
Proof.
  intros ([x st'] & -> & -> & s' & Hp & Ec & Eo & Hok'). exists st', s'. unfold others in Eo. injection Eo as -> -> -> ->.
  by split; [| split; [| split; [| split; [| split]]]].
Qed.

Context (m : list Z) (argv : list (option Z)).

Lemma message_answer t (r : result (machine D)) : yields r (drawn [Put t]) -> gives_answer (message t) (st ← r; Ok (-1, st)).
Proof. intros Hr. by apply drawn_answer, answer_ok. Qed.

Lemma info_answers ws a : words_at m argv ws -> answer Nsh.Info ws = Some a -> gives_answer a (info hw (zlen ws) m argv st0).
Proof using Hok Es.
  intros Hw. unfold info. destruct ws as [| w0 [| w ws]]; cbn [answer].
  1, 2: intros [= <-]; rewrite (proj2 (Z.ltb_lt _ 2)) by (vm_compute; done).
  1, 2: apply message_answer, first_line; [exact Hok | exact Es | decide_check].
  case_bool_decide as Hin; [done |]. intros [= <-].
  rewrite (proj2 (Z.ltb_ge _ 2)) by (rewrite !zlen_cons; pose proof (zlen_nonneg ws); lia).
  destruct (words_arg m argv _ 1 w Hw eq_refl ltac:(lia)) as (Hword & p & -> & Hp). cbn [mbind result_bind].
  assert (forall t, t ∈ info_topics -> bool_decide (w = t) = false) as Hno by (intros t Ht; apply bool_decide_eq_false_2; congruence).
  do 5 (rewrite (strcmp_step m p w _ _ Hp) by decide_check; rewrite Hno by (repeat constructor); cbn match).
  apply message_answer, (first_word st0 ss s0 Hok Es m (str "info: '") (str "' doesn't exist." ++ nl)); try done; decide_check.
Qed.

Lemma builtin_words : Forall (fun '(n, d) => word n /\ word d) (map (fun b => (Nsh.name b, Nsh.description b)) Nsh.builtin).
Proof. unfold word. decide_check. Qed.

(** A builtin without its arguments. *)
Lemma too_few (ws : list (list Z)) n fmt (f : result (Z * machine D)) : literal fmt -> zlen ws < n ->
  gives_answer (message fmt) (if zlen ws <? n then st ← say m fmt [] st0; Ok (-1, st) else f).
Proof using Hok Es. intros Hf Hn. rewrite (proj2 (Z.ltb_lt _ n)) by done. by apply message_answer, first_line. Qed.

Lemma answer_spec e ws a : words_at m argv ws -> answer e ws = Some a ->
  gives_answer a (Nsh.exec_builtin hw garbage polls e (zlen ws) m argv st0).
Proof using Hok Es.
  intros Hw Ha. destruct e; cbn [Nsh.exec_builtin]; try discriminate Ha.
  - cbn [answer] in Ha. injection Ha as <-. pose proof (keymap_spec st0 ss s0 Hok Es m argv ws Hw) as Hs.
    destruct (keymap_answer ws) as [f | acts]; [| by apply drawn_answer].
    rewrite Hs. exists (with_kbd st0 (Keyboard.KBD_setkeymap f (kbd st0))), s0. split; [done |]. split; [done |].
    split; [done |]. split; [by rewrite list_insert_id | done].
  - cbn [answer] in Ha. injection Ha as <-. apply drawn_answer. by apply color_spec.
  - destruct ws as [| w0 [| w1 ws]]; try discriminate Ha; injection Ha as <-; apply too_few; done || decide_check.
  - destruct ws as [| w0 [| w1 ws]]; try discriminate Ha; injection Ha as <-; apply too_few; done || decide_check.
  - by apply info_answers.
  - destruct ws as [| w0 [| w1 [| w2 ws]]]; try discriminate Ha; injection Ha as <-; apply too_few; done || decide_check.
  - cbn [answer] in Ha. injection Ha as <-. apply drawn_answer. by apply help_drawn, builtin_words.
  - destruct ws as [| w0 [| w1 ws]]; try discriminate Ha; injection Ha as <-; apply too_few; done || decide_check.
Qed.
End all_answers.

(** ** hexdump.c *)

(** The last [w] hexadecimal digits. *)
Fixpoint hex (w : nat) (n : Z) : list Z :=
  match w with O => [] | S w => hex w (n / 16) ++ [Print.digit_char (n mod 16)] end.

Definition printable (b : Z) : Z := if (b <? 32) || (b >? 127) then 46 else b.

(** A line of the dump: the bytes [l], at most sixteen, of the address [a]. *)
Definition dump_byte (l : list Z) (i : nat) : list Z :=
  (if Nat.even i then str " " else []) ++ match l !! i with Some b => hex 2 b | None => str "  " end.
Definition dump_char (l : list Z) (i : nat) : list Z :=
  match l !! i with Some b => [printable b] | None => str " " end.
Definition dump_line (a : Z) (l : list Z) : list Z :=
  str "0x" ++ hex 8 a ++ str ": " ++ concat (map (dump_byte l) (seq 0 16)) ++
  str "  |" ++ concat (map (dump_char l) (seq 0 16)) ++ str "|" ++ nl.

(** The dump of the bytes [l]: one line for each sixteen of them. *)
Fixpoint dump_lines (n : nat) (a : Z) (l : list Z) : list Z :=
  match n with O => [] | S n => dump_line a (take 16 l) ++ dump_lines n (u32 (a + 16)) (drop 16 l) end.
Definition dump (a : Z) (l : list Z) : list Z := dump_lines ((length l + 15) / 16) a l.

Lemma dump_more a l : (16 <= length l)%nat -> dump a l = dump_line a (take 16 l) ++ dump (u32 (a + 16)) (drop 16 l).
Proof.
  intros Hl. unfold dump. rewrite length_drop.
  replace ((length l + 15) / 16)%nat with (S ((length l - 16 + 15) / 16)); [done |].
  replace (length l + 15)%nat with ((length l - 16 + 15) + 1 * 16)%nat by lia. rewrite Nat.div_add by lia. lia.
Qed.

Lemma dump_last a l : (length l < 16)%nat -> dump a l = match l with [] => [] | _ => dump_line a l end.
Proof.
  intros Hl. unfold dump. destruct l as [| x l]; [done |].
  replace ((length (x :: l) + 15) / 16)%nat with 1%nat.
  - cbn [dump_lines]. by rewrite app_nil_r, take_ge by lia.
  - apply (Nat.div_unique _ _ 1 (length (x :: l) - 1)); cbn [length] in *; lia.
Qed.

Lemma hex_zero w : hex w 0 = repeat 48 w.
Proof.
  induction w as [| w IH]; [done |]. cbn [hex]. change (0 / 16) with 0. rewrite IH.
  change [Print.digit_char (0 mod 16)] with (repeat 48 1). rewrite <- repeat_app. f_equal. lia.
Qed.

Lemma hex_digits w : forall n fuel, 0 <= n < 16 ^ Z.of_nat w -> (0 < w <= fuel)%nat ->
  let ds := Print.to_digits fuel 16 n in
  zlen ds <= Z.of_nat w /\ repeat 48 (Z.to_nat (Z.of_nat w - zlen ds)) ++ map Print.digit_char ds = hex w n.
Proof.
  induction w as [| w IH]; intros n fuel Hn Hw; [lia |]. destruct fuel as [| fuel]; [lia |].
  cbn [Print.to_digits hex]. destruct (Z.ltb_spec n 16) as [Hlt | Hge]; cbv zeta.
  - split; [change (zlen [n]) with 1; lia |]. rewrite Z.div_small, Z.mod_small, hex_zero by lia.
    change (zlen [n]) with 1. cbn [map]. do 2 f_equal. lia.
  - assert (16 ^ Z.of_nat (S w) = 16 * 16 ^ Z.of_nat w) as Ep by (rewrite Nat2Z.inj_succ, Z.pow_succ_r; lia).
    assert (0 < w)%nat as Hw0 by (destruct w; [cbn in Hn; lia | lia]).
    destruct (IH (n / 16) fuel) as [Hl E]; [split; [apply Z.div_pos; lia | apply Z.div_lt_upper_bound; lia] | lia |].
    rewrite zlen_app. change (zlen [n mod 16]) with 1. split; [lia |].
    rewrite map_app, app_assoc. cbn [map]. f_equal. rewrite <- E. do 2 f_equal. lia.
Qed.

Lemma num_text_hex n w : 0 <= n < 16 ^ Z.of_nat w -> 0 <= n < 4294967296 -> (0 < w <= 32)%nat ->
  Print.num_text (i32 n) 16 false (Z.of_nat w) = hex w n.
Proof.
  intros Hn H32 Hw. unfold Print.num_text, Print.num_digits. cbn [andb app].
  rewrite u32_i32, u32_small by done. by apply (hex_digits w n 32).
Qed.


Lemma hex_visible w : forall n, 0 <= n -> Forall visible (hex w n) /\ zlen (hex w n) = Z.of_nat w.
Proof.
  induction w as [| w IH]; intros n Hn; [done |]. cbn [hex]. destruct (IH (n / 16)) as [Hv Hl]; [apply Z.div_pos; lia |].
  rewrite zlen_app, Hl. split; [| change (zlen [Print.digit_char (n mod 16)]) with 1; lia].
  apply Forall_app. split; [done |]. constructor; [| done].
  assert (Forall visible (map Print.digit_char (seqZ 0 16))) as Hd by decide_check.
  pose proof (Z.mod_pos_bound n 16 ltac:(lia)).
  apply (Forall_lookup_1 _ _ (Z.to_nat (n mod 16)) _ Hd). rewrite list_lookup_fmap, lookup_seqZ_lt by lia.
  cbn. do 2 f_equal. lia.
Qed.

Section dumping.
Context {D : Type} `{Device D} (hw : hardware D) (st0 : machine D) (ss : list screen) (s0 : screen).
Context (Hok : console_ok (con st0) ss) (Es : ss !! Z.to_nat (sb_current (con st0)) = Some s0).
Implicit Types st : machine D.

(** The text that was written, whatever its colours are. *)
Definition prints (t : list Z) st : Prop := exists acts, text_of acts = t /\ drawn st0 ss s0 acts st.

Lemma say_prints t0 m fmt ap t st : prints t0 st -> Forall visible fmt ->
  Forall (fun a => match a with Print.Int _ => True | Print.Text p w => Str.cstr m p w end) ap ->
  Print.render fmt 0 ap = Some t -> Forall visible t -> zlen t <= 4095 ->
  yields (say m fmt (map Print.arg_val ap) st) (prints (t0 ++ t)).
Proof using Hok.
  intros (acts & <- & Hd) Hf Ha Hr Hv Hl. eapply yields_weaken; [by apply (say_drawn st0 ss s0 Hok acts m fmt ap t) |].
  intros st' Hd'. exists (acts ++ [Put t]). split; [| done]. rewrite text_of_app. cbn. by rewrite app_nil_r.
Qed.

Lemma line_prints t0 fmt st : literal fmt -> prints t0 st -> yields (say [] fmt [] st) (prints (t0 ++ fmt)).
Proof using Hok.
  intros [Hf Hl] Hp. assert (Forall visible fmt) as Hv by (eapply List.Forall_impl; [| exact Hf]; by intros c [? _]).
  apply (say_prints t0 [] fmt [] fmt st); try done. by apply render_plain.
Qed.

Lemma fg_prints t0 c st : prints t0 st -> yields (fg c st) (prints t0).
Proof using Hok.
  intros (acts & <- & Hd). unfold fg.
  eapply yields_weaken; [by apply (paint_drawn st0 ss s0 Hok acts _ (set_fg_nibble c)); [apply _ |] |].
  intros st' Hd'. exists (acts ++ [Paint (set_fg_nibble c)]). split; [| done]. rewrite text_of_app. cbn. by rewrite !app_nil_r.
Qed.

Lemma int_arg z : Forall (fun a => match a with Print.Int _ => True | Print.Text p w => Str.cstr [] p w end) [Print.Int z].
Proof. apply List.Forall_cons; [exact I | apply List.Forall_nil]. Qed.

(** A number in hexadecimal. *)
Lemma byte_prints t0 b st : 0 <= b < 256 -> prints t0 st -> yields (say [] (str "%2x") [b] st) (prints (t0 ++ hex 2 b)).
Proof using Hok.
  intros Hb Hp. destruct (hex_visible 2 b) as [Hv Hl]; [lia |].
  apply (say_prints t0 [] (str "%2x") [Print.Int b]); [done | decide_check | apply int_arg | | done | rewrite Hl; lia].
  change (str "%2x") with [37; 50; 120]. cbn [Print.render Z.eqb Pos.eqb Print.is_width Z.leb Z.compare Pos.compare Pos.compare_cont andb Print.spec_text].
  change (50 - 48) with (Z.of_nat 2). rewrite num_text_hex by (change (16 ^ Z.of_nat 2) with 256; lia).
  cbn [mbind option_bind]. by rewrite app_nil_r.
Qed.

Lemma address_prints t0 a st : 0 <= a < 4294967296 -> prints t0 st ->
  yields (say [] (str "%8p: ") [a] st) (prints (t0 ++ str "0x" ++ hex 8 a ++ str ": ")).
Proof using Hok.
  intros Ha Hp. destruct (hex_visible 8 a) as [Hv Hl]; [lia |].
  apply (say_prints t0 [] (str "%8p: ") [Print.Int a]); [done | decide_check | apply int_arg | | |].
  - change (str "%8p: ") with [37; 56; 112; 58; 32]. cbn [Print.render Z.eqb Pos.eqb Print.is_width Z.leb Z.compare Pos.compare Pos.compare_cont andb Print.spec_text].
    change (56 - 48) with (Z.of_nat 8). rewrite num_text_hex by (change (16 ^ Z.of_nat 8) with 4294967296; lia).
    reflexivity.
  - apply Forall_app. split; [decide_check |]. apply Forall_app. split; [done | decide_check].
  - rewrite !zlen_app, Hl. vm_compute. discriminate.
Qed.

Lemma char_prints t0 b st : visible b -> prints t0 st -> yields (say [] (str "%c") [b] st) (prints (t0 ++ [b])).
Proof using Hok.
  intros Hb Hp. apply (say_prints t0 [] (str "%c") [Print.Int b]); [done | decide_check | apply int_arg | | by constructor | done].
  change (str "%c") with [37; 99]. cbn. rewrite u8_small; [done |]. unfold visible in Hb. lia.
Qed.

(** The bytes of a line, and the two columns. *)
Section line.
Context (base : Z) (l : list Z) (Hl : Forall (fun b => 0 <= b < 256) l).
Context (Hpeek : forall st i, 0 <= i < zlen l -> u8 (peek hw st (u32 (base + i))) = at_ 0 l i).

Lemma line_cell i : 0 <= i -> l !! Z.to_nat i = if zlen l - i >? 0 then Some (at_ 0 l i) else None.
Proof.
  intros Hi. unfold zlen. destruct (Z.gtb_spec (Z.of_nat (length l) - i) 0) as [Hlt |].
  - destruct (lookup_lt_is_Some_2 l (Z.to_nat i)) as [x E]; [lia |]. unfold at_.
    destruct (Z.ltb_spec i 0); [lia |]. by rewrite E.
  - apply lookup_ge_None_2. lia.
Qed.

Lemma line_byte i : 0 <= i < zlen l -> 0 <= at_ 0 l i < 256.
Proof using Hl.
  intros Hi. unfold zlen in Hi. destruct (lookup_lt_is_Some_2 l (Z.to_nat i)) as [x E]; [lia |].
  unfold at_. destruct (Z.ltb_spec i 0); [lia |]. rewrite E. exact (Forall_lookup_1 _ _ _ _ Hl E).
Qed.

Lemma even_rem i : 0 <= i < 16 -> Nat.even (Z.to_nat i) = (Z.rem i 2 =? 0).
Proof.
  intros Hi. assert (Forall (fun i => Nat.even (Z.to_nat i) = (Z.rem i 2 =? 0)) (seqZ 0 16)) as Hall by decide_check.
  apply (Forall_lookup_1 _ _ (Z.to_nat i) _ Hall). rewrite lookup_seqZ_lt by lia. f_equal. lia.
Qed.

Lemma hx_byte_prints t i st : 0 <= i < 16 -> prints t st ->
  yields (hx_byte hw base (zlen l) i st) (prints (t ++ dump_byte l (Z.to_nat i))).
Proof using Hok Hl Hpeek.
  intros Hi Hp. unfold hx_byte, dump_byte. rewrite line_cell, even_rem by lia.
  eapply (yields_bind _ _ (prints (t ++ (if Z.rem i 2 =? 0 then str " " else [])))).
  { destruct (Z.rem i 2 =? 0); [apply line_prints; [decide_check | done] | rewrite app_nil_r; by apply yields_ok]. }
  intros st1 H1. rewrite app_assoc. destruct (Z.gtb_spec (zlen l - i) 0) as [Hlt |].
  - rewrite Hpeek by lia. eapply yields_bind; [eapply fg_prints; exact H1 | intros st2 H2].
    eapply yields_bind; [eapply byte_prints; [apply line_byte; lia | exact H2] | intros st3 H3].
    by apply fg_prints.
  - apply line_prints; [decide_check | done].
Qed.

Lemma printable_visible b : 0 <= b < 256 -> visible (printable b).
Proof.
  intros Hb. unfold printable, visible. destruct (Z.ltb_spec b 32); cbn [orb]; [lia |].
  destruct (Z.gtb_spec b 127); lia.
Qed.

Lemma hx_char_prints t i st : 0 <= i < 16 -> prints t st ->
  yields (hx_char hw base (zlen l) i st) (prints (t ++ dump_char l (Z.to_nat i))).
Proof using Hok Hl Hpeek.
  intros Hi Hp. unfold hx_char, dump_char. rewrite line_cell by lia.
  destruct (Z.gtb_spec (zlen l - i) 0) as [Hlt |]; [| apply line_prints; [decide_check | done]].
  rewrite Hpeek by lia. pose proof (line_byte i ltac:(lia)) as Hb. set (b := at_ 0 l i) in *.
  eapply (yields_bind _ _ (fun '(c, st1) => c = printable b /\ prints t st1)).
  - unfold printable. destruct (Z.eqb_spec b 0) as [-> |].
    + ystep (fg_prints t C_INACTIVE st Hp). intros st1 H1. by apply yields_ok.
    + destruct ((b <? 32) || (b >? 127)).
      * ystep (fg_prints t C_NONPRINT st Hp). intros st1 H1. by apply yields_ok.
      * ystep (fg_prints t C_ACTIVE st Hp). intros st1 H1. by apply yields_ok.
  - intros [c st1] [-> H1]. ystep (char_prints t (printable b) st1 (printable_visible b Hb) H1).
    intros st2 H2. by apply fg_prints.
Qed.

(** A loop that prints a piece in each turn. *)
Lemma loop_prints (f : nat -> list Z) body n t st : prints t st ->
  (forall t i st, 0 <= i < Z.of_nat n -> prints t st -> yields (body i st) (prints (t ++ f (Z.to_nat i)))) ->
  yields (for_loop n 0 body st) (prints (t ++ concat (map f (seq 0 n)))).
Proof.
  intros Hp Hb.
  destruct (for_loop_inv (fun i => prints (t ++ concat (map f (seq 0 (Z.to_nat i))))) n body 0 st) as (st' & E & Hp').
  - by rewrite app_nil_r.
  - intros j st1 Hj H1. rewrite Z.add_0_l in Hj. destruct (Hb _ j st1 Hj H1) as (st2 & E & H2). exists st2.
    split; [exact E |]. replace (Z.to_nat (j + 1)) with (S (Z.to_nat j)) by lia.
    rewrite seq_S, map_app, concat_app, app_assoc. cbn [map concat Nat.add]. by rewrite app_nil_r.
  - rewrite E. apply yields_ok. by rewrite Z.add_0_l, Nat2Z.id in Hp'.
Qed.

Lemma printline_prints t n st : 0 <= base < 4294967296 -> i32 n = zlen l -> prints t st ->
  yields (hx_printline hw base n st) (prints (t ++ dump_line base l)).
Proof using Hok Hl Hpeek.
  intros Hbase Hn Hp. unfold hx_printline, dump_line. rewrite Hn. change (Z.to_nat NBYTES_LINE) with 16%nat.
  ystep (address_prints t base st Hbase Hp). intros st1 H1.
  eapply yields_bind; [eapply (loop_prints (dump_byte l)); [exact H1 | intros; by apply hx_byte_prints] | intros st2 H2]. eapply yields_bind; [eapply fg_prints; exact H2 | intros st3 H3].
  eapply yields_bind; [eapply (line_prints _ (str "  |")); [decide_check | exact H3] | intros st4 H4].
  eapply yields_bind; [eapply (loop_prints (dump_char l)); [exact H4 | intros; by apply hx_char_prints] | intros st5 H5].
  eapply yields_weaken; [eapply (line_prints _ (str "|" ++ nl)); [decide_check | exact H5] |].
  intros st6 H6. by rewrite <- !app_assoc in H6.
Qed.
End line.

(** The bytes [l] can be read from [base] on, whatever is on the screen. *)
Definition readable (base : Z) (l : list Z) : Prop :=
  Forall (fun b => 0 <= b < 256) l /\
  forall st i, 0 <= i < zlen l -> u8 (peek hw st (u32 (base + i))) = at_ 0 l i.

Lemma readable_take n base l : readable base l -> readable base (take n l).
Proof.
  intros [Hl Hp]. split; [by apply Forall_take |]. intros st i Hi.
  assert (zlen (take n l) <= zlen l) by (unfold zlen; rewrite length_take; lia).
  rewrite Hp by lia. symmetry. apply at_take. unfold zlen in *. rewrite length_take in *. lia.
Qed.

Lemma readable_drop n base l : readable base l -> readable (u32 (base + Z.of_nat n)) (drop n l).
Proof.
  intros [Hl Hp]. split; [by apply Forall_drop |]. intros st i Hi.
  unfold zlen in *. rewrite length_drop in Hi.
  replace (u32 (u32 (base + Z.of_nat n) + i)) with (u32 (base + (Z.of_nat n + i)))
    by (unfold u32; rewrite Zplus_mod_idemp_l; f_equal; lia).
  rewrite Hp by lia. unfold at_. destruct (Z.ltb_spec i 0), (Z.ltb_spec (Z.of_nat n + i) 0); try lia.
  rewrite lookup_drop. do 2 f_equal. lia.
Qed.

Lemma lines_prints fuel : forall base l t st, 0 <= base < 4294967296 -> readable base l ->
  (length l < 16 * fuel)%nat -> prints t st ->
  yields (hx_lines hw fuel base (zlen l) st) (fun '(b, n, st') => exists l' t',
    n = zlen l' /\ (length l' < 16)%nat /\ 0 <= b < 4294967296 /\ readable b l' /\
    t' ++ dump b l' = t ++ dump base l /\ prints t' st').
Proof using Hok.
  induction fuel as [| fuel IH]; intros base l t st Hb Hr Hf Hp; [lia |]. cbn [hx_lines].
  change NBYTES_LINE with 16. unfold zlen at 1. rewrite Z.geb_leb.
  destruct (Z.leb_spec 16 (Z.of_nat (length l))) as [Hle | Hlt].
  - destruct (readable_take 16 base l Hr) as [Ht1 Ht2].
    eapply yields_bind; [eapply (printline_prints base (take 16 l) Ht1 Ht2 _ 16); [done | | exact Hp] |].
    { unfold zlen. rewrite length_take. rewrite Nat.min_l by lia. reflexivity. }
    intros st1 H1. replace (zlen l - 16) with (zlen (drop 16 l)) by (unfold zlen; rewrite length_drop; lia).
    pose proof (readable_drop 16 base l Hr) as Hr'. change (Z.of_nat 16) with 16 in Hr'.
    eapply yields_weaken; [eapply (IH (u32 (base + 16)) (drop 16 l)); [apply u32_range | done | rewrite length_drop; lia | exact H1] |].
    intros [[b n] st2] (l' & t' & ? & ? & ? & ? & E & ?). exists l', t'. split; [done |]. split; [done |]. split; [done |].
    split; [done |]. split; [| done]. rewrite E, (dump_more base l) by lia. by rewrite <- app_assoc.
  - apply yields_ok. exists l, t. split; [done |]. split; [lia |]. split; [exact Hb |]. split; [exact Hr |]. by split.
Qed.

(** The whole dump, with the colour as it was. *)
Lemma hx_print_spec base l : 0 <= base < 4294967296 -> readable base l ->
  yields (hx_print hw base (zlen l) st0) (fun st => exists acts s, text_of acts = dump base l /\
    play s0 acts = Some s /\ screen_now st0 ss s st /\ sc_color s = sc_color s0).
Proof using Hok Es.
  intros Hb Hr. unfold hx_print.
  destruct (get_color_ok (con st0) ss s0 Hok Es) as [-> Hc]. cbn [mbind result_bind].
  assert (prints [] st0) as H0 by (exists []; split; [done | by apply drawn_nil]).
  assert (forall f g t st, PaintsAs f g -> prints t st -> yields (paint f st) (prints t)) as Hpaint.
  { intros f g t st Hg (acts & <- & Hd). eapply yields_weaken; [by apply (paint_drawn st0 ss s0 Hok acts f g) |].
    intros st' Hd'. exists (acts ++ [Paint g]). split; [| done]. rewrite text_of_app. cbn. by rewrite app_nil_r. }
  eapply yields_bind; [eapply Hpaint; [apply _ | exact H0] | intros st1 H1].
  eapply yields_bind; [apply fg_prints; exact H1 | intros st2 H2].
  eapply yields_bind; [apply (lines_prints _ base l [] st2 Hb Hr); [| exact H2] |].
  { unfold zlen. change NBYTES_LINE with 16. rewrite <- (Z2Nat.id (Z.of_nat (length l) / 16)) by (apply Z.div_pos; lia).
    rewrite Z2Nat.inj_div by lia. rewrite Nat2Z.id. change (Z.to_nat 16) with 16%nat. rewrite Nat2Z.id.
    pose proof (Nat.div_mod_eq (length l) 16). pose proof (Nat.mod_upper_bound (length l) 16). lia. }
  intros [[b n] st3] (l' & t' & -> & Hl' & Hb' & [Hr1 Hr2] & E & H3). cbn [app] in E.
  eapply (yields_bind _ _ (prints (dump base l))).
  - rewrite <- E, dump_last by done. destruct l' as [| x l']; [rewrite app_nil_r; by apply yields_ok |].
    rewrite (proj2 (Z.eqb_neq _ 0)) by (rewrite zlen_cons; pose proof (zlen_nonneg l'); lia). cbn [negb].
    apply printline_prints; [done | done | done | | done]. apply i32_small. unfold zlen. cbn [length] in *. lia.
  - intros st4 (acts & Et & Hd).
    eapply yields_weaken; [apply (paint_drawn st0 ss s0 Hok acts _ (fun _ => u8 (sc_color s0))); [apply _ | exact Hd] |].
    intros st5 (s & Hp & Hnow). exists (acts ++ [Paint (fun _ => u8 (sc_color s0))]), s.
    split; [rewrite text_of_app; cbn; by rewrite app_nil_r |]. split; [done |]. split; [done |].
    rewrite play_app in Hp. apply bind_Some in Hp as (s1 & _ & Hp). injection Hp as <-. cbn [recolor sc_color].
    apply u8_small. lia.
Qed.
End dumping.

(** ** Properties *)

Section properties.
Context {D : Type} `{Device D}.
Implicit Types st : machine D.

(** C14: The builtins give their answers.  [keymap] switches to the layout it is given;
    [color] sets the foreground or the background and keeps the other, or resets both; [help]
    lists the table of the builtins; and wrong command lines of these and the others print their
    usage or what is unknown, return -1, and change nothing else. *)
Theorem builtins_answer hw garbage polls e ws m argv st ss s a : console_ok (con st) ss ->
  ss !! Z.to_nat (sb_current (con st)) = Some s -> words_at m argv ws -> answer e ws = Some a ->
  exists st' s', Nsh.exec_builtin hw garbage polls e (zlen ws) m argv st = Ok (result_of a, st') /\
    play s (actions_of a) = Some s' /\
    sb_current (con st') = sb_current (con st) /\ console_ok (con st') (<[Z.to_nat (sb_current (con st)) := s']> ss) /\
    kbd st' = match layout_of a with Some f => Keyboard.KBD_setkeymap f (kbd st) | None => kbd st end /\
    kpm_st st' = kpm_st st /\ gdt_st st' = gdt_st st /\ idt_st st' = idt_st st.
Proof. intros Hok Es Hw Ha. exact (answer_spec hw garbage polls st ss s Hok Es m argv e ws a Hw Ha). Qed.

(** C13: [hexdump] prints the dump of the memory it is asked for: a line for every sixteen
    bytes with the address, the bytes in hexadecimal, in pairs, and the characters, and blanks for
    what is missing from the last line; and it leaves the colour as it was. *)
Theorem hexdump_dumps hw argc m argv st ss s p q a e l e' : console_ok (con st) ss ->
  ss !! Z.to_nat (sb_current (con st)) = Some s -> 3 <= argc ->
  arg_ptr argv 1 = Ok p -> StrTol.strtoul m p 0 = Ok (a, e) -> Str.rdc m e = Ok 0 -> 0 <= a < 2 ^ 32 ->
  arg_ptr argv 2 = Ok q -> StrTol.strtoul m q 0 = Ok (zlen l, e') -> Str.rdc m e' = Ok 0 -> readable hw a l ->
  exists st' acts s', hexdump hw argc m argv st = Ok (0, st') /\ text_of acts = dump a l /\
    play s acts = Some s' /\ screen_now st ss s' st' /\ sc_color s' = sc_color s.
Proof.
  intros Hok Es Hargc Ep Ea Ee Ha Eq En Ee' Hr. unfold hexdump. rewrite (proj2 (Z.ltb_ge argc 3)) by lia.
  rewrite Ep. cbn [mbind result_bind]. rewrite Ea. cbn [mbind result_bind]. rewrite Ee. cbn [mbind result_bind Z.eqb negb].
  rewrite Eq. cbn [mbind result_bind]. rewrite En. cbn [mbind result_bind]. rewrite Ee'. cbn [mbind result_bind Z.eqb negb].
  destruct (hx_print_spec hw st ss s Hok Es a l Ha Hr) as (st' & -> & acts & s' & Et & Hp & Hnow & Ec).
  by exists st', acts, s'.
Qed.
End properties.

(** ** Witnesses *)

#[local] Existing Instance no_device.

Lemma two_words w1 w2 : word w1 -> word w2 ->
  words_at (w1 ++ [0] ++ w2 ++ [0]) [Some 0; Some (zlen w1 + 1)] [w1; w2].
Proof.
  intros H1 H2 i w E. destruct i as [| [| i]]; [injection E as <- | injection E as <- | done].
  - split; [done |]. exists 0. split; [done |]. rewrite app_assoc. apply Print.cstr_extend.
    apply (lit_cstr [] w1), visible_plain, H1.
  - split; [done |]. exists (zlen w1 + 1). split; [done |].
    replace (w1 ++ [0] ++ w2 ++ [0]) with (lit (w1 ++ [0]) w2) by (unfold lit; by rewrite <- app_assoc).
    replace (zlen w1 + 1) with (zlen (w1 ++ [0])) by (rewrite zlen_app; reflexivity).
    apply lit_cstr, visible_plain, H2.
Qed.

(** "color reset" *)
Lemma builtins_answer_witness : exists (st st' : machine unit) s',
  Nsh.exec_builtin Nsh.no_hardware (Kpm.mk_chunk 0 0) 0 Nsh.Color 2 (str "color" ++ [0] ++ str "reset" ++ [0]) [Some 0; Some 6] st =
    Ok (-1, st') /\ console_ok (con st') [s'] /\ sc_color s' = SB_DFL_COLOR.
Proof.
  destruct booted_console as (c & Hok & E0 & _).
  destruct (builtins_answer Nsh.no_hardware (Kpm.mk_chunk 0 0) 0 Nsh.Color [str "color"; str "reset"]
    (str "color" ++ [0] ++ str "reset" ++ [0]) [Some 0; Some 6] (idle_machine c) [cleared SB_DFL_COLOR] (cleared SB_DFL_COLOR)
    (mk_answer (-1) [Paint (fun _ => u8 SB_DFL_COLOR)] None) Hok) as (st' & s' & E & Hp & _ & Hok' & _).
  - cbn [idle_machine con]. by rewrite E0.
  - apply (two_words (str "color") (str "reset")); (split; [decide_check | done]).
  - reflexivity.
  - exists (idle_machine c), st', s'. split; [exact E |]. cbn [idle_machine con] in Hok'. rewrite E0 in Hok'.
    split; [exact Hok' |]. cbn in Hp. injection Hp as <-. reflexivity.
Defined.

(** A memory whose byte at [a] is [a mod 256]. *)
Definition counting : hardware unit := mk_hardware (fun _ a => a) [] (fun _ st => Ok st) (fun st => st) 0 0.

(** "hexdump 0x41 3" *)
Lemma hexdump_dumps_witness : exists (st st' : machine unit) acts,
  hexdump counting 3 (str "0x41" ++ [0] ++ str "3" ++ [0]) [Some 0; Some 0; Some 5] st = Ok (0, st') /\
  text_of acts = str "0x00000041:  4142 43                                  |ABC             |" ++ nl.
Proof.
  destruct booted_console as (c & Hok & E0 & _).
  destruct (hexdump_dumps counting 3 (str "0x41" ++ [0] ++ str "3" ++ [0]) [Some 0; Some 0; Some 5]
    (idle_machine c) [cleared SB_DFL_COLOR] (cleared SB_DFL_COLOR) 0 5 65 4 [65; 66; 67] 6 Hok)
    as (st' & acts & s' & E & Et & _).
  - cbn [idle_machine con]. by rewrite E0.
  - lia.
  - reflexivity.
  - vm_compute. reflexivity.
  - reflexivity.
  - lia.
  - reflexivity.
  - vm_compute. reflexivity.
  - reflexivity.
  - split; [decide_check |]. intros st i Hi. change (zlen [65; 66; 67]) with 3 in Hi. cbn [counting peek].
    assert (i = 0 \/ i = 1 \/ i = 2) as [-> | [-> | ->]] by lia; reflexivity.
  - exists (idle_machine c), st', acts. split; [exact E |]. rewrite Et. vm_compute. reflexivity.
Defined.

End Results.
