(* ===== verification/Commands.v ===== *)
(** The builtins keep the invariant of the machine: kernel/nsh/builtins/*.c, all of
    them, for every command line.

    What a builtin can rely on is that its [argc] words are strings of a command
    line.  Two builtins need more: [free] must name memory that the allocator manages
    ([free_ok]), and the instructions [int] and [hlt] and the keyboard controller
    must behave ([hardware_ok]). *)

From Stdlib Require Import Ascii String.
From Stdlib Require Import ZArith Lia Bool.
From stdpp Require Import base tactics numbers list option.
From S2P Require Import Prelude Logic Port Mem Kpm KpmBits KpmTree KpmOps Keyboard Desc.
From S2P Require Import Str StrTol Print Format Screenbuf Typing Console Builtins Machine AllocCmd Nsh.

Local Open Scope Z_scope.

Module Commands.
Import Screenbuf Console Builtins Format Typing Machine AllocCmd.

(** An address inside of a page is refused. *)
Lemma free_unaligned k a n : 0 <= a < 4294967296 -> a mod 4096 <> 0 ->
  Kpm.kpm_free k (Kpm.mk_chunk a n) = Ok k.
Proof.
  intros Ha Hal. unfold Kpm.kpm_free. cbn [Kpm.chunk_addr]. rewrite ISALIGNED_page by done.
  by rewrite (proj2 (Z.eqb_neq _ _) Hal).
Qed.

#[local] Opaque say paint Kpm.kpm_alloc Kpm.kpm_free.

(** The first [argc] entries of [argv] are words. *)
Definition args_at (m : list Z) (argv : list (option Z)) (argc : Z) : Prop :=
  forall i, 0 <= i < argc -> exists p, argv !! Z.to_nat i = Some (Some p) /\ word_at m p.

Lemma arg_yields m argv argc i : args_at m argv argc -> 0 <= i < argc ->
  yields (arg_ptr argv i) (fun p => word_at m p /\ argv !! Z.to_nat i = Some (Some p)).
Proof.
  intros Ha Hi. destruct (Ha i Hi) as (p & Ep & Hp). unfold arg_ptr, rd.
  destruct (Z.ltb_spec i 0); [lia |]. rewrite Ep. by apply yields_ok.
Qed.

(** Comparisons of a word with a literal. *)
Lemma strcmp_lit_yields m p s : word_at m p -> Forall plain s -> yields (strcmp_lit m p s) (fun _ => True).
Proof.
  intros (w & Hw & _) Hs. unfold strcmp_lit.
  assert (Str.cstr (lit m s) p w) as Hw' by by apply Print.cstr_extend.
  rewrite (Str.strcmp_spec _ _ _ _ _ Hw' (lit_cstr m s Hs)). by apply yields_ok.
Qed.

Lemma lit_strcmp_yields m p s : word_at m p -> Forall plain s -> yields (lit_strcmp s m p) (fun _ => True).
Proof.
  intros (w & Hw & _) Hs. unfold lit_strcmp.
  assert (Str.cstr (lit m s) p w) as Hw' by by apply Print.cstr_extend.
  rewrite (Str.strcmp_spec _ _ _ _ _ (lit_cstr m s Hs) Hw'). by apply yields_ok.
Qed.

Ltac plain_check := by apply (bool_decide_unpack _); vm_compute.
Ltac strcmp_step := eapply yields_bind; [eapply strcmp_lit_yields; [eassumption | plain_check] | intros [] _].
Ltac ret := apply yields_ok; cbv beta iota.

Section commands.
Context {D : Type} `{Device D} (hw : hardware D) {low : bool}.
Implicit Types st : machine D.
Implicit Types m : list Z.

(** The postcondition of a builtin that only prints. *)
Definition printed st (r : Z * machine D) : Prop := let '(_, st') := r in quiet low st st'.

Lemma say_all_quiet l st0 : Forall (fun '(fmt, zs) => exists ks, format_check fmt = Some ks /\ args_in [] ks zs) l ->
  forall st, quiet low st0 st -> yields (say_all l st) (quiet low st0).
Proof.
  induction 1 as [| [fmt zs] l (ks & Hf & Ha) _ IH]; intros st Hq; [by ret |]. cbn [say_all].
  ystep (say_quiet [] fmt ks zs st0 st Hq Hf Ha). exact IH.
Qed.

(** A list of calls with literal formats. *)
Ltac say_all_check := repeat (apply List.Forall_cons; [eexists; split; [vm_compute; reflexivity | by repeat split] |]);
  apply List.Forall_nil.

(** ** help, keymap, color *)

Lemma help_quiet table st : good low (con st) ->
  Forall (fun '(n, d) => Forall visible n /\ Forall visible d /\ zlen n <= 1100 /\ zlen d <= 1100) table ->
  yields (help table st) (printed st).
Proof.
  intros Hg Ht. unfold help. pose proof (quiet_refl st Hg) as Hq. say_step; [done |].
  eapply (yields_bind _ _ (quiet low st)); [| intros; by ret].
  revert a H0. induction Ht as [| [n d] table (Hn & Hd & Ln & Ld) _ IH]; intros st1 Hq1; [by ret |].
  cbn [help_loop]. eapply yields_bind; [| intros; by apply IH].
  eapply say_quiet; [eassumption | vm_compute; reflexivity |].
  assert (Str.cstr (n ++ [0] ++ d ++ [0]) 0 n) as H1
    by (apply (Print.cstr_extend (n ++ [0]) (d ++ [0]) 0 n) || rewrite app_assoc; apply Print.cstr_extend; apply (lit_cstr [] n), visible_plain, Hn).
  assert (Str.cstr (n ++ [0] ++ d ++ [0]) (zlen n + 1) d) as H2.
  { replace (n ++ [0] ++ d ++ [0]) with (lit (n ++ [0]) d) by (unfold lit; by rewrite <- app_assoc).
    replace (zlen n + 1) with (zlen (n ++ [0])) by (rewrite zlen_app; reflexivity).
    apply lit_cstr, visible_plain, Hd. }
  split; [by exists n |]. split; [by exists d | done].
Qed.

(** The two names in memories of their own. *)
Lemma lit_word n : Forall visible n -> zlen n <= 1100 -> word_at (n ++ [0]) 0.
Proof.
  intros Hn Hl. exists n. split; [| done].
  by apply (lit_cstr [] n), visible_plain.
Qed.
Lemma us_word : word_at (str "us" ++ [0]) 0.
Proof. apply lit_word; [plain_check | done]. Qed.
Lemma fr_word : word_at (str "fr" ++ [0]) 0.
Proof. apply lit_word; [plain_check | done]. Qed.

Lemma keymap_find_yields m p l : word_at m p -> Forall (fun e => Forall plain e.1 /\ Keyboard.keyboard_layout e.2) l ->
  yields (keymap_find l m p) (fun r => match r with Some f => Keyboard.keyboard_layout f | None => True end).
Proof.
  intros Hp. induction 1 as [| [n f] l [Hn Hf] _ IH]; [by ret |]. cbn [keymap_find].
  ystep (strcmp_lit_yields m p n Hp Hn). intros [] _; [by ret | exact IH].
Qed.

Lemma layouts_ok : Forall (fun e => Forall plain e.1 /\ Keyboard.keyboard_layout e.2) layouts.
Proof.
  apply List.Forall_cons; [split; [plain_check | by left] |].
  apply List.Forall_cons; [split; [plain_check | by right] |]. apply List.Forall_nil.
Qed.

Lemma keymap_safe nf argc m argv st : args_at m argv argc -> machine_ok low nf st ->
  yields (keymap argc m argv st) (fun '(_, st') => machine_ok low nf st').
Proof.
  intros Ha Hm. pose proof (quiet_refl st (m_good low nf st Hm)) as Hq. unfold keymap, keymap_usage.
  assert (forall a, quiet low st a -> machine_ok low nf a) as Hquiet by (intros; by apply quiet_machine with st).
  apply yields_if; [intros _ | intros Hc%Z.ltb_ge].
  { eapply (yields_bind _ _ (quiet low st)); [say_step; [done |]; by say_last | intros; ret; auto]. }
  ystep (arg_yields m argv argc 1 Ha ltac:(lia)). intros p [Hp _]. strcmp_step.
  - say_step; [done |]. eapply (yields_bind _ _ (quiet low st)); [| intros; ret; auto].
    unfold layouts, keymap_list. say_step; [split; [apply us_word | done] |].
    say_step; [split; [apply fr_word | done] |]. by ret.
  - ystep (keymap_find_yields m p layouts Hp layouts_ok). intros [f |] Hf.
    + ret. destruct Hm. split; try done. by exists f.
    + say_step; [by split |]. ret. auto.
Qed.

Lemma color_find_yields m p l : word_at m p -> Forall (Forall plain) l ->
  forall i, yields (color_find l m p i) (fun _ => True).
Proof.
  intros Hp. induction 1 as [| c l Hc _ IH]; intros i; [by ret |]. cbn [color_find].
  ystep (lit_strcmp_yields m p c Hp Hc). intros [] _; [by ret | apply IH].
Qed.

Lemma color_set_quiet set argc m argv st : (forall i, Recolors (fun b => set b i)) -> good low (con st) ->
  args_at m argv argc -> 3 <= argc -> yields (color_set set m argv st) (printed st).
Proof.
  intros Hset Hg Ha Hc. pose proof (quiet_refl st Hg) as Hq. unfold color_set.
  ystep (arg_yields m argv argc 2 Ha ltac:(lia)). intros p [Hp _].
  ystep (color_find_yields m p colors Hp); [plain_check |]. intros [i |] _.
  - paint_step. by ret.
  - say_step; [by split |]. by ret.
Qed.

Lemma color_quiet argc m argv st : good low (con st) -> args_at m argv argc ->
  yields (color argc m argv st) (printed st).
Proof.
  intros Hg Ha. pose proof (quiet_refl st Hg) as Hq. unfold color, color_usage.
  assert (forall st1, quiet low st st1 -> yields
    (st1 ← say m (str "Usage: color fg/bg COLOR" ++ nl) [] st1; say m (str "       color reset" ++ nl) [] st1)
    (quiet low st)) as Husage by (intros; say_step; [done |]; say_last; done).
  apply yields_if; [intros _ | intros Hc%Z.ltb_ge].
  { eapply yields_bind; [by apply Husage | intros; by ret]. }
  ystep (arg_yields m argv argc 1 Ha ltac:(lia)). intros p [Hp _]. strcmp_step.
  { paint_step. by ret. }
  apply yields_if; [intros _ | intros Hc2%Z.ltb_ge].
  { eapply yields_bind; [by apply Husage | intros; by ret]. }
  strcmp_step; [by apply color_set_quiet with argc; try apply _ |].
  strcmp_step; [by apply color_set_quiet with argc; try apply _ |].
  say_step; [by split |]. by ret.
Qed.

(** ** hexdump *)

Lemma fg_quiet c st0 st : quiet low st0 st -> yields (fg c st) (quiet low st0).
Proof. intros Hq. unfold fg. paint_last. Qed.

Lemma hx_byte_quiet base nbytes i st0 st : quiet low st0 st -> yields (hx_byte hw base nbytes i st) (quiet low st0).
Proof.
  intros Hq. unfold hx_byte. eapply (yields_bind _ _ (quiet low st0)).
  { apply yields_if; intros _; [say_last; done | by ret]. }
  intros st1 Hq1. apply yields_if; intros _; [| say_last; done].
  eapply yields_bind; [by apply fg_quiet |]. intros st2 Hq2. say_step; [done |]. by apply fg_quiet.
Qed.

Lemma hx_char_quiet base nbytes i st0 st : quiet low st0 st -> yields (hx_char hw base nbytes i st) (quiet low st0).
Proof.
  intros Hq. unfold hx_char. apply yields_if; intros _; [| say_last; done].
  generalize (u8 (peek hw st (u32 (base + i)))). intros byte. eapply (yields_bind _ _ (fun '(b, st1) => 32 <= b < 128 /\ quiet low st0 st1)).
  { assert (forall c b, 32 <= b < 128 -> yields (st1 ← fg c st; Ok (b, st1))
      (fun '(b, st1) => 32 <= b < 128 /\ quiet low st0 st1)) as Hfg.
    { intros c b Hb. eapply yields_bind; [by apply fg_quiet |]. intros st1 Hq1. by ret. }
    apply yields_if; intros H0; [by apply Hfg |]. apply yields_if; intros H1; [by apply Hfg |].
    apply Hfg. apply orb_false_iff in H1 as [H1%Z.ltb_ge H2]. rewrite Z.gtb_ltb in H2.
    apply Z.ltb_ge in H2. lia. }
  intros [b st1] [Hb Hq1]. say_step; [split; [unfold visible; lia | done] |]. by apply fg_quiet.
Qed.

Lemma hx_printline_quiet base nbytes st0 st : quiet low st0 st -> yields (hx_printline hw base nbytes st) (quiet low st0).
Proof.
  intros Hq. unfold hx_printline. say_step; [done |].
  eapply yields_bind; [apply (yields_for_loop (quiet low st0)); [done | intros; by apply hx_byte_quiet] |].
  cbv beta. intros st2 Hq2. eapply yields_bind; [by apply fg_quiet |]. intros st3 Hq3. say_step; [done |].
  eapply yields_bind; [apply (yields_for_loop (quiet low st0)); [done | intros; by apply hx_char_quiet] |].
  cbv beta. intros st5 Hq5. say_last. done.
Qed.

Lemma hx_lines_quiet st0 fuel : forall base size st, quiet low st0 st -> size / 16 <= Z.of_nat fuel ->
  yields (hx_lines hw (S fuel) base size st) (fun '(_, _, st') => quiet low st0 st').
Proof.
  induction fuel as [| fuel IH]; intros base size st Hq Hf; cbn [hx_lines];
    change NBYTES_LINE with 16; (apply yields_if; [rewrite Z.geb_leb; intros Hge%Z.leb_le | intros _; by ret]).
  - exfalso. dlia.
  - eapply yields_bind; [by apply hx_printline_quiet |]. intros st1 Hq1.
    apply IH; [done | dlia].
Qed.

Lemma hx_print_quiet base size st0 st : quiet low st0 st -> yields (hx_print hw base size st) (quiet low st0).
Proof.
  intros Hq. unfold hx_print. change NBYTES_LINE with 16.
  ystep (get_color_yields (con st) (proj2 Hq)). intros c _.
  paint_step. eapply yields_bind; [by apply fg_quiet |]. intros st2 Hq2.
  eapply yields_bind; [apply (hx_lines_quiet st0); [done | dlia] |]. intros [[b n] st3] Hq3.
  eapply (yields_bind _ _ (quiet low st0)).
  { apply yields_if; intros _; [by apply hx_printline_quiet | by ret]. }
  intros st4 Hq4. paint_last.
Qed.

Lemma hexdump_quiet argc m argv st : good low (con st) -> args_at m argv argc ->
  yields (hexdump hw argc m argv st) (printed st).
Proof.
  intros Hg Ha. pose proof (quiet_refl st Hg) as Hq. unfold hexdump, hexdump_usage.
  apply yields_if; [intros _ | intros Hc%Z.ltb_ge]; [say_step; [done | by ret] |].
  ystep (arg_yields m argv argc 1 Ha ltac:(lia)). intros p [Hp _].
  ystep (word_strtoul m p Hp). intros [a e] [x ->]. cbn [mbind result_bind].
  apply yields_if; intros _; [say_step; [done | by ret] |].
  ystep (arg_yields m argv argc 2 Ha ltac:(lia)). intros q [Hp' _].
  ystep (word_strtoul m q Hp'). intros [n e'] [y ->]. cbn [mbind result_bind].
  apply yields_if; intros _; [say_step; [done | by ret] |].
  eapply yields_bind; [by apply hx_print_quiet |]. intros st1 Hq1. by ret.
Qed.

(** ** info *)

(** The sequences of calls with literal formats and numbers. *)
Lemma numbers_quiet l st0 st : quiet low st0 st ->
  Forall (fun '(fmt, zs) => format_check fmt = Some (map (fun _ => KInt) zs)) l ->
  yields (say_all l st) (quiet low st0).
Proof.
  intros Hq Hl. apply say_all_quiet; [| done]. eapply List.Forall_impl; [| exact Hl].
  intros [fmt zs] E. eexists. split; [exact E |]. clear E. by induction zs.
Qed.

Ltac numbers := apply numbers_quiet; [done |];
  repeat (apply List.Forall_cons; [vm_compute; reflexivity |]); apply List.Forall_nil.

Lemma register_formats_checked : Forall (fun fmt => format_check fmt = Some [KInt]) register_formats.
Proof. unfold register_formats. repeat (apply List.Forall_cons; [vm_compute; reflexivity |]). apply List.Forall_nil. Qed.

Lemma info_registers_quiet st0 st : quiet low st0 st -> yields (info_registers hw st) (quiet low st0).
Proof.
  intros Hq. unfold info_registers. apply numbers_quiet; [done |].
  generalize (read_registers hw). induction register_formats_checked as [| fmt fmts Hf _ IH];
    intros [| r rs]; try apply List.Forall_nil. by apply List.Forall_cons.
Qed.

Lemma info_idt_quiet st0 st : quiet low st0 st -> yields (info_idt st) (quiet low st0).
Proof. intros Hq. unfold info_idt. numbers. Qed.

Lemma info_stack_quiet st0 st : quiet low st0 st -> yields (info_stack hw st) (quiet low st0).
Proof. intros Hq. unfold info_stack. numbers. Qed.

Lemma info_gdt_quiet st0 st : 7 <= zlen (Gdt.gdt (gdt_st st0)) -> quiet low st0 st ->
  yields (info_gdt st) (quiet low st0).
Proof.
  intros Hg Hq. unfold info_gdt. eapply yields_bind; [by numbers |]. intros st1 Hq1.
  apply yields_for_loop; [done |]. change (Z.to_nat Gdt.GDT_SIZE) with 6%nat.
  intros j st2 Hj Hq2. unfold info_gdt_entry.
  assert (gdt_st st2 = gdt_st st0) as -> by (destruct Hq2 as [Ho _]; unfold others in Ho; by injection Ho).
  destruct (lookup_lt_is_Some_2 (Gdt.gdt (gdt_st st0)) (Z.to_nat j)) as [e Ee]; [unfold zlen in Hg; lia |].
  unfold rd. destruct (Z.ltb_spec j 0); [lia |]. rewrite Ee. cbn [mbind result_bind]. numbers.
Qed.

Lemma info_buddy_print_byte_quiet nf o oldcolor i st0 st : kpm_inv nf (kpm_st st0) -> quiet low st0 st ->
  0 <= o < 11 -> 0 <= i < osz nf o ->
  yields (info_buddy_print_byte (Kpm.mk_order (Kpm.heap_base (kpm_st st0) + ooff nf o) (osz nf o)) oldcolor i st)
    (quiet low st0).
Proof.
  intros Hk Hq Ho Hi. unfold info_buddy_print_byte. cbn [Kpm.bitmap].
  eapply (yields_bind _ _ (quiet low st0)); [apply yields_if; intros _; [say_last; done | by ret] |].
  intros st1 Hq1.
  assert (kpm_st st1 = kpm_st st0) as -> by (destruct Hq1 as [Hoth _]; unfold others in Hoth; by injection Hoth).
  destruct (order_in_heap nf (kpm_st st0) o (8 * i) (inv_wf _ _ Hk) Ho ltac:(lia)) as [Hlo Hhi].
  pose proof (load8_ok (kpm_st st0) (ooff nf o) (8 * i)) as E. rewrite (Z.mul_comm 8), Z.div_mul in E, Hhi by lia.
  rewrite E by lia. cbn [mbind result_bind].
  eapply (yields_bind _ _ (quiet low st0)); [| intros; paint_last].
  repeat (apply yields_if; intros _); (paint_step; say_last; done).
Qed.

Lemma info_buddy_print_order_quiet nf order st0 st : kpm_inv nf (kpm_st st0) -> quiet low st0 st ->
  0 <= order < 11 -> yields (info_buddy_print_order order st) (quiet low st0).
Proof.
  intros Hk Hq Ho. unfold info_buddy_print_order.
  ystep (get_color_yields (con st) (proj2 Hq)). intros old _.
  assert (kpm_st st = kpm_st st0) as -> by (destruct Hq as [Hoth _]; unfold others in Hoth; by injection Hoth).
  ystep (yields_value _ _ (wf_orders _ _ (inv_wf _ _ Hk) order Ho)). intros o <-.
  say_step; [done |]. eapply yields_bind.
  { apply (yields_for_loop (quiet low st0)); [done |]. intros j st2 Hj Hq2.
    cbn [Kpm.order_size] in Hj. apply info_buddy_print_byte_quiet; [done.. | lia]. }
  cbv beta. intros st2 Hq2. paint_step. say_last. done.
Qed.

Lemma info_buddy_quiet nf order st0 st : kpm_inv nf (kpm_st st0) -> quiet low st0 st ->
  order < 11 -> yields (info_buddy order st) (quiet low st0).
Proof.
  intros Hk Hq Ho. unfold info_buddy.
  assert (kpm_st st = kpm_st st0) as -> by (destruct Hq as [Hoth _]; unfold others in Hoth; by injection Hoth).
  ystep (yields_value _ _ (wf_orders _ _ (inv_wf _ _ Hk) 0 ltac:(lia))). intros o _.
  eapply yields_bind; [by numbers |]. intros st1 Hq1.
  apply yields_if; intros Hc; [| by ret]. rewrite Z.geb_leb in Hc. apply Z.leb_le in Hc.
  by apply info_buddy_print_order_quiet with nf.
Qed.

Lemma info_quiet nf argc m argv st : machine_ok low nf st -> args_at m argv argc ->
  yields (info hw argc m argv st) (printed st).
Proof.
  intros [Hk Hg Hgdt _] Ha. pose proof (quiet_refl st Hg) as Hq. unfold info, info_usage.
  apply yields_if; [intros _ | intros Hc%Z.ltb_ge]; [say_step; [done | by ret] |].
  ystep (arg_yields m argv argc 1 Ha ltac:(lia)). intros p [Hp _].
  strcmp_step; [eapply yields_bind; [by apply info_gdt_quiet | intros; by ret] |].
  strcmp_step; [eapply yields_bind; [by apply info_stack_quiet | intros; by ret] |].
  strcmp_step.
  { apply yields_if; [intros Hc2 | intros _].
    - rewrite Z.gtb_ltb in Hc2. apply Z.ltb_lt in Hc2.
      ystep (arg_yields m argv argc 2 Ha ltac:(lia)). intros q [Hp' _].
      ystep (word_strtol m q Hp'). intros [n e] [_ [x ->]]. cbn [mbind result_bind].
      apply yields_if; [intros _; say_step; [done | by ret] |].
      intros Hn. apply orb_false_iff in Hn as [_ Hn]. rewrite Z.geb_leb in Hn.
      apply Z.leb_gt in Hn. change Kpm.KPM_NORDERS with 11 in Hn.
      eapply yields_bind; [by apply (info_buddy_quiet nf) | intros; by ret].
    - eapply yields_bind; [by apply (info_buddy_quiet nf) | intros; by ret]. }
  strcmp_step; [eapply yields_bind; [by apply info_idt_quiet | intros; by ret] |].
  strcmp_step; [eapply yields_bind; [by apply info_registers_quiet | intros; by ret] |].
  say_step; [by split |]. by ret.
Qed.
Context (nf : Z).

(** The postcondition of a builtin. *)
Definition safe (r : Z * machine D) : Prop := let '(_, st') := r in machine_ok low nf st'.

Lemma printed_safe st r : machine_ok low nf st -> yields r (printed st) -> yields r safe.
Proof.
  intros Hm Hr. eapply yields_weaken; [exact Hr |]. intros [z st'] Hq. by apply quiet_machine with st.
Qed.

(** ** clear, next, prev *)

Lemma clear_good c : good low c -> yields (on_current sb_clear c) (good low).
Proof.
  intros (ss & Hok & Hn & Hfr). destruct (good_current _ _ Hok Hn) as (s & Es & _).
  destruct (current_lookup _ _ Hok) as (b & s0 & Eb & Es0 & _ & Hsh & _).
  assert (exists b' w', sb_clear b (shared c) = Ok (b', w') /\ loaded b' = loaded b /\ viewport b' = 0 /\
    shows b' w' (cleared (Screenbuf.color b))) as Hclear.
  { pose proof Hsh as [(l & v & Hr) Hcol]. pose proof (r_core _ _ _ _ _ Hr) as Hc.
    apply clear_shows; [apply Hc | apply Hc | | apply (rep_vga b _ s0), Hsh].
    by destruct (c_color _ _ _ _ Hc) as [-> ?]. }
  destruct (on_current_ok sb_clear c ss (cleared (Screenbuf.color b)) Hok) as (c' & E & _ & Hok' & _).
  { intros b1 s1 Eb1 _ _. rewrite Eb in Eb1. injection Eb1 as <-.
    destruct Hclear as (b' & w' & E & El & _ & Hs'). by exists b', w'. }
  rewrite E. apply yields_ok. eexists. split; [exact Hok' |].
  split; [apply Forall_insert; [done | apply cleared_neat] |].
  intros Hlow. apply (on_current_front _ _ _ E); [| by apply Hfr]. intros b1 b2 w Eb1 Ef _.
  rewrite Eb in Eb1. injection Eb1 as <-. destruct Hclear as (b' & w' & E' & _ & Ev & _).
  rewrite E' in Ef. injection Ef as <- _. lia.
Qed.

Lemma clear_quiet st : good low (con st) -> yields (clear st) (printed st).
Proof. intros Hg. unfold clear. ystep (clear_good _ Hg). intros c Hc. by apply yields_ok. Qed.

Lemma next_quiet st : good low (con st) -> yields (next st) (printed st).
Proof.
  intros (ss & Hok & Hn & Hfr). destruct (next_prev_ok st ss Hok) as [(c & -> & Hok' & _ & Hf) _].
  apply yields_ok. split; [done |]. exists ss. auto.
Qed.

Lemma prev_quiet st : good low (con st) -> yields (prev st) (printed st).
Proof.
  intros (ss & Hok & Hn & Hfr). destruct (next_prev_ok st ss Hok) as [_ (c & -> & Hok' & _ & Hf)].
  apply yields_ok. split; [done |]. exists ss. auto.
Qed.

(** ** alloc and free *)

Lemma alloc_loop_safe chunk size st : machine_ok low nf st -> 0 <= size < 2147483648 ->
  yields (alloc_loop chunk size st) safe.
Proof.
  intros [Hk (ss & Hok & Hn & Hfr) Hg Hl] Hs. destruct (good_current _ _ Hok Hn) as (s & Es & Hneat).
  destruct (alloc_loop_spec nf st ss s chunk size Hk Hok Es Hs)
    as (r & st' & cs & s' & -> & Hk' & _ & _ & _ & Hok' & (Hfr' & Hn' & Er) & _).
  apply yields_ok. unfold rest in Er. injection Er as Ekbd Egdt _.
  split; rewrite ?Ekbd, ?Egdt; try done. eexists. split; [exact Hok' |]. split; [| auto].
  apply Forall_insert; auto.
Qed.

Lemma alloc_safe chunk argc m argv st : machine_ok low nf st -> args_at m argv argc ->
  yields (alloc chunk argc m argv st) safe.
Proof.
  intros Hm Ha. pose proof (quiet_refl st (m_good low nf st Hm)) as Hq. unfold alloc, alloc_usage.
  assert (forall a, quiet low st a -> machine_ok low nf a) as Hquiet by (intros; by apply quiet_machine with st).
  apply yields_if; [intros _; say_step; [done |]; ret; by apply Hquiet | intros Hc%Z.ltb_ge].
  ystep (arg_yields m argv argc 1 Ha ltac:(lia)). intros p [Hp _].
  ystep (word_strtol m p Hp). intros [n e] [Hr [x ->]]. cbn [mbind result_bind].
  apply yields_if; [intros _; say_step; [done |]; ret; by apply Hquiet |].
  intros Hn. apply orb_false_iff in Hn as [_ Hn%Z.ltb_ge]. say_step; [done |].
  ystep (alloc_loop_safe chunk n a); [auto | lia |]. intros [r st2] Hm2.
  eapply (yields_bind _ _ (machine_ok low nf)); [| intros; by ret].
  apply yields_if; intros _; [| by ret]. eapply yields_weaken.
  - eapply say_quiet; [apply quiet_refl, (m_good low nf st2 Hm2) | vm_compute; reflexivity | done].
  - intros st3 Hq3. by apply quiet_machine with st2.
Qed.

(** What kpm_free does not check: the block must lie in the managed memory.  And
    there must be a size. *)
Definition free_ok m (argv : list (option Z)) (argc : Z) : Prop :=
  argc <> 2 /\
  (3 <= argc -> forall p q a s e e', argv !! 1%nat = Some (Some p) -> argv !! 2%nat = Some (Some q) ->
    StrTol.strtol m p 0 = Ok (a, e) -> StrTol.strtol m q 0 = Ok (s, e') ->
    0 <= s -> u32 a mod 4096 = 0 -> u32 a + s <= nf * 4096).

Lemma free_safe argc m argv st : machine_ok low nf st -> args_at m argv argc -> free_ok m argv argc ->
  yields (free argc m argv st) safe.
Proof.
  intros Hm Ha [H2 Hfree]. pose proof (quiet_refl st (m_good low nf st Hm)) as Hq. unfold free, free_usage.
  assert (forall a, quiet low st a -> machine_ok low nf a) as Hquiet by (intros; by apply quiet_machine with st).
  apply yields_if; [intros _; say_step; [done |]; ret; by apply Hquiet | intros Hc%Z.ltb_ge].
  ystep (arg_yields m argv argc 1 Ha ltac:(lia)). intros p [Hp Ep].
  ystep (yields_and _ _ _ (word_strtol m p Hp) (fun r E => E)). intros [a e] [[_ [x Ex]] Ea].
  rewrite Ex. cbn [mbind result_bind].
  eapply (yields_bind _ _ (fun _ => True)).
  { apply yields_if; intros _; [by ret |]. destruct Hp as (w & Hw & _).
    destruct (word_inside m p w p Hw) as [y ->]; [pose proof (zlen_nonneg w); lia | by ret]. }
  intros bad _. apply yields_if; [intros _; say_step; [done |]; ret; by apply Hquiet | intros _].
  ystep (arg_yields m argv argc 2 Ha ltac:(lia)). intros q [Hp' Eq].
  ystep (yields_and _ _ _ (word_strtol m q Hp') (fun r E => E)). intros [n e'] [[Hn [y Ey]] En].
  rewrite Ey. cbn [mbind result_bind].
  apply yields_if; [intros _; say_step; [done |]; ret; by apply Hquiet |].
  intros Hpos. apply orb_false_iff in Hpos as [_ Hpos%Z.ltb_ge].
  eapply (yields_bind _ _ (kpm_inv nf)).
  - destruct (Z.eq_dec (u32 a mod 4096) 0) as [Hal | Hal].
    + destruct (free_spec nf (kpm_st st) (Kpm.mk_chunk (u32 a) n) (m_kpm low nf st Hm)) as (k & -> & Hk & _);
        cbn [Kpm.chunk_addr Kpm.chunk_size]; [done | apply u32_range | done |
        by apply (Hfree ltac:(lia) p q a n e e') | by apply yields_ok].
    + rewrite free_unaligned by (done || apply u32_range). apply yields_ok, (m_kpm low nf st Hm).
  - intros k Hk. ret. destruct Hm. by split.
Qed.

(** ** Power and interrupts *)

Context (garbage : Kpm.kpm_chunk_t) (polls : nat).

(** The processor returns from [int] and [hlt] to a machine that still satisfies the
    invariant, and the keyboard controller takes a command within [polls] polls. *)
Record hardware_ok : Prop := mk_hardware_ok
  { hw_int : forall low i st, i = 0 \/ i = 4 \/ i = 8 -> machine_ok low nf st -> yields (int_n hw i st) (machine_ok low nf);
    hw_hlt : forall low st, machine_ok low nf st -> machine_ok low nf (hlt hw st);
    hw_polls : forall d, yields (reboot_wait polls d) (fun _ => True) }.

Lemma device_ok f st : machine_ok low nf st -> machine_ok low nf (on_device f st).
Proof. intros Hm. apply quiet_machine with st; [done |]. apply on_device_quiet, quiet_refl, (m_good low nf st Hm). Qed.

Lemma reboot_safe st : hardware_ok -> machine_ok low nf st -> yields (reboot hw polls st) safe.
Proof.
  intros Hh Hm. unfold reboot. ystep (hw_polls Hh). intros d _. apply yields_ok.
  by apply (hw_hlt Hh), device_ok.
Qed.

Lemma poweroff_safe st : hardware_ok -> machine_ok low nf st -> yields (poweroff hw st) safe.
Proof. intros Hh Hm. apply yields_ok. by apply (hw_hlt Hh), device_ok. Qed.

Lemma interrupt_safe argc m argv st : hardware_ok -> machine_ok low nf st -> args_at m argv argc ->
  yields (interrupt hw argc m argv st) safe.
Proof.
  intros Hh Hm Ha. pose proof (quiet_refl st (m_good low nf st Hm)) as Hq. unfold interrupt, interrupt_usage.
  assert (forall a, quiet low st a -> machine_ok low nf a) as Hquiet by (intros; by apply quiet_machine with st).
  apply yields_if; [intros _; say_step; [done |]; ret; by apply Hquiet | intros Hc%Z.ltb_ge].
  ystep (arg_yields m argv argc 1 Ha ltac:(lia)). intros p [Hp _].
  ystep (word_strtol m p Hp). intros [n e] [Hr [x ->]]. cbn [mbind result_bind].
  apply yields_if; [intros _; say_step; [done |]; ret; by apply Hquiet | intros _].
  eapply (yields_bind _ _ (machine_ok low nf)); [| intros; by ret].
  repeat (apply yields_if; intros ?; [apply (hw_int Hh); [tauto | done] |]).
  eapply yields_weaken; [| exact Hquiet]. say_last. done.
Qed.

(** ** All builtins *)

Definition command_ok (e : Nsh.exec) m argv argc : Prop :=
  match e with Nsh.Free => free_ok m argv argc | _ => True end.

Lemma help_table : Forall (fun '(n, d) => Forall visible n /\ Forall visible d /\ zlen n <= 1100 /\ zlen d <= 1100)
  (map (fun b => (Nsh.name b, Nsh.description b)) Nsh.builtin).
Proof. by apply (bool_decide_unpack _); vm_compute. Qed.

Lemma exec_builtin_ok e argc m argv st : hardware_ok -> machine_ok low nf st -> args_at m argv argc ->
  command_ok e m argv argc -> yields (Nsh.exec_builtin hw garbage polls e argc m argv st) safe.
Proof.
  intros Hh Hm Ha Hc. pose proof (m_good low nf st Hm) as Hg. destruct e; cbn [Nsh.exec_builtin command_ok] in *.
  - by apply reboot_safe.
  - by apply poweroff_safe.
  - by apply keymap_safe.
  - by apply printed_safe with st; [| apply color_quiet].
  - by apply alloc_safe.
  - by apply free_safe.
  - by apply printed_safe with st; [| apply info_quiet with nf].
  - by apply printed_safe with st; [| apply clear_quiet].
  - by apply printed_safe with st; [| apply hexdump_quiet].
  - by apply printed_safe with st; [| apply next_quiet].
  - by apply printed_safe with st; [| apply prev_quiet].
  - apply printed_safe with st; [done |]. apply help_quiet; [done | apply help_table].
  - by apply interrupt_safe.
Qed.
End commands.

End Commands.
