(* ===== verification/Interrupts.v ===== *)
(** Software interrupts: the [int] instruction of kernel/nsh/builtins/interrupt.c with
    the handlers of kernel/isr.c behind it.

    The processor builds the frame that a handler prints; its address and contents are a
    parameter.  For vector 8 the instruction pushes no error code, so the handler gets
    whatever lies on the stack ([garbage_code]) and returns through a shifted frame; the
    model returns to the caller. *)

From Stdlib Require Import Ascii String.
From Stdlib Require Import ZArith Lia Bool.
From stdpp Require Import base tactics numbers list option.
From S2P Require Import Prelude Logic Port Mem Kpm Keyboard Desc.
From S2P Require Import Str Print Format Screenbuf Typing Console Builtins Machine Commands.

Local Open Scope Z_scope.

Module Interrupts.
Import Screenbuf Console Builtins Format Typing Machine Commands.

#[local] Opaque kprintf print_int_frame.

Section interrupts.
Context {D : Type} `{Device D}.
Context (halt : machine D -> machine D) (frame : machine D -> Z * t_int_frame) (garbage_code : machine D -> Z).
Implicit Types st : machine D.

(** A handler runs on the console. *)
Definition handle (h : Z -> t_int_frame -> console D -> result (console D)) st : result (machine D) :=
  let (a, f) := frame st in c ← h a f (con st); Ok (with_con st c).

(** The vectors with a handler of isr.c; the others have none. *)
Definition software_int (n : Z) st : result (machine D) :=
  if n =? 0 then handle Console.divide_error_handler st
  else if n =? 4 then handle Console.overflow_handler st
  else if n =? 8 then
    st ← handle (fun a f => Console.double_fault_handler a f (garbage_code st)) st;
    Ok (halt st)
  else Err OutOfBounds.

(** The processor with these handlers. *)
Definition processor (mem : machine D -> Z -> Z) (regs : list Z) (top bottom : Z) : hardware D :=
  mk_hardware mem regs software_int halt top bottom.

Lemma handle_quiet low h st : (forall a f c, good low c -> yields (h a f c) (good low)) -> good low (con st) ->
  yields (handle h st) (quiet low st).
Proof.
  intros Hh Hg. unfold handle. destruct (frame st) as [a f]. ystep (Hh a f (con st) Hg).
  intros c Hc. by apply yields_ok.
Qed.

Lemma divide_error_good low a f (c : console D) : good low c -> yields (Console.divide_error_handler a f c) (good low).
Proof.
  intros Hg. unfold Console.divide_error_handler.
  eapply yields_bind; [by apply (print_line_good (low := low)); [| vm_compute; reflexivity] |].
  intros c1 Hc. by apply print_int_frame_good.
Qed.

Lemma overflow_good low a f (c : console D) : good low c -> yields (Console.overflow_handler a f c) (good low).
Proof.
  intros Hg. unfold Console.overflow_handler.
  eapply yields_bind; [by apply (print_line_good (low := low)); [| vm_compute; reflexivity] |].
  intros c1 Hc. by apply print_int_frame_good.
Qed.

Lemma double_fault_good low a f e (c : console D) : good low c -> yields (Console.double_fault_handler a f e c) (good low).
Proof.
  intros Hg. unfold Console.double_fault_handler.
  eapply yields_bind; [by apply (print_line_good (low := low)); [| vm_compute; reflexivity] |].
  intros c1 Hc. by apply print_int_frame_good.
Qed.

(** The handlers keep the invariant of the machine, so this processor is one the builtins
    run on. *)
Lemma software_int_safe low nf n st : (forall low st, machine_ok low nf st -> machine_ok low nf (halt st)) ->
  n = 0 \/ n = 4 \/ n = 8 -> machine_ok low nf st -> yields (software_int n st) (machine_ok low nf).
Proof.
  intros Hh Hn Hm. pose proof (m_good low nf st Hm) as Hg.
  assert (forall a, quiet low st a -> machine_ok low nf a) as Hquiet by (intros; by apply quiet_machine with st).
  destruct Hn as [-> | [-> | ->]]; unfold software_int; cbn [Z.eqb Pos.eqb].
  - eapply yields_weaken; [| exact Hquiet]. apply handle_quiet; [apply divide_error_good | done].
  - eapply yields_weaken; [| exact Hquiet]. apply handle_quiet; [apply overflow_good | done].
  - eapply yields_bind; [apply handle_quiet; [intros; by apply double_fault_good | done] |].
    intros st1 Hq. apply yields_ok. by apply Hh, Hquiet.
Qed.

Lemma processor_ok nf polls mem regs top bottom : (forall low st, machine_ok low nf st -> machine_ok low nf (halt st)) ->
  (forall d, yields (reboot_wait polls d) (fun _ => True)) ->
  hardware_ok (processor mem regs top bottom) nf polls.
Proof. intros Hh Hp. split; [intros; by apply software_int_safe | done | done]. Qed.
End interrupts.

End Interrupts.
