(* ===== verification/Kernel.v ===== *)
(** The entry point of the kernel: kernel/kernel.c. *)

From Stdlib Require Import Ascii String.
From Stdlib Require Import ZArith Lia Bool.
From stdpp Require Import base tactics numbers list option.
From S2P Require Import Prelude Port Mem Kpm KpmBits KpmTree KpmOps KpmInit Keyboard Desc Pic.
From S2P Require Import Str Print Screenbuf Console Builtins Nsh.

Local Open Scope Z_scope.

Module Kernel.
Import Screenbuf Console Builtins.

Definition NBSCREENBUF : Z := 2.

(** struct multiboot_info of include/kernel/multiboot.h: the fields that are
    read, with the entries [mmap_addr] points to. *)
Record multiboot_info : Type := mk_multiboot_info
  { mem_lower : Z; mem_upper : Z; mmap_length : Z; mmap : list Kpm.multiboot_mmap_entry }.
Definition sizeof_mmap_entry : Z := 24.

Definition welcome : list Z := str "Welcome to nulix-2.0.1" ++ nl.

Section code.
Context {D : Type} `{Device D}.
Implicit Types st : machine D.

Definition init_descriptor_tables (h : Idt.handlers) st : result (machine D) :=
  let st := on_device (Pic.pic_8259_init Pic.PIC1_OFFSET Pic.PIC2_OFFSET) st in
  g ← Gdt.gdt_init (gdt_st st);
  i ← Idt.idt_init h (idt_st st);
  Ok (mk_machine (con st) (kbd st) (kpm_st st) g i).

(** One turn of the loop on the screen buffers. *)
Definition init_screen (i : Z) (c : console D) : result (console D) :=
  b ← rd (sb c) i;
  b ← sb_init b;
  '(b, w) ← sb_putstr (welcome ++ [0]) 0 b (shared c);
  l ← wr (sb c) i b;
  Ok (mk_console l (sb_current c) w).

(** kernel_main up to the call of nsh.  The linker symbols and the memory
    behind the kernel are arguments, as for kpm_init. *)
Definition kernel_main (h : Idt.handlers) (sk ek : Z) (ram : list Z) (mbi : multiboot_info) st
    : result (machine D) :=
  st ← init_descriptor_tables h st;
  let st := with_kbd st (Keyboard.KBD_initialize (kbd st)) in
  k ← Kpm.kpm_init sk ek ram (mmap mbi) (mmap_length mbi / sizeof_mmap_entry)
        (u32 (mem_upper mbi - mem_lower mbi));
  let st := with_kpm st k in
  c ← for_loop (Z.to_nat NBSCREENBUF) 0 init_screen (con st);
  c ← on_current sb_load (mk_console (sb c) 0 (shared c));
  Ok (with_con st c).
End code.

(** ** Properties *)

Lemma gdt_init_runs st : 7 <= zlen (Gdt.gdt st) -> exists st', Gdt.gdt_init st = Ok st' /\
  7 <= zlen (Gdt.gdt st').
Proof.
  intros Hlen. unfold zlen in Hlen.
  destruct (Gdt.gdt st) as [| e0 [| e1 [| e2 [| e3 [| e4 [| e5 [| e6 rest]]]]]]] eqn:E;
    cbn [length] in Hlen; try lia.
  eexists. split; [by apply (Gdt.gdt_init_spec st rest e0 e1 e2 e3 e4 e5 e6) |].
  cbn [Gdt.gdt]. rewrite zlen_app. change (zlen Gdt.gdt_table) with 7. pose proof (zlen_nonneg rest). lia.
Qed.

Lemma welcome_plain : Forall plain welcome.
Proof. by apply (bool_decide_unpack _); vm_compute. Qed.

(** The screen after the first message. *)
Definition welcome_screen : screen := default (cleared 0) (puts (cleared SB_DFL_COLOR) welcome).

Lemma welcome_puts : puts (cleared SB_DFL_COLOR) welcome = Some welcome_screen.
Proof. vm_compute. reflexivity. Qed.

Lemma welcome_no_backspace : ~ In 8 welcome.
Proof.
  assert (Forall (fun c => c <> 8) welcome) as Hf by by apply (bool_decide_unpack _); vm_compute.
  intros Hin. rewrite List.Forall_forall in Hf. by apply (Hf 8).
Qed.

Section properties.
Context {D : Type} `{Device D}.

(** The state of kernel.c before the loop on the screen buffers: [n] of them are done. *)
Definition prepared (n : nat) (c : console D) : Prop :=
  length (sb c) = 2%nat /\ 16000 <= zlen (vga (shared c)) /\
  (forall i b, sb c !! i = Some b -> zlen (buf b) = 16000) /\
  (forall i b, (i < n)%nat -> sb c !! i = Some b ->
     loaded b = 0 /\ 0 <= viewport b /\ shows b (shared c) welcome_screen).

Lemma shows_buf b (w : world D) s : shows b w s -> zlen (buf b) = 16000.
Proof. intros [(l & v & Hr) _]. apply (c_buf _ _ _ _ (r_core _ _ _ _ _ Hr)). Qed.

Lemma init_screen_prepared n (c : console D) : (n < 2)%nat -> prepared n c ->
  exists c', init_screen (Z.of_nat n) c = Ok c' /\ prepared (S n) c'.
Proof.
  intros Hn (Hl & Hv & Hb & Hs). unfold init_screen.
  destruct (lookup_lt_is_Some_2 (sb c) n) as [b Eb]; [lia |].
  replace (rd (sb c) (Z.of_nat n)) with (Ok b)
    by (unfold rd; destruct (Z.ltb_spec (Z.of_nat n) 0); [lia | by rewrite Nat2Z.id, Eb]).
  cbn [mbind result_bind].
  destruct (init_shows b (shared c) (Hb n b Eb) Hv) as (b1 & -> & El & Ev & Hs1). cbn [mbind result_bind].
  assert (Str.cstr (welcome ++ [0]) 0 welcome) as Hstr by apply (lit_cstr [] welcome welcome_plain).
  destruct (putstr_shows _ 0 welcome b1 _ welcome_screen (shared c) Hstr Hs1) as (b2 & w & -> & El2 & Ev2 & Hs2);
    [intros Hin; by apply welcome_no_backspace in Hin | exact welcome_puts |].
  cbn [mbind result_bind]. rewrite wr_ok by (unfold zlen; lia). cbn [mbind result_bind].
  rewrite Nat2Z.id. eexists. split; [done |]. unfold prepared. cbn [sb shared].
  assert (16000 <= zlen (vga w)) as Hv2 by (apply (rep_vga b2 _ welcome_screen), Hs2).
  split; [by rewrite length_insert |]. split; [done |]. split.
  - intros i b0 Hi. destruct (decide (i = n)) as [-> | Hne].
    + rewrite list_lookup_insert_eq in Hi by lia. injection Hi as <-. by apply shows_buf in Hs2.
    + rewrite list_lookup_insert_ne in Hi by done. by apply (Hb i).
  - intros i b0 Hi Hb0. destruct (decide (i = n)) as [-> | Hne].
    + rewrite list_lookup_insert_eq in Hb0 by lia. injection Hb0 as <-. split; [congruence |].
      split; [apply Ev2; lia | done].
    + rewrite list_lookup_insert_ne in Hb0 by done.
      destruct (Hs i b0 ltac:(lia) Hb0) as (Hld & Hvp & Hr & Hcol).
      split; [done |]. split; [done |]. split; [| done].
      by apply rep_unloaded with (vga (shared c)).
Qed.

Lemma kernel_main_spec h sk ek ram mbi (st : machine D) nf es z rest :
  boot_ok sk ek (u32 (mem_upper mbi - mem_lower mbi)) nf ram ->
  mmap mbi = es ++ z :: rest -> Forall (entry_ok nf) es -> Kpm.entry_size z = 0 ->
  prepared 0 (con st) -> 7 <= zlen (Gdt.gdt (gdt_st st)) -> 256 <= zlen (Idt.idt (idt_st st)) ->
  exists st', kernel_main h sk ek ram mbi st = Ok st' /\
    kpm_inv nf (kpm_st st') /\
    (forall f, 0 <= f < nf ->
       frame_enabled (kpm_st st') f = existsb (fun e => entry_frames e f) es && negb (reserved sk ek nf f) /\
       frame_alloc (kpm_st st') f = negb (frame_enabled (kpm_st st') f)) /\
    Keyboard.getkeymapentry (kbd st') = Some Keyboard.US104_getkeymapentry /\
    Idt.interrupts (idt_st st') = true /\
    sb_current (con st') = 0 /\ console_ok (con st') [welcome_screen; welcome_screen] /\
    front (con st') /\ 7 <= zlen (Gdt.gdt (gdt_st st')).
Proof.
  intros Hboot Hmap Hes Hz Hprep Hg Hi. unfold kernel_main, init_descriptor_tables.
  cbn [on_device with_con gdt_st idt_st].
  destruct (gdt_init_runs (gdt_st st) Hg) as (g & -> & Hgl). cbn [mbind result_bind].
  destruct (Desc.Idt.idt_init_runs h (idt_st st) Hi) as (i & -> & Hint). cbn [mbind result_bind].
  rewrite Hmap.
  destruct (init_spec sk ek _ nf ram Hboot es z rest (mmap_length mbi / sizeof_mmap_entry) Hes Hz)
    as (k & -> & Hinv & Hfr). cbn [mbind result_bind].
  cbn [con with_kpm with_kbd on_device with_con].
  set (c0 := mk_console _ _ _).
  destruct (for_loop_inv (fun i c => prepared (Z.to_nat i) c) (Z.to_nat NBSCREENBUF) init_screen 0 c0)
    as (c1 & -> & Hp).
  - exact Hprep.
  - intros j c Hj Hp. change (0 + Z.of_nat (Z.to_nat NBSCREENBUF)) with 2 in Hj.
    destruct (init_screen_prepared (Z.to_nat j) c ltac:(lia) Hp) as (c' & E & Hp').
    rewrite Z2Nat.id in E by lia. exists c'. split; [done |].
    by replace (Z.to_nat (j + 1)) with (S (Z.to_nat j)) by lia.
  - cbn [mbind result_bind]. change (Z.to_nat (0 + Z.of_nat (Z.to_nat NBSCREENBUF))) with 2%nat in Hp.
    destruct Hp as (Hl & _ & _ & Hs).
    destruct (load_ok c1 [welcome_screen; welcome_screen] 0) as (c2 & Eload & Hok & Ec); [| done |].
    + split; [done |]. intros j b s Hb Hj.
      assert (s = welcome_screen) as -> by (destruct j as [| [| j]]; [by injection Hj | by injection Hj | done]).
      assert (j < 2)%nat as Hj2 by (apply lookup_lt_Some in Hb; lia). by destruct (Hs j b Hj2 Hb) as (? & _ & ?).
    + rewrite Eload. cbn [mbind result_bind]. eexists. split; [done |]. split; [exact Hinv |].
      split; [exact Hfr |]. split; [done |]. split; [exact Hint |]. split; [exact Ec |]. split; [exact Hok |].
      split; [| exact Hgl]. apply (on_current_front _ _ _ Eload).
      * intros b b' w _ E. unfold sb_load in E. by apply bind_inv in E as (w' & _ & [= <- _]).
      * intros j b Hb. apply (Hs j); [| done]. apply lookup_lt_Some in Hb. cbn [sb] in Hb. lia.
Qed.
(** [kernel_main] boots: with a terminated memory map it ends with the allocator's
    invariant and the pages of the map free, the US layout, interrupts on, and both
    screens holding the welcome message, the first one on display. *)
Theorem kernel_main_boots h sk ek ram mbi (st : machine D) nf es z rest :
  boot_ok sk ek (u32 (mem_upper mbi - mem_lower mbi)) nf ram ->
  mmap mbi = es ++ z :: rest -> Forall (entry_ok nf) es -> Kpm.entry_size z = 0 ->
  prepared 0 (con st) -> 7 <= zlen (Gdt.gdt (gdt_st st)) -> 256 <= zlen (Idt.idt (idt_st st)) ->
  exists st', kernel_main h sk ek ram mbi st = Ok st' /\
    kpm_inv nf (kpm_st st') /\
    (forall f, 0 <= f < nf ->
       frame_enabled (kpm_st st') f = existsb (fun e => entry_frames e f) es && negb (reserved sk ek nf f) /\
       frame_alloc (kpm_st st') f = negb (frame_enabled (kpm_st st') f)) /\
    Keyboard.getkeymapentry (kbd st') = Some Keyboard.US104_getkeymapentry /\
    Idt.interrupts (idt_st st') = true /\
    sb_current (con st') = 0 /\ console_ok (con st') [welcome_screen; welcome_screen].
Proof.
  intros Hboot Hmap Hes Hz Hprep Hg Hi.
  destruct (kernel_main_spec h sk ek ram mbi st nf es z rest Hboot Hmap Hes Hz Hprep Hg Hi)
    as (st' & E & Hk & Hf & Hl & Hint & Hc & Hok & _).
  exists st'. by repeat (split; [assumption |]).
Qed.
End properties.

(** ** Witness *)

#[local] Existing Instance no_device.

Definition raw_machine : machine unit :=
  mk_machine (mk_console [zero_sb; zero_sb] 0 zero_world) Keyboard.kbd_st_init
    (Kpm.mk_kpm 0 (Kpm.mk_buddy 0 0 0 []) [])
    (Gdt.mk_gdt_state (repeat (Gdt.gate 0 0 0 0) 7) (Gdt.mk_gdt_ptr 0 0) (Gdt.mk_gdt_ptr 0 0))
    (Idt.mk_idt_state (repeat (Idt.mk_idt_entry 0 0 0 0 0) 256) (Idt.mk_idt_ptr 0 0) (Idt.mk_idt_ptr 0 0) false).

(** A machine with 4 MiB; only the first megabyte and the rest behind the kernel are free. *)
Definition small_map : list Kpm.multiboot_mmap_entry :=
  [Kpm.mk_entry 20 0 0x9fc00 1; Kpm.mk_entry 20 0x100000 0x3ee0000 1].
Definition small_info : multiboot_info :=
  mk_multiboot_info 640 4736 72 (small_map ++ [Kpm.mk_entry 0 0 0 0]).

Lemma raw_prepared : prepared 0 (con raw_machine).
Proof.
  split; [reflexivity |]. split; [cbn [con raw_machine shared zero_world vga]; unfold zlen; rewrite repeat_length; lia |].
  split; [| intros i b Hi; lia]. intros [| [| i]] b Hb; try done; injection Hb as <-;
    cbn [zero_sb buf]; unfold zlen; rewrite repeat_length; lia.
Qed.

Lemma kernel_main_boots_witness : exists st',
  kernel_main (Idt.mk_handlers 0 0 0 0 0) 0x100000 0xC0120000 (repeat 0 600) small_info raw_machine = Ok st' /\
  sb_current (con st') = 0 /\ frame_alloc (kpm_st st') 400 = false.
Proof.
  destruct (kernel_main_boots (Idt.mk_handlers 0 0 0 0 0) 0x100000 0xC0120000 (repeat 0 600) small_info
    raw_machine 1024 small_map (Kpm.mk_entry 0 0 0 0) []) as (st' & E & _ & Hf & _ & _ & Ec & _).
  - constructor; try (vm_compute; intuition congruence).
  - reflexivity.
  - repeat constructor; cbn; try done; unfold region_ok; vm_compute; intuition congruence.
  - reflexivity.
  - exact raw_prepared.
  - vm_compute. congruence.
  - vm_compute. congruence.
  - exists st'. split; [exact E |]. split; [exact Ec |].
    destruct (Hf 400 ltac:(lia)) as [He ->]. rewrite He. vm_compute. reflexivity.
Defined.

End Kernel.
