(* ===== verification/Handover.v ===== *)
(** From the boot loader to the shell: kernel/boot.s and kernel/kernel.c together.

    The boot loader leaves struct multiboot_info and the memory map in the memory and
    its address in ebx.  [read_info] is how kernel_main reads them, through the
    page tables, as the record of Kernel.v.  The theorem says that what the loader left is
    still there when kernel_main reads it, although _start has put its stacks and boot_init its page
    tables into the same memory, and that the kernel boots with it. *)

From Stdlib Require Import ZArith Lia Bool.
From stdpp Require Import base tactics numbers list option.
From S2P Require Import Prelude Port Mem Kpm KpmBits KpmTree KpmOps KpmInit Desc Paging X86 Boot.
From S2P Require Import Screenbuf Console Builtins Kernel.

Local Open Scope Z_scope.

Module Handover.
Import X86 Boot.

(** ** multiboot.h: the fields that are read *)

(** The words of struct multiboot_info before each field. *)
Definition offset_mem_lower : Z := 4 * 1.
Definition offset_mem_upper : Z := 4 * 2.
Definition offset_mmap_length : Z := 4 * (7 + 4).
Definition offset_mmap_addr : Z := 4 * (7 + 4 + 1).
Definition sizeof_multiboot_info : Z := 52.

(** struct multiboot_mmap_entry is packed: 4, 8, 8 and 4 bytes. *)
Definition load64 (c : cpu) (p : Z) : option Z :=
  lo ← load c p; hi ← load c (p + 4); Some (lo + hi * 2 ^ 32).
Definition read_entry (c : cpu) (p : Z) : option Kpm.multiboot_mmap_entry :=
  size ← load c p; addr ← load64 c (p + 4); len ← load64 c (p + 12); type ← load c (p + 20);
  Some (Kpm.mk_entry size addr len type).

(** The entries up to the one with size 0 that ends the loop of kpm_init. *)
Fixpoint read_map (fuel : nat) (c : cpu) (p : Z) : option (list Kpm.multiboot_mmap_entry) :=
  match fuel with
  | O => None
  | S fuel =>
      size ← load c p;
      if size =? 0 then Some [Kpm.mk_entry 0 0 0 0]
      else e ← read_entry c p; l ← read_map fuel c (p + Kernel.sizeof_mmap_entry); Some (e :: l)
  end.

Definition read_info (fuel : nat) (c : cpu) (mbi : Z) : option Kernel.multiboot_info :=
  mem_upper ← load c (mbi + offset_mem_upper);
  mem_lower ← load c (mbi + offset_mem_lower);
  mmap_length ← load c (mbi + offset_mmap_length);
  mmap_addr ← load c (mbi + offset_mmap_addr);
  entries ← read_map fuel c mmap_addr;
  Some (Kernel.mk_multiboot_info mem_lower mem_upper mmap_length entries).

(** ** Reading the same words again *)

(** The first 4 MiB are where they are in the memory. *)
Definition identity (c : cpu) : Prop := forall a, 0 <= a < 2 ^ 22 -> physical c a = Some a.

Lemma flat_identity c : paging c = false -> identity c.
Proof. intros Hp a _. unfold physical. by rewrite Hp. Qed.
Lemma kernel_identity c : kernel_mode c -> identity c.
Proof. intros Hk a Ha. apply kernel_physical; [done |]. split; [done | by left]. Qed.

(** [n] aligned bytes from [a] on that nobody writes. *)
Record unwritten (rs : list (Z * Z)) (size a n : Z) : Prop := mk_clear
  { cl_aligned : a mod 4 = 0;
    cl_behind : 0x3000 <= a;
    cl_inside : a + n <= size /\ a + n <= 2 ^ 22;
    cl_free : forall i, a <= i < a + n -> owned rs i = false }.

Lemma clear_part rs size a n b k : unwritten rs size a n -> a <= b -> b + k <= a + n -> b mod 4 = 0 ->
  unwritten rs size b k.
Proof. intros [H1 H2 H3 H4] Ha Hk Hb. split; [done | lia | lia |]. intros i Hi. apply H4. lia. Qed.

Section again.
Context (rs : list (Z * Z)) (c c' : cpu) (Hc : identity c) (Hc' : identity c').
Context (Hk : kept rs (ram c) (ram c')).
Local Abbreviation unwritten := (unwritten rs (zlen (ram c))).

Lemma load_again a n b : unwritten a n -> a <= b -> b + 4 <= a + n -> b mod 4 = 0 -> load c' b = load c b.
Proof using All.
  intros H Ha Hb H4. pose proof (clear_part _ _ _ _ b 4 H Ha Hb H4) as [_ Hlo [Hsz Hhi] Hfree].
  destruct Hk as [Hl Hm].
  rewrite (load_word_ok b c b), (load_word_ok b c' b);
    try (apply Hc || apply Hc'; lia); try (unfold Mem.range_in; lia); try dlia.
  f_equal. apply Paging.word_ext. intros i Hi. apply Hm; [lia | apply Hfree; lia].
Qed.

Lemma read_map_again fuel : forall a n p, unwritten a n -> a <= p -> p + 24 * Z.of_nat fuel <= a + n ->
  p mod 4 = 0 -> read_map fuel c' p = read_map fuel c p.
Proof using All.
  induction fuel as [| fuel IH]; intros a n p H Ha Hn Hp; [done |].
  cbn [read_map]. unfold read_entry, load64.
  rewrite !(load_again a n p), (load_again a n (p + 20)) by (done || lia || dlia).
  rewrite (load_again a n (p + 4)), (load_again a n (p + 4 + 4)) by (done || lia || dlia).
  rewrite (load_again a n (p + 12)), (load_again a n (p + 12 + 4)) by (done || lia || dlia).
  unfold Kernel.sizeof_mmap_entry.
  rewrite (IH a n (p + 24)) by (done || lia || dlia). done.
Qed.

Lemma read_info_again fuel mbi mm : unwritten mbi sizeof_multiboot_info ->
  load c (mbi + offset_mmap_addr) = Some mm -> unwritten mm (24 * Z.of_nat fuel) ->
  read_info fuel c' mbi = read_info fuel c mbi.
Proof using All.
  unfold sizeof_multiboot_info, read_info, offset_mem_lower, offset_mem_upper, offset_mmap_length, offset_mmap_addr.
  intros H Hmm Hm. pose proof (cl_aligned _ _ _ _ H).
  rewrite !(load_again mbi 52) by (done || lia || dlia). rewrite Hmm. cbn [mbind option_bind].
  rewrite (read_map_again fuel mm (24 * Z.of_nat fuel) mm Hm); [done | lia | lia |].
  apply Hm.
Qed.
End again.

(** ** The whole way *)

(** The image of the kernel with its variables and its stack, and the memory of the allocator
    behind it, which kpm_init fills before it reads the map. *)
Definition kernel_memory (sk ek nf : Z) : list (Z * Z) :=
  [(sk, ek - Kpm.KERNEL_VIRT_OFFSET); (buddy_phys ek, buddy_phys ek + buddy_bytes nf)].

Lemma owned_app r1 r2 i : owned (r1 ++ r2) i = owned r1 i || owned r2 i.
Proof. apply existsb_app. Qed.

Lemma kept_weaken r1 r2 m m' : (forall i, owned r2 i = false -> owned r1 i = false) -> kept r1 m m' -> kept r2 m m'.
Proof. intros Hr [Hl Hk]. split; [done |]. intros i Hi Ho. auto. Qed.

Section power_on.
Context {D : Type} `{Device D}.

(** C6: From power-on to the shell.  The boot loader leaves the structure at ebx and a
    terminated memory map in free memory.  Then _start reaches kernel_main with a pointer
    to the structure, and however the kernel has used the low pages and its own memory by
    then, what is read through the pointer is what the loader left; with it
    kernel_main ends in a state with the pages of the map in the allocator and both
    screens set up, in which the shell starts. *)
Theorem power_on_to_shell gdtp_address flags_after l scratch frame c fuel mm mbi
    h sk ek behind (st : Builtins.machine D) nf es z rest :
  layout_ok l (zlen (ram c)) -> frame_ok l frame -> paging c = false -> 0 <= eip c < 2 ^ 22 ->
  load c (gpr c EBX + offset_mmap_addr) = Some mm -> read_info fuel c (gpr c EBX) = Some mbi ->
  unwritten (stacks l ++ kernel_memory sk ek nf) (zlen (ram c)) (gpr c EBX) sizeof_multiboot_info ->
  unwritten (stacks l ++ kernel_memory sk ek nf) (zlen (ram c)) mm (24 * Z.of_nat fuel) ->
  boot_ok sk ek (u32 (Kernel.mem_upper mbi - Kernel.mem_lower mbi)) nf behind ->
  Kernel.mmap mbi = es ++ z :: rest -> Forall (entry_ok nf) es -> Kpm.entry_size z = 0 ->
  Kernel.prepared 0 (Builtins.con st) -> 7 <= zlen (Gdt.gdt (Builtins.gdt_st st)) -> 256 <= zlen (Idt.idt (Builtins.idt_st st)) ->
  exists c' p, start gdtp_address flags_after l scratch frame c = Some c' /\
    eip c' = Boot.kernel_main l /\ load c' (gpr c' ESP + 4) = Some p /\
    (forall c'', kernel_mode c'' -> kept (kernel_memory sk ek nf) (ram c') (ram c'') ->
       read_info fuel c'' p = Some mbi) /\
    exists st', Kernel.kernel_main h sk ek behind mbi st = Ok st' /\ kpm_inv nf (Builtins.kpm_st st') /\
      (forall f, 0 <= f < nf -> frame_alloc (Builtins.kpm_st st') f =
         negb (existsb (fun e => entry_frames e f) es && negb (reserved sk ek nf f))) /\
      Idt.interrupts (Builtins.idt_st st') = true /\
      Console.console_ok (Builtins.con st') [Kernel.welcome_screen; Kernel.welcome_screen].
Proof.
  intros Hl Hf Hp He Hmm Hinfo Hc1 Hc2 Hboot Hmap Hes Hz Hprep Hg Hi.
  destruct (start_ok gdtp_address flags_after l scratch frame c Hl Hf Hp He)
    as (c' & E & Ei & Hk & _ & _ & Hs & W & _ & Hkept).
  destruct (Kernel.kernel_main_spec h sk ek behind mbi st nf es z rest Hboot Hmap Hes Hz Hprep Hg Hi)
    as (st' & Em & Hinv & Hfr & _ & Hint & _ & Hok & _).
  exists c', (gpr c EBX). split; [done |]. split; [done |]. split.
  { rewrite Hs. replace (stack_top l - 8 + 4) with (stack_top l - 4) by lia. rewrite W.
    destruct Hc1 as [_ ? [_ ?] _]. unfold sizeof_multiboot_info in *. rewrite u32_small by lia. done. }
  split.
  - intros c'' Hk'' Hkept'. rewrite <- Hinfo.
    apply (read_info_again (stacks l ++ kernel_memory sk ek nf) c c'') with mm; try done.
    + by apply flat_identity.
    + by apply kernel_identity.
    + apply kept_steps with (ram c').
      * apply kept_weaken with (stacks l); [| done]. intros i. rewrite owned_app, orb_false_iff. tauto.
      * apply kept_weaken with (kernel_memory sk ek nf); [| done]. intros i. rewrite owned_app, orb_false_iff. tauto.
  - exists st'. split; [done |]. split; [done |]. split; [| by split].
    intros f Hfr'. destruct (Hfr f Hfr') as [<- ->]. done.
Qed.
End power_on.

(** ** Witness *)

#[local] Existing Instance Screenbuf.no_device.

Definition word_bytes (v : Z) : list Z := [u8 v; u8 (v / 2 ^ 8); u8 (v / 2 ^ 16); u8 (v / 2 ^ 24)].

(** The structure at 0x5100, and the map of [Kernel.small_info] behind it. *)
Definition loader_words : list Z :=
  [0; 640; 4736; 0; 0; 0; 0; 0; 0; 0; 0; 72; 0x5134] ++
  [20; 0; 0; 0x9fc00; 0; 1] ++ [20; 0x100000; 0; 0x3ee0000; 0; 1] ++ repeat 0 6.
Definition loader_ram : list Z :=
  repeat 0 (Z.to_nat 0x5100) ++ concat (map word_bytes loader_words) ++ repeat 0 (Z.to_nat 0x1000).
Definition loaded_cpu : cpu :=
  mk_cpu (fun r => match r with EBX => 0x5100 | _ => 0 end) (fun _ => 0x10) 0x100000 true 2 0x11 0
    (Gdt.mk_gdt_state [] (Gdt.mk_gdt_ptr 0 0) (Gdt.mk_gdt_ptr 0 0)) loader_ram.

Lemma loader_ram_length : zlen loader_ram = 0x617C.
Proof. unfold loader_ram. rewrite !zlen_app, !zlen_repeat. reflexivity. Qed.

Lemma loader_clear a n : 0x5100 <= a -> a + n <= 0x617C -> a mod 4 = 0 ->
  unwritten (stacks example_layout ++ kernel_memory 0x100000 0xC0120000 1024) (zlen loader_ram) a n.
Proof.
  intros Ha Hn H4. rewrite loader_ram_length. split; [done | lia | lia |]. intros i Hi.
  rewrite owned_app. unfold kernel_memory. change (buddy_phys 0xC0120000) with 0x120000. cbn [owned stacks existsb].
  cbn [example_layout multiboot_stack_bottom multiboot_stack_top stack_top]. unfold Kpm.KERNEL_VIRT_OFFSET.
  rewrite (proj2 (Z.leb_gt 0x100000 i)), (proj2 (Z.leb_gt 0x120000 i)) by lia. rewrite !(proj2 (Z.ltb_ge i _)) by lia.
  by rewrite !andb_false_r.
Qed.

Lemma power_on_to_shell_witness : exists c' p (st' : Builtins.machine unit),
  start 0xC0103000 (fun _ v => v) example_layout (fun _ => 0) (fun m => m) loaded_cpu = Some c' /\
  load c' (gpr c' ESP + 4) = Some p /\
  Kernel.kernel_main (Idt.mk_handlers 0 0 0 0 0) 0x100000 0xC0120000 (repeat 0 600) Kernel.small_info
    Kernel.raw_machine = Ok st' /\ Idt.interrupts (Builtins.idt_st st') = true.
Proof.
  destruct (power_on_to_shell 0xC0103000 (fun _ v => v) example_layout (fun _ => 0) (fun m => m) loaded_cpu
    3 0x5134 Kernel.small_info (Idt.mk_handlers 0 0 0 0 0) 0x100000 0xC0120000 (repeat 0 600)
    Kernel.raw_machine 1024 Kernel.small_map (Kpm.mk_entry 0 0 0 0) [])
    as (c' & p & E & _ & El & _ & st' & Em & _ & _ & Hint & _).
  - apply example_layout_ok. cbn [loaded_cpu ram]. rewrite loader_ram_length. lia.
  - intros m. split; reflexivity.
  - reflexivity.
  - split; [discriminate | reflexivity].
  - vm_compute. reflexivity.
  - vm_compute. reflexivity.
  - apply loader_clear; [discriminate | discriminate | reflexivity].
  - apply loader_clear; [discriminate | discriminate | reflexivity].
  - constructor; try (vm_compute; intuition congruence).
  - reflexivity.
  - repeat constructor; cbn; try done; unfold region_ok; vm_compute; intuition congruence.
  - reflexivity.
  - exact Kernel.raw_prepared.
  - vm_compute. congruence.
  - vm_compute. congruence.
  - exists c', p, st'. exact (conj E (conj El (conj Em Hint))).
Defined.

End Handover.
