(* ===== verification/Session.v ===== *)
(** The session of the shell: the loop of kernel/nsh/nsh.c on a booted machine, with
    everything it calls.

    [session_ok low text n st] is the invariant between two keys: the machine satisfies
    its invariant, the buffer of the shell holds the line [text], and [text] is what
    stands before the cursor; [low] remembers that no key scrolled up so far.  A turn of
    the loop keeps it as long as the key is accepted.  Not accepted are: Enter on a line that
    names no builtin, or a [free] without a size or outside of the managed memory; and,
    on a window that was scrolled up, a backspace before the window is back at the
    bottom, since the code can then put the window before the buffer. *)

From Stdlib Require Import Ascii String.
From Stdlib Require Import ZArith Lia Bool.
From stdpp Require Import base tactics numbers list option.
From S2P Require Import Prelude Logic Port Mem Kpm KpmBits KpmTree KpmOps KpmInit KpmTheorems Keyboard Desc.
From S2P Require Import Str StrTol Print Format Screenbuf Typing Console Builtins Machine AllocCmd.
From S2P Require Import Nsh Commands Interrupts Kernel.

Local Open Scope Z_scope.

Module Session.
Import Screenbuf Console Builtins Format Typing Machine Commands Kernel.

#[local] Opaque say paint.

Ltac plain_check := by apply (bool_decide_unpack _); vm_compute.

(** ** Keys *)

Lemma scancode_keymap sc evt st r evt' st' : Keyboard.KBD_scancode sc evt st = Ok (r, evt', st') ->
  Keyboard.getkeymapentry st' = Keyboard.getkeymapentry st.
Proof.
  unfold Keyboard.KBD_scancode. destruct (sc =? 0xE0).
  { by destruct (negb _); intros [= _ _ <-]. }
  destruct (sc >? 0x80); intros E; apply bind_inv in E as (k & _ & [= _ _ <-]);
    unfold Keyboard.set_modifiers; cbn [Keyboard.evt_key Keyboard.evt_type]; by destruct k.
Qed.

Lemma event_keymap {D} `{Device D} ty fuel : forall evt st (d : D) evt' st' d',
  Keyboard.KBD_geteventbytype fuel ty evt st d = Ok (evt', st', d') ->
  Keyboard.getkeymapentry st' = Keyboard.getkeymapentry st.
Proof.
  induction fuel as [| fuel IH]; intros evt st d evt' st' d' E; [done |].
  cbn [Keyboard.KBD_geteventbytype] in E. apply bind_inv in E as (d1 & _ & E).
  apply bind_inv in E as ([[[r evt1] st1] d2] & E1 & E).
  assert (Keyboard.getkeymapentry st1 = Keyboard.getkeymapentry st) as Ek.
  { unfold Keyboard.KBD_getevent in E1. destruct (port_read_u8 _ d1) as [sc d3].
    apply bind_inv in E1 as ([[r0 evt0] st0] & Es & [= _ _ <- _]). by apply scancode_keymap in Es. }
  destruct (_ && _); [by injection E as _ <- _ | rewrite <- Ek; by apply IH in E].
Qed.

(** The characters of the layouts. *)
Definition typeable (c : Z) : Prop := c = 0 \/ c = 8 \/ c = 9 \/ visible c.

Lemma getchar_typeable evt st f : Keyboard.getkeymapentry st = Some f -> Keyboard.keyboard_layout f ->
  i8 (Keyboard.KBD_getchar evt st) = Keyboard.KBD_getchar evt st /\
  typeable (Keyboard.KBD_getchar evt st).
Proof.
  intros Hf Hl. destruct (Keyboard.KBD_getchar_ascii evt st f Hf Hl) as [Hr E]. split; [exact E |].
  unfold typeable, visible. lia.
Qed.

(** ** The screen before the cursor *)

(** The console is good, and [k] characters stand before the cursor. *)
Definition line_at {D} `{Device D} (low : bool) (k : Z) (c : console D) : Prop :=
  exists ss s, console_ok c ss /\ Forall (neat low) ss /\ (low = true -> front c) /\
    ss !! Z.to_nat (sb_current c) = Some s /\ wrapped (sc_lines s) k.

Lemma line_at_good {D} `{Device D} low k (c : console D) : line_at low k c -> good low c.
Proof. intros (ss & s & Hok & Hn & Hf & _). by exists ss. Qed.

Lemma good_line_at {D} `{Device D} low (c : console D) : good low c -> line_at low 0 c.
Proof.
  intros (ss & Hok & Hn & Hf). destruct (good_current c ss Hok Hn) as (s & Es & _).
  exists ss, s. split; [done |]. split; [done |]. split; [done |]. split; [done |]. by apply wrapped_nonpos.
Qed.

Definition line_char (c : Z) : Prop := visible c /\ c <> 10.
#[export] Instance line_char_dec c : Decision (line_char c).
Proof. unfold line_char. apply _. Defined.

Lemma line_char_visible l : Forall line_char l -> Forall visible l.
Proof. intros Hl. eapply List.Forall_impl; [| exact Hl]. by intros c [? _]. Qed.

Lemma names_line_char : Forall (fun b => Forall line_char (Nsh.name b) /\ zlen (Nsh.name b) <= 9) Nsh.builtin.
Proof. by apply (bool_decide_unpack _); vm_compute. Qed.

Lemma complete_line names : Forall (fun q => Forall line_char q /\ zlen q <= 9) names ->
  forall t, Forall line_char t -> zlen t <= 1023 ->
  Forall line_char (Nsh.complete names t) /\ zlen (Nsh.complete names t) <= 1023.
Proof.
  unfold Nsh.complete. induction 1 as [| q names [Hq Hl] _ IH]; intros t Ht Hlt; [done |].
  cbn [foldl]. case_bool_decide; apply IH; (done || lia).
Qed.

(** What [edit] does to the line and to the screen agrees. *)
Lemma edit_shows low text c s : Forall line_char text -> zlen text < 1024 -> neat low s ->
  wrapped (sc_lines s) (zlen text) -> typeable c -> c <> 0 -> c <> 10 ->
  exists text' out s', Nsh.edit text c = (text', out) /\ puts s out = Some s' /\ neat low s' /\
    Forall line_char text' /\ wrapped (sc_lines s') (zlen text').
Proof.
  intros Ht Hl Hs Hw Hc H0 H10. unfold Nsh.edit, Nsh.NSH_BUFSIZE.
  assert (forall out, Forall line_char out -> zlen text + zlen out <= 1024 ->
    exists text' out' s', (text ++ out, out) = (text', out') /\ puts s out' = Some s' /\ neat low s' /\
      Forall line_char text' /\ wrapped (sc_lines s') (zlen text')) as Hout.
  { intros out Ho Hlo. pose proof (line_char_visible out Ho) as Hv.
    destruct (puts_total out s (visible_no_backspace out Hv)) as [s' Es'].
    exists (text ++ out), out, s'. split; [done |]. split; [done |].
    split; [by apply (puts_neat low out s) |]. split; [by apply Forall_app |].
    rewrite zlen_app. by apply (puts_wrapped low out s). }
  assert (exists text' out' s', (text, []) = (text', out') /\ puts s out' = Some s' /\ neat low s' /\
    Forall line_char text' /\ wrapped (sc_lines s') (zlen text')) as Hidle.
  { exists text, [], s. split; [done |]. split; [done |]. split; [done |]. by split. }
  destruct (Z.eqb_spec c 8) as [-> | H8].
  { destruct text as [| x t] eqn:Et; [exact Hidle |]. rewrite <- Et in *.
    assert (1 <= zlen text) as H1 by (rewrite Et; unfold zlen; cbn [length]; lia).
    destruct (backspace_neat low s (zlen text) Hs H1 Hw) as (s' & Eb & Hn & Hw').
    exists (take (length text - 1) text), [8], s'. split; [done |]. split; [cbn [puts]; unfold putchar; by rewrite Eb |].
    split; [done |]. split; [by apply Forall_take |].
    replace (zlen (take (length text - 1) text)) with (zlen text - 1); [done |].
    unfold zlen in *. rewrite length_take. lia. }
  destruct (Z.eqb_spec c 9) as [-> | H9].
  { destruct text as [| x t] eqn:Et; [exact Hidle |]. rewrite <- Et in *.
    destruct (complete_line (map Nsh.name Nsh.builtin)) with text as [Hcl Hcn]; [| done | lia |].
    { apply List.Forall_map. exact names_line_char. }
    destruct (Nsh.complete_extends (map Nsh.name Nsh.builtin) text) as [out Eo]. rewrite Eo in *.
    rewrite drop_app_length. rewrite zlen_app in Hcn. apply Forall_app in Hcl as [_ Ho]. apply Hout; [done | lia]. }
  destruct (Z.ltb_spec (zlen text) (1024 - 1)) as [Hlt | Hge].
  - apply Hout; [| unfold zlen in *; cbn [length]; lia]. constructor; [| done].
    split; [| done]. destruct Hc as [? | [? | [? | ?]]]; done.
  - exact Hidle.
Qed.

(** ** Words *)

Lemma words_visible l : Forall line_char l -> Forall (fun w => Forall visible w /\ zlen w <= zlen l) (Nsh.words l).
Proof.
  induction l as [| c l IH]; intros Hl; cbn [Nsh.words]; [done |].
  apply List.Forall_cons_iff in Hl as [[Hc _] Hl]. specialize (IH Hl).
  assert (forall ws, Forall (fun w => Forall visible w /\ zlen w <= zlen l) ws ->
    Forall (fun w => Forall visible w /\ zlen w <= zlen (c :: l)) ws) as Hmore.
  { intros ws Hw. eapply List.Forall_impl; [| exact Hw]. intros w [? ?].
    rewrite zlen_cons. split; [done | lia]. }
  assert (Forall visible [c] /\ zlen [c] <= zlen (c :: l)) as H1.
  { split; [by apply List.Forall_cons |]. change (zlen [c]) with 1. rewrite zlen_cons. pose proof (zlen_nonneg l). lia. }
  destruct (c =? 32); [by apply Hmore |]. destruct l as [| d l']; [by apply List.Forall_cons |].
  destruct (d =? 32); [apply List.Forall_cons; [exact H1 | by apply Hmore] |].
  destruct (Nsh.words (d :: l')) as [| w ws]; [by apply List.Forall_cons |].
  apply List.Forall_cons_iff in IH as [[Hw Hlw] IH]. apply List.Forall_cons; [| by apply Hmore].
  rewrite !zlen_cons in *. split; [by apply List.Forall_cons | lia].
Qed.

Section session.
Context {D : Type} `{Device D} (hw : hardware D) (garbage : Kpm.kpm_chunk_t) (polls : nat) (nf : Z).
Implicit Types st : machine D.

(** ** Lines that can be run *)

(** The words of a call of [free] that kpm_free can be trusted with. *)
Definition free_words_ok (ws : list (list Z)) : Prop :=
  length ws <> 2%nat /\
  forall wa ws', ws !! 1%nat = Some wa -> ws !! 2%nat = Some ws' ->
  forall m p q a s e e', Str.cstr m p wa -> Str.cstr m q ws' ->
    StrTol.strtol m p 0 = Ok (a, e) -> StrTol.strtol m q 0 = Ok (s, e') ->
    0 <= s -> u32 a mod 4096 = 0 -> u32 a + s <= nf * 4096.

Definition runnable (text : list Z) : Prop :=
  match Nsh.words text with
  | [] => True
  | w :: _ =>
      match Nsh.find_builtin Nsh.builtin w with
      | None => False
      | Some b => Nsh.exec_fn b = Nsh.Free -> free_words_ok (Nsh.words text)
      end
  end.

(** The arguments nsh_createcmd leaves. *)
Lemma created_args text b cmd cmd0 : Forall line_char text -> zlen text < 1024 ->
  Nsh.split_ok b cmd cmd0 (Nsh.words text) -> args_at b cmd (zlen (Nsh.words text)).
Proof.
  intros Ht Hl (_ & Hs & _) i Hi. unfold zlen in Hi.
  destruct (lookup_lt_is_Some_2 (Nsh.words text) (Z.to_nat i)) as [w Ew]; [lia |].
  destruct (Hs _ _ Ew) as (p & Ep & Hp). exists p. split; [done |]. exists w. split; [done |].
  destruct (Forall_lookup_1 _ _ _ _ (words_visible text Ht) Ew). split; [done | lia].
Qed.

Lemma created_free b cmd cmd0 ws : Nsh.split_ok b cmd cmd0 ws -> free_words_ok ws ->
  free_ok nf b cmd (zlen ws).
Proof.
  intros (_ & Hs & _) [H2 Hf]. unfold zlen. split; [lia |]. intros H3 p q a s e e' Ep Eq.
  destruct (lookup_lt_is_Some_2 ws 1) as [wa Ea]; [lia |].
  destruct (lookup_lt_is_Some_2 ws 2) as [wn En]; [lia |].
  destruct (Hs _ _ Ea) as (p' & Ep' & Hp), (Hs _ _ En) as (q' & Eq' & Hq).
  rewrite Ep in Ep'. injection Ep' as <-. rewrite Eq in Eq'. injection Eq' as <-.
  by apply (Hf wa wn).
Qed.

(** ** The invariant *)

Record session_ok (low : bool) (text : list Z) (n : Nsh.nsh_state) st : Prop := mk_session_ok
  { s_machine : machine_ok low nf st;
    s_text : Nsh.text_ok n text;
    s_chars : Forall line_char text;
    s_line : line_at low (zlen text) (con st);
    s_cmd : forall i, (i < Nsh.cleared_pointers)%nat -> Nsh.nsh_cmd n !! i = Some None }.

Lemma prompt_quiet low st0 st : quiet low st0 st -> yields (Nsh.nsh_prompt st) (quiet low st0).
Proof.
  intros Hq. unfold Nsh.nsh_prompt. ystep (get_color_yields (con st) (proj2 Hq)). intros old _.
  paint_step. say_step; [done |]. paint_last.
Qed.

(** A new line starts with an empty buffer and the prompt. *)
Lemma newline_ok low n st : machine_ok low nf st -> zlen (Nsh.nsh_buf n) = 1024 -> zlen (Nsh.nsh_cmd n) = 513 ->
  yields (Nsh.nsh_newline n st) (fun '(n', st') => session_ok low [] n' st').
Proof.
  intros Hm Hb Hc. unfold Nsh.nsh_newline, Nsh.NSH_BUFSIZE.
  destruct (Mem.memset_spec (Nsh.nsh_buf n) 0 0 1024) as (b & -> & Hl & Hz).
  { unfold Mem.range_in. lia. }
  cbn [mbind result_bind].
  ystep (prompt_quiet low st st (quiet_refl st (m_good low nf st Hm))). intros st' Hq.
  apply yields_ok. split.
  - by apply quiet_machine with st.
  - split; cbn [Nsh.nsh_buf Nsh.nsh_cmd Nsh.nsh_bufindex]; unfold Nsh.NSH_BUFSIZE; try done.
    + lia.
    + unfold zlen in *. rewrite length_app, length_replicate, length_drop.
      change Nsh.cleared_pointers with 128%nat. change (1024 / 2 + 1) with 513. lia.
    + intros k Hk. change (zlen []) with 0 in Hk. lia.
    + intros k Hk. change (zlen []) with 0 in Hk. rewrite Hz by lia.
      rewrite (proj2 (Z.leb_le 0 k)), (proj2 (Z.ltb_lt k (0 + 1024))) by lia. done.
  - constructor.
  - apply good_line_at, Hq.
  - intros i Hi. cbn [Nsh.nsh_cmd]. rewrite lookup_app_l by (by rewrite length_replicate).
    by apply lookup_replicate_2.
Qed.

(** ** Keys that edit the line *)

Lemma screen_kept low ss (s s' : screen) st st' k : console_ok (con st) ss -> Forall (neat low) ss ->
  (low = true -> front (con st')) -> screen_now st ss s' st' -> neat low s' -> wrapped (sc_lines s') k ->
  line_at low k (con st').
Proof.
  intros Hok Hn Hf Hnow Hs Hw. exists (<[Z.to_nat (sb_current (con st)) := s']> ss), s'.
  split; [apply Hnow |]. split; [by apply Forall_insert |]. split; [done |].
  split; [by apply (screen_lookup st) | done].
Qed.

(** The window ends at the cursor's line, or one line above, and does not wrap around. *)
Definition at_bottom (c : console D) : Prop :=
  forall b, sb c !! Z.to_nat (sb_current c) = Some b ->
    0 <= viewport b /\ sb_ldiff b (viewport b) (cursor b) <= VGA_HEIGHT.

Lemma at_bottom_view c ss s : console_ok c ss -> ss !! Z.to_nat (sb_current c) = Some s ->
  at_bottom c -> sc_view s <= 25 /\ forall b, sb c !! Z.to_nat (sb_current c) = Some b -> 0 <= viewport b.
Proof.
  intros Hok Es Hb. destruct (current_lookup _ _ Hok) as (b & s0 & Eb & Es0 & _ & [(l & v & Hr) _] & _).
  rewrite Es in Es0. injection Es0 as <-. destruct (Hb b Eb) as [_ Hv].
  rewrite (view_ldiff _ _ _ _ (r_core _ _ _ _ _ Hr)) in Hv. split; [exact Hv |].
  intros b' Eb'. by apply Hb.
Qed.

Lemma edit_ok low text n st c : session_ok low text n st -> typeable c -> c <> 0 -> c <> 10 ->
  (c = 8 -> low = true \/ text = [] \/ at_bottom (con st)) ->
  yields (Nsh.nsh_addchar hw garbage polls n c st) (fun '(n', st') => session_ok low (Nsh.edit text c).1 n' st').
Proof.
  intros [Hm Ht Hc (ss & s & Hok & Hn & Hf & Es & Hw) Hcmd] Hty H0 H10 H8.
  pose proof (Forall_lookup_1 _ _ _ _ Hn Es) as Hs. cbn beta in Hs. pose proof (Nsh.t_len n text Ht) as Hl.
  destruct (edit_shows low text c (scroll_down s) Hc Hl (scroll_down_neat low s Hs) Hw Hty H0 H10)
    as (text' & out & s' & He & Hp & Hs' & Hc' & Hw').
  assert (plain c) as Hplain.
  { destruct Hty as [? | [-> | [-> | [? _]]]]; [done | done | done | exact H1]. }
  pose proof (n_view low s Hs) as Hv.
  destruct (Nsh.addchar_ok hw garbage polls n text c st ss s text' out s' Ht Hok Es Hplain H10 He Hp)
    as (n' & st' & -> & Ht' & Ec & Hnow & Hfr).
  - intros -> Hout. destruct (H8 eq_refl) as [Hlow | [-> | Hb]].
    + specialize (Hv Hlow). split; [lia |]. intros b Hb. by apply (Hf Hlow (Z.to_nat (sb_current (con st)))).
    + cbn in He. injection He as <- <-. done.
    + by apply (at_bottom_view _ ss).
  - rewrite He. apply yields_ok.
    assert (low = true -> front (con st')) as Hfr' by (intros Hlow; apply Hfr; [specialize (Hv Hlow); lia | auto]).
    pose proof (screen_kept low ss s s' st st' _ Hok Hn Hfr' Hnow Hs' Hw') as Hline.
    split; [| done | done | done |].
    + apply quiet_machine with st; [done |]. split; [apply Hnow | by apply line_at_good in Hline].
    + intros i Hi. rewrite Ec. by apply Hcmd.
Qed.

(** ** Enter *)

(** The window goes to the cursor first. *)
Lemma bottom_session low text n st : session_ok low text n st ->
  yields (on_current sb_scroll_down (con st)) (fun c => session_ok low text n (with_con st c)).
Proof.
  intros [Hm Ht Hc (ss & s & Hok & Hn & Hf & Es & Hw) Hcmd]. pose proof (Forall_lookup_1 _ _ _ _ Hn Es) as Hs.
  destruct (Nsh.bottom_ok st ss s Hok Es) as (c & -> & Hnow & Hsame). apply yields_ok.
  assert (line_at low (zlen text) c) as Hline.
  { apply (screen_kept low ss s (scroll_down s) st (with_con st c)); try done; [| by apply scroll_down_neat].
    intros Hlow. cbn [con with_con]. rewrite Hsame; [by apply Hf |]. pose proof (n_view low s Hs Hlow). lia. }
  split; try done. apply quiet_machine with st; [done |]. split; [done | by apply line_at_good in Hline].
Qed.

(** The line is run. *)
Lemma run_ok low text n st st1 : hardware_ok hw nf polls -> session_ok low text n st -> runnable text ->
  machine_ok low nf st1 ->
  yields (n1 ← Nsh.nsh_createcmd n; st2 ← Nsh.nsh_execcmd hw garbage polls n1 st1; Ok (n1, st2))
    (fun '(n1, st2) => machine_ok low nf st2 /\ zlen (Nsh.nsh_buf n1) = 1024 /\ zlen (Nsh.nsh_cmd n1) = 513).
Proof.
  intros Hh [_ Ht Hc _ Hcmd] Hrun Hm. pose proof (Nsh.t_len n text Ht) as Hl.
  destruct (Nsh.createcmd_spec n text Ht) as (n1 & -> & Ea & Eb & Hsplit).
  cbn [mbind result_bind]. eapply (yields_bind _ _ (machine_ok low nf)).
  2: { intros st2 Hm2. apply yields_ok. split; [done |]. split; [done |].
       destruct Hsplit as [-> _]. apply (Nsh.t_cmd n text Ht). }
  unfold runnable in Hrun. destruct (Nsh.words text) as [| w ws] eqn:Ew.
  - assert (Nsh.nsh_cmd n1 !! 0%nat = Some None) as E0.
    { destruct Hsplit as (_ & _ & ->); [| cbn; lia]. by apply Hcmd; vm_compute; lia. }
    unfold Nsh.nsh_execcmd, rd. cbn [Z.ltb Z.compare]. change (Z.to_nat 0) with 0%nat. rewrite E0.
    by apply yields_ok.
  - rewrite (Nsh.execcmd_spec hw garbage polls n1 text w ws st1 _ (Nsh.nsh_cmd n)) by (done || congruence).
    destruct (Nsh.find_builtin Nsh.builtin w) as [e |] eqn:Ef; [| done]. rewrite <- Ew in *.
    pose proof (created_args text _ _ _ Hc Hl Hsplit) as Hargs.
    ystep (exec_builtin_ok hw (low := low) nf garbage polls (Nsh.exec_fn e)); [done | done | done | |].
    + unfold command_ok. destruct (Nsh.exec_fn e); try done. apply created_free with (Nsh.nsh_cmd n); auto.
    + intros [z st2] Hm2. by apply yields_ok.
Qed.

Lemma enter_ok low text n st : hardware_ok hw nf polls -> session_ok low text n st -> runnable text ->
  yields (Nsh.nsh_addchar hw garbage polls n 10 st) (fun '(n', st') => session_ok low [] n' st').
Proof.
  intros Hh Hs Hrun. unfold Nsh.nsh_addchar. ystep (bottom_session low text n st Hs). intros c Hsc.
  pose proof Hsc as [Hm Ht _ _ _]. change (10 =? 10) with true. cbn match.
  pose proof (quiet_refl _ (m_good low nf _ Hm)) as Hq. say_step; [done |].
  pose proof (quiet_machine nf _ a Hm H0) as Hm1.
  eapply (yields_bind _ _ (fun '(n1, st2) => machine_ok low nf st2 /\ zlen (Nsh.nsh_buf n1) = 1024 /\ zlen (Nsh.nsh_cmd n1) = 513)).
  - apply yields_if; intros _; [by apply (run_ok low text n (with_con st c)) |].
    apply yields_ok. split; [done |]. destruct Ht. by split.
  - intros [n1 st2] (Hm2 & Hb & Hc). by apply newline_ok.
Qed.

(** ** Keys without a character *)

Lemma scroll_line_low st k : line_at true k (con st) ->
  on_current (fun b => sb_scroll b 1) (con st) = on_current sb_scroll_down (con st).
Proof.
  intros (ss & s & Hok & Hn & _ & Es & _). pose proof (n_view true s (Forall_lookup_1 _ _ _ _ Hn Es) eq_refl) as Hv.
  destruct (current_lookup _ _ Hok) as (b & s0 & _ & Es0 & Hrd & [(l & v & Hr) _] & _).
  rewrite Es in Es0. injection Es0 as <-. unfold on_current. rewrite Hrd. cbn [mbind result_bind].
  unfold sb_scroll. cbn [Z.ltb Z.compare]. rewrite (view_ldiff _ _ _ _ (r_core _ _ _ _ _ Hr)).
  change VGA_HEIGHT with 25. change (abs 1) with 1. rewrite Z.geb_leb.
  by destruct (Z.leb_spec 1 (sc_view s - (25 - 1))); [lia |].
Qed.

(** Scrolling keeps the text. *)
Definition moves_window (f : screenbuf -> world D -> result (screenbuf * world D)) : Prop :=
  forall c v b s w, rep_at c v b (vga w) s -> exists b' w' v' view,
    f b w = Ok (b', w') /\ loaded b' = loaded b /\ rep_at c v' b' (vga w') (with_view s view).

Lemma scroll_moves n : -2147483648 < n < 2147483648 -> moves_window (fun b => sb_scroll b n).
Proof.
  intros Hn c v b s w Hr. destruct (scroll_rep c v b s n w Hr Hn) as (b' & w' & v' & E & El & Hr').
  exists b', w', v'. unfold scroll, scroll_top, scroll_down in Hr'.
  destruct (_ >=? _), (n <? 0); by eexists.
Qed.

Lemma scroll_top_moves : moves_window sb_scroll_top.
Proof.
  intros c v b s w Hr. destruct (scroll_top_rep c v b s w (r_core _ _ _ _ _ Hr) (r_vga _ _ _ _ _ Hr))
    as (b' & w' & v' & E & El & _ & Hr'). exists b', w', v'. by eexists.
Qed.

Lemma scroll_down_moves : moves_window sb_scroll_down.
Proof.
  intros c v b s w Hr. destruct (scroll_down_rep c v b s w Hr) as (b' & w' & v' & E & El & Hr').
  exists b', w', v'. by eexists.
Qed.

Lemma scroll_session f low text n st : moves_window f -> session_ok low text n st ->
  yields (on_current f (con st)) (fun c => session_ok false text n (with_con st c)).
Proof.
  intros Hf [Hm Ht Hc (ss & s & Hok & Hn & _ & Es & Hw) Hcmd].
  destruct (current_lookup _ _ Hok) as (b & s0 & Eb & Es0 & _ & [(l & v & Hr) Hcol] & _).
  rewrite Es in Es0. injection Es0 as <-.
  destruct (Hf l v b s (shared (con st)) Hr) as (b' & w' & v' & view & E & El & Hr').
  destruct (on_current_ok f (con st) ss (with_view s view) Hok) as (c & -> & Ec & Hok' & _).
  { intros b1 s1 Eb1 Es1 _. rewrite Eb in Eb1. injection Eb1 as <-. exists b', w'.
    split; [done |]. split; [done |]. split; [by exists l, v' | exact Hcol]. }
  apply yields_ok. assert (Forall (neat false) ss) as Hn0.
  { eapply List.Forall_impl; [| exact Hn]. intros s1 Hs1. by destruct Hs1. }
  assert (line_at false (zlen text) c) as Hline.
  { apply (screen_kept false ss s (with_view s view) st (with_con st c)); try done.
    apply (with_view_neat low). by apply (Forall_lookup_1 _ _ _ _ Hn Es). }
  split; try done. destruct Hm as [Hk _ Hg Hl]. split; try done. by apply line_at_good in Hline.
Qed.

Definition scrolls_up (key : Keyboard.kbd_keycode) : bool :=
  match key with Keyboard.KEY_CURSOR_UP | Keyboard.KEY_PAGE_UP => true | _ => false end.

Lemma with_con_same st : with_con st (con st) = st.
Proof. by destruct st. Qed.

(** While no key scrolled up there is nothing to scroll down. *)
Lemma bottom_low st k : line_at true k (con st) -> on_current sb_scroll_down (con st) = Ok (con st).
Proof.
  intros (ss & s & Hok & Hn & _ & Es & _). pose proof (Forall_lookup_1 _ _ _ _ Hn Es) as Hs.
  destruct (Nsh.bottom_ok st ss s Hok Es) as (c & -> & _ & Hc). f_equal. apply Hc.
  pose proof (n_view true s Hs eq_refl). lia.
Qed.

Lemma shortcut_ok low text n st key : session_ok low text n st ->
  yields (Nsh.nsh_shortcut key st) (session_ok (low && negb (scrolls_up key)) text n).
Proof.
  intros Hs. pose proof Hs as [_ _ _ Hline _].
  assert (forall f, moves_window f ->
    yields (c ← on_current f (con st); Ok (with_con st c)) (session_ok false text n)) as Hmove.
  { intros f Hf. ystep (scroll_session f low text n st Hf Hs). intros c Hc. by apply yields_ok. }
  assert (forall f, moves_window f -> (low = true -> on_current f (con st) = Ok (con st)) ->
    yields (c ← on_current f (con st); Ok (with_con st c)) (session_ok low text n)) as Hdown.
  { intros f Hf Hsame. destruct low; [| by apply Hmove]. rewrite Hsame by done.
    apply yields_ok. by rewrite with_con_same. }
  assert (forall k, low = true -> line_at low k (con st) -> line_at true k (con st)) as Hlow by (by intros k ->).
  destruct key; try (cbn [scrolls_up negb]; rewrite andb_true_r; by apply yields_ok);
    unfold Nsh.nsh_shortcut; cbn [scrolls_up negb]; rewrite ?andb_true_r, ?andb_false_r;
    first [apply Hmove; first [by apply scroll_moves | apply scroll_top_moves] | apply Hdown].
  all: first [by apply scroll_moves | apply scroll_down_moves | intros E].
  - rewrite (scroll_line_low st _ (Hlow _ E Hline)). exact (bottom_low st _ (Hlow _ E Hline)).
  - exact (bottom_low st _ (Hlow _ E Hline)).
Qed.

(** ** A turn of the loop *)

(** [low] says that no key scrolled up so far.  Enter needs a line that can be run, and
    a backspace a window that was not scrolled up, or is back at the bottom. *)
Definition key_ok (low : bool) (text : list Z) (k : console D) (c : Z) : Prop :=
  (c = 10 -> runnable text) /\ (c = 8 -> low = true \/ text = [] \/ at_bottom k).

(** The line after a key with the character [c]; 0 is none. *)
Definition next_text (text : list Z) (c : Z) : list Z :=
  if c =? 0 then text else if c =? 10 then [] else (Nsh.edit text c).1.

Definition next_low (low : bool) (key : Keyboard.kbd_keycode) (c : Z) : bool :=
  if c =? 0 then low && negb (scrolls_up key) else low.

(** The machine after the event was read. *)
Lemma event_ok low text n st evt k d evt' : session_ok low text n st ->
  Keyboard.KBD_geteventbytype polls Keyboard.KEY_PRESSED evt (kbd st) (dev (shared (con st))) = Ok (evt', k, d) ->
  session_ok low text n (with_kbd (on_device (fun _ => d) st) k) /\
  i8 (Keyboard.KBD_getchar evt' k) = Keyboard.KBD_getchar evt' k /\ typeable (Keyboard.KBD_getchar evt' k).
Proof.
  intros [Hm Ht Hc Hline Hcmd] E. pose proof (event_keymap _ _ _ _ _ _ _ _ E) as Ek.
  destruct Hm as [Hk Hg Hgdt (f & Hf & Hl)]. rewrite Hf in Ek. split.
  - split; try done.
    + split; try done; [by apply good_device | by exists f].
    + destruct Hline as (ss & s & [Hlen Hcur Hs] & Hn & Hfr & Es & Hw). exists ss, s.
      split; [by split |]. by split.
  - by apply getchar_typeable with f.
Qed.

Lemma turn_ok low text n st evt evt' k d : hardware_ok hw nf polls -> session_ok low text n st ->
  Keyboard.KBD_geteventbytype polls Keyboard.KEY_PRESSED evt (kbd st) (dev (shared (con st))) = Ok (evt', k, d) ->
  key_ok low text (con st) (Keyboard.KBD_getchar evt' k) ->
  yields (Nsh.nsh_turn hw garbage polls evt n st) (fun '(e, n', st') => e = evt' /\
    session_ok (next_low low (Keyboard.evt_key evt') (Keyboard.KBD_getchar evt' k))
      (next_text text (Keyboard.KBD_getchar evt' k)) n' st').
Proof.
  intros Hh Hs E [Henter Hback]. destruct (event_ok low text n st evt k d evt' Hs E) as (Hs' & Ei & Hc).
  unfold Nsh.nsh_turn. rewrite E. cbn [mbind result_bind]. rewrite Ei.
  change (at_bottom (con st)) with (at_bottom (con (with_kbd (on_device (fun _ => d) st) k))) in Hback.
  set (st1 := with_kbd _ k) in *. unfold next_text, next_low. set (c := Keyboard.KBD_getchar evt' k) in *.
  destruct (Z.eqb_spec c 0) as [E0 | E0]; cbn [negb].
  - ystep (shortcut_ok low text n st1 (Keyboard.evt_key evt') Hs'). intros st2 Hs2. by apply yields_ok.
  - destruct (Z.eqb_spec c 10) as [E10 | E10].
    + rewrite E10. eapply yields_bind; [by apply (enter_ok low text n st1); auto |].
      intros [n' st'] Hs2. by apply yields_ok.
    + eapply yields_bind; [by apply (edit_ok low text n st1 c) |].
      intros [n' st'] Hs2. by apply yields_ok.
Qed.

(** ** Runs *)

(** The line in the buffer. *)
Definition line_of (n : Nsh.nsh_state) : list Z := take (Z.to_nat (Nsh.nsh_bufindex n)) (Nsh.nsh_buf n).

Lemma text_line_of n text : Nsh.text_ok n text -> line_of n = text.
Proof.
  intros [Hb _ Hl Hi _ Ht _]. unfold line_of. rewrite Hi. unfold zlen, Nsh.NSH_BUFSIZE in *. rewrite Nat2Z.id.
  apply list_eq_same_length with (length text); [done | rewrite length_take; lia |].
  intros i x y Hlt Ex Ey. rewrite lookup_take_lt in Ex by done. specialize (Ht (Z.of_nat i) ltac:(lia)).
  unfold at_ in Ht. destruct (Z.ltb_spec (Z.of_nat i) 0); [lia |]. rewrite Nat2Z.id, Ex, Ey in Ht. exact Ht.
Qed.

Definition shell_state : Type := Keyboard.kbd_event * Nsh.nsh_state * machine D.

(** The next key the user presses. *)
Definition arrives (s : shell_state) (evt' : Keyboard.kbd_event) (k : Keyboard.kbd_state) (d : D) : Prop :=
  let '(evt, n, st) := s in
  Keyboard.KBD_geteventbytype polls Keyboard.KEY_PRESSED evt (kbd st) (dev (shared (con st))) = Ok (evt', k, d).

Definition accepts (low : bool) (s : shell_state) (c : Z) : Prop :=
  let '(evt, n, st) := s in key_ok low (line_of n) (con st) c.

(** Turns with accepted keys, with the flag that remembers the keys that scroll up. *)
Inductive good_turn : bool * shell_state -> bool * shell_state -> Prop :=
  | good_turn_key low s evt' k d s' : arrives s evt' k d -> accepts low s (Keyboard.KBD_getchar evt' k) ->
      Nsh.nsh_runs hw garbage polls s s' ->
      good_turn (low, s) (next_low low (Keyboard.evt_key evt') (Keyboard.KBD_getchar evt' k), s').

Definition shell_ok (x : bool * shell_state) : Prop :=
  let '(low, (evt, n, st)) := x in session_ok low (line_of n) n st.

Lemma session_shell low text evt n st : session_ok low text n st -> shell_ok (low, (evt, n, st)).
Proof. intros Hs. unfold shell_ok. by rewrite (text_line_of n text) by apply Hs. Qed.

Lemma accepted_turn low s evt' k d : hardware_ok hw nf polls -> shell_ok (low, s) -> arrives s evt' k d ->
  accepts low s (Keyboard.KBD_getchar evt' k) ->
  exists s', Nsh.nsh_runs hw garbage polls s s' /\
    shell_ok (next_low low (Keyboard.evt_key evt') (Keyboard.KBD_getchar evt' k), s').
Proof.
  destruct s as [[evt n] st]. intros Hh Hs E Hk.
  destruct (turn_ok low (line_of n) n st evt evt' k d Hh Hs E Hk) as ([[evt2 n2] st2] & Et & _ & Hs2).
  exists (evt2, n2, st2). split; [by constructor | exact (session_shell _ _ evt2 n2 st2 Hs2)].
Qed.

Lemma good_turn_ok x y : hardware_ok hw nf polls -> shell_ok x -> good_turn x y -> shell_ok y.
Proof.
  intros Hh Hs Ht. destruct Ht as [low s evt' k d s' Harr Hacc Hr].
  destruct (accepted_turn low s evt' k d Hh Hs Harr Hacc) as (s2 & Hr2 & Hs2).
  inversion Hr as [evt n st s1 E]; subst. inversion Hr2 as [? ? ? ? E2]; subst. congruence.
Qed.

(** The machine kernel_main hands to the shell. *)
Lemma welcome_neat low : neat low welcome_screen.
Proof.
  apply (puts_neat low welcome (cleared SB_DFL_COLOR)); [apply cleared_neat | | exact welcome_puts].
  by apply (bool_decide_unpack _); vm_compute.
Qed.

Lemma boot_machine low h sk ek ram mbi st es z rest :
  boot_ok sk ek (u32 (mem_upper mbi - mem_lower mbi)) nf ram ->
  mmap mbi = es ++ z :: rest -> Forall (entry_ok nf) es -> Kpm.entry_size z = 0 ->
  prepared 0 (con st) -> 7 <= zlen (Gdt.gdt (gdt_st st)) -> 256 <= zlen (Idt.idt (idt_st st)) ->
  yields (kernel_main h sk ek ram mbi st) (machine_ok low nf).
Proof.
  intros Hboot Hmap Hes Hz Hprep Hg Hi.
  destruct (kernel_main_spec h sk ek ram mbi st nf es z rest Hboot Hmap Hes Hz Hprep Hg Hi)
    as (st1 & -> & Hk & _ & Hl & _ & _ & Hok & Hf & Hgl).
  apply yields_ok. split; [done | | done | by eexists; split; [exact Hl | left]].
  eexists. split; [exact Hok |]. split; [| by intros _].
  pose proof (welcome_neat low). by repeat apply List.Forall_cons.
Qed.
End session.

(** ** Properties *)

Section properties.
Context {D : Type} `{Device D} (hw : hardware D) (garbage : Kpm.kpm_chunk_t) (polls : nat) (nf : Z).
Implicit Types st : machine D.



End properties.

(** ** Witnesses *)

(** A keyboard with the scancodes that are still to be read. *)
#[local] Instance typist : Device (list Z) :=
  { dev_in port d := if port =? 0x64 then (match d with [] => 0 | _ => 1 end, d)
                     else if port =? 0x60 then (hd 0 d, tl d) else (0, d);
    dev_out port v d := d }.

Definition simple_hardware : hardware (list Z) :=
  Interrupts.processor (fun st => st) (fun _ => (0, Console.mk_int_frame 0 8 0x202 0 0)) (fun _ => 0)
    (fun _ _ => 0) [] 0 0.

Lemma simple_hardware_ok nf : hardware_ok simple_hardware nf 2.
Proof.
  apply Interrupts.processor_ok; [done |]. intros [| x d]; by apply yields_ok.
Qed.

(** A console depends on its device by output only. *)
Lemma other_device {D D'} `{Device D} `{Device D'} (c : console D) ss (d : D') : console_ok c ss ->
  console_ok (mk_console (sb c) (sb_current c) (mk_world (vga (shared c)) d)) ss.
Proof. intros [Hl Hc Hs]. by split. Qed.

(** A machine with an empty screen and a keyboard on which [d] is typed. *)
Lemma ready_machine (d : list Z) : exists st, machine_ok true 1024 st /\ dev (shared (con st)) = d /\
  kbd st = Keyboard.KBD_initialize Keyboard.kbd_st_init.
Proof.
  destruct booted_console as (c & Hok & E0 & Hv).
  exists (mk_machine (mk_console (sb c) (sb_current c) (mk_world (vga (shared c)) d))
    (Keyboard.KBD_initialize Keyboard.kbd_st_init) boot_state
    (Gdt.mk_gdt_state (repeat (Gdt.gate 0 0 0 0) 7) (Gdt.mk_gdt_ptr 0 0) (Gdt.mk_gdt_ptr 0 0))
    (Idt.mk_idt_state [] (Idt.mk_idt_ptr 0 0) (Idt.mk_idt_ptr 0 0) false)).
  split; [| done]. split; cbn [kpm_st con gdt_st kbd].
  - exact boot_inv.
  - exists [cleared SB_DFL_COLOR]. split; [by apply (other_device (H := no_device)) |].
    split; [apply List.Forall_cons; [apply cleared_neat | done] |].
    intros _ i b Hb. cbn [sb] in Hb. assert (i = 0%nat) as ->; [| rewrite (Hv b Hb); lia].
    destruct Hok as [Hl _ _]. cbn [length] in Hl. apply lookup_lt_Some in Hb. lia.
  - done.
  - eexists. split; [reflexivity | by left].
Qed.



Definition waiting_machine (d : list Z) : machine (list Z) :=
  mk_machine (mk_console [zero_sb; zero_sb] 0 (mk_world (vga zero_world) d)) Keyboard.kbd_st_init
    (Kpm.mk_kpm 0 (Kpm.mk_buddy 0 0 0 []) []) (gdt_st raw_machine) (idt_st raw_machine).

Lemma waiting_prepared d : prepared 0 (con (waiting_machine d)).
Proof.
  split; [reflexivity |]. split; [cbn [con waiting_machine shared zero_world vga]; unfold zlen; rewrite repeat_length; lia |].
  split; [| intros i b Hi; lia]. intros [| [| i]] b Hb; try done; injection Hb as <-;
    cbn [zero_sb buf]; unfold zlen; rewrite repeat_length; lia.
Qed.


End Session.
