(* ===== verification/Frame.v ===== *)
(** What the console and the builtins leave alone: the ports they never touch, and the
    state of the keyboard.

    [touches ports d d'] says that the device got from [d] to [d'] by accesses to the
    given ports only.  [framed k d x] says it of a state [x] reached from the device [d],
    and that the keyboard is in state [k] still.  [ensures r P] is partial
    correctness: whatever [r] returns has the property [P]; errors are the concern of
    Commands.v. *)

From Stdlib Require Import Ascii String.
From Stdlib Require Import ZArith Lia Bool.
From stdpp Require Import base tactics numbers list option.
From S2P Require Import Prelude Logic Port Mem Kpm Keyboard Desc.
From S2P Require Import Str StrTol Print Screenbuf Console Builtins Nsh Interrupts Session.

Local Open Scope Z_scope.

Module Frame.
Import Screenbuf Console Builtins.

(** ** Devices *)

(** The index and data registers of the VGA controller, the keyboard controller's status and
    command register, and the port qemu is switched off with. *)
Definition cursor_ports : list Z := [SB_CURSOR_PORT1; SB_CURSOR_PORT2].
Definition shell_ports : list Z := cursor_ports ++ [Keyboard.PS2_STATUS_COMMAND_PORT; 0x604].

Section devices.
Context {D : Type} `{Device D}.
Context (ports : list Z).

Inductive touch : D -> D -> Prop :=
  | touch_in p d : p ∈ ports -> touch d (dev_in p d).2
  | touch_out p v d : p ∈ ports -> touch d (dev_out p v d).
Definition touches : D -> D -> Prop := star touch.

Lemma touches_refl d : touches d d.
Proof. apply star_refl. Qed.

Lemma touches_read_u8 p d0 d v d' : p ∈ ports -> touches d0 d -> port_read_u8 p d = (v, d') -> touches d0 d'.
Proof.
  intros Hp Hd E. pose proof (touch_in p d Hp) as Ht. unfold port_read_u8 in E.
  destruct (dev_in p d) as [v1 d1]. injection E as _ <-. by apply star_step with d.
Qed.

Lemma touches_write_u8 p v d0 d : p ∈ ports -> touches d0 d -> touches d0 (port_write_u8 p v d).
Proof. intros Hp Hd. apply star_step with d; [done | by apply touch_out]. Qed.

Lemma touches_write_u16 p v d0 d : p ∈ ports -> touches d0 d -> touches d0 (port_write_u16 p v d).
Proof. intros Hp Hd. apply star_step with d; [done | by apply touch_out]. Qed.

Context (Hcursor : forall p, p ∈ cursor_ports -> p ∈ ports).

Lemma cursor_port1 : SB_CURSOR_PORT1 ∈ ports.
Proof using Hcursor. apply Hcursor. by constructor. Qed.
Lemma cursor_port2 : SB_CURSOR_PORT2 ∈ ports.
Proof using Hcursor. apply Hcursor. by repeat constructor. Qed.

Lemma cursor_update_touches d0 pos d : touches d0 d -> touches d0 (cursor_update pos d).
Proof using Hcursor.
  pose proof cursor_port1. pose proof cursor_port2. intros Hd.
  unfold cursor_update, cursor_enable, cursor_disable.
  repeat match goal with
  | |- context [let (_, _) := port_read_u8 ?p ?d in _] => destruct (port_read_u8 p d) eqn:?
  | |- context [if ?b then _ else _] => destruct b
  end;
  repeat first [assumption | apply touches_write_u8; [assumption |] | eapply touches_read_u8; [| | eassumption]].
Qed.
End devices.


(** ** Framed states *)

(** The states with a device, and what frames them. *)
Class Framed (D X : Type) : Type := frame : Keyboard.kbd_state -> (D -> Prop) -> X -> Prop.
#[export] Instance framed_world {D} : Framed D (world D) := fun _ P w => P (dev w).
#[export] Instance framed_console {D} : Framed D (console D) := fun _ P c => P (dev (shared c)).
#[export] Instance framed_machine {D} : Framed D (machine D) :=
  fun k P st => kbd st = k /\ P (dev (shared (con st))).
#[export] Instance framed_pair {D A X} `{Framed D X} : Framed D (A * X) := fun k P x => frame k P x.2.


Section frames.
Context {D : Type} `{Device D} (k : Keyboard.kbd_state) (P : D -> Prop).
Context (Hcursor : forall pos d, P d -> P (cursor_update pos d)).
Implicit Types st : machine D.
Implicit Types c : console D.
Implicit Types w : world D.
Local Abbreviation framed := (frame k P).

Lemma frame_pair {A X} `{Framed D X} (x : A * X) : framed x.2 -> framed x.
Proof. done. Qed.
Lemma frame_vga w v : framed w -> framed (on_vga w v).
Proof. done. Qed.
Lemma frame_cursor v pos w : framed w -> framed (mk_world v (cursor_update pos (dev w))).
Proof using Hcursor. exact (Hcursor pos (dev w)). Qed.
Lemma frame_console l cur w : framed w -> framed (mk_console l cur w).
Proof. done. Qed.
Lemma frame_shared c : framed c -> framed (shared c).
Proof. done. Qed.
Lemma frame_con st : framed st -> framed (con st).
Proof. by intros [_ ?]. Qed.
Lemma frame_with_con st c : framed st -> framed c -> framed (with_con st c).
Proof. by intros [? _] ?. Qed.
Lemma frame_with_kpm st a : framed st -> framed (with_kpm st a).
Proof. by intros [? ?]. Qed.
End frames.

Create HintDb frame.
#[export] Hint Resolve frame_vga frame_cursor frame_console frame_shared frame_con frame_with_con frame_with_kpm : frame.

(** The rules, and the lemmas of the calls: [k] and [P] say what to frame. *)
Ltac frame_intros :=
  intros;
  repeat match goal with
  | x : (_ * _)%type |- _ => destruct x
  | H : frame _ _ (_, _) |- _ => apply (frame_pair _ _ (_, _)) in H; cbn [snd] in H
  end.
Ltac frame_done := repeat (apply frame_pair; cbn [snd]); eauto 8 with frame.
Ltac frame_step k P :=
  match goal with
  | |- ensures (Ok _) _ => apply ensures_ok; frame_done
  | |- ensures (Err _) _ => apply ensures_err
  | |- ensures _ (fun _ => True) => apply ensures_any
  | |- ensures _ _ => solve [eauto 8 with frame]
  | |- ensures (@mbind _ _ ?A _ _ _) _ =>
      first [apply (ensures_bind (frame k P : A -> Prop)) | apply (ensures_bind (fun _ : A => True))];
      [| frame_intros]
  | |- ensures (if ?b then _ else _) _ => destruct b
  | |- ensures (match ?x with _ => _ end) _ => destruct x
  | |- ensures (for_loop _ _ _ _) _ => apply ensures_for_loop; [frame_done | frame_intros]
  end.
Ltac frames k P := cbv zeta; repeat (frame_step k P; cbv beta zeta).

(** ** The screen buffers *)

Section screens.
Context {D : Type} `{Device D} (k : Keyboard.kbd_state) (P : D -> Prop).
Context (Hcursor : forall pos d, P d -> P (cursor_update pos d)).
Implicit Types w : world D.
Local Abbreviation framed := (frame k P).

Lemma sync_frame sb w : framed w -> ensures (sb_sync sb w) framed.
Proof using Hcursor. intros Hw. unfold sb_sync. frames k P. Qed.
#[local] Hint Resolve sync_frame : frame.

Lemma load_framed sb w : framed w -> ensures (sb_load sb w) framed.
Proof using Hcursor. intros Hw. unfold sb_load. frames k P. Qed.

Lemma scroll_top_frame sb w : framed w -> ensures (sb_scroll_top sb w) framed.
Proof using Hcursor. intros Hw. unfold sb_scroll_top. frames k P. Qed.

Lemma scroll_down_frame sb w : framed w -> ensures (sb_scroll_down sb w) framed.
Proof using Hcursor. intros Hw. unfold sb_scroll_down. frames k P. Qed.
#[local] Hint Resolve scroll_top_frame scroll_down_frame : frame.

Lemma scroll_frame sb n w : framed w -> ensures (sb_scroll sb n w) framed.
Proof using Hcursor. intros Hw. unfold sb_scroll. frames k P. Qed.
#[local] Hint Resolve scroll_frame : frame.

Lemma write_word_frame sb x w : framed w -> ensures (sb_write_word sb x w) framed.
Proof. intros Hw. unfold sb_write_word. frames k P. Qed.
#[local] Hint Resolve write_word_frame : frame.

Lemma crlf_frame sb w : framed w -> ensures (sb_crlf sb w) framed.
Proof using Hcursor. intros Hw. unfold sb_crlf. frames k P. Qed.

Lemma backspace_frame sb w : framed w -> ensures (sb_backspace sb w) framed.
Proof using Hcursor. intros Hw. unfold sb_backspace. frames k P. Qed.

Lemma tab_loop_frame fuel : forall sb w, framed w -> ensures (tab_loop fuel sb w) framed.
Proof. induction fuel as [| fuel IH]; intros sb w Hw; cbn [tab_loop]; frames k P. Qed.
#[local] Hint Resolve crlf_frame backspace_frame tab_loop_frame : frame.

Lemma tabulation_frame sb w : framed w -> ensures (sb_tabulation sb w) framed.
Proof using Hcursor. intros Hw. unfold sb_tabulation. frames k P. Qed.

Lemma regular_frame sb x w : framed w -> ensures (sb_regular sb x w) framed.
Proof using Hcursor. intros Hw. unfold sb_regular. frames k P. Qed.
#[local] Hint Resolve tabulation_frame regular_frame : frame.

Lemma putchar_frame sb x w : framed w -> ensures (sb_putchar sb x w) framed.
Proof using Hcursor. intros Hw. unfold sb_putchar. frames k P. Qed.
#[local] Hint Resolve putchar_frame : frame.

Lemma putstr_frame m p sb w : framed w -> ensures (sb_putstr m p sb w) framed.
Proof using Hcursor.
  unfold sb_putstr. generalize (Str.fuel_for m) as fuel. intros fuel. revert p sb w.
  induction fuel as [| fuel IH]; intros p sb w Hw; cbn [sb_putstr_loop]; frames k P.
Qed.

Lemma clear_frame sb w : framed w -> ensures (sb_clear sb w) framed.
Proof using Hcursor. intros Hw. unfold sb_clear. frames k P. Qed.
End screens.

#[export] Hint Resolve load_framed scroll_top_frame scroll_down_frame scroll_frame putstr_frame clear_frame : frame.

(** ** The console and the builtins *)

Section programs.
Context {D : Type} `{Device D} (k : Keyboard.kbd_state) (P : D -> Prop).
Context (Hcursor : forall pos d, P d -> P (cursor_update pos d)).
Implicit Types c : console D.
Implicit Types st : machine D.
Local Abbreviation framed := (frame k P).

Lemma on_current_frame f c : (forall b w, framed w -> ensures (f b w) framed) -> framed c ->
  ensures (on_current f c) framed.
Proof. intros Hf Hc. unfold on_current. frames k P. Qed.

Lemma set_on_current_frame f c : framed c -> ensures (set_on_current f c) framed.
Proof. intros Hc. apply on_current_frame; [| done]. intros b w Hw. frames k P. Qed.

Lemma kprintf_frame m fmt ap c : framed c -> ensures (kprintf m fmt ap c) framed.
Proof using Hcursor.
  intros Hc. unfold kprintf. frames k P. apply on_current_frame; [| done].
  intros b0 w Hw. by apply putstr_frame.
Qed.
#[local] Hint Resolve set_on_current_frame kprintf_frame : frame.

Lemma say_frame m fmt ap st : framed st -> ensures (say m fmt ap st) framed.
Proof using Hcursor. intros Hs. unfold say. frames k P. Qed.

Lemma paint_frame f st : framed st -> ensures (paint f st) framed.
Proof. intros Hs. unfold paint. frames k P. Qed.
#[local] Hint Resolve say_frame paint_frame : frame.

Lemma clear_screen_frame st : framed st -> ensures (Builtins.clear st) framed.
Proof using Hcursor.
  intros Hs. unfold Builtins.clear. frames k P. apply on_current_frame; [| frame_done].
  intros b w Hw. by apply clear_frame.
Qed.

Lemma switch_frame (f : Z -> console D -> Z) st : framed st ->
  ensures (c ← unload_current (con st);
           c ← on_current sb_load (mk_console (sb c) (f (sb_current c) c) (shared c));
           Ok (0, with_con st c)) framed.
Proof using Hcursor.
  intros Hs. frames k P. apply on_current_frame; [| frame_done].
  intros b w Hw. by apply load_framed.
Qed.

Lemma next_frame st : framed st -> ensures (Builtins.next st) framed.
Proof using Hcursor.
  exact (switch_frame (fun cur c => if cur + 1 =? sb_nbscreen c then 0 else cur + 1) st).
Qed.
Lemma prev_frame st : framed st -> ensures (prev st) framed.
Proof using Hcursor.
  exact (switch_frame (fun cur c => if cur - 1 <? 0 then 0 + (sb_nbscreen c - 1) else cur - 1) st).
Qed.

Lemma help_frame table st : framed st -> ensures (help table st) framed.
Proof using Hcursor.
  intros Hs. unfold help. frames k P. revert a H0.
  induction table as [| [n d] table IH]; intros a Ha; cbn [help_loop]; frames k P.
Qed.

Lemma keymap_list_frame l : forall st, framed st -> ensures (keymap_list l st) framed.
Proof using Hcursor. induction l as [| [n f] l IH]; intros st Hs; cbn [keymap_list]; frames k P. Qed.

Lemma color_frame argc m argv st : framed st -> ensures (Builtins.color argc m argv st) framed.
Proof using Hcursor. intros Hs. unfold Builtins.color, color_set, color_usage. frames k P. Qed.

Lemma alloc_chunks_frame fuel : forall chunk size st, framed st -> ensures (alloc_chunks fuel chunk size st) framed.
Proof using Hcursor. induction fuel as [| fuel IH]; intros chunk size st Hs; cbn [alloc_chunks]; frames k P. Qed.
#[local] Hint Resolve alloc_chunks_frame : frame.

Lemma alloc_frame garbage argc m argv st : framed st -> ensures (alloc garbage argc m argv st) framed.
Proof using Hcursor. intros Hs. unfold alloc, alloc_loop, alloc_usage. frames k P. Qed.

Lemma free_frame argc m argv st : framed st -> ensures (Builtins.free argc m argv st) framed.
Proof using Hcursor. intros Hs. unfold Builtins.free, free_usage. frames k P. Qed.

Lemma info_frame hw argc m argv st : framed st -> ensures (info hw argc m argv st) framed.
Proof using Hcursor.
  intros Hs.
  assert (forall l st, framed st -> ensures (say_all l st) framed) as Hall.
  { induction l as [| [f ap] l IH]; intros st1 H1; cbn [say_all]; frames k P. }
  assert (forall i st, framed st -> ensures (info_gdt_entry i st) framed) as Hgdt
    by (intros i st1 H1; unfold info_gdt_entry; frames k P).
  assert (forall o old i st, framed st -> ensures (info_buddy_print_byte o old i st) framed) as Hbyte
    by (intros o old i st1 H1; unfold info_buddy_print_byte; frames k P).
  assert (forall o st, framed st -> ensures (info_buddy_print_order o st) framed) as Horder
    by (intros o st1 H1; unfold info_buddy_print_order; frames k P).
  unfold info, info_gdt, info_stack, info_buddy, info_idt, info_registers, info_usage. frames k P.
Qed.

Lemma printline_frame hw base n st : framed st -> ensures (hx_printline hw base n st) framed.
Proof using Hcursor.
  intros Hs.
  assert (forall i st, framed st -> ensures (hx_byte hw base (i32 n) i st) framed) as Hbyte
    by (intros i st1 H1; unfold hx_byte, fg; frames k P).
  assert (forall i st, framed st -> ensures (hx_char hw base (i32 n) i st) framed) as Hchar
    by (intros i st1 H1; unfold hx_char, fg; frames k P).
  unfold hx_printline, fg. frames k P.
Qed.
#[local] Hint Resolve printline_frame : frame.

Lemma hexdump_frame hw argc m argv st : framed st -> ensures (hexdump hw argc m argv st) framed.
Proof using Hcursor.
  intros Hs.
  assert (forall fuel base size st, framed st -> ensures (hx_lines hw fuel base size st) framed) as Hlines.
  { induction fuel as [| fuel IH]; intros base size st1 H1; cbn [hx_lines]; frames k P. }
  unfold hexdump, hx_print, hexdump_usage, fg. frames k P.
Qed.
End programs.

#[export] Hint Resolve kprintf_frame say_frame paint_frame keymap_list_frame : frame.

(** ** All builtins *)

(** What the processor has to leave alone. *)
Record hardware_framed {D} `{Device D} (hw : hardware D) (P : D -> Prop) : Prop := mk_hardware_framed
  { hf_int : forall k i st, frame k P st -> ensures (int_n hw i st) (frame k P);
    hf_hlt : forall k st, frame k P st -> frame k P (hlt hw st) }.

(** What an access to the ports of the shell has to leave alone. *)
Record stable {D} `{Device D} (P : D -> Prop) : Prop := mk_stable
  { s_cursor : forall pos d, P d -> P (cursor_update pos d);
    s_status : forall d v d', P d -> port_read_u8 Keyboard.PS2_STATUS_REGISTER_PORT d = (v, d') -> P d';
    s_reset : forall d, P d -> P (port_write_u8 Keyboard.PS2_STATUS_COMMAND_PORT CPU_RESET d);
    s_off : forall d, P d -> P (port_write_u16 0x604 0x2000 d) }.

Section all.
Context {D : Type} `{Device D} (hw : hardware D) (garbage : Kpm.kpm_chunk_t) (polls : nat).
Context (P : D -> Prop) (HP : stable P) (Hhw : hardware_framed hw P).
Implicit Types st : machine D.

Lemma reboot_frame k st : frame k P st -> ensures (reboot hw polls st) (frame k P).
Proof using HP Hhw.
  intros [Hk Hd]. unfold reboot. apply (ensures_bind P).
  - revert Hd. generalize (dev (shared (con st))). induction polls as [| n IH]; intros d Hd; [done |].
    cbn [reboot_wait]. destruct (port_read_u8 _ d) as [x d'] eqn:E. pose proof (s_status P HP _ _ _ Hd E) as Hd'.
    destruct (negb _); [by apply IH | by apply ensures_ok].
  - intros d Hd'. apply ensures_ok. apply (frame_pair _ _ (_, _)), (hf_hlt hw P Hhw).
    split; [done |]. by apply (s_reset P HP).
Qed.

Lemma poweroff_frame k st : frame k P st -> ensures (poweroff hw st) (frame k P).
Proof using HP Hhw.
  intros [Hk Hd]. apply ensures_ok. apply (frame_pair _ _ (_, _)), (hf_hlt hw P Hhw).
  split; [done |]. by apply (s_off P HP).
Qed.

Lemma interrupt_frame k argc m argv st : frame k P st -> ensures (interrupt hw argc m argv st) (frame k P).
Proof using HP Hhw.
  intros Hs. pose proof (s_cursor P HP). pose proof (hf_int hw P Hhw).
  unfold interrupt, interrupt_usage. frames k P.
Qed.

(** The keyboard stays as it is, or gets another layout. *)
Definition reframed {X} `{Framed D X} (k : Keyboard.kbd_state) (x : X) : Prop := exists k', frame k' P x /\
  (k' = k \/ exists f, Keyboard.keyboard_layout f /\ k' = Keyboard.KBD_setkeymap f k).

Lemma reframed_same {X} `{Framed D X} k (r : result X) : ensures r (frame k P) -> ensures r (reframed k).
Proof. intros Hr x E. exists k. split; [by apply Hr | by left]. Qed.

Lemma keymap_frame k argc m argv st : frame k P st -> ensures (keymap argc m argv st) (reframed k).
Proof using HP.
  intros Hs. pose proof (s_cursor P HP). pose proof (reframed_same (X := Z * machine D) k) as Hweak.
  unfold keymap, keymap_usage. destruct (argc <? 2); [apply Hweak; frames k P |].
  apply (ensures_bind (fun _ => True)); [done | intros p _].
  apply (ensures_bind (fun _ => True)); [done | intros [] _]; [apply Hweak; frames k P |].
  apply (ensures_bind (fun r => forall f, r = Some f -> Keyboard.keyboard_layout f)).
  - intros r E f ->. unfold layouts in E. cbn [keymap_find] in E.
    apply bind_inv in E as ([] & _ & E); [injection E as <-; by left |].
    apply bind_inv in E as ([] & _ & E); [injection E as <-; by right | done].
  - intros [f |] Hf; [| apply Hweak; frames k P]. apply ensures_ok. destruct Hs as [Hk Hd].
    exists (Keyboard.KBD_setkeymap f k). split; [split; [by cbn; rewrite Hk | done] |]. right. exists f. auto.
Qed.

Lemma exec_builtin_frame k e argc m argv st : e <> Nsh.Keymap -> frame k P st ->
  ensures (Nsh.exec_builtin hw garbage polls e argc m argv st) (frame k P).
Proof using HP Hhw.
  intros He Hs. pose proof (s_cursor P HP). destruct e; cbn [Nsh.exec_builtin]; try (exfalso; exact (He eq_refl)).
  - by apply reboot_frame.
  - by apply poweroff_frame.
  - by apply color_frame.
  - by apply alloc_frame.
  - by apply free_frame.
  - by apply info_frame.
  - by apply clear_screen_frame.
  - by apply hexdump_frame.
  - by apply next_frame.
  - by apply prev_frame.
  - by apply help_frame.
  - by apply interrupt_frame.
Qed.

Lemma builtin_frame k e argc m argv st : frame k P st ->
  ensures (Nsh.exec_builtin hw garbage polls e argc m argv st) (reframed k).
Proof using HP Hhw.
  intros Hs. assert (e = Nsh.Keymap \/ e <> Nsh.Keymap) as [-> | He]
    by (destruct e; first [by left | by right]).
  - by apply keymap_frame.
  - apply reframed_same. by apply exec_builtin_frame.
Qed.

(** ** The shell *)

Lemma newline_frame k n st : frame k P st -> ensures (Nsh.nsh_newline n st) (frame k P).
Proof using HP. intros Hs. pose proof (s_cursor P HP). unfold Nsh.nsh_newline, Nsh.nsh_prompt. frames k P. Qed.

Lemma complete_loop_frame k table : forall n st, frame k P st -> ensures (Nsh.complete_loop table n st) (frame k P).
Proof using HP.
  pose proof (s_cursor P HP).
  induction table as [| e table IH]; intros n st Hs; cbn [Nsh.complete_loop]; frames k P.
Qed.

Lemma scroll_bottom_frame k st : frame k P st -> ensures (on_current sb_scroll_down (con st)) (frame k P).
Proof using HP.
  intros Hs. pose proof (s_cursor P HP). apply on_current_frame; [intros b w Hw; by apply scroll_down_frame |].
  frame_done.
Qed.

(** A key that is not Enter. *)
Lemma addchar_frame k n c st : c <> 10 -> frame k P st ->
  ensures (Nsh.nsh_addchar hw garbage polls n c st) (frame k P).
Proof using HP.
  intros Hc Hs. pose proof (s_cursor P HP). pose proof complete_loop_frame. unfold Nsh.nsh_addchar.
  rewrite (proj2 (Z.eqb_neq c 10)) by done. apply (ensures_bind (frame k P)); [by apply scroll_bottom_frame |].
  intros c1 Hc1. frames k P.
Qed.

Lemma shortcut_frame k key st : frame k P st -> ensures (Nsh.nsh_shortcut key st) (frame k P).
Proof using HP.
  intros Hs. pose proof (s_cursor P HP).
  assert (forall f, (forall b w, frame k P w -> ensures (f b w) (frame k P)) ->
    ensures (c ← on_current f (con st); Ok (with_con st c)) (frame k P)) as Hf.
  { intros f Hf. apply (ensures_bind (frame k P)); [apply on_current_frame; [done | frame_done] |].
    intros c Hc. apply ensures_ok. frame_done. }
  destruct key; cbn [Nsh.nsh_shortcut]; try (by apply ensures_ok); apply Hf; intros b w Hw.
  all: first [by apply scroll_frame | by apply scroll_top_frame | by apply scroll_down_frame].
Qed.

Lemma execcmd_frame k n st : frame k P st -> ensures (Nsh.nsh_execcmd hw garbage polls n st) (reframed k).
Proof using HP Hhw.
  intros Hs. unfold Nsh.nsh_execcmd. apply (ensures_bind (fun _ => True)); [done | intros [p |] _].
  - revert st Hs. induction Nsh.builtin as [| b table IH]; intros st Hs; cbn [Nsh.execcmd_loop]; [done |].
    apply (ensures_bind (fun _ => True)); [done | intros [] _]; [| by apply IH].
    apply (ensures_bind (reframed k)); [by apply builtin_frame |]. intros [r st'] Hs'. by apply ensures_ok.
  - apply reframed_same. by apply ensures_ok.
Qed.

Lemma enter_frame k n st : frame k P st -> ensures (Nsh.nsh_addchar hw garbage polls n 10 st) (reframed k).
Proof using HP Hhw.
  intros Hs. pose proof (s_cursor P HP). unfold Nsh.nsh_addchar.
  apply (ensures_bind (frame k P)); [by apply scroll_bottom_frame |]. intros c Hc. cbn [Z.eqb Pos.eqb].
  apply (ensures_bind (frame k P)); [apply say_frame; [done | frame_done] |]. intros st1 Hs1.
  apply (ensures_bind (reframed k)).
  - destruct (negb _); [| by apply reframed_same, ensures_ok].
    apply (ensures_bind (fun _ => True)); [done | intros n1 _].
    apply (ensures_bind (reframed k)); [by apply execcmd_frame |]. intros st2 Hs2. by apply ensures_ok.
  - intros [n2 st2] (k' & Hs2 & Hk') x E. exists k'. split; [| done]. by apply (newline_frame k' n2 st2).
Qed.
End all.


(** ** The ports of the shell *)

(** With the data port of the keyboard. *)
Definition all_ports : list Z := Keyboard.PS2_DATA_PORT :: shell_ports.

Section ports.
Context {D : Type} `{Device D}.
Implicit Types st : machine D.

Lemma touches_stable ports (d0 : D) : (forall p, p ∈ shell_ports -> p ∈ ports) -> stable (touches ports d0).
Proof.
  intros Hp. split.
  - intros pos d. apply cursor_update_touches. intros p Hin. apply Hp. unfold shell_ports. apply elem_of_app. by left.
  - intros d v d' Hd. apply touches_read_u8; [| done]. apply Hp. by repeat constructor.
  - intros d Hd. apply touches_write_u8; [| done]. apply Hp. by repeat constructor.
  - intros d Hd. apply touches_write_u16; [| done]. apply Hp. by repeat constructor.
Qed.

Lemma event_touches ty ports : Keyboard.PS2_DATA_PORT ∈ ports -> Keyboard.PS2_STATUS_REGISTER_PORT ∈ ports ->
  forall fuel evt k (d0 d : D), touches ports d0 d ->
  ensures (Keyboard.KBD_geteventbytype fuel ty evt k d) (fun '(_, _, d') => touches ports d0 d').
Proof.
  intros H60 H64 fuel. induction fuel as [| fuel IH]; intros evt k d0 d Hd; cbn [Keyboard.KBD_geteventbytype]; [done |].
  apply (ensures_bind (touches ports d0)).
  - revert d Hd. generalize (S fuel) as n. intros n. induction n as [| n IHn]; intros d Hd; cbn [Keyboard.KBD_wait]; [done |].
    unfold Keyboard.KBD_poll. destruct (port_read_u8 _ d) as [v d1] eqn:E.
    pose proof (touches_read_u8 ports _ d0 d v d1 H64 Hd E).
    destruct (_ =? 0); [by apply IHn | by apply ensures_ok].
  - intros d1 Hd1. apply (ensures_bind (fun '(_, _, _, d') => touches ports d0 d')).
    + unfold Keyboard.KBD_getevent. destruct (port_read_u8 _ d1) as [v d2] eqn:E.
      apply (ensures_bind (fun _ => True)); [done |]. intros [[r e] k'] _. apply ensures_ok.
      exact (touches_read_u8 ports _ d0 d1 v d2 H60 Hd1 E).
    + intros [[[r e] k'] d2] Hd2. destruct (_ && _); [by apply ensures_ok | by apply IH].
Qed.

(** The processor of Interrupts.v: its exception handlers only print. *)
Lemma handle_frame frame_of h k P st : (forall pos d, P d -> P (cursor_update pos d)) ->
  (forall a f c, frame k P c -> ensures (h a f c) (frame k P)) -> frame k P st ->
  ensures (Interrupts.handle frame_of h st) (frame k P).
Proof.
  intros HP Hh Hs. unfold Interrupts.handle. destruct (frame_of st) as [a f].
  apply (ensures_bind (frame k P)); [apply Hh; frame_done |]. intros c Hc. apply ensures_ok. frame_done.
Qed.

Lemma processor_framed halt frame_of code mem regs top bottom P : (forall pos d, P d -> P (cursor_update pos d)) ->
  (forall k st, frame k P st -> frame k P (halt st)) ->
  hardware_framed (Interrupts.processor halt frame_of code mem regs top bottom) P.
Proof.
  intros HP Hh. split; [| done]. intros k i st Hs. cbn [Interrupts.processor int_n]. unfold Interrupts.software_int.
  assert (forall a f e c, frame k P c -> ensures (print_int_frame a f e c) (frame k P)) as Hprint
    by (intros a f e c Hc; unfold print_int_frame; frames k P).
  destruct (i =? 0); [| destruct (i =? 4); [| destruct (i =? 8); [| done]]].
  3: apply (ensures_bind (frame k P)); [| intros st' Hs'; apply ensures_ok; by apply Hh].
  all: apply handle_frame; [done | | done]; intros a f c Hc.
  - unfold Console.divide_error_handler. frames k P.
  - unfold Console.overflow_handler. frames k P.
  - unfold Console.double_fault_handler. frames k P.
Qed.

Lemma all_stable (d0 : D) : stable (touches all_ports d0).
Proof. apply touches_stable. intros p Hp. by apply elem_of_cons; right. Qed.

Section runs.
Context (hw : hardware D) (garbage : Kpm.kpm_chunk_t) (polls : nat).

Lemma turn_frame evt n st (d0 : D) : hardware_framed hw (touches all_ports d0) ->
  touches all_ports d0 (dev (shared (con st))) ->
  ensures (Nsh.nsh_turn hw garbage polls evt n st) (fun '(_, _, st') => touches all_ports d0 (dev (shared (con st')))).
Proof.
  intros Hhw Hd. pose proof (all_stable d0) as HP. unfold Nsh.nsh_turn.
  apply (ensures_bind (fun '(_, _, d') => touches all_ports d0 d')).
  { apply event_touches; [by repeat constructor | by repeat constructor | done]. }
  intros [[e k] d] Hd'. cbv zeta. set (st1 := with_kbd _ k).
  assert (frame k (touches all_ports d0) st1) as Hs by done. destruct (Z.eqb_spec (i8 (Keyboard.KBD_getchar e k)) 0); cbn [negb].
  - apply (ensures_bind (frame k (touches all_ports d0))); [by apply shortcut_frame |].
    intros st2 [_ H2]. by apply ensures_ok.
  - apply (ensures_bind (reframed (touches all_ports d0) k)).
    + destruct (Z.eq_dec (i8 (Keyboard.KBD_getchar e k)) 10) as [-> |]; [by apply enter_frame |].
      apply reframed_same. by apply addchar_frame.
    + intros [n2 st2] (k' & [_ H2] & _). by apply ensures_ok.
Qed.
End runs.

(** C10: The shell with all of its builtins accesses the data and the status port of the
    keyboard controller, the two cursor registers of the display, and the port that switches qemu off; in
    no run any other, as long as the processor stops without touching the devices. *)
Theorem nsh_touches_ports halt frame_of code mem regs top bottom garbage polls evt n st s :
  (forall st, kbd (halt st) = kbd st /\ dev (shared (con (halt st))) = dev (shared (con st))) ->
  Nsh.nsh (Interrupts.processor halt frame_of code mem regs top bottom) garbage polls evt n st s ->
  touches [0x60; 0x64; 0x3D4; 0x3D5; 0x604] (dev (shared (con st))) (dev (shared (con s.2))).
Proof.
  intros Hh (n1 & st1 & E & Hstar). set (d0 := dev (shared (con st))).
  assert (forall d, touches all_ports d0 d -> touches [0x60; 0x64; 0x3D4; 0x3D5; 0x604] d0 d) as Hsame.
  { intros d Hd. induction Hd as [| d1 d2 d3 _ IH Ht]; [apply star_refl |]. apply star_step with d2; [done |].
    assert (forall p, p ∈ all_ports -> p ∈ [0x60; 0x64; 0x3D4; 0x3D5; 0x604]) as Hin
      by (intros p; change all_ports with [0x60; 0x3D4; 0x3D5; 0x64; 0x604]; rewrite !elem_of_cons; tauto).
    destruct Ht; constructor; auto. }
  apply Hsame. eapply (star_invariant (Nsh.nsh_runs _ garbage polls) (fun s => touches all_ports d0 (dev (shared (con s.2))))) with (evt, n1, st1);
    [| | exact Hstar].
  - intros s1 s2 H1 Hr. revert H1. destruct Hr as [e n2 st2 [[e3 n3] st3] Et]. cbn [snd]. intros H1.
    refine (turn_frame _ _ _ e n2 st2 d0 _ H1 _ Et). apply processor_framed; [apply (all_stable d0) |].
    intros k st4. unfold frame, framed_machine. by destruct (Hh st4) as [-> ->].
  - cbn [snd]. assert (frame (kbd st) (touches all_ports d0) st) as Hs by (split; [done | apply touches_refl]).
    exact (proj2 (newline_frame _ (all_stable d0) _ n st Hs (n1, st1) E)).
Qed.
End ports.


(** ** Witness *)

#[local] Existing Instance Session.typist.

(** The prompt of a shell with an empty screen. *)
Lemma nsh_touches_ports_witness : exists evt n (st : machine (list Z)) s,
  Nsh.nsh Session.simple_hardware (Kpm.mk_chunk 0 0) 2 evt n st s /\
  touches [0x60; 0x64; 0x3D4; 0x3D5; 0x604] (dev (shared (con st))) (dev (shared (con s.2))).
Proof.
  destruct (Session.ready_machine []) as (st & Hm & _).
  destruct (Session.newline_ok 1024 true (Nsh.typed []) st Hm eq_refl eq_refl) as ([n1 st1] & E & _).
  set (evt := Keyboard.mk_event Keyboard.KEY_PRESSED Keyboard.UNKNOWN).
  assert (Nsh.nsh Session.simple_hardware (Kpm.mk_chunk 0 0) 2 evt (Nsh.typed []) st (evt, n1, st1)) as Hr
    by (exists n1, st1; split; [exact E | apply star_refl]).
  exists evt, (Nsh.typed []), st, (evt, n1, st1). split; [exact Hr |].
  refine (nsh_touches_ports _ _ _ _ _ _ _ _ _ _ _ _ _ _ Hr). intros st4. exact (conj eq_refl eq_refl).
Defined.

End Frame.
