(* ===== verification/Typed.v ===== *)
(** Typing on the keyboard: from scancodes to commands.

    [type_text f text] are the scancodes a keyboard sends when a user with the layout [f]
    in mind types the text, the shift key included; [Keys] says that a device delivers
    such a list at the data port.  The shell reads them with KBD_geteventbytype, which skips
    the releases, so at any time some of them are pending: [awaiting k l st] says
    that after them the keyboard is in state [k] and [l] is to be read.

    The theorems take the scancodes of whole command lines through keyboard, shell and
    builtins: each line is edited into the buffer, shown, split, and run by the
    builtin it names, before the next one is read; a change of the layout by [keymap] holds
    from the next line on. *)

From Stdlib Require Import Ascii String.
From Stdlib Require Import ZArith Lia Bool.
From stdpp Require Import base tactics numbers list option.
From S2P Require Import Prelude Logic Port Mem Kpm KpmBits KpmTree KpmOps KpmInit Keyboard Desc Pic Preempt.
From S2P Require Import Str StrTol Print Format Screenbuf Typing Console Builtins Machine.
From S2P Require Import Nsh Results Commands Interrupts Kernel Session Frame.

Local Open Scope Z_scope.

Module Typed.
Import Screenbuf Console Builtins Format Typing Machine Commands Session Frame.
Import Keyboard(kbd_keycode, kbd_keymap_entry, kbd_event, mk_event, kbd_state, KBD_scancode, KBD_getchar,
  KEY_PRESSED, KEY_RELEASED, keyboard_layout, evt_key).

#[local] Opaque say paint.

(** ** Keyboards *)

(** The ports of the shell and of the interrupt controllers. *)
Definition boot_ports : list Z := shell_ports ++ [Pic.PIC1_CMD; Pic.PIC1_DATA; Pic.PIC2_CMD; Pic.PIC2_DATA].

Lemma shell_boot p : p ∈ shell_ports -> p ∈ boot_ports.
Proof. intros Hp. apply elem_of_app. by left. Qed.

Class Keys (D : Type) `{Device D} : Type :=
  { keys : D -> list Z;    (** the scancodes that were not read yet *)
    keys_status d : keys d <> [] -> Z.land (port_read_u8 Keyboard.PS2_STATUS_REGISTER_PORT d).1 1 <> 0;
    keys_data d sc l : keys d = sc :: l -> 0 <= sc < 256 ->
      exists d', port_read_u8 Keyboard.PS2_DATA_PORT d = (sc, d') /\ keys d' = l;
    keys_touch d d' : touch boot_ports d d' -> keys d' = keys d }.

(** The keyboard without a key held, and with the left shift key. *)
Definition idle (f : kbd_keycode -> kbd_keymap_entry) : kbd_state :=
  Keyboard.mk_state (Some f) (Keyboard.mk_modifiers 0 0 0 0 0 0 0 0) 0.
Definition shifted (f : kbd_keycode -> kbd_keymap_entry) : kbd_state :=
  Keyboard.mk_state (Some f) (Keyboard.mk_modifiers (-1) 0 0 0 0 0 0 0) 0.

(** The scancode [sc] is that of a key that gives [c] in the state [k]. *)
Definition key_of (sc : Z) : kbd_keycode := at_ Keyboard.UNKNOWN Keyboard.kbd_reg_keycodes sc.
Definition gives (k : kbd_state) (c sc : Z) : bool := KBD_getchar (mk_event KEY_PRESSED (key_of sc)) k =? c.

Definition LEFT_SHIFT : Z := 0x2A.
Definition released (sc : Z) : Z := sc + 0x80.

(** The scancodes of a character: with its key alone, or with shift. *)
Definition type_char (f : kbd_keycode -> kbd_keymap_entry) (c : Z) : option (list Z) :=
  match List.find (gives (idle f) c) (seqZ 1 88) with
  | Some sc => Some [sc; released sc]
  | None =>
      match List.find (gives (shifted f) c) (seqZ 1 88) with
      | Some sc => Some [LEFT_SHIFT; sc; released sc; released LEFT_SHIFT]
      | None => None
      end
  end.
Definition can_type (f : kbd_keycode -> kbd_keymap_entry) (c : Z) : Prop := line_char c /\ type_char f c <> None.
#[export] Instance can_type_dec f c : Decision (can_type f c).
Proof. unfold can_type. apply _. Defined.

Definition type_text (f : kbd_keycode -> kbd_keymap_entry) (text : list Z) : list Z :=
  concat (map (fun c => default [] (type_char f c)) text).
Definition ENTER : Z := 0x1C.
Definition type_enter : list Z := [ENTER; released ENTER].

(** Every printing character can be typed on the US layout. *)
Lemma us_can_type c : 32 <= c < 127 -> can_type Keyboard.US104_getkeymapentry c.
Proof.
  intros Hc. assert (Forall (can_type Keyboard.US104_getkeymapentry) (seqZ 32 95)) as Hall
    by (apply (bool_decide_unpack _); vm_compute; exact I).
  replace c with (32 + Z.of_nat (Z.to_nat (c - 32))) by lia. apply (Forall_lookup_1 _ _ (Z.to_nat (c - 32)) _ Hall).
  apply lookup_seqZ_lt. lia.
Qed.

(** ** Scancodes *)

(** A key that gives a character is no modifier. *)
Lemma character_key f key ty m e : keyboard_layout f -> Keyboard.reg (f key) <> 0 ->
  Keyboard.set_modifiers (mk_event ty key) (Keyboard.mk_state (Some f) m e) = Keyboard.mk_state (Some f) m e /\
  Keyboard.keycode_val key <> 0.
Proof. intros [-> | ->] Hk; destruct m, key; try done; by destruct Hk. Qed.

Lemma gives_key f k c sc : Keyboard.getkeymapentry k = Some f -> c <> 0 -> gives k c sc = true ->
  Keyboard.reg (f (key_of sc)) <> 0.
Proof.
  intros Hf Hc Hg%Z.eqb_eq E. unfold KBD_getchar in Hg. rewrite Hf in Hg. cbn [evt_key] in Hg.
  rewrite E in Hg. by destruct Hc.
Qed.


Lemma key_lookup sc : 0 <= sc < 89 -> rd Keyboard.kbd_reg_keycodes sc = Ok (key_of sc).
Proof. intros Hs. apply rd_ok. unfold zlen. rewrite Keyboard.reg_keycodes_length. lia. Qed.

Lemma press_character f m c sc evt : keyboard_layout f -> c <> 0 -> 0 <= sc < 89 ->
  gives (Keyboard.mk_state (Some f) m 0) c sc = true ->
  KBD_scancode sc evt (Keyboard.mk_state (Some f) m 0) = Ok (0, mk_event KEY_PRESSED (key_of sc), Keyboard.mk_state (Some f) m 0).
Proof.
  intros Hf Hc Hs Hg. pose proof (gives_key f (Keyboard.mk_state (Some f) m 0) c sc eq_refl Hc Hg) as Hr.
  destruct (character_key f (key_of sc) KEY_PRESSED m 0 Hf Hr) as [Em Ev].
  unfold KBD_scancode. rewrite (proj2 (Z.eqb_neq sc 0xE0)) by lia.
  rewrite Z.gtb_ltb, (proj2 (Z.ltb_ge 0x80 sc)) by lia. cbn [Keyboard.ext Z.eqb negb].
  rewrite key_lookup by done. cbn [mbind result_bind]. rewrite Em. cbn [Keyboard.evt_key]. change (Keyboard.keycode_val Keyboard.UNKNOWN) with 0.
  by rewrite (proj2 (Z.eqb_neq _ _) Ev).
Qed.

Lemma release_character f m c sc evt : keyboard_layout f -> c <> 0 -> 0 < sc < 89 ->
  gives (Keyboard.mk_state (Some f) m 0) c sc = true ->
  KBD_scancode (released sc) evt (Keyboard.mk_state (Some f) m 0) =
    Ok (0, mk_event KEY_RELEASED (key_of sc), Keyboard.mk_state (Some f) m 0).
Proof.
  intros Hf Hc Hs Hg. pose proof (gives_key f (Keyboard.mk_state (Some f) m 0) c sc eq_refl Hc Hg) as Hr.
  destruct (character_key f (key_of sc) KEY_RELEASED m 0 Hf Hr) as [Em Ev].
  unfold KBD_scancode, released. rewrite (proj2 (Z.eqb_neq (sc + 0x80) 0xE0)).
  2: { intros E. assert (sc = 96) by lia. lia. }
  rewrite Z.gtb_ltb, (proj2 (Z.ltb_lt 0x80 (sc + 0x80))) by lia. cbn [Keyboard.ext Z.eqb negb].
  rewrite u8_small by lia. rewrite Z.add_simpl_r, key_lookup by lia. cbn [mbind result_bind]. rewrite Em.
  cbn [Keyboard.evt_key]. change (Keyboard.keycode_val Keyboard.UNKNOWN) with 0. by rewrite (proj2 (Z.eqb_neq _ _) Ev).
Qed.

Lemma press_shift f evt :
  KBD_scancode LEFT_SHIFT evt (idle f) = Ok (0, mk_event KEY_PRESSED Keyboard.KEY_LEFT_SHIFT, shifted f).
Proof. reflexivity. Qed.
Lemma release_shift f evt :
  KBD_scancode (released LEFT_SHIFT) evt (shifted f) = Ok (0, mk_event KEY_RELEASED Keyboard.KEY_LEFT_SHIFT, idle f).
Proof. reflexivity. Qed.

(** What [type_char] says. *)
Lemma type_char_inv f c l : c <> 0 -> type_char f c = Some l ->
  (exists sc, 0 < sc < 89 /\ gives (idle f) c sc = true /\ l = [sc; released sc]) \/
  (exists sc, 0 < sc < 89 /\ gives (shifted f) c sc = true /\ l = [LEFT_SHIFT; sc; released sc; released LEFT_SHIFT]).
Proof.
  assert (forall k sc, List.find (gives k c) (seqZ 1 88) = Some sc -> 0 < sc < 89 /\ gives k c sc = true) as Hfind.
  { intros k sc Hs%List.find_some. destruct Hs as [Hin Hg]. split; [| done].
    apply list_elem_of_In, elem_of_seqZ in Hin. lia. }
  intros Hc. unfold type_char.
  pose proof (Hfind (idle f)) as H1. pose proof (Hfind (shifted f)) as H2. clear Hfind.
  generalize dependent (List.find (gives (idle f) c) (seqZ 1 88)). intros [sc |] H1.
  - intros [= <-]. left. exists sc. destruct (H1 sc eq_refl). auto.
  - generalize dependent (List.find (gives (shifted f) c) (seqZ 1 88)). intros [sc |] H2; [| done].
    intros [= <-]. right. exists sc. destruct (H2 sc eq_refl). auto.
Qed.

(** ** Reading the next key *)

Inductive releases : list Z -> kbd_state -> kbd_state -> Prop :=
  | releases_nil k : releases [] k k
  | releases_cons sc l k k1 k2 :
      0 <= sc < 256 -> (forall evt, exists key, KBD_scancode sc evt k = Ok (0, mk_event KEY_RELEASED key, k1)) ->
      releases l k1 k2 -> releases (sc :: l) k k2.

Section device.
Context {D : Type} `{Keys D}.

Lemma wait_ready fuel (d : D) : keys d <> [] -> (0 < fuel)%nat ->
  exists d', Keyboard.KBD_wait fuel d = Ok d' /\ keys d' = keys d.
Proof.
  intros Hd Hf. destruct fuel as [| fuel]; [lia |]. cbn [Keyboard.KBD_wait]. unfold Keyboard.KBD_poll.
  pose proof (keys_status d Hd) as Hs.
  assert (keys (port_read_u8 Keyboard.PS2_STATUS_REGISTER_PORT d).2 = keys d) as Hk.
  { unfold port_read_u8. pose proof (touch_in boot_ports Keyboard.PS2_STATUS_REGISTER_PORT d) as Ht.
    destruct (dev_in _ d) as [v d1]. apply keys_touch, Ht. by repeat constructor. }
  destruct (port_read_u8 _ d) as [v d1]. cbn [fst snd] in *. rewrite (proj2 (Z.eqb_neq _ _) Hs). by exists d1.
Qed.

Lemma next_press l k k0 : releases l k k0 -> forall fuel evt (d : D) sc rest key k1,
  keys d = l ++ sc :: rest -> 0 <= sc < 256 -> (length l < fuel)%nat ->
  (forall evt, KBD_scancode sc evt k0 = Ok (0, mk_event KEY_PRESSED key, k1)) ->
  exists d', Keyboard.KBD_geteventbytype fuel KEY_PRESSED evt k d = Ok (mk_event KEY_PRESSED key, k1, d') /\
    keys d' = rest.
Proof.
  induction 1 as [k | sc0 l k k1 k2 Hs0 Hsc0 Hrel IH]; intros fuel evt d sc rest key k3 Hd Hs Hf Hsc;
    (destruct fuel as [| fuel]; [cbn in Hf; lia |]); cbn [Keyboard.KBD_geteventbytype app] in *;
    destruct (wait_ready (S fuel) d) as (d1 & -> & E1); try lia; try (by rewrite Hd);
    cbn [mbind result_bind]; unfold Keyboard.KBD_getevent; rewrite Hd in E1;
    destruct (keys_data d1 _ _ E1) as (d2 & -> & E2); try done.
  - rewrite Hsc. cbn [mbind result_bind]. cbn. by exists d2.
  - destruct (Hsc0 evt) as [key0 ->]. cbn [mbind result_bind]. cbn [Z.eqb andb Keyboard.evt_type].
    rewrite bool_decide_eq_false_2 by done. apply (IH fuel _ d2 sc rest); try done. cbn [length] in Hf. lia.
Qed.
End device.


(** ** The devices while the kernel boots *)

Section boot.
Context {D : Type} `{Keys D}.
Implicit Types st : machine D.

Lemma touches_keys (d d' : D) : touches boot_ports d d' -> keys d' = keys d.
Proof. induction 1 as [| d1 d2 d3 _ IH Ht]; [done |]. rewrite <- IH. by apply keys_touch. Qed.

Lemma keys_stable l : stable (fun d : D => keys d = l).
Proof.
  assert (forall d d', touches boot_ports d d' -> keys d = l -> keys d' = l) as Hk
    by (intros d d' Hd <-; by apply touches_keys).
  assert (forall d, stable (touches boot_ports d)) as Hst by (intros d; apply touches_stable, shell_boot).
  split; intros.
  - apply (Hk d); [| done]. apply (s_cursor _ (Hst d)), touches_refl.
  - apply (Hk d); [| done]. apply (s_status _ (Hst d) d v); [apply touches_refl | done].
  - apply (Hk d); [| done]. apply (s_reset _ (Hst d)), touches_refl.
  - apply (Hk d); [| done]. apply (s_off _ (Hst d)), touches_refl.
Qed.

Lemma pic_init_keys o1 o2 (d : D) : keys (Pic.pic_8259_init o1 o2 d) = keys d.
Proof.
  apply touches_keys.
  assert (Pic.PIC1_CMD ∈ boot_ports /\ Pic.PIC1_DATA ∈ boot_ports /\ Pic.PIC2_CMD ∈ boot_ports /\ Pic.PIC2_DATA ∈ boot_ports)
    as (H1 & H2 & H3 & H4) by (repeat split; by repeat constructor).
  assert (forall i d0, touches boot_ports d d0 -> touches boot_ports d (Pic.irq_clear_mask i d0)) as Hmask.
  { intros i d0 Hd. unfold Pic.irq_clear_mask.
    assert (forall p j, p ∈ boot_ports -> touches boot_ports d (let (v, d1) := port_read_u8 p d0 in
      port_write_u8 p (u8 (Z.land v (Z.lnot (Z.shiftl 1 j)))) d1)) as Hp.
    { intros p j Hp. destruct (port_read_u8 p d0) as [v d1] eqn:E. apply touches_write_u8; [done |].
      by apply (touches_read_u8 boot_ports p d d0 v d1). }
    destruct (i <? 8); by apply Hp. }
  unfold Pic.pic_8259_init. do 2 apply Hmask. repeat (apply touches_write_u8; [assumption |]). apply touches_refl.
Qed.

(** kernel_main does not read the keyboard. *)
Lemma kernel_main_keys h sk ek ram mbi st l : keys (dev (shared (con st))) = l ->
  ensures (Kernel.kernel_main h sk ek ram mbi st)
    (frame (Keyboard.KBD_initialize (kbd st)) (fun d => keys d = l)).
Proof.
  intros Hk. pose proof (s_cursor _ (keys_stable l)) as Hc. unfold Kernel.kernel_main.
  apply (ensures_bind (frame (kbd st) (fun d => keys d = l))).
  - unfold Kernel.init_descriptor_tables. cbv zeta. apply (ensures_bind (fun _ => True)); [done | intros g _].
    apply (ensures_bind (fun _ => True)); [done | intros i _]. apply ensures_ok. split; [done |].
    cbn [con on_device with_con shared dev]. by rewrite pic_init_keys.
  - intros st1 [<- H1]. cbv zeta. apply (ensures_bind (fun _ => True)); [done | intros k _].
    set (kb := Keyboard.KBD_initialize (kbd st1)).
    apply (ensures_bind (frame kb (fun d => keys d = l))).
    + apply ensures_for_loop; [exact H1 |]. intros j c Hcon. unfold Kernel.init_screen. frames kb (fun d : D => keys d = l).
    + intros c Hcon. apply (ensures_bind (frame kb (fun d => keys d = l))).
      * apply on_current_frame; [intros b w Hw; by apply load_framed | done].
      * intros c2 Hc2. apply ensures_ok. by split.
Qed.
End boot.

(** ** Interrupts while the user types *)

(** The delivery of an interrupt does not concern the keyboard. *)
Class KeysRaise (D : Type) `{Preempt.Chipset D, !Keys D} : Prop :=
  keys_raise irq d : keys (Preempt.raise irq d) = keys d.

Section interrupted.
Context {D : Type} `{HC : Preempt.Chipset D} `{HK : !Keys D} `{HR : !KeysRaise D}.
Import Preempt.

Lemma eoi_keys irq (d : D) : keys (Pic.pic_8259_eoi irq d) = keys d.
Proof using HK.
  assert (forall v d, keys (port_write_u8 Pic.PIC1_CMD v d) = keys d) as H1
    by (intros v d1; apply keys_touch, touch_out; by repeat constructor).
  assert (forall v d, keys (port_write_u8 Pic.PIC2_CMD v d) = keys d) as H2
    by (intros v d1; apply keys_touch, touch_out; by repeat constructor).
  unfold Pic.pic_8259_eoi. rewrite H1. destruct (8 <? irq); [apply H2 | done].
Qed.

Lemma arrive_keys (p : preempted D) : keys (base (arrive p)) = keys (base p).
Proof using HR.
  unfold arrive. destruct (schedule p) as [| irqs later]; [done |]. cbn [base]. unfold requests.
  generalize (base p) as d. induction irqs as [| irq irqs IH]; intros d; [done |]. cbn [fold_left]. rewrite IH.
  unfold request. destruct (accepts irq d); [| done].
  destruct (irq =? Idt.IRQ_TM); unfold Pic.timer_handler, Pic.keyboard_handler; rewrite eoi_keys; apply keys_raise.
Qed.

(** A keyboard whose reader is interrupted delivers the same scancodes. *)
#[export] Instance preempted_keys : Keys (preempted D).
Proof using HR.
  refine {| keys p := keys (base p) |}.
  - intros p Hp. rewrite <- arrive_keys in Hp. pose proof (keys_status _ Hp) as Hs. unfold port_read_u8 in *.
    cbn [dev_in preempted_device]. by destruct (dev_in _ (base (arrive p))) as [v d].
  - intros p sc l Hp Hsc. rewrite <- arrive_keys in Hp. destruct (keys_data _ sc l Hp Hsc) as (d' & E & Ek).
    unfold port_read_u8 in *. cbn [dev_in preempted_device]. destruct (dev_in _ (base (arrive p))) as [v d].
    injection E as -> ->. by eexists.
  - intros p p' Ht. destruct Ht as [port p0 Hp | port v p0 Hp]; cbn [dev_in dev_out preempted_device].
    + pose proof (keys_touch _ _ (touch_in boot_ports port (base (arrive p0)) Hp)) as Hk.
      destruct (dev_in port (base (arrive p0))) as [v d]. cbn [snd base] in *. by rewrite Hk, arrive_keys.
    + cbn [base]. by rewrite (keys_touch _ _ (touch_out boot_ports port v (base (arrive p0)) Hp)), arrive_keys.
Defined.
End interrupted.

(** ** Turns of the shell *)

Section turns.
Context {D : Type} `{Keys D} (hw : hardware D) (garbage : Kpm.kpm_chunk_t) (polls : nat) (nf : Z).
Context (Hhw : hardware_ok hw nf polls) (Hpolls : (3 <= polls)%nat).
Context (Hframed : forall l, hardware_framed hw (fun d => keys d = l)).
Implicit Types st : machine D.
Implicit Types f : kbd_keycode -> kbd_keymap_entry.

(** The releases that are still to be read lead to the state [k] of the keyboard. *)
Definition awaiting (k : kbd_state) (l : list Z) st : Prop :=
  exists pend, releases pend (kbd st) k /\ (length pend <= 2)%nat /\ keys (dev (shared (con st))) = pend ++ l.

(** The rest of the machine: what typing keeps. *)
Definition parts st := (sb_current (con st), kpm_st st, gdt_st st, idt_st st).

(** The shell with the line [text], and [s] on the current one of its screens. *)
Record at_line (text : list Z) (n : Nsh.nsh_state) st (ss : list screen) (s : screen) : Prop := mk_at_line
  { l_session : session_ok nf true text n st;
    l_console : console_ok (con st) ss;
    l_neat : Forall (neat true) ss;
    l_screen : ss !! Z.to_nat (sb_current (con st)) = Some s }.

Lemma screens_after st st' ss s s' l : console_ok (con st) ss -> sb_current (con st') = sb_current (con st) ->
  Forall (neat true) ss -> ss !! Z.to_nat (sb_current (con st)) = Some s -> Forall visible l -> puts s l = Some s' ->
  Forall (neat true) (<[Z.to_nat (sb_current (con st)) := s']> ss) /\
  (<[Z.to_nat (sb_current (con st)) := s']> ss) !! Z.to_nat (sb_current (con st')) = Some s'.
Proof.
  intros [_ Hc _] Ec Hn Es Hl Hs. split.
  - apply Forall_insert; [done |]. apply (puts_neat true l s); [| done | done].
    exact (Forall_lookup_1 _ _ _ _ Hn Es).
  - rewrite Ec. apply list_lookup_insert_eq. unfold zlen in Hc. lia.
Qed.

(** The character [c] of a key, 0 for none. *)
Definition char_out (c : Z) : list Z := if c =? 0 then [] else [c].

Lemma edit_char text c : line_char c -> zlen text < 1023 -> c <> 8 /\ c <> 9 /\ Nsh.edit text c = (text ++ [c], [c]).
Proof.
  intros [Hc H10] Hl. unfold visible in Hc. split; [lia |]. split; [lia |]. unfold Nsh.edit, Nsh.NSH_BUFSIZE.
  rewrite (proj2 (Z.eqb_neq c 8)), (proj2 (Z.eqb_neq c 9)) by lia. by rewrite (proj2 (Z.ltb_lt _ _)).
Qed.

(** A press of a key that gives no character, or one that goes to the line. *)
Lemma press_turn text n st ss s evt k0 sc key k1 rest c s' :
  at_line text n st ss s -> awaiting k0 (sc :: rest) st -> 0 <= sc < 256 ->
  (forall evt, KBD_scancode sc evt k0 = Ok (0, mk_event KEY_PRESSED key, k1)) ->
  KBD_getchar (mk_event KEY_PRESSED key) k1 = c -> c = 0 \/ (line_char c /\ zlen text < 1023) ->
  (c = 0 -> forall st, Nsh.nsh_shortcut key st = Ok st) -> puts s (char_out c) = Some s' ->
  exists n' st' ss', Nsh.nsh_runs hw garbage polls (evt, n, st) (mk_event KEY_PRESSED key, n', st') /\
    at_line (text ++ char_out c) n' st' ss' s' /\ kbd st' = k1 /\ keys (dev (shared (con st'))) = rest /\
    parts st' = parts st.
Proof.
  intros [Hs Hok Hn Es] (pend & Hrel & Hlen & Hkeys) Hsc Hcode Hc Hline Hshort Hputs.
  destruct (next_press pend _ _ Hrel polls evt (dev (shared (con st))) sc rest key k1 Hkeys Hsc ltac:(lia) Hcode)
    as (d' & Ee & Hk').
  destruct (event_ok polls nf true text n st evt k1 d' _ Hs Ee) as (Hs1 & Ei & _).
  unfold char_out in *. set (st1 := with_kbd (on_device (fun _ => d') st) k1) in *.
  assert (console_ok (con st1) ss) as Hok1 by (by destruct Hok).
  assert (frame k1 (fun d => keys d = rest) st1) as Hf by done.
  assert (Nsh.nsh_turn hw garbage polls evt n st =
    if negb (c =? 0) then '(n, st) ← Nsh.nsh_addchar hw garbage polls n c st1; Ok (mk_event KEY_PRESSED key, n, st)
    else st ← Nsh.nsh_shortcut key st1; Ok (mk_event KEY_PRESSED key, n, st)) as Et
    by (unfold Nsh.nsh_turn; rewrite Ee; cbn [mbind result_bind]; by rewrite Ei, Hc).
  destruct (Z.eqb_spec c 0) as [E0 | E0]; cbn [negb] in Et.
  - rewrite Hshort in Et by done. cbn [mbind result_bind] in Et. injection Hputs as <-. rewrite app_nil_r.
    exists n, st1, ss. split; [by constructor |]. split; [by split |]. done.
  - destruct Hline as [? | [Hline Hlen']]; [done |].
    destruct (edit_char text c Hline Hlen') as (H8 & H9 & Hedit). destruct Hline as [Hvis H10].
    pose proof (Forall_lookup_1 _ _ _ _ Hn Es) as Hs0. cbn beta in Hs0.
    destruct (Nsh.addchar_ok hw garbage polls n text c st1 ss s (text ++ [c]) [c] s')
      as (n' & st' & Ea & _ & _ & Hnow & _); try done.
    { apply Hs1. }
    { unfold plain, visible in *. lia. }
    { by rewrite scroll_down_low. }
    destruct (edit_ok hw garbage polls nf true text n st1 c Hs1) as ([n2 st2] & Ea2 & Hs2); try done.
    { by right; right; right. }
    rewrite Ea in Ea2, Et. injection Ea2 as <- <-. rewrite Hedit in Hs2. cbn [mbind result_bind fst] in *.
    destruct (addchar_frame hw garbage polls (fun d => keys d = rest) (keys_stable rest) k1 n c st1 H10 Hf _ Ea) as [Hkbd Hkeys'].
    destruct Hnow as (Ecur & Eo & Hok').
    destruct (screens_after st st' ss s s' [c] Hok Ecur Hn Es) as [Hn' Es']; [by constructor | done |].
    exists n', st', (<[Z.to_nat (sb_current (con st)) := s']> ss). split; [by constructor |].
    split; [by split |]. split; [done |]. split; [done |]. unfold parts. rewrite Ecur.
    unfold others in Eo. by injection Eo as _ -> -> ->.
Qed.

(** ** Lines *)

Lemma shift_gives_nothing f : keyboard_layout f -> KBD_getchar (mk_event KEY_PRESSED Keyboard.KEY_LEFT_SHIFT) (shifted f) = 0.
Proof. by intros [-> | ->]. Qed.

(** A key that gives a character runs no shortcut: only the one that gives none can. *)
Lemma type_char_turns f text n st ss s evt c l rest s' : keyboard_layout f ->
  at_line text n st ss s -> awaiting (idle f) (l ++ rest) st -> type_char f c = Some l ->
  line_char c -> zlen text < 1023 -> puts s [c] = Some s' ->
  exists evt' n' st' ss', star (Nsh.nsh_runs hw garbage polls) (evt, n, st) (evt', n', st') /\
    at_line (text ++ [c]) n' st' ss' s' /\ awaiting (idle f) rest st' /\ parts st' = parts st.
Proof using Hhw Hpolls.
  intros Hf Hl Ha Hc Hline Hlen Hs'.
  assert (c <> 0) as Hc0 by (destruct Hline as [Hv _]; unfold visible in Hv; lia).
  assert (char_out c = [c]) as Eout by (unfold char_out; by rewrite (proj2 (Z.eqb_neq c 0))).
  destruct (type_char_inv f c l Hc0 Hc) as [(sc & Hsc & Hg & ->) | (sc & Hsc & Hg & ->)]; cbn [app] in Ha.
  - destruct (press_turn text n st ss s evt (idle f) sc (key_of sc) (idle f) (released sc :: rest) c s')
      as (n' & st' & ss' & Hr & Hl' & Ek & Er & Ep); try done; try lia.
    { intros e. apply (press_character f _ c); [done | done | lia | done]. }
    { by apply Z.eqb_eq. }
    { by right. }
    { by rewrite Eout. }
    rewrite Eout in Hl'. exists (mk_event KEY_PRESSED (key_of sc)), n', st', ss'. split; [by apply star_one |].
    split; [done |]. split; [| done]. exists [released sc]. rewrite Ek, Er. split; [| cbn; split; [lia | done]].
    apply releases_cons with (idle f); [unfold released; lia | | constructor].
    intros e. exists (key_of sc). apply (release_character f _ c); [done | done | lia | done].
  - destruct (press_turn text n st ss s evt (idle f) LEFT_SHIFT Keyboard.KEY_LEFT_SHIFT (shifted f)
      (sc :: released sc :: released LEFT_SHIFT :: rest) 0 s) as (n1 & st1 & ss1 & Hr1 & Hl1 & Ek1 & Er1 & Ep1); try done.
    { by apply shift_gives_nothing. }
    { by left. }
    rewrite app_nil_r in Hl1.
    destruct (press_turn text n1 st1 ss1 s (mk_event KEY_PRESSED Keyboard.KEY_LEFT_SHIFT) (shifted f) sc (key_of sc)
      (shifted f) (released sc :: released LEFT_SHIFT :: rest) c s') as (n' & st' & ss' & Hr & Hl' & Ek & Er & Ep); try done; try lia.
    { exists []. rewrite Ek1, Er1. split; [constructor | split; [cbn; lia | done]]. }
    { intros e. apply (press_character f _ c); [done | done | lia | done]. }
    { by apply Z.eqb_eq. }
    { by right. }
    { by rewrite Eout. }
    rewrite Eout in Hl'. exists (mk_event KEY_PRESSED (key_of sc)), n', st', ss'.
    split; [eapply star_step; [by apply star_one | done] |].
    split; [done |]. split; [| congruence]. exists [released sc; released LEFT_SHIFT]. rewrite Ek, Er.
    split; [| cbn; split; [lia | done]]. apply releases_cons with (shifted f); [unfold released; lia | |].
    + intros e. exists (key_of sc). apply (release_character f _ c); [done | done | lia | done].
    + apply releases_cons with (idle f); [done | | constructor]. intros e.
      exists Keyboard.KEY_LEFT_SHIFT. apply release_shift.
Qed.

Lemma type_text_turns f t : keyboard_layout f -> Forall (can_type f) t ->
  forall text n st ss s evt rest s', at_line text n st ss s -> awaiting (idle f) (type_text f t ++ rest) st ->
  zlen text + zlen t <= 1023 -> puts s t = Some s' ->
  exists evt' n' st' ss', star (Nsh.nsh_runs hw garbage polls) (evt, n, st) (evt', n', st') /\
    at_line (text ++ t) n' st' ss' s' /\ awaiting (idle f) rest st' /\ parts st' = parts st.
Proof using Hhw Hpolls.
  intros Hf Ht. induction Ht as [| c t [Hc Hct] _ IH]; intros text n st ss s evt rest s' Hl Ha Hlen Hs.
  - injection Hs as <-. rewrite app_nil_r. exists evt, n, st, ss. split; [apply star_refl | done].
  - rewrite zlen_cons in Hlen. pose proof (zlen_nonneg t). cbn [puts] in Hs. apply bind_Some in Hs as (s1 & Hs1 & Hs).
    destruct (type_char f c) as [l |] eqn:El; [| done].
    change (type_text f (c :: t)) with (default [] (type_char f c) ++ type_text f t) in Ha.
    rewrite El in Ha. change (default [] (Some l)) with l in Ha. rewrite <- app_assoc in Ha.
    destruct (type_char_turns f text n st ss s evt c l (type_text f t ++ rest) s1) as (e1 & n1 & st1 & ss1 & Hr1 & Hl1 & Ha1 & Ep1);
      try done; [lia | by cbn [puts]; rewrite Hs1 |].
    destruct (IH (text ++ [c]) n1 st1 ss1 s1 e1 rest s' Hl1 Ha1) as (e2 & n2 & st2 & ss2 & Hr2 & Hl2 & Ha2 & Ep2); try done.
    { rewrite zlen_app. change (zlen [c]) with 1. lia. }
    exists e2, n2, st2, ss2. split; [by eapply star_trans |]. rewrite <- app_assoc in Hl2.
    split; [exact Hl2 |]. split; [done | congruence].
Qed.

(** ** Commands *)

(** The layout after a line. *)
Definition layout_after f (text : list Z) : kbd_keycode -> kbd_keymap_entry :=
  match Nsh.words text with
  | w :: _ =>
      if bool_decide (w = str "keymap")
      then match Results.keymap_answer (Nsh.words text) with inl g => g | inr _ => f end else f
  | [] => f
  end.

(** The builtin that the first word names is called with the words; nothing for an empty line. *)
Definition ran (text : list Z) (before after : machine D) : Prop :=
  match Nsh.words text with
  | [] => after = before
  | w :: _ => exists b buf argv r, Nsh.find_builtin Nsh.builtin w = Some b /\
      Results.words_at buf argv (Nsh.words text) /\
      Nsh.exec_builtin hw garbage polls (Nsh.exec_fn b) (zlen (Nsh.words text)) buf argv before = Ok (r, after)
  end.

Lemma find_name w b : Nsh.find_builtin Nsh.builtin w = Some b ->
  Nsh.name b = w /\ (Nsh.exec_fn b = Nsh.Keymap <-> w = str "keymap").
Proof.
  intros Hf. apply List.find_some in Hf as [Hin Hw%bool_decide_eq_true]. split; [done |]. subst w.
  cbn [Nsh.builtin List.In] in Hin. repeat (destruct Hin as [<- | Hin]; [split; [discriminate || reflexivity | discriminate || reflexivity] |]). done.
Qed.

Lemma split_words text b cmd cmd0 : Forall line_char text -> zlen text < 1024 ->
  Nsh.split_ok b cmd cmd0 (Nsh.words text) -> Results.words_at b cmd (Nsh.words text).
Proof.
  intros Ht Hl (_ & Hs & _) i w Ew. destruct (Hs i w Ew) as (p & Ep & Hp). split; [| by exists p].
  destruct (Forall_lookup_1 _ _ _ _ (words_visible text Ht) Ew). split; [done | lia].
Qed.

(** What Enter does with the line. *)
Lemma run_line text n st st' n1 : Nsh.text_ok n text -> Forall line_char text ->
  (forall i, (i < Nsh.cleared_pointers)%nat -> Nsh.nsh_cmd n !! i = Some None) ->
  Nsh.nsh_createcmd n = Ok n1 -> Nsh.nsh_execcmd hw garbage polls n1 st = Ok st' -> ran text st st'.
Proof.
  intros Ht Hc Hcmd En Ee. pose proof (Nsh.t_len n text Ht) as Hl.
  destruct (Nsh.createcmd_spec n text Ht) as (n2 & En2 & Ea & _ & Hsplit). rewrite En in En2. injection En2 as <-.
  unfold ran. destruct (Nsh.words text) as [| w ws] eqn:Ew.
  - assert (Nsh.nsh_cmd n1 !! 0%nat = Some None) as E0.
    { destruct Hsplit as (_ & _ & ->); [| cbn; lia]. by apply Hcmd; vm_compute; lia. }
    unfold Nsh.nsh_execcmd, rd in Ee. cbn [Z.ltb Z.compare] in Ee. change (Z.to_nat 0) with 0%nat in Ee.
    rewrite E0 in Ee. by injection Ee.
  - rewrite (Nsh.execcmd_spec hw garbage polls n1 text w ws st _ (Nsh.nsh_cmd n)) in Ee by (done || congruence).
    destruct (Nsh.find_builtin Nsh.builtin w) as [e |] eqn:Ef; [| done].
    apply bind_inv in Ee as ([r st2] & Ee & [= <-]).
    exists e, (Nsh.nsh_buf n1), (Nsh.nsh_cmd n1), r. split; [done |]. split; [| done].
    rewrite <- Ew in *. by apply (split_words text _ _ (Nsh.nsh_cmd n)).
Qed.

(** The keyboard after a command. *)
Lemma ran_keyboard f text st st' l : keyboard_layout f -> ran text st st' -> frame (idle f) (fun d => keys d = l) st ->
  (exists ss s, console_ok (con st) ss /\ ss !! Z.to_nat (sb_current (con st)) = Some s) ->
  frame (idle (layout_after f text)) (fun d => keys d = l) st' /\ keyboard_layout (layout_after f text).
Proof using Hframed.
  intros Hf Hr Hs (ss & s & Hok & Es). unfold ran, layout_after in *.
  destruct (Nsh.words text) as [| w ws] eqn:Ew; [by subst |].
  destruct Hr as (b & buf & argv & r & Hb & Hw & E). destruct (find_name w b Hb) as [_ Hk].
  destruct (bool_decide (w = str "keymap")) eqn:Ek.
  - apply bool_decide_eq_true, Hk in Ek. rewrite Ek in E. cbn [Nsh.exec_builtin] in E.
    pose proof (Results.keymap_spec st ss s Hok Es buf argv _ Hw) as Hspec.
    destruct (keymap_frame _ (keys_stable l) (idle f) _ buf argv st Hs _ E) as (k' & [_ Hkeys] & _).
    destruct (Results.keymap_answer (w :: ws)) as [g | acts] eqn:Ea.
    + rewrite E in Hspec. injection Hspec as -> ->. destruct Hs as [-> _]. split; [done |].
      by apply (Results.keymap_answer_layout (w :: ws)).
    + destruct Hspec as ([r2 st2] & E2 & _ & s2 & _ & _ & Ho & _). rewrite E in E2. injection E2 as _ <-.
      split; [| done]. split; [| done]. destruct Hs as [<- _]. unfold others in Ho. by injection Ho.
  - apply bool_decide_eq_false in Ek. split; [| done].
    refine (exec_builtin_frame hw garbage polls _ (keys_stable l) (Hframed l) (idle f) _ _ buf argv st _ Hs _ E).
    by rewrite Hk.
Qed.

(** ** Enter *)

Lemma session_line text n st : session_ok nf true text n st -> exists ss s, at_line text n st ss s.
Proof.
  intros Hs. pose proof Hs as [_ _ _ (ss & s & Hok & Hn & _ & Es & _) _]. by exists ss, s.
Qed.

(** The echo of Enter: the machine before the command. *)
Lemma echo_enter st ss s : console_ok (con st) ss -> ss !! Z.to_nat (sb_current (con st)) = Some s ->
  exists before, say [] nl [] st = Ok before /\ screen_now st ss (newline s) before.
Proof.
  intros Hok Es. destruct (say_ok [] nl [] nl st ss s (newline s) Hok Es) as (st' & E & Hnow & _); try done.
  - by repeat constructor.
  - by repeat constructor.
  - by intros [? | []].
  - by exists st'.
Qed.

(** The parts of an Enter that did not fail. *)
Lemma enter_inv text n st ss s n' st' : at_line text n st ss s ->
  Nsh.nsh_addchar hw garbage polls n 10 st = Ok (n', st') ->
  exists before after n1, say [] nl [] st = Ok before /\ screen_now st ss (newline s) before /\
    ran text before after /\ Nsh.nsh_newline n1 after = Ok (n', st').
Proof.
  intros [Hs Hok Hn Es] E. pose proof Hs as [_ Ht Hc Hline Hcmd].
  destruct (echo_enter st ss s Hok Es) as (before & Eb & Hnow). unfold Nsh.nsh_addchar in E.
  rewrite (bottom_low st (zlen text)) in E by done. cbn [mbind result_bind] in E.
  rewrite with_con_same in E. change (10 =? 10) with true in E. cbn match in E. rewrite Eb in E.
  cbn [mbind result_bind] in E. apply bind_inv in E as ([n1 after] & Er & En).
  exists before, after, n1. split; [done |]. split; [done |]. split; [| done].
  rewrite (Nsh.t_index n text Ht) in Er. destruct (Z.eqb_spec (zlen text) 0) as [E0 |]; cbn [negb] in Er.
  - injection Er as _ <-. destruct text as [| x t]; [done |]. rewrite zlen_cons in E0. pose proof (zlen_nonneg t). lia.
  - apply bind_inv in Er as (n2 & En2 & Er). apply bind_inv in Er as (st2 & Ex & [= <- <-]).
    by apply (run_line text n before st2 n2).
Qed.

Lemma enter_key f : keyboard_layout f -> KBD_getchar (mk_event KEY_PRESSED Keyboard.KEY_ENTER) (idle f) = 10.
Proof. by intros [-> | ->]. Qed.

Lemma type_enter_turn f text n st ss s evt rest : keyboard_layout f -> at_line text n st ss s ->
  awaiting (idle f) (type_enter ++ rest) st -> runnable nf text ->
  exists before after n' st', Nsh.nsh_runs hw garbage polls (evt, n, st) (mk_event KEY_PRESSED Keyboard.KEY_ENTER, n', st') /\
    session_ok nf true [] n' st' /\ awaiting (idle (layout_after f text)) rest st' /\ keyboard_layout (layout_after f text) /\
    parts before = parts st /\ console_ok (con before) (<[Z.to_nat (sb_current (con st)) := newline s]> ss) /\
    ran text before after /\ exists n1, Nsh.nsh_newline n1 after = Ok (n', st').
Proof using Hhw Hpolls Hframed.
  intros Hf Hl (pend & Hrel & Hlen & Hkeys) Hrun. pose proof Hl as [Hs Hok Hn Es]. cbn [type_enter app] in Hkeys.
  assert (forall e, KBD_scancode ENTER e (idle f) = Ok (0, mk_event KEY_PRESSED Keyboard.KEY_ENTER, idle f)) as Hcode by done.
  destruct (next_press pend _ _ Hrel polls evt (dev (shared (con st))) ENTER (released ENTER :: rest) _ _ Hkeys
    ltac:(done) ltac:(lia) Hcode) as (d' & Ee & Hk').
  destruct (event_ok polls nf true text n st evt _ d' _ Hs Ee) as (Hs1 & Ei & _).
  pose proof (enter_key f Hf) as E10.
  destruct (turn_ok hw garbage polls nf true text n st evt _ (idle f) d' Hhw Hs Ee) as ([[e n'] st'] & Et & -> & Hs').
  { rewrite E10. by split. }
  rewrite E10 in Hs'. cbn in Hs'. pose proof Et as Et'.
  unfold Nsh.nsh_turn in Et. rewrite Ee in Et. cbn [mbind result_bind] in Et. rewrite Ei, E10 in Et.
  change (negb (10 =? 0)) with true in Et. cbn match in Et.
  set (st1 := with_kbd (on_device (fun _ => d') st) (idle f)) in *.
  apply bind_inv in Et as ([n2 st2] & Ea & [= -> ->]).
  assert (at_line text n st1 ss s) as Hl1 by (split; [done | by destruct Hok | done | done]).
  destruct (enter_inv text n st1 ss s n' st' Hl1 Ea) as (before & after & n1 & Eb & Hnow & Hran & En).
  assert (frame (idle f) (fun d => keys d = released ENTER :: rest) st1) as Hf1 by done.
  pose proof (say_frame _ _ (s_cursor _ (keys_stable _)) _ _ _ st1 Hf1 _ Eb) as Hfb.
  destruct (ran_keyboard f text before after _ Hf Hran Hfb) as [Hfa Hla].
  { exists (<[Z.to_nat (sb_current (con st)) := newline s]> ss), (newline s). split; [apply Hnow |].
    exact (screen_lookup st1 ss _ before (l_console _ _ _ _ _ Hl1) Hnow). }
  destruct (newline_frame _ (keys_stable _) _ n1 after Hfa _ En) as [Ek Er]. cbn [frame_pair snd] in *.
  exists before, after, n', st'. split; [by constructor |]. split; [done |]. split.
  { exists [released ENTER]. rewrite Ek, Er. split; [| cbn; split; [lia | done]].
    apply releases_cons with (idle (layout_after f text)); [done | | constructor].
    intros e. by exists Keyboard.KEY_ENTER. }
  split; [done |]. destruct Hnow as (Ecur & Eo & Hokb). split; [| split; [exact Hokb | split; [exact Hran | by exists n1]]].
  unfold parts. rewrite Ecur. unfold others in Eo. by injection Eo as _ -> -> ->.
Qed.

(** ** Scripts *)

(** The scancodes of command lines, each typed in the layout the lines before it leave, and what they
    have to satisfy. *)
Fixpoint script_keys f (lines : list (list Z)) : list Z :=
  match lines with
  | [] => []
  | t :: lines => type_text f t ++ type_enter ++ script_keys (layout_after f t) lines
  end.
Fixpoint script_ok f (lines : list (list Z)) : Prop :=
  match lines with
  | [] => True
  | t :: lines => Forall (can_type f) t /\ zlen t <= 1023 /\ runnable nf t /\ script_ok (layout_after f t) lines
  end.

(** The current screen of [st'] is that of [st] with [t] written behind it. *)
Definition shown (t : list Z) st st' : Prop :=
  exists ss s ss' s', console_ok (con st) ss /\ ss !! Z.to_nat (sb_current (con st)) = Some s /\
    puts s t = Some s' /\ console_ok (con st') ss' /\ ss' !! Z.to_nat (sb_current (con st')) = Some s'.

(** The shell takes the lines one after the other: it reads the line and shows it, runs it on the machine
    with the echo of Enter, and prompts again. *)
Inductive executes : list (list Z) -> shell_state (D := D) -> shell_state (D := D) -> Prop :=
  | executes_nil s : executes [] s s
  | executes_line t lines evt n st evt1 n1 st1 before after n2 evt3 n3 st3 s :
      star (Nsh.nsh_runs hw garbage polls) (evt, n, st) (evt1, n1, st1) ->
      line_of n1 = t -> shown t st st1 -> parts st1 = parts st ->
      Nsh.nsh_runs hw garbage polls (evt1, n1, st1) (evt3, n3, st3) ->
      shown nl st1 before -> parts before = parts st1 -> ran t before after ->
      Nsh.nsh_newline n2 after = Ok (n3, st3) -> executes lines (evt3, n3, st3) s ->
      executes (t :: lines) (evt, n, st) s.

Lemma executes_runs lines s s' : executes lines s s' -> star (Nsh.nsh_runs hw garbage polls) s s'.
Proof.
  induction 1 as [s | t lines evt n st evt1 n1 st1 before after n2 evt3 n3 st3 s Hr _ _ _ Hr' _ _ _ _ _ IH]; [apply star_refl |].
  eapply star_trans; [exact Hr |]. eapply star_trans; [by apply star_one | exact IH].
Qed.

(** A line that was typed, and Enter. *)
Lemma line_turns f t n st evt rest : keyboard_layout f -> session_ok nf true [] n st ->
  awaiting (idle f) (type_text f t ++ type_enter ++ rest) st -> Forall (can_type f) t -> zlen t <= 1023 -> runnable nf t ->
  exists evt' n' st', executes [t] (evt, n, st) (evt', n', st') /\ session_ok nf true [] n' st' /\
    awaiting (idle (layout_after f t)) rest st' /\ keyboard_layout (layout_after f t).
Proof using Hhw Hpolls Hframed.
  intros Hf Hs Ha Ht Hlen Hrun. destruct (session_line [] n st Hs) as (ss & s & Hl).
  assert (Forall visible t) as Hv by (eapply List.Forall_impl; [| exact Ht]; by intros c [[? _] _]).
  destruct (puts_total t s (visible_no_backspace t Hv)) as [s1 Hs1].
  destruct (type_text_turns f t Hf Ht [] n st ss s evt (type_enter ++ rest) s1 Hl Ha) as
    (e1 & n1 & st1 & ss1 & Hr1 & Hl1 & Ha1 & Ep1); [done | done |]. cbn [app] in Hl1.
  destruct (type_enter_turn f t n1 st1 ss1 s1 e1 rest Hf Hl1 Ha1 Hrun) as
    (before & after & n2 & st2 & Hr2 & Hs2 & Ha2 & Hf2 & Ep2 & Hok2 & Hran & n3 & En).
  exists (mk_event KEY_PRESSED Keyboard.KEY_ENTER), n2, st2. split; [| done].
  destruct Hl as [_ Hok _ Es], Hl1 as [Hs1' Hok1 _ Es1].
  eapply executes_line with (st1 := st1) (before := before); [exact Hr1 | apply text_line_of, Hs1' | | exact Ep1 | exact Hr2 | | exact Ep2 | exact Hran | exact En | constructor].
  - by exists ss, s, ss1, s1.
  - exists ss1, s1, (<[Z.to_nat (sb_current (con st1)) := newline s1]> ss1), (newline s1).
    split; [done |]. split; [done |]. split; [done |]. split; [done |].
    unfold parts in Ep2. injection Ep2 as -> _ _ _. apply list_lookup_insert_eq. by apply lookup_lt_Some in Es1.
Qed.

Lemma executes_app l1 l2 s1 s2 s3 : executes l1 s1 s2 -> executes l2 s2 s3 -> executes (l1 ++ l2) s1 s3.
Proof. intros Hx Hx2. induction Hx; [done |]. cbn [app]. eapply executes_line; eauto. Qed.

Lemma script_turns lines : forall f n st evt rest, keyboard_layout f -> session_ok nf true [] n st ->
  awaiting (idle f) (script_keys f lines ++ rest) st -> script_ok f lines ->
  exists evt' n' st' f', executes lines (evt, n, st) (evt', n', st') /\ session_ok nf true [] n' st' /\
    keyboard_layout f' /\ awaiting (idle f') rest st'.
Proof using Hhw Hpolls Hframed.
  induction lines as [| t lines IH]; intros f n st evt rest Hf Hs Ha Hok.
  - exists evt, n, st, f. split; [constructor | done].
  - destruct Hok as (Ht & Hlen & Hrun & Hok). cbn [script_keys] in Ha. rewrite <- !app_assoc in Ha.
    destruct (line_turns f t n st evt _ Hf Hs Ha Ht Hlen Hrun) as (e1 & n1 & st1 & Hx1 & Hs1 & Ha1 & Hf1).
    destruct (IH _ n1 st1 e1 rest Hf1 Hs1 Ha1 Hok) as (e2 & n2 & st2 & f2 & Hx2 & Hs2 & Hf2 & Ha2).
    exists e2, n2, st2, f2. split; [| done]. by apply (executes_app [t] lines _ (e1, n1, st1)).
Qed.
End turns.

(** ** Properties *)

Section properties.
Context {D : Type} `{Keys D} (hw : hardware D) (garbage : Kpm.kpm_chunk_t) (polls : nat) (nf : Z).
Implicit Types st : machine D.

Lemma script_from_power_on h sk ek ram mbi st es z rest n evt lines more :
  hardware_ok hw nf polls -> (3 <= polls)%nat -> (forall l, hardware_framed hw (fun d => keys d = l)) ->
  boot_ok sk ek (u32 (Kernel.mem_upper mbi - Kernel.mem_lower mbi)) nf ram ->
  Kernel.mmap mbi = es ++ z :: rest -> Forall (entry_ok nf) es -> Kpm.entry_size z = 0 ->
  Kernel.prepared 0 (con st) -> 7 <= zlen (Gdt.gdt (gdt_st st)) -> 256 <= zlen (Idt.idt (idt_st st)) ->
  zlen (Nsh.nsh_buf n) = 1024 -> zlen (Nsh.nsh_cmd n) = 513 ->
  kbd st = Keyboard.kbd_st_init ->
  keys (dev (shared (con st))) = script_keys Keyboard.US104_getkeymapentry lines ++ more ->
  script_ok nf Keyboard.US104_getkeymapentry lines ->
  exists st1 n2 st2 evt' n' st', Kernel.kernel_main h sk ek ram mbi st = Ok st1 /\
    Nsh.nsh_newline n st1 = Ok (n2, st2) /\
    executes hw garbage polls lines (evt, n2, st2) (evt', n', st') /\ session_ok nf true [] n' st'.
Proof.
  intros Hh Hp Hfr Hboot Hmap Hes Hz Hprep Hg Hi Hb Hc Hkbd Hkeys Hok.
  destruct (boot_machine nf true h sk ek ram mbi st es z rest Hboot Hmap Hes Hz Hprep Hg Hi) as (st1 & E1 & Hm).
  pose proof (kernel_main_keys h sk ek ram mbi st _ Hkeys _ E1) as Hf1. rewrite Hkbd in Hf1.
  destruct (newline_ok nf true n st1 Hm Hb Hc) as ([n2 st2] & E2 & Hs).
  pose proof (newline_frame _ (keys_stable _) _ n st1 Hf1 _ E2) as [Hk2 Hd2]. cbn [frame_pair snd] in *.
  assert (keyboard_layout Keyboard.US104_getkeymapentry) as Hus by (by left).
  destruct (script_turns hw garbage polls nf Hh Hp Hfr lines _ n2 st2 evt more Hus Hs) as (evt' & n' & st' & f' & Hx & Hs' & _);
    [| exact Hok |].
  - exists []. split; [rewrite Hk2; constructor |]. split; [cbn; lia | exact Hd2].
  - by exists st1, n2, st2, evt', n', st'.
Qed.
End properties.

#[local] Existing Instance Preempt.preempted_device.


(** ** Witness *)

(** The controllers and the clock of Preempt.v, and a keyboard with the scancodes that are still to
    be read. *)
Record desk : Type := mk_desk { bus : Preempt.example_bus; scancodes : list Z }.

#[local] Existing Instances Preempt.bus_device Preempt.bus_pic Preempt.bus_chipset.

#[local] Instance desk_device : Device desk :=
  { dev_in p d :=
      if p =? 0x64 then (match scancodes d with [] => 0 | _ => 1 end, d)
      else if p =? 0x60 then (hd 0 (scancodes d), mk_desk (bus d) (tl (scancodes d)))
      else let (v, b) := dev_in p (bus d) in (v, mk_desk b (scancodes d));
    dev_out p v d := mk_desk (dev_out p v (bus d)) (scancodes d) }.

#[local] Instance desk_pic : Pic.Pic desk.
Proof.
  refine {| Pic.pics d := Pic.pics (bus d) |}; intros;
    [apply Pic.pic_cmd1 | apply Pic.pic_cmd2 | apply Pic.pic_data1 | apply Pic.pic_data2 | |].
  - destruct (Pic.pic_mask1 (bus d)) as (b & E & Hb); [done |]. exists (mk_desk b (scancodes d)).
    cbn [dev_in desk_device Z.eqb Pos.eqb]. by rewrite E.
  - destruct (Pic.pic_mask2 (bus d)) as (b & E & Hb); [done |]. exists (mk_desk b (scancodes d)).
    cbn [dev_in desk_device Z.eqb Pos.eqb]. by rewrite E.
Defined.

#[local] Instance desk_chipset : Preempt.Chipset desk.
Proof.
  refine {| Preempt.raise irq d := mk_desk (Preempt.raise irq (bus d)) (scancodes d);
            Preempt.selected d := Preempt.selected (bus d); Preempt.registers d := Preempt.registers (bus d);
            Preempt.busy d := Preempt.busy (bus d) |}.
  - intros irq d. exact (Preempt.raise_pics irq (bus d)).
  - intros irq d. exact (Preempt.raise_clock irq (bus d)).
  - intros port v d. exact (Preempt.command_clock port v (bus d)).
  - intros v d. exact (Preempt.select_clock v (bus d)).
  - intros d Hs. destruct (Preempt.read_clock (bus d)) as (v & b & E & Hb); [done |].
    exists v, (mk_desk b (scancodes d)). cbn [dev_in desk_device Z.eqb Pos.eqb]. by rewrite E.
  - intros d Hs. destruct (Preempt.poll_clock (bus d)) as (v & b & E & Hb); [done |].
    exists v, (mk_desk b (scancodes d)). cbn [dev_in desk_device Z.eqb Pos.eqb]. by rewrite E.
Defined.

#[local] Instance desk_keys : Keys desk.
Proof.
  refine {| keys := scancodes |}.
  - intros [b d] Hd. cbn in Hd. destruct d; [done |]. vm_compute. discriminate.
  - intros [b d] sc l E Hs. cbn in E. subst d. exists (mk_desk b l). split; [| done]. unfold port_read_u8. cbn. by rewrite u8_small.
  - intros d d' [p d0 Hp | p v d0 Hp]; [| done]. cbn. destruct (p =? 0x64); [done |].
    destruct (Z.eqb_spec p 0x60) as [-> |]; [exfalso; revert Hp; apply (bool_decide_unpack _); vm_compute; exact I |].
    by destruct (if p =? 0x71 then _ else _) as [v b].
Defined.

#[local] Instance desk_raise : KeysRaise desk.
Proof. done. Qed.

Definition demo : list (list Z) := [str "alloc 8192"; str "keymap fr"; str "help"; str "keymap us"].

Definition desk_hardware : hardware (Preempt.preempted desk) :=
  Interrupts.processor (fun st => st) (fun _ => (0, Console.mk_int_frame 0 8 0x202 0 0)) (fun _ => 0) (fun _ _ => 0) [] 0 0.

Lemma desk_framed l : hardware_framed desk_hardware (fun d => keys d = l).
Proof. apply processor_framed; [apply (keys_stable l) | done]. Qed.

Lemma desk_ok : hardware_ok desk_hardware 1024 3.
Proof.
  apply Interrupts.processor_ok; [done |]. intros d. cbn [reboot_wait].
  assert (forall d : Preempt.preempted desk, Z.land (port_read_u8 Keyboard.PS2_STATUS_REGISTER_PORT d).1 PS2_INPUT_BUFFER_FULL = 0) as Hp.
  { intros p. unfold port_read_u8. cbn [dev_in Preempt.preempted_device desk_device Z.eqb Pos.eqb Keyboard.PS2_STATUS_REGISTER_PORT].
    by destruct (scancodes (Preempt.base (Preempt.arrive p))). }
  specialize (Hp d). destruct (port_read_u8 _ d) as [x d']. cbn [fst] in Hp. rewrite Hp. by apply yields_ok.
Qed.

Lemma demo_ok : script_ok 1024 Keyboard.US104_getkeymapentry demo.
Proof.
  assert (forall t, match Nsh.words t with
                    | w :: _ => match Nsh.find_builtin Nsh.builtin w with
                                | Some b => match Nsh.exec_fn b with Nsh.Free => false | _ => true end | None => false end
                    | [] => true end = true -> runnable 1024 t) as Hrun.
  { intros t. unfold runnable. destruct (Nsh.words t) as [| w ws]; [done |].
    destruct (Nsh.find_builtin Nsh.builtin w) as [b |]; [| done]. by destruct (Nsh.exec_fn b). }
  unfold demo. cbn [script_ok].
  repeat (split; [by apply (bool_decide_unpack _); vm_compute | split; [vm_compute; congruence | split; [apply Hrun; vm_compute; reflexivity |]]]).
  exact I.
Qed.

(** A machine before kernel_main, with the timer and the keyboard active while the user types. *)
Definition desk_machine (l : list Z) : machine (Preempt.preempted desk) :=
  let m := Session.waiting_machine [] in
  mk_machine (mk_console (sb (con m)) 0 (mk_world (vga (shared (con m)))
      (Preempt.mk_preempted (mk_desk (Preempt.base Preempt.busy_bus) l) (repeat [0; 1] 500))))
    (kbd m) (kpm_st m) (gdt_st m) (idt_st m).


End Typed.
