(* ===== verification/OldShell.v ===== *)
(** The first shell of the kernel: kernel/shell.c.

    The file is not part of the build any more and some of what it calls is gone:
    VGA_putchar and the functions of the table [f_ptr] are arguments of the model,
    which may do to the machine whatever they like.  What the shell itself
    keeps is its static buffer and the number of characters typed.

    [react] is the shell on the text of the line, without a buffer; the code refines it.
    A command is found by a hash of its name, so that other lines run commands too. *)

From Stdlib Require Import Ascii String.
From Stdlib Require Import ZArith Lia Bool.
From stdpp Require Import base tactics numbers list option.
From S2P Require Import Prelude Logic Port Mem Kpm Keyboard Desc.
From S2P Require Import Str Print Format Screenbuf Typing Console Builtins Machine Kernel Session.

Local Open Scope Z_scope.

Module OldShell.
Import Screenbuf Console Builtins Format Typing Machine.

#[local] Opaque say.
#[local] Existing Instance Keyboard.kbd_eventtype_eq_dec.

(** ** The code *)

Definition HASH_VALUE : Z := 5381.
Definition HASH_MOD : Z := 100.
Definition BUFSIZE : Z := 32.

(** The functions the table points to. *)
Inductive command : Type :=
  | reboot | gdt_print | key_us | print_stack | color_red | int_divide | clear | help
  | alloc | poweroff | free | buddy_print | key_fr | color_reset.

#[export] Instance command_eq_dec : EqDecision command.
Proof. solve_decision. Defined.

(** An array with designated initialisers. *)
Definition f_ptr_init : list (Z * command) :=
  [(14, reboot); (20, gdt_print); (21, key_us); (29, print_stack); (30, color_red);
   (37, int_divide); (52, clear); (60, help); (61, alloc); (62, poweroff); (71, free);
   (88, buddy_print); (90, key_fr); (98, color_reset)].
Definition f_ptr : list (option command) :=
  fold_left (fun l '(i, f) => <[Z.to_nat i := Some f]> l) f_ptr_init
    (replicate (Z.to_nat HASH_MOD) None).

(** The loop [while ((c = *to_hash++)) hash = c + (hash << 1);]: a [char] is
    converted to [uint32_t]. *)
Fixpoint dj2b_loop (fuel : nat) (m : list Z) (to_hash hash : Z) : result Z :=
  match fuel with
  | O => Err OutOfFuel
  | S fuel =>
      x ← Str.rdc m to_hash;
      let c := u32 x in
      if c =? 0 then Ok hash
      else dj2b_loop fuel m (to_hash + 1) (u32 (c + u32 (Z.shiftl hash 1)))
  end.
Definition dj2b_hash (m : list Z) (to_hash : Z) : result Z :=
  hash ← dj2b_loop (Str.fuel_for m) m to_hash HASH_VALUE; Ok (hash mod HASH_MOD).

(** [buffer], and the local variable [i] of shell. *)
Record ksh : Type := mk_ksh { buffer : list Z; index : Z }.

Definition fill_buffer (c i : Z) (b : list Z) : result (list Z) :=
  if i <? BUFSIZE - 1 then wr b i (u8 c) else Ok b.

Section code.
Context {D : Type} `{Device D}.
Context (VGA_putchar : Z -> machine D -> result (machine D)).
Context (exec : command -> machine D -> result (machine D)).
Context (polls : nat).
Implicit Types st : machine D.

Definition print_prompt st : result (machine D) := say [] (str "$>") [] st.

Definition error_cmd (b : list Z) st : result (machine D) :=
  say b (str "ksh: %s: command not found" ++ nl) [0] st.

Definition handle_command (b : list Z) st : result (machine D) :=
  hash ← dj2b_hash b 0;
  if hash >? HASH_MOD then error_cmd b st
  else
    f ← rd f_ptr hash;
    match f with None => error_cmd b st | Some f => exec f st end.

(** The body of [if ((c = KBD_getchar(&evt)))]. *)
Definition shell_char (n : ksh) (c : Z) st : result (ksh * machine D) :=
  let i := index n in
  if c =? 10 then
    st ← VGA_putchar c st;
    st ← (if i >? 0 then handle_command (buffer n) st else Ok st);
    st ← print_prompt st;
    b ← Mem.memset (buffer n) 0 0 BUFSIZE;
    Ok (mk_ksh b 0, st)
  else if c =? 8 then
    if i >? 0 then
      let i := u8 (i - 1) in
      st ← VGA_putchar c st;
      b ← wr (buffer n) i 0;
      Ok (mk_ksh b i, st)
    else Ok (n, st)
  else if i <? BUFSIZE - 1 then
    b ← fill_buffer c i (buffer n);
    st ← VGA_putchar c st;
    Ok (mk_ksh b (u8 (i + 1)), st)
  else Ok (n, st).

(** One turn of the loop of shell; [evt] keeps the last event. *)
Definition shell_turn (evt : Keyboard.kbd_event) (n : ksh) st
    : result (Keyboard.kbd_event * ksh * machine D) :=
  d ← Keyboard.KBD_wait polls (dev (shared (con st)));
  '(r, evt, k, d) ← Keyboard.KBD_getevent evt (kbd st) d;
  let st := with_kbd (on_device (fun _ => d) st) k in
  if (r =? 0) && bool_decide (Keyboard.evt_type evt = Keyboard.KEY_PRESSED) then
    let c := i8 (Keyboard.KBD_getchar evt k) in
    if negb (c =? 0) then '(n, st) ← shell_char n c st; Ok (evt, n, st)
    else Ok (evt, n, st)
  else Ok (evt, n, st).

(** The endless loop of shell as a transition system. *)
Inductive shell_runs : Keyboard.kbd_event * ksh * machine D ->
    Keyboard.kbd_event * ksh * machine D -> Prop :=
  | shell_runs_turn evt n st s' : shell_turn evt n st = Ok s' -> shell_runs (evt, n, st) s'.
Definition shell (evt : Keyboard.kbd_event) (b : list Z) st
    (s : Keyboard.kbd_event * ksh * machine D) : Prop :=
  exists b1 st1, print_prompt st = Ok st1 /\ Mem.memset b 0 0 BUFSIZE = Ok b1 /\
    star shell_runs (evt, mk_ksh b1 0, st1) s.
End code.

(** ** The hash of a text *)

(** The characters as the digits of a binary number. *)
Fixpoint weight (l : list Z) : Z :=
  match l with [] => 0 | c :: l => c * 2 ^ zlen l + weight l end.
Definition text_hash (l : list Z) : Z := u32 (HASH_VALUE * 2 ^ zlen l + weight l) mod HASH_MOD.

(** The command that a text runs. *)
Definition command_of (l : list Z) : option command := default None (f_ptr !! Z.to_nat (text_hash l)).

Lemma u32_shift c h : u32 (u32 c + u32 (Z.shiftl (u32 h) 1)) = u32 (c + 2 * h).
Proof. rewrite Z.shiftl_mul_pow2 by lia. ints. dlia. Qed.

Definition char_ok (c : Z) : Prop := -128 <= c < 128 /\ c <> 0.

Lemma dj2b_loop_spec m p l : Str.cstr m p l -> Forall char_ok l -> forall fuel h,
  (length l < fuel)%nat ->
  dj2b_loop fuel m p (u32 h) = Ok (u32 (h * 2 ^ zlen l + weight l)).
Proof.
  induction 1 as [p H | p c l H Hc _ IH]; intros Hl [| fuel] h Hf; cbn [length] in *; try lia;
    cbn [dj2b_loop]; rewrite H; cbn [mbind result_bind].
  - change (u32 0 =? 0) with true. cbn [weight]. change (zlen []) with 0. do 2 f_equal. lia.
  - apply List.Forall_cons_iff in Hl as [[Hr _] Hl].
    assert (u32 c <> 0) as H0 by (ints; dlia).
    rewrite (proj2 (Z.eqb_neq _ _) H0), u32_shift, IH by (done || lia).
    rewrite zlen_cons. cbn [weight]. pose proof (zlen_nonneg l).
    rewrite Z.pow_add_r by lia. do 2 f_equal. lia.
Qed.

Lemma dj2b_hash_spec m p l : Str.cstr m p l -> Forall char_ok l -> dj2b_hash m p = Ok (text_hash l).
Proof.
  intros Hp Hl. unfold dj2b_hash. change HASH_VALUE with (u32 HASH_VALUE) at 1.
  rewrite (dj2b_loop_spec m p l) by (done || by apply Str.cstr_fuel with p). done.
Qed.

Lemma text_hash_range l : 0 <= text_hash l < HASH_MOD.
Proof. unfold text_hash, HASH_MOD. apply Z.mod_pos_bound. lia. Qed.

Lemma f_ptr_length : length f_ptr = 100%nat.
Proof. reflexivity. Qed.

(** The next character and two less behind it: the sum is the same. *)
Lemma text_hash_swap l a b r :
  text_hash (l ++ a :: b :: r) = text_hash (l ++ (a + 1) :: (b - 2) :: r).
Proof.
  unfold text_hash. do 2 f_equal. rewrite !zlen_app, !zlen_cons. f_equal.
  induction l as [| c l IH]; cbn [app weight].
  - rewrite !zlen_cons. pose proof (zlen_nonneg r). rewrite Z.pow_add_r by lia. lia.
  - rewrite !zlen_app, !zlen_cons, IH. lia.
Qed.

(** ** The buffer *)

(** The text is followed by zeros, to the end of the buffer. *)
Definition line (text : list Z) : ksh :=
  mk_ksh (map u8 text ++ replicate (32 - length text) 0) (zlen text).
Definition text_ok (text : list Z) : Prop := Forall char_ok text /\ zlen text <= 31.

Lemma wr_middle {A} (l r : list A) x v : wr (l ++ x :: r) (zlen l) v = Ok (l ++ v :: r).
Proof.
  rewrite wr_ok by (rewrite zlen_app, zlen_cons; pose proof (zlen_nonneg l); pose proof (zlen_nonneg r); lia).
  f_equal. unfold zlen. rewrite Nat2Z.id. by rewrite insert_app_r_alt, Nat.sub_diag by lia.
Qed.

Lemma zeros_cons n : (0 < n)%nat -> replicate n 0 = 0 :: replicate (n - 1) 0.
Proof. destruct n as [| n]; [lia |]. intros _. by replace (S n - 1)%nat with n by lia. Qed.

Lemma line_append text c : zlen text < 31 ->
  fill_buffer c (zlen text) (buffer (line text)) = Ok (buffer (line (text ++ [c]))).
Proof.
  intros Hl. unfold fill_buffer, line, BUFSIZE. cbn [buffer]. unfold zlen in Hl.
  rewrite (proj2 (Z.ltb_lt _ _)) by (unfold zlen; lia).
  rewrite zeros_cons by lia. rewrite <- (zlen_map u8 text), wr_middle, map_app, length_app.
  rewrite <- app_assoc. cbn [map app length]. do 4 f_equal. lia.
Qed.

Lemma line_erase text c : zlen (text ++ [c]) <= 31 ->
  wr (buffer (line (text ++ [c]))) (zlen text) 0 = Ok (buffer (line text)).
Proof.
  intros Hl. unfold line. cbn [buffer]. rewrite map_app, <- app_assoc. cbn [map app].
  rewrite <- (zlen_map u8 text), wr_middle. unfold zlen in Hl. rewrite length_app in *. cbn [length] in *.
  rewrite (zeros_cons (32 - length text)) by lia. do 4 f_equal. lia.
Qed.

Lemma clear_buffer b : length b = 32%nat -> Mem.memset b 0 0 BUFSIZE = Ok (buffer (line [])).
Proof.
  intros Hb. unfold BUFSIZE.
  destruct (Mem.memset_spec b 0 0 32) as (b' & -> & Hl & Hz); [unfold Mem.range_in, zlen; lia |].
  f_equal. cbn [line buffer map app length]. apply list_eq. intros i.
  destruct (Nat.lt_ge_cases i 32) as [Hi | Hi].
  - rewrite lookup_replicate_2 by (cbn; lia). specialize (Hz (Z.of_nat i) ltac:(lia)).
    rewrite (proj2 (Z.leb_le 0 _)), (proj2 (Z.ltb_lt _ (0 + 32))) in Hz by lia. cbn [andb] in Hz.
    unfold at_ in Hz. rewrite (proj2 (Z.ltb_ge _ 0)), Nat2Z.id in Hz by lia.
    destruct (lookup_lt_is_Some_2 b' i) as [x Hx]; [unfold zlen in Hl; lia |].
    rewrite Hx in *. cbn in Hz. by subst.
  - rewrite !lookup_ge_None_2; [done | rewrite length_replicate; cbn; lia | unfold zlen in Hl; lia].
Qed.

Lemma line_length text : zlen text <= 31 -> length (buffer (line text)) = 32%nat.
Proof.
  intros. unfold line, zlen in *. cbn [buffer]. rewrite length_app, length_map, length_replicate. lia.
Qed.

Lemma char_again c : char_ok c -> i8 (u8 c) = c.
Proof.
  intros [Hc _]. unfold i8. cbv zeta. destruct (Z.ltb_spec (u8 (u8 c)) 128); ints; dlia.
Qed.

(** The buffer is a string. *)
Lemma line_cstr text : text_ok text -> Str.cstr (buffer (line text)) 0 text.
Proof.
  intros [Hc Hl]. unfold zlen in Hl. unfold line. cbn [buffer]. rewrite zeros_cons by lia.
  generalize (replicate (32 - length text - 1) 0). clear Hl. intros r.
  assert (forall pre, Str.cstr (pre ++ map u8 text ++ 0 :: r) (zlen pre) text) as Hpre.
  { induction Hc as [| c text Hc _ IH]; intros pre; cbn [map app].
    - apply Str.cstr_nil. unfold Str.rdc. rewrite (rd_ok 0).
      + by rewrite at_app, Z.ltb_irrefl, Z.sub_diag by apply zlen_nonneg.
      + rewrite zlen_app, zlen_cons. pose proof (zlen_nonneg pre). pose proof (zlen_nonneg r). lia.
    - apply Str.cstr_cons; [| apply Hc |].
      + rewrite Str.rdc_ok.
        * rewrite at_app, Z.ltb_irrefl, Z.sub_diag, at_cons by apply zlen_nonneg.
          cbn [Z.eqb]. by rewrite char_again.
        * rewrite zlen_app, zlen_cons. pose proof (zlen_nonneg pre). 
          pose proof (zlen_nonneg (map u8 text ++ 0 :: r)). lia.
      + specialize (IH (pre ++ [u8 c])). rewrite <- app_assoc, zlen_app in IH. exact IH. }
  exact (Hpre []).
Qed.

(** ** The shell on texts *)

Section spec.
Context {D : Type} `{Device D}.
Context (VGA_putchar : Z -> machine D -> result (machine D)).
Context (exec : command -> machine D -> result (machine D)).
Context (polls : nat).
Implicit Types st : machine D.

Definition run_line (text : list Z) st : result (machine D) :=
  match command_of text with
  | Some f => exec f st
  | None => error_cmd (buffer (line text)) st
  end.

(** What a character does to the text and to the machine. *)
Definition react (text : list Z) (c : Z) st : result (list Z * machine D) :=
  if c =? 10 then
    st ← VGA_putchar c st;
    st ← (if bool_decide (text = []) then Ok st else run_line text st);
    st ← print_prompt st;
    Ok ([], st)
  else if c =? 8 then
    if bool_decide (text = []) then Ok (text, st)
    else st ← VGA_putchar c st; Ok (take (length text - 1) text, st)
  else if zlen text <? 31 then st ← VGA_putchar c st; Ok (text ++ [c], st)
  else Ok (text, st).

Definition react_turn (evt : Keyboard.kbd_event) (text : list Z) st
    : result (Keyboard.kbd_event * list Z * machine D) :=
  d ← Keyboard.KBD_wait polls (dev (shared (con st)));
  '(r, evt, k, d) ← Keyboard.KBD_getevent evt (kbd st) d;
  let st := with_kbd (on_device (fun _ => d) st) k in
  let c := i8 (Keyboard.KBD_getchar evt k) in
  if (r =? 0) && bool_decide (Keyboard.evt_type evt = Keyboard.KEY_PRESSED) && negb (c =? 0)
  then '(text, st) ← react text c st; Ok (evt, text, st)
  else Ok (evt, text, st).

Inductive react_runs : Keyboard.kbd_event * list Z * machine D ->
    Keyboard.kbd_event * list Z * machine D -> Prop :=
  | react_runs_turn evt text st s' : react_turn evt text st = Ok s' -> react_runs (evt, text, st) s'.

Lemma handle_command_spec text st : text_ok text ->
  handle_command exec (buffer (line text)) st = run_line text st.
Proof.
  intros Ht. unfold handle_command, run_line, command_of. rewrite (dj2b_hash_spec _ _ text).
  2: by apply line_cstr. 2: apply Ht.
  cbn [mbind result_bind]. pose proof (text_hash_range text) as Hr. unfold HASH_MOD in *.
  destruct (Z.gtb_spec (text_hash text) 100); [lia |].
  unfold rd. rewrite (proj2 (Z.ltb_ge _ _)) by lia.
  destruct (lookup_lt_is_Some_2 f_ptr (Z.to_nat (text_hash text))) as [f Ef];
    [rewrite f_ptr_length; lia |]. rewrite Ef. by destruct f.
Qed.

Lemma zlen_pos (text : list Z) : (zlen text >? 0) = negb (bool_decide (text = [])).
Proof.
  destruct text as [| x text]; [done |]. rewrite bool_decide_eq_false_2 by done.
  apply Z.gtb_lt. rewrite zlen_cons. pose proof (zlen_nonneg text). lia.
Qed.

Definition represent (r : list Z * machine D) : ksh * machine D := (line r.1, r.2).

(** The code on the representation of a text is the reaction to the text. *)
Lemma shell_char_spec text c st : text_ok text -> -128 <= c < 128 -> c <> 0 ->
  shell_char VGA_putchar exec (line text) c st = (r ← react text c st; Ok (represent r)).
Proof.
  intros Ht Hc H0. pose proof Ht as [Hch Hl]. unfold shell_char, react. change (index (line text)) with (zlen text).
  destruct (c =? 10).
  { rewrite zlen_pos. destruct (VGA_putchar c st) as [st1 |]; [| done]. cbn [mbind result_bind].
    rewrite handle_command_spec by done.
    destruct (bool_decide (text = [])); cbn [negb];
      [| destruct (run_line text st1) as [st2 |]; [| done]]; cbn [mbind result_bind];
      (destruct (print_prompt _) as [st3 |]; [| done]); cbn [mbind result_bind];
      by rewrite clear_buffer by (by apply line_length). }
  destruct (c =? 8).
  { rewrite zlen_pos. case_bool_decide as He; [done |]. cbn [negb].
    destruct (VGA_putchar c st) as [st1 |]; [| done]. cbn [mbind result_bind].
    destruct (exists_last He) as (t & x & ->). rewrite zlen_app in *. change (zlen [x]) with 1 in *.
    pose proof (zlen_nonneg t). replace (zlen t + 1 - 1) with (zlen t) by lia. rewrite u8_small by lia.
    rewrite line_erase by (rewrite zlen_app; done). cbn [mbind result_bind].
    rewrite length_app. cbn [length]. rewrite Nat.add_sub, take_app_length. done. }
  unfold BUFSIZE. change (32 - 1) with 31. destruct (Z.ltb_spec (zlen text) 31) as [Hlt | Hge]; [| done].
  rewrite line_append by done. cbn [mbind result_bind]. destruct (VGA_putchar c st) as [st1 |]; [| done].
  cbn [mbind result_bind]. unfold represent. cbn [fst snd]. pose proof (zlen_nonneg text).
  rewrite u8_small by lia. do 2 f_equal. unfold line. cbn [buffer]. f_equal. by rewrite zlen_app.
Qed.

Lemma react_text_ok text c st text' st' : text_ok text -> -128 <= c < 128 -> c <> 0 ->
  react text c st = Ok (text', st') -> text_ok text'.
Proof.
  intros [Ht Hl] Hc H0 E. unfold react in E.
  destruct (c =? 10).
  { do 3 apply bind_inv in E as (? & _ & E). by injection E as <- _. }
  destruct (c =? 8).
  { case_bool_decide; [by injection E as <- <- |].
    apply bind_inv in E as (? & _ & E). injection E as <- _.
    split; [by apply Forall_take |]. unfold zlen in *. rewrite length_take. lia. }
  destruct (Z.ltb_spec (zlen text) 31); [| by injection E as <- <-].
  apply bind_inv in E as (? & _ & E). injection E as <- _.
  split; [| rewrite zlen_app; change (zlen [c]) with 1; lia].
  apply Forall_app. split; [done |]. by apply List.Forall_cons.
Qed.

Definition represent_turn (s : Keyboard.kbd_event * list Z * machine D) : Keyboard.kbd_event * ksh * machine D :=
  (s.1.1, line s.1.2, s.2).

Lemma i8_range x : -128 <= i8 x < 128.
Proof. unfold i8. cbv zeta. destruct (Z.ltb_spec (u8 x) 128); ints; dlia. Qed.

Lemma shell_turn_spec evt text st : text_ok text ->
  shell_turn VGA_putchar exec polls evt (line text) st =
    (s ← react_turn evt text st; Ok (represent_turn s)).
Proof.
  intros Ht. unfold shell_turn, react_turn.
  destruct (Keyboard.KBD_wait _ _) as [d |]; [| done]. cbn [mbind result_bind].
  destruct (Keyboard.KBD_getevent _ _ _) as [[[[r e] k] d'] |]; [| done]. cbn [mbind result_bind].
  destruct (_ && bool_decide _); cbn [andb]; [| done].
  destruct (Z.eqb_spec (i8 (Keyboard.KBD_getchar e k)) 0) as [Hz | Hnz]; cbn [negb]; [done |].
  rewrite shell_char_spec by (done || apply i8_range).
  by destruct (react _ _ _) as [[t st'] |].
Qed.

Lemma react_turn_text_ok evt text st evt' text' st' : text_ok text ->
  react_turn evt text st = Ok (evt', text', st') -> text_ok text'.
Proof.
  intros Ht E. unfold react_turn in E. apply bind_inv in E as (d & _ & E).
  apply bind_inv in E as ([[[r e] k] d'] & _ & E). cbv zeta in E.
  destruct (_ && _) eqn:Eb in E; [| by injection E as _ <- _].
  apply andb_true_iff in Eb as [_ Hnz]. apply negb_true_iff, Z.eqb_neq in Hnz.
  apply bind_inv in E as ([t st1] & Er & E). injection E as _ <- _.
  by eapply react_text_ok; [| apply i8_range | |].
Qed.

(** The two transition systems run in lock step. *)
Lemma shell_runs_react n s s0 : star (shell_runs VGA_putchar exec polls) n s ->
  n = represent_turn s0 -> text_ok s0.1.2 ->
  exists s1, s = represent_turn s1 /\ text_ok s1.1.2 /\ star react_runs s0 s1.
Proof.
  intros Hs -> Ht. remember (represent_turn s0) as n eqn:En.
  induction Hs as [s | s1 s2 s3 _ IH Hstep]; subst.
  { exists s0. split; [done |]. split; [done | constructor]. }
  destruct (IH eq_refl) as ([[evt text] st] & -> & Hok & Hr). inversion Hstep as [? ? ? ? E]; subst.
  rewrite shell_turn_spec in E by done. apply bind_inv in E as ([[evt1 text1] st1] & E & [= <-]).
  exists (evt1, text1, st1). split; [done |]. split; [by apply (react_turn_text_ok _ _ _ _ _ _ Hok E) |].
  eapply star_step; [exact Hr | by constructor].
Qed.

Lemma react_runs_shell s0 s : star react_runs s0 s -> text_ok s0.1.2 ->
  text_ok s.1.2 /\ star (shell_runs VGA_putchar exec polls) (represent_turn s0) (represent_turn s).
Proof.
  intros Hs Ht. induction Hs as [| s1 s2 s3 _ IH Hstep]; [split; [done | constructor] |].
  destruct (IH Ht) as [Hok Hr]. inversion Hstep as [evt text st [[evt1 text1] st1] E]; subst.
  split; [by apply (react_turn_text_ok _ _ _ _ _ _ Hok E) |]. eapply star_step; [exact Hr |].
  unfold represent_turn at 1. cbn [fst snd]. constructor. by rewrite shell_turn_spec, E by done.
Qed.
End spec.

(** ** Properties *)

Section properties.
Context {D : Type} `{Device D}.
Context (VGA_putchar : Z -> machine D -> result (machine D)).
Context (exec : command -> machine D -> result (machine D)).
Context (polls : nat).
Implicit Types st : machine D.

(** C15: The shell refines the one without a buffer: the states it reaches are exactly the
    representations of the states that one reaches, whatever the commands and the
    screen do.  So its buffer always holds the text of the line with a terminator, and at
    most 31 characters. *)
Theorem shell_refines evt b st s : length b = 32%nat ->
  shell VGA_putchar exec polls evt b st s <->
  exists st1 t, print_prompt st = Ok st1 /\ star (react_runs VGA_putchar exec polls) (evt, [], st1) t /\
    text_ok t.1.2 /\ s = represent_turn t.
Proof.
  intros Hb. assert (text_ok []) as Hnil by (split; [constructor | done]).
  unfold shell. rewrite clear_buffer by done. split.
  - intros (b1 & st1 & Ep & [= <-] & Hs).
    destruct (shell_runs_react VGA_putchar exec polls _ s (evt, [], st1) Hs eq_refl Hnil) as (t & -> & Hok & Ht).
    by exists st1, t.
  - intros (st1 & t & Ep & Ht & _ & ->). exists (buffer (line [])), st1.
    split; [done |]. split; [done |]. by apply (react_runs_shell VGA_putchar exec polls (evt, [], st1) t).
Qed.

(** C24: A command is found by the hash of the line only: when a line runs a command, the
    line with the next character in some place and the one two before in the place behind it runs
    the same command, although it is not its name. *)
Theorem mistyped_line_runs_command l a b r f st :
  text_ok (l ++ a :: b :: r) -> 0 < a < 127 -> 2 < b < 128 -> command_of (l ++ a :: b :: r) = Some f ->
  handle_command exec (buffer (line (l ++ a :: b :: r))) st = exec f st /\
  handle_command exec (buffer (line (l ++ (a + 1) :: (b - 2) :: r))) st = exec f st.
Proof.
  intros Hok Ha Hb Hf. pose proof Hok as [Hc Hl]. assert (text_ok (l ++ (a + 1) :: (b - 2) :: r)) as Ht.
  { split; [| rewrite zlen_app, !zlen_cons in *; done]. apply Forall_app in Hc as [Hl' Hc].
    apply List.Forall_cons_iff in Hc as [_ Hc]. apply List.Forall_cons_iff in Hc as [_ Hc].
    apply Forall_app. split; [done |]. apply List.Forall_cons; [unfold char_ok; lia |].
    apply List.Forall_cons; [unfold char_ok; lia | done]. }
  rewrite !handle_command_spec by done. unfold run_line, command_of in *.
  by rewrite <- text_hash_swap, Hf.
Qed.

Lemma report_visible text : Forall visible text ->
  Forall visible (str "ksh: " ++ text ++ str ": command not found" ++ nl).
Proof.
  intros Hv. apply Forall_app. split; [by apply (bool_decide_unpack _); vm_compute |].
  apply Forall_app. split; [exact Hv |]. by apply (bool_decide_unpack _); vm_compute.
Qed.

(** A line whose hash has no command is reported by its text, and the machine is the
    same but for the screen. *)
Theorem unknown_command_reported text st ss s s' : text_ok text -> Forall visible text ->
  command_of text = None -> console_ok (con st) ss ->
  ss !! Z.to_nat (sb_current (con st)) = Some s ->
  puts s (str "ksh: " ++ text ++ str ": command not found" ++ nl) = Some s' ->
  exists st', handle_command exec (buffer (line text)) st = Ok st' /\ screen_now st ss s' st'.
Proof.
  intros Ht Hv Hn Hok Es Hs. rewrite handle_command_spec by done. unfold run_line. rewrite Hn.
  pose proof Ht as [_ Hl]. pose proof (visible_plain text Hv) as Hp.
  destruct (say_ok (buffer (line text)) (str "ksh: %s: command not found" ++ nl) [Print.Text 0 text]
    (str "ksh: " ++ text ++ str ": command not found" ++ nl) st ss s s' Hok Es) as (st' & E & Hnow & _).
  - by apply (bool_decide_unpack _); vm_compute.
  - apply List.Forall_cons; [| done]. by apply Print.cstr_extend, line_cstr.
  - let f := eval vm_compute in (str "ksh: %s: command not found" ++ nl) in
      change (str "ksh: %s: command not found" ++ nl) with f.
    let l := eval vm_compute in (str "ksh: ") in change (str "ksh: ") with l.
    let r := eval vm_compute in (str ": command not found" ++ nl) in
      change (str ": command not found" ++ nl) with r.
    cbn. by rewrite map_u8_plain.
  - rewrite !zlen_app. change (zlen (str "ksh: ")) with 5.
    change (zlen (str ": command not found")) with 19. change (zlen nl) with 1. lia.
  - apply visible_plain, report_visible, Hv.
  - intros Hin. pose proof (report_visible text Hv) as Hr. rewrite List.Forall_forall in Hr.
    specialize (Hr 8 Hin). unfold visible in Hr. lia.
  - exact Hs.
  - exists st'. split; [exact E | exact Hnow].
Qed.
End properties.

(** The names of the functions. *)
Definition function_name (f : command) : list Z :=
  str (match f with
       | reboot => "reboot" | gdt_print => "gdt_print" | key_us => "key_us"
       | print_stack => "print_stack" | color_red => "color_red" | int_divide => "int_divide"
       | clear => "clear" | help => "help" | alloc => "alloc" | poweroff => "poweroff"
       | free => "free" | buddy_print => "buddy_print" | key_fr => "key_fr"
       | color_reset => "color_reset"
       end).

(** Every function but one sits at the hash of its name; the name of gdt_print is not
    found.  Single letters run commands: "4" reboots, "d" switches off. *)
Theorem names_of_commands :
  (forall f, command_of (function_name f) = if bool_decide (f = gdt_print) then None else Some f) /\
  command_of (str "4") = Some reboot /\ command_of (str "d") = Some poweroff.
Proof. split; [by intros [] |]. split; vm_compute; reflexivity. Qed.

(** ** Witnesses *)

#[local] Existing Instances no_device Session.typist.

(** A shell that waits for its first key. *)
Lemma shell_refines_witness : exists evt (st : machine (list Z)) s,
  shell (fun _ st => Ok st) (fun _ st => Ok st) 2 evt (repeat 7 32) st s /\ s.1.2 = line [].
Proof.
  destruct (Session.ready_machine [0x30; 0x1C]) as (st & Hm & _).
  assert (yields (print_prompt st) (fun _ => True)) as (st1 & Ep & _).
  { pose proof (quiet_refl st (m_good _ _ _ Hm)) as Hq. unfold print_prompt.
    eapply yields_weaken; [say_last; exact I | intros; exact I]. }
  set (evt := Keyboard.mk_event Keyboard.KEY_PRESSED Keyboard.UNKNOWN).
  exists evt, st, (represent_turn (evt, [], st1)). split; [| reflexivity].
  apply (shell_refines (fun _ st => Ok st) (fun _ st => Ok st) 2 evt (repeat 7 32) st
    (represent_turn (evt, [], st1)) eq_refl).
  exists st1, (evt, [], st1). split; [exact Ep |]. split; [constructor |].
  split; [split; [constructor | discriminate] | reflexivity].
Defined.

Lemma reboot_text : text_ok (str "rebo" ++ [111; 116]).
Proof.
  split; [| vm_compute; discriminate].
  let l := eval vm_compute in (str "rebo" ++ [111; 116]) in change (str "rebo" ++ [111; 116]) with l.
  repeat (apply List.Forall_cons; [unfold char_ok; lia |]). constructor.
Qed.

(** "rebopr" reboots. *)
Lemma mistyped_line_runs_command_witness : exists st : machine (list Z),
  handle_command (fun f st => if bool_decide (f = reboot) then Err OutOfFuel else Ok st)
    (buffer (line (str "rebopr"))) st = Err OutOfFuel.
Proof.
  destruct (Session.ready_machine []) as (st & _). exists st.
  exact (proj2 (mistyped_line_runs_command (fun f st => if bool_decide (f = reboot) then Err OutOfFuel else Ok st)
    (str "rebo") 111 116 [] reboot st
    reboot_text
    ltac:(lia) ltac:(lia) ltac:(vm_compute; reflexivity))).
Defined.

End OldShell.
