(* ===== verification/Tests.v ===== *)
(** The test programs of the library: lib/string/test.c and lib/std/test.c.

    They print a line per check; here a run gives the verdicts, with integers of the
    kernel's widths.  The arrays of a test
    function lie behind each other in one memory; [s1], [s2], ... are their addresses. *)

From Stdlib Require Import Ascii String.
From Stdlib Require Import ZArith Lia Bool.
From stdpp Require Import base tactics numbers list option.
From S2P Require Import Prelude Port Mem Str StrTol Screenbuf Console.

Local Open Scope Z_scope.

Module Tests.
Import Console.

(** ** lib/string/test.c *)

(** The two counters. *)
Record counters : Type := mk_counters { test_count : Z; failed_tests : Z }.

Definition ASSERT (x : result bool) (k : counters) : result counters :=
  b ← x; Ok (mk_counters (test_count k + 1) (if b : bool then failed_tests k else failed_tests k + 1)).

(** Comparisons of the results. *)
Definition equals (r : result Z) (v : Z) : result bool := x ← r; Ok (x =? v).
Definition differs (r : result Z) (v : Z) : result bool := x ← r; Ok (negb (x =? v)).
Definition points (r : result (option Z)) (p : option Z) : result bool := x ← r; Ok (bool_decide (x = p)).

Definition test_strlen (k : counters) : result counters :=
  let m := str "hello world" ++ [0] ++ [0] ++ [0] ++ str "0.0" ++ [0] in
  let s1 := 0 in let s2 := 12 in let s3 := 13 in let s4 := 14 in
  k ← ASSERT (equals (Str.strlen m s1) 11) k;
  k ← ASSERT (equals (Str.strlen m s2) 0) k;
  k ← ASSERT (equals (Str.strlen m s3) 0) k;
  ASSERT (equals (Str.strlen m s4) 3) k.

Definition test_strchr (k : counters) : result counters :=
  let m := str "ABBA" ++ [0] in let s1 := 0 in
  k ← ASSERT (points (Str.strchr m s1 65) (Some s1)) k;
  k ← ASSERT (points (Str.strchr m s1 66) (Some (s1 + 1))) k;
  k ← ASSERT (points (Str.strchr m s1 0) (Some (s1 + 4))) k;
  ASSERT (points (Str.strchr m s1 67) None) k.

Definition test_strrchr (k : counters) : result counters :=
  let m := str "ABBA" ++ [0] in let s1 := 0 in
  k ← ASSERT (points (Str.strrchr m s1 65) (Some (s1 + 3))) k;
  k ← ASSERT (points (Str.strrchr m s1 66) (Some (s1 + 2))) k;
  k ← ASSERT (points (Str.strrchr m s1 0) (Some (s1 + 4))) k;
  ASSERT (points (Str.strrchr m s1 67) None) k.

Definition test_strcmp (k : counters) : result counters :=
  let m := [0] ++ [0] ++ replicate 10 0 ++ str "Hey" ++ [0] ++ str "Hey" ++ nl ++ str "How you doing?" ++ [0] ++
           str "Hey" ++ [0; 0] in
  let s1 := 0 in let s2 := 1 in let s3 := 2 in let s4 := 12 in let s5 := 16 in let s6 := 35 in
  k ← ASSERT (equals (Str.strcmp m s1 s1) 0) k;
  k ← ASSERT (equals (Str.strcmp m s2 s2) 0) k;
  k ← ASSERT (equals (Str.strcmp m s3 s3) 0) k;
  k ← ASSERT (equals (Str.strcmp m s4 s4) 0) k;
  k ← ASSERT (equals (Str.strcmp m s5 s5) 0) k;
  k ← ASSERT (equals (Str.strcmp m s6 s6) 0) k;
  k ← ASSERT (equals (Str.strcmp m s1 s2) 0) k;
  k ← ASSERT (equals (Str.strcmp m s1 s3) 0) k;
  k ← ASSERT (equals (Str.strcmp m s2 s1) 0) k;
  k ← ASSERT (equals (Str.strcmp m s2 s3) 0) k;
  k ← ASSERT (equals (Str.strcmp m s3 s1) 0) k;
  k ← ASSERT (equals (Str.strcmp m s3 s2) 0) k;
  k ← ASSERT (differs (Str.strcmp m s4 s5) 0) k;
  k ← ASSERT (differs (Str.strcmp m s4 s5) 0) k;
  ASSERT (differs (Str.strcmp m s5 s1) 0) k.

Definition test_strncmp (k : counters) : result counters :=
  let m := [0] ++ str "Hello" ++ [0] ++ str "Hello world" ++ [0] ++ str "Heppo world" ++ [0] in
  let s1 := 0 in let s2 := 1 in let s3 := 7 in let s4 := 19 in
  k ← ASSERT (equals (Str.strncmp m s1 s2 0) 0) k;
  k ← ASSERT (equals (Str.strncmp m s2 s3 5) 0) k;
  k ← ASSERT (differs (Str.strncmp m s2 s3 6) 0) k;
  k ← ASSERT (equals (Str.strncmp m s3 s4 2) 0) k;
  k ← ASSERT (differs (Str.strncmp m s3 s4 9) 0) k;
  ASSERT (equals (Str.strncmp m s1 s4 0) 0) k.

(** main, less the lines it prints *)
Definition string_main : result counters :=
  k ← test_strlen (mk_counters 0 0);
  k ← test_strchr k;
  k ← test_strrchr k;
  k ← test_strncmp k;
  test_strcmp k.

(** ** lib/std/test.c: the tables and the verdicts of main *)

Definition t_abs : list (Z * Z) :=
  [(1, 1); (23656666, 23656666); (-1457459, 1457459); (-1, 1); (999482, 999482);
   (-123145564, 123145564); (0, 0)].

Definition t_strtol : list (list Z * Z * Z * Z) :=
  [(str "1aze", 1, 97, 10); (str "23656666", 23656666, 0, 10); (str "-1457459", -1457459, 0, 10);
   (str "-1", -1, 0, 10); (str "999482", 999482, 0, 10); (str "-123145564", -123145564, 0, 10);
   (str "0x100", 0, 120, 10); (str "0x10", 16, 0, 16); (str "10", 10, 0, 10); (str "10", 5, 0, 5);
   (str "10", 8, 0, 8); (str "0", 0, 0, 10)].

Definition t_atoi : list (list Z * Z) :=
  [(str "1", 1); (str "23656666", 23656666); (str "-1457459", -1457459); (str "-1", -1);
   (str "999482", 999482); (str "-123145564", -123145564); (str "0", 0)].

Definition run_abs (t : Z * Z) : bool := StrTol.abs t.1 =? t.2.
Definition run_strtol (t : list Z * Z * Z * Z) : result bool :=
  let '(a, b, c, d) := t in
  let m := a ++ [0] in
  '(tmp, ptr) ← StrTol.strtol m 0 d;
  x ← Str.rdc m ptr;
  Ok ((tmp =? b) && (x =? c)).
Definition run_atoi (t : list Z * Z) : result bool :=
  let '(a, b) := t in r ← StrTol.atoi (a ++ [0]) 0; Ok (r =? b).

(** ** Properties *)

(** Of the 33 checks of lib/string/test.c five fail, all of them among the six of
    [strncmp]: at its bound it compares one character too many, or one too few. *)
Theorem string_tests_fail : string_main = Ok (mk_counters 33 5) /\
  test_strncmp (mk_counters 0 0) = Ok (mk_counters 6 5).
Proof. split; vm_compute; reflexivity. Qed.

(** All checks of lib/std/test.c pass. *)
Theorem std_tests_pass : Forall (fun t => run_abs t = true) t_abs /\
  Forall (fun t => run_strtol t = Ok true) t_strtol /\ Forall (fun t => run_atoi t = Ok true) t_atoi.
Proof. split; [| split]; by apply (bool_decide_unpack _); vm_compute. Qed.

End Tests.
